(* ===== verification/_CoqProject ===== *)
-Q . S2P
Prelude.v
PyFloat.v
PyVal.v
PyPath.v
Json.v
JsonOut.v
PyColl.v
World.v
Files.v
JsonRound.v
Process.v
Fixtures.v
RunnerCommon.v
RunnerSpec.v
Evidence.v
S01.v
S01Spec.v
S02.v
S02Spec.v
S03.v
S03Spec.v
Contract.v
ContractSpec.v
S04.v
S04Spec.v
Summarize.v
SummarizeSpec.v
ControlFloor.v
ControlFloorSpec.v
DashboardHtml.v
Dashboard.v
DashboardPage.v
DashboardSpec.v
HeatmapSpec.v
PlotResults.v
PlotResultsSpec.v
PyRe.v
Utf8.v
PyReSpec.v
SectionizeMarkdown.v
VerifyPaperText.v
ExtractPaperText.v
PaperTextSpec.v
PaperPipeline.v
BoundingBoxes.v
BoundingBoxesSpec.v
FormFields.v
FormFieldsSpec.v
FormStructure.v
FormStructureSpec.v
FormAnnotations.v
FormAnnotationsSpec.v
Rounding.v
FormImages.v
FormImagesSpec.v
