(* ===== verification/Prelude.v ===== *)
(** * Programs of dsa-stdexec: verification library

    The repository measures RPC workloads on software and on Intel DSA/IAA
    work queues.  What it claims about them rests on a pipeline of Python
    programs that run a profiling binary, check the JSON reports it leaves, and
    package the comparison.  Other Python programs draw the measurements of the
    hardware evaluation, turn papers into text, and fill PDF forms.  This library
    models these programs, function by function, and proves what their exit codes,
    files and pages mean.

    ** The programs

    The evidence pipeline, under src/accel-rpc:
    - tonic-profile/scripts/claim_package_contract.py: the contract of a claim
      package.  It validates the package's manifest against the two upstream
      workload manifests and plans twelve reports in three families.
    - tonic-profile/scripts/proof_runner_common.py: process helpers.  They start
      a server, wait for its port, run a client, flush and stop the server.
    - tonic-profile/scripts/run_s01_workloads.py, run_s02_evidence.py and
      run_s03_idxd_evidence.py: three runners.  Each validates a workload
      manifest, runs server and client per workload, and validates the reports.
      S02 and S03 use the process helpers, S01 has its own.
    - tonic-profile/scripts/run_s04_claim_package.py: the package runner.  It
      starts the S02 and S03 verifiers and the summarizer as child processes and
      checks their outputs; some hardware failures fall back to fixture reports.
    - tonic-profile/scripts/summarize_s04_claim_package.py: the summarizer.  It
      reads the twelve reports and writes JSON, CSV and Markdown comparisons.
    - async-bench/scripts/export_control_floor.py: the exporter of the
      control-floor summary that the package refers to.

    The hardware evaluation, under src/hw-eval:
    - visualize_interactive.py writes two HTML pages with the traces of all runs;
      their JavaScript shows those that match the selected boxes.
    - plot_results.py draws six graphs of one run with a plotting library.

    Papers, under src/tools/paper-text: extract_paper_text.py writes the pages of
    a PDF as Markdown, sectionize_markdown.py replaces the pages by sections, and
    verify_paper_text.py checks the result.

    Forms, under src/.agents/skills/pdf/scripts: check_bounding_boxes.py checks the
    boxes of a form, extract_form_field_info.py and fill_fillable_fields.py list
    and fill form fields, extract_form_structure.py lists what stands on the pages
    of a form without fields, fill_pdf_form_with_annotations.py writes text on it,
    and convert_pdf_to_images.py, create_validation_image.py and
    check_fillable_fields.py convert pages, draw boxes and look for fields.

    ** The files

    The Python language and the parts of its library the programs use:
    - [Prelude]: results ([result], the exception monad), loops, strings.
    - [PyFloat]: binary64 arithmetic, [repr], fixed-point rendering, the order.
      [Rounding]: how far division and multiplication round up.
    - [PyVal]: JSON values, exceptions, insertion-ordered dictionaries, [==],
      [repr], [int()].   [PyPath]: pathlib.
    - [Json], [JsonOut]: [json.loads] with its error positions, [json.dumps];
      [JsonRound]: that reading undoes writing.
    - [PyColl]: [<], [sorted], [set], dictionaries with keys of any type, division.
    - [World]: the state of a program (files, streams, clock, children) and the
      monad [io] of its statements.  A statement that raises keeps what was done
      before; [print] raises for text with lone surrogates.  [Files]: what writing
      leaves of other files.
    - [Process]: [subprocess], sockets and time over an [environment], a record
      of functions that says how commands, files, ports and the clock behave.
      It is a parameter of every definition that starts or waits for something.
      [Popen] refuses arguments that cannot be encoded or contain a NUL and what
      the environment refuses; [connect_ex] refuses ports out of range and hosts
      the environment has no address for.
    - [PyRe], [PyReSpec]: text as code points, regular expressions with Python's
      backtracking matcher, and their relational semantics.  [Utf8]: encoding.
    - [Fixtures]: the tracked manifests and sample reports as a file system, on
      which the witnesses evaluate the model.

    The programs, one Module each, with definitions named as the functions:
    - [Contract] and [ContractSpec]: claim_package_contract.py.
    - [RunnerCommon] and [RunnerSpec]: proof_runner_common.py.
    - [Evidence]: the checks of manifests and reports that S02 and S03 share.
    - [S01], [S02], [S03], [S04] with their Spec files: the four runners.
    - [Summarize] and [SummarizeSpec]: the summarizer.
    - [ControlFloor] and [ControlFloorSpec]: the exporter.
    - [DashboardHtml], [Dashboard]: the text of the pages and the program that
      writes them; [DashboardPage]: the JavaScript of a page as operations on its
      state, with sessions of clicks and reloads as a step relation;
      [DashboardSpec], [HeatmapSpec]: their theorems.
    - [PlotResults] and [PlotResultsSpec]: the graphs.  A figure is the sequence of
      the calls made on it.
    - [ExtractPaperText], [SectionizeMarkdown], [VerifyPaperText]: the paper tools,
      with [PaperTextSpec] and, for all three together, [PaperPipeline].
    - [BoundingBoxes], [FormFields], [FormStructure], [FormAnnotations] and
      [FormImages] with their Spec files: the form scripts.

    ** What the theorems show

    - Manifests and reports: every [load_manifest], [validate_report] and
      [validate_summary] accepts exactly the documents a declarative predicate
      describes, and raises only the exceptions that are listed.  An accepted
      manifest plans each workload and endpoint once, over distinct files.
    - Processes: waiting for a port ends, within a bound after its deadline, and
      finds a server that accepts connections in time; a pair of server and client
      that succeeds has exit codes 0 on both sides; no child is left running,
      except a server that outlives SIGKILL by more than two seconds; each
      exception that leaves a run has a cause among its inputs.
    - Programs: exit code 0 of S02, S03, S04 and the summarizer implies the
      evidence they stand for in the files they leave behind, down to the bytes of
      the summarizer's outputs.
    - Composition: the plan of the contract makes the summarizer's table
      lookups succeed; what the exporter writes, its validation accepts; the CSV
      file reads back as the rows that were written.
    - Dashboards: every record is drawn once, at its place; in every session a
      click changes the boxes it is about, and the page then shows exactly the
      traces its checked boxes ask for, with one legend per label; a reload
      restores the boxes; every batch record has its cell in a heat map.
    - Graphs: the bars of the strategy comparison are the best rates, the cells of
      the heat maps the last ones, every subplot has a place of its own, and a
      successful run leaves the images of the figures.
    - Papers: what the extractor writes, the sectionizer splits into its pages;
      normalized text keeps its letters; the verifier passes exactly the papers
      with the required headings in which no numbered heading is smaller than the
      one just before it in its chapter.
    - Forms: the box check passes exactly when boxes do not overlap and are high
      enough; the two programs that fill forms open the output file only when every
      entry is in order, and leave in it what the PDF library writes, with each
      text at its field's box in the coordinates of the PDF; rows lie between neighbouring lines; converted pages are within
      the maximal size, although the size is computed with floats.
    - Flaws: what the programs do where they mean something else is shown on
      examples too, among them the KeyError of a label missing upstream, the
      fallback that hides a hardware failure, boxes that do not match what a page
      shows at first, sections and chapters out of order that pass, and check
      boxes without values.

    ** Fuel

    Python loops without a structural measure take fuel that is computed from
    the input and proved to be enough.  [json_loads] starts with twice the
    length of the text plus one, which [Json.json_loads_total] shows to suffice.
    [wait_for_port] polls every 50 ms, so its time-out divided by 50 ms rounds is
    enough ([RunnerSpec.wait_for_port_ends]); S01's loop is treated the same
    way.  [repr] of a float tries at most 17 digits, which always identify a
    double.  A repetition in a pattern may run once for each character that is
    left, which [PyReSpec.match_re_complete] shows to find every match.  The
    components of a field's name are at most as many as its value is deep
    ([FormFieldsSpec.name_components_total]).  A wait without a time-out for a
    child that never exits is the result [OutOfFuel].

    ** Parameters

    Third-party libraries and programs are parameters of the definitions that use
    them: [environment] for children and ports, the PDF and image libraries, the
    plotting library, pdftotext and pdfinfo, and the characters beyond ASCII that
    Unicode counts as letters or digits.  Most theorems hold for all of them; the
    hypotheses of the others state documented behaviour.

    ** Not modelled

    - argparse: a program starts from a record of its parsed arguments.
    - File names that cannot be encoded, outside the directories and arguments of
      the runners.
    - Symbolic links, permissions, file times and concurrent writers other than
      the environment; interpreter limits (recursion depth, 4300-digit integers).
    - run_s04_claim_package.py lines 41-417, [selected_device_path] apart, hold
      copies of the contract's functions, the same text, that lines 833-850 rebind
      to the contract module before [main] runs, or that nothing calls;
      run_s02_evidence.py and run_s03_idxd_evidence.py likewise hold local process
      helpers that nothing calls.  This dead code has no definitions.
    - [monkeypatch_pydpf_method] of fill_fillable_fields.py replaces a method of
      the PDF library, whose behaviour is a parameter.
    - The shell verifiers and the Rust profiling binary are child processes;
      their behaviour is the environment's.
    - src/dsa-stdexec/benchmark/visualize_interactive.py computes with data frames
      of a third-party package throughout.  The C++ library and the Rust crates are
      not Python. *)

From stdpp Require Export base tactics list strings gmap sorting pretty.
From Stdlib Require Export ZArith Lia.

(** ** Results: a value or a raised exception *)

(** A Python call either returns a value or raises. *)
Inductive result (E A : Type) : Type :=
  | Ok (a : A)
  | Err (e : E).
Arguments Ok {E A} a.
Arguments Err {E A} e.

#[export] Instance result_ret {E} : MRet (result E) := λ A a, Ok a.
#[export] Instance result_bind {E} : MBind (result E) :=
  λ A B f m, match m with Ok a => f a | Err e => Err e end.

Definition raise {E A} (e : E) : result E A := Err e.

(** [if b: raise e] *)
Definition raise_if {E} (b : bool) (e : E) : result E unit :=
  if b then Err e else Ok tt.

Definition of_option {E A} (e : E) (o : option A) : result E A :=
  match o with Some a => Ok a | None => Err e end.

Definition is_ok {E A} (m : result E A) : bool :=
  match m with Ok _ => true | Err _ => false end.

(** A [for] loop that threads its accumulator and may raise. *)
Section loops.
Context {M : Type → Type} `{MRet M, MBind M} {A B : Type}.

Fixpoint foldM (f : A → B → M A) (a : A) (l : list B) : M A :=
  match l with
  | [] => mret a
  | x :: l => a' ← f a x; foldM f a' l
  end.
End loops.

Definition iterM `{MRet M, MBind M} {B} (f : B → M unit) (l : list B) : M unit :=
  foldM (λ _ x, f x) tt l.

(** [enumerate(l)] *)
Definition enumerate {A} (l : list A) : list (nat * A) :=
  zip (seq 0 (length l)) l.

(** ** Reasoning about results *)

(** [raises P m]: every exception [m] can end with satisfies [P]. *)
Definition raises {E A} (P : E → Prop) (m : result E A) : Prop :=
  match m with Ok _ => True | Err e => P e end.

Create HintDb raises.

Section result_lemmas.
Context {E : Type}.

Lemma bind_Ok {A B} (m : result E A) (f : A → result E B) b :
  m ≫= f = Ok b ↔ ∃ a, m = Ok a ∧ f a = Ok b.
Proof. destruct m; simpl; naive_solver. Qed.

Lemma bind_run {A B} (m : result E A) (f : A → result E B) a r :
  m = Ok a → f a = r → m ≫= f = r.
Proof. by intros -> <-. Qed.

Lemma bind_Err {A B} (m : result E A) (f : A → result E B) e :
  m ≫= f = Err e ↔ m = Err e ∨ ∃ a, m = Ok a ∧ f a = Err e.
Proof. destruct m; simpl; naive_solver. Qed.

Lemma raise_if_Ok b (e : E) u : raise_if b e = Ok u ↔ b = false.
Proof. destruct b, u; naive_solver. Qed.

Lemma raise_if_negb_Ok (P : Prop) `{!Decision P} (e : E) u :
  raise_if (negb (bool_decide P)) e = Ok u ↔ P.
Proof. rewrite raise_if_Ok, negb_false_iff. apply bool_decide_eq_true. Qed.

Lemma raise_if_decide_Ok (P : Prop) `{!Decision P} (e : E) u :
  raise_if (bool_decide P) e = Ok u ↔ ¬ P.
Proof. rewrite raise_if_Ok. apply bool_decide_eq_false. Qed.

Lemma raise_if_decide_not_Ok (P : Prop) `{!Decision P, !Decision (¬ P)} (e : E) u :
  raise_if (bool_decide (¬ P)) e = Ok u ↔ P.
Proof.
  rewrite raise_if_decide_Ok. split; [apply dec_stable|]. by intros ? [].
Qed.

Lemma raise_if_Err b (e e' : E) : raise_if b e = Err e' ↔ b = true ∧ e = e'.
Proof. destruct b; naive_solver. Qed.

Lemma of_option_Ok {A} (e : E) (o : option A) a :
  of_option e o = Ok a ↔ o = Some a.
Proof. destruct o; naive_solver. Qed.

Lemma is_ok_iff {A} (m : result E A) : is_ok m = true ↔ ∃ a, m = Ok a.
Proof. destruct m; naive_solver. Qed.

Lemma raises_Ok {A} (P : E → Prop) (a : A) : raises P (Ok a).
Proof. done. Qed.

Lemma raises_mret {A} (P : E → Prop) (a : A) : raises P (mret a).
Proof. done. Qed.

Lemma raises_Err {A} (P : E → Prop) e : P e → raises (A:=A) P (Err e).
Proof. done. Qed.

Lemma raises_raise {A} (P : E → Prop) e : P e → raises (A:=A) P (raise e).
Proof. done. Qed.

Lemma raises_raise_if (P : E → Prop) b e :
  (b = true → P e) → raises P (raise_if b e).
Proof. destruct b; simpl; auto. Qed.

Lemma raises_of_option {A} (P : E → Prop) e (o : option A) :
  (o = None → P e) → raises P (of_option e o).
Proof. destruct o; simpl; auto. Qed.

Lemma raises_bind {A B} (P : E → Prop) (m : result E A) (f : A → result E B) :
  raises P m → (∀ a, m = Ok a → raises P (f a)) → raises P (m ≫= f).
Proof. destruct m; simpl; auto. Qed.

Lemma raises_mono {A} (P Q : E → Prop) (m : result E A) :
  (∀ e, P e → Q e) → raises P m → raises Q m.
Proof. destruct m; simpl; auto. Qed.

Lemma raises_elim {A} (P : E → Prop) (m : result E A) e :
  raises P m → m = Err e → P e.
Proof. intros ? ->. done. Qed.
End result_lemmas.

#[export] Hint Resolve raises_Ok raises_mret raises_Err raises_raise
  raises_raise_if raises_of_option : raises.

(** [inv_ok] turns a successful run of monadic code into the facts its guards
    establish. *)
Ltac inv_ok_step :=
  match goal with
  | H : @mbind (result _) _ _ _ _ _ = Ok _ |- _ =>
      apply bind_Ok in H; destruct H as (? & ? & H)
  | H : raise_if (negb (bool_decide _)) _ = Ok _ |- _ => apply (proj1 (raise_if_negb_Ok _ _ _)) in H
  | H : raise_if (bool_decide (¬ _)) _ = Ok _ |- _ => apply (proj1 (raise_if_decide_not_Ok _ _ _)) in H
  | H : raise_if (bool_decide _) _ = Ok _ |- _ => apply (proj1 (raise_if_decide_Ok _ _ _)) in H
  | H : raise_if _ _ = Ok _ |- _ => apply raise_if_Ok in H
  | H : of_option _ _ = Ok _ |- _ => apply of_option_Ok in H
  | H : mret _ = Ok _ |- _ => unfold mret, result_ret in H
  | H : Ok _ = Ok _ |- _ => injection H as H
  | H : Err _ = Ok _ |- _ => discriminate H
  | H : raise _ = Ok _ |- _ => discriminate H
  | u : unit |- _ => destruct u
  end.
Ltac inv_ok := repeat (inv_ok_step; subst).

(** [run_ok] does the converse: it runs monadic code forwards, proving each
    statement's guard from the context; what it cannot prove is left to the
    caller. *)
Ltac run_guard :=
  lazymatch goal with
  | |- raise_if (negb (bool_decide _)) _ = _ => refine (proj2 (raise_if_negb_Ok _ _ tt) _)
  | |- raise_if (bool_decide (¬ _)) _ = _ => refine (proj2 (raise_if_decide_not_Ok _ _ tt) _)
  | |- raise_if (bool_decide _) _ = _ => refine (proj2 (raise_if_decide_Ok _ _ tt) _)
  | |- raise_if _ _ = _ => refine (proj2 (raise_if_Ok _ _ tt) _)
  | |- of_option _ _ = _ => apply of_option_Ok
  end.
Ltac run_ok_with tac :=
  repeat (eapply bind_run; [solve [run_guard; tac | tac]|]; cbv beta iota).

(** ** Loop rules *)

Section foldM_lemmas.
Context {E A B : Type}.
Implicit Types (f : A → B → result E A) (l : list B).

(** The invariant rule of a loop: [P done acc] holds after the elements
    [done] have been processed. *)
Lemma foldM_inv f (P : list B → A → Prop) l a0 a :
  P [] a0 →
  (∀ done x rest acc acc', l = done ++ x :: rest → P done acc →
    f acc x = Ok acc' → P (done ++ [x]) acc') →
  foldM f a0 l = Ok a → P l a.
Proof.
  intros H0 Hstep.
  assert (∀ rest done acc, l = done ++ rest → P done acc →
    foldM f acc rest = Ok a → P l a) as Hgen; [|by apply (Hgen l [])].
  induction rest as [|x rest IH]; intros done acc -> HP Hrun; simpl in Hrun.
  - inv_ok. by rewrite app_nil_r.
  - apply bind_Ok in Hrun as (acc' & Hf & Hrun).
    apply (IH (done ++ [x]) acc'); [by rewrite <-app_assoc| |done].
    by eapply Hstep.
Qed.

Lemma foldM_raises (Q : E → Prop) f l a0 :
  (∀ acc x, x ∈ l → raises Q (f acc x)) → raises Q (foldM f a0 l).
Proof.
  revert a0. induction l as [|x l IH]; intros a0 Hf; simpl; [done|].
  apply raises_bind; [apply Hf; set_solver|].
  intros; apply IH; set_solver.
Qed.

(** Progress rule: a loop whose body never raises under its invariant
    returns. *)
Lemma foldM_total f (P : list B → A → Prop) l a0 :
  P [] a0 →
  (∀ done x rest acc, l = done ++ x :: rest → P done acc →
    ∃ acc', f acc x = Ok acc' ∧ P (done ++ [x]) acc') →
  ∃ a, foldM f a0 l = Ok a ∧ P l a.
Proof.
  intros H0 Hstep.
  assert (∀ rest done acc, l = done ++ rest → P done acc →
    ∃ a, foldM f acc rest = Ok a ∧ P l a) as Hgen; [|by apply (Hgen l [])].
  induction rest as [|x rest IH]; intros done acc -> HP; simpl.
  - exists acc. by rewrite app_nil_r in *.
  - destruct (Hstep done x rest acc) as (acc' & -> & HP'); [done..|]; simpl.
    apply (IH (done ++ [x])); [by rewrite <-app_assoc|done].
Qed.

Lemma foldM_snoc (f : A → B → result E A) a l x : foldM f a (l ++ [x]) = foldM f a l ≫= λ b, f b x.
Proof.
  revert a. induction l as [|y l IH]; intros a; cbn; [by destruct (f a x)|].
  destruct (f a y); [apply IH|done].
Qed.
End foldM_lemmas.

Lemma iterM_Ok {E B} (f : B → result E unit) l :
  iterM f l = Ok tt ↔ Forall (λ x, f x = Ok tt) l.
Proof.
  unfold iterM. induction l as [|x l IH]; simpl.
  - split; [constructor|done].
  - rewrite bind_Ok, Forall_cons, <-IH. split.
    + intros ([] & ? & ?); auto.
    + intros [? ?]. eauto.
Qed.

Lemma iterM_raises {E B} (Q : E → Prop) (f : B → result E unit) l :
  (∀ x, x ∈ l → raises Q (f x)) → raises Q (iterM f l).
Proof. intros. apply foldM_raises; auto. Qed.

Lemma mapM_Ok {E A B} (f : A → result E B) l k :
  mapM f l = Ok k ↔ Forall2 (λ x y, f x = Ok y) l k.
Proof.
  revert k. induction l as [|x l IH]; intros k; simpl.
  - split; [intros; inv_ok; constructor|by inversion 1].
  - rewrite bind_Ok. split.
    + intros (y & Hy & H). apply bind_Ok in H as (k' & Hk & H). inv_ok.
      constructor; [done|]. by apply IH.
    + inversion 1 as [|? y ? k' Hy Hk]; subst. exists y. split; [done|].
      apply bind_Ok. exists k'. split; [by apply IH|done].
Qed.

Lemma mapM_raises {E A B} (Q : E → Prop) (f : A → result E B) l :
  (∀ x, x ∈ l → raises Q (f x)) → raises Q (mapM f l).
Proof.
  induction l as [|x l IH]; intros Hf; simpl; [done|].
  apply raises_bind; [apply Hf; set_solver|]. intros.
  apply raises_bind; [apply IH; set_solver|]. intros. done.
Qed.

(** ** Lists *)

Lemma enumerate_lookup {A} (l : list A) i :
  enumerate l !! i = (λ x, (i, x)) <$> l !! i.
Proof.
  unfold enumerate. rewrite lookup_zip_with.
  destruct (l !! i) as [x|] eqn:Hi; simpl.
  - apply lookup_lt_Some in Hi as ?. by rewrite lookup_seq_lt by done.
  - destruct (seq 0 (length l) !! i); done.
Qed.

Lemma enumerate_elem {A} (l : list A) i x :
  (i, x) ∈ enumerate l ↔ l !! i = Some x.
Proof.
  rewrite list_elem_of_lookup. setoid_rewrite enumerate_lookup. split.
  - intros (j & Hj). destruct (l !! j) eqn:?; naive_solver.
  - intros Hi. exists i. by rewrite Hi.
Qed.

Lemma enumerate_snd {A} (l : list A) : (enumerate l).*2 = l.
Proof. unfold enumerate. apply snd_zip. by rewrite length_seq. Qed.

Lemma enumerate_Forall2 {A B} (P : A → B → Prop) (l : list A) (k : list B) :
  Forall2 (λ p y, P p.2 y) (enumerate l) k ↔ Forall2 P l k.
Proof. rewrite <-(enumerate_snd l) at 2. by rewrite Forall2_fmap_l. Qed.

Lemma enumerate_Forall2_r {A B} (P : B → A → Prop) (k : list B) (l : list A) :
  Forall2 (λ y p, P y p.2) k (enumerate l) ↔ Forall2 P k l.
Proof. rewrite <-(enumerate_snd l) at 2. by rewrite Forall2_fmap_r. Qed.

Lemma Forall2_elem_l {A B} (R : A → B → Prop) l k x :
  Forall2 R l k → x ∈ l → ∃ y, y ∈ k ∧ R x y.
Proof.
  intros H (i & Hi)%list_elem_of_lookup. eapply Forall2_lookup_l in H as (y & ? & ?); [|done].
  exists y. split; [by eapply list_elem_of_lookup_2|done].
Qed.

(** Adding the head of a list to a set before its tail. *)
Lemma list_to_set_push `{Countable A} (x : A) (l : list A) (X : gset A) :
  list_to_set l ∪ ({[x]} ∪ X) = list_to_set (x :: l) ∪ X.
Proof. set_solver. Qed.

Lemma list_to_set_push_app `{Countable A} (l k : list A) (X : gset A) :
  list_to_set k ∪ (list_to_set l ∪ X) = list_to_set (l ++ k) ∪ X.
Proof. set_solver. Qed.

(** A list with more than one distinct element has two that differ. *)
Lemma size_list_to_set_gt_1 `{Countable A} (l : list A) :
  ¬ (size (list_to_set l : gset A) ≤ 1)%nat → ∃ x y, x ∈ l ∧ y ∈ l ∧ x ≠ y.
Proof.
  intros Hs. destruct l as [|x l]; [by destruct Hs; vm_compute; lia|].
  destruct (decide (Forall (λ y, y = x) l)) as [Hall|Hex].
  - destruct Hs. transitivity (size ({[x]} : gset A)); [|by rewrite size_singleton].
    apply subseteq_size. rewrite Forall_forall in Hall. set_solver.
  - apply not_Forall_Exists, Exists_exists in Hex as (y & Hy & Hne); [|apply _].
    exists x, y. set_solver.
Qed.

(** [fresh X l]: the elements of [l] are distinct and none of them is in [X];
    what a loop with a [seen] set checks. *)
Definition fresh `{Countable A} (X : gset A) (l : list A) : Prop :=
  NoDup l ∧ Forall (λ x, x ∉ X) l.

Section fresh.
Context `{Countable A}.
Implicit Types (X : gset A) (l : list A).

Lemma fresh_nil X : fresh X [].
Proof. split; constructor. Qed.

Lemma fresh_cons X x l : fresh X (x :: l) ↔ (x ∉ X) ∧ fresh ({[x]} ∪ X) l.
Proof.
  unfold fresh. rewrite NoDup_cons, Forall_cons, !Forall_forall.
  setoid_rewrite not_elem_of_union. setoid_rewrite not_elem_of_singleton.
  naive_solver.
Qed.

Lemma fresh_app X l k : fresh X (l ++ k) ↔ fresh X l ∧ fresh (list_to_set l ∪ X) k.
Proof.
  revert X. induction l as [|x l IH]; intros X; simpl.
  - rewrite (left_id_L ∅ (∪)). naive_solver eauto using fresh_nil.
  - rewrite !fresh_cons, IH, list_to_set_push. by rewrite assoc by apply _.
Qed.

Lemma fresh_NoDup X l : fresh X l → NoDup l.
Proof. by intros [? _]. Qed.

Lemma fresh_empty l : fresh ∅ l ↔ NoDup l.
Proof. unfold fresh. rewrite Forall_forall. set_solver. Qed.
End fresh.

(** ** Strings *)

(** [sep.join(l)] *)
Fixpoint join (sep : string) (l : list string) : string :=
  match l with
  | [] => ""
  | [x] => x
  | x :: l => x +:+ sep +:+ join sep l
  end.

(** An f-string: the concatenation of its fragments. *)
Definition cat (l : list string) : string := foldr String.app "" l.

(** [s.startswith(p)] *)
Fixpoint startswith (p s : string) : bool :=
  match p, s with
  | "", _ => true
  | String a p, String b s => bool_decide (a = b) && startswith p s
  | _, _ => false
  end.

(** [s.removeprefix(p)] *)
Fixpoint drop_str (n : nat) (s : string) : string :=
  match n, s with
  | S n, String _ s => drop_str n s
  | _, _ => s
  end.
Definition removeprefix (p s : string) : string :=
  if startswith p s then drop_str (String.length p) s else s.

(** [sub in s] *)
Fixpoint str_in (sub s : string) : bool :=
  startswith sub s ||
  match s with "" => false | String _ s => str_in sub s end.

(** [s.endswith(p)] *)
Definition endswith (p s : string) : bool :=
  startswith (String.rev p) (String.rev s).

(** [sorted(s)] of a set or a list of strings: code-point order is the byte
    order of the UTF-8 encoding. *)
Definition sorted_strings (l : list string) : list string :=
  merge_sort String.le l.

Lemma app_cons_str c s t : String c s +:+ t = String c (s +:+ t).
Proof. done. Qed.

Lemma app_nil_l_str s : "" +:+ s = s.
Proof. done. Qed.

Lemma app_nil_r_str s : s +:+ "" = s.
Proof. induction s as [|c s IH]; [done|]. by rewrite app_cons_str, IH. Qed.

Lemma app_assoc_str s1 s2 s3 : (s1 +:+ s2) +:+ s3 = s1 +:+ s2 +:+ s3.
Proof. induction s1 as [|c s1 IH]; [done|]. by rewrite !app_cons_str, IH. Qed.

Lemma startswith_spec p s : startswith p s = true ↔ ∃ t, s = p +:+ t.
Proof.
  revert s. induction p as [|a p IH]; intros s; simpl.
  - split; [|done]. intros _. by exists s.
  - destruct s as [|b s]; [split; [done|by intros [? ?]]|].
    rewrite andb_true_iff, bool_decide_eq_true, IH. split.
    + intros [-> [t ->]]. by exists t.
    + intros [t Ht]. rewrite app_cons_str in Ht. injection Ht as -> ->. eauto.
Qed.

Lemma drop_str_app p s : drop_str (String.length p) (p +:+ s) = s.
Proof. induction p as [|a p IH]; [by destruct s|]. done. Qed.

Lemma removeprefix_app p s : removeprefix p (p +:+ s) = s.
Proof.
  unfold removeprefix. rewrite drop_str_app.
  by rewrite (proj2 (startswith_spec p (p +:+ s))) by eauto.
Qed.

Lemma str_in_spec sub s : str_in sub s = true ↔ ∃ a b, s = a +:+ sub +:+ b.
Proof.
  induction s as [|c s IH]; simpl; rewrite orb_true_iff, startswith_spec.
  - split.
    + intros [[t Ht]|]; [|done]. exists "", t. done.
    + intros (a & b & Hs). destruct a; [|done]. left. by exists b.
  - rewrite IH. split.
    + intros [[t Ht]|(a & b & ->)]; [by exists "", t|by exists (String c a), b].
    + intros (a & b & Hs). destruct a as [|c' a]; [left; by exists b|].
      rewrite app_cons_str in Hs. injection Hs as -> ->. eauto.
Qed.

Lemma str_in_app_l sub s t : str_in sub s = true → str_in sub (s +:+ t) = true.
Proof.
  rewrite !str_in_spec. intros (a & b & ->). exists a, (b +:+ t). by rewrite !app_assoc_str.
Qed.

Lemma str_in_app_r sub s t : str_in sub t = true → str_in sub (s +:+ t) = true.
Proof.
  rewrite !str_in_spec. intros (a & b & ->). exists (s +:+ a), b. by rewrite !app_assoc_str.
Qed.

Lemma sorted_strings_Permutation l : sorted_strings l ≡ₚ l.
Proof. apply merge_sort_Permutation. Qed.

(** Two lists sort to the same list exactly when one permutes the other. *)
Lemma sorted_strings_eq l k : sorted_strings l = sorted_strings k ↔ l ≡ₚ k.
Proof.
  split; intros H.
  - rewrite <-(sorted_strings_Permutation l), H. apply sorted_strings_Permutation.
  - apply (StronglySorted_unique String.le).
    + apply StronglySorted_merge_sort; apply _.
    + apply StronglySorted_merge_sort; apply _.
    + by rewrite !sorted_strings_Permutation.
Qed.

Lemma sorted_strings_nil l : sorted_strings l = [] ↔ l = [].
Proof.
  split; [|by intros ->]. intros H. apply Permutation_nil_r.
  by rewrite <-(sorted_strings_Permutation l), H.
Qed.
