(* ===== verification/PyFloat.v ===== *)
(** * Python floats

    IEEE-754 binary64 values as the Standard Library's [spec_float] at
    precision 53 and maximal exponent 1024: the arithmetic the scripts use,
    the conversions [float(int)], [int(float)] and decimal-to-double, and the
    two renderings they print with: [f"{x:.{n}f}"] and [repr(x)].  Everything is
    computed on exact integers, rounding half to even as CPython does. *)

From Stdlib Require Import SpecFloat.
From S2P Require Import Prelude.

Local Open Scope Z_scope.

Abbreviation float := spec_float.

Definition f_add : float → float → float := SFadd 53 1024.
Definition f_sub : float → float → float := SFsub 53 1024.
Definition f_mul : float → float → float := SFmul 53 1024.
Definition f_div : float → float → float := SFdiv 53 1024.
Definition f_zero : float := S754_zero false.

(** [x == y] and [x < y] on floats; NaN compares false with everything. *)
Definition f_eqb : float → float → bool := SFeqb.
Definition f_ltb : float → float → bool := SFltb.

(** The double nearest to [m * 2^e]. *)
Definition f_normalize (m e : Z) : float := binary_normalize 53 1024 m e false.

(** [float(z)]: [None] is CPython's OverflowError. *)
Definition f_of_Z (z : Z) : option float :=
  match f_normalize z 0 with
  | S754_infinity _ => None
  | f => Some f
  end.

(** The double nearest to [(-1)^s * m * 10^e], as [float("...")] rounds. *)
Definition f_of_decimal (s : bool) (m : Z) (e : Z) : float :=
  match m with
  | Zpos _ =>
      if 0 <=? e then
        (if s then SFopp else id) (f_normalize (m * 10 ^ e) 0)
      else
        let '(q, e', l) := SFdiv_core_binary 53 1024 m 0 (10 ^ (- e)) 0 in
        binary_round_aux 53 1024 s q e' l
  | _ => S754_zero s
  end.

(** Exact comparison of an integer with a float, as [int == float] does. *)
Definition cmp_Z_float (z : Z) (f : float) : option comparison :=
  match f with
  | S754_nan => None
  | S754_zero _ => Some (Z.compare z 0)
  | S754_infinity s => Some (if s then Gt else Lt)
  | S754_finite s m e =>
      let n := if s then Zneg m else Zpos m in
      Some (if 0 <=? e then Z.compare z (n * 2 ^ e)
            else Z.compare (z * 2 ^ (- e)) n)
  end.

(** [int(f)] for a finite [f]: truncation toward zero. *)
Definition f_trunc (f : float) : option Z :=
  match f with
  | S754_zero _ => Some 0
  | S754_finite s m e =>
      let q := if 0 <=? e then Zpos m * 2 ^ e else Zpos m / 2 ^ (- e) in
      Some (if s then - q else q)
  | _ => None
  end.

(** ** Decimal renderings *)

(** [n / d] rounded half to even, for [n >= 0] and [d > 0]. *)
Definition div_half_even (n d : Z) : Z :=
  let q := n / d in
  match Z.compare (2 * (n mod d)) d with
  | Lt => q
  | Gt => q + 1
  | Eq => if Z.even q then q else q + 1
  end.

(** [m * 2^e * 10^k] rounded half to even. *)
Definition scale_round (m e k : Z) : Z :=
  div_half_even (m * 2 ^ Z.max e 0 * 10 ^ Z.max k 0)
                (2 ^ Z.max (- e) 0 * 10 ^ Z.max (- k) 0).

Definition digits (n : Z) : string := pretty (Z.to_N n).

Fixpoint zeros (n : nat) : string :=
  match n with O => "" | S n => "0" +:+ zeros n end.

Definition zero_pad (width : nat) (s : string) : string :=
  zeros (width - String.length s) +:+ s.

Fixpoint take_str (n : nat) (s : string) : string :=
  match n, s with
  | S n, String c s => String c (take_str n s)
  | _, _ => ""
  end.

(** Put a decimal point before the last [k] digits of [ds]. *)
Definition with_point (k : nat) (ds : string) : string :=
  let ds := zero_pad (S k) ds in
  let n := (String.length ds - k)%nat in
  match k with
  | O => ds
  | _ => take_str n ds +:+ "." +:+ drop_str n ds
  end.

Definition sign_str (s : bool) : string := if s then "-" else "".

(** [f"{f:.{k}f}"] *)
Definition format_fixed (k : nat) (f : float) : string :=
  match f with
  | S754_nan => "nan"
  | S754_infinity s => sign_str s +:+ "inf"
  | S754_zero s => sign_str s +:+ with_point k "0"
  | S754_finite s m e =>
      sign_str s +:+ with_point k (digits (scale_round (Zpos m) e (Z.of_nat k)))
  end.

(** [m * 2^e < 10^p] *)
Definition lt_pow10 (m e p : Z) : bool :=
  m * 2 ^ Z.max e 0 * 10 ^ Z.max (- p) 0
    <? 10 ^ Z.max p 0 * 2 ^ Z.max (- e) 0.

(** The [p] with [10^p <= m * 2^e < 10^(p+1)]. *)
Definition dec_exponent (m : positive) (e : Z) : Z :=
  let est := ((Zpos (digits2_pos m) + e - 1) * 30103) / 100000 in
  if lt_pow10 (Zpos m) e est then est - 1
  else if lt_pow10 (Zpos m) e (est + 1) then est else est + 1.

(** Do the [n] digits [d], scaled to leading exponent [p], read back as
    [m * 2^e]? *)
Definition reads_back (n d p : Z) (m : positive) (e : Z) : bool :=
  SFeqb (f_of_decimal false d (p - (n - 1))) (S754_finite false m e).

(** The digits and the exponent of the shortest decimal that reads back as the
    same double: [fuel] more precisions are tried after [n] digits.  The nearest
    [n]-digit decimal is tried before its neighbours, which matter only next to
    a power of two, where the doubles are unevenly spaced. *)
Fixpoint shortest (fuel : nat) (n : Z) (m : positive) (e p : Z) : Z * Z :=
  let d := scale_round (Zpos m) e (n - 1 - p) in
  let '(d, p') := if 10 ^ n <=? d then (d / 10, p + 1) else (d, p) in
  match fuel with
  | O => (d, p')
  | S fuel =>
      if reads_back n d p' m e then (d, p')
      else if reads_back n (d + 1) p' m e then (d + 1, p')
      else if reads_back n (d - 1) p' m e then (d - 1, p')
      else shortest fuel (n + 1) m e p
  end.

Definition repr_exponent (p : Z) : string :=
  (if p <? 0 then "e-" else "e+") +:+ zero_pad 2 (digits (Z.abs p)).

Definition repr_digits (d p : Z) : string :=
  let ds := digits d in
  let n := Z.of_nat (String.length ds) in
  if (-4 <=? p) && (p <? 16) then
    if p <? 0 then "0." +:+ zeros (Z.to_nat (- p - 1)) +:+ ds
    else if n - 1 <=? p then ds +:+ zeros (Z.to_nat (p - (n - 1))) +:+ ".0"
    else with_point (Z.to_nat (n - 1 - p)) ds
  else
    (if n =? 1 then ds else with_point (Z.to_nat (n - 1)) ds) +:+ repr_exponent p.

(** [repr(f)] *)
Definition f_repr (f : float) : string :=
  match f with
  | S754_nan => "nan"
  | S754_infinity s => sign_str s +:+ "inf"
  | S754_zero s => sign_str s +:+ "0.0"
  | S754_finite s m e =>
      let '(d, p) := shortest 16 1 m e (dec_exponent m e) in
      sign_str s +:+ repr_digits d p
  end.

(** ** Integers of 53 bits are exact *)

Lemma digits2_shift k m : digits2_pos (shift_pos k m) = (digits2_pos m + k)%positive.
Proof.
  unfold shift_pos. induction k as [|k IH] using Pos.peano_ind.
  - simpl. lia.
  - rewrite Pos.iter_succ. cbn [digits2_pos]. rewrite IH. lia.
Qed.

(** The mantissa of 53 digits and the exponent of an integer *)
Definition int_mantissa (m : positive) : positive :=
  match (53 - Zpos (digits2_pos m))%Z with Zpos k => shift_pos k m | _ => m end.

Lemma shr_exact m e :
  Zpos (digits2_pos m) = 53 → -1074 ≤ e →
  shr_fexp 53 1024 (Zpos m) e loc_Exact = (shr_record_of_loc (Zpos m) loc_Exact, e).
Proof.
  intros Hd He. unfold shr_fexp, fexp, SpecFloat.emin. cbn [Zdigits2]. rewrite Hd.
  replace (Z.max (53 + e - 53) (3 - 1024 - 53) - e) with 0 by lia. done.
Qed.

Lemma round_exact sx m e :
  Zpos (digits2_pos m) = 53 → -1074 ≤ e ≤ 0 →
  binary_round_aux 53 1024 sx (Zpos m) e loc_Exact = S754_finite sx m e.
Proof.
  intros Hd He. unfold binary_round_aux. rewrite shr_exact by lia.
  cbn [shr_record_of_loc shr_m loc_of_shr_record shr_r shr_s round_nearest_even].
  rewrite shr_exact by lia. cbn [shr_record_of_loc shr_m].
  by rewrite (proj2 (Z.leb_le _ _)) by lia.
Qed.

Lemma f_normalize_pos (sx : bool) m :
  Zpos (digits2_pos m) ≤ 53 →
  binary_round 53 1024 sx m 0 = S754_finite sx (int_mantissa m) (Zpos (digits2_pos m) - 53).
Proof.
  intros Hd. unfold binary_round, shl_align, fexp, SpecFloat.emin, int_mantissa.
  replace (Z.max (Z.pos (digits2_pos m) + 0 - 53) (3 - 1024 - 53) - 0)
    with (- (53 - Zpos (digits2_pos m))) by lia.
  destruct (53 - Z.pos (digits2_pos m)) as [|k|k] eqn:Hk; [| |lia].
  - change (- 0) with 0. cbv beta iota. rewrite round_exact by lia. f_equal. lia.
  - change (- Z.pos k) with (Z.neg k). cbv beta iota. change (Pos.iter xO m k) with (shift_pos k m). rewrite round_exact; [f_equal; lia| |lia].
    rewrite digits2_shift. lia.
Qed.

Lemma shift_pos_inj k m n : shift_pos k m = shift_pos k n → m = n.
Proof.
  unfold shift_pos. induction k as [|k IH] using Pos.peano_ind; [by intros [= ->]|].
  rewrite !Pos.iter_succ. intros [= H]. auto.
Qed.

Lemma digits2_bound m : Zpos m < 2 ^ 53 → Zpos (digits2_pos m) ≤ 53.
Proof.
  assert (∀ m, 2 ^ (Zpos (digits2_pos m) - 1) ≤ Zpos m) as Hlow.
  { clear. induction m as [m IH|m IH|]; cbn [digits2_pos]; [| |done];
      rewrite Pos2Z.inj_succ; replace (Z.succ (Zpos (digits2_pos m)) - 1)
        with (Z.succ (Zpos (digits2_pos m) - 1)) by lia; rewrite Z.pow_succ_r by lia; lia. }
  intros Hm. specialize (Hlow m). destruct (Z_le_gt_dec (Zpos (digits2_pos m)) 53); [done|].
  assert (2 ^ 53 ≤ 2 ^ (Zpos (digits2_pos m) - 1)) by (apply Z.pow_le_mono_r; lia). lia.
Qed.

Lemma f_eqb_finite s m e t n f :
  f_eqb (S754_finite s m e) (S754_finite t n f) = true ↔ s = t ∧ e = f ∧ m = n.
Proof.
  unfold f_eqb, SFeqb, SFcompare. destruct s, t; try (split; [done|naive_solver]);
    destruct (Z.compare_spec e f); try (split; [done|intros (_ & ? & _); lia]);
    change (Pos.compare_cont Eq m n) with (Pos.compare m n);
    destruct (Pos.compare_spec m n); cbn; split; try done; intros (_ & _ & ?); lia.
Qed.

(** Integers below 2^53 are equal as doubles only when they are equal. *)
Lemma f_normalize_eqb x y :
  Z.abs x < 2 ^ 53 → Z.abs y < 2 ^ 53 → f_eqb (f_normalize x 0) (f_normalize y 0) = (x =? y).
Proof.
  intros Hx Hy. apply eq_bool_prop_intro. rewrite !Is_true_true, Z.eqb_eq. unfold f_normalize, binary_normalize.
  assert (∀ s t m n, Zpos m < 2 ^ 53 → Zpos n < 2 ^ 53 →
    f_eqb (binary_round 53 1024 s m 0) (binary_round 53 1024 t n 0) = true ↔ s = t ∧ m = n) as Hfin.
  { intros s t m n Hm Hn. rewrite !f_normalize_pos, f_eqb_finite by (by apply digits2_bound).
    split; [|by intros [-> ->]]. intros (-> & He & Hman). split; [done|].
    unfold int_mantissa in Hman. replace (Zpos (digits2_pos n)) with (Zpos (digits2_pos m)) in Hman by lia.
    destruct (53 - _); [done|by apply shift_pos_inj in Hman|done]. }
  destruct x as [|m|m], y as [|n|n]; try (rewrite Hfin by lia; naive_solver);
    rewrite ?f_normalize_pos by (apply digits2_bound; lia); done.
Qed.

(** ** Checks against known renderings *)

Example repr_tenth : f_repr (f_of_decimal false 1 (-1)) = "0.1".
Proof. vm_compute. reflexivity. Qed.

Example repr_sum :
  f_repr (f_add (f_of_decimal false 1 (-1)) (f_of_decimal false 2 (-1)))
  = "0.30000000000000004".
Proof. vm_compute. reflexivity. Qed.

Example repr_large : f_repr (f_of_decimal true 123456789 15) = "-1.23456789e+23".
Proof. vm_compute. reflexivity. Qed.

Example fixed_half_even : format_fixed 0 (f_of_decimal false 25 (-1)) = "2".
Proof. vm_compute. reflexivity. Qed.

Example fixed_three : format_fixed 3 (f_of_decimal true 12345678 (-4)) = "-1234.568".
Proof. vm_compute. reflexivity. Qed.

(** ** The order of floats *)

Definition is_nan (f : float) : bool := match f with S754_nan => true | _ => false end.

Ltac float_order :=
  unfold f_ltb, SFltb; intros;
  repeat match goal with f : float |- _ => destruct f as [[]|[]| |[] ? ?] end; cbn in *; try done;
  repeat match goal with
  | |- context [Z.compare ?a ?b] => destruct (Z.compare_spec a b)
  | H : context [Z.compare ?a ?b] |- _ => destruct (Z.compare_spec a b)
  | |- context [Pos.compare_cont Eq ?a ?b] =>
      change (Pos.compare_cont Eq a b) with (Pos.compare a b); destruct (Pos.compare_spec a b)
  | H : context [Pos.compare_cont Eq ?a ?b] |- _ =>
      change (Pos.compare_cont Eq a b) with (Pos.compare a b) in H; destruct (Pos.compare_spec a b)
  end; cbn in *; subst; try done; try lia; auto.

Lemma f_ltb_trans a b c : f_ltb a b = true → f_ltb b c = true → f_ltb a c = true.
Proof. float_order. Qed.

Lemma f_ltb_split a b c :
  is_nan b = false → f_ltb a c = true → f_ltb a b = true ∨ f_ltb b c = true.
Proof. float_order. Qed.

Lemma f_ltb_irrefl a : f_ltb a a = false.
Proof. float_order. Qed.

Lemma f_ltb_not_nan a b : f_ltb a b = true → is_nan b = false.
Proof. float_order. Qed.

Lemma f_ltb_total a b : is_nan a = false → is_nan b = false → f_ltb a b = true ∨ f_eqb a b = true ∨ f_ltb b a = true.
Proof. unfold f_eqb, SFeqb. float_order. Qed.

Lemma f_eqb_sym a b : f_eqb a b = f_eqb b a.
Proof. unfold f_eqb, SFeqb. float_order. Qed.
