(* ===== verification/PyVal.v ===== *)
(** * Python values, exceptions and dictionaries

    The values [json.loads] produces, with the operations the scripts apply to
    them: [dict.get], item assignment and [dict.update] on insertion-ordered
    dictionaries, [isinstance], truth value, [==] (which identifies [True], [1]
    and [1.0]), [int()], [str()] and [repr()].  Strings are the UTF-8 bytes of
    the Python string; [repr] keeps every non-ASCII character, and [int()] of a
    string reads ASCII digits. *)

From Stdlib Require Import Ascii SpecFloat.
From S2P Require Import Prelude PyFloat.

Local Open Scope Z_scope.

(** ** Values *)

Inductive json : Type :=
  | JNull
  | JBool (b : bool)
  | JInt (z : Z)
  | JFloat (f : float)
  | JStr (s : string)
  | JArr (l : list json)
  | JObj (d : list (string * json)).

(** Insertion-ordered dictionaries with string keys. *)
Abbreviation dict V := (list (string * V)).

(** ** Exceptions *)

(** The exception classes of the scripts, and the built-in ones their code can
    run into. *)
Inductive exn : Type :=
  | ManifestError (msg : string)
  | RunError (msg : string)
  | SummaryError (msg : string)
  | ExportError (msg : string)
  | KeyError (key : string)
  | TypeError (msg : string)
  | AttributeError (msg : string)
  | ValueError (msg : string)
  | OverflowError (msg : string)
  | IndexError (msg : string)
  | ZeroDivisionError (msg : string)
  | OSError (msg : string)
  | UnicodeDecodeError
  | JSONDecodeError (msg : string)
  | TimeoutExpired
  | RuntimeError (msg : string)
  | CalledProcessError
  | SystemExit (msg : string)
  | StopIteration
  | OutOfFuel.

Abbreviation exc := (result exn).

Definition is_ManifestError (e : exn) : Prop := ∃ m, e = ManifestError m.
Definition is_RunError (e : exn) : Prop := ∃ m, e = RunError m.
Definition is_KeyError (e : exn) : Prop := ∃ k, e = KeyError k.

Lemma is_ManifestError_intro m : is_ManifestError (ManifestError m).
Proof. by exists m. Qed.
Lemma is_RunError_intro m : is_RunError (RunError m).
Proof. by exists m. Qed.
#[export] Hint Resolve is_ManifestError_intro is_RunError_intro : raises.

(** [raises_tac] walks through monadic code, one exception obligation per
    guard; obligations the [raises] hints do not solve are left. *)
Ltac raises_step :=
  match goal with
  | |- raises _ (mbind _ _) => apply raises_bind; [|intros ? ?]
  | |- raises _ (mapM _ _) => apply mapM_raises; intros ? ?
  | |- raises _ (foldM _ _ _) => apply foldM_raises; intros ? ? ?
  | |- raises _ (let '(_, _) := ?x in _) => destruct x
  | |- raises _ (match ?x with (_, _) => _ end) => destruct x
  | |- raises _ _ => solve [eauto with raises]
  end.
Ltac raises_tac := repeat raises_step.

(** ** Dictionaries *)

Section dictionaries.
Context {V : Type}.
Implicit Types (d e : dict V) (k : string) (v : V).

(** [d.get(k)]; [k in d] is [is_Some]. *)
Fixpoint dget k d : option V :=
  match d with
  | [] => None
  | (k', v) :: d => if bool_decide (k = k') then Some v else dget k d
  end.

Definition din k d : bool := match dget k d with Some _ => true | None => false end.

(** [d[k]] *)
Definition ditem k d : exc V := of_option (KeyError k) (dget k d).

(** [d[k] = v]: overwrite in place, or append. *)
Fixpoint dset k v d : dict V :=
  match d with
  | [] => [(k, v)]
  | (k', v') :: d =>
      if bool_decide (k = k') then (k, v) :: d else (k', v') :: dset k v d
  end.

(** [d.update(e)] *)
Definition dupdate d e : dict V := foldl (λ d '(k, v), dset k v d) d e.

Lemma dget_dset k k' v d :
  dget k (dset k' v d) = if bool_decide (k = k') then Some v else dget k d.
Proof.
  induction d as [|[k'' v''] d IH]; simpl.
  - done.
  - repeat (case_bool_decide; simplify_eq/=); done.
Qed.

Lemma dget_dset_eq k v d : dget k (dset k v d) = Some v.
Proof. rewrite dget_dset. by rewrite bool_decide_true. Qed.

Lemma dget_dset_ne k k' v d : k ≠ k' → dget k (dset k' v d) = dget k d.
Proof. intros. rewrite dget_dset. by rewrite bool_decide_false. Qed.

Lemma dget_elem k v d : dget k d = Some v → (k, v) ∈ d.
Proof.
  induction d as [|[k' v'] d IH]; simpl; [done|].
  case_bool_decide; [intros; simplify_eq; set_solver|set_solver].
Qed.

Lemma dget_None k d : dget k d = None ↔ k ∉ d.*1.
Proof.
  induction d as [|[k' v'] d IH]; simpl; [set_solver|].
  case_bool_decide; [set_solver|]. rewrite IH. set_solver.
Qed.

Lemma elem_dget k v d : NoDup d.*1 → (k, v) ∈ d → dget k d = Some v.
Proof.
  induction d as [|[k' v'] d IH]; simpl; [set_solver|].
  rewrite NoDup_cons. intros [Hk Hnd] [?|?]%elem_of_cons; simplify_eq.
  - by rewrite bool_decide_true.
  - rewrite bool_decide_false; [auto|]. intros ->. apply Hk.
    apply list_elem_of_fmap. by exists (k', v).
Qed.

Lemma dset_keys k v d : (dset k v d).*1 = if din k d then d.*1 else d.*1 ++ [k].
Proof.
  unfold din. induction d as [|[k' v'] d IH]; simpl; [done|].
  case_bool_decide; simplify_eq/=; [done|]. rewrite IH. by case_match.
Qed.

Lemma dset_NoDup k v d : NoDup d.*1 → NoDup (dset k v d).*1.
Proof.
  intros Hd. rewrite dset_keys. unfold din. destruct (dget k d) eqn:Hk; [done|].
  apply dget_None in Hk. apply NoDup_app. split_and!; [done| |apply NoDup_singleton].
  set_solver.
Qed.

Lemma dset_fresh k v d : dget k d = None → dset k v d = d ++ [(k, v)].
Proof.
  induction d as [|[k' v'] d IH]; simpl; [done|].
  case_bool_decide; [done|]. intros. by rewrite IH.
Qed.

(** After [d.update(e)] a key of [e] has [e]'s value and the others keep
    theirs. *)
Lemma dget_dupdate k d e :
  NoDup e.*1 →
  dget k (dupdate d e) = match dget k e with Some v => Some v | None => dget k d end.
Proof.
  unfold dupdate. revert d. induction e as [|[k' v'] e IH]; intros d; simpl; [done|].
  rewrite NoDup_cons. intros [Hk' He]. rewrite IH by done. rewrite dget_dset.
  case_bool_decide; simplify_eq.
  - apply dget_None in Hk'. by rewrite Hk'.
  - done.
Qed.

(** A loop that reads an item from each element and assigns it. *)
Lemma foldM_dset {X} (f : dict V → X → exc (dict V)) (R : string * V → X → Prop) l d d' :
  (∀ d x d', f d x = Ok d' ↔ ∃ kv, R kv x ∧ d' = dset kv.1 kv.2 d) →
  foldM f d l = Ok d' ↔ ∃ es : dict V, Forall2 R es l ∧ d' = dupdate d es.
Proof.
  intros Hf. revert d. induction l as [|x l IH]; intros d; simpl.
  - split; [intros; inv_ok; by exists []|]. intros (es & H & ->). by inversion H.
  - rewrite bind_Ok. split.
    + intros (d1 & (e & He & ->)%Hf & (es & Hes & ->)%IH).
      exists (e :: es). split; [by constructor|]. by destruct e.
    + intros (es & H & ->). inversion H as [|e ? es' ? He Hes]; subst.
      eexists. split; [by apply Hf; exists e|]. apply IH. exists es'. by destruct e.
Qed.

Lemma foldM_dset_enumerate {X} (f : dict V → nat * X → exc (dict V))
    (R : string * V → X → Prop) l d d' :
  (∀ d i x d', f d (i, x) = Ok d' ↔ ∃ kv, R kv x ∧ d' = dset kv.1 kv.2 d) →
  foldM f d (enumerate l) = Ok d' ↔ ∃ es : dict V, Forall2 R es l ∧ d' = dupdate d es.
Proof.
  intros Hf. rewrite (foldM_dset _ (λ kv p, R kv p.2)) by (intros ? []; apply Hf).
  by setoid_rewrite (enumerate_Forall2_r R).
Qed.

Lemma dset_Forall (P : string * V → Prop) k v d : P (k, v) → Forall P d → Forall P (dset k v d).
Proof.
  intros Hkv. induction 1 as [|[k' v'] d ? ? IH]; simpl; [by constructor|].
  case_bool_decide; by constructor.
Qed.

Lemma dupdate_Forall (P : string * V → Prop) d e :
  Forall P d → Forall P e → Forall P (dupdate d e).
Proof.
  unfold dupdate. intros Hd He. revert d Hd.
  induction He as [|[k v] e ? ? IH]; intros d Hd; simpl; [done|].
  by apply IH, dset_Forall.
Qed.

Lemma dget_dupdate_None k d e :
  dget k (dupdate d e) = None ↔ dget k d = None ∧ k ∉ e.*1.
Proof.
  unfold dupdate. revert d. induction e as [|[k' v'] e IH]; intros d; simpl; [set_solver|].
  rewrite IH, dget_dset. case_bool_decide; set_solver.
Qed.

Lemma dupdate_nil d : NoDup d.*1 → dupdate [] d = d.
Proof.
  unfold dupdate. rewrite <-(app_nil_l d) at 1 3. generalize (@nil (string * V)) as acc.
  induction d as [|[k v] d IH]; intros acc Hd; simpl; [by rewrite app_nil_r|].
  rewrite dset_fresh.
  - rewrite IH; [by rewrite <-app_assoc|]. by rewrite <-app_assoc.
  - apply dget_None. rewrite fmap_app, fmap_cons in Hd. apply NoDup_app in Hd as (_ & Hd & _).
    intros Hk. apply (Hd _ Hk). set_solver.
Qed.

Lemma ditem_Ok k d v : ditem k d = Ok v ↔ dget k d = Some v.
Proof. apply of_option_Ok. Qed.

Lemma raises_ditem (P : exn → Prop) k d :
  (dget k d = None → P (KeyError k)) → raises P (ditem k d).
Proof. apply raises_of_option. Qed.
End dictionaries.

#[export] Hint Resolve raises_ditem : raises.

(** ** Type tests and truth value *)

Definition is_dict (v : json) : bool := match v with JObj _ => true | _ => false end.
Definition is_list (v : json) : bool := match v with JArr _ => true | _ => false end.
Definition is_str (v : json) : bool := match v with JStr _ => true | _ => false end.
Definition is_bool (v : json) : bool := match v with JBool _ => true | _ => false end.

(** The value of an [isinstance(v, int)] value: [bool] is a subclass. *)
Definition as_int (v : json) : option Z :=
  match v with
  | JInt z => Some z
  | JBool b => Some (Z.b2z b)
  | _ => None
  end.

(** A missing key reads as [None]. *)
Definition get (k : string) (d : dict json) : json := default JNull (dget k d).

Definition truthy (v : json) : bool :=
  match v with
  | JNull => false
  | JBool b => b
  | JInt z => negb (z =? 0)
  | JFloat (S754_zero _) => false
  | JFloat _ => true
  | JStr s => negb (bool_decide (s = ""))
  | JArr l => negb (bool_decide (length l = 0%nat))
  | JObj d => negb (bool_decide (length d = 0%nat))
  end.

(** [isinstance(v, str) and v] *)
Definition nonempty_str (v : json) : option string :=
  match v with
  | JStr s => if bool_decide (s = "") then None else Some s
  | _ => None
  end.

(** [isinstance(v, int) and v > 0] *)
Definition pos_int (v : json) : option Z :=
  match as_int v with
  | Some z => if z <=? 0 then None else Some z
  | None => None
  end.

(** [isinstance(v, list) and v] *)
Definition nonempty_list (v : json) : option (list json) :=
  match v with
  | JArr [] => None
  | JArr l => Some l
  | _ => None
  end.

Definition as_dict (v : json) : option (dict json) :=
  match v with JObj d => Some d | _ => None end.

Lemma nonempty_str_Some v s : nonempty_str v = Some s ↔ v = JStr s ∧ s ≠ "".
Proof. destruct v; simpl; try case_bool_decide; naive_solver. Qed.

Lemma nonempty_list_Some v l : nonempty_list v = Some l ↔ v = JArr l ∧ l ≠ [].
Proof. destruct v as [| | | | |[]|]; naive_solver. Qed.

Lemma as_dict_Some v d : as_dict v = Some d ↔ v = JObj d.
Proof. destruct v; naive_solver. Qed.

Lemma pos_int_Some v z : pos_int v = Some z ↔ as_int v = Some z ∧ 0 < z.
Proof.
  unfold pos_int. destruct (as_int v) as [z'|]; [|naive_solver].
  destruct (Z.leb_spec z' 0); naive_solver lia.
Qed.

(** The loop that checks that every element is a non-empty string. *)
Lemma mapM_nonempty_str (mk : nat → exn) l ks :
  mapM (λ '(i, v), of_option (mk i) (nonempty_str v)) (enumerate l) = Ok ks ↔
  l = JStr <$> ks ∧ Forall (λ s, s ≠ "") ks.
Proof.
  rewrite mapM_Ok. transitivity (Forall2 (λ v y, v = JStr y ∧ y ≠ "") l ks).
  { rewrite <-(enumerate_Forall2 _ l). split; intros H; apply (Forall2_impl _ _ _ _ H);
      intros [i v] y; by rewrite of_option_Ok, nonempty_str_Some. }
  split.
  - induction 1 as [|v y l ks [-> Hy] _ [-> IH]]; simpl; auto.
  - intros [-> H]. induction H; simpl; constructor; auto.
Qed.

(** ** Equality *)

Definition num_eq (a b : json) : bool :=
  match as_int a, as_int b with
  | Some x, Some y => x =? y
  | Some x, None =>
      match b with
      | JFloat f => bool_decide (cmp_Z_float x f = Some Eq)
      | _ => false
      end
  | None, Some y =>
      match a with
      | JFloat f => bool_decide (cmp_Z_float y f = Some Eq)
      | _ => false
      end
  | None, None =>
      match a, b with
      | JFloat f, JFloat g => f_eqb f g
      | _, _ => false
      end
  end.

(** [a == b] *)
Fixpoint py_eq (a b : json) {struct a} : bool :=
  match a, b with
  | JNull, JNull => true
  | JStr s, JStr t => bool_decide (s = t)
  | JArr l, JArr k =>
      (fix go (l k : list json) : bool :=
         match l, k with
         | [], [] => true
         | x :: l, y :: k => py_eq x y && go l k
         | _, _ => false
         end) l k
  | JObj d, JObj e =>
      bool_decide (length d = length e) &&
      forallb (λ '(k, v), match dget k e with Some w => py_eq v w | None => false end) d
  | (JBool _ | JInt _ | JFloat _), (JBool _ | JInt _ | JFloat _) => num_eq a b
  | _, _ => false
  end.

Lemma py_eq_str_r v s : py_eq v (JStr s) = true ↔ v = JStr s.
Proof. destruct v; simpl; rewrite ?bool_decide_eq_true; naive_solver. Qed.

Lemma py_eq_str_l v s : py_eq (JStr s) v = true ↔ v = JStr s.
Proof. destruct v; simpl; rewrite ?bool_decide_eq_true; naive_solver. Qed.

(** ** Conversions and renderings *)

Definition quote_char : ascii := ascii_of_nat 34.

Definition hex_digit (n : nat) : ascii :=
  ascii_of_nat (if (n <? 10)%nat then 48 + n else 87 + n).

Definition hex2 (n : nat) : string :=
  String (hex_digit (n / 16)) (String (hex_digit (n mod 16)) "").

Fixpoint repr_chars (q : ascii) (s : string) : string :=
  match s with
  | "" => ""
  | String c s =>
      let n := nat_of_ascii c in
      (if bool_decide (c = q) || bool_decide (n = 92%nat) then String "\"%char (String c "")
       else if bool_decide (n = 10%nat) then "\n"
       else if bool_decide (n = 13%nat) then "\r"
       else if bool_decide (n = 9%nat) then "\t"
       else if ((n <? 32)%nat || bool_decide (n = 127%nat))%bool then "\x" +:+ hex2 n
       else String c "")
      +:+ repr_chars q s
  end.

Fixpoint char_in (c : ascii) (s : string) : bool :=
  match s with "" => false | String c' s => bool_decide (c = c') || char_in c s end.

(** [repr(s)]: single quotes unless the text has them and no double quotes. *)
Definition repr_str (s : string) : string :=
  let q := if char_in "'" s && negb (char_in quote_char s) then quote_char else "'"%char in
  String q (repr_chars q s +:+ String q "").

Fixpoint py_repr (v : json) : string :=
  match v with
  | JNull => "None"
  | JBool b => if b then "True" else "False"
  | JInt z => pretty z
  | JFloat f => f_repr f
  | JStr s => repr_str s
  | JArr l => "[" +:+ join ", " (map py_repr l) +:+ "]"
  | JObj d =>
      "{" +:+ join ", " (map (λ '(k, v), repr_str k +:+ ": " +:+ py_repr v) d) +:+ "}"
  end.

(** [str(v)], the rendering of a plain [{v}] in an f-string. *)
Definition py_str (v : json) : string :=
  match v with JStr s => s | _ => py_repr v end.

Definition is_ascii_space (c : ascii) : bool :=
  let n := nat_of_ascii c in
  ((9 <=? n) && (n <=? 13) || (28 <=? n) && (n <=? 32))%nat.

Fixpoint lstrip (s : string) : string :=
  match s with
  | String c s' => if is_ascii_space c then lstrip s' else s
  | "" => ""
  end.

Definition strip (s : string) : string := String.rev (lstrip (String.rev (lstrip s))).

Definition digit_val (c : ascii) : option Z :=
  let n := Z.of_nat (nat_of_ascii c) in
  if (48 <=? n) && (n <=? 57) then Some (n - 48) else None.

(** Digits with single underscores between them, after at least one digit. *)
Fixpoint int_digits (acc : Z) (s : string) : option Z :=
  match s with
  | "" => Some acc
  | String c s' =>
      match digit_val c with
      | Some d => int_digits (acc * 10 + d) s'
      | None =>
          if bool_decide (c = "_"%char) then
            match s' with
            | String c' s'' =>
                match digit_val c' with
                | Some d => int_digits (acc * 10 + d) s''
                | None => None
                end
            | "" => None
            end
          else None
      end
  end.

Definition int_unsigned (s : string) : option Z :=
  match s with
  | String c s' => match digit_val c with Some d => int_digits d s' | None => None end
  | "" => None
  end.

Definition int_of_str (s : string) : option Z :=
  match strip s with
  | String c s' as t =>
      if bool_decide (c = "-"%char) then Z.opp <$> int_unsigned s'
      else if bool_decide (c = "+"%char) then int_unsigned s'
      else int_unsigned t
  | "" => None
  end.

Definition type_name (v : json) : string :=
  match v with
  | JNull => "NoneType" | JBool _ => "bool" | JInt _ => "int" | JFloat _ => "float"
  | JStr _ => "str" | JArr _ => "list" | JObj _ => "dict"
  end.

(** [int(v)] *)
Definition py_int (v : json) : exc Z :=
  match v with
  | JInt z => Ok z
  | JBool b => Ok (Z.b2z b)
  | JFloat S754_nan => Err (ValueError "cannot convert float NaN to integer")
  | JFloat f =>
      of_option (OverflowError "cannot convert float infinity to integer") (f_trunc f)
  | JStr s =>
      of_option (ValueError ("invalid literal for int() with base 10: " +:+ repr_str s))
        (int_of_str s)
  | _ =>
      Err (TypeError (cat ["int() argument must be a string, a bytes-like object or a real number, not '";
                           type_name v; "'"]))
  end.

(** ** Decimal numerals read back *)

Fixpoint str_all (P : ascii → bool) (s : string) : bool :=
  match s with "" => true | String c s => P c && str_all P s end.

Definition is_digit (c : ascii) : bool := match digit_val c with Some _ => true | None => false end.

Lemma pretty_N_char_val x : (x < 10)%N → digit_val (pretty_N_char x) = Some (Z.of_N x).
Proof.
  intros Hx. assert (x ∈ [0; 1; 2; 3; 4; 5; 6; 7; 8; 9]%N) as Hin.
  { rewrite !elem_of_cons, elem_of_nil. lia. }
  rewrite !elem_of_cons, elem_of_nil in Hin. by destruct_or!; subst.
Qed.

(** The digits of [x] in front of [s]: they are digits, and reading them
    continues with the value [x]. *)
Lemma pretty_N_go_digits x s :
  str_all is_digit s = true →
  str_all is_digit (pretty_N_go x s) = true ∧
  int_digits 0 (pretty_N_go x s) = int_digits (Z.of_N x) s.
Proof.
  revert s. induction (N.lt_wf_0 x) as [x _ IH]. intros s Hs.
  destruct (decide (x = 0)%N) as [->|Hx]; [by rewrite pretty_N_go_0|].
  rewrite pretty_N_go_step by lia.
  assert (x mod 10 < 10)%N as Hm by (apply N.mod_lt; lia).
  destruct (IH (x / 10)%N) with (s := String (pretty_N_char (x mod 10)) s) as [H1 H2].
  - apply N.div_lt; lia.
  - cbn [str_all]. rewrite Hs. unfold is_digit. by rewrite pretty_N_char_val.
  - split; [done|]. rewrite H2. cbn [int_digits]. rewrite pretty_N_char_val by done. f_equal.
    rewrite N2Z.inj_div, N2Z.inj_mod. pose proof (Z.div_mod (Z.of_N x) 10). lia.
Qed.

Lemma pretty_N_digits (n : N) :
  str_all is_digit (pretty n) = true ∧ int_digits 0 (pretty n) = Some (Z.of_N n) ∧ pretty n ≠ "".
Proof.
  change (pretty n) with (pretty_N n). unfold pretty_N. destruct (decide (n = 0%N)) as [->|Hn]; [done|].
  destruct (pretty_N_go_digits n "") as [H1 H2]; [done|]. split_and!; [done|done|].
  intros E. rewrite E in H2. simpl in H2. injection H2 as ?. lia.
Qed.

Lemma str_all_rev_app P s t :
  str_all P (String.rev_app s t) = str_all P s && str_all P t.
Proof.
  revert t. induction s as [|c s IH]; intros t; simpl; [done|]. rewrite IH. simpl.
  destruct (P c), (str_all P s), (str_all P t); done.
Qed.

Lemma rev_app_rev s t u : String.rev_app (String.rev_app s t) u = String.rev_app t (s +:+ u).
Proof. revert t. induction s as [|c s IH]; intros t; [done|]. simpl. by rewrite IH. Qed.

Lemma lstrip_digits s : str_all is_digit s = true → lstrip s = s.
Proof.
  destruct s as [|c s]; [done|]. simpl. intros [Hc _]%andb_true_iff.
  destruct (is_ascii_space c) eqn:Hsp; [|done]. exfalso. revert Hc Hsp.
  unfold is_digit, digit_val, is_ascii_space.
  destruct (Z.leb_spec 48 (Z.of_nat (nat_of_ascii c))); simpl; [|done].
  rewrite orb_true_iff, !andb_true_iff, !Nat.leb_le. intros _ [[_ ?]|[_ ?]]; lia.
Qed.

Lemma strip_digits s : str_all is_digit s = true → strip s = s.
Proof.
  intros Hs. unfold strip, String.rev. rewrite (lstrip_digits s Hs), lstrip_digits.
  - rewrite rev_app_rev. simpl. apply app_nil_r_str.
  - by rewrite str_all_rev_app, Hs.
Qed.

(** [int(str(n)) == n] *)
Lemma int_of_str_pretty (n : N) : int_of_str (pretty n) = Some (Z.of_N n).
Proof.
  destruct (pretty_N_digits n) as (Hd & Hv & Hne). unfold int_of_str.
  rewrite strip_digits by done. destruct (pretty n) as [|c s]; [done|].
  simpl in Hd. apply andb_true_iff in Hd as [Hc _]. unfold is_digit in Hc.
  cbn [int_digits] in Hv. destruct (digit_val c) as [d|] eqn:Hdv; [|done].
  rewrite !bool_decide_false by (intros ->; by vm_compute in Hdv).
  unfold int_unsigned. by rewrite Hdv.
Qed.

Example int_underscore : py_int (JStr " -1_000 ") = Ok (-1000).
Proof. reflexivity. Qed.

Example repr_nested :
  py_repr (JObj [("a", JArr [JInt 1; JBool true; JNull]); ("it's", JStr "x")])
  = cat ["{'a': [1, True, None], "; String quote_char "it's"; String quote_char ": 'x'}"].
Proof. reflexivity. Qed.

Example true_is_one : py_eq (JBool true) (JInt 1) = true ∧ as_int (JBool true) = Some 1.
Proof. done. Qed.

Example one_point_zero : py_eq (JFloat (f_normalize 1 0)) (JInt 1) = true.
Proof. reflexivity. Qed.
