(* ===== verification/PyPath.v ===== *)
(** * pathlib: pure POSIX paths

    [Path(s)], [p / s], [str(p)], [p.name], [p.parent], [p.is_absolute()] and
    [p.resolve()] as pathlib computes them on POSIX.  The file system of the
    model has no symbolic links, so resolving a path is anchoring it at the
    working directory and removing its [..] components. *)

From Stdlib Require Import Ascii.
From S2P Require Import Prelude.

Record path : Type := Path { p_root : string; p_parts : list string }.

#[export] Instance path_eq_dec : EqDecision path.
Proof. solve_decision. Defined.

(** [s.split(c)] *)
Fixpoint split_on (c : ascii) (s : string) : list string :=
  match s with
  | "" => [""]
  | String a s =>
      if bool_decide (a = c) then "" :: split_on c s
      else match split_on c s with
           | [] => [String a ""]
           | x :: l => String a x :: l
           end
  end.

Definition slash : ascii := "/"%char.

Definition keep_part (x : string) : bool :=
  negb (bool_decide (x = "")) && negb (bool_decide (x = ".")).

(** Two leading slashes are a root of their own. *)
Definition root_of (s : string) : string :=
  if startswith "//" s && negb (startswith "///" s) then "//"
  else if startswith "/" s then "/" else "".

(** [Path(s)]: empty and [.] components disappear. *)
Definition parse_path (s : string) : path :=
  Path (root_of s) (filter (λ x, keep_part x = true) (split_on slash s)).

(** [str(p)] *)
Definition path_str (p : path) : string :=
  match p_root p, p_parts p with
  | "", [] => "."
  | r, l => r +:+ join "/" l
  end.

Definition is_absolute (p : path) : bool := negb (bool_decide (p_root p = "")).

(** [p / q] *)
Definition path_join (p q : path) : path :=
  if is_absolute q then q else Path (p_root p) (p_parts p ++ p_parts q).

Definition path_div (p : path) (s : string) : path := path_join p (parse_path s).

(** [p.name] *)
Definition path_name (p : path) : string := default "" (last (p_parts p)).

(** [p.parent] *)
Definition path_parent (p : path) : path := Path (p_root p) (removelast (p_parts p)).

(** Remove [..] components, left to right; the root is its own parent. *)
Definition norm_step (acc : list string) (x : string) : list string :=
  if bool_decide (x = "..") then removelast acc else acc ++ [x].
Definition norm_parts (l : list string) : list string := foldl norm_step [] l.

(** The absolute components of a path, [..] not yet removed. *)
Definition anchor (cwd : list string) (p : path) : list string :=
  if is_absolute p then p_parts p else cwd ++ p_parts p.

(** [p.resolve()] *)
Definition resolve (cwd : list string) (p : path) : path :=
  Path "/" (norm_parts (anchor cwd p)).

(** ** Lemmas *)

Lemma norm_parts_plain l acc :
  ".." ∉ l → foldl norm_step acc l = acc ++ l.
Proof.
  revert acc. induction l as [|x l IH]; intros acc Hl; simpl.
  - by rewrite app_nil_r.
  - rewrite IH by set_solver. unfold norm_step.
    rewrite bool_decide_false by set_solver. by rewrite <-app_assoc.
Qed.

Lemma norm_parts_id l : ".." ∉ l → norm_parts l = l.
Proof. intros. by apply (norm_parts_plain l []). Qed.

Lemma norm_parts_no_dotdot l : ".." ∉ norm_parts l.
Proof.
  unfold norm_parts. assert (∀ acc, ".." ∉ acc → ".." ∉ foldl norm_step acc l) as H;
    [|apply H; set_solver].
  induction l as [|x l IH]; intros acc Hacc; simpl; [done|]. apply IH.
  unfold norm_step. case_bool_decide; [|set_solver].
  intros Hin. apply Hacc. destruct acc as [|a acc] using rev_ind; [done|].
  rewrite removelast_last in Hin. set_solver.
Qed.

Lemma resolve_idemp cwd p : resolve cwd (resolve cwd p) = resolve cwd p.
Proof.
  unfold resolve, anchor; simpl. f_equal. apply norm_parts_id, norm_parts_no_dotdot.
Qed.

Lemma resolve_absolute cwd p : is_absolute (resolve cwd p) = true.
Proof. done. Qed.

Lemma path_join_name p q :
  p_parts q ≠ [] → path_name (path_join p q) = path_name q.
Proof.
  intros Hq. unfold path_name, path_join. case_match; [done|]. simpl.
  destruct (p_parts q) as [|x l _] using rev_ind; [done|].
  by rewrite app_assoc, !last_snoc.
Qed.

Lemma split_on_nonempty c s : split_on c s ≠ [].
Proof. destruct s; simpl; [done|]. case_bool_decide; [done|]. by case_match. Qed.

Lemma split_on_app c s t :
  split_on c (s +:+ String c t) = split_on c s ++ split_on c t.
Proof.
  induction s as [|a s IH].
  - rewrite app_nil_l_str; simpl. by rewrite bool_decide_true.
  - rewrite app_cons_str; simpl. rewrite IH. case_bool_decide; [done|].
    destruct (split_on c s) eqn:E; [by apply split_on_nonempty in E|done].
Qed.

Lemma root_of_relative s : startswith "/" s = false → root_of s = "".
Proof.
  unfold root_of. intros Hs. rewrite Hs.
  destruct s as [|a s]; [done|]. cbn in *. by destruct (bool_decide _).
Qed.

Lemma startswith_slash_app s t :
  s ≠ "" → startswith "/" (s +:+ t) = startswith "/" s.
Proof. by destruct s. Qed.

(** Joining with a slash is pathlib's [/] when both parts are relative. *)
Lemma parse_path_slash s t :
  s ≠ "" → startswith "/" s = false → startswith "/" t = false →
  parse_path (s +:+ "/" +:+ t) = path_div (parse_path s) t.
Proof.
  intros Hs Hs' Ht. unfold path_div, path_join, is_absolute, parse_path; simpl.
  rewrite !root_of_relative by (by rewrite ?startswith_slash_app). simpl.
  f_equal. change ("/" +:+ t) with (String slash t).
  by rewrite split_on_app, filter_app.
Qed.

Example parse_messy :
  parse_path "a//b/./c/" = Path "" ["a"; "b"; "c"] ∧ path_str (parse_path "//x/y") = "//x/y".
Proof. done. Qed.

Example resolve_dots : resolve ["r"] (parse_path "a/../../b") = Path "/" ["b"].
Proof. done. Qed.
