(* ===== verification/Json.v ===== *)
(** * json.loads

    The decoder of CPython's [json] module on a decoded text: values, objects
    whose later duplicate keys win, strings with escapes and surrogate pairs,
    integers and floats, [NaN] and [Infinity], and the [JSONDecodeError] message
    with its line, column and character position.  The recursive scanner runs on
    fuel; [json_loads] gives it twice the length of the text, and
    [scan_fuel_enough] shows that this never runs out. *)

From Stdlib Require Import Ascii SpecFloat.
From S2P Require Import Prelude PyFloat PyVal.

Local Open Scope Z_scope.

(** A scan returns a value and the rest of the text, or a message and the text
    at the offending character. *)
Inductive scan (A : Type) : Type :=
  | Got (a : A) (rest : string)
  | Bad (msg : string) (at_ : string)
  | NoFuel.
Arguments Got {A} a rest.
Arguments Bad {A} msg at_.
Arguments NoFuel {A}.

Definition code (c : ascii) : Z := Z.of_nat (nat_of_ascii c).
Definition byte (n : Z) : ascii := ascii_of_nat (Z.to_nat n).
Definition newline : string := String (byte 10) "".

(** ** White space, literals and numbers *)

(** The text after an expected character. *)
Definition expect (c : ascii) (s : string) : option string :=
  match s with
  | String a r => if bool_decide (a = c) then Some r else None
  | "" => None
  end.

Definition is_json_space (c : ascii) : bool :=
  let n := code c in (n =? 32) || (n =? 9) || (n =? 10) || (n =? 13).

Fixpoint skip_ws (s : string) : string :=
  match s with
  | String c r => if is_json_space c then skip_ws r else s
  | "" => ""
  end.

Fixpoint take_digits (s : string) : string * string :=
  match s with
  | String c r =>
      match digit_val c with
      | Some _ => let '(ds, r') := take_digits r in (String c ds, r')
      | None => ("", s)
      end
  | "" => ("", "")
  end.

Definition dec_val (ds : string) : Z := default 0 (int_digits 0 ds).

(** The integer part: [0] or a digit string without leading zero. *)
Definition take_int (s : string) : option (string * string) :=
  match s with
  | String c r =>
      match digit_val c with
      | None => None
      | Some 0 => Some ("0", r)
      | Some _ => Some (take_digits s)
      end
  | "" => None
  end.

(** The fraction digits, when a point is followed by at least one digit. *)
Definition take_frac (s : string) : string * string :=
  match expect "." s with
  | Some r =>
      match take_digits r with
      | ("", _) => ("", s)
      | (ds, r') => (ds, r')
      end
  | None => ("", s)
  end.

Definition take_sign (s : string) : bool * string :=
  match expect "-" s with
  | Some r => (true, r)
  | None => (false, default s (expect "+" s))
  end.

(** The exponent, when [e] is followed by an optional sign and digits. *)
Definition take_exp (s : string) : option Z * string :=
  match s with
  | String c r =>
      if bool_decide (c = "e"%char) || bool_decide (c = "E"%char) then
        let '(neg, r') := take_sign r in
        match take_digits r' with
        | ("", _) => (None, s)
        | (ds, r'') => (Some ((if neg : bool then Z.opp else id) (dec_val ds)), r'')
        end
      else (None, s)
  | "" => (None, "")
  end.

Definition scan_unsigned (neg : bool) (r : string) : option (json * string) :=
  match take_int r with
  | None => None
  | Some (ids, r1) =>
      let '(fds, r2) := take_frac r1 in
      let '(ex, r3) := take_exp r2 in
      match fds, ex with
      | "", None => Some (JInt ((if neg : bool then Z.opp else id) (dec_val ids)), r3)
      | _, _ =>
          Some (JFloat (f_of_decimal neg (dec_val (ids +:+ fds))
                          (default 0 ex - Z.of_nat (String.length fds))), r3)
      end
  end.

Definition scan_number (s : string) : option (json * string) :=
  match expect "-" s with
  | Some r => scan_unsigned true r
  | None => scan_unsigned false s
  end.

(** ** Strings *)

Definition utf8 (cp : Z) : string :=
  if cp <? 128 then String (byte cp) ""
  else if cp <? 2048 then
    String (byte (192 + cp / 64)) (String (byte (128 + cp mod 64)) "")
  else if cp <? 65536 then
    String (byte (224 + cp / 4096))
      (String (byte (128 + cp / 64 mod 64)) (String (byte (128 + cp mod 64)) ""))
  else
    String (byte (240 + cp / 262144))
      (String (byte (128 + cp / 4096 mod 64))
        (String (byte (128 + cp / 64 mod 64)) (String (byte (128 + cp mod 64)) ""))).

Definition hex_val (c : ascii) : option Z :=
  let n := code c in
  if (48 <=? n) && (n <=? 57) then Some (n - 48)
  else if (97 <=? n) && (n <=? 102) then Some (n - 87)
  else if (65 <=? n) && (n <=? 70) then Some (n - 55)
  else None.

Definition hex4 (a b c d : ascii) : option Z :=
  w ← hex_val a; x ← hex_val b; y ← hex_val c; z ← hex_val d;
  Some (w * 4096 + x * 256 + y * 16 + z).

Definition simple_escape (c : ascii) : option ascii :=
  let n := code c in
  if (n =? 34) || (n =? 92) || (n =? 47) then Some c
  else if n =? 98 then Some (byte 8)
  else if n =? 102 then Some (byte 12)
  else if n =? 110 then Some (byte 10)
  else if n =? 114 then Some (byte 13)
  else if n =? 116 then Some (byte 9)
  else None.

(** One step of the string scanner: the closing quote, a character or an escape
    with its UTF-8 bytes, or an error. *)
Inductive str_unit : Type :=
  | UEnd (rest : string)
  | UPiece (p rest : string)
  | UBad (msg at_ : string).

(** The text after [\u]: four hexadecimal digits, with a following escaped low
    surrogate when they are a high one.  CPython asks for one more character
    after the digits. *)
Definition hex_escape (r : string) : option (Z * string) :=
  match r with
  | String a (String b (String x (String y (String _ _ as r2)))) =>
      (λ cp, (cp, r2)) <$> hex4 a b x y
  | _ => None
  end.

Definition low_surrogate (r : string) : option (Z * string) :=
  match r with
  | String b (String u r') =>
      if bool_decide (b = "\"%char) && bool_decide (u = "u"%char) then
        match hex_escape r' with
        | Some (lo, r3) =>
            if (56320 <=? lo) && (lo <=? 57343) then Some (lo, r3) else None
        | None => None
        end
      else None
  | _ => None
  end.

Definition unicode_escape (r : string) : option (string * string) :=
  match hex_escape r with
  | None => None
  | Some (cp, r2) =>
      if (55296 <=? cp) && (cp <=? 56319) then
        match low_surrogate r2 with
        | Some (lo, r3) => Some (utf8 (65536 + (cp - 55296) * 1024 + (lo - 56320)), r3)
        | None => Some (utf8 cp, r2)
        end
      else Some (utf8 cp, r2)
  end.

Definition scan_unit (start s : string) : str_unit :=
  match s with
  | "" => UBad "Unterminated string starting at" start
  | String c r =>
      if bool_decide (c = quote_char) then UEnd r
      else if code c <? 32 then UBad "Invalid control character at" s
      else if negb (bool_decide (c = "\"%char)) then UPiece (String c "") r
      else match r with
      | "" => UBad "Unterminated string starting at" start
      | String e r1 =>
          if bool_decide (e = "u"%char) then
            match unicode_escape r1 with
            | Some (p, rest) => UPiece p rest
            | None => UBad "Invalid \uXXXX escape" r
            end
          else
            match simple_escape e with
            | Some d => UPiece (String d "") r1
            | None => UBad "Invalid \escape" s
            end
      end
  end.

(** The body of a string after its opening quote; [start] is the text at that
    quote.  Every step consumes a character. *)
Fixpoint scan_str_go (fuel : nat) (start s : string) : scan string :=
  match scan_unit start s with
  | UEnd rest => Got "" rest
  | UBad m a => Bad m a
  | UPiece p rest =>
      match fuel with
      | O => NoFuel
      | S fuel =>
          match scan_str_go fuel start rest with
          | Got t rest' => Got (p +:+ t) rest'
          | r => r
          end
      end
  end.
Definition scan_str (start s : string) : scan string :=
  scan_str_go (String.length s) start s.

(** ** Values *)

Definition literal (s : string) : option (json * string) :=
  if startswith "null" s then Some (JNull, drop_str 4 s)
  else if startswith "true" s then Some (JBool true, drop_str 4 s)
  else if startswith "false" s then Some (JBool false, drop_str 5 s)
  else if startswith "NaN" s then Some (JFloat S754_nan, drop_str 3 s)
  else if startswith "Infinity" s then Some (JFloat (S754_infinity false), drop_str 8 s)
  else if startswith "-Infinity" s then Some (JFloat (S754_infinity true), drop_str 9 s)
  else scan_number s.

(** [scan_members] is positioned at a key, [scan_elems] at an element. *)
Fixpoint scan_value (fuel : nat) (s : string) : scan json :=
  match fuel with
  | O => NoFuel
  | S fuel =>
      match s with
      | "" => Bad "Expecting value" s
      | String c r =>
          if bool_decide (c = quote_char) then
            match scan_str s r with
            | Got t rest => Got (JStr t) rest
            | Bad m a => Bad m a
            | NoFuel => NoFuel
            end
          else if bool_decide (c = "{"%char) then
            match expect "}" (skip_ws r) with
            | Some r' => Got (JObj []) r'
            | None => scan_members fuel [] (skip_ws r)
            end
          else if bool_decide (c = "["%char) then
            match expect "]" (skip_ws r) with
            | Some r' => Got (JArr []) r'
            | None => scan_elems fuel [] (skip_ws r)
            end
          else match literal s with
               | Some (v, rest) => Got v rest
               | None => Bad "Expecting value" s
               end
      end
  end
with scan_members (fuel : nat) (acc : dict json) (s : string) : scan json :=
  match fuel with
  | O => NoFuel
  | S fuel =>
      match s with
      | String c r =>
          if bool_decide (c = quote_char) then
            match scan_str s r with
            | Got k r1 =>
                match expect ":" (skip_ws r1) with
                | Some r2 =>
                    match scan_value fuel (skip_ws r2) with
                    | Got v r3 =>
                        match expect "}" (skip_ws r3) with
                        | Some r4 => Got (JObj (dset k v acc)) r4
                        | None =>
                            match expect "," (skip_ws r3) with
                            | Some r4 => scan_members fuel (dset k v acc) (skip_ws r4)
                            | None => Bad "Expecting ',' delimiter" (skip_ws r3)
                            end
                        end
                    | Bad m a => Bad m a
                    | NoFuel => NoFuel
                    end
                | None => Bad "Expecting ':' delimiter" (skip_ws r1)
                end
            | Bad m a => Bad m a
            | NoFuel => NoFuel
            end
          else Bad "Expecting property name enclosed in double quotes" s
      | "" => Bad "Expecting property name enclosed in double quotes" s
      end
  end
with scan_elems (fuel : nat) (acc : list json) (s : string) : scan json :=
  match fuel with
  | O => NoFuel
  | S fuel =>
      match scan_value fuel s with
      | Got v r1 =>
          match expect "]" (skip_ws r1) with
          | Some r2 => Got (JArr (acc ++ [v])) r2
          | None =>
              match expect "," (skip_ws r1) with
              | Some r2 => scan_elems fuel (acc ++ [v]) (skip_ws r2)
              | None => Bad "Expecting ',' delimiter" (skip_ws r1)
              end
          end
      | Bad m a => Bad m a
      | NoFuel => NoFuel
      end
  end.

(** ** Error positions *)

Definition is_continuation (c : ascii) : bool := (128 <=? code c) && (code c <? 192).

(** Characters of a UTF-8 text, and the lines and the column at its end. *)
Fixpoint char_count (s : string) : Z :=
  match s with
  | "" => 0
  | String c r => (if is_continuation c then 0 else 1) + char_count r
  end.

Fixpoint line_col (line col : Z) (s : string) : Z * Z :=
  match s with
  | "" => (line, col)
  | String c r =>
      if code c =? 10 then line_col (line + 1) 1 r
      else line_col line (if is_continuation c then col else col + 1) r
  end.

Definition decode_error (doc msg rest : string) : exn :=
  let prefix := take_str (String.length doc - String.length rest) doc in
  let '(line, col) := line_col 1 1 prefix in
  JSONDecodeError (cat [msg; ": line "; pretty line; " column "; pretty col;
                        " (char "; pretty (char_count prefix); ")"]).

Definition bom : string := String (byte 239) (String (byte 187) (String (byte 191) "")).

Definition scan_fuel (s : string) : nat := S (2 * String.length s).

(** [json.loads(s)] *)
Definition json_loads (s : string) : exc json :=
  if startswith bom s then
    Err (decode_error s "Unexpected UTF-8 BOM (decode using utf-8-sig)" s)
  else
    match scan_value (scan_fuel s) (skip_ws s) with
    | Got v rest =>
        match skip_ws rest with
        | "" => Ok v
        | r => Err (decode_error s "Extra data" r)
        end
    | Bad m r => Err (decode_error s m r)
    | NoFuel => Err OutOfFuel
    end.

(** ** The decoder always returns *)

Lemma skip_ws_length s : (String.length (skip_ws s) ≤ String.length s)%nat.
Proof. induction s as [|c s IH]; simpl; [done|]. case_match; simpl; lia. Qed.

Lemma drop_str_length n s : (String.length (drop_str n s) = String.length s - n)%nat.
Proof. revert s. induction n as [|n IH]; intros [|c s]; simpl; auto. Qed.

Lemma startswith_length p s :
  startswith p s = true → (String.length p ≤ String.length s)%nat.
Proof.
  revert s. induction p as [|a p IH]; intros [|b s]; simpl; try (done || lia).
  intros [_ H]%andb_true_iff. apply IH in H. lia.
Qed.

Lemma take_digits_length s :
  (String.length (take_digits s).1 + String.length (take_digits s).2 = String.length s)%nat.
Proof.
  induction s as [|c s IH]; simpl; [done|]. destruct (digit_val c); simpl; [|done].
  destruct (take_digits s); simpl in *. lia.
Qed.

Lemma take_int_length s ds r :
  take_int s = Some (ds, r) → (String.length r < String.length s)%nat.
Proof.
  destruct s as [|c s]; simpl; [done|].
  destruct (digit_val c) as [[| |]|] eqn:Hc; intros; simplify_eq; [simpl; lia|..];
    pose proof (take_digits_length (String c s)) as Hl; simpl in *; rewrite Hc in *;
    destruct (take_digits s); simplify_eq/=; lia.
Qed.

Lemma expect_Some c s r : expect c s = Some r ↔ s = String c r.
Proof. destruct s; simpl; [done|]. case_bool_decide; naive_solver. Qed.

Lemma expect_length c s r :
  expect c s = Some r → (String.length r < String.length s)%nat.
Proof. intros ->%expect_Some. simpl. lia. Qed.

Lemma take_frac_length s : (String.length (take_frac s).2 ≤ String.length s)%nat.
Proof.
  unfold take_frac. destruct (expect _ s) as [r|] eqn:H; [|done].
  apply expect_length in H. pose proof (take_digits_length r).
  destruct (take_digits r) as [[|] r']; simpl in *; lia.
Qed.

Lemma take_sign_length s : (String.length (take_sign s).2 ≤ String.length s)%nat.
Proof.
  unfold take_sign. destruct (expect "-" s) eqn:H; simpl.
  - apply expect_length in H. lia.
  - destruct (expect "+" s) eqn:H'; simpl; [|done]. apply expect_length in H'. lia.
Qed.

Lemma take_exp_length s : (String.length (take_exp s).2 ≤ String.length s)%nat.
Proof.
  destruct s as [|c s]; simpl; [done|].
  destruct (_ || _); [|done]. pose proof (take_sign_length s).
  destruct (take_sign s) as [neg r]; simpl in *.
  pose proof (take_digits_length r).
  destruct (take_digits r) as [[|] r']; simpl in *; lia.
Qed.

Lemma scan_unsigned_length neg s v r :
  scan_unsigned neg s = Some (v, r) → (String.length r < String.length s)%nat.
Proof.
  unfold scan_unsigned. intros H.
  destruct (take_int s) as [[ids r1]|] eqn:Hi; [|done]. apply take_int_length in Hi.
  pose proof (take_frac_length r1). destruct (take_frac r1) as [fds r2]; simpl in *.
  pose proof (take_exp_length r2). destruct (take_exp r2) as [ex r3]; simpl in *.
  assert (r = r3) as -> by (repeat case_match; congruence). lia.
Qed.

Lemma scan_number_length s v r :
  scan_number s = Some (v, r) → (String.length r < String.length s)%nat.
Proof.
  unfold scan_number. destruct (expect "-" s) eqn:Hx; intros H%scan_unsigned_length; [|done].
  apply expect_length in Hx. lia.
Qed.

Lemma literal_length s v r :
  literal s = Some (v, r) → (String.length r < String.length s)%nat.
Proof.
  unfold literal. do 6 (case_match;
    [match goal with H : startswith _ _ = true |- _ =>
       apply startswith_length in H; simpl in H end;
     intros; simplify_eq; rewrite drop_str_length; lia|]).
  apply scan_number_length.
Qed.

Lemma hex_escape_length r cp r2 :
  hex_escape r = Some (cp, r2) → (String.length r2 < String.length r)%nat.
Proof.
  destruct r as [|? [|? [|? [|? [|? r]]]]]; simpl; try done.
  destruct (hex4 _ _ _ _); simpl; intros; simplify_eq; simpl; lia.
Qed.

Lemma low_surrogate_length r lo r3 :
  low_surrogate r = Some (lo, r3) → (String.length r3 < String.length r)%nat.
Proof.
  destruct r as [|b [|u r]]; simpl; [done..|]. destruct (_ && _); [|done].
  destruct (hex_escape r) as [[lo' r']|] eqn:H; [|done].
  apply hex_escape_length in H. destruct (_ && _); intros; simplify_eq. lia.
Qed.

Lemma unicode_escape_length r p rest :
  unicode_escape r = Some (p, rest) → (String.length rest < String.length r)%nat.
Proof.
  unfold unicode_escape. destruct (hex_escape r) as [[cp r2]|] eqn:H; [|done].
  apply hex_escape_length in H. destruct (_ && _); [|intros; simplify_eq; lia].
  destruct (low_surrogate r2) as [[lo r3]|] eqn:H2; intros; simplify_eq; [|lia].
  apply low_surrogate_length in H2. lia.
Qed.

Lemma scan_unit_piece start s p rest :
  scan_unit start s = UPiece p rest → (String.length rest < String.length s)%nat.
Proof.
  destruct s as [|c s]; simpl; [done|]. do 3 (case_match; [intros; simplify_eq; simpl; lia|]).
  destruct s as [|e s]; [done|]. case_match.
  - destruct (unicode_escape s) as [[]|] eqn:H'; intros; simplify_eq.
    apply unicode_escape_length in H'. simpl; lia.
  - destruct (simple_escape e); intros; simplify_eq. simpl; lia.
Qed.

Lemma scan_unit_end start s rest :
  scan_unit start s = UEnd rest → (String.length rest < String.length s)%nat.
Proof.
  destruct s as [|c s]; simpl; [done|]. repeat case_match; intros; simplify_eq; lia.
Qed.

Lemma scan_str_go_spec fuel start s :
  (String.length s ≤ fuel)%nat →
  scan_str_go fuel start s ≠ NoFuel ∧
  ∀ t rest, scan_str_go fuel start s = Got t rest →
    (String.length rest < String.length s)%nat.
Proof.
  revert s. induction fuel as [|fuel IH]; intros s Hs; simpl;
    destruct (scan_unit start s) as [r|p r|] eqn:Hu.
  - split; [done|]. intros; simplify_eq. by eapply scan_unit_end.
  - apply scan_unit_piece in Hu. lia.
  - done.
  - split; [done|]. intros; simplify_eq. by eapply scan_unit_end.
  - apply scan_unit_piece in Hu. destruct (IH r ltac:(lia)) as [Hf Hl].
    destruct (scan_str_go fuel start r) as [t' rest'| |]; [|done..].
    split; [done|]. intros; simplify_eq. specialize (Hl _ _ eq_refl). lia.
  - done.
Qed.

Lemma scan_str_fuel start s : scan_str start s ≠ NoFuel.
Proof. by apply scan_str_go_spec. Qed.

Lemma scan_str_length start s t rest :
  scan_str start s = Got t rest → (String.length rest < String.length s)%nat.
Proof. by apply scan_str_go_spec. Qed.

(** Loaded objects have each key once, at every depth. *)
Inductive wf_json : json → Prop :=
  | wf_null : wf_json JNull
  | wf_bool b : wf_json (JBool b)
  | wf_int z : wf_json (JInt z)
  | wf_float f : wf_json (JFloat f)
  | wf_str s : wf_json (JStr s)
  | wf_arr l : Forall wf_json l → wf_json (JArr l)
  | wf_obj d : NoDup d.*1 → Forall wf_json d.*2 → wf_json (JObj d).
#[export] Hint Constructors wf_json : core.

Definition wf_dict (d : dict json) : Prop := NoDup d.*1 ∧ Forall wf_json d.*2.

Lemma wf_dset k v d : wf_dict d → wf_json v → wf_dict (dset k v d).
Proof.
  intros [Hn Hf] Hv. split; [by apply dset_NoDup|]. clear Hn.
  induction d as [|[k' v'] d IH]; simpl in *; [by constructor|].
  inversion Hf; subst. case_bool_decide; simpl; constructor; auto.
Qed.

Lemma literal_wf s v r : literal s = Some (v, r) → wf_json v.
Proof.
  unfold literal. do 6 (case_match; [naive_solver|]).
  unfold scan_number, scan_unsigned. repeat case_match; naive_solver.
Qed.

(** A scan of [s] that returned, consumed something and built a value with
    unique keys. *)
Definition good_scan (s : string) (r : scan json) : Prop :=
  r ≠ NoFuel ∧
  ∀ v rest, r = Got v rest → (String.length rest < String.length s)%nat ∧ wf_json v.

Lemma good_Bad s m a : good_scan s (Bad m a).
Proof. done. Qed.

Lemma good_Got s v rest :
  (String.length rest < String.length s)%nat → wf_json v → good_scan s (Got v rest).
Proof. intros. split; [done|]. intros; simplify_eq. auto. Qed.

Lemma good_shorter s s' r :
  (String.length s' ≤ String.length s)%nat → good_scan s' r → good_scan s r.
Proof. intros ? [? Hr]. split; [done|]. intros ?? H'. destruct (Hr _ _ H'). split; [lia|done]. Qed.

Section scan_fuel_enough.
Variable fuel : nat.
Hypothesis IHv : ∀ s, (2 * String.length s < fuel)%nat → good_scan s (scan_value fuel s).
Hypothesis IHm : ∀ s acc, (2 * String.length s < fuel)%nat → wf_dict acc →
  good_scan s (scan_members fuel acc s).
Hypothesis IHe : ∀ s acc, (S (2 * String.length s) < fuel)%nat → Forall wf_json acc →
  good_scan s (scan_elems fuel acc s).

Lemma scan_value_step s :
  (2 * String.length s < S fuel)%nat → good_scan s (scan_value (S fuel) s).
Proof using IHm IHe.
  intros Hs. destruct s as [|c r]; simpl; [apply good_Bad|]. simpl in Hs.
  pose proof (skip_ws_length r). case_bool_decide.
  { pose proof (scan_str_fuel (String c r) r).
    destruct (scan_str _ r) as [t rest| |] eqn:Hr; [|apply good_Bad|done].
    apply scan_str_length in Hr. apply good_Got; [simpl; lia|done]. }
  case_bool_decide.
  { destruct (expect _ _) as [r'|] eqn:Hx.
    - apply expect_length in Hx. apply good_Got; [simpl; lia|].
      constructor; [apply NoDup_nil_2|done].
    - apply (good_shorter _ (skip_ws r)); [simpl; lia|].
      apply IHm; [lia|]. split; [apply NoDup_nil_2|done]. }
  case_bool_decide.
  { destruct (expect _ _) as [r'|] eqn:Hx.
    - apply expect_length in Hx. apply good_Got; [simpl; lia|auto].
    - apply (good_shorter _ (skip_ws r)); [simpl; lia|]. apply IHe; [lia|done]. }
  destruct (literal (String c r)) as [[v rest]|] eqn:Hl; [|apply good_Bad].
  apply good_Got; [by eapply literal_length|by eapply literal_wf].
Qed.

Lemma scan_members_step s acc :
  (2 * String.length s < S fuel)%nat → wf_dict acc →
  good_scan s (scan_members (S fuel) acc s).
Proof using IHm IHv.
  intros Hs Hacc. destruct s as [|c r]; simpl; [apply good_Bad|]. simpl in Hs.
  case_bool_decide; [|apply good_Bad].
  pose proof (scan_str_fuel (String c r) r).
  destruct (scan_str _ r) as [k r1| |] eqn:Hr; [|apply good_Bad|done].
  apply scan_str_length in Hr. pose proof (skip_ws_length r1).
  destruct (expect ":" _) as [r2|] eqn:Hx; [|apply good_Bad].
  apply expect_length in Hx. pose proof (skip_ws_length r2).
  destruct (IHv (skip_ws r2)) as [Hf Hg]; [lia|].
  destruct (scan_value fuel _) as [v r3| |]; [|apply good_Bad|done].
  destruct (Hg _ _ eq_refl) as [Hl Hwf]. pose proof (skip_ws_length r3).
  destruct (expect "}" _) as [r4|] eqn:Hc.
  { apply expect_length in Hc. apply good_Got; [simpl; lia|].
    by constructor; apply wf_dset. }
  destruct (expect "," _) as [r4|] eqn:Hd; [|apply good_Bad].
  apply expect_length in Hd. pose proof (skip_ws_length r4).
  apply (good_shorter _ (skip_ws r4)); [simpl; lia|].
  apply IHm; [lia|by apply wf_dset].
Qed.

Lemma scan_elems_step s acc :
  (S (2 * String.length s) < S fuel)%nat → Forall wf_json acc →
  good_scan s (scan_elems (S fuel) acc s).
Proof using IHe IHv.
  intros Hs Hacc. simpl. destruct (IHv s) as [Hf Hg]; [lia|].
  destruct (scan_value fuel s) as [v r1| |]; [|apply good_Bad|done].
  destruct (Hg _ _ eq_refl) as [Hl Hwf]. pose proof (skip_ws_length r1).
  assert (Forall wf_json (acc ++ [v])) by (apply Forall_app; auto).
  destruct (expect "]" _) as [r2|] eqn:Hc.
  { apply expect_length in Hc. apply good_Got; [lia|auto]. }
  destruct (expect "," _) as [r2|] eqn:Hd; [|apply good_Bad].
  apply expect_length in Hd. pose proof (skip_ws_length r2).
  apply (good_shorter _ (skip_ws r2)); [lia|]. apply IHe; [lia|done].
Qed.
End scan_fuel_enough.

Lemma scan_fuel_enough fuel :
  (∀ s, (2 * String.length s < fuel)%nat → good_scan s (scan_value fuel s)) ∧
  (∀ s acc, (2 * String.length s < fuel)%nat → wf_dict acc →
    good_scan s (scan_members fuel acc s)) ∧
  (∀ s acc, (S (2 * String.length s) < fuel)%nat → Forall wf_json acc →
    good_scan s (scan_elems fuel acc s)).
Proof.
  induction fuel as [|fuel (IHv & IHm & IHe)]; [split_and!; intros; lia|].
  split_and!.
  - by apply scan_value_step.
  - by apply scan_members_step.
  - by apply scan_elems_step.
Qed.

Lemma scan_value_good s : good_scan (skip_ws s) (scan_value (scan_fuel s) (skip_ws s)).
Proof.
  apply scan_fuel_enough. unfold scan_fuel. pose proof (skip_ws_length s). lia.
Qed.

(** [json.loads] returns a value with unique keys or raises JSONDecodeError. *)
Lemma json_loads_total s :
  (∃ v, json_loads s = Ok v ∧ wf_json v) ∨ (∃ m, json_loads s = Err (JSONDecodeError m)).
Proof.
  unfold json_loads, decode_error. case_match; [right; destruct (line_col _ _ _); eauto|].
  destruct (scan_value_good s) as [Hf Hg].
  destruct (scan_value _ _) as [v rest| |]; [|right; destruct (line_col _ _ _); eauto|done].
  destruct (Hg _ _ eq_refl). destruct (skip_ws rest);
    [left; eauto|right; destruct (line_col _ _ _); eauto].
Qed.

Lemma json_loads_wf s v : json_loads s = Ok v → wf_json v.
Proof. destruct (json_loads_total s) as [(? & ? & ?)|[? ?]]; congruence. Qed.

Lemma json_loads_raises s :
  raises (λ e, ∃ m, e = JSONDecodeError m) (json_loads s).
Proof. destruct (json_loads_total s) as [(? & -> & ?)|[? ->]]; simpl; eauto. Qed.
