(* ===== verification/JsonOut.v ===== *)
(** * Writing JSON

    [json.dumps] of the Python standard library, in the two forms the scripts
    use: on one line, and with [indent=2, sort_keys=True].  Text is ASCII: every
    other character becomes a [\u] escape, a pair of them above U+FFFF. *)

From Stdlib Require Import Ascii SpecFloat.
From stdpp Require Import sorting.
From S2P Require Import Prelude PyFloat PyVal Json.

Local Open Scope Z_scope.

(** The code points of a UTF-8 string; a byte that is not part of a character
    stands for the lone surrogate Python decodes it to. *)
Fixpoint code_points (s : string) : list Z :=
  match s with
  | "" => []
  | String a r =>
      let n := code a in
      if n <? 128 then n :: code_points r
      else match r with
      | String b r1 =>
          if (194 <=? n) && (n <=? 223) && is_continuation b then
            ((n - 192) * 64 + (code b - 128)) :: code_points r1
          else match r1 with
          | String c r2 =>
              if (224 <=? n) && (n <=? 239) && is_continuation b && is_continuation c then
                ((n - 224) * 4096 + (code b - 128) * 64 + (code c - 128)) :: code_points r2
              else match r2 with
              | String d r3 =>
                  if (240 <=? n) && (n <=? 244) && is_continuation b && is_continuation c
                     && is_continuation d then
                    ((n - 240) * 262144 + (code b - 128) * 4096 + (code c - 128) * 64
                     + (code d - 128)) :: code_points r3
                  else (56320 + n) :: code_points r
              | "" => (56320 + n) :: code_points r
              end
          | "" => (56320 + n) :: code_points r
          end
      | "" => [56320 + n]
      end
  end.

Definition hex4_digits (n : Z) : string :=
  let h k := hex_digit (Z.to_nat (Z.land (Z.shiftr n k) 15)) in
  String (h 12) (String (h 8) (String (h 4) (String (h 0) ""))).

Definition u_escape (n : Z) : string := "\u" +:+ hex4_digits n.

Definition escape_cp (cp : Z) : string :=
  if cp =? 34 then String "\"%char (String quote_char "")
  else if cp =? 92 then "\\"
  else if cp =? 10 then "\n"
  else if cp =? 13 then "\r"
  else if cp =? 9 then "\t"
  else if cp =? 12 then "\f"
  else if cp =? 8 then "\b"
  else if (32 <=? cp) && (cp <=? 126) then String (byte cp) ""
  else if cp <? 65536 then u_escape cp
  else
    let v := cp - 65536 in
    u_escape (Z.lor 55296 (Z.land (Z.shiftr v 10) 1023)) +:+
    u_escape (Z.lor 56320 (Z.land v 1023)).

Definition json_quote (s : string) : string :=
  String quote_char (cat (map escape_cp (code_points s)) +:+ String quote_char "").

Definition json_float (f : float) : string :=
  match f with
  | S754_nan => "NaN"
  | S754_infinity s => sign_str s +:+ "Infinity"
  | f => f_repr f
  end.

(** [json.dumps(v)] *)
Fixpoint dumps (v : json) : string :=
  match v with
  | JNull => "null"
  | JBool b => if b then "true" else "false"
  | JInt z => pretty z
  | JFloat f => json_float f
  | JStr s => json_quote s
  | JArr l => cat ["["; join ", " (map dumps l); "]"]
  | JObj d => cat ["{"; join ", " (map (λ '(k, v), cat [json_quote k; ": "; dumps v]) d); "}"]
  end.

Fixpoint spaces (n : nat) : string :=
  match n with O => "" | S n => String " "%char (spaces n) end.

Definition key_le {V} (a b : string * V) : Prop := String.le a.1 b.1.
#[global] Instance key_le_dec {V} : RelDecision (key_le (V:=V)).
Proof. intros a b. unfold key_le. apply _. Defined.

(** The items of an array or object at a nesting depth, one per line. *)
Definition block (open_ close : string) (level : nat) (items : list string) : string :=
  match items with
  | [] => open_ +:+ close
  | _ =>
      let sep := newline +:+ spaces (2 * S level) in
      cat [open_; sep; join ("," +:+ sep) items; newline; spaces (2 * level); close]
  end.

(** [json.dumps(v, indent=2, sort_keys=True)] *)
Fixpoint dumps_at (level : nat) (v : json) : string :=
  match v with
  | JArr l => block "[" "]" level (map (dumps_at (S level)) l)
  | JObj d =>
      block "{" "}" level (map (λ '(k, text), cat [json_quote k; ": "; text])
        (merge_sort key_le (map (λ '(k, v), (k, dumps_at (S level) v)) d)))
  | v => dumps v
  end.

Definition dumps_indent (v : json) : string := dumps_at 0 v.

(** ** Checks against known renderings *)

Example dumps_command :
  dumps (JArr [JStr "bash"; JStr (String quote_char "x")]) =
  cat ["["; json_quote "bash"; ", "; json_quote (String quote_char "x"); "]"].
Proof. reflexivity. Qed.

Example quote_escapes :
  json_quote (cat ["a\"; newline; utf8 233; utf8 128512]) =
  cat [String quote_char "a\\\n\u00e9\ud83d\ude00"; String quote_char ""].
Proof. vm_compute. reflexivity. Qed.

Example indent_sorted :
  dumps_indent (JObj [("b", JArr [JInt 1; JFloat (f_of_decimal false 5 (-1))]); ("a", JObj [])]) =
  join newline ["{"; cat ["  "; json_quote "a"; ": {},"]; cat ["  "; json_quote "b"; ": ["];
                "    1,"; "    0.5"; "  ]"; "}"].
Proof. vm_compute. reflexivity. Qed.
