(* ===== verification/PyColl.v ===== *)
(** * Sorting, sets and iteration

    The collection operations of Python that the reporting scripts apply to
    values they loaded: [<] on numbers, strings and lists, the stable [sorted]
    with a key, [set] with its hashability test, [for] over a value of any
    type, and arithmetic with a float.  Which pairs [sorted] compares is that of
    insertion: on numbers, strings and [None] a comparison that raises happens
    in every order. *)

From Stdlib Require Import Ascii SpecFloat.
From S2P Require Import Prelude PyFloat PyVal Json JsonOut.

Local Open Scope Z_scope.

(** ** Comparison *)

(** [a < b] on two numbers *)
Definition num_lt (a b : json) : option bool :=
  match as_int a, as_int b, a, b with
  | Some x, Some y, _, _ => Some (x <? y)
  | Some x, None, _, JFloat g => Some (bool_decide (cmp_Z_float x g = Some Lt))
  | None, Some y, JFloat f, _ => Some (bool_decide (cmp_Z_float y f = Some Gt))
  | None, None, JFloat f, JFloat g => Some (f_ltb f g)
  | _, _, _, _ => None
  end.

Definition order_error (op : string) (a b : json) : exn :=
  TypeError (cat ["'"; op; "' not supported between instances of '"; type_name a; "' and '";
                  type_name b; "'"]).

(** [a < b] *)
Fixpoint py_lt (a b : json) {struct a} : exc bool :=
  match a, b with
  | JStr s, JStr t => Ok (String.ltb s t)
  | JArr l, JArr k =>
      (fix go (l k : list json) : exc bool :=
         match l, k with
         | _, [] => Ok false
         | [], _ => Ok true
         | x :: l, y :: k => if py_eq x y then go l k else py_lt x y
         end) l k
  | _, _ => of_option (order_error "<" a b) (num_lt a b)
  end.

(** ** Sorting *)

Section sort_by.
Context {A : Type} (lt : A → A → exc bool).

(** Put [x] before the first element it is less than. *)
Fixpoint insert_by (x : A) (l : list A) : exc (list A) :=
  match l with
  | [] => Ok [x]
  | y :: l' =>
      less ← lt x y;
      if (less : bool) then Ok (x :: l) else l'' ← insert_by x l'; Ok (y :: l'')
  end.

Definition sort_by (l : list A) : exc (list A) := foldM (λ acc x, insert_by x acc) [] l.
End sort_by.

(** [sorted(l, key=key)] *)
Definition sorted_on {A} (key : A → json) : list A → exc (list A) :=
  sort_by (λ x y, py_lt (key x) (key y)).
Definition py_sorted : list json → exc (list json) := sorted_on id.

(** ** Sets and dictionaries *)

(** Two values a [set] takes for the same: equal, or both the [nan] object that
    the JSON decoder always returns *)
Definition same_item (a b : json) : bool :=
  match a, b with
  | JFloat S754_nan, JFloat S754_nan => true
  | _, _ => py_eq a b
  end.

Definition hashable (v : json) : exc unit :=
  raise_if (is_list v || is_dict v) (TypeError (cat ["unhashable type: '"; type_name v; "'"])).

(** [s.add(v)]: the element that was there first stays. *)
Definition set_add (s : list json) (v : json) : exc (list json) :=
  hashable v;;
  Ok (if existsb (same_item v) s then s else s ++ [v]).

(** A dictionary whose keys are values of any type *)
Definition vget {V} (k : json) (d : list (json * V)) : option V :=
  snd <$> List.find (λ e, same_item k e.1) d.
Fixpoint vset {V} (k : json) (v : V) (d : list (json * V)) : list (json * V) :=
  match d with
  | [] => [(k, v)]
  | (k', v') :: d => if same_item k k' then (k', v) :: d else (k', v') :: vset k v d
  end.

(** [sorted(set(l))] *)
Definition sorted_set (l : list json) : exc (list json) :=
  s ← foldM set_add [] l;
  py_sorted s.

(** [sorted(set(l))] of strings and of integers *)
Definition sorted_names (l : list string) : list string := sorted_strings (remove_dups l).
Definition sorted_ints (l : list Z) : list Z := merge_sort Z.le (remove_dups l).

(** ** Iteration and attributes *)

(** The elements [for x in v] runs over *)
Definition py_iter (v : json) : exc (list json) :=
  match v with
  | JArr l => Ok l
  | JObj d => Ok (JStr <$> d.*1)
  | JStr s => Ok (JStr ∘ utf8 <$> code_points s)
  | v => Err (TypeError (cat ["'"; type_name v; "' object is not iterable"]))
  end.

(** [v.get(key, default)] *)
Definition py_get (v : json) (key : string) (dflt : json) : exc json :=
  match v with
  | JObj d => Ok (default dflt (dget key d))
  | v => Err (AttributeError (cat ["'"; type_name v; "' object has no attribute 'get'"]))
  end.

(** [", ".join(l)] *)
Definition py_join (sep : string) (l : list json) : exc string :=
  ss ← mapM (λ '(i, v),
    match v with
    | JStr s => Ok s
    | v => Err (TypeError (cat ["sequence item "; pretty i; ": expected str instance, ";
                                type_name v; " found"]))
    end) (enumerate l);
  Ok (join sep ss).

(** ** Arithmetic with a float *)

(** The operand [v] of [v op f] for a float [f], as a float *)
Definition operand (op : string) (v : json) : exc float :=
  match v with
  | JFloat f => Ok f
  | JInt z => of_option (OverflowError "int too large to convert to float") (f_of_Z z)
  | JBool b => Ok (if b then f_normalize 1 0 else f_zero)
  | v => Err (TypeError (cat ["unsupported operand type(s) for "; op; ": '"; type_name v;
                              "' and 'float'"]))
  end.

(** [v / f] and [v * f], [f] not zero *)
Definition div_float (v : json) (f : float) : exc float :=
  x ← operand "/" v; Ok (f_div x f).
Definition mul_float (v : json) (f : float) : exc float :=
  raise_if (is_str v || is_list v) (TypeError "can't multiply sequence by non-int of type 'float'");;
  x ← operand "*" v;
  Ok (f_mul x f).

(** [a / b]: the quotient of two integers is rounded once. *)
Definition int_div (a b : Z) : exc float :=
  if b =? 0 then Err (ZeroDivisionError "division by zero")
  else if a =? 0 then Ok (S754_zero (b <? 0))
  else
    let '(q, e, l) := SFdiv_core_binary 53 1024 (Z.abs a) 0 (Z.abs b) 0 in
    match binary_round_aux 53 1024 (xorb (a <? 0) (b <? 0)) q e l with
    | S754_infinity _ => Err (OverflowError "integer division result too large for a float")
    | f => Ok f
    end.

Definition is_number (v : json) : bool :=
  match v with JInt _ | JBool _ | JFloat _ => true | _ => false end.

Definition py_div (a b : json) : exc float :=
  match as_int a, as_int b with
  | Some x, Some y => int_div x y
  | _, _ =>
      if is_number a && is_number b then
        x ← operand "/" a;
        y ← operand "/" b;
        if f_eqb y f_zero then Err (ZeroDivisionError "float division by zero") else Ok (f_div x y)
      else Err (TypeError (cat ["unsupported operand type(s) for /: '"; type_name a; "' and '";
                                type_name b; "'"]))
  end.

(** [v > x] for a number [x] *)
Definition gt_number (v x : json) : exc bool := of_option (order_error ">" v x) (num_lt x v).

(** [v >= n] for an integer [n] *)
Definition py_ge (v : json) (n : Z) : exc bool :=
  match v with
  | JFloat f => Ok (bool_decide (cmp_Z_float n f = Some Lt) || bool_decide (cmp_Z_float n f = Some Eq))
  | v => match as_int v with
         | Some z => Ok (n <=? z)
         | None => Err (order_error ">=" v (JInt n))
         end
  end.

(** [v // 2^k] for a number of at least [2^k] *)
Definition floordiv_pow2 (v : json) (k : Z) : json :=
  match v with
  | JFloat (S754_finite s m e) =>
      let n := if s then Zneg m else Zpos m in
      JFloat (f_normalize (if 0 <=? e - k then n * 2 ^ (e - k) else n / 2 ^ (k - e)) 0)
  | JFloat _ => JFloat S754_nan
  | v => JInt (default 0 (as_int v) / 2 ^ k)
  end.

(** ** Sorting permutes *)

Section sort_by_lemmas.
Context {A : Type} (lt : A → A → exc bool).

Lemma insert_by_perm x l k : insert_by lt x l = Ok k → k ≡ₚ x :: l.
Proof.
  revert k. induction l as [|y l IH]; intros k; simpl; [by intros [= <-]|].
  intros Hk. apply bind_Ok in Hk as (b & _ & Hk). destruct b; [by injection Hk as <-|].
  apply bind_Ok in Hk as (l' & Hl' & Hk). injection Hk as <-.
  rewrite (IH _ Hl'). apply Permutation_swap.
Qed.

Lemma sort_by_perm l k : sort_by lt l = Ok k → k ≡ₚ l.
Proof.
  unfold sort_by. intros Hk.
  apply (foldM_inv _ (λ done acc, acc ≡ₚ done)) in Hk; [done|done|].
  intros done x rest acc acc' _ Hacc Hins. apply insert_by_perm in Hins.
  rewrite Hins, Hacc. by rewrite Permutation_app_comm.
Qed.

(** Where [lt] decides a total preorder on the elements, sorting returns. *)
Context (R : relation A) (P : A → Prop).
Hypothesis lt_total : ∀ x y, P x → P y → ∃ b, lt x y = Ok b ∧ (b = false → R y x) ∧ (b = true → R x y).
Hypothesis R_trans : ∀ x y z, P x → P y → P z → R x y → R y z → R x z.

Lemma insert_by_sorted x l :
  P x → Forall P l → StronglySorted R l →
  ∃ k, insert_by lt x l = Ok k ∧ StronglySorted R k.
Proof using lt_total R_trans.
  intros Hx. induction l as [|y l IH]; intros Hl Hs; simpl; [eexists; split; [done|repeat constructor]|].
  inversion Hl as [|? ? Hy Hl']; subst. inversion Hs as [|? ? Hs' Hyl]; subst.
  destruct (lt_total x y) as (b & -> & Hf & Ht); [done..|]. cbn [mbind result_bind]. destruct b.
  - eexists. split; [done|]. constructor; [done|]. specialize (Ht eq_refl). constructor; [done|].
    rewrite Forall_forall in Hyl, Hl' |- *. intros z Hz. by apply (R_trans x y z); auto.
  - destruct (IH Hl' Hs') as (k & Hk & Hsk). rewrite Hk. cbn [mbind result_bind].
    eexists. split; [done|]. constructor; [done|]. apply insert_by_perm in Hk. rewrite Hk.
    constructor; [by apply Hf|done].
Qed.

Lemma sort_by_sorted l :
  Forall P l → ∃ k, sort_by lt l = Ok k ∧ k ≡ₚ l ∧ StronglySorted R k.
Proof using lt_total R_trans.
  intros Hl. unfold sort_by.
  destruct (foldM_total (λ acc x, insert_by lt x acc)
    (λ done acc, acc ≡ₚ done ∧ StronglySorted R acc) l []) as (k & Hk & Hp & Hs);
    [by split; [done|constructor]| |by exists k].
  intros done x rest acc -> [Hp Hs]. apply Forall_app in Hl as [Hd Hx].
  apply Forall_cons in Hx as [Hx _].
  destruct (insert_by_sorted x acc) as (k & Hk & Hsk); [done|by rewrite Hp|done|].
  exists k. split; [done|]. split; [|done]. apply insert_by_perm in Hk. rewrite Hk, Hp.
  by rewrite Permutation_app_comm.
Qed.
End sort_by_lemmas.

(** ** Sorted sets *)

Lemma sorted_names_elem l x : x ∈ sorted_names l ↔ x ∈ l.
Proof.
  unfold sorted_names, sorted_strings. rewrite merge_sort_Permutation. apply elem_of_remove_dups.
Qed.

Lemma sorted_names_NoDup l : NoDup (sorted_names l).
Proof.
  unfold sorted_names, sorted_strings. rewrite merge_sort_Permutation. apply NoDup_remove_dups.
Qed.

Lemma sorted_ints_elem l x : x ∈ sorted_ints l ↔ x ∈ l.
Proof. unfold sorted_ints. rewrite merge_sort_Permutation. apply elem_of_remove_dups. Qed.

Lemma sorted_ints_NoDup l : NoDup (sorted_ints l).
Proof. unfold sorted_ints. rewrite merge_sort_Permutation. apply NoDup_remove_dups. Qed.

(** [sorted(set(l))] of integers: each of them once *)
Lemma sorted_set_ints l k :
  Forall (λ v, ∃ z, v = JInt z) l → sorted_set l = Ok k → NoDup k ∧ ∀ v, v ∈ k ↔ v ∈ l.
Proof.
  intros Hl H. apply bind_Ok in H as (s & Hs & Hk%sort_by_perm).
  enough (NoDup s ∧ ∀ v, v ∈ s ↔ v ∈ l) as [Hnd Hel].
  { rewrite Hk. split; [done|]. intros v. by rewrite Hk. }
  apply (foldM_inv _ (λ done s, NoDup s ∧ ∀ v, v ∈ s ↔ v ∈ done)) in Hs; [done|split; [constructor|set_solver]|].
  intros done x rest acc acc' -> [Hnd Hel] Hadd. apply bind_Ok in Hadd as ([] & _ & Hadd).
  apply Forall_app in Hl as [Hd Hx]. apply Forall_cons in Hx as [[z ->] _].
  injection Hadd as <-. destruct (existsb _ acc) eqn:Hex.
  - split; [done|]. apply existsb_exists in Hex as (v & Hv%list_elem_of_In & Heq).
    intros u. rewrite elem_of_app, list_elem_of_singleton, Hel. split; [by left|]. intros [?| ->]; [done|].
    rewrite Forall_forall in Hd. destruct (Hd v) as [z' ->]; [by apply Hel|].
    cbn in Heq. apply Z.eqb_eq in Heq as ->. by apply Hel.
  - split.
    + apply NoDup_app. split_and!; [done| |apply NoDup_singleton].
      intros v Hv ->%list_elem_of_singleton. enough (existsb (same_item (JInt z)) acc = true) by congruence.
      apply existsb_exists. exists (JInt z). split; [by apply list_elem_of_In|]. cbn. apply Z.eqb_refl.
    + intros u. by rewrite !elem_of_app, Hel.
Qed.

#[export] Instance JInt_inj : Inj (=) (=) JInt.
Proof. by intros x y [= ->]. Qed.

Lemma set_add_ints s l :
  Forall (λ v, ∃ z, v = JInt z) l → ∃ s', foldM set_add s l = Ok s'.
Proof.
  intros Hl. revert s. induction Hl as [|v l [z ->] _ IH]; intros s; [by eexists|].
  cbn [foldM]. unfold set_add at 1. cbn [hashable is_list is_dict orb raise_if mbind result_bind]. apply IH.
Qed.

Definition int_le (a b : json) : Prop := ∃ x y, a = JInt x ∧ b = JInt y ∧ x ≤ y.

(** [sorted] returns on integers. *)
Lemma py_sorted_ints l :
  Forall (λ v, ∃ z, v = JInt z) l → ∃ k, py_sorted l = Ok k ∧ k ≡ₚ l ∧ StronglySorted int_le k.
Proof.
  apply (sort_by_sorted (λ x y, py_lt (id x) (id y)) int_le).
  - intros x y [a ->] [b ->]. exists (a <? b). split; [done|].
    split; intros H; [apply Z.ltb_ge in H|apply Z.ltb_lt in H]; eexists _, _; split_and!; try done; lia.
  - intros x y z _ _ _ (a & b & -> & -> & ?) (b' & c & [= <-] & -> & ?). exists a, c. split_and!; [done..|lia].
Qed.

Lemma int_values l : Forall (λ v, ∃ z, v = JInt z) l → ∃ zs, l = JInt <$> zs.
Proof. induction 1 as [|v l [z ->] _ [zs ->]]; [by exists []|by exists (z :: zs)]. Qed.

Lemma int_le_sorted zs : StronglySorted int_le (JInt <$> zs) → StronglySorted Z.le zs.
Proof.
  induction zs as [|z zs IH]; [constructor|]. cbn. intros H. inversion H as [|? ? Hs Hz]; subst.
  constructor; [by apply IH|]. rewrite Forall_fmap in Hz. eapply Forall_impl; [exact Hz|].
  intros y (a & b & [= <-] & [= <-] & ?). done.
Qed.

Lemma sorted_ints_sorted l : StronglySorted Z.le (sorted_ints l).
Proof. apply (StronglySorted_merge_sort _). Qed.

(** The sorted list of distinct integers is determined by its elements. *)
Lemma sorted_ints_unique zs l :
  StronglySorted Z.le zs → NoDup zs → (∀ z, z ∈ zs ↔ z ∈ l) → zs = sorted_ints l.
Proof.
  intros Hs Hnd Hel. apply (StronglySorted_unique Z.le); [done|apply sorted_ints_sorted|].
  apply NoDup_Permutation; [done|apply sorted_ints_NoDup|]. intros z. by rewrite Hel, sorted_ints_elem.
Qed.

Lemma sorted_set_Z l : sorted_set (JInt <$> l) = Ok (JInt <$> sorted_ints l).
Proof.
  assert (∀ zs : list Z, Forall (λ v, ∃ z, v = JInt z) (JInt <$> zs)) as Hint.
  { intros zs. apply Forall_fmap, Forall_forall. intros z _. by exists z. }
  destruct (set_add_ints [] (JInt <$> l) (Hint l)) as [s Hs].
  destruct (int_values s) as [ss ->].
  { apply (foldM_inv _ (λ _ s, Forall (λ v, ∃ z, v = JInt z) s)) in Hs; [done|constructor|].
    intros done x rest acc acc' Hl Hacc Hadd. apply bind_Ok in Hadd as ([] & _ & [= <-]).
    case_match; [done|]. apply Forall_app. split; [done|]. apply Forall_singleton.
    specialize (Hint l). rewrite Hl in Hint. apply Forall_app in Hint as [_ Hx]. by apply Forall_cons in Hx as [Hx _]. }
  destruct (py_sorted_ints (JInt <$> ss) (Hint ss)) as (k & Hk & Hp & Hsort).
  assert (sorted_set (JInt <$> l) = Ok k) as Hset by (unfold sorted_set; rewrite Hs; exact Hk).
  destruct (sorted_set_ints _ _ (Hint l) Hset) as [Hnd Hel].
  destruct (int_values k) as [zs ->]; [by rewrite Hp|]. rewrite Hset. do 2 f_equal.
  apply sorted_ints_unique; [by apply int_le_sorted|by apply NoDup_fmap_1 in Hnd|].
  intros z. specialize (Hel (JInt z)). by rewrite !(list_elem_of_fmap_inj JInt) in Hel.
Qed.

Lemma py_sorted_Z ks : NoDup ks → py_sorted (JInt <$> ks) = Ok (JInt <$> sorted_ints ks).
Proof.
  intros Hnd. assert (Forall (λ v, ∃ z, v = JInt z) (JInt <$> ks)) as Hint.
  { apply Forall_fmap, Forall_forall. intros z _. by exists z. }
  destruct (py_sorted_ints _ Hint) as (k & Hk & Hp & Hs).
  destruct (int_values k) as [zs ->]; [by rewrite Hp|]. rewrite Hk. do 2 f_equal.
  apply sorted_ints_unique; [by apply int_le_sorted| |].
  - apply (NoDup_fmap_1 JInt). rewrite Hp. by apply (NoDup_fmap_2 JInt).
  - intros z. rewrite <-(list_elem_of_fmap_inj JInt zs z), Hp. apply (list_elem_of_fmap_inj JInt).
Qed.

(** ** Tables with integer keys *)

Definition int_keys {V} (t : list (json * V)) : Prop := Forall (λ e, ∃ z, e.1 = JInt z) t.

Lemma vget_vset_int {V} z z' (v : V) t :
  int_keys t → vget (JInt z) (vset (JInt z') v t) = if z =? z' then Some v else vget (JInt z) t.
Proof.
  unfold vget. induction 1 as [|[x y] t [u Hu] _ IH]; cbn [vset].
  - cbn. by destruct (z =? z').
  - cbn in Hu. subst x. change (same_item (JInt z') (JInt u)) with (z' =? u).
    destruct (Z.eqb_spec z' u) as [->|Hne]; cbn.
    + by destruct (z =? u).
    + destruct (Z.eqb_spec z u) as [->|]; [|done]. by destruct (Z.eqb_spec u z').
Qed.

(** The keys after one more entry: a new one comes last. *)
Lemma vset_int_keys {V} z (v : V) t ks :
  t.*1 = JInt <$> ks → (vset (JInt z) v t).*1 = JInt <$> (if bool_decide (z ∈ ks) then ks else ks ++ [z]).
Proof.
  revert ks. induction t as [|[x y] t IH]; intros [|k ks] Hks; try done; cbn [vset].
  injection Hks as -> Hks. change (same_item (JInt z) (JInt k)) with (z =? k).
  destruct (Z.eqb_spec z k) as [->|Hne].
  - rewrite bool_decide_true by set_solver. cbn. by f_equal.
  - cbn. rewrite (IH ks Hks). case_bool_decide as H1; case_bool_decide as H2; set_solver.
Qed.

Lemma int_keys_of {V} (t : list (json * V)) ks : t.*1 = JInt <$> ks → int_keys t.
Proof.
  intros H. apply Forall_forall. intros [k v] Hin.
  assert (k ∈ t.*1) as Hk by (by apply (list_elem_of_fmap_2 fst _ (k, v))).
  rewrite H in Hk. apply list_elem_of_fmap in Hk as (z & -> & _). by exists z.
Qed.

Lemma vset_elem {V} z z' (v : V) t :
  int_keys t → JInt z ∈ (vset (JInt z') v t).*1 ↔ z = z' ∨ JInt z ∈ t.*1.
Proof.
  intros Ht. destruct (int_values t.*1) as [ks Hks]; [by apply Forall_fmap|].
  rewrite (vset_int_keys _ _ _ ks Hks), Hks, !(list_elem_of_fmap_inj JInt).
  case_bool_decide; set_solver.
Qed.

Lemma vset_ints {V} z (v : V) t : int_keys t → int_keys (vset (JInt z) v t).
Proof.
  intros Ht. destruct (int_values t.*1) as [ks Hks]; [by apply Forall_fmap|].
  eapply int_keys_of. by apply vset_int_keys.
Qed.

(** ** Grouping *)

Section groups.
Context {X V : Type} (key : X → Z) (value : X → option V).

(** [t[key].append(value)] for the elements that have a value *)
Definition group_step (t : list (json * list V)) (r : X) : list (json * list V) :=
  match value r with
  | Some v => vset (JInt (key r)) (default [] (vget (JInt (key r)) t) ++ [v]) t
  | None => t
  end.

Definition group (z : Z) (l : list X) : list V :=
  omap (λ r, if key r =? z then value r else None) l.

Definition keys_of (l : list X) : list Z :=
  omap (λ r, match value r with Some _ => Some (key r) | None => None end) l.

Lemma groups_spec l :
  let t := foldl group_step [] l in
  (∃ ks, t.*1 = JInt <$> ks ∧ NoDup ks ∧ ∀ z, z ∈ ks ↔ z ∈ keys_of l) ∧
  ∀ z, default [] (vget (JInt z) t) = group z l.
Proof.
  induction l as [|r l IH] using rev_ind; cbn zeta.
  - split; [|done]. exists []. split_and!; [done|constructor|done].
  - cbn zeta in IH. rewrite foldl_snoc. set (t := foldl group_step [] l) in *. clearbody t.
    destruct IH as [(ks & Hks & Hnd & Hel) Hget]. unfold group_step, keys_of, group.
    setoid_rewrite omap_app. cbn [omap list_omap]. destruct (value r) as [v|].
    + split.
      * eexists. split; [by apply vset_int_keys|]. case_bool_decide as Hin.
        -- split; [done|]. intros z. rewrite Hel. unfold keys_of. set_solver.
        -- split; [apply NoDup_app; split_and!; [done|set_solver|apply NoDup_singleton]|].
           intros z. rewrite !elem_of_app, Hel. done.
      * intros z. rewrite vget_vset_int by (by eapply int_keys_of). rewrite (Z.eqb_sym z).
        destruct (Z.eqb_spec (key r) z) as [<-|]; cbn [default]; [by rewrite Hget|].
        rewrite Hget. unfold group. by rewrite app_nil_r.
    + split.
      * exists ks. split_and!; [done..|]. intros z. rewrite Hel, app_nil_r. done.
      * intros z. rewrite Hget. unfold group. destruct (key r =? z); by rewrite app_nil_r.
Qed.
End groups.
