(* ===== verification/World.v ===== *)
(** * The world the scripts run in

    The state a script reads and changes (file system, standard streams, clock,
    child processes) and the monad of its statements: a computation takes the
    world and returns a value or a raised exception together with the new world,
    so that what happened before a [raise] stays done.  Files and directories
    are keyed by their absolute components; there are no symbolic links.  Time
    is an integer number of nanoseconds. *)

From Stdlib Require Import Ascii.
From S2P Require Import Prelude PyFloat PyVal PyPath Json.

Local Open Scope Z_scope.

(** ** State *)

Inductive node : Type :=
  | File (bytes : string)
  | Dir.

Abbreviation fsys := (gmap (list string) node).

(** A child process as the parent can observe it.  [pr_exit] is the time it
    exits and its exit code if nothing interferes ([None]: never); [pr_term] is
    the delay and the code with which it exits on SIGTERM ([None]: it ignores
    the signal); [pr_kill] is the delay after which SIGKILL ends it; [pr_eof] is
    the delay between its exit and the end of file on its output pipes ([None]:
    a descendant keeps them open); [pr_out] and [pr_err] are the bytes it
    writes; [pr_ret] is the [returncode] attribute of the Popen object. *)
Record proc : Type := Proc {
  pr_exit : option (Z * Z);
  pr_term : option (N * Z);
  pr_kill : N;
  pr_eof : option N;
  pr_out : string;
  pr_err : string;
  pr_ret : option Z;
}.

Definition set_exit (x : Z * Z) (p : proc) : proc :=
  Proc (Some x) (pr_term p) (pr_kill p) (pr_eof p) (pr_out p) (pr_err p) (pr_ret p).
Definition set_ret (r : option Z) (p : proc) : proc :=
  Proc (pr_exit p) (pr_term p) (pr_kill p) (pr_eof p) (pr_out p) (pr_err p) r.

Record world : Type := World {
  w_fs : fsys;
  w_cwd : list string;
  w_env : dict string;
  w_out : list string;
  w_err : list string;
  w_now : Z;
  w_procs : list proc;
}.

Definition set_fs (fs : fsys) (w : world) : world :=
  World fs (w_cwd w) (w_env w) (w_out w) (w_err w) (w_now w) (w_procs w).
Definition set_out (out : list string) (w : world) : world :=
  World (w_fs w) (w_cwd w) (w_env w) out (w_err w) (w_now w) (w_procs w).
Definition set_err (err : list string) (w : world) : world :=
  World (w_fs w) (w_cwd w) (w_env w) (w_out w) err (w_now w) (w_procs w).
Definition set_now (now : Z) (w : world) : world :=
  World (w_fs w) (w_cwd w) (w_env w) (w_out w) (w_err w) now (w_procs w).
Definition set_procs (ps : list proc) (w : world) : world :=
  World (w_fs w) (w_cwd w) (w_env w) (w_out w) (w_err w) (w_now w) ps.

(** ** Statements *)

Definition io (A : Type) : Type := world → exc A * world.

#[export] Instance io_ret : MRet io := λ A a w, (Ok a, w).
#[export] Instance io_bind : MBind io := λ A B f m w,
  match m w with
  | (Ok a, w') => f a w'
  | (Err e, w') => (Err e, w')
  end.

(** An expression without side effects. *)
Definition pure_ {A} (m : exc A) : io A := λ w, (m, w).
Definition io_raise {A} (e : exn) : io A := pure_ (Err e).
Definition io_raise_if (b : bool) (e : exn) : io unit := pure_ (raise_if b e).

(** An expression that reads the world. *)
Definition gets {A} (f : world → A) : io A := λ w, (Ok (f w), w).

(** [try: m except ...: h] *)
Definition catch {A} (m : io A) (h : exn → io A) : io A := λ w,
  match m w with
  | (Err e, w') => h e w'
  | r => r
  end.

(** [try: m finally: f]: an exception of [f] replaces the outcome of [m]. *)
Definition finally {A} (m : io A) (f : io unit) : io A := λ w,
  let '(r, w') := m w in
  match f w' with
  | (Ok _, w'') => (r, w'')
  | (Err e, w'') => (Err e, w'')
  end.

Definition in_range (lo hi : Z) (c : ascii) : bool := (lo <=? code c) && (code c <=? hi).

(** Strict UTF-8: no overlong form, no surrogate, nothing above U+10FFFF. *)
Fixpoint utf8_valid (s : string) : bool :=
  match s with
  | "" => true
  | String a r =>
      let n := code a in
      if n <? 128 then utf8_valid r
      else match r with
      | "" => false
      | String b r1 =>
          if (194 <=? n) && (n <=? 223) then is_continuation b && utf8_valid r1
          else match r1 with
          | "" => false
          | String c r2 =>
              if (224 <=? n) && (n <=? 239) then
                in_range (if n =? 224 then 160 else 128) (if n =? 237 then 159 else 191) b
                && is_continuation c && utf8_valid r2
              else match r2 with
              | "" => false
              | String d r3 =>
                  (240 <=? n) && (n <=? 244)
                  && in_range (if n =? 240 then 144 else 128) (if n =? 244 then 143 else 191) b
                  && is_continuation c && is_continuation d && utf8_valid r3
              end
          end
      end
  end.

(** What encoding a lone surrogate raises, a [UnicodeEncodeError] *)
Definition surrogate_error : exn := ValueError "surrogates not allowed".

(** [print(line)]: standard output is a strict UTF-8 stream, and nothing of a
    line that cannot be encoded is written. *)
Definition print (line : string) : io unit := λ w,
  if utf8_valid line then (Ok tt, set_out (w_out w ++ [line]) w) else (Err surrogate_error, w).

(** [print(..., file=sys.stderr)]; standard error escapes what it cannot encode
    instead of raising, and the model keeps the line as it is. *)
Definition eprint (line : string) : io unit := λ w, (Ok tt, set_err (w_err w ++ [line]) w).

(** ** Files *)

Definition node_at (fs : fsys) (q : list string) : option node :=
  match q with [] => Some Dir | _ => fs !! q end.

(** The kernel's walk of absolute components from [cur]. *)
Fixpoint walk (fs : fsys) (cur comps : list string) : result string (list string) :=
  match comps with
  | [] => Ok cur
  | c :: comps =>
      match node_at fs cur with
      | Some Dir => walk fs (if bool_decide (c = "..") then removelast cur else cur ++ [c]) comps
      | Some (File _) => Err "[Errno 20] Not a directory"
      | None => Err "[Errno 2] No such file or directory"
      end
  end.

Definition locate (w : world) (p : path) : result string (list string) :=
  walk (w_fs w) [] (anchor (w_cwd w) p).

(** [p.exists()] *)
Definition path_exists (w : world) (p : path) : bool :=
  match locate w p with
  | Ok q => match node_at (w_fs w) q with Some _ => true | None => false end
  | Err _ => false
  end.

Definition os_error (m : string) (p : path) : exn :=
  OSError (cat [m; ": "; repr_str (path_str p)]).

Definition file_bytes (w : world) (p : path) : exc string :=
  match locate w p with
  | Err m => Err (os_error m p)
  | Ok q =>
      match node_at (w_fs w) q with
      | Some (File c) => Ok c
      | Some Dir => Err (os_error "[Errno 21] Is a directory" p)
      | None => Err (os_error "[Errno 2] No such file or directory" p)
      end
  end.

(** Text mode reads [\r\n] and [\r] as [\n]. *)
Fixpoint universal_newlines (s : string) : string :=
  match s with
  | "" => ""
  | String c r =>
      if code c =? 13 then
        String (byte 10)
          (match r with
           | String c' r' =>
               if code c' =? 10 then universal_newlines r' else universal_newlines r
           | "" => ""
           end)
      else String c (universal_newlines r)
  end.

Definition decode_text (bytes : string) : exc string :=
  if utf8_valid bytes then Ok (universal_newlines bytes) else Err UnicodeDecodeError.

(** [p.read_text(encoding="utf-8")] *)
Definition read_text (p : path) : io string := λ w,
  (file_bytes w p ≫= decode_text, w).

(** [p.write_text(text, encoding="utf-8")] *)
Definition write_text (p : path) (text : string) : io unit := λ w,
  match locate w p with
  | Err m => (Err (os_error m p), w)
  | Ok q =>
      match node_at (w_fs w) q with
      | Some Dir => (Err (os_error "[Errno 21] Is a directory" p), w)
      | _ => (Ok tt, set_fs (<[q := File text]> (w_fs w)) w)
      end
  end.

(** The same for text that may hold lone surrogates: the file has been emptied
    when that is noticed. *)
Definition write_utf8 (p : path) (text : string) : io unit :=
  if utf8_valid text then write_text p text
  else write_text p "";; io_raise surrogate_error.

(** [handle.write(text)] on a file that was opened for writing at [p] *)
Definition append_utf8 (p : path) (text : string) : io unit :=
  io_raise_if (negb (utf8_valid text)) surrogate_error;;
  bytes ← (λ w, (file_bytes w p, w));
  write_text p (bytes +:+ text).

(** [with open(p, "wb") as f: ...] around a call that puts [bytes] into the open
    file and then raises the exception, if there is one: opening empties the file
    or makes it, and what was put into it stays there. *)
Definition write_stream (p : path) (stream : string * option exn) : io unit :=
  let '(bytes, failure) := stream in
  write_text p bytes;;
  match failure with None => mret tt | Some e => io_raise e end.

(** [p.is_dir()] *)
Definition path_is_dir (w : world) (p : path) : bool :=
  match locate w p with
  | Ok q => match node_at (w_fs w) q with Some Dir => true | _ => false end
  | Err _ => false
  end.

(** [os.path.samefile(p, q)], [False] if one of them does not exist *)
Definition same_file (w : world) (p q : path) : bool :=
  path_exists w p && path_exists w q &&
  match locate w p, locate w q with Ok a, Ok b => bool_decide (a = b) | _, _ => false end.

(** [shutil.copy2(src, dst)]; file times and modes are not modelled *)
Definition copy2 (src dst : path) : io unit := λ w,
  let dst := if path_is_dir w dst then path_div dst (path_name src) else dst in
  if same_file w src dst then
    (Err (OSError (cat ["PosixPath("; repr_str (path_str src); ") and PosixPath(";
                        repr_str (path_str dst); ") are the same file"])), w)
  else match file_bytes w src with
  | Err e => (Err e, w)
  | Ok bytes => write_text dst bytes w
  end.

(** [p.stat().st_size]; the size of a directory depends on the file system *)
Definition stat_size (dir_size : list string → Z) (w : world) (p : path) : exc Z :=
  match locate w p with
  | Err m => Err (os_error m p)
  | Ok q =>
      match node_at (w_fs w) q with
      | Some (File bytes) => Ok (Z.of_nat (String.length bytes))
      | Some Dir => Ok (dir_size q)
      | None => Err (os_error "[Errno 2] No such file or directory" p)
      end
  end.

(** The names in a directory that end in [suffix], as [p.glob("*" + suffix)]
    yields them, in some order *)
Definition glob_suffix (suffix : string) (w : world) (p : path) : list string :=
  if path_is_dir w p then
    match locate w p with
    | Ok q => omap (λ '(k, _),
        match last k with
        | Some name =>
            if bool_decide (removelast k = q) && endswith suffix name then Some name else None
        | None => None
        end) (map_to_list (w_fs w))
    | Err _ => []
    end
  else [].

(** Create the directories along [comps] below [cur] that are missing. *)
Fixpoint mkdirs (fs : fsys) (cur comps : list string) : result string fsys :=
  match comps with
  | [] => Ok fs
  | c :: comps =>
      let q := cur ++ [c] in
      match fs !! q with
      | Some Dir => mkdirs fs q comps
      | None => mkdirs (<[q := Dir]> fs) q comps
      | Some (File _) =>
          Err (match comps with
               | [] => "[Errno 17] File exists"
               | _ => "[Errno 20] Not a directory"
               end)
      end
  end.

(** [p.mkdir(parents=True, exist_ok=True)] *)
Definition mkdir_p (p : path) : io unit := λ w,
  match mkdirs (w_fs w) [] (norm_parts (anchor (w_cwd w) p)) with
  | Ok fs => (Ok tt, set_fs fs w)
  | Err m => (Err (os_error m p), w)
  end.

(** [p.mkdir(exist_ok=True)]: the parent has to be there. *)
Definition mkdir_one (p : path) : io unit := λ w,
  match locate w p with
  | Err m => (Err (os_error m p), w)
  | Ok q =>
      match node_at (w_fs w) q with
      | Some Dir => (Ok tt, w)
      | Some (File _) => (Err (os_error "[Errno 17] File exists" p), w)
      | None => (Ok tt, set_fs (<[q := Dir]> (w_fs w)) w)
      end
  end.

(** [not raw.strip()]: only Unicode white space. *)
Fixpoint is_blank (s : string) : bool :=
  match s with
  | "" => true
  | String a r =>
      let n := code a in
      if is_ascii_space a then is_blank r
      else match r with
      | String b r1 =>
          if (n =? 194) && ((code b =? 133) || (code b =? 160)) then is_blank r1
          else match r1 with
          | String c r2 =>
              ((n =? 225) && (code b =? 154) && (code c =? 128)
               || (n =? 226) && (code b =? 128)
                  && (in_range 128 138 c || (code c =? 168) || (code c =? 169) || (code c =? 175))
               || (n =? 226) && (code b =? 129) && (code c =? 159)
               || (n =? 227) && (code b =? 128) && (code c =? 128))
              && is_blank r2
          | "" => false
          end
      | "" => false
      end
  end.

(** ** Reasoning about statements *)

Lemma io_bind_Ok {A B} (m : io A) (f : A → io B) w b w' :
  (m ≫= f) w = (Ok b, w') ↔ ∃ a w1, m w = (Ok a, w1) ∧ f a w1 = (Ok b, w').
Proof.
  unfold mbind, io_bind. destruct (m w) as [[a|e] w1]; naive_solver.
Qed.

Lemma io_bind_run {A B} (m : io A) (f : A → io B) w a w1 :
  m w = (Ok a, w1) → (m ≫= f) w = f a w1.
Proof. intros H. unfold mbind, io_bind. by rewrite H. Qed.

Lemma io_bind_err {A B} (m : io A) (f : A → io B) w e w1 :
  m w = (Err e, w1) → (m ≫= f) w = (Err e, w1).
Proof. intros H. unfold mbind, io_bind. by rewrite H. Qed.

Lemma io_print_Ok s w u w' :
  print s w = (Ok u, w') ↔ utf8_valid s = true ∧ w' = set_out (w_out w ++ [s]) w.
Proof. unfold print. destruct u, (utf8_valid s); naive_solver. Qed.

Lemma io_print_cases s w :
  (utf8_valid s = true ∧ print s w = (Ok tt, set_out (w_out w ++ [s]) w)) ∨
  (utf8_valid s = false ∧ print s w = (Err surrogate_error, w)).
Proof. unfold print. destruct (utf8_valid s); auto. Qed.

(** [io_raises P m]: from every world, an exception [m] ends with satisfies [P]. *)
Definition io_raises {A} (P : exn → Prop) (m : io A) : Prop := ∀ w, raises P (m w).1.

Lemma io_raises_bind {A B} P (m : io A) (f : A → io B) :
  io_raises P m → (∀ a, io_raises P (f a)) → io_raises P (m ≫= f).
Proof.
  intros Hm Hf w. specialize (Hm w). unfold mbind, io_bind.
  destruct (m w) as [[a|e] w1]; simpl in *; [apply Hf|done].
Qed.

Lemma io_raises_pure {A} P (m : exc A) : raises P m → io_raises P (pure_ m).
Proof. by intros ? w. Qed.

Lemma io_raises_ret {A} P (a : A) : io_raises P (mret a).
Proof. by intros w. Qed.

Lemma io_raises_gets {A} P (f : world → A) : io_raises P (gets f).
Proof. by intros w. Qed.

Lemma io_raises_print (P : exn → Prop) s : P surrogate_error → io_raises P (print s).
Proof. intros HP w. unfold print. by destruct (utf8_valid s). Qed.

Lemma io_raises_eprint P s : io_raises P (eprint s).
Proof. by intros w. Qed.

#[export] Hint Resolve io_raises_pure io_raises_ret io_raises_gets io_raises_print io_raises_eprint : raises.

Lemma io_foldM_raises {A B} P (f : A → B → io A) l a :
  (∀ a x, x ∈ l → io_raises P (f a x)) → io_raises P (foldM f a l).
Proof.
  revert a. induction l as [|x l IH]; intros a Hf; simpl; [apply io_raises_ret|].
  apply io_raises_bind; [apply Hf; set_solver|]. intros; apply IH; set_solver.
Qed.

(** The invariant rule of an effectful loop. *)
Lemma io_foldM_inv {A B} (f : A → B → io A) (P : list B → A → world → Prop) l a0 w0 a w :
  P [] a0 w0 →
  (∀ done x rest acc acc' w w', l = done ++ x :: rest → P done acc w →
    f acc x w = (Ok acc', w') → P (done ++ [x]) acc' w') →
  foldM f a0 l w0 = (Ok a, w) → P l a w.
Proof.
  intros H0 Hstep.
  assert (∀ rest done acc wi, l = done ++ rest → P done acc wi →
    foldM f acc rest wi = (Ok a, w) → P l a w) as Hgen; [|by apply (Hgen l [])].
  induction rest as [|x rest IH]; intros done acc wi -> HP Hrun; simpl in Hrun.
  - unfold mret, io_ret in Hrun. simplify_eq. by rewrite app_nil_r.
  - apply io_bind_Ok in Hrun as (acc' & w1 & Hf & Hrun).
    apply (IH (done ++ [x]) acc' w1); [by rewrite <-app_assoc| |done].
    by eapply Hstep.
Qed.

Ltac io_step :=
  match goal with
  | H : @mbind io _ _ _ _ _ _ = (Ok _, _) |- _ =>
      apply io_bind_Ok in H; destruct H as (? & ? & ? & H)
  | H : pure_ _ _ = (_, _) |- _ => unfold pure_ in H; injection H as H ?
  | H : io_raise_if _ _ _ = (Ok _, _) |- _ =>
      unfold io_raise_if, pure_ in H; injection H as H ?
  | H : mret _ _ = (Ok _, _) |- _ => unfold mret, io_ret in H
  | H : print _ _ = (Ok _, _) |- _ => apply io_print_Ok in H; destruct H as [? ->]
  | H : gets _ _ = (_, _) |- _ => unfold gets in H
  | H : (Ok _, _) = (Ok _, _) |- _ => injection H as H ?
  | H : (Err _, _) = (Ok _, _) |- _ => discriminate H
  end.
Ltac inv_io := repeat (first [io_step | inv_ok_step]; subst).

Lemma decode_text_raises bytes : raises (λ e, e = UnicodeDecodeError) (decode_text bytes).
Proof. unfold decode_text. by case_match. Qed.

Lemma file_bytes_raises w p : raises (λ e, ∃ m, e = OSError m) (file_bytes w p).
Proof. unfold file_bytes, os_error. repeat case_match; simpl; eauto. Qed.

Lemma read_text_world p w : (read_text p w).2 = w.
Proof. done. Qed.

(** The JSON document a file holds, if it holds one. *)
Definition json_file (w : world) (p : path) : option json :=
  match file_bytes w p ≫= decode_text with
  | Ok text => match json_loads text with Ok v => Some v | Err _ => None end
  | Err _ => None
  end.

(** Guards of effectful code, backwards. *)
Lemma io_pure_Ok {A} (m : exc A) w a w' : pure_ m w = (Ok a, w') ↔ m = Ok a ∧ w' = w.
Proof. unfold pure_. naive_solver. Qed.

Lemma io_bind_pure {A B} (m : exc A) (f : A → io B) w b w' :
  (pure_ m ≫= f) w = (Ok b, w') ↔ ∃ a, m = Ok a ∧ f a w = (Ok b, w').
Proof. rewrite io_bind_Ok. setoid_rewrite io_pure_Ok. naive_solver. Qed.

Lemma io_bind_raise_if {B} b e (f : unit → io B) w r w' :
  (io_raise_if b e ≫= f) w = (Ok r, w') ↔ b = false ∧ f tt w = (Ok r, w').
Proof.
  unfold io_raise_if. rewrite io_bind_pure. setoid_rewrite raise_if_Ok. split.
  - intros ([] & ? & ?); auto.
  - intros [? ?]. by exists tt.
Qed.

Lemma io_mret_Ok {A} (a b : A) w w' : mret (M:=io) a w = (Ok b, w') ↔ a = b ∧ w' = w.
Proof. unfold mret, io_ret. naive_solver. Qed.

(** [raises_at P m w]: run from [w], [m] leaves the world as it is when it
    raises, and the exception satisfies [P]. *)
Definition raises_at {A} (P : exn → Prop) (m : io A) (w : world) : Prop :=
  ∀ e w', m w = (Err e, w') → w' = w ∧ P e.

Lemma raises_at_bind {A B} P (m : io A) (f : A → io B) w :
  raises_at P m w →
  (∀ a w', m w = (Ok a, w') → w' = w ∧ raises_at P (f a) w) →
  raises_at P (m ≫= f) w.
Proof.
  intros Hm Hf e w'. unfold mbind, io_bind. destruct (m w) as [[a|e1] w1] eqn:E.
  - destruct (Hf a w1) as [-> Hfa]; [done|]. apply Hfa.
  - intros ?; simplify_eq. by apply Hm.
Qed.

Lemma raises_at_pure {A} P (m : exc A) w : raises P m → raises_at P (pure_ m) w.
Proof. intros H e w' ?. unfold pure_ in *; simplify_eq. done. Qed.

Lemma raises_at_bind_pure {A B} P (m : exc A) (f : A → io B) w :
  raises P m → (∀ a, m = Ok a → raises_at P (f a) w) → raises_at P (pure_ m ≫= f) w.
Proof.
  intros Hm Hf. apply raises_at_bind; [by apply raises_at_pure|].
  intros a w' [-> ->]%io_pure_Ok. auto.
Qed.

Lemma raises_at_raise_if {B} (P : exn → Prop) b e (f : unit → io B) w :
  P e → (b = false → raises_at P (f tt) w) → raises_at P (io_raise_if b e ≫= f) w.
Proof.
  intros He Hf. apply raises_at_bind_pure; [by apply raises_raise_if|].
  intros [] ?%raise_if_Ok. auto.
Qed.

Lemma raises_at_ret {A} P (a : A) w : raises_at P (mret a) w.
Proof. intros e w' H. discriminate H. Qed.

Lemma raises_at_mono {A} (P Q : exn → Prop) (m : io A) w :
  (∀ e, P e → Q e) → raises_at P m w → raises_at Q m w.
Proof. intros HPQ Hm e w' Hrun. destruct (Hm e w' Hrun). auto. Qed.

Lemma mkdir_p_cases p w :
  ∃ fs, (mkdir_p p w = (Ok tt, set_fs fs w)) ∨ (∃ m, mkdir_p p w = (Err (OSError m), set_fs fs w)).
Proof.
  unfold mkdir_p. destruct (mkdirs _ _ _) as [fs|m]; [by exists fs; left|].
  exists (w_fs w). right. eexists. unfold os_error. by destruct w.
Qed.

Lemma io_run_fst {A} (m : io A) w r : (m w).1 = r → m w = (r, (m w).2).
Proof. intros <-. by destruct (m w). Qed.

Lemma io_print_bind {A} s (f : unit → io A) w a w' :
  (print s ≫= f) w = (Ok a, w') ↔
  utf8_valid s = true ∧ f tt (set_out (w_out w ++ [s]) w) = (Ok a, w').
Proof.
  rewrite io_bind_Ok. setoid_rewrite io_print_Ok. split; [|by intros [? ?]; exists tt; eauto].
  by intros ([] & ? & [? ->] & ?).
Qed.

Lemma io_gets_bind {A B} (g : world → A) (f : A → io B) w : (gets g ≫= f) w = f (g w) w.
Proof. done. Qed.

(** A loop of checks that change nothing passes when every check does. *)
Lemma io_iterM_check {B} (f : B → io unit) (P : B → Prop) l w :
  (∀ x, (f x w).2 = w) → (∀ x, (f x w).1 = Ok tt ↔ P x) →
  (iterM f l w).2 = w ∧ ((iterM f l w).1 = Ok tt ↔ Forall P l).
Proof.
  intros Hw Hf. unfold iterM. induction l as [|x l [IHw IH]]; simpl; [by split|].
  unfold mbind, io_bind. specialize (Hw x). specialize (Hf x).
  destruct (f x w) as [[[]|e] w1]; simpl in *; subst w1.
  - split; [done|]. rewrite IH, Forall_cons. naive_solver.
  - split; [done|]. rewrite Forall_cons. naive_solver.
Qed.

(** ** What statements leave alone *)

(** [preserves R m]: [m] relates every world to the one it ends in. *)
Definition preserves {A} (R : relation world) (m : io A) : Prop := ∀ w, R w (m w).2.

Definition same_procs (w w' : world) : Prop := w_procs w' = w_procs w.

(** Printing does not change what files hold. *)
Definition same_files (w w' : world) : Prop := w_fs w' = w_fs w ∧ w_cwd w' = w_cwd w.

(** The two streams are not part of what is looked at. *)
Class Quiet (R : relation world) : Prop := {
  quiet_preorder :: PreOrder R;
  quiet_out w out : R w (set_out out w);
  quiet_err w err : R w (set_err err w);
}.

#[export] Instance same_procs_quiet : Quiet same_procs.
Proof. by split; [split; unfold same_procs; [intros ?|intros ??? -> ->]|..]. Qed.

#[export] Instance same_files_quiet : Quiet same_files.
Proof.
  by split; [split; unfold same_files; [intros ?|intros ??? [-> ->] [-> ->]]|..].
Qed.

Lemma same_files_json w w' p : same_files w w' → json_file w' p = json_file w p.
Proof.
  intros [Hf Hc]. unfold json_file, file_bytes, locate. by rewrite Hf, Hc.
Qed.

Lemma same_files_exists w w' p : same_files w w' → path_exists w' p = path_exists w p.
Proof. intros [Hf Hc]. unfold path_exists, locate. by rewrite Hf, Hc. Qed.

Lemma same_files_trans w1 w2 w3 : same_files w1 w2 → same_files w2 w3 → same_files w1 w3.
Proof. apply (transitivity (R:=same_files)). Qed.

Create HintDb preserves.

Section preserves.
Context (R : relation world) `{!Quiet R}.

Lemma preserves_pure {A} (m : exc A) : preserves R (pure_ m).
Proof. intros w. simpl. reflexivity. Qed.

Lemma preserves_raise_if b e : preserves R (io_raise_if b e).
Proof. apply preserves_pure. Qed.

Lemma preserves_raise {A} e : preserves R (io_raise (A:=A) e).
Proof. apply preserves_pure. Qed.

Lemma preserves_ret {A} (a : A) : preserves R (mret a).
Proof. intros w. simpl. reflexivity. Qed.

Lemma preserves_gets {A} (f : world → A) : preserves R (gets f).
Proof. intros w. simpl. reflexivity. Qed.

Lemma preserves_read p : preserves R (read_text p).
Proof. intros w. simpl. reflexivity. Qed.

Lemma preserves_print s : preserves R (print s).
Proof. intros w. unfold print. destruct (utf8_valid s); [apply quiet_out|reflexivity]. Qed.

Lemma preserves_eprint s : preserves R (eprint s).
Proof. intros w. apply quiet_err. Qed.

Lemma preserves_bind {A B} (m : io A) (f : A → io B) :
  preserves R m → (∀ a, preserves R (f a)) → preserves R (m ≫= f).
Proof.
  intros Hm Hf w. specialize (Hm w). unfold mbind, io_bind.
  destruct (m w) as [[a|e] w1]; simpl in *; [|done]. etrans; [done|]. apply Hf.
Qed.

Lemma preserves_catch {A} (m : io A) h :
  preserves R m → (∀ e, preserves R (h e)) → preserves R (catch m h).
Proof.
  intros Hm Hh w. specialize (Hm w). unfold catch.
  destruct (m w) as [[a|e] w1]; simpl in *; [done|]. etrans; [done|]. apply Hh.
Qed.

Lemma preserves_foldM {A B} (f : A → B → io A) a l :
  (∀ a x, preserves R (f a x)) → preserves R (foldM f a l).
Proof.
  intros Hf. revert a. induction l as [|x l IH]; intros a; simpl;
    [apply preserves_ret|by apply preserves_bind].
Qed.

Lemma preserves_iterM {B} (f : B → io unit) l :
  (∀ x, preserves R (f x)) → preserves R (iterM f l).
Proof. intros Hf. apply preserves_foldM. auto. Qed.

Lemma preserves_mapM {A B} (f : B → io A) l :
  (∀ x, preserves R (f x)) → preserves R (mapM f l).
Proof.
  intros Hf. induction l as [|x l IH]; simpl; [apply preserves_ret|].
  apply preserves_bind; [done|]. intros y. apply preserves_bind; [done|].
  intros ?. apply preserves_ret.
Qed.

Lemma preserves_Ok {A} (m : io A) w a w' : preserves R m → m w = (Ok a, w') → R w w'.
Proof. intros Hm H. specialize (Hm w). by rewrite H in Hm. Qed.
End preserves.

Lemma write_text_procs p text : preserves same_procs (write_text p text).
Proof. intros w. unfold write_text. by repeat case_match. Qed.

Lemma mkdir_p_procs p : preserves same_procs (mkdir_p p).
Proof. intros w. unfold mkdir_p. by repeat case_match. Qed.

Lemma copy2_procs p q : preserves same_procs (copy2 p q).
Proof.
  intros w. unfold copy2. cbv zeta.
  destruct (same_file _ _ _); [done|]. destruct (file_bytes _ _); [|done]. apply write_text_procs.
Qed.

#[export] Hint Resolve preserves_pure preserves_raise_if preserves_raise preserves_ret
  preserves_gets preserves_read preserves_print preserves_eprint write_text_procs mkdir_p_procs
  copy2_procs : preserves.

(** Walk through statements, one obligation per effect that is not known. *)
Ltac preserves_step :=
  match goal with
  | |- preserves _ (mbind _ _) => apply preserves_bind; [apply _| |intros ?]
  | |- preserves _ (catch _ _) => apply preserves_catch; [apply _| |intros ?]
  | |- preserves _ (iterM _ _) => apply preserves_iterM; [apply _|intros ?]
  | |- preserves _ (mapM _ _) => apply preserves_mapM; [apply _|intros ?]
  | |- preserves _ (foldM _ _ _) => apply preserves_foldM; [apply _|intros ? ?]
  | |- preserves _ (let _ := _ in _) => cbv zeta
  | |- preserves _ (match ?x with _ => _ end) => destruct x
  | |- preserves _ _ => solve [eauto with preserves typeclass_instances]
  end.
Ltac preserves_tac := repeat preserves_step.
