(* ===== verification/Files.v ===== *)
(** * Files after writing

    What the write operations of [World] leave behind: the text at the path
    that was written, and unchanged files everywhere else; and what a failure
    leaves behind. *)

From S2P Require Import Prelude PyFloat PyVal PyPath Json World.

Local Open Scope Z_scope.

(** ** Walks *)

Lemma node_at_mono fs fs' q n : fs ⊆ fs' → node_at fs q = Some n → node_at fs' q = Some n.
Proof. intros Hsub. destruct q; [done|]. simpl. intros Hq. by eapply lookup_weaken. Qed.

Lemma walk_mono fs fs' cur comps q :
  fs ⊆ fs' → walk fs cur comps = Ok q → walk fs' cur comps = Ok q.
Proof.
  intros Hsub. revert cur. induction comps as [|c comps IH]; intros cur; simpl; [done|].
  destruct (node_at fs cur) as [[]|] eqn:Hn; [done| |done].
  rewrite (node_at_mono _ _ _ _ Hsub Hn). apply IH.
Qed.

Lemma node_at_insert_ne fs q q' n : q ≠ q' → node_at (<[q' := n]> fs) q = node_at fs q.
Proof. intros Hne. destruct q; [done|]. simpl. by rewrite lookup_insert_ne. Qed.

(** Writing a file does not cut a walk: what it goes through are directories. *)
Lemma walk_insert fs q' text cur comps q :
  node_at fs q' ≠ Some Dir →
  walk fs cur comps = Ok q → walk (<[q' := File text]> fs) cur comps = Ok q.
Proof.
  intros Hq'. revert cur. induction comps as [|c comps IH]; intros cur; simpl; [done|].
  destruct (node_at fs cur) as [[]|] eqn:Hn; [done| |done].
  rewrite node_at_insert_ne by congruence. rewrite Hn. apply IH.
Qed.

Lemma walk_plain fs cur comps q : ".." ∉ comps → walk fs cur comps = Ok q → q = cur ++ comps.
Proof.
  revert cur. induction comps as [|c comps IH]; intros cur Hc; simpl.
  - intros [= ->]. by rewrite app_nil_r.
  - destruct (node_at fs cur) as [[]|]; [done| |done].
    rewrite bool_decide_false by set_solver. intros ->%IH; [|set_solver]. by rewrite <-app_assoc.
Qed.

Lemma mkdirs_mono fs cur comps fs' : mkdirs fs cur comps = Ok fs' → fs ⊆ fs'.
Proof.
  revert fs cur. induction comps as [|c comps IH]; intros fs cur; simpl; [by intros [= ->]|].
  destruct (fs !! (cur ++ [c])) as [[]|] eqn:Hq; [done| |].
  - apply IH.
  - intros H%IH. etrans; [|exact H]. by apply insert_subseteq.
Qed.

(** ** The file that was written *)

Lemma file_bytes_Ok w p b :
  file_bytes w p = Ok b ↔ ∃ q, locate w p = Ok q ∧ node_at (w_fs w) q = Some (File b).
Proof.
  unfold file_bytes. destruct (locate w p) as [q|m]; [|naive_solver].
  destruct (node_at (w_fs w) q) as [[]|] eqn:Hn; naive_solver.
Qed.

Lemma write_text_Ok p text w w' :
  write_text p text w = (Ok tt, w') →
  ∃ q, locate w p = Ok q ∧ node_at (w_fs w) q ≠ Some Dir ∧ w' = set_fs (<[q := File text]> (w_fs w)) w.
Proof.
  unfold write_text. destruct (locate w p) as [q|m] eqn:Hl; [|done].
  destruct (node_at (w_fs w) q) as [[]|] eqn:Hn; [| done |];
    intros [= <-]; exists q; (split_and!; [done|congruence|done]).
Qed.

Lemma write_text_reads p text w w' : write_text p text w = (Ok tt, w') → file_bytes w' p = Ok text.
Proof.
  intros (q & Hl & Hn & ->)%write_text_Ok. apply file_bytes_Ok. exists q. split.
  - unfold locate. simpl. by apply walk_insert.
  - destruct q; [done|]. simpl. by rewrite lookup_insert_eq.
Qed.

Lemma write_utf8_Ok p text w w' :
  write_utf8 p text w = (Ok tt, w') → write_text p text w = (Ok tt, w').
Proof.
  unfold write_utf8. destruct (utf8_valid text); [done|]. unfold mbind, io_bind.
  by destruct (write_text p "" w) as [[[]|e] w1].
Qed.

Lemma append_utf8_reads p text b w w' :
  file_bytes w p = Ok b → append_utf8 p text w = (Ok tt, w') → file_bytes w' p = Ok (b +:+ text).
Proof.
  intros Hb. unfold append_utf8. intros [_ Hrun]%io_bind_raise_if.
  apply io_bind_Ok in Hrun as (b' & w1 & Hread & Hrun).
  injection Hread as Hb' <-. rewrite Hb in Hb'. injection Hb' as <-. by eapply write_text_reads.
Qed.

(** ** Files elsewhere *)

(** The working directory, and the text at [p] if there is one *)
Definition keeps (p : path) (w w' : world) : Prop :=
  w_cwd w' = w_cwd w ∧ ∀ b, file_bytes w p = Ok b → file_bytes w' p = Ok b.

#[global] Instance keeps_quiet p : Quiet (keeps p).
Proof.
  split; [split| |]; [by intros w|intros w1 w2 w3 [? ?] [? ?]; split; [congruence|auto]|done..].
Qed.

Lemma mkdir_p_keeps p q : preserves (keeps p) (mkdir_p q).
Proof.
  intros w. unfold mkdir_p. destruct (mkdirs _ _ _) as [fs|m] eqn:Hm; [|done]. simpl.
  split; [done|]. intros b (l & Hl & Hn)%file_bytes_Ok. apply mkdirs_mono in Hm.
  apply file_bytes_Ok. exists l. split; [by eapply walk_mono|by eapply node_at_mono].
Qed.

(** Two absolute paths without [..] that are not the same *)
Definition apart (p q : path) : Prop :=
  is_absolute p = true ∧ is_absolute q = true ∧ (".." ∉ p_parts p) ∧ (".." ∉ p_parts q) ∧
  p_parts p ≠ p_parts q.

Lemma apart_sym p q : apart p q → apart q p.
Proof. unfold apart. naive_solver. Qed.

Lemma write_text_keeps p q text : apart p q → preserves (keeps p) (write_text q text).
Proof.
  intros (Hp & Hq & Hpd & Hqd & Hne) w. destruct (write_text q text w) as [[[]|e] w'] eqn:Hw.
  - apply write_text_Ok in Hw as (l & Hl & Hn & ->). split; [done|].
    intros b (k & Hk & Hb)%file_bytes_Ok. apply file_bytes_Ok. exists k. split.
    + unfold locate. simpl. by apply walk_insert.
    + simpl. rewrite node_at_insert_ne; [done|].
      unfold locate, anchor in Hl, Hk. rewrite Hp in Hk. rewrite Hq in Hl.
      apply walk_plain in Hl; [|done]. apply walk_plain in Hk; [|done]. simpl in *. congruence.
  - unfold write_text in Hw. by repeat case_match; simplify_eq.
Qed.

Lemma write_utf8_keeps p q text : apart p q → preserves (keeps p) (write_utf8 q text).
Proof.
  intros Hpq. unfold write_utf8. pose proof (write_text_keeps p q). preserves_tac; auto.
Qed.

Lemma append_utf8_keeps p q text : apart p q → preserves (keeps p) (append_utf8 q text).
Proof.
  intros Hpq. unfold append_utf8. pose proof (write_text_keeps p q). preserves_tac.
  by intros w.
Qed.

#[export] Hint Resolve mkdir_p_keeps write_text_keeps write_utf8_keeps append_utf8_keeps : preserves.

(** ** Files in one directory *)

Lemma walk_snoc fs cur comps c q :
  c ≠ ".." → walk fs cur (comps ++ [c]) = Ok q → ∃ q', q = q' ++ [c].
Proof.
  intros Hc. revert cur. induction comps as [|x comps IH]; intros cur; cbn [app walk].
  - destruct (node_at fs cur) as [[]|]; [done| |done]. rewrite bool_decide_false by done.
    intros [= <-]. by exists cur.
  - destruct (node_at fs cur) as [[]|]; [done| |done]. apply IH.
Qed.

(** A name that is one component of a path *)
Definition plain_name (name : string) : Prop := parse_path name = Path "" [name] ∧ name ≠ "..".

Lemma locate_div w p name q :
  plain_name name → locate w (path_div p name) = Ok q → ∃ q', q = q' ++ [name].
Proof.
  intros [Hn Hdd]. assert (path_div p name = Path (p_root p) (p_parts p ++ [name])) as ->.
  { unfold path_div. by rewrite Hn. }
  unfold locate, anchor. destruct (is_absolute _); cbn [p_parts].
  - by apply walk_snoc.
  - rewrite app_assoc. by apply walk_snoc.
Qed.

(** Writing a file leaves the others in the directory alone. *)
Lemma write_text_sibling p m n text b w w' :
  plain_name m → plain_name n → m ≠ n → file_bytes w (path_div p m) = Ok b →
  write_text (path_div p n) text w = (Ok tt, w') → file_bytes w' (path_div p m) = Ok b.
Proof.
  intros Hm Hn Hne (q & Hq & Hb)%file_bytes_Ok (q' & Hq' & Hd & ->)%write_text_Ok.
  apply file_bytes_Ok. exists q. split; [unfold locate; simpl; by apply walk_insert|].
  simpl. rewrite node_at_insert_ne; [done|]. intros ->.
  apply locate_div in Hq as [k Hk]; [|done]. apply locate_div in Hq' as [k' Hk']; [|done].
  rewrite Hk in Hk'. apply app_inj_tail in Hk' as [_ ?]. done.
Qed.

(** ** Writing an open file *)

Lemma write_text_refused p t w e w' : write_text p t w = (Err e, w') → same_files w w'.
Proof. unfold write_text. by repeat case_match; intros [= ? <-] || intros [=]. Qed.

(** The file at [p] is the only one that changed, and holds [bytes]. *)
Definition only_wrote (p : path) (bytes : string) (w w' : world) : Prop :=
  file_bytes w' p = Ok bytes ∧ w_cwd w' = w_cwd w ∧
  ∃ q, locate w p = Ok q ∧ w_fs w' = <[q := File bytes]> (w_fs w).

(** [with open(p, "wb") as f]: either the file cannot be opened and nothing
    changes, or it holds what was put into it, whatever happened then. *)
Lemma write_stream_cases p bytes failure w r w' :
  write_stream p (bytes, failure) w = (r, w') →
  (∃ e, r = Err e ∧ same_files w w') ∨
  (only_wrote p bytes w w' ∧ r = match failure with None => Ok tt | Some e => Err e end).
Proof.
  unfold write_stream, mbind, io_bind. destruct (write_text p bytes w) as [[[]|e] w1] eqn:Hw.
  - intros H. assert (w' = w1 ∧ r = match failure with None => Ok tt | Some e => Err e end) as [-> ->].
    { by destruct failure; injection H as <- <-. }
    right. split; [|done]. split; [by eapply write_text_reads|].
    apply write_text_Ok in Hw as (q & Hq & _ & ->). split; [done|]. by exists q.
  - intros [= <- <-]. left. exists e. split; [done|]. by eapply write_text_refused.
Qed.

(** A failure after statements that changed no file *)
Lemma quiet_bind {A B} (m : io A) (f : A → io B) w r w' :
  preserves same_files m → (m ≫= f) w = (r, w') →
  (∃ e, r = Err e ∧ same_files w w') ∨ ∃ a w1, m w = (Ok a, w1) ∧ same_files w w1 ∧ f a w1 = (r, w').
Proof.
  intros Hm. specialize (Hm w). unfold mbind, io_bind. destruct (m w) as [[a|e] w1]; cbn in Hm; intros H.
  - right. by exists a, w1.
  - injection H as <- <-. left. by exists e.
Qed.

Lemma only_wrote_same p bytes w w1 w' :
  same_files w w1 → only_wrote p bytes w1 w' → only_wrote p bytes w w'.
Proof.
  intros [Hf Hc] (? & ? & q & Hq & Hfs). split_and!; [done|congruence|]. exists q.
  unfold locate in *. by rewrite <-Hf, <-Hc.
Qed.

Lemma only_wrote_then p bytes w w1 w' :
  only_wrote p bytes w w1 → same_files w1 w' → only_wrote p bytes w w'.
Proof.
  intros (Hb & Hc & q & Hq & Hfs) [Hf' Hc']. split_and!; [|congruence|exists q; by rewrite Hf'].
  unfold file_bytes, locate in *. by rewrite Hf', Hc'.
Qed.
