(* ===== verification/JsonRound.v ===== *)
(** * Reading back what was written

    [json.loads] of a text that [json.dumps(v, indent=2, sort_keys=True)] wrote
    returns the value with the keys of its objects sorted: strings survive the
    [\u] escapes and their surrogate pairs, integers and floats their decimal
    renderings, objects and arrays the line breaks and the indentation.  The
    text is ASCII, so that a file it was written to decodes to the same text. *)

From Stdlib Require Import Ascii SpecFloat.
From stdpp Require Import sorting.
From S2P Require Import Prelude PyFloat PyVal PyPath Json JsonOut World.

Local Open Scope Z_scope.

(** ** Strings *)

(** A Unicode scalar value: what a character of a valid text encodes *)
Definition scalar (cp : Z) : Prop := 0 ≤ cp < 1114112 ∧ ¬ 55296 ≤ cp ≤ 57343.

Lemma code_range c : 0 ≤ code c < 256.
Proof. unfold code. pose proof (nat_ascii_bounded c). lia. Qed.

Lemma byte_code c : byte (code c) = c.
Proof. unfold byte, code. rewrite Nat2Z.id. apply ascii_nat_embedding. Qed.

Lemma code_byte n : 0 ≤ n < 256 → code (byte n) = n.
Proof. intros. unfold byte, code. rewrite nat_ascii_embedding; lia. Qed.

(** A fact about a range of integers, checked on each of them *)
Lemma check_range (P : Z → bool) m n : forallb P (seqZ 0 m) = true → 0 ≤ n < m → P n = true.
Proof.
  rewrite forallb_forall. intros Hall Hn. apply Hall, list_elem_of_In, elem_of_seqZ. lia.
Qed.

Lemma hex_val_digit n : 0 ≤ n < 16 → hex_val (hex_digit (Z.to_nat n)) = Some n.
Proof.
  intros Hn. apply (bool_decide_eq_true_1 _).
  refine (check_range (λ n, bool_decide (hex_val (hex_digit (Z.to_nat n)) = Some n)) 16 n _ Hn).
  by vm_compute.
Qed.

Lemma nibble n k : 0 ≤ k → Z.land (Z.shiftr n k) 15 = n / 2 ^ k mod 16.
Proof.
  intros. change 15 with (Z.ones 4). rewrite Z.land_ones by lia.
  by rewrite Z.shiftr_div_pow2.
Qed.

Lemma hex_escape_digits n r c :
  0 ≤ n < 65536 → hex_escape (hex4_digits n +:+ String c r) = Some (n, String c r).
Proof.
  intros Hn. unfold hex4_digits. cbv zeta. rewrite !nibble by lia.
  assert (∀ k, 0 ≤ n / 2 ^ k mod 16 < 16) as Hb by (intros; apply Z.mod_pos_bound; lia).
  rewrite !app_cons_str, app_nil_l_str. cbn [hex_escape]. unfold hex4.
  rewrite !hex_val_digit by apply Hb. simpl. do 2 f_equal.
  change (2 ^ 12) with (16 * 16 * 16). change (2 ^ 8) with (16 * 16). change (2 ^ 4) with 16.
  change (2 ^ 0) with 1. rewrite Z.div_1_r, <-!Z.div_div by lia.
  assert (n / 16 / 16 / 16 < 16) by (repeat apply Z.div_lt_upper_bound; lia).
  assert (0 ≤ n / 16 / 16 / 16) by (repeat apply Z.div_pos; lia).
  rewrite (Z.mod_small (n / 16 / 16 / 16)) by done.
  pose proof (Z.div_mod n 16). pose proof (Z.div_mod (n / 16) 16).
  pose proof (Z.div_mod (n / 16 / 16) 16). lia.
Qed.

Lemma low_surrogate_escape lo r c :
  56320 ≤ lo ≤ 57343 → low_surrogate (u_escape lo +:+ String c r) = Some (lo, String c r).
Proof.
  intros Hlo. unfold u_escape. rewrite app_assoc_str, !app_cons_str, app_nil_l_str.
  unfold low_surrogate. rewrite !bool_decide_true by done. cbn [andb].
  rewrite hex_escape_digits by lia. simpl.
  rewrite (proj2 (Z.leb_le _ _)), (proj2 (Z.leb_le _ _)) by lia. done.
Qed.

(** The two halves of a character above U+FFFF *)
Lemma lor_half v : 0 ≤ v < 1024 → Z.lor 55296 v = 55296 + v ∧ Z.lor 56320 v = 56320 + v.
Proof.
  intros Hv. rewrite <-!Z.eqb_eq, <-andb_true_iff.
  refine (check_range (λ v, (Z.lor 55296 v =? 55296 + v) && (Z.lor 56320 v =? 56320 + v)) 1024 v _ Hv).
  by vm_compute.
Qed.

Lemma high_half v : 0 ≤ v < 1048576 →
  Z.lor 55296 (Z.land (Z.shiftr v 10) 1023) = 55296 + v / 1024.
Proof.
  intros Hv. rewrite Z.shiftr_div_pow2 by lia. change 1023 with (Z.ones 10).
  rewrite Z.land_ones by lia. change (2 ^ 10) with 1024.
  assert (0 ≤ v / 1024 < 1024) by (split; [apply Z.div_pos; lia|apply Z.div_lt_upper_bound; lia]).
  rewrite Z.mod_small by done. by apply lor_half.
Qed.

Lemma low_half v : Z.lor 56320 (Z.land v 1023) = 56320 + v mod 1024.
Proof.
  change 1023 with (Z.ones 10). rewrite Z.land_ones by lia.
  apply lor_half, Z.mod_pos_bound. lia.
Qed.

Lemma scan_unit_u start n t p rest :
  unicode_escape (hex4_digits n +:+ t) = Some (p, rest) →
  scan_unit start (u_escape n +:+ t) = UPiece p rest.
Proof.
  intros H. unfold u_escape. rewrite app_assoc_str, !app_cons_str, app_nil_l_str.
  unfold scan_unit. by rewrite H.
Qed.

Lemma scan_unit_plain start n r :
  32 ≤ n ≤ 126 → n ≠ 34 → n ≠ 92 → scan_unit start (String (byte n) r) = UPiece (String (byte n) "") r.
Proof.
  intros Hn H34 H92. assert (code (byte n) = n) as Hc by (apply code_byte; lia).
  cbn [scan_unit]. rewrite !bool_decide_false by (intros E; rewrite E in Hc; by vm_compute in Hc).
  by rewrite (proj2 (Z.ltb_ge _ _)) by lia.
Qed.

Lemma unicode_escape_pair v c r : 0 ≤ v < 1048576 →
  unicode_escape (hex4_digits (55296 + v / 1024) +:+ u_escape (56320 + v mod 1024) +:+ String c r)
  = Some (utf8 (65536 + v), String c r).
Proof.
  intros Hv. pose proof (Z.mod_pos_bound v 1024 ltac:(lia)).
  assert (0 ≤ v / 1024 < 1024) by (split; [apply Z.div_pos; lia|apply Z.div_lt_upper_bound; lia]).
  unfold unicode_escape. change (u_escape (56320 + v mod 1024) +:+ String c r) with
    (String "\"%char (String "u"%char (hex4_digits (56320 + v mod 1024) +:+ String c r))).
  rewrite hex_escape_digits by lia.
  rewrite (proj2 (Z.leb_le _ _)), (proj2 (Z.leb_le _ _)) by lia. cbn [andb].
  change (String "\"%char (String "u"%char (hex4_digits (56320 + v mod 1024) +:+ String c r)))
    with (u_escape (56320 + v mod 1024) +:+ String c r).
  rewrite low_surrogate_escape by lia. do 3 f_equal. pose proof (Z.div_mod v 1024). lia.
Qed.

(** One escape is one step of the scanner, and stands for the character. *)
Lemma scan_unit_escape start cp r c :
  scalar cp → scan_unit start (escape_cp cp +:+ String c r) = UPiece (utf8 cp) (String c r).
Proof.
  intros [Hr Hs]. unfold escape_cp.
  repeat match goal with |- context [cp =? ?k] =>
    destruct (Z.eqb_spec cp k) as [->|?]; [reflexivity|] end.
  destruct (Z.leb_spec 32 cp), (Z.leb_spec cp 126); cbn [andb];
    try (destruct (Z.ltb_spec cp 65536) as [Hb|Hb]); try lia.
  - rewrite app_cons_str, app_nil_l_str, scan_unit_plain by lia.
    unfold utf8. by rewrite (proj2 (Z.ltb_lt _ _)) by lia.
  - apply scan_unit_u. unfold unicode_escape. rewrite hex_escape_digits by lia.
    destruct (Z.leb_spec 55296 cp), (Z.leb_spec cp 56319); cbn [andb]; (done || lia).
  - cbv zeta. rewrite high_half, low_half, app_assoc_str by lia.
    apply scan_unit_u. rewrite unicode_escape_pair by lia. do 3 f_equal. lia.
  - apply scan_unit_u. unfold unicode_escape. rewrite hex_escape_digits by lia.
    destruct (Z.leb_spec 55296 cp), (Z.leb_spec cp 56319); cbn [andb]; (done || lia).
Qed.

(** The bytes of a character are recovered from its number. *)
Lemma utf8_1 a : code a < 128 → utf8 (code a) = String a "".
Proof.
  intros Ha. unfold utf8. rewrite (proj2 (Z.ltb_lt _ _)) by lia. by rewrite byte_code.
Qed.

Lemma is_continuation_range b : is_continuation b = true ↔ 128 ≤ code b < 192.
Proof. unfold is_continuation. lia. Qed.

Lemma byte_is c n : n = code c → byte n = c.
Proof. intros ->. apply byte_code. Qed.

Lemma utf8_2 a b :
  194 ≤ code a ≤ 223 → 128 ≤ code b < 192 →
  utf8 ((code a - 192) * 64 + (code b - 128)) = String a (String b "").
Proof.
  intros. unfold utf8. rewrite (proj2 (Z.ltb_ge _ 128)), (proj2 (Z.ltb_lt _ 2048)) by lia.
  f_equal; [|f_equal]; apply byte_is; Z.to_euclidean_division_equations; lia.
Qed.

Lemma utf8_3 a b c :
  224 ≤ code a ≤ 239 → 128 ≤ code b < 192 → 128 ≤ code c < 192 → (code a = 224 → 160 ≤ code b) →
  utf8 ((code a - 224) * 4096 + (code b - 128) * 64 + (code c - 128))
  = String a (String b (String c "")).
Proof.
  intros. unfold utf8.
  rewrite (proj2 (Z.ltb_ge _ 128)), (proj2 (Z.ltb_ge _ 2048)), (proj2 (Z.ltb_lt _ 65536)) by lia.
  f_equal; [|f_equal; [|f_equal]]; apply byte_is; Z.to_euclidean_division_equations; lia.
Qed.

Lemma utf8_4 a b c d :
  240 ≤ code a ≤ 244 → 128 ≤ code b < 192 → 128 ≤ code c < 192 → 128 ≤ code d < 192 →
  (code a = 240 → 144 ≤ code b) →
  utf8 ((code a - 240) * 262144 + (code b - 128) * 4096 + (code c - 128) * 64 + (code d - 128))
  = String a (String b (String c (String d ""))).
Proof.
  intros. unfold utf8.
  rewrite (proj2 (Z.ltb_ge _ 128)), (proj2 (Z.ltb_ge _ 2048)), (proj2 (Z.ltb_ge _ 65536)) by lia.
  f_equal; [|f_equal; [|f_equal; [|f_equal]]]; apply byte_is;
    Z.to_euclidean_division_equations; lia.
Qed.

(** A valid text starts with the bytes of a character. *)
Inductive first_char (s : string) : Prop :=
  | First cp t : scalar cp → s = utf8 cp +:+ t → code_points s = cp :: code_points t →
      utf8_valid t = true → first_char s.

Lemma first_char_short a b r :
  utf8_valid (String a (String b r)) = true → 194 ≤ code a ≤ 223 → first_char (String a (String b r)).
Proof.
  intros Hv Ha. cbn [utf8_valid] in Hv.
  rewrite (proj2 (Z.ltb_ge _ _)), (proj2 (Z.leb_le _ _)), (proj2 (Z.leb_le _ _)) in Hv by lia.
  cbn [andb] in Hv. apply andb_true_iff in Hv as [Hb Hv].
  apply is_continuation_range in Hb as Hb'.
  apply (First _ ((code a - 192) * 64 + (code b - 128)) r); [split; lia|by rewrite utf8_2| |done].
  cbn [code_points]. rewrite (proj2 (Z.ltb_ge _ _)), (proj2 (Z.leb_le _ _)), (proj2 (Z.leb_le _ _)), Hb by lia.
  done.
Qed.

Lemma first_char_three a b c r :
  utf8_valid (String a (String b (String c r))) = true → 224 ≤ code a ≤ 239 →
  first_char (String a (String b (String c r))).
Proof.
  intros Hv Ha. cbn [utf8_valid] in Hv.
  rewrite (proj2 (Z.ltb_ge (code a) 128)), (proj2 (Z.leb_gt (code a) 223)), andb_false_r,
    (proj2 (Z.leb_le 224 (code a))), (proj2 (Z.leb_le (code a) 239)) in Hv by lia.
  cbn [andb] in Hv. apply andb_true_iff in Hv as [[Hb Hk]%andb_true_iff Hv]. unfold in_range in Hb.
  assert (128 ≤ code b < 192 ∧ (code a = 224 → 160 ≤ code b) ∧ (code a = 237 → code b ≤ 159))
    as (Hb1 & Hb2 & Hb3).
  { revert Hb. destruct (Z.eqb_spec (code a) 224), (Z.eqb_spec (code a) 237); lia. }
  apply is_continuation_range in Hk as Hk'. apply is_continuation_range in Hb1 as Hb'.
  apply (First _ ((code a - 224) * 4096 + (code b - 128) * 64 + (code c - 128)) r);
    [unfold scalar; lia|by rewrite utf8_3| |done].
  cbn [code_points]. by rewrite (proj2 (Z.ltb_ge (code a) 128)), (proj2 (Z.leb_gt (code a) 223)), andb_false_r,
    (proj2 (Z.leb_le 224 (code a))), (proj2 (Z.leb_le (code a) 239)), Hb', Hk by lia.
Qed.

Lemma first_char_four a b c d r :
  utf8_valid (String a (String b (String c (String d r)))) = true → 240 ≤ code a →
  first_char (String a (String b (String c (String d r)))).
Proof.
  intros Hv Ha. cbn [utf8_valid] in Hv.
  rewrite (proj2 (Z.ltb_ge (code a) 128)), (proj2 (Z.leb_gt (code a) 223)),
    (proj2 (Z.leb_gt (code a) 239)), !andb_false_r in Hv by lia.
  apply andb_true_iff in Hv as [[[[H4 Hb]%andb_true_iff Hk]%andb_true_iff Hd]%andb_true_iff Hv].
  unfold in_range in Hb.
  assert (128 ≤ code b < 192 ∧ (code a = 240 → 144 ≤ code b) ∧ (code a = 244 → code b ≤ 143))
    as (Hb1 & Hb2 & Hb3).
  { revert Hb. destruct (Z.eqb_spec (code a) 240), (Z.eqb_spec (code a) 244); lia. }
  apply is_continuation_range in Hk as Hk', Hd as Hd'. apply is_continuation_range in Hb1 as Hb'.
  apply (First _ ((code a - 240) * 262144 + (code b - 128) * 4096 + (code c - 128) * 64
                  + (code d - 128)) r); [unfold scalar; lia|rewrite utf8_4; [done|lia..]| |done].
  cbn [code_points]. by rewrite (proj2 (Z.ltb_ge (code a) 128)), (proj2 (Z.leb_gt (code a) 223)),
    (proj2 (Z.leb_gt (code a) 239)), !andb_false_r, H4, Hb', Hk, Hd by lia.
Qed.

Lemma utf8_valid_first a r : utf8_valid (String a r) = true → first_char (String a r).
Proof.
  intros Hv. destruct (Z.ltb_spec (code a) 128) as [Ha|Ha].
  { pose proof (code_range a). cbn [utf8_valid] in Hv. rewrite (proj2 (Z.ltb_lt _ _)) in Hv by done.
    apply (First _ (code a) r); [split; lia|by rewrite utf8_1| |done].
    cbn [code_points]. by rewrite (proj2 (Z.ltb_lt _ _)). }
  pose proof Hv as Hv'. cbn [utf8_valid] in Hv'. rewrite (proj2 (Z.ltb_ge _ _)) in Hv' by done.
  destruct r as [|b r]; [done|].
  destruct ((194 <=? code a) && (code a <=? 223)) eqn:H2; [apply first_char_short; [done|lia]|].
  destruct r as [|c r]; [done|].
  destruct ((224 <=? code a) && (code a <=? 239)) eqn:H3; [apply first_char_three; [done|lia]|].
  destruct r as [|d r]; [done|]. apply first_char_four; [done|].
  rewrite !andb_true_iff in Hv'. lia.
Qed.

Lemma utf8_length cp : (0 < String.length (utf8 cp))%nat.
Proof. unfold utf8. repeat case_match; simpl; lia. Qed.

Lemma length_app_str s t : String.length (s +:+ t) = (String.length s + String.length t)%nat.
Proof. induction s as [|c s IH]; [done|]. rewrite app_cons_str. simpl. by rewrite IH. Qed.

Lemma code_points_valid s :
  utf8_valid s = true → Forall scalar (code_points s) ∧ cat (map utf8 (code_points s)) = s.
Proof.
  remember (String.length s) as n eqn:Hn. revert s Hn.
  induction (lt_wf n) as [n _ IH]. intros [|a r] -> Hv; [by split; [constructor|]|].
  destruct (utf8_valid_first a r Hv) as [cp t Hcp Hs Hp Ht].
  rewrite Hp, Hs in *. rewrite length_app_str in IH. pose proof (utf8_length cp).
  destruct (IH (String.length t) ltac:(lia) t eq_refl Ht) as [IHs IHc].
  split; [by constructor|]. cbn [map]. change (cat (?x :: ?l)) with (x +:+ cat l). by rewrite IHc.
Qed.

(** ** Quoted strings *)

Lemma escape_cp_cons cp : ∃ c t, escape_cp cp = String c t.
Proof.
  unfold escape_cp, u_escape. cbv zeta. repeat case_match; rewrite ?app_cons_str; eauto.
Qed.

Lemma escapes_cons cps r : ∃ c t, cat (map escape_cp cps) +:+ String quote_char r = String c t.
Proof.
  destruct cps as [|cp cps]; [by eexists _, _|]. cbn [map].
  change (cat (?x :: ?l)) with (x +:+ cat l).
  destruct (escape_cp_cons cp) as (c & t & ->). rewrite !app_cons_str. eauto.
Qed.

Lemma scan_str_go_escapes start cps r fuel :
  Forall scalar cps → (length cps ≤ fuel)%nat →
  scan_str_go fuel start (cat (map escape_cp cps) +:+ String quote_char r)
  = Got (cat (map utf8 cps)) r.
Proof.
  intros Hs. revert fuel. induction Hs as [|cp cps Hcp Hs IH]; intros fuel Hf.
  - by destruct fuel.
  - cbn [map]. change (cat (?x :: ?l)) with (x +:+ cat l). rewrite app_assoc_str.
    destruct fuel as [|fuel]; [simpl in Hf; lia|].
    destruct (escapes_cons cps r) as (c & t & E). cbn [scan_str_go]. rewrite E.
    rewrite scan_unit_escape, <-E, IH by (done || (simpl in Hf; lia)). done.
Qed.

Lemma escapes_length cps : (length cps ≤ String.length (cat (map escape_cp cps)))%nat.
Proof.
  induction cps as [|cp cps IH]; simpl; [done|]. rewrite length_app_str.
  destruct (escape_cp_cons cp) as (c & t & ->). simpl. lia.
Qed.

(** What is between the quotes is read as the text that was quoted. *)
Lemma scan_str_quote s start r :
  utf8_valid s = true →
  scan_str start (cat (map escape_cp (code_points s)) +:+ String quote_char r) = Got s r.
Proof.
  intros [Hs Hc]%code_points_valid. unfold scan_str.
  rewrite scan_str_go_escapes, Hc; [done..|].
  rewrite length_app_str. pose proof (escapes_length (code_points s)). lia.
Qed.

Lemma json_quote_app s r :
  json_quote s +:+ r
  = String quote_char (cat (map escape_cp (code_points s)) +:+ String quote_char r).
Proof. unfold json_quote. by rewrite app_cons_str, app_assoc_str. Qed.

(** ** Numbers *)

(** The characters a number is made of, and texts that cannot continue one *)
Definition number_char (c : ascii) : bool :=
  is_digit c || bool_decide (c = "."%char) || bool_decide (c = "e"%char) || bool_decide (c = "E"%char)
  || bool_decide (c = "+"%char) || bool_decide (c = "-"%char).

Definition stops (r : string) : Prop :=
  match r with "" => True | String c _ => number_char c = false end.

Lemma stops_not c r d : stops (String c r) → number_char d = true → c ≠ d.
Proof. simpl. congruence. Qed.

Lemma stops_expect r d : stops r → number_char d = true → expect d r = None.
Proof.
  intros Hr Hd. destruct r as [|c r]; [done|]. simpl.
  rewrite bool_decide_false; [done|by eapply stops_not].
Qed.

Lemma stops_digits r : stops r → take_digits r = ("", r).
Proof.
  destruct r as [|c r]; [done|]. simpl. unfold number_char, is_digit.
  by destruct (digit_val c).
Qed.

(** A reader of the front of a text, undisturbed by what cannot continue a
    number *)
Definition local {A} (take : string → A * string) : Prop :=
  ∀ s r, stops r → take (s +:+ r) = ((take s).1, (take s).2 +:+ r).

Lemma take_digits_local : local take_digits.
Proof.
  intros s r Hr. induction s as [|c s IH]; [by apply stops_digits|].
  rewrite app_cons_str. cbn [take_digits]. destruct (digit_val c); [|done].
  rewrite IH. by destruct (take_digits s).
Qed.

Lemma expect_app d s r :
  stops r → number_char d = true → expect d (s +:+ r) = (λ t, t +:+ r) <$> expect d s.
Proof.
  intros Hr Hd. destruct s as [|c s]; [by apply stops_expect|]. simpl. by case_bool_decide.
Qed.

Lemma take_frac_local : local take_frac.
Proof.
  intros s r Hr. unfold take_frac. rewrite expect_app by done.
  destruct (expect _ s) as [t|]; simpl; [|done]. rewrite take_digits_local by done.
  by destruct (take_digits t) as [[|] ?].
Qed.

Lemma take_sign_local : local take_sign.
Proof.
  intros s r Hr. unfold take_sign. rewrite !expect_app by done.
  destruct (expect "-" s); simpl; [done|]. by destruct (expect "+" s).
Qed.

Lemma take_exp_local : local take_exp.
Proof.
  intros s r Hr. destruct s as [|c s].
  - destruct r as [|c r]; [done|]. simpl.
    by rewrite !bool_decide_false by (by eapply stops_not).
  - rewrite app_cons_str. cbn [take_exp]. destruct (_ || _); [|done].
    rewrite take_sign_local by done. destruct (take_sign s) as [neg t]; simpl.
    rewrite take_digits_local by done. by destruct (take_digits t) as [[|] ?].
Qed.

Lemma take_int_local s r :
  stops r → take_int (s +:+ r) = (λ '(ds, t), (ds, t +:+ r)) <$> take_int s.
Proof.
  intros Hr. destruct s as [|c s].
  - destruct r as [|c r]; [done|]. simpl. cbn [stops] in Hr. unfold number_char, is_digit in Hr.
    by destruct (digit_val c).
  - rewrite app_cons_str. cbn [take_int]. destruct (digit_val c) as [[| |]|]; [done|..|done];
      rewrite <-app_cons_str, take_digits_local by done; by destruct (take_digits _).
Qed.

Lemma scan_unsigned_local neg s r :
  stops r → scan_unsigned neg (s +:+ r) = (λ '(v, t), (v, t +:+ r)) <$> scan_unsigned neg s.
Proof.
  intros Hr. unfold scan_unsigned. rewrite take_int_local by done.
  destruct (take_int s) as [[ids r1]|]; simpl; [|done].
  rewrite take_frac_local by done. destruct (take_frac r1) as [fds r2]; simpl.
  rewrite take_exp_local by done. destruct (take_exp r2) as [ex r3]; simpl.
  by destruct fds, ex.
Qed.

Lemma scan_number_local s r :
  stops r → scan_number (s +:+ r) = (λ '(v, t), (v, t +:+ r)) <$> scan_number s.
Proof.
  intros Hr. unfold scan_number. rewrite expect_app by done.
  destruct (expect "-" s); by apply scan_unsigned_local.
Qed.

(** What a reader of numbers consumes are characters of numbers. *)
Definition consumed (s r : string) : Prop := ∃ p, s = p +:+ r ∧ str_all number_char p = true.

#[local] Instance consumed_preorder : PreOrder consumed.
Proof.
  split; [by exists ""|]. intros s t r (p & -> & Hp) (q & -> & Hq).
  exists (p +:+ q). split; [by rewrite app_assoc_str|].
  clear -Hp Hq. induction p as [|c p IH]; [done|]. rewrite app_cons_str. simpl in *.
  apply andb_true_iff in Hp as [-> ?]. by apply IH.
Qed.

Lemma consumed_char c s : number_char c = true → consumed (String c s) s.
Proof. intros Hc. exists (String c ""). split; [done|]. simpl. by rewrite Hc. Qed.

Lemma number_char_digit c z : digit_val c = Some z → number_char c = true.
Proof. intros H. unfold number_char, is_digit. by rewrite H. Qed.

Lemma take_digits_consumed s : consumed s (take_digits s).2.
Proof.
  induction s as [|c s IH]; simpl; [done|]. destruct (digit_val c) eqn:Hc; [|done].
  destruct (take_digits s) as [ds r]; simpl in *.
  etrans; [by eapply consumed_char, number_char_digit|done].
Qed.

Lemma expect_consumed d s r : expect d s = Some r → number_char d = true → consumed s r.
Proof. intros ->%expect_Some. apply consumed_char. Qed.

Lemma take_frac_consumed s : consumed s (take_frac s).2.
Proof.
  unfold take_frac. destruct (expect "." s) as [t|] eqn:Hx; [|done].
  apply expect_consumed in Hx; [|done]. pose proof (take_digits_consumed t) as Ht.
  destruct (take_digits t) as [[|] r]; [done|]. by etrans.
Qed.

Lemma take_sign_consumed s : consumed s (take_sign s).2.
Proof.
  unfold take_sign. destruct (expect "-" s) eqn:Hx; [by eapply expect_consumed|].
  destruct (expect "+" s) eqn:Hy; [by eapply expect_consumed|done].
Qed.

Lemma take_exp_consumed s : consumed s (take_exp s).2.
Proof.
  destruct s as [|c s]; [done|]. cbn [take_exp]. destruct (_ || _) eqn:Hc; [|done].
  assert (consumed (String c s) s) as Hs.
  { apply consumed_char. unfold number_char. apply orb_true_iff in Hc as [-> | ->];
      by rewrite ?orb_true_r. }
  pose proof (take_sign_consumed s). destruct (take_sign s) as [neg t]; simpl in *.
  pose proof (take_digits_consumed t). destruct (take_digits t) as [[|] r]; [done|].
  simpl in *. by do 2 (etrans; [done|]).
Qed.

Lemma scan_unsigned_consumed neg s v r :
  scan_unsigned neg s = Some (v, r) →
  consumed s r ∧ ∃ c t z, s = String c t ∧ digit_val c = Some z.
Proof.
  unfold scan_unsigned. intros H. destruct (take_int s) as [[ids r1]|] eqn:Hi; [|done].
  pose proof (take_frac_consumed r1). destruct (take_frac r1) as [fds r2]; simpl in *.
  pose proof (take_exp_consumed r2). destruct (take_exp r2) as [ex r3]; simpl in *.
  assert (r = r3) as -> by (repeat case_match; congruence).
  destruct s as [|c s]; [done|]. cbn [take_int] in Hi. destruct (digit_val c) as [z|] eqn:Hc; [|done].
  split; [|by exists c, s, z]. transitivity r1; [|by etrans].
  destruct z; [|pose proof (take_digits_consumed (String c s)) as Hd..];
    [injection Hi as _ <-; by eapply consumed_char, number_char_digit|..];
    destruct (take_digits _); by simplify_eq.
Qed.

(** A text that reads as a number *)
Definition numeral (s : string) (v : json) : Prop := scan_number s = Some (v, "").

Lemma numeral_chars s v : numeral s v → str_all number_char s = true.
Proof.
  unfold numeral, scan_number. destruct (expect "-" s) as [t|] eqn:Hx;
    intros [(p & -> & Hp) _]%scan_unsigned_consumed; rewrite app_nil_r_str in *; [|done].
  apply expect_Some in Hx as ->. simpl. by rewrite Hp.
Qed.

Lemma numeral_head s v :
  numeral s v → ∃ c t, s = String c t ∧
    (is_digit c = true ∨ c = "-"%char ∧ ∃ d u, t = String d u ∧ is_digit d = true).
Proof.
  unfold numeral, scan_number. destruct (expect "-" s) as [t|] eqn:Hx;
    intros [_ (c & u & z & -> & Hc)]%scan_unsigned_consumed.
  - apply expect_Some in Hx as ->. exists "-"%char, (String c u). split; [done|]. right.
    split; [done|]. exists c, u. split; [done|]. unfold is_digit. by rewrite Hc.
  - exists c, u. split; [done|]. left. unfold is_digit. by rewrite Hc.
Qed.

Lemma startswith_head p c s d : p = String c s → c ≠ d → ∀ t, startswith p (String d t) = false.
Proof. intros -> ? t. simpl. by rewrite bool_decide_false. Qed.

Lemma literal_numeral s v r : numeral s v → stops r → literal (s +:+ r) = Some (v, r).
Proof.
  intros Hn Hr. pose proof (scan_number_local s r Hr) as Hs. rewrite Hn in Hs. simpl in Hs.
  unfold literal. destruct (numeral_head s v Hn) as (c & t & -> & Hc).
  rewrite app_cons_str in *. destruct Hc as [Hc|(-> & d & u & -> & Hd)].
  - by rewrite !(startswith_head _ _ _ c eq_refl) by (intros <-; done).
  - rewrite !(startswith_head _ _ _ "-"%char eq_refl) by done.
    rewrite app_cons_str in *. cbn [startswith]. 
    rewrite (bool_decide_false ("I"%char = d)) by (intros <-; done). done.
Qed.

(** *** Integers *)

Lemma pretty_N_go_head x s :
  (0 < x)%N → ∃ c t z, pretty_N_go x s = String c t ∧ digit_val c = Some z ∧ z ≠ 0.
Proof.
  revert s. induction (N.lt_wf_0 x) as [x _ IH]. intros s Hx. rewrite pretty_N_go_step by lia.
  assert (x mod 10 < 10)%N by (apply N.mod_lt; lia).
  destruct (decide (x / 10 = 0)%N) as [Hz|Hz].
  - rewrite Hz, pretty_N_go_0. eexists _, _, _. split_and!; [done|by apply pretty_N_char_val|].
    apply N.div_small_iff in Hz; [|done]. rewrite N.mod_small by done. lia.
  - apply IH; [apply N.div_lt; lia|by apply N.neq_0_lt_0].
Qed.

Lemma take_digits_all s : str_all is_digit s = true → take_digits s = (s, "").
Proof.
  induction s as [|c s IH]; simpl; [done|]. unfold is_digit at 1. intros [Hc Hs]%andb_true_iff.
  destruct (digit_val c); [|done]. by rewrite IH.
Qed.

Lemma take_int_pretty (n : N) : take_int (pretty n) = Some (pretty n, "").
Proof.
  destruct (decide (n = 0%N)) as [->|Hn]; [done|].
  pose proof (pretty_N_digits n) as (Hd & _ & _).
  assert (∃ c t z, pretty n = String c t ∧ digit_val c = Some z ∧ z ≠ 0) as (c & t & z & E & Hc & Hz).
  { change (pretty n) with (pretty_N n). unfold pretty_N. rewrite decide_False by done.
    apply pretty_N_go_head. lia. }
  rewrite E in *. cbn [take_int]. rewrite Hc. destruct z; [done|..];
    by rewrite take_digits_all.
Qed.

Lemma scan_unsigned_pretty neg (n : N) :
  scan_unsigned neg (pretty n) = Some (JInt ((if neg : bool then Z.opp else id) (Z.of_N n)), "").
Proof.
  unfold scan_unsigned. rewrite take_int_pretty. simpl. unfold dec_val.
  pose proof (pretty_N_digits n) as (_ & -> & _). done.
Qed.

Lemma numeral_int z : numeral (pretty z) (JInt z).
Proof.
  unfold numeral, scan_number. destruct z as [|p|p].
  - done.
  - change (pretty (Z.pos p)) with (pretty (N.pos p)).
    pose proof (pretty_N_digits (N.pos p)) as (Hd & _ & _). pose proof (scan_unsigned_pretty false (N.pos p)) as Hs.
    destruct (expect "-" _) eqn:Hx; [|done]. apply expect_Some in Hx. rewrite Hx in Hd. done.
  - change (pretty (Z.neg p)) with (String "-"%char (pretty (N.pos p))).
    apply (scan_unsigned_pretty true (N.pos p)).
Qed.

(** *** Floats *)

#[global] Instance float_eq_dec : EqDecision float.
Proof. solve_decision. Defined.

(** The shortest decimal [repr] finds reads back as the same double. *)
Definition readable (f : float) : bool :=
  match f with
  | S754_nan | S754_infinity _ => true
  | _ =>
      match scan_number (json_float f) with
      | Some (JFloat g, "") => bool_decide (f = g)
      | _ => false
      end
  end.

Lemma literal_float f r :
  readable f = true → stops r → literal (json_float f +:+ r) = Some (JFloat f, r).
Proof.
  intros Hf Hr. destruct f as [b|b| |b m e]; [|by destruct b|done|]; apply literal_numeral; try done;
    unfold readable in Hf; unfold numeral;
    destruct (scan_number _) as [[[] []]|]; try done;
    apply bool_decide_eq_true in Hf; by rewrite Hf.
Qed.

(** ** Sorting by key *)

Section merge_sort_map.
Context {A B : Type} (f : A → B) (R : relation A) (S : relation B) `{!RelDecision R, !RelDecision S}.
Hypothesis HRS : ∀ x y, R x y ↔ S (f x) (f y).

Lemma list_merge_map l k : map f (list_merge R l k) = list_merge S (map f l) (map f k).
Proof using HRS.
  revert k. induction l as [|x l IHl]; intros k; [by destruct k|].
  induction k as [|y k IHk]; [done|]. simpl. specialize (HRS x y).
  destruct (decide (R x y)), (decide (S (f x) (f y))); try tauto; simpl; f_equal.
  - apply (IHl (y :: k)).
  - exact IHk.
Qed.

Abbreviation map_stack := (map (fmap (M:=option) (map f))).

Lemma merge_list_to_stack_map st l :
  map_stack (merge_list_to_stack R st l) = merge_list_to_stack S (map_stack st) (map f l).
Proof using HRS.
  revert l. induction st as [|[k|] st IH]; intros l; simpl; [done| |done].
  by rewrite IH, list_merge_map.
Qed.

Lemma merge_stack_map st : map f (merge_stack R st) = merge_stack S (map_stack st).
Proof using HRS.
  induction st as [|[k|] st IH]; simpl; [done| |done]. by rewrite list_merge_map, IH.
Qed.

Lemma merge_sort_map l : map f (merge_sort R l) = merge_sort S (map f l).
Proof using HRS.
  unfold merge_sort. change (@nil (option (list B))) with (map_stack []).
  generalize (@nil (option (list A))) as st. induction l as [|x l IH]; intros st; simpl.
  - apply merge_stack_map.
  - rewrite IH, merge_list_to_stack_map. done.
Qed.
End merge_sort_map.

(** [json.loads(json.dumps(v, sort_keys=True))]: the items of every object in
    the order of their keys *)
Fixpoint sort_keys (v : json) : json :=
  match v with
  | JArr l => JArr (map sort_keys l)
  | JObj d => JObj (merge_sort key_le (map (λ '(k, v), (k, sort_keys v)) d))
  | v => v
  end.

Definition sort_dict (d : dict json) : dict json :=
  map (λ '(k, v), (k, sort_keys v)) (merge_sort key_le d).

Lemma map_by_key {V W} (f : V → W) (d : dict V) :
  merge_sort key_le (map (λ '(k, v), (k, f v)) d)
  = map (λ '(k, v), (k, f v)) (merge_sort key_le d).
Proof. symmetry. apply merge_sort_map. by intros [] []. Qed.

Lemma sort_keys_obj d : sort_keys (JObj d) = JObj (sort_dict d).
Proof. cbn [sort_keys]. by rewrite map_by_key. Qed.

Lemma sort_dict_keys d : (sort_dict d).*1 ≡ₚ d.*1.
Proof.
  unfold sort_dict. rewrite <-(merge_sort_Permutation key_le d) at 2.
  induction (merge_sort key_le d) as [|[k v] e IH]; simpl; [done|]. by rewrite IH.
Qed.

(** The items themselves stay: sorting does not change what is looked up. *)
Lemma dget_sort_dict k d : NoDup d.*1 → dget k (sort_dict d) = sort_keys <$> dget k d.
Proof.
  intros Hd. destruct (dget k d) as [v|] eqn:Hk; simpl.
  - apply elem_dget; [by rewrite sort_dict_keys|]. apply dget_elem in Hk.
    apply list_elem_of_fmap. exists (k, v). split; [done|].
    by rewrite (merge_sort_Permutation key_le d).
  - apply dget_None. apply dget_None in Hk. by rewrite sort_dict_keys.
Qed.

Lemma get_sort_dict k d : NoDup d.*1 → get k (sort_dict d) = sort_keys (get k d).
Proof. intros Hd. unfold get. rewrite dget_sort_dict by done. by destruct (dget k d). Qed.

Lemma sort_dict_Forall (P : json → Prop) d :
  Forall (λ kv, P (sort_keys kv.2)) d → Forall P (sort_dict d).*2.
Proof.
  intros H. rewrite <-(merge_sort_Permutation key_le d) in H. unfold sort_dict.
  apply Forall_fmap, Forall_fmap. eapply Forall_impl; [exact H|]. by intros [].
Qed.

(** ** Values *)

(** What [json.dumps] writes so that it reads back: strings without lone
    surrogates, floats whose rendering reads back, each key once *)
Fixpoint writable (v : json) : bool :=
  match v with
  | JFloat f => readable f
  | JStr s => utf8_valid s
  | JArr l => forallb writable l
  | JObj d =>
      bool_decide (NoDup d.*1) && forallb (λ '(k, v), utf8_valid k && writable v) d
  | _ => true
  end.

(** Induction on a value, with the elements of lists and dictionaries *)
Lemma json_nested_ind (P : json → Prop) :
  P JNull → (∀ b, P (JBool b)) → (∀ z, P (JInt z)) → (∀ f, P (JFloat f)) → (∀ s, P (JStr s)) →
  (∀ l, Forall P l → P (JArr l)) → (∀ d, Forall (λ kv, P kv.2) d → P (JObj d)) → ∀ v, P v.
Proof.
  intros Hn Hb Hi Hf Hs Ha Ho. fix IH 1. intros [| | | | |l|d]; [done|auto..| |].
  - apply Ha. induction l; constructor; auto.
  - apply Ho. induction d as [|[] ? ?]; constructor; auto.
Qed.

(** A value starts with a character that is no white space and closes nothing. *)
Definition opens (s : string) : Prop :=
  ∃ c t, s = String c t ∧ is_json_space c = false ∧ c ≠ "]"%char ∧ c ≠ "}"%char.

Lemma opens_app s t : opens s → opens (s +:+ t).
Proof. intros (c & u & -> & ?). exists c, (u +:+ t). done. Qed.

Lemma opens_skip s t : opens s → skip_ws (s +:+ t) = s +:+ t.
Proof. intros (c & u & -> & Hc & _). rewrite app_cons_str. simpl. by rewrite Hc. Qed.

Lemma numeral_opens s v : numeral s v → opens s.
Proof.
  intros (c & t & -> & Hc)%numeral_head. exists c, t. split; [done|].
  destruct Hc as [Hc|[-> _]]; [|done]. split_and!; [|by intros ->..].
  unfold is_json_space, is_digit, digit_val, code in *. destruct (_ && _) eqn:E; [lia|done].
Qed.

Lemma dumps_at_opens level v : writable v = true → opens (dumps_at level v).
Proof.
  intros Hv. destruct v as [|b|z|f|s|l|d]; simpl.
  - by eexists _, _.
  - destruct b; by eexists _, _.
  - eapply numeral_opens, numeral_int.
  - destruct f as [b|b| |b m e]; [| |by eexists _, _|].
    + apply (numeral_opens _ (JFloat (S754_zero b))). by destruct b.
    + destruct b; by eexists _, _.
    + apply (numeral_opens _ (JFloat (S754_finite b m e))). unfold numeral.
      simpl in Hv. destruct (scan_number _) as [[[] []]|]; try done.
      apply bool_decide_eq_true in Hv. by rewrite Hv.
  - by eexists _, _.
  - unfold block. destruct (map _ l); by eexists _, _.
  - unfold block. destruct (map _ _); by eexists _, _.
Qed.

(** [scan_value] reads the front of the text as [v]. *)
Definition reads (s : string) (v : json) : Prop :=
  ∀ r fuel, stops r → (2 * String.length s < fuel)%nat → scan_value fuel (s +:+ r) = Got v r.

Lemma reads_literal s v :
  (∀ r, stops r → literal (s +:+ r) = Some (v, r)) →
  (∃ c t, s = String c t ∧ c ≠ quote_char ∧ c ≠ "{"%char ∧ c ≠ "["%char) → reads s v.
Proof.
  intros Hl (c & t & -> & H1 & H2 & H3) r fuel Hr Hf. destruct fuel as [|fuel]; [simpl in Hf; lia|].
  specialize (Hl r Hr). rewrite app_cons_str in *. cbn [scan_value].
  by rewrite !bool_decide_false, Hl by done.
Qed.

Lemma reads_str s : utf8_valid s = true → reads (json_quote s) (JStr s).
Proof.
  intros Hs r fuel _ Hf. destruct fuel as [|fuel]; [lia|]. rewrite json_quote_app.
  cbn [scan_value]. by rewrite bool_decide_true, scan_str_quote.
Qed.

Lemma numeral_plain s v :
  numeral s v → ∃ c t, s = String c t ∧ c ≠ quote_char ∧ c ≠ "{"%char ∧ c ≠ "["%char.
Proof.
  intros (c & t & -> & Hc)%numeral_head. exists c, t. split; [done|].
  destruct Hc as [Hc|[-> _]]; [|done]. split_and!; by intros ->.
Qed.

Lemma reads_numeral s v : numeral s v → reads s v.
Proof.
  intros Hn. apply reads_literal; [|by eapply numeral_plain].
  intros r Hr. by apply literal_numeral.
Qed.

Lemma reads_float f : readable f = true → reads (json_float f) (JFloat f).
Proof.
  intros Hf. apply reads_literal; [intros; by apply literal_float|].
  destruct f as [b|b| |b m e]; [destruct b; by eexists _, _..|by eexists _, _|].
  apply (numeral_plain _ (JFloat (S754_finite b m e))). unfold numeral. unfold readable in Hf.
  destruct (scan_number _) as [[[] []]|]; try done. apply bool_decide_eq_true in Hf. by rewrite Hf.
Qed.

(** White space *)
Lemma skip_spaces n s : skip_ws (spaces n +:+ s) = skip_ws s.
Proof. by induction n. Qed.

Lemma skip_line n s : skip_ws ((newline +:+ spaces n) +:+ s) = skip_ws s.
Proof. rewrite app_assoc_str. unfold newline. rewrite app_cons_str. apply skip_spaces. Qed.

(** The end of an array or an object: a line break, spaces, the bracket *)
Lemma skip_close n (c : ascii) s : is_json_space c = false → skip_ws (newline +:+ spaces n +:+ String c s) = String c s.
Proof. intros Hc. rewrite <-app_assoc_str, skip_line. simpl. by rewrite Hc. Qed.

Lemma stops_newline s : stops (newline +:+ s).
Proof. done. Qed.

Section items.
Variable level : nat.
Let sep : string := newline +:+ spaces (2 * S level).
Let close (c : ascii) (r : string) : string := newline +:+ spaces (2 * level) +:+ String c r.

Lemma skip_sep s : skip_ws (sep +:+ s) = skip_ws s.
Proof. apply skip_line. Qed.

Lemma scan_elems_items l vs acc r fuel :
  l ≠ [] → Forall2 reads l vs → Forall opens l →
  (S (2 * String.length (join ("," +:+ sep) l)) < fuel)%nat →
  scan_elems fuel acc (join ("," +:+ sep) l +:+ close "]" r) = Got (JArr (acc ++ vs)) r.
Proof.
  intros Hne Hl. revert acc fuel. induction Hl as [|x v l vs Hx Hl IH]; intros acc fuel Ho Hf; [done|].
  destruct fuel as [|fuel]; [lia|]. apply Forall_cons in Ho as [Hox Ho].
  destruct l as [|y l].
  - inversion Hl; subst. cbn [join scan_elems] in *. rewrite Hx by (apply stops_newline || lia).
    unfold close. by rewrite skip_close.
  - change (join ("," +:+ sep) (x :: y :: l))
      with (x +:+ ("," +:+ sep) +:+ join ("," +:+ sep) (y :: l)) in *.
    rewrite !length_app_str in Hf. change (String.length ",") with 1%nat in Hf.
    rewrite !app_assoc_str. cbn [scan_elems]. rewrite Hx by (done || lia).
    change ("," +:+ sep +:+ join ("," +:+ sep) (y :: l) +:+ close "]" r) with
      (String ","%char (sep +:+ join ("," +:+ sep) (y :: l) +:+ close "]" r)).
    cbn [skip_ws expect]. change (is_json_space ",") with false. cbn [expect].
    rewrite bool_decide_false, bool_decide_true by done.
    rewrite skip_sep, opens_skip.
    + rewrite IH by (done || lia). by rewrite <-app_assoc.
    + apply Forall_cons in Ho as [Hy _]. destruct l; [done|]. by apply opens_app.
Qed.

(** A line of an object, and what [scan_members] makes of it *)
Definition member_text (kt : string * string) : string := cat [json_quote kt.1; ": "; kt.2].

Lemma member_app kt r :
  member_text kt +:+ r = json_quote kt.1 +:+ String ":"%char (String " "%char (kt.2 +:+ r)).
Proof. unfold member_text, cat. cbn [foldr]. by rewrite !app_assoc_str. Qed.

Lemma member_opens kt : opens (member_text kt).
Proof. eexists quote_char, _. split; [reflexivity|]. split_and!; [reflexivity|discriminate..]. Qed.

Lemma scan_members_step_ok fuel acc k t v rest :
  utf8_valid k = true → reads t v → opens t → stops rest → (2 * String.length t < fuel)%nat →
  scan_members (S fuel) acc (member_text (k, t) +:+ rest) =
  match expect "}" (skip_ws rest) with
  | Some r4 => Got (JObj (dset k v acc)) r4
  | None =>
      match expect "," (skip_ws rest) with
      | Some r4 => scan_members fuel (dset k v acc) (skip_ws r4)
      | None => Bad "Expecting ',' delimiter" (skip_ws rest)
      end
  end.
Proof.
  intros Hk Ht Ho Hr Hf. rewrite member_app, json_quote_app. cbn [scan_members].
  rewrite bool_decide_true, scan_str_quote by done. cbn [skip_ws expect fst snd].
  change (is_json_space ":") with false. cbn [expect]. rewrite bool_decide_true by done.
  cbn [skip_ws]. change (is_json_space " ") with true. cbn iota.
  by rewrite opens_skip, Ht.
Qed.

Lemma scan_members_items (l : list (string * string)) (vs : list json) acc r fuel :
  l ≠ [] → Forall2 reads l.*2 vs → Forall opens l.*2 → Forall (λ k, utf8_valid k = true) l.*1 →
  NoDup (acc.*1 ++ l.*1) →
  (2 * String.length (join ("," +:+ sep) (map member_text l)) < fuel)%nat →
  scan_members fuel acc (join ("," +:+ sep) (map member_text l) +:+ close "}" r)
  = Got (JObj (acc ++ zip l.*1 vs)) r.
Proof.
  intros Hne Hl. remember l.*2 as ts eqn:Hts. revert l Hne Hts acc fuel.
  induction Hl as [|x v ts vs Hx Hl IH]; intros [|[k t] l] Hne Hts acc fuel Ho Hu Hnd Hf; try done.
  simplify_eq/=. destruct fuel as [|fuel]; [lia|]. apply Forall_cons in Ho as [Hot Ho].
  apply Forall_cons in Hu as [Hk Hu].
  assert (dset k v acc = acc ++ [(k, v)]) as Hset.
  { apply dset_fresh, dget_None. apply NoDup_app in Hnd as (_ & Hd & _). intros Hin.
    apply (Hd k Hin). set_solver. }
  assert (String.length t < String.length (member_text (k, t)))%nat as Hlen.
  { unfold member_text, cat. cbn [foldr fst snd]. rewrite !length_app_str. simpl. lia. }
  destruct l as [|[k2 t2] l].
  - inversion Hl; subst. cbn [join map] in *.
    rewrite (scan_members_step_ok _ _ _ _ v) by (done || lia).
    unfold close. rewrite skip_close by done. cbn [expect]. by rewrite bool_decide_true, Hset.
  - cbn [map] in *. set (tail := map member_text l) in *.
    change (join ("," +:+ sep) (member_text (k, t) :: member_text (k2, t2) :: tail))
      with (member_text (k, t) +:+ ("," +:+ sep) +:+ join ("," +:+ sep) (member_text (k2, t2) :: tail)) in *.
    rewrite !length_app_str in Hf. change (String.length ",") with 1%nat in Hf.
    rewrite !app_assoc_str. rewrite (scan_members_step_ok _ _ _ _ v) by (done || lia).
    change ("," +:+ sep +:+ ?x) with (String ","%char (sep +:+ x)). cbn [skip_ws].
    change (is_json_space ",") with false. cbn [expect].
    rewrite bool_decide_false, bool_decide_true by done.
    rewrite skip_sep, opens_skip.
    + subst tail. rewrite (IH ((k2, t2) :: l)); [|done..| |cbn [map]; lia].
      * rewrite Hset, <-app_assoc. done.
      * rewrite Hset, fmap_app, <-app_assoc. done.
    + destruct tail; [apply member_opens|]. apply opens_app, member_opens.
Qed.
End items.

Lemma block_app o c level items r :
  items ≠ [] →
  block o (String c "") level items +:+ r =
  o +:+ (newline +:+ spaces (2 * S level)) +:+
  join ("," +:+ newline +:+ spaces (2 * S level)) items +:+
  newline +:+ spaces (2 * level) +:+ String c r.
Proof.
  intros Hi. unfold block. destruct items as [|x l]; [done|]. unfold cat. cbn [foldr].
  rewrite app_nil_r_str, !app_assoc_str. done.
Qed.

Lemma block_length o c level items :
  (String.length o + String.length (join ("," +:+ newline +:+ spaces (2 * S level)) items) + 1
   ≤ String.length (block o (String c "") level items))%nat.
Proof.
  unfold block. destruct items as [|x l]; [rewrite length_app_str; simpl; lia|].
  unfold cat. cbn [foldr]. rewrite !length_app_str. simpl String.length. lia.
Qed.

Lemma join_opens sep l : Forall opens l → l ≠ [] → opens (join sep l).
Proof.
  intros Ho Hne. destruct l as [|x [|y l]]; [done|by inversion Ho|].
  inversion Ho; subst. cbn [join]. by apply opens_app.
Qed.

Lemma expect_opens d s t : opens s → d = "]"%char ∨ d = "}"%char → expect d (s +:+ t) = None.
Proof.
  intros (c & u & -> & _ & H1 & H2) Hd. rewrite app_cons_str. simpl.
  by rewrite bool_decide_false by (destruct Hd as [-> | ->]; done).
Qed.

Lemma reads_arr level l vs :
  Forall2 reads l vs → Forall opens l → reads (block "[" "]" level l) (JArr vs).
Proof.
  intros Hl Ho r fuel Hr Hf. destruct (decide (l = [])) as [->|Hne].
  { inversion Hl; subst. destruct fuel as [|fuel]; [simpl in Hf; lia|]. done. }
  pose proof (block_length "[" "]" level l) as Hlen. change (String.length "[") with 1%nat in Hlen.
  destruct fuel as [|fuel]; [lia|]. rewrite block_app by done.
  change ("[" +:+ ?x) with (String "["%char x). cbn [scan_value].
  rewrite !(bool_decide_false (_ = _)), bool_decide_true by done.
  rewrite skip_line, opens_skip by (by apply join_opens).
  rewrite expect_opens by (by auto using join_opens).
  rewrite scan_elems_items with (vs := vs); [done|done..|lia].
Qed.

Lemma reads_obj level (l : list (string * string)) vs :
  Forall2 reads l.*2 vs → Forall opens l.*2 → Forall (λ k, utf8_valid k = true) l.*1 → NoDup l.*1 →
  reads (block "{" "}" level (map member_text l)) (JObj (zip l.*1 vs)).
Proof.
  intros Hl Ho Hu Hnd r fuel Hr Hf. destruct (decide (l = [])) as [->|Hne].
  { destruct fuel as [|fuel]; [simpl in Hf; lia|]. done. }
  assert (map member_text l ≠ []) as Hne' by (by destruct l).
  assert (Forall opens (map member_text l)) as Hom.
  { apply Forall_forall. intros x (y & -> & _)%list_elem_of_fmap. apply member_opens. }
  pose proof (block_length "{" "}" level (map member_text l)) as Hlen.
  change (String.length "{") with 1%nat in Hlen.
  destruct fuel as [|fuel]; [lia|]. rewrite block_app by done.
  change ("{" +:+ ?x) with (String "{"%char x). cbn [scan_value].
  rewrite !(bool_decide_false (_ = _)), bool_decide_true by done.
  rewrite skip_line, opens_skip by (by apply join_opens).
  rewrite expect_opens by (by auto using join_opens).
  rewrite scan_members_items with (vs := vs); [done|done..|lia].
Qed.

Lemma writable_arr l : writable (JArr l) = true ↔ Forall (λ v, writable v = true) l.
Proof. cbn [writable]. rewrite forallb_forall, Forall_forall. by setoid_rewrite list_elem_of_In. Qed.

Lemma writable_obj d :
  writable (JObj d) = true ↔
  NoDup d.*1 ∧ Forall (λ kv, utf8_valid kv.1 = true ∧ writable kv.2 = true) d.
Proof.
  cbn [writable]. rewrite andb_true_iff, bool_decide_eq_true, forallb_forall, Forall_forall.
  setoid_rewrite list_elem_of_In. f_equiv. apply forall_proper. intros [k v].
  by rewrite andb_true_iff.
Qed.

Lemma dumps_at_reads v : ∀ level, writable v = true → reads (dumps_at level v) (sort_keys v).
Proof.
  induction v as [|b|z|f|s|l IH|d IH] using json_nested_ind; intros level Hw.
  - apply reads_literal; [done|by eexists _, _].
  - destruct b; (apply reads_literal; [done|by eexists _, _]).
  - apply reads_numeral, numeral_int.
  - by apply reads_float.
  - by apply reads_str.
  - apply writable_arr in Hw. rewrite Forall_forall in IH, Hw.
    cbn [dumps_at sort_keys]. apply reads_arr.
    + apply Forall2_fmap_2, Forall_Forall2_diag, Forall_forall. auto.
    + apply Forall_fmap, Forall_forall. intros. apply dumps_at_opens. auto.
  - apply writable_obj in Hw as [Hnd Hw]. cbn [dumps_at]. rewrite sort_keys_obj, map_by_key.
    unfold sort_dict. rewrite <-(merge_sort_Permutation key_le d) in Hnd, Hw, IH.
    revert Hnd Hw IH. generalize (merge_sort key_le d) as e. clear d. intros d Hnd Hw IH.
    set (l := map (λ '(k, v), (k, dumps_at (S level) v)) d).
    assert (l.*1 = d.*1) as Hk1 by (subst l; clear; induction d as [|[]]; csimpl; congruence).
    assert (l.*2 = map (dumps_at (S level)) d.*2) as Hk2
      by (subst l; clear; induction d as [|[]]; csimpl; congruence).
    replace (map (λ '(k, v), (k, sort_keys v)) d) with (zip l.*1 (map sort_keys d.*2))
      by (rewrite Hk1; clear; induction d as [|[]]; csimpl; congruence).
    replace (map _ l) with (map member_text l) by (apply map_ext; by intros []).
    rewrite Forall_forall in IH, Hw. apply reads_obj.
    + rewrite Hk2. apply Forall2_fmap_2, Forall_Forall2_diag, Forall_fmap, Forall_forall.
      intros kv Hin. apply IH; [done|]. by apply Hw.
    + rewrite Hk2. apply Forall_fmap, Forall_fmap, Forall_forall. intros kv Hin.
      apply dumps_at_opens. by apply Hw.
    + rewrite Hk1. apply Forall_fmap, Forall_forall. intros kv Hin. by apply Hw.
    + by rewrite Hk1.
Qed.

(** ** The text is ASCII *)

Definition text_char (c : ascii) : bool := (32 <=? code c) && (code c <=? 126) || (code c =? 10).

Lemma str_all_app P s t : str_all P (s +:+ t) = str_all P s && str_all P t.
Proof.
  induction s as [|c s IH]; [done|]. rewrite app_cons_str. simpl. by rewrite IH, andb_assoc.
Qed.

Lemma str_all_cat P l : str_all P (cat l) = forallb (str_all P) l.
Proof. induction l as [|s l IH]; [done|]. simpl. by rewrite str_all_app, IH. Qed.

Lemma str_all_join P sep l :
  str_all P sep = true → Forall (λ s, str_all P s = true) l → str_all P (join sep l) = true.
Proof.
  intros Hsep. induction 1 as [|s l Hs Hl IH]; [done|]. destruct l as [|t l]; [done|].
  change (join sep (s :: t :: l)) with (s +:+ sep +:+ join sep (t :: l)).
  by rewrite !str_all_app, Hs, Hsep, IH.
Qed.

Lemma str_all_impl (P Q : ascii → bool) s :
  (∀ c, P c = true → Q c = true) → str_all P s = true → str_all Q s = true.
Proof.
  intros HPQ. induction s as [|c s IH]; [done|]. simpl. rewrite !andb_true_iff. naive_solver.
Qed.

Lemma text_spaces n : str_all text_char (spaces n) = true.
Proof. by induction n. Qed.

Lemma text_hex n : text_char (hex_digit (Z.to_nat (Z.land n 15))) = true.
Proof.
  assert (0 ≤ Z.land n 15 < 16).
  { change 15 with (Z.ones 4). rewrite Z.land_ones by lia. apply Z.mod_pos_bound. lia. }
  refine (check_range (λ n, text_char (hex_digit (Z.to_nat n))) 16 _ _ _); [by vm_compute|done].
Qed.

Lemma text_u_escape n : str_all text_char (u_escape n) = true.
Proof.
  unfold u_escape, hex4_digits. cbv zeta. rewrite str_all_app. cbn [str_all].
  by rewrite !text_hex.
Qed.

Lemma text_escape cp : str_all text_char (escape_cp cp) = true.
Proof.
  unfold escape_cp. cbv zeta. do 7 (case_match; [done|]).
  destruct ((32 <=? cp) && (cp <=? 126)) eqn:Hp.
  { cbn [str_all]. unfold text_char. rewrite code_byte by lia. by rewrite Hp. }
  case_match; [apply text_u_escape|]. by rewrite str_all_app, !text_u_escape.
Qed.

Lemma text_quote s : str_all text_char (json_quote s) = true.
Proof.
  unfold json_quote. cbn [str_all]. rewrite str_all_app, str_all_cat.
  rewrite (proj2 (forallb_forall _ _)); [done|].
  intros x (cp & <- & _)%in_map_iff. apply text_escape.
Qed.

Lemma text_numeral s v : numeral s v → str_all text_char s = true.
Proof.
  intros H%numeral_chars. revert H. apply str_all_impl. intros c.
  unfold number_char, is_digit, digit_val, text_char, code. rewrite !orb_true_iff, !bool_decide_eq_true.
  intros [[[[[Hc| ->]| ->]| ->]| ->]| ->]; [|by left..].
  left. destruct (_ && _) eqn:E; [lia|done].
Qed.

Lemma text_float f : readable f = true → str_all text_char (json_float f) = true.
Proof.
  intros Hf. destruct f as [b|b| |b m e]; [by destruct b..|done|].
  apply (text_numeral _ (JFloat (S754_finite b m e))). unfold numeral. unfold readable in Hf.
  destruct (scan_number _) as [[[] []]|]; try done. apply bool_decide_eq_true in Hf. by rewrite Hf.
Qed.

Lemma text_block o c level items :
  str_all text_char o = true → str_all text_char c = true →
  Forall (λ s, str_all text_char s = true) items → str_all text_char (block o c level items) = true.
Proof.
  intros Ho Hc Hi. unfold block. destruct items as [|x l]; [by rewrite str_all_app, Ho, Hc|].
  rewrite str_all_cat. cbn [forallb].
  rewrite str_all_join; [|by rewrite !str_all_app, text_spaces|done].
  by rewrite !str_all_app, !text_spaces, Ho, Hc.
Qed.

Lemma text_dumps_at v : ∀ level, writable v = true → str_all text_char (dumps_at level v) = true.
Proof.
  induction v as [|b|z|f|s|l IH|d IH] using json_nested_ind; intros level Hw.
  - done.
  - by destruct b.
  - eapply text_numeral, numeral_int.
  - by apply text_float.
  - by apply text_quote.
  - apply writable_arr in Hw. rewrite Forall_forall in IH, Hw. apply text_block; [done..|].
    apply Forall_fmap, Forall_forall. auto.
  - apply writable_obj in Hw as [_ Hw]. cbn [dumps_at]. rewrite map_by_key. apply text_block; [done..|].
    rewrite <-(merge_sort_Permutation key_le d) in Hw, IH. rewrite Forall_forall in IH, Hw.
    apply Forall_fmap, Forall_fmap, Forall_forall. intros [k v] Hin.
    change (str_all text_char (member_text (k, dumps_at (S level) v)) = true). unfold member_text.
    rewrite str_all_cat. cbn [forallb fst snd]. rewrite text_quote, (IH _ Hin); [done|].
    by apply (Hw _ Hin).
Qed.

Lemma text_bom s : str_all text_char s = true → startswith bom s = false.
Proof.
  intros Hs. destruct (startswith bom s) eqn:Hb; [|done].
  by apply startswith_spec in Hb as [t ->].
Qed.

(** A file with such a text decodes to it. *)
Lemma text_decodes s : str_all text_char s = true → decode_text s = Ok s.
Proof.
  intros Hs. unfold decode_text.
  assert (utf8_valid s = true ∧ universal_newlines s = s) as [-> ->]; [|done].
  induction s as [|c s IH]; [done|]. simpl in Hs. apply andb_true_iff in Hs as [Hc Hs].
  destruct (IH Hs) as [Hv Hu]. unfold text_char in Hc. pose proof (code_range c).
  cbn [utf8_valid universal_newlines].
  rewrite (proj2 (Z.ltb_lt _ _)), (proj2 (Z.eqb_neq _ _)), Hu by lia. done.
Qed.

(** ** The round trip *)

(** The end of a file: nothing, or a line break *)
Definition line_end (r : string) : Prop := r = "" ∨ r = newline.

(** [json.loads(json.dumps(v, indent=2, sort_keys=True) + "\n")] *)
Lemma loads_dumps v r :
  writable v = true → line_end r → json_loads (dumps_indent v +:+ r) = Ok (sort_keys v).
Proof.
  intros Hw Hr. assert (stops r ∧ skip_ws r = "" ∧ str_all text_char r = true) as (Hst & Hsk & Ht)
    by (by destruct Hr as [-> | ->]).
  pose proof (dumps_at_opens 0 v Hw) as Ho. unfold json_loads, dumps_indent.
  rewrite text_bom by (by rewrite str_all_app, text_dumps_at).
  rewrite opens_skip by done. rewrite dumps_at_reads; [by rewrite Hsk|done..|].
  unfold scan_fuel. rewrite length_app_str. lia.
Qed.

Lemma decode_dumps v r :
  writable v = true → line_end r → decode_text (dumps_indent v +:+ r) = Ok (dumps_indent v +:+ r).
Proof.
  intros Hw Hr. apply text_decodes. unfold dumps_indent. rewrite str_all_app, text_dumps_at by done.
  by destruct Hr as [-> | ->].
Qed.

(** Printable ASCII can be printed. *)
Lemma text_printed s : str_all text_char s = true → utf8_valid s = true.
Proof. intros H%text_decodes. unfold decode_text in H. by destruct (utf8_valid s). Qed.

Lemma pretty_N_text (n : N) : str_all text_char (pretty n) = true.
Proof.
  destruct (pretty_N_digits n) as [Hd _]. eapply str_all_impl, Hd.
  intros c Hc. revert Hc. by destruct c as [[] [] [] [] [] [] [] []].
Qed.

Lemma pretty_text (z : Z) : str_all text_char (pretty z) = true.
Proof.
  destruct z as [|p|p]; [apply (pretty_N_text 0)|apply (pretty_N_text (Npos p))|exact (pretty_N_text (Npos p))].
Qed.
