(* ===== verification/Process.v ===== *)
(** * Child processes, sockets and the clock

    The parts of [subprocess], [socket], [shutil] and [time] the runners use,
    over the process table of the world.  What the rest of the machine does (how
    a command behaves, what it writes to the file system while time passes,
    whether a port accepts a connection) is an [environment], a parameter of
    every definition that depends on it.  Python code itself takes no time;
    waiting does, and a wait that polls is taken to notice an exit when it
    happens.  A time-out is a whole number of nanoseconds.  Starting a process
    and connecting to a port raise what Python raises before it asks the system
    (arguments and names that cannot be passed on, ports out of range), and what
    the environment makes of the rest. *)

From Stdlib Require Import Ascii.
From S2P Require Import Prelude PyFloat PyVal PyPath Json World.

Local Open Scope Z_scope.

(** Why a host name has no address: the resolver does not know it
    ([socket.gaierror], an [OSError]), it has no IDNA form ([UnicodeError], a
    [ValueError]), or it contains a NUL. *)
Inductive lookup_failure : Type :=
  | UnknownHost (msg : string)
  | NotEncodable (msg : string)
  | NulInName.

Definition lookup_exn (f : lookup_failure) : exn :=
  match f with
  | UnknownHost m => OSError m
  | NotEncodable m => ValueError m
  | NulInName => TypeError "host name must not contain null character"
  end.

Record environment : Type := Environment {
  (** how the command behaves when started in a directory, or the message of
      the [OSError] with which it cannot be *)
  env_spawn : list string → path → world → result string proc;
  (** the file system at a later time *)
  env_files : world → Z → fsys;
  (** how long looking up the host and trying to connect take, and whether the
      connection is made, or why the host has no address *)
  env_connect : world → string → Z → N * result lookup_failure bool;
  (** the port the kernel assigns to a socket bound to port 0 *)
  env_port : world → N;
  (** [shutil.which(name) is not None] *)
  env_which : world → string → bool;
  (** [int(time.time() * 1_000_000)] *)
  env_time_us : world → Z;
  (** what a [TimeoutExpired] says of the output of the child started last *)
  env_partial : world → string * string;
  (** the size [stat] reports of a directory *)
  env_dir_size : list string → Z;
  (** [hash] of a tuple of strings, which differs between runs *)
  env_hash : list string → Z;
}.

(** ** Decoding with [errors="replace"] *)

Definition REPLACEMENT : string := String (byte 239) (String (byte 191) (String (byte 189) "")).

(** The range of the second byte and the number of continuation bytes. *)
Definition utf8_lead (n : Z) : option (Z * Z * nat) :=
  if (194 <=? n) && (n <=? 223) then Some (128, 191, 1%nat)
  else if (224 <=? n) && (n <=? 239) then
    Some (if n =? 224 then 160 else 128, if n =? 237 then 159 else 191, 2%nat)
  else if (240 <=? n) && (n <=? 244) then
    Some (if n =? 240 then 144 else 128, if n =? 244 then 143 else 191, 3%nat)
  else None.

(** [bytes.decode("utf-8", errors="replace")]: every maximal part of an
    ill-formed sequence becomes one U+FFFD. *)
Fixpoint utf8_replace (s : string) : string :=
  match s with
  | "" => ""
  | String a r =>
      if code a <? 128 then String a (utf8_replace r)
      else match utf8_lead (code a), r with
      | None, _ => REPLACEMENT +:+ utf8_replace r
      | Some _, "" => REPLACEMENT
      | Some (lo, hi, k), String b r1 =>
          if negb (in_range lo hi b) then REPLACEMENT +:+ utf8_replace r
          else match k, r1 with
          | 1%nat, _ => String a (String b (utf8_replace r1))
          | _, "" => REPLACEMENT
          | _, String c r2 =>
              if negb (is_continuation c) then REPLACEMENT +:+ utf8_replace r1
              else match k, r2 with
              | 2%nat, _ => String a (String b (String c (utf8_replace r2)))
              | _, "" => REPLACEMENT
              | _, String d r3 =>
                  if negb (is_continuation d) then REPLACEMENT +:+ utf8_replace r2
                  else String a (String b (String c (String d (utf8_replace r3))))
              end
          end
      end
  end.

(** [addr.rsplit(":", 1)] when there is a separator. *)
Fixpoint rsplit1 (c : ascii) (s : string) : option (string * string) :=
  match s with
  | "" => None
  | String a s =>
      match rsplit1 c s with
      | Some (h, t) => Some (String a h, t)
      | None => if bool_decide (a = c) then Some ("", s) else None
      end
  end.

(** An argument of a command line must be a string. *)
Definition arg_str (v : json) : exc string :=
  match v with
  | JStr s => Ok s
  | _ => Err (TypeError (cat ["expected str, bytes or os.PathLike object, not "; type_name v]))
  end.

(** Python strings that stand for undecodable bytes have the surrogates
    U+DC80 to U+DCFF in their place; the file system encoding takes them back. *)
Fixpoint drop_escapes (s : string) : string :=
  match s with
  | String a (String b (String c r) as t) =>
      if (code a =? 237) && in_range 178 179 b then drop_escapes r else String a (drop_escapes t)
  | s => s
  end.

Definition has_nul : string → bool := str_in (String (byte 0) "").

(** What the system accepts as an argument or a directory: a string that the
    file system encoding can encode, without a NUL. *)
Definition passable (s : string) : bool := utf8_valid (drop_escapes s) && negb (has_nul s).

Definition exec_arg (v : json) : exc string :=
  s ← arg_str v;
  raise_if (negb (utf8_valid (drop_escapes s))) surrogate_error;;
  raise_if (has_nul s) (ValueError "embedded null byte");;
  mret s.

(** The arguments of a command as [Popen] passes them on. *)
Definition exec_args (cmd : list json) (cwd : path) : exc (list string) :=
  raise_if (bool_decide (cmd = [])) (IndexError "list index out of range");;
  args ← mapM exec_arg cmd;
  exec_arg (JStr (path_str cwd));;
  mret args.

(** [p.mkdir(parents=True, exist_ok=True)] of a path that may not be passable *)
Definition make_dirs (p : path) : io unit :=
  pure_ (exec_arg (JStr (path_str p)));;
  mkdir_p p.

Definition SECOND : Z := 1000000000.
Definition MILLISECOND : Z := 1000000.

(** [f"{timeout_s:.1f}"] *)
Definition timeout_text (t : Z) : string :=
  format_fixed 1 (f_of_decimal (t <? 0) (Z.abs t) (-9)).

Section process.
Context (E : environment).

Definition advance (t : Z) (w : world) : world := set_now t (set_fs (env_files E w t) w).

(** [time.sleep] *)
Definition sleep (d : Z) : io unit := λ w, (Ok tt, advance (w_now w + d) w).

(** What [connect_ex] raises for a port that is not a 16-bit number *)
Definition port_error : exn := OverflowError "connect_ex(): port must be 0-65535.".

Definition is_port (port : Z) : bool := (0 <=? port) && (port <=? 65535).

(** [sock.connect_ex((host, port)) == 0] on a socket with a time-out: a port
    that is no C integer is refused first, the host is looked up next, and the
    range of the port is checked before the attempt. *)
Definition connect (host : string) (port : Z) : io bool := λ w,
  if negb ((-2147483648 <=? port) && (port <=? 2147483647)) then (Err port_error, w)
  else
    let '(d, r) := env_connect E w host port in
    (match r with
     | Err f => Err (lookup_exn f)
     | Ok ok => if is_port port then Ok ok else Err port_error
     end, advance (w_now w + Z.of_N d) w).

Definition with_proc {A} (i : nat) (f : proc → io A) : io A := λ w,
  match w_procs w !! i with
  | Some p => f p w
  | None => (Err (OSError "[Errno 3] No such process"), w)
  end.

Definition put_proc (i : nat) (p : proc) (w : world) : world :=
  set_procs (<[i := p]> (w_procs w)) w.

Definition reap (i : nat) (p : proc) (c : Z) (w : world) : world :=
  put_proc i (set_ret (Some c) p) w.

Definition spawn (args : list string) (cwd : path) : io nat := λ w,
  match env_spawn E args cwd w with
  | Err m => (Err (OSError m), w)
  | Ok p => (Ok (length (w_procs w)), set_procs (w_procs w ++ [set_ret None p]) w)
  end.

(** [subprocess.Popen(cmd, cwd=cwd)]; the result is the index of the child. *)
Definition popen (cmd : list json) (cwd : path) : io nat :=
  args ← pure_ (exec_args cmd cwd);
  spawn args cwd.

(** [proc.poll()] *)
Definition poll (i : nat) : io (option Z) := with_proc i (λ p w,
  match pr_ret p, pr_exit p with
  | Some c, _ => (Ok (Some c), w)
  | None, Some (t, c) =>
      if t <=? w_now w then (Ok (Some c), reap i p c w) else (Ok None, w)
  | None, None => (Ok None, w)
  end).

(** [proc.returncode] *)
Definition returncode (i : nat) : io (option Z) := with_proc i (λ p, mret (pr_ret p)).

(** [proc.wait(timeout=d)] *)
Definition wait (i : nat) (d : Z) : io Z := with_proc i (λ p w,
  let limit := w_now w + Z.max 0 d in
  match pr_ret p, pr_exit p with
  | Some c, _ => (Ok c, w)
  | None, Some (t, c) =>
      if t <=? limit then (Ok c, reap i p c (advance (Z.max (w_now w) t) w))
      else (Err TimeoutExpired, advance limit w)
  | None, None => (Err TimeoutExpired, advance limit w)
  end).

(** [proc.wait()]: [OutOfFuel] when the child never exits. *)
Definition wait_forever (i : nat) : io Z := with_proc i (λ p w,
  match pr_ret p, pr_exit p with
  | Some c, _ => (Ok c, w)
  | None, Some (t, c) => (Ok c, reap i p c (advance (Z.max (w_now w) t) w))
  | None, None => (Err OutOfFuel, w)
  end).

(** A signal after which the child exits after [d] with code [c], unless it
    exits before. *)
Definition deliver (now : Z) (d : N) (c : Z) (p : proc) : proc :=
  match pr_exit p with
  | Some (t, _) => if t <=? now + Z.of_N d then p else set_exit (now + Z.of_N d, c) p
  | None => set_exit (now + Z.of_N d, c) p
  end.

(** [proc.send_signal(sig)] polls first and does nothing after the exit. *)
Definition send_signal (i : nat) (effect : proc → option (N * Z)) : io unit :=
  r ← poll i;
  match r with
  | Some _ => mret tt
  | None => with_proc i (λ p w,
      match effect p with
      | Some (d, c) => (Ok tt, put_proc i (deliver (w_now w) d c p) w)
      | None => (Ok tt, w)
      end)
  end.

Definition terminate (i : nat) : io unit := send_signal i pr_term.
Definition kill (i : nat) : io unit := send_signal i (λ p, Some (pr_kill p, -9)).

(** The time at which both output pipes are at end of file. *)
Definition eof_at (p : proc) : option Z :=
  match pr_exit p, pr_eof p with
  | Some (t, _), Some d => Some (t + Z.of_N d)
  | _, _ => None
  end.

(** [proc.communicate(timeout=d)] *)
Definition communicate (i : nat) (d : Z) : io (string * string) := with_proc i (λ p w,
  let limit := w_now w + Z.max 0 d in
  match eof_at p, pr_exit p with
  | Some t, Some (_, c) =>
      if t <=? limit then
        (Ok (pr_out p, pr_err p),
         reap i p (default c (pr_ret p)) (advance (Z.max (w_now w) t) w))
      else (Err TimeoutExpired, advance limit w)
  | _, _ => (Err TimeoutExpired, advance limit w)
  end).

(** [subprocess.run(cmd, stdout=PIPE, stderr=PIPE, timeout=d, cwd=cwd)]: the
    exit code and the captured output. *)
Definition subprocess_run (cmd : list json) (cwd : path) (d : Z) : io (Z * string * string) :=
  i ← popen cmd cwd;
  '(out, err) ← catch (communicate i d) (λ e,
    kill i;; wait_forever i;; io_raise e);
  c ← wait_forever i;
  mret (c, out, err).

(** [proc.communicate()] without a time-out, which may wait for ever *)
Definition communicate_forever (i : nat) : io (string * string) := with_proc i (λ p w,
  match eof_at p, pr_exit p with
  | Some t, Some (_, c) =>
      (Ok (pr_out p, pr_err p), reap i p (default c (pr_ret p)) (advance (Z.max (w_now w) t) w))
  | _, _ => (Err OutOfFuel, w)
  end).

(** [subprocess.run] without a time-out *)
Definition subprocess_run_forever (cmd : list json) (cwd : path) : io (Z * string * string) :=
  i ← popen cmd cwd;
  '(out, err) ← communicate_forever i;
  c ← wait_forever i;
  mret (c, out, err).

(** [sock.bind(("127.0.0.1", 0)); sock.getsockname()] *)
Definition reserve_addr : io string :=
  port ← gets (env_port E);
  mret (cat ["127.0.0.1:"; pretty port]).
End process.

(** ** What a statement can do to a child *)

(** [evolves i w w']: between [w] and [w'] only child [i] changed, it kept its
    exit code if it had one, time did not go back, and nothing was printed on
    standard output. *)
Record evolves (i : nat) (w w' : world) : Prop := {
  ev_proc : ∃ p p', w_procs w !! i = Some p ∧ w_procs w' = <[i := p']> (w_procs w) ∧
    pr_kill p' = pr_kill p ∧ (is_Some (pr_ret p) → pr_ret p' = pr_ret p);
  ev_now : w_now w ≤ w_now w';
  ev_out : w_out w' = w_out w;
  ev_cwd : w_cwd w' = w_cwd w;
}.

(** [stays i m]: the statement [m] is about child [i] only. *)
Definition stays {A} (i : nat) (m : io A) : Prop :=
  ∀ w, is_Some (w_procs w !! i) → evolves i w (m w).2.

Lemma evolves_refl i w : is_Some (w_procs w !! i) → evolves i w w.
Proof.
  intros [p Hp]. split; [|lia|done..]. exists p, p. by rewrite list_insert_id.
Qed.

Lemma evolves_slot i w w' : evolves i w w' → is_Some (w_procs w' !! i).
Proof.
  intros [(p & p' & Hp & -> & _) _ _ _]. rewrite list_lookup_insert_eq; [done|].
  by eapply lookup_lt_Some.
Qed.

Lemma evolves_trans i w1 w2 w3 : evolves i w1 w2 → evolves i w2 w3 → evolves i w1 w3.
Proof.
  intros [(p & p' & Hp & H2 & Hk & Hr) ? ? ?] [(q & q' & Hq & H3 & Hk' & Hr') ? ? ?].
  assert (q = p') as ->.
  { rewrite H2, list_lookup_insert_eq in Hq by (by eapply lookup_lt_Some). by simplify_eq. }
  split; [|lia|congruence..]. exists p, q'. split_and!; [done| |congruence|].
  - by rewrite H3, H2, list_insert_insert_eq.
  - intros Hp'. rewrite Hr' by (by rewrite Hr). auto.
Qed.

Lemma evolves_length i w w' : evolves i w w' → length (w_procs w') = length (w_procs w).
Proof. intros [(p & p' & _ & -> & _) _ _ _]. apply length_insert. Qed.

Lemma evolves_put i p p' w t :
  w_procs w !! i = Some p → pr_kill p' = pr_kill p →
  (is_Some (pr_ret p) → pr_ret p' = pr_ret p) → w_now w ≤ w_now t → w_out t = w_out w →
  w_cwd t = w_cwd w → w_procs t = w_procs w → evolves i w (put_proc i p' t).
Proof.
  intros Hp Hk Hr Ht Ho Hc Hps. split; simpl; [|done..]. exists p, p'. by rewrite Hps.
Qed.

Section stays.
Context (E : environment) (i : nat).

Lemma stays_ret {A} (a : A) : stays i (mret a).
Proof. intros w Hw. by apply evolves_refl. Qed.

Lemma stays_raise {A} e : stays (A:=A) i (io_raise e).
Proof. intros w Hw. by apply evolves_refl. Qed.

Lemma stays_pure {A} (m : exc A) : stays i (pure_ m).
Proof. intros w Hw. by apply evolves_refl. Qed.

Lemma stays_gets {A} (f : world → A) : stays i (gets f).
Proof. intros w Hw. by apply evolves_refl. Qed.

Lemma stays_bind {A B} (m : io A) (f : A → io B) :
  stays i m → (∀ a, stays i (f a)) → stays i (m ≫= f).
Proof.
  intros Hm Hf w Hw. specialize (Hm w Hw). unfold mbind, io_bind.
  destruct (m w) as [[a|e] w1]; simpl in *; [|done].
  eapply evolves_trans; [done|]. apply Hf. by eapply evolves_slot.
Qed.

Lemma stays_catch {A} (m : io A) (h : exn → io A) :
  stays i m → (∀ e, stays i (h e)) → stays i (catch m h).
Proof.
  intros Hm Hf w Hw. specialize (Hm w Hw). unfold catch.
  destruct (m w) as [[a|e] w1]; simpl in *; [done|].
  eapply evolves_trans; [done|]. apply Hf. by eapply evolves_slot.
Qed.

Lemma stays_finally {A} (m : io A) (f : io unit) :
  stays i m → stays i f → stays i (finally m f).
Proof.
  intros Hm Hf w Hw. specialize (Hm w Hw). unfold finally.
  destruct (m w) as [r w1]; simpl in *. specialize (Hf w1 (evolves_slot _ _ _ Hm)).
  destruct (f w1) as [[[]|e] w2]; simpl in *; by eapply evolves_trans.
Qed.

Lemma stays_eprint s : stays i (eprint s).
Proof.
  intros w [p Hp]. split; simpl; [|lia|done..]. exists p, p. by rewrite list_insert_id.
Qed.

Lemma stays_with_proc {A} (f : proc → io A) :
  (∀ p w, w_procs w !! i = Some p → evolves i w (f p w).2) → stays i (with_proc i f).
Proof. intros Hf w [p Hp]. unfold with_proc. rewrite Hp. by apply Hf. Qed.

Lemma stays_advance w t : is_Some (w_procs w !! i) → w_now w ≤ t → evolves i w (advance E t w).
Proof.
  intros [p Hp] Ht. split; simpl; [|done..]. exists p, p. by rewrite list_insert_id.
Qed.

Lemma stays_poll : stays i (poll i).
Proof.
  apply stays_with_proc. intros p w Hp.
  destruct (pr_ret p) eqn:Hr; [by apply evolves_refl|].
  destruct (pr_exit p) as [[t c]|]; [|by apply evolves_refl].
  case_match; [|by apply evolves_refl]. apply (evolves_put _ p); try done.
  by rewrite Hr; intros [? ?].
Qed.

Lemma stays_returncode : stays i (returncode i).
Proof. apply stays_with_proc. intros p w Hp. by apply evolves_refl. Qed.

Lemma stays_wait d : stays i (wait E i d).
Proof.
  apply stays_with_proc. intros p w Hp.
  destruct (pr_ret p) eqn:Hr; [by apply evolves_refl|].
  destruct (pr_exit p) as [[t c]|]; [|apply stays_advance; [done|lia]].
  cbv zeta. case_match; [|apply stays_advance; [done|lia]].
  apply (evolves_put _ p); simpl; try done; [|lia]. by rewrite Hr; intros [? ?].
Qed.

Lemma stays_wait_forever : stays i (wait_forever E i).
Proof.
  apply stays_with_proc. intros p w Hp.
  destruct (pr_ret p) eqn:Hr; [by apply evolves_refl|].
  destruct (pr_exit p) as [[t c]|]; [|by apply evolves_refl].
  apply (evolves_put _ p); simpl; try done; [|lia]. by rewrite Hr; intros [? ?].
Qed.

Lemma deliver_kill now d c p : pr_kill (deliver now d c p) = pr_kill p.
Proof. unfold deliver. by repeat case_match. Qed.

Lemma deliver_ret now d c p : pr_ret (deliver now d c p) = pr_ret p.
Proof. unfold deliver. by repeat case_match. Qed.

Lemma stays_send_signal effect : stays i (send_signal i effect).
Proof.
  apply stays_bind; [apply stays_poll|]. intros [c|]; [apply stays_ret|].
  apply stays_with_proc. intros p w Hp.
  destruct (effect p) as [[d c]|]; [|by apply evolves_refl].
  apply (evolves_put _ p); auto using deliver_kill, deliver_ret. lia.
Qed.

Lemma stays_communicate d : stays i (communicate E i d).
Proof.
  apply stays_with_proc. intros p w Hp.
  destruct (eof_at p) as [t|] eqn:Hx; [|by apply stays_advance; [|lia]].
  destruct (pr_exit p) as [[t' c]|]; [|by apply stays_advance; [|lia]].
  cbv zeta. case_match; [|by apply stays_advance; [|lia]].
  apply (evolves_put _ p); simpl; try done; [|lia]. by intros [? ->].
Qed.

Lemma stays_sleep d : 0 ≤ d → stays i (sleep E d).
Proof. intros Hd w Hw. apply stays_advance; [done|lia]. Qed.

Lemma stays_connect host port : stays i (connect E host port).
Proof.
  intros w Hw. unfold connect. case_match; [by apply evolves_refl|].
  destruct (env_connect _ _ _ _) as [d ok]. apply stays_advance; [done|simpl; lia].
Qed.
End stays.

Create HintDb stays.
#[export] Hint Resolve stays_ret stays_raise stays_pure stays_gets stays_eprint stays_poll
  stays_returncode stays_wait stays_wait_forever stays_send_signal stays_communicate
  stays_connect : stays.

Ltac stays_tac :=
  repeat match goal with
  | |- stays _ (mbind _ _) => apply stays_bind; [|intros ?]
  | |- stays _ (catch _ _) => apply stays_catch; [|intros ?]
  | |- stays _ (match ?x with _ => _ end) => destruct x
  | |- stays _ _ => solve [eauto with stays]
  end.

(** ** Outcomes *)

Lemma put_proc_slot i p p' w :
  w_procs w !! i = Some p → w_procs (put_proc i p' w) !! i = Some p'.
Proof. intros Hp. simpl. apply list_lookup_insert_eq. by eapply lookup_lt_Some. Qed.

Lemma returncode_run i p w : w_procs w !! i = Some p → returncode i w = (Ok (pr_ret p), w).
Proof. intros Hp. unfold returncode, with_proc. by rewrite Hp. Qed.

(** What [poll] sees of a child. *)
Definition exited (now : Z) (p : proc) : option Z :=
  match pr_ret p, pr_exit p with
  | Some c, _ => Some c
  | None, Some (t, c) => if t <=? now then Some c else None
  | None, None => None
  end.

Lemma poll_run i p w :
  w_procs w !! i = Some p →
  ∃ w', poll i w = (Ok (exited (w_now w) p), w') ∧ w_now w' = w_now w ∧
    match exited (w_now w) p with
    | Some c => ∃ p', w_procs w' !! i = Some p' ∧ pr_ret p' = Some c ∧ pr_exit p' = pr_exit p
    | None => w' = w
    end.
Proof.
  intros Hp. unfold poll, with_proc, exited. rewrite Hp.
  destruct (pr_ret p) eqn:Hr; [exists w; split_and!; eauto|].
  destruct (pr_exit p) as [[t c]|] eqn:Hx; [|eauto].
  destruct (t <=? w_now w); [|eauto]. eexists; split; [done|]. split; [done|].
  eexists. split; [by eapply put_proc_slot|done].
Qed.

Lemma exec_arg_raises v :
  raises (λ e, (∃ m, e = TypeError m ∧ ∀ s, v ≠ JStr s) ∨
               (∃ m s, e = ValueError m ∧ v = JStr s ∧ passable s = false)) (exec_arg v).
Proof.
  unfold exec_arg, passable. destruct v as [| | | |s| |]; try (left; eexists; by split).
  cbn [arg_str mbind result_bind].
  destruct (utf8_valid (drop_escapes s)) eqn:Hu; simpl; [|right; eexists _, s; by rewrite Hu].
  destruct (has_nul s) eqn:Hn; simpl; [|done]. right. eexists _, s. by rewrite Hu, Hn.
Qed.

(** Why a connection attempt raised. *)
Definition connect_error (E : environment) (host : string) (port : Z) (e : exn) : Prop :=
  (e = port_error ∧ is_port port = false) ∨
  ∃ w d f, env_connect E w host port = (d, Err f) ∧ e = lookup_exn f.

Lemma connect_cases E host port w r w' :
  connect E host port w = (r, w') →
  w_now w ≤ w_now w' ≤ w_now w + Z.of_N (env_connect E w host port).1 ∧
  match r with
  | Ok ok => is_port port = true ∧ (env_connect E w host port).2 = Ok ok
  | Err e => connect_error E host port e
  end.
Proof.
  unfold connect, connect_error. destruct (negb _) eqn:Hc.
  { intros [= <- <-]. split; [lia|]. left. split; [done|].
    apply negb_true_iff in Hc. unfold is_port. lia. }
  destruct (env_connect E w host port) as [d [ok|f]] eqn:He; intros [= <- <-]; (split; [simpl; lia|]).
  - destruct (is_port port) eqn:Hp; [done|]. by left.
  - right. eauto.
Qed.

Lemma connect_port E host port w :
  is_port port = true →
  connect E host port w =
  (match (env_connect E w host port).2 with Ok ok => Ok ok | Err f => Err (lookup_exn f) end,
   advance E (w_now w + Z.of_N (env_connect E w host port).1) w).
Proof.
  intros Hp. unfold connect. assert (negb ((-2147483648 <=? port) && (port <=? 2147483647)) = false) as ->.
  { unfold is_port in Hp. lia. }
  rewrite Hp. by destruct (env_connect E w host port) as [d [ok|f]].
Qed.

Lemma make_dirs_cases p w :
  ∃ fs, make_dirs p w = (Ok tt, set_fs fs w) ∨
    ∃ e, make_dirs p w = (Err e, set_fs fs w) ∧
      ((∃ m, e = OSError m) ∨ passable (path_str p) = false ∧ ∃ m, e = ValueError m).
Proof.
  unfold make_dirs, pure_, mbind, io_bind. pose proof (exec_arg_raises (JStr (path_str p))) as Hr.
  destruct (exec_arg _) as [a|e].
  - destruct (mkdir_p_cases p w) as (fs & [->|[m ->]]); exists fs; [by left|]. right. eauto 6.
  - exists (w_fs w). right. exists e. split; [by destruct w|].
    destruct Hr as [(m & _ & H)|(m & s & -> & [= <-] & Hs)]; [by destruct (H (path_str p))|]. eauto.
Qed.

Section outcomes.
Context (E : environment) (i : nat).

Lemma wait_Ok d w c w' :
  wait E i d w = (Ok c, w') → ∃ p', w_procs w' !! i = Some p' ∧ pr_ret p' = Some c.
Proof.
  unfold wait, with_proc. destruct (w_procs w !! i) as [p|] eqn:Hp; [|done].
  destruct (pr_ret p) as [r|] eqn:Hr; [intros [= <- <-]; eauto|].
  destruct (pr_exit p) as [[t x]|]; [|done]. cbv zeta. case_match; [|done].
  intros [= <- <-]. eexists. split; [by eapply put_proc_slot|done].
Qed.

Lemma wait_Err d w p e w' :
  w_procs w !! i = Some p → wait E i d w = (Err e, w') →
  e = TimeoutExpired ∧ w_now w' = w_now w + Z.max 0 d ∧ w_procs w' = w_procs w ∧
  pr_ret p = None ∧ ∀ t c, pr_exit p = Some (t, c) → w_now w + Z.max 0 d < t.
Proof.
  intros Hp. unfold wait, with_proc. rewrite Hp.
  destruct (pr_ret p) as [r|] eqn:Hr; [done|].
  destruct (pr_exit p) as [[t x]|]; [|intros [= <- <-]; by split_and!]. cbv zeta.
  destruct (Z.leb_spec t (w_now w + Z.max 0 d)); intros [= <- <-].
  split_and!; [done..|]. intros ? ? [= <- <-]. lia.
Qed.

Lemma kill_run w :
  is_Some (w_procs w !! i) →
  ∃ w' p, kill i w = (Ok tt, w') ∧ w_now w' = w_now w ∧ w_procs w' !! i = Some p ∧
    (is_Some (pr_ret p) ∨
     ∃ t c, pr_exit p = Some (t, c) ∧ t ≤ w_now w + Z.of_N (pr_kill p)).
Proof.
  intros [p Hp]. destruct (poll_run i p w Hp) as (w1 & Hpoll & Hnow & Hcase).
  unfold kill, send_signal. rewrite (io_bind_run _ _ _ _ _ Hpoll).
  destruct (exited (w_now w) p) as [c|].
  - destruct Hcase as (p' & Hp' & Hr & _). exists w1, p'. split_and!; [done..|].
    left. by rewrite Hr.
  - subst w1. unfold with_proc. rewrite Hp. do 2 eexists. split_and!; [done|done| |].
    { by eapply put_proc_slot. }
    right. unfold deliver. destruct (pr_exit p) as [[t c]|] eqn:Hx; [|simpl; eauto with lia].
    destruct (Z.leb_spec t (w_now w + Z.of_N (pr_kill p))); [|simpl; eauto with lia].
    exists t, c. by split.
Qed.

Lemma wait_forever_run w p :
  w_procs w !! i = Some p → is_Some (pr_ret p) ∨ is_Some (pr_exit p) →
  ∃ c w' p', wait_forever E i w = (Ok c, w') ∧ w_procs w' !! i = Some p' ∧ pr_ret p' = Some c ∧
    (∀ r, pr_ret p = Some r → c = r).
Proof.
  intros Hp Hx. unfold wait_forever, with_proc. rewrite Hp.
  destruct (pr_ret p) as [r|] eqn:Hr.
  - exists r, w, p. split_and!; [done..|]. by intros ? [= ->].
  - destruct Hx as [[? ?]|[[t c] ->]]; [done|]. exists c. do 2 eexists.
    split_and!; [done|by eapply put_proc_slot|done|done].
Qed.

Lemma communicate_Ok d w out err w' :
  communicate E i d w = (Ok (out, err), w') →
  ∃ p', w_procs w' !! i = Some p' ∧ is_Some (pr_ret p').
Proof.
  unfold communicate, with_proc. destruct (w_procs w !! i) as [p|] eqn:Hp; [|done].
  destruct (eof_at p) as [t|]; [|done]. destruct (pr_exit p) as [[t' c]|]; [|done].
  cbv zeta. case_match; [|done]. intros [= <- <- <-].
  eexists. split; [by eapply put_proc_slot|done].
Qed.

Lemma communicate_now d w : w_now (communicate E i d w).2 ≤ w_now w + Z.max 0 d.
Proof.
  unfold communicate, with_proc. destruct (w_procs w !! i) as [p|]; [|simpl; lia].
  destruct (eof_at p) as [t|]; [|simpl; lia]. destruct (pr_exit p) as [[t' c]|]; [|simpl; lia].
  cbv zeta. destruct (Z.leb_spec t (w_now w + Z.max 0 d)); simpl; lia.
Qed.

Lemma communicate_Err d w e w' :
  is_Some (w_procs w !! i) → communicate E i d w = (Err e, w') → e = TimeoutExpired.
Proof.
  intros [p Hp]. unfold communicate, with_proc. rewrite Hp.
  destruct (eof_at p) as [t|]; [|by intros [= <-]].
  destruct (pr_exit p) as [[t' c]|]; [|by intros [= <-]].
  cbv zeta. case_match; by intros [= <-].
Qed.
End outcomes.

(** A statement about one child leaves the rest of the table as it is. *)
Lemma evolves_app base p cs w w' :
  w_procs w = base ++ p :: cs → evolves (length base) w w' →
  ∃ p', w_procs w' = base ++ p' :: cs ∧ pr_kill p' = pr_kill p ∧
    (is_Some (pr_ret p) → pr_ret p' = pr_ret p).
Proof.
  intros Hw [(q & p' & Hq & Hw' & Hk & Hr) _ _ _]. rewrite Hw in Hq, Hw'.
  rewrite list_lookup_middle in Hq by done. simplify_eq.
  exists p'. split; [|done]. rewrite Hw'. by rewrite insert_app_r_alt, Nat.sub_diag by done.
Qed.

(** Why a command could not be started. *)
Definition start_error (E : environment) (cmd : list json) (cwd : path) (w : world) (e : exn) : Prop :=
  exec_args cmd cwd = Err e ∨
  ∃ args m, exec_args cmd cwd = Ok args ∧ env_spawn E args cwd w = Err m ∧ e = OSError m.

Lemma popen_cases E cmd cwd w :
  (∃ e, popen E cmd cwd w = (Err e, w) ∧ start_error E cmd cwd w e) ∨
  (∃ p w', popen E cmd cwd w = (Ok (length (w_procs w)), w') ∧ w_procs w' = w_procs w ++ [p] ∧
     w_now w' = w_now w ∧ w_out w' = w_out w ∧ w_cwd w' = w_cwd w ∧ pr_ret p = None).
Proof.
  unfold popen, start_error, pure_, mbind, io_bind, spawn.
  destruct (exec_args cmd cwd) as [args|e]; [|left; eexists; split; [done|by left]].
  destruct (env_spawn E args cwd w) as [p|m] eqn:Hs.
  2: { left. exists (OSError m). split; [done|]. right. by exists args, m. }
  right. do 2 eexists. split_and!; [done|by simpl|done..].
Qed.

(** A command is refused when it is empty or has an argument that is no string
    or cannot be passed on; what else goes wrong is an [OSError]. *)
Lemma start_error_cases E cmd cwd w e :
  start_error E cmd cwd w e →
  (∃ m, e = OSError m) ∨ (cmd = [] ∧ ∃ m, e = IndexError m) ∨
  ((∃ v, v ∈ cmd ∧ ∀ s, v ≠ JStr s) ∧ ∃ m, e = TypeError m) ∨
  ((∃ s, (JStr s ∈ cmd ∨ s = path_str cwd) ∧ passable s = false) ∧ ∃ m, e = ValueError m).
Proof.
  intros [He|(args & m & _ & _ & ->)]; [|eauto]. right.
  unfold exec_args in He. case_bool_decide as Hcmd; [injection He as <-; eauto|]. right.
  cbn [raise_if mbind result_bind] in He.
  destruct (mapM exec_arg cmd) as [args|e'] eqn:Hm.
  - cbn [mbind result_bind] in He. pose proof (exec_arg_raises (JStr (path_str cwd))) as Hr.
    destruct (exec_arg _) as [a|e']; [done|]. injection He as ->.
    destruct Hr as [(m & _ & H)|(m & s & -> & [= <-] & Hs)]; [by destruct (H (path_str cwd))|].
    right. eauto 6.
  - injection He as ->. clear Hcmd. induction cmd as [|v cmd IH]; [done|]. cbn [mapM] in Hm.
    pose proof (exec_arg_raises v) as Hr. destruct (exec_arg v) as [a|e'].
    + cbn [mbind result_bind] in Hm. destruct (mapM exec_arg cmd) as [l|e'']; [done|].
      injection Hm as ->. destruct (IH eq_refl) as [[(u & Hu & Hn) ?]|[(s & [Hs|Hs] & Hp) ?]];
        [left|right|right]; (split; [|done]); [exists u|exists s|exists s]; set_solver.
    + injection Hm as ->. destruct Hr as [(m & -> & Hn)|(m & s & -> & -> & Hp)].
      * left. split; [|eauto]. exists v. split; [by left|done].
      * right. split; [|eauto]. exists s. split; [left; by left|done].
Qed.

(** [subprocess.run] either starts nothing, or leaves one more child, which it
    has waited for: its exit code is the result, or the run timed out. *)
Lemma subprocess_run_cases E cmd cwd d w r w' :
  subprocess_run E cmd cwd d w = (r, w') →
  (w' = w ∧ ∃ e, r = Err e ∧ start_error E cmd cwd w e) ∨
  (∃ pc, w_procs w' = w_procs w ++ [pc] ∧ w_now w ≤ w_now w' ∧ w_out w' = w_out w ∧
     w_cwd w' = w_cwd w ∧
     match r with
     | Ok (c, _, _) => pr_ret pc = Some c
     | Err e => e = TimeoutExpired ∧ is_Some (pr_ret pc)
     end).
Proof.
  unfold subprocess_run. destruct (popen_cases E cmd cwd w) as [(e & Hp & He)|(p & w1 & Hp & Hw1 & Hn & Ho & Hc & Hr)].
  { rewrite (io_bind_err _ _ _ _ _ Hp). intros [= <- <-]. left. eauto. }
  rewrite (io_bind_run _ _ _ _ _ Hp). set (i := length (w_procs w)).
  assert (is_Some (w_procs w1 !! i)) as Hi by (rewrite Hw1, list_lookup_middle; done).
  intros Hrun. right.
  assert (∀ w2, evolves i w1 w2 → ∃ pc, w_procs w2 = w_procs w ++ [pc] ∧ w_procs w2 !! i = Some pc) as Hev.
  { intros w2 He. destruct (evolves_app _ _ _ _ _ Hw1 He) as (pc & Hpc & _).
    exists pc. split; [done|]. by rewrite Hpc, list_lookup_middle. }
  unfold catch in Hrun. pose proof (stays_communicate E i d w1 Hi) as Hcs.
  destruct (communicate E i d w1) as [[[out err]|e] w2] eqn:Hcom; simpl in Hcs.
  - destruct (communicate_Ok _ _ _ _ _ _ _ Hcom) as (p' & Hp' & Hr').
    destruct (wait_forever_run E i w2 p' Hp') as (c & w3 & p3 & Hwait & Hp3 & Hr3 & _); [by left|].
    pose proof (stays_wait_forever E i w2 (evolves_slot _ _ _ Hcs)) as Hws. rewrite Hwait in Hws.
    pose proof (evolves_trans _ _ _ _ Hcs Hws) as Hall. destruct (Hev _ Hall) as (pc & Hpc & Hlk).
    unfold mbind at 1, io_bind at 1 in Hrun. rewrite Hcom in Hrun.
    rewrite (io_bind_run _ _ _ _ _ Hwait) in Hrun.
    injection Hrun as <- <-. destruct Hall as [_ ? ? ?].
    exists pc. split_and!; [done|simpl in *; lia|simpl in *; congruence..].
  - pose proof (communicate_Err _ _ _ _ _ _ Hi Hcom) as ->.
    destruct (kill_run i w2 (evolves_slot _ _ _ Hcs)) as (w3 & p3 & Hkill & _ & Hp3 & Hcase).
    pose proof (stays_send_signal i (λ p, Some (pr_kill p, -9)) w2 (evolves_slot _ _ _ Hcs)) as Hks.
    fold (kill i) in Hks. rewrite Hkill in Hks. simpl in Hks.
    destruct (wait_forever_run E i w3 p3 Hp3) as (c & w4 & p4 & Hwait & Hp4 & Hr4 & _).
    { destruct Hcase as [?|(? & ? & -> & _)]; eauto. }
    pose proof (stays_wait_forever E i w3 (evolves_slot _ _ _ Hks)) as Hws. rewrite Hwait in Hws.
    pose proof (evolves_trans _ _ _ _ (evolves_trans _ _ _ _ Hcs Hks) Hws) as Hall.
    destruct (Hev _ Hall) as (pc & Hpc & Hlk).
    unfold mbind at 1, io_bind at 1 in Hrun. rewrite Hcom in Hrun.
    rewrite (io_bind_run _ _ _ _ _ Hkill), (io_bind_run _ _ _ _ _ Hwait) in Hrun.
    injection Hrun as <- <-. destruct Hall as [_ ? ? ?].
    exists pc. split_and!; [done|simpl in *; lia|simpl in *; congruence..|].
    exists c. simpl in *. congruence.
Qed.

(** Without a time-out, [subprocess.run] either starts nothing, or leaves one
    more child, which it has waited for; or it never returns. *)
Lemma subprocess_run_forever_cases E cmd cwd w r w' :
  subprocess_run_forever E cmd cwd w = (r, w') →
  (w' = w ∧ ∃ e, r = Err e ∧ start_error E cmd cwd w e) ∨
  (∃ pc, w_procs w' = w_procs w ++ [pc] ∧
     match r with
     | Ok (c, out, err) => pr_ret pc = Some c
     | Err e => e = OutOfFuel
     end).
Proof.
  unfold subprocess_run_forever.
  destruct (popen_cases E cmd cwd w) as [(e & Hp & He)|(p & w1 & Hp & Hw1 & _ & _ & _ & Hr)].
  { rewrite (io_bind_err _ _ _ _ _ Hp). intros [= <- <-]. left. eauto. }
  rewrite (io_bind_run _ _ _ _ _ Hp). set (i := length (w_procs w)).
  intros Hrun. right. unfold mbind at 1, io_bind at 1 in Hrun.
  unfold communicate_forever, with_proc in Hrun.
  rewrite Hw1, (list_lookup_middle _ _ p) in Hrun by done.
  destruct (eof_at p) as [t|]; [|injection Hrun as <- <-; by exists p].
  destruct (pr_exit p) as [[t' c]|] eqn:Hx; [|injection Hrun as <- <-; by exists p].
  cbv beta iota in Hrun. rewrite Hr in Hrun. simpl in Hrun.
  set (w2 := reap i p c _) in Hrun.
  assert (w_procs w2 = w_procs w ++ [set_ret (Some c) p]) as Hw2.
  { unfold w2, reap, put_proc. simpl. rewrite Hw1. unfold i.
    by rewrite insert_app_r_alt, Nat.sub_diag by done. }
  exists (set_ret (Some c) p).
  unfold mbind, io_bind, wait_forever, with_proc in Hrun.
  rewrite Hw2, list_lookup_middle in Hrun by done. by injection Hrun as <- <-.
Qed.
