(* ===== verification/Fixtures.v ===== *)
(** * The tracked workload manifests

    The four manifests under accel-rpc/tonic-profile/workloads, as texts, and a
    world whose file system is a checkout of the repository at [/repo].  Texts
    are written with single quotes, which the files do not contain; [jtext]
    puts the double quotes back. *)

From Stdlib Require Import Ascii.
From S2P Require Import Prelude PyFloat PyVal PyPath Json World.

Fixpoint jtext (s : string) : string :=
  match s with
  | "" => ""
  | String c s => String (if bool_decide (c = "'"%char) then quote_char else c) (jtext s)
  end.

(** s01_ordinary_matrix.json *)
Definition s01_text : string := jtext "{
  'version': 1,
  'defaults': {
    'warmup_ms': 20,
    'measure_ms': 40,
    'requests': 2,
    'concurrency': 1,
    'runtime': 'single',
    'compression': 'off',
    'buffer_policy': 'default'
  },
  'workloads': [
    {
      'label': 'ordinary/unary-bytes/repeated-64',
      'rpc': 'unary-bytes',
      'payload_size': 64,
      'payload_kind': 'repeated',
      'artifact_pair': {
        'off': 'ordinary__unary-bytes__repeated-64.off.json',
        'on': 'ordinary__unary-bytes__repeated-64.on.json'
      }
    },
    {
      'label': 'ordinary/unary-proto-shape/fleet-small-to-fleet-small',
      'rpc': 'unary-proto-shape',
      'proto_shape': 'fleet-small',
      'response_shape': 'same',
      'artifact_pair': {
        'off': 'ordinary__unary-proto-shape__fleet-small-to-fleet-small.off.json',
        'on': 'ordinary__unary-proto-shape__fleet-small-to-fleet-small.on.json'
      }
    },
    {
      'label': 'ordinary/unary-proto-shape/fleet-string-heavy-to-fleet-string-heavy',
      'rpc': 'unary-proto-shape',
      'proto_shape': 'fleet-string-heavy',
      'response_shape': 'same',
      'artifact_pair': {
        'off': 'ordinary__unary-proto-shape__fleet-string-heavy-to-fleet-string-heavy.off.json',
        'on': 'ordinary__unary-proto-shape__fleet-string-heavy-to-fleet-string-heavy.on.json'
      }
    },
    {
      'label': 'ordinary/unary-proto-shape/fleet-small-to-fleet-response-heavy',
      'rpc': 'unary-proto-shape',
      'proto_shape': 'fleet-small',
      'response_shape': 'fleet-response-heavy',
      'artifact_pair': {
        'off': 'ordinary__unary-proto-shape__fleet-small-to-fleet-response-heavy.off.json',
        'on': 'ordinary__unary-proto-shape__fleet-small-to-fleet-response-heavy.on.json'
      }
    }
  ]
}
".

(** s02_trustworthy_matrix.json *)
Definition s02_text : string := jtext "{
  'version': 1,
  'expected_benchmarks': [
    'tokio_spawn_join',
    'tokio_oneshot_completion',
    'tokio_mpsc_round_trip',
    'tokio_same_thread_wake',
    'tokio_cross_thread_wake'
  ],
  'defaults': {
    'warmup_ms': 0,
    'measure_ms': 20,
    'requests': 1,
    'concurrency': 1,
    'runtime': 'single',
    'compression': 'off',
    'buffer_policy': 'default'
  },
  'workloads': [
    {
      'label': 'ordinary/unary-bytes/repeated-64',
      'rpc': 'unary-bytes',
      'payload_size': 64,
      'payload_kind': 'repeated',
      'endpoint_artifacts': {
        'off': {
          'client': 'ordinary__unary-bytes__repeated-64.client.off.json',
          'server': 'ordinary__unary-bytes__repeated-64.server.off.json'
        },
        'on': {
          'client': 'ordinary__unary-bytes__repeated-64.client.on.json',
          'server': 'ordinary__unary-bytes__repeated-64.server.on.json'
        }
      }
    },
    {
      'label': 'ordinary/unary-proto-shape/fleet-small-to-fleet-response-heavy',
      'rpc': 'unary-proto-shape',
      'proto_shape': 'fleet-small',
      'response_shape': 'fleet-response-heavy',
      'endpoint_artifacts': {
        'off': {
          'client': 'ordinary__unary-proto-shape__fleet-small-to-fleet-response-heavy.client.off.json',
          'server': 'ordinary__unary-proto-shape__fleet-small-to-fleet-response-heavy.server.off.json'
        },
        'on': {
          'client': 'ordinary__unary-proto-shape__fleet-small-to-fleet-response-heavy.client.on.json',
          'server': 'ordinary__unary-proto-shape__fleet-small-to-fleet-response-heavy.server.on.json'
        }
      }
    }
  ]
}
".

(** s03_idxd_matrix.json *)
Definition s03_text : string := jtext "{
  'version': 1,
  'defaults': {
    'warmup_ms': 0,
    'measure_ms': 20,
    'requests': 1,
    'concurrency': 1,
    'runtime': 'single',
    'compression': 'off',
    'buffer_policy': 'default',
    'instrumentation': 'on',
    'accelerated_path': 'idxd'
  },
  'expected_metadata': {
    'ordinary_path': 'software',
    'selected_path': 'idxd',
    'seam': 'codec_body',
    'accelerated_lane': 'codec_memmove',
    'accelerated_direction': 'bidirectional',
    'require_device_path': true
  },
  'workloads': [
    {
      'label': 'ordinary/unary-bytes/repeated-64',
      'rpc': 'unary-bytes',
      'payload_size': 64,
      'payload_kind': 'repeated',
      'endpoint_artifacts': {
        'client': 'idxd__unary-bytes__repeated-64.client.json',
        'server': 'idxd__unary-bytes__repeated-64.server.json'
      }
    },
    {
      'label': 'ordinary/unary-proto-shape/fleet-small-to-fleet-response-heavy',
      'rpc': 'unary-proto-shape',
      'proto_shape': 'fleet-small',
      'response_shape': 'fleet-response-heavy',
      'endpoint_artifacts': {
        'client': 'idxd__unary-proto-shape__fleet-small-to-fleet-response-heavy.client.json',
        'server': 'idxd__unary-proto-shape__fleet-small-to-fleet-response-heavy.server.json'
      }
    }
  ]
}
".

(** s04_claim_package.json *)
Definition s04_text : string := jtext "{
  'version': 1,
  'run_root': 'accel-rpc/target/s04-claim-package/latest',
  'scope': {
    'workload_labels': [
      'ordinary/unary-bytes/repeated-64',
      'ordinary/unary-proto-shape/fleet-small-to-fleet-response-heavy'
    ],
    'pairing_keys': [
      'workload_label',
      'endpoint_role',
      'run_family'
    ]
  },
  'inputs': {
    'software_manifest': 'accel-rpc/tonic-profile/workloads/s02_trustworthy_matrix.json',
    'idxd_manifest': 'accel-rpc/tonic-profile/workloads/s03_idxd_matrix.json',
    'control_floor_summary': 'accel-rpc/target/control-floor/async_control_floor_summary.json',
    'report_contract': 'accel-rpc/tonic-profile/tests/report_contract.rs'
  },
  'artifact_families': [
    {
      'run_family': 'software_baseline',
      'source_manifest': 'accel-rpc/tonic-profile/workloads/s02_trustworthy_matrix.json',
      'instrumentation': 'off',
      'selected_path': 'software',
      'endpoint_reports': [
        {
          'workload_label': 'ordinary/unary-bytes/repeated-64',
          'endpoint_role': 'client',
          'artifact': 'software/ordinary__unary-bytes__repeated-64.client.off.json'
        },
        {
          'workload_label': 'ordinary/unary-bytes/repeated-64',
          'endpoint_role': 'server',
          'artifact': 'software/ordinary__unary-bytes__repeated-64.server.off.json'
        },
        {
          'workload_label': 'ordinary/unary-proto-shape/fleet-small-to-fleet-response-heavy',
          'endpoint_role': 'client',
          'artifact': 'software/ordinary__unary-proto-shape__fleet-small-to-fleet-response-heavy.client.off.json'
        },
        {
          'workload_label': 'ordinary/unary-proto-shape/fleet-small-to-fleet-response-heavy',
          'endpoint_role': 'server',
          'artifact': 'software/ordinary__unary-proto-shape__fleet-small-to-fleet-response-heavy.server.off.json'
        }
      ]
    },
    {
      'run_family': 'software_attribution',
      'source_manifest': 'accel-rpc/tonic-profile/workloads/s02_trustworthy_matrix.json',
      'instrumentation': 'on',
      'selected_path': 'software',
      'endpoint_reports': [
        {
          'workload_label': 'ordinary/unary-bytes/repeated-64',
          'endpoint_role': 'client',
          'artifact': 'software/ordinary__unary-bytes__repeated-64.client.on.json'
        },
        {
          'workload_label': 'ordinary/unary-bytes/repeated-64',
          'endpoint_role': 'server',
          'artifact': 'software/ordinary__unary-bytes__repeated-64.server.on.json'
        },
        {
          'workload_label': 'ordinary/unary-proto-shape/fleet-small-to-fleet-response-heavy',
          'endpoint_role': 'client',
          'artifact': 'software/ordinary__unary-proto-shape__fleet-small-to-fleet-response-heavy.client.on.json'
        },
        {
          'workload_label': 'ordinary/unary-proto-shape/fleet-small-to-fleet-response-heavy',
          'endpoint_role': 'server',
          'artifact': 'software/ordinary__unary-proto-shape__fleet-small-to-fleet-response-heavy.server.on.json'
        }
      ]
    },
    {
      'run_family': 'idxd_attribution',
      'source_manifest': 'accel-rpc/tonic-profile/workloads/s03_idxd_matrix.json',
      'instrumentation': 'on',
      'selected_path': 'idxd',
      'endpoint_reports': [
        {
          'workload_label': 'ordinary/unary-bytes/repeated-64',
          'endpoint_role': 'client',
          'artifact': 'idxd/idxd__unary-bytes__repeated-64.client.json'
        },
        {
          'workload_label': 'ordinary/unary-bytes/repeated-64',
          'endpoint_role': 'server',
          'artifact': 'idxd/idxd__unary-bytes__repeated-64.server.json'
        },
        {
          'workload_label': 'ordinary/unary-proto-shape/fleet-small-to-fleet-response-heavy',
          'endpoint_role': 'client',
          'artifact': 'idxd/idxd__unary-proto-shape__fleet-small-to-fleet-response-heavy.client.json'
        },
        {
          'workload_label': 'ordinary/unary-proto-shape/fleet-small-to-fleet-response-heavy',
          'endpoint_role': 'server',
          'artifact': 'idxd/idxd__unary-proto-shape__fleet-small-to-fleet-response-heavy.server.json'
        }
      ]
    }
  ],
  'derived_outputs': {
    'comparison_summary_json': 'summary/comparison_summary.json',
    'ordinary_vs_idxd_csv': 'summary/ordinary_vs_idxd.csv',
    'claim_table_md': 'summary/claim_table.md'
  },
  'report': {
    'path': 'docs/report/benchmarking/014.idxd_tonic_same_repo_claim_package.md',
    'required_references': [
      'accel-rpc/target/s04-claim-package/latest/summary/comparison_summary.json',
      'accel-rpc/target/s04-claim-package/latest/summary/ordinary_vs_idxd.csv',
      'accel-rpc/target/s04-claim-package/latest/summary/claim_table.md'
    ]
  }
}
".

(** A report of the profiling binary: [extra] are the fields of the workload's
    shape and of the selected path, [bytes] the byte counters of the stages. *)
Definition stage_text (name bytes : string) : string :=
  cat ["'"; name; "': {'count': 1, 'nanos': 5, 'millis': 0.1, 'bytes': "; bytes; ", 'avg_nanos': 5.0}"].

Definition report_text (role label rpc ins extra bytes : string) : string :=
  jtext (cat
    ["{'metadata': {'mode': '"; role; "', 'endpoint_role': '"; role;
     "', 'ordinary_path': 'software', 'seam': 'codec_body', 'rpc': '"; rpc;
     "', 'workload_label': '"; label; "', 'instrumentation': '"; ins;
     "', 'buffer_policy': 'default', 'run_id': 'run-1', 'effective_codec_buffer_size': 8192,
     'effective_codec_yield_threshold': 32768, 'request_serialized_size': 64,
     'response_serialized_size': 64, "; extra; "}, 'metrics': {'requests_completed': 1},
     'stages': {'enabled': "; (if bool_decide (ins = "on") then "true" else "false"); ", ";
     join ", " (map (λ n, stage_text n bytes)
       ["encode"; "decode"; "compress"; "decompress"; "buffer_reserve"; "body_accum"; "frame_header"]);
     "}}"]).

Definition bytes_label : string := "ordinary/unary-bytes/repeated-64".
Definition shape_label : string := "ordinary/unary-proto-shape/fleet-small-to-fleet-response-heavy".

Definition bytes_report (role ins extra : string) : string :=
  report_text role bytes_label "unary-bytes" ins
    ("'payload_size': 64, 'payload_kind': 'repeated'" +:+ extra) "64".
Definition shape_report (role ins extra : string) : string :=
  report_text role shape_label "unary-proto-shape" ins
    ("'request_shape': 'fleet-small', 'response_shape': 'fleet-response-heavy'" +:+ extra) "4096".

(** Absolute components below the checkout. *)
Definition repo_file (rel : string) : list string := "repo" :: p_parts (parse_path rel).

Fixpoint with_parents (cur comps : list string) (fs : fsys) : fsys :=
  match comps with
  | [] => fs
  | c :: comps => with_parents (cur ++ [c]) comps (<[cur ++ [c] := Dir]> fs)
  end.

(** A file system with the given files and the directories above them. *)
Definition files_fs (files : list (list string * string)) : fsys :=
  foldr (λ '(q, text) fs, <[q := File text]> (with_parents [] (removelast q) fs)) ∅ files.

Definition workloads_dir : string := "accel-rpc/tonic-profile/workloads/".

Definition manifest_files (s02 s03 s04 : string) : list (list string * string) :=
    [(repo_file (workloads_dir +:+ "s01_ordinary_matrix.json"), s01_text);
     (repo_file (workloads_dir +:+ "s02_trustworthy_matrix.json"), s02);
     (repo_file (workloads_dir +:+ "s03_idxd_matrix.json"), s03);
     (repo_file (workloads_dir +:+ "s04_claim_package.json"), s04);
     (repo_file "accel-rpc/target/control-floor/async_control_floor_summary.json", "{}");
     (repo_file "accel-rpc/tonic-profile/tests/report_contract.rs", "// test")].

Definition repo_world (files : list (list string * string)) : world :=
  World (files_fs files) ["repo"] [] [] [] 0 [].

Definition manifest_world (s02 s03 s04 : string) : world :=
  repo_world (manifest_files s02 s03 s04).

Definition tracked_world : world := manifest_world s02_text s03_text s04_text.

(** The checkout with the eight software reports under [/repo/out]. *)
Definition s02_reports : list (list string * string) :=
  ins ← ["off"; "on"]; role ← ["client"; "server"];
  [(["repo"; "out"; cat ["ordinary__unary-bytes__repeated-64."; role; "."; ins; ".json"]],
    bytes_report role ins "");
   (["repo"; "out"; cat ["ordinary__unary-proto-shape__fleet-small-to-fleet-response-heavy."; role;
                         "."; ins; ".json"]],
    shape_report role ins "")].

Definition s02_world : world :=
  repo_world (manifest_files s02_text s03_text s04_text ++ s02_reports).

(** The checkout with the four hardware reports. *)
Definition idxd_extra (device : string) : string :=
  cat [", 'selected_path': 'idxd', 'accelerated_lane': 'codec_memmove', 'accelerated_direction': 'bidirectional', 'accelerated_device_path': '";
       device; "'"].

Definition s03_reports (device : string) : list (list string * string) :=
  role ← ["client"; "server"];
  [(["repo"; "out"; cat ["idxd__unary-bytes__repeated-64."; role; ".json"]],
    bytes_report role "on" (idxd_extra device));
   (["repo"; "out"; cat ["idxd__unary-proto-shape__fleet-small-to-fleet-response-heavy."; role;
                         ".json"]],
    shape_report role "on" (idxd_extra device))].

Definition s03_world (device : string) : world :=
  repo_world (manifest_files s02_text s03_text s04_text ++ s03_reports device).

Definition fixture_root : path := parse_path "/repo".
Definition fixture_manifest (name : string) : path :=
  parse_path (cat ["/repo/"; workloads_dir; name]).
