(* ===== verification/RunnerCommon.v ===== *)
(** * The shared runner

    Model of accel-rpc/tonic-profile/scripts/proof_runner_common.py: the field
    readers, the process helpers, [wait_for_port], the command line of a
    workload and [run_server_client_pair], which starts a server, waits until it
    listens, runs a client against it and waits for the server to flush its
    report.  The error class a caller passes is the constructor of its
    exceptions.  The poll loop of [wait_for_port] runs on fuel; every turn that
    does not leave the loop sleeps 50 ms, so the fuel [poll_fuel] of the time-out
    is enough. *)

From Stdlib Require Import Ascii.
From S2P Require Import Prelude PyFloat PyVal PyPath Json World Process.

Local Open Scope Z_scope.

(** ** Constants *)

Definition REQUIRED_STAGE_NAMES : list string :=
  ["encode"; "decode"; "compress"; "decompress"; "buffer_reserve"; "body_accum"; "frame_header"].
Definition REQUIRED_STAGE_COUNTER_FIELDS : list string :=
  ["count"; "nanos"; "millis"; "bytes"; "avg_nanos"].
Definition ENDPOINT_ROLES : list string := ["client"; "server"].


(** ** Field readers *)

Definition fail (message : string) : io unit := eprint message.

Section readers.
Context (error_cls : string → exn).

Definition required_str (obj : dict json) (key scope : string) : exc string :=
  of_option (error_cls (cat [scope; " missing "; key])) (nonempty_str (get key obj)).

Definition required_bool (obj : dict json) (key scope : string) : exc bool :=
  match get key obj with
  | JBool b => Ok b
  | _ => Err (error_cls (cat [scope; " field "; key; " must be a boolean"]))
  end.

(** The value itself, which may be a [bool]. *)
Definition required_positive_int (obj : dict json) (key scope : string) : exc json :=
  raise_if (negb (bool_decide (is_Some (pos_int (get key obj)))))
    (error_cls (cat [scope; " field "; key; " must be a positive integer"]));;
  mret (get key obj).

Definition locate_binary (explicit : option string) (default_path : path)
    (missing_message : path → string) : io path :=
  let path :=
    match explicit with
    | Some s => if bool_decide (s = "") then default_path else parse_path s
    | None => default_path
    end in
  present ← gets (λ w, path_exists w path);
  io_raise_if (negb present) (error_cls (missing_message path));;
  gets (λ w, resolve (w_cwd w) path).
End readers.

(** ** Reports *)

(** [stage.get(key, 0)] *)
Definition get0 (key : string) (stage : dict json) : json := default (JInt 0) (dget key stage).

(** [v[key]] on a JSON value, with a string key *)
Definition item (key : string) (v : json) : exc json :=
  match v with
  | JObj d => ditem key d
  | JStr _ => Err (TypeError "string indices must be integers, not 'str'")
  | JArr _ => Err (TypeError "list indices must be integers or slices, not str")
  | _ => Err (TypeError (cat ["'"; type_name v; "' object is not subscriptable"]))
  end.

Definition stage_triplet (report : dict json) (stage_name : string) : exc (Z * Z * Z) :=
  stages ← ditem "stages" report;
  stage ← item stage_name stages;
  d ← of_option (AttributeError (cat ["'"; type_name stage; "' object has no attribute 'get'"]))
        (as_dict stage);
  count ← py_int (get0 "count" d);
  nanos ← py_int (get0 "nanos" d);
  bytes ← py_int (get0 "bytes" d);
  mret (count, nanos, bytes).

(** [all(...)] stops at the first stage with a counter. *)
Fixpoint all_zero (report : dict json) (names : list string) : exc bool :=
  match names with
  | [] => mret true
  | name :: names =>
      t ← stage_triplet report name;
      if bool_decide (t = (0, 0, 0)) then all_zero report names else mret false
  end.

Definition placeholder_only (report : dict json) : exc bool :=
  all_zero report REQUIRED_STAGE_NAMES.

(** ** Command lines *)

(** [str(entry[key])] and [entry[key]] as arguments. *)
Definition arg_text (key : string) (entry : dict json) : exc json :=
  v ← ditem key entry; mret (JStr (py_str v)).
Definition arg (key : string) (entry : dict json) : exc json := ditem key entry.

Definition build_rpc_args (entry : dict json) (addr : string) : exc (list json) :=
  rpc ← arg "rpc" entry;
  warmup_ms ← arg_text "warmup_ms" entry;
  measure_ms ← arg_text "measure_ms" entry;
  requests ← arg_text "requests" entry;
  concurrency ← arg_text "concurrency" entry;
  runtime ← arg "runtime" entry;
  compression ← arg "compression" entry;
  buffer_policy ← arg "buffer_policy" entry;
  let args :=
    [JStr "--rpc"; rpc; JStr "--bind"; JStr addr; JStr "--target"; JStr addr;
     JStr "--warmup-ms"; warmup_ms; JStr "--measure-ms"; measure_ms;
     JStr "--requests"; requests; JStr "--concurrency"; concurrency;
     JStr "--runtime"; runtime; JStr "--compression"; compression;
     JStr "--buffer-policy"; buffer_policy] in
  if py_eq rpc (JStr "unary-bytes") then
    payload_size ← arg_text "payload_size" entry;
    payload_kind ← arg "payload_kind" entry;
    mret (args ++ [JStr "--payload-size"; payload_size; JStr "--payload-kind"; payload_kind])
  else
    proto_shape ← arg "proto_shape" entry;
    response_shape ← arg "response_shape" entry;
    mret (args ++ [JStr "--proto-shape"; proto_shape; JStr "--response-shape"; response_shape]).

(** ** Process helpers *)

Definition context_line (label phase endpoint_role : string) (artifact_path : path)
    (extras : dict json) : string :=
  join " " (["label=" +:+ label; "phase=" +:+ phase; "endpoint_role=" +:+ endpoint_role;
             "artifact=" +:+ path_str artifact_path] ++
            map (λ '(key, value), cat [key; "="; py_str value]) extras).

(** The captured output below a context line. *)
Definition with_output (line stdout stderr : string) : string :=
  join newline [line; cat ["stdout:"; newline; stdout]; cat ["stderr:"; newline; stderr]].

Section runner.
Context (E : environment).

Definition drain_process_output (proc : nat) : io (string * string) :=
  '(stdout, stderr) ← catch (communicate E proc (2 * SECOND)) (λ e,
    match e with
    | TimeoutExpired => kill proc;; communicate E proc (2 * SECOND)
    | e => io_raise e
    end);
  mret (utf8_replace stdout, utf8_replace stderr).

(** [terminate_process] with the line it prints before SIGKILL. *)
Definition terminate_with (proc : nat) (warning : string) : io unit :=
  r ← poll proc;
  match r with
  | Some _ => mret tt
  | None =>
      terminate proc;;
      catch (wait E proc (2 * SECOND);; mret tt) (λ e,
        match e with
        | TimeoutExpired =>
            fail warning;;
            kill proc;;
            wait E proc (2 * SECOND);;
            mret tt
        | e => io_raise e
        end)
  end.

Definition terminate_process (proc : nat) (label phase : string) (artifact_path : path)
    (extras : dict json) : io unit :=
  terminate_with proc (context_line label phase "server" artifact_path
    (dset "warning" (JStr "sigkill-after-sigterm") extras)).

Definition exit_json (r : option Z) : json := match r with Some c => JInt c | None => JNull end.

Definition poll_fuel (timeout : Z) : nat := S (Z.to_nat ((timeout + 50 * MILLISECOND - 1) / (50 * MILLISECOND))).

Section wait_for_port.
Context (proc : nat) (host : string) (port deadline timeout : Z).
Context (label : string) (artifact_path : path) (error_cls : string → exn) (extras : dict json).

(** The [while] loop, one turn per unit of fuel. *)
Fixpoint poll_port (fuel : nat) : io unit :=
  match fuel with
  | O => io_raise OutOfFuel
  | S fuel =>
      now ← gets w_now;
      if now <? deadline then
        r ← poll proc;
        match r with
        | Some _ =>
            '(stdout, stderr) ← drain_process_output proc;
            code ← returncode proc;
            io_raise (error_cls (with_output
              (context_line label "server-startup" "server" artifact_path
                 (dset "exit" (exit_json code) extras)) stdout stderr))
        | None =>
            ok ← connect E host port;
            if (ok : bool) then mret tt
            else sleep E (50 * MILLISECOND);; poll_port fuel
        end
      else
        io_raise (error_cls (context_line label "server-startup" "server" artifact_path
          (dset "timeout_s" (JStr (timeout_text timeout)) extras)))
  end.
End wait_for_port.

Definition wait_for_port (proc : nat) (addr : string) (timeout : Z) (label : string)
    (artifact_path : path) (error_cls : string → exn) (extras : dict json) : io unit :=
  '(host, port_str) ← pure_ (of_option
    (ValueError "not enough values to unpack (expected 2, got 1)") (rsplit1 ":"%char addr));
  port ← pure_ (py_int (JStr port_str));
  now ← gets w_now;
  poll_port proc host port (now + timeout) timeout label artifact_path error_cls extras
    (poll_fuel timeout).

(** The arguments of [run_server_client_pair]. *)
Record pair_args : Type := PairArgs {
  pa_label : string;
  pa_server_cmd : list json;
  pa_client_cmd : list json;
  pa_server_artifact : path;
  pa_client_artifact : path;
  pa_bind_addr : string;
  pa_target_addr : string;
  pa_server_start_timeout : Z;
  pa_client_timeout : Z;
  pa_server_flush_timeout : Z;
  pa_error_cls : string → exn;
  pa_server_cwd : path;
  pa_client_cwd : path;
  pa_context : dict json;
  pa_cleanup_phase : string;
}.

(** [phase] lines of the server and of the client, with one more field. *)
Definition server_line (a : pair_args) (phase key : string) (v : json) : string :=
  context_line (pa_label a) phase "server" (pa_server_artifact a) (dset key v (pa_context a)).
Definition client_line (a : pair_args) (key : string) (v : json) : string :=
  context_line (pa_label a) "client-execution" "client" (pa_client_artifact a)
    (dset key v (pa_context a)).

(** [except subprocess.TimeoutExpired] *)
Definition on_timeout {A} (a : pair_args) (e : exn) : io A :=
  match e with
  | TimeoutExpired =>
      io_raise (pa_error_cls a (client_line a "timeout_s"
        (JStr (timeout_text (pa_client_timeout a)))))
  | e => io_raise e
  end.

(** The statements after the client has succeeded. *)
Definition flush (a : pair_args) (server : nat) : io unit :=
  catch (wait E server (pa_server_flush_timeout a);; mret tt) (λ e,
    match e with
    | TimeoutExpired =>
        io_raise (pa_error_cls a (server_line a "server-flush" "timeout_s"
          (JStr (timeout_text (pa_server_flush_timeout a)))))
    | e => io_raise e
    end);;
  server_code ← returncode server;
  (if bool_decide (server_code = Some 0) then mret tt
   else
     '(stdout, stderr) ← drain_process_output server;
     io_raise (pa_error_cls a (with_output
       (server_line a "server-flush" "exit" (exit_json server_code)) stdout stderr)));;
  print (server_line a "server-flush" "verdict" (JStr "pass")).

(** The statements of the [try] block after the server has been started. *)
Definition serve (a : pair_args) (server : nat) : io unit :=
  wait_for_port server (pa_bind_addr a) (pa_server_start_timeout a) (pa_label a)
    (pa_server_artifact a) (pa_error_cls a) (pa_context a);;
  print (client_line a "target" (JStr (pa_target_addr a)));;
  '(code, stdout, stderr) ←
    subprocess_run E (pa_client_cmd a) (pa_client_cwd a) (pa_client_timeout a);
  io_raise_if (negb (code =? 0))
    (pa_error_cls a (with_output (client_line a "exit" (JInt code))
       (utf8_replace stdout) (utf8_replace stderr)));;
  flush a server.

Definition run_server_client_pair (a : pair_args) : io unit :=
  make_dirs (path_parent (pa_server_artifact a));;
  make_dirs (path_parent (pa_client_artifact a));;
  server ← catch
    (print (server_line a "server-startup" "bind" (JStr (pa_bind_addr a)));;
     popen E (pa_server_cmd a) (pa_server_cwd a))
    (on_timeout a);
  finally (catch (serve a server) (on_timeout a))
    (terminate_process server (pa_label a) (pa_cleanup_phase a) (pa_server_artifact a)
       (pa_context a)).
End runner.

(** ** Lemmas on the process helpers *)

Lemma join_fuel n timeout now :
  (Z.to_nat ((timeout + 50 * MILLISECOND - 1) / (50 * MILLISECOND)) ≤ n)%nat →
  now + timeout ≤ now + Z.of_nat n * (50 * MILLISECOND).
Proof.
  unfold MILLISECOND. intros Hn.
  pose proof (Z.div_mod (timeout + 50 * 1000000 - 1) (50 * 1000000)).
  pose proof (Z.mod_pos_bound (timeout + 50 * 1000000 - 1) (50 * 1000000)). lia.
Qed.

Section runner_lemmas.
Context (E : environment).

Lemma stays_drain i : stays i (drain_process_output E i).
Proof. unfold drain_process_output. stays_tac. Qed.

Lemma stays_terminate_with i warning : stays i (terminate_with E i warning).
Proof. unfold terminate_with, fail. stays_tac. Qed.

Lemma stays_poll_port i host port deadline timeout label artifact error_cls extras fuel :
  stays i (poll_port E i host port deadline timeout label artifact error_cls extras fuel).
Proof.
  induction fuel as [|fuel IH]; simpl; stays_tac; auto using stays_drain, stays_sleep.
  apply stays_sleep. unfold MILLISECOND. lia.
Qed.

Lemma stays_wait_for_port i addr timeout label artifact error_cls extras :
  stays i (wait_for_port E i addr timeout label artifact error_cls extras).
Proof. unfold wait_for_port. stays_tac. apply stays_poll_port. Qed.

(** Terminating a child either leaves it reaped, or raises [TimeoutExpired]
    because it outlived SIGKILL by more than two seconds. *)
Lemma terminate_with_cases i warning w r w' :
  is_Some (w_procs w !! i) →
  terminate_with E i warning w = (r, w') →
  ∃ p, w_procs w' !! i = Some p ∧
    match r with
    | Ok _ => is_Some (pr_ret p)
    | Err e => e = TimeoutExpired ∧ 2 * SECOND < Z.of_N (pr_kill p)
    end.
Proof.
  intros [p Hp] Hrun. destruct (poll_run i p w Hp) as (w1 & Hpoll & _ & Hcase).
  unfold terminate_with in Hrun. rewrite (io_bind_run _ _ _ _ _ Hpoll) in Hrun.
  destruct (exited (w_now w) p) as [c|].
  { injection Hrun as <- <-. destruct Hcase as (p' & Hp' & Hr & _).
    exists p'. by rewrite Hr. }
  subst w1. pose proof (stays_send_signal i pr_term w (mk_is_Some _ _ Hp)) as Hts.
  unfold mbind at 1, io_bind at 1 in Hrun. fold (terminate i) in Hts.
  destruct (terminate i w) as [[[]|e] w2] eqn:Hterm; simpl in Hts.
  2: { exfalso. revert Hterm. unfold terminate, send_signal.
       rewrite (io_bind_run _ _ _ _ _ Hpoll). unfold with_proc. rewrite Hp. by repeat case_match. }
  destruct (evolves_slot _ _ _ Hts) as [p2 Hp2]. unfold catch, mbind at 1, io_bind at 1 in Hrun.
  destruct (wait E i (2 * SECOND) w2) as [[c|e] w3] eqn:Hw3.
  { injection Hrun as <- <-. destruct (wait_Ok _ _ _ _ _ _ Hw3) as (p3 & Hp3 & Hr3).
    exists p3. by rewrite Hr3. }
  destruct (wait_Err _ _ _ _ _ _ _ Hp2 Hw3) as (-> & _ & Hw3p & _).
  unfold fail, eprint, mbind at 1, io_bind at 1 in Hrun.
  set (w4 := set_err _ w3) in Hrun.
  destruct (kill_run i w4) as (w5 & p5 & Hk & Hnow & Hp5 & Hcase5).
  { simpl. by rewrite Hw3p, Hp2. }
  rewrite (io_bind_run _ _ _ _ _ Hk) in Hrun. unfold mbind, io_bind in Hrun.
  destruct (wait E i (2 * SECOND) w5) as [[c|e] w6] eqn:Hw6; injection Hrun as <- <-.
  - destruct (wait_Ok _ _ _ _ _ _ Hw6) as (p6 & Hp6 & Hr6). exists p6. by rewrite Hr6.
  - destruct (wait_Err _ _ _ _ _ _ _ Hp5 Hw6) as (-> & _ & Hw6p & Hr5 & Hx).
    exists p5. rewrite Hw6p. split_and!; [done..|].
    destruct Hcase5 as [[? ?]|(t & c & Ht & Hle)]; [congruence|].
    specialize (Hx t c Ht). unfold SECOND in *. lia.
Qed.

Lemma drain_cases i w r w' :
  is_Some (w_procs w !! i) → drain_process_output E i w = (r, w') →
  (r = Err TimeoutExpired ∨ ∃ out err, r = Ok (out, err)) ∧ w_now w' ≤ w_now w + 4 * SECOND.
Proof.
  intros Hi. unfold drain_process_output, catch, mbind, io_bind.
  pose proof (communicate_now E i (2 * SECOND) w) as Hn.
  pose proof (stays_communicate E i (2 * SECOND) w Hi) as Hs.
  destruct (communicate E i (2 * SECOND) w) as [[[out err]|e] w1] eqn:Hc; simpl in Hn, Hs.
  { intros [= <- <-]. split; [eauto|]. unfold SECOND in *; lia. }
  pose proof (communicate_Err _ _ _ _ _ _ Hi Hc) as ->.
  destruct (kill_run i w1 (evolves_slot _ _ _ Hs)) as (w2 & p2 & Hk & Hk2 & Hp2 & _). rewrite Hk.
  pose proof (communicate_now E i (2 * SECOND) w2) as Hn2.
  destruct (communicate E i (2 * SECOND) w2) as [[[out err]|e] w3] eqn:Hc2; simpl in Hn2.
  - intros [= <- <-]. split; [eauto|]. unfold SECOND in *; lia.
  - intros [= <- <-]. rewrite (communicate_Err _ _ _ _ _ _ (mk_is_Some _ _ Hp2) Hc2).
    split; [by left|]. unfold SECOND in *; lia.
Qed.

Section poll_port_lemmas.
Context (i : nat) (host : string) (port deadline timeout : Z).
Context (label : string) (artifact : path) (error_cls : string → exn) (extras : dict json).

Local Abbreviation loop :=
  (poll_port E i host port deadline timeout label artifact error_cls extras).

(** The world in which the server accepted a connection. *)
Definition accepted (w : world) : Prop :=
  w_now w < deadline ∧ is_port port = true ∧ (∃ d, env_connect E w host port = (d, Ok true)) ∧
  ∃ p, w_procs w !! i = Some p ∧ exited (w_now w) p = None.

(** One turn of the loop: it ends by an error, by an attempt that raises, by a
    connection, or goes on 50 ms later at least. *)
Lemma poll_port_turn fuel w r w' :
  is_Some (w_procs w !! i) → loop (S fuel) w = (r, w') →
  (∃ e, r = Err e ∧ (e = TimeoutExpired ∨ ∃ m, e = error_cls m) ∧
     w_now w' ≤ w_now w + 4 * SECOND) ∨
  (w_now w < deadline ∧ w' = (connect E host port w).2 ∧
     ∃ e, r = Err e ∧ connect_error E host port e) ∨
  (accepted w ∧ r = Ok tt ∧ w' = (connect E host port w).2) ∨
  (w_now w < deadline ∧ ∃ w1, evolves i w w1 ∧ w_now w + 50 * MILLISECOND ≤ w_now w1 ∧
     w_now w1 = w_now (connect E host port w).2 + 50 * MILLISECOND ∧ loop fuel w1 = (r, w')).
Proof.
  intros Hi. pose proof Hi as [p Hp]. simpl. unfold gets, mbind at 1, io_bind at 1.
  destruct (Z.ltb_spec (w_now w) deadline) as [Hlt|_].
  2: { intros [= <- <-]. left. eexists. split_and!; [done|eauto|unfold SECOND; lia]. }
  destruct (poll_run i p w Hp) as (w1 & Hpoll & Hnow & Hcase).
  rewrite (io_bind_run _ _ _ _ _ Hpoll). destruct (exited (w_now w) p) as [c|] eqn:Hx.
  - destruct Hcase as (p' & Hp' & _). intros Hrun. left.
    pose proof (stays_drain i w1 (mk_is_Some _ _ Hp')) as Hds.
    unfold mbind at 1, io_bind at 1 in Hrun.
    destruct (drain_process_output E i w1) as [rd w2] eqn:Hd; simpl in Hds.
    destruct (drain_cases _ _ _ _ (mk_is_Some _ _ Hp') Hd) as [[->|(out & err & ->)] Ht].
    + injection Hrun as <- <-. eexists. split_and!; [done|by left|lia].
    + destruct (evolves_slot _ _ _ Hds) as [p2 Hp2].
      rewrite (io_bind_run _ _ _ _ _ (returncode_run _ _ _ Hp2)) in Hrun.
      injection Hrun as <- <-. eexists. split_and!; [done|eauto|lia].
  - subst w1. intros Hrun. right. pose proof (stays_connect E i host port w Hi) as Hcs.
    unfold mbind at 1, io_bind at 1 in Hrun.
    destruct (connect E host port w) as [rc wc] eqn:Hconn. simpl in Hcs |- *.
    destruct (connect_cases _ _ _ _ _ _ Hconn) as [Hnc Hrc].
    destruct rc as [[]|e]; [right; left|right; right|left; injection Hrun as <- <-; eauto].
    + injection Hrun as <- <-. destruct Hrc as [Hport Hok]. unfold accepted.
      destruct (env_connect E w host port) as [d ok]. simpl in Hok. subst ok. eauto 10.
    + split; [done|]. unfold mbind, io_bind, sleep in Hrun. eexists. split_and!; [| | |done].
      * eapply evolves_trans; [done|]. apply stays_advance; [by eapply evolves_slot|].
        unfold MILLISECOND. simpl. lia.
      * unfold MILLISECOND. simpl. lia.
      * done.
Qed.

(** With fuel for the rest of the time-out the loop ends: by a connection made
    before the deadline to a server that had not exited, or by an error. *)
Lemma poll_port_cases n w r w' :
  is_Some (w_procs w !! i) → deadline ≤ w_now w + Z.of_nat n * (50 * MILLISECOND) →
  loop (S n) w = (r, w') →
  match r with
  | Ok _ => ∃ w1, evolves i w w1 ∧ accepted w1 ∧ w' = (connect E host port w1).2
  | Err e => e = TimeoutExpired ∨ (∃ m, e = error_cls m) ∨ connect_error E host port e
  end.
Proof.
  revert w. induction n as [|n IH]; intros w Hi Hfuel Hrun;
    destruct (poll_port_turn _ _ _ _ Hi Hrun)
      as [(e & -> & He & _)|[(_ & _ & e & -> & He)|[(Ha & -> & ->)|(Hlt & w1 & Hev & Hnow & _ & Hloop)]]];
    try naive_solver; try (exists w; by split_and!; [apply evolves_refl|..]).
  - lia.
  - specialize (IH w1 (evolves_slot _ _ _ Hev)). destruct r as [[]|e].
    + destruct IH as (w2 & ? & ? & ?); [lia|done|]. exists w2.
      split_and!; [by eapply evolves_trans|done..].
    + apply IH; [lia|done].
Qed.

(** When a connection attempt lasts at most 200 ms, the loop is over 250 ms
    after the deadline, plus four seconds to drain a server that has exited. *)
Lemma poll_port_time n w r w' :
  (∀ w, Z.of_N (env_connect E w host port).1 ≤ 200 * MILLISECOND) →
  is_Some (w_procs w !! i) → deadline ≤ w_now w + Z.of_nat n * (50 * MILLISECOND) →
  loop (S n) w = (r, w') →
  w_now w' ≤ Z.max (w_now w) (deadline + 250 * MILLISECOND) + 4 * SECOND.
Proof.
  intros Hconn. assert (∀ w, w_now (connect E host port w).2 ≤ w_now w + 200 * MILLISECOND) as Hc.
  { intros w0. specialize (Hconn w0). destruct (connect E host port w0) as [rc wc] eqn:Hrc.
    apply connect_cases in Hrc as [? _]. simpl. lia. }
  revert w. induction n as [|n IH]; intros w Hi Hfuel Hrun; specialize (Hc w);
    destruct (poll_port_turn _ _ _ _ Hi Hrun)
      as [(e & _ & _ & Ht)|[(Hlt & -> & _)|[((Hlt & _) & _ & ->)|(Hlt & w1 & Hev & Hnow & Hnow1 & Hloop)]]];
    unfold MILLISECOND, SECOND in *; try lia.
  apply IH in Hloop; [lia|by eapply evolves_slot|lia].
Qed.

(** A turn with a running server: it tries to connect. *)
Lemma poll_port_running fuel w p d ok :
  w_procs w !! i = Some p → exited (w_now w) p = None → w_now w < deadline →
  is_port port = true → env_connect E w host port = (d, Ok ok) →
  loop (S fuel) w =
  let w1 := advance E (w_now w + Z.of_N d) w in
  if (ok : bool) then (Ok tt, w1)
  else loop fuel (advance E (w_now w1 + 50 * MILLISECOND) w1).
Proof.
  intros Hp Hx Hlt Hport Hconn. cbn [poll_port]. rewrite io_gets_bind.
  rewrite (proj2 (Z.ltb_lt _ _)) by done.
  destruct (poll_run i p w Hp) as (w1 & Hpoll & _ & Hcase). rewrite Hx in Hpoll, Hcase. subst w1.
  rewrite (io_bind_run _ _ _ _ _ Hpoll).
  rewrite (io_bind_run _ _ _ ok (advance E (w_now w + Z.of_N d) w)); [by destruct ok|].
  by rewrite connect_port, Hconn.
Qed.

(** The address can be connected to: the port is a port, the host has an
    address, an attempt lasts at most 200 ms, the socket's time-out, and succeeds
    from [ready] on. *)
Record reachable (ready : Z) : Prop := {
  re_port : is_port port = true;
  re_attempt w : ∃ d ok, env_connect E w host port = (d, Ok ok) ∧
    Z.of_N d ≤ 200 * MILLISECOND ∧ (ready ≤ w_now w → ok = true);
}.

(** A server that runs, and accepts connections from [ready] on, is found. *)
Lemma poll_port_ready n w p ready :
  reachable ready →
  (∀ t, t < deadline → exited t p = None) → ready + 250 * MILLISECOND ≤ deadline →
  w_procs w !! i = Some p → w_now w < deadline →
  deadline ≤ w_now w + Z.of_nat n * (50 * MILLISECOND) →
  ∃ w', loop (S n) w = (Ok tt, w') ∧
    w_now w' ≤ Z.max (w_now w) (ready + 250 * MILLISECOND) + 200 * MILLISECOND.
Proof.
  intros [Hport Hatt] Hrun Hdl. revert w.
  induction n as [|n IH]; intros w Hp Hlt Hfuel; [lia|].
  destruct (Hatt w) as (d & ok & Hconn & Hdur & Hready).
  rewrite (poll_port_running _ _ p d ok) by auto. cbv zeta. destruct ok.
  { eexists. split; [done|]. simpl. unfold MILLISECOND in *. lia. }
  assert (w_now w < ready) by (destruct (Z_lt_le_dec (w_now w) ready); [done|];
    specialize (Hready ltac:(done)); done).
  edestruct IH as (w' & Hloop & Ht); [| | |exists w'; split; [exact Hloop|]];
    unfold MILLISECOND in *; simpl in *; (done || lia).
Qed.
End poll_port_lemmas.

(** [wait_for_port] on an address that has a port. *)
Lemma wait_for_port_run i addr timeout label artifact error_cls extras w host port_str port :
  rsplit1 ":"%char addr = Some (host, port_str) → py_int (JStr port_str) = Ok port →
  wait_for_port E i addr timeout label artifact error_cls extras w =
  poll_port E i host port (w_now w + timeout) timeout label artifact error_cls extras
    (poll_fuel timeout) w.
Proof.
  intros Hs Hp. unfold wait_for_port. rewrite Hs.
  rewrite (io_bind_run _ _ w (host, port_str) w) by done. rewrite Hp. done.
Qed.

(** The error of an address without a port number. *)
Definition address_error (addr : string) : Prop :=
  ∀ host port_str port, rsplit1 ":"%char addr = Some (host, port_str) →
    py_int (JStr port_str) ≠ Ok port.

(** The error of a connection attempt to an address. *)
Definition attempt_error (addr : string) (e : exn) : Prop :=
  ∃ host port_str port, rsplit1 ":"%char addr = Some (host, port_str) ∧
    py_int (JStr port_str) = Ok port ∧ connect_error E host port e.

Lemma wait_for_port_errors i addr timeout label artifact error_cls extras w e w' :
  is_Some (w_procs w !! i) →
  wait_for_port E i addr timeout label artifact error_cls extras w = (Err e, w') →
  e = TimeoutExpired ∨ (∃ m, e = error_cls m) ∨ (address_error addr ∧ ∃ m, e = ValueError m) ∨
  attempt_error addr e.
Proof.
  intros Hi Hrun. destruct (rsplit1 ":"%char addr) as [[host port_str]|] eqn:Hs.
  2: { do 2 right. left. unfold wait_for_port in Hrun. rewrite Hs in Hrun. injection Hrun as <- <-.
       split; [intros ? ? ?; by rewrite Hs|eauto]. }
  destruct (py_int (JStr port_str)) as [port|e'] eqn:Hp.
  - erewrite wait_for_port_run in Hrun by done.
    apply poll_port_cases in Hrun; [|done|by apply join_fuel].
    destruct Hrun as [?|[?|?]]; [by left|by right; left|]. do 3 right. by exists host, port_str, port.
  - do 2 right. left. unfold wait_for_port in Hrun. rewrite Hs in Hrun.
    rewrite (io_bind_run _ _ w (host, port_str) w) in Hrun by done. rewrite Hp in Hrun.
    injection Hrun as <- <-. split; [intros ? ? ?; congruence|].
    simpl in Hp. destruct (int_of_str port_str); naive_solver.
Qed.

Lemma wait_for_port_returns i addr timeout label artifact error_cls extras w w' :
  is_Some (w_procs w !! i) →
  wait_for_port E i addr timeout label artifact error_cls extras w = (Ok tt, w') →
  ∃ host port_str port w1,
    rsplit1 ":"%char addr = Some (host, port_str) ∧ py_int (JStr port_str) = Ok port ∧
    0 ≤ port ≤ 65535 ∧ evolves i w w1 ∧ w_now w1 < w_now w + timeout ∧
    (∃ d, env_connect E w1 host port = (d, Ok true)) ∧
    (∃ p, w_procs w1 !! i = Some p ∧ exited (w_now w1) p = None).
Proof.
  intros Hi Hrun. destruct (rsplit1 ":"%char addr) as [[host port_str]|] eqn:Hs.
  2: { unfold wait_for_port in Hrun. by rewrite Hs in Hrun. }
  destruct (py_int (JStr port_str)) as [port|e'] eqn:Hp.
  2: { unfold wait_for_port in Hrun. rewrite Hs in Hrun.
       rewrite (io_bind_run _ _ w (host, port_str) w) in Hrun by done. by rewrite Hp in Hrun. }
  erewrite wait_for_port_run in Hrun by done.
  apply poll_port_cases in Hrun as (w1 & Hev & (Hlt & Hport & Hc & Hx) & _); [|done|by apply join_fuel].
  exists host, port_str, port, w1. split_and!; try done; unfold is_port in Hport; lia.
Qed.

(** The part of the world a caller of the runner looks at: [base] are the
    children from before, [cs] those that were started and have exited. *)
Definition children (base : list proc) (ps : proc) (cs : list proc) (w : world) : Prop :=
  w_procs w = base ++ ps :: cs ∧ Forall (λ p, is_Some (pr_ret p)) cs.

Lemma stays_children {A} base ps cs (m : io A) w :
  children base ps cs w → stays (length base) m →
  ∃ ps', children base ps' cs (m w).2 ∧ pr_kill ps' = pr_kill ps ∧
    (is_Some (pr_ret ps) → pr_ret ps' = pr_ret ps) ∧ w_out (m w).2 = w_out w ∧
    w_procs (m w).2 !! length base = Some ps'.
Proof.
  intros [Hw Hcs] Hm.
  assert (evolves (length base) w (m w).2) as Hev.
  { apply Hm. by rewrite Hw, list_lookup_middle. }
  destruct (evolves_app _ _ _ _ _ Hw Hev) as (ps' & Hw' & Hk & Hr). destruct Hev.
  exists ps'. split_and!; [by split|done..|]. by rewrite Hw', list_lookup_middle.
Qed.

(** The lines a run prints. *)
Definition run_lines (a : pair_args) : list string :=
  [server_line a "server-startup" "bind" (JStr (pa_bind_addr a));
   client_line a "target" (JStr (pa_target_addr a));
   server_line a "server-flush" "verdict" (JStr "pass")].

(** A line of the run cannot be printed. *)
Definition line_error (a : pair_args) (e : exn) : Prop :=
  e = surrogate_error ∧ ∃ line, line ∈ run_lines a ∧ utf8_valid line = false.

(** The exceptions of a run whose server was started: the caller's error class,
    an address without a port number or that cannot be connected to, a line
    that cannot be printed, or a client that could not be started. *)
Definition pair_error (a : pair_args) (e : exn) : Prop :=
  (∃ m, e = pa_error_cls a m) ∨ (address_error (pa_bind_addr a) ∧ ∃ m, e = ValueError m) ∨
  attempt_error (pa_bind_addr a) e ∨ line_error a e ∨
  ∃ w, start_error E (pa_client_cmd a) (pa_client_cwd a) w e.

(** The exceptions of the [try] block once the server has been started. *)
Definition serve_error (a : pair_args) (e : exn) : Prop := e = TimeoutExpired ∨ pair_error a e.

Lemma flush_cases a base ps cs w r w' :
  children base ps cs w → flush E a (length base) w = (r, w') →
  ∃ ps', children base ps' cs w' ∧ pr_kill ps' = pr_kill ps ∧
  match r with
  | Ok _ => pr_ret ps' = Some 0 ∧
      w_out w' = w_out w ++ [server_line a "server-flush" "verdict" (JStr "pass")]
  | Err e => e = TimeoutExpired ∨ (∃ m, e = pa_error_cls a m) ∨ line_error a e
  end.
Proof.
  intros Hch Hrun. unfold flush in Hrun. unfold mbind at 1, io_bind at 1, catch in Hrun.
  unfold mbind at 1, io_bind at 1 in Hrun.
  destruct (stays_children base ps cs (wait E (length base) (pa_server_flush_timeout a)) w)
    as (ps1 & Hch1 & Hk1 & _ & Hout1 & Hlk1); [done|apply stays_wait|].
  destruct Hch as [Hw Hcs].
  assert (w_procs w !! length base = Some ps) as Hlk by (by rewrite Hw, list_lookup_middle).
  destruct (wait E (length base) (pa_server_flush_timeout a) w) as [[c|e] w1] eqn:Hwait;
    simpl in Hch1, Hout1, Hlk1.
  2: { destruct (wait_Err _ _ _ _ _ _ _ Hlk Hwait) as (-> & _). injection Hrun as <- <-.
       exists ps1. split_and!; eauto. }
  unfold mret, io_ret in Hrun.
  rewrite (io_bind_run _ _ _ _ _ (returncode_run _ _ _ Hlk1)) in Hrun.
  case_bool_decide as Hc.
  { exists ps1. rewrite (io_bind_run _ _ w1 tt w1) in Hrun by done.
    destruct (io_print_cases (server_line a "server-flush" "verdict" (JStr "pass")) w1)
      as [[_ Hpr]|[Hbad Hpr]]; rewrite Hpr in Hrun; injection Hrun as <- <-.
    - split_and!; [by destruct Hch1|done|done|by rewrite <-Hout1].
    - split_and!; [done|done|]. do 2 right. split; [done|]. eexists. split; [|exact Hbad].
      unfold run_lines. set_solver. }
  destruct (stays_children base ps1 cs (drain_process_output E (length base)) w1)
    as (ps2 & Hch2 & Hk2 & _ & _ & _); [done|apply stays_drain|].
  unfold mbind at 1, io_bind at 1 in Hrun. unfold mbind at 1, io_bind at 1 in Hrun.
  destruct (drain_process_output E (length base) w1) as [rd w2] eqn:Hd; simpl in Hch2.
  destruct (drain_cases _ _ _ _ (mk_is_Some _ _ Hlk1) Hd) as [[->|(out & err & ->)] _];
    injection Hrun as <- <-; exists ps2; (split_and!; [done|congruence|eauto]).
Qed.

Lemma serve_cases a base ps w r w' :
  children base ps [] w → serve E a (length base) w = (r, w') →
  ∃ ps' cs, children base ps' cs w' ∧ (length cs ≤ 1)%nat ∧ pr_kill ps' = pr_kill ps ∧
  match r with
  | Ok _ => pr_ret ps' = Some 0 ∧ (∃ pc, cs = [pc] ∧ pr_ret pc = Some 0) ∧
      w_out w' = w_out w ++ [client_line a "target" (JStr (pa_target_addr a));
                             server_line a "server-flush" "verdict" (JStr "pass")]
  | Err e => serve_error a e
  end.
Proof.
  intros Hch Hrun. unfold serve in Hrun. unfold mbind at 1, io_bind at 1 in Hrun.
  set (m := wait_for_port _ _ _ _ _ _ _ _) in Hrun.
  destruct (stays_children base ps [] m w) as (ps1 & Hch1 & Hk1 & _ & Hout1 & Hlk1);
    [done|apply stays_wait_for_port|].
  assert (is_Some (w_procs w !! length base)) as Hlk.
  { destruct Hch as [-> _]. by rewrite list_lookup_middle. }
  destruct (m w) as [[[]|e] w1] eqn:Hm; simpl in Hch1, Hout1.
  2: { injection Hrun as <- <-. exists ps1, []. split_and!; [done|simpl; lia|done|].
       destruct (wait_for_port_errors _ _ _ _ _ _ _ _ _ _ Hlk Hm) as [?|[?|[?|?]]];
         unfold serve_error, pair_error; eauto. }
  unfold mbind at 1, io_bind at 1 in Hrun.
  destruct (io_print_cases (client_line a "target" (JStr (pa_target_addr a))) w1)
    as [[_ Hpr]|[Hbad Hpr]]; rewrite Hpr in Hrun.
  2: { injection Hrun as <- <-. exists ps1, []. split_and!; [done|simpl; lia|done|].
       right. do 3 right. left. split; [done|]. eexists. split; [|exact Hbad].
       unfold run_lines. set_solver. }
  set (w2 := set_out _ w1) in Hrun. unfold mbind at 1, io_bind at 1 in Hrun.
  destruct (subprocess_run E _ _ _ w2) as [rc w3] eqn:Hsub.
  destruct Hch1 as [Hw1 _].
  destruct (subprocess_run_cases _ _ _ _ _ _ _ Hsub)
    as [(-> & e & -> & He)|(pc & Hw3 & _ & Hout3 & _ & Hrc)].
  { injection Hrun as <- <-. exists ps1, []. split_and!; [done|simpl; lia|done|].
    unfold serve_error, pair_error. eauto 8. }
  assert (is_Some (pr_ret pc) → children base ps1 [pc] w3) as Hch3.
  { intros ?. split; [|by constructor]. rewrite Hw3. simpl. by rewrite Hw1, <-app_assoc. }
  destruct rc as [[[c out] err]|e].
  2: { injection Hrun as <- <-. destruct Hrc as [-> ?]. exists ps1, [pc].
       split_and!; [auto|simpl; lia|done|by left]. }
  unfold io_raise_if, pure_, mbind at 1, io_bind at 1 in Hrun.
  destruct (Z.eqb_spec c 0) as [->|Hc]; simpl in Hrun.
  2: { injection Hrun as <- <-. exists ps1, [pc].
       split_and!; [rewrite Hrc in Hch3; auto|simpl; lia|done|unfold serve_error, pair_error; eauto]. }
  destruct (flush_cases a base ps1 [pc] w3 r w') as (ps2 & Hch4 & Hk2 & Hr);
    [rewrite Hrc in Hch3; auto|done|].
  exists ps2, [pc]. split_and!; [done|simpl; lia|congruence|].
  destruct r as [[]|e].
  2: { unfold serve_error, pair_error. destruct Hr as [?|[?|?]]; eauto 6. }
  destruct Hr as [? Ho]. split_and!; [done|eauto|]. rewrite Ho, Hout3. simpl.
  by rewrite Hout1, <-app_assoc.
Qed.

(** The server and at most one client have been started; the client has been
    waited for, and so has the server unless it outlived SIGKILL. *)
Definition finished (a : pair_args) (base : list proc) (out : list string) (r : exc unit)
    (w' : world) : Prop :=
  ∃ ps cs, children base ps cs w' ∧ (length cs ≤ 1)%nat ∧
  match r with
  | Ok _ => pr_ret ps = Some 0 ∧ (∃ pc, cs = [pc] ∧ pr_ret pc = Some 0) ∧
      w_out w' = out ++ [client_line a "target" (JStr (pa_target_addr a));
                         server_line a "server-flush" "verdict" (JStr "pass")]
  | Err e => (is_Some (pr_ret ps) ∧ pair_error a e) ∨
             (e = TimeoutExpired ∧ 2 * SECOND < Z.of_N (pr_kill ps))
  end.

Lemma on_timeout_run {A} a e w :
  serve_error a e → ∃ e', on_timeout (A:=A) a e w = (Err e', w) ∧ pair_error a e'.
Proof.
  intros [->|He]; [simpl; eexists; split; [done|]; left; by eexists|].
  destruct e; (eexists; split; [done|]); try done. left. by eexists.
Qed.

Lemma try_serve_cases a base ps w r w' :
  children base ps [] w → catch (serve E a (length base)) (on_timeout a) w = (r, w') →
  ∃ ps' cs, children base ps' cs w' ∧ (length cs ≤ 1)%nat ∧
  match r with
  | Ok _ => pr_ret ps' = Some 0 ∧ (∃ pc, cs = [pc] ∧ pr_ret pc = Some 0) ∧
      w_out w' = w_out w ++ [client_line a "target" (JStr (pa_target_addr a));
                             server_line a "server-flush" "verdict" (JStr "pass")]
  | Err e => pair_error a e
  end.
Proof.
  intros Hch Hrun. unfold catch in Hrun.
  destruct (serve E a (length base) w) as [r1 w1] eqn:Hs.
  destruct (serve_cases _ _ _ _ _ _ Hch Hs) as (ps1 & cs & Hch1 & Hlen & _ & Hr1).
  exists ps1, cs. destruct r1 as [[]|e]; [by injection Hrun as <- <-|].
  destruct (on_timeout_run (A:=unit) a e w1 Hr1) as (e' & Ht & He'). rewrite Ht in Hrun.
  by injection Hrun as <- <-.
Qed.

Lemma guarded_serve_cases a base ps w r w' :
  children base ps [] w →
  finally (catch (serve E a (length base)) (on_timeout a))
    (terminate_process E (length base) (pa_label a) (pa_cleanup_phase a) (pa_server_artifact a)
       (pa_context a)) w = (r, w') →
  finished a base (w_out w) r w'.
Proof.
  intros Hch Hrun. unfold finally in Hrun.
  destruct (catch _ _ w) as [r1 w1] eqn:Hs.
  destruct (try_serve_cases _ _ _ _ _ _ Hch Hs) as (ps1 & cs & Hch1 & Hlen & Hr1).
  set (t := terminate_process _ _ _ _ _ _) in Hrun.
  destruct (stays_children base ps1 cs t w1) as (ps2 & Hch2 & _ & Hret & Hout & Hlk2);
    [done|apply stays_terminate_with|].
  assert (is_Some (w_procs w1 !! length base)) as Hlk1.
  { destruct Hch1 as [-> _]. by rewrite list_lookup_middle. }
  destruct (t w1) as [rt w2] eqn:Ht; simpl in Hch2, Hout, Hlk2.
  destruct (terminate_with_cases _ _ _ _ _ Hlk1 Ht) as (p & Hp & Hrt).
  assert (p = ps2) as -> by congruence. exists ps2, cs.
  destruct rt as [[]|et]; injection Hrun as <- <-; (split_and!; [done..|]); [|by right].
  destruct r1 as [[]|e]; [|by left]. destruct Hr1 as (Hz & Hpc & Ho).
  rewrite Hret by (by rewrite Hz). by rewrite Hout.
Qed.

(** The exceptions of a run that started nothing. *)
Definition setup_error (a : pair_args) (e : exn) : Prop :=
  (∃ m, e = OSError m) ∨ (∃ m, e = pa_error_cls a m) ∨ line_error a e ∨
  ((∃ p, p ∈ [pa_server_artifact a; pa_client_artifact a] ∧
      passable (path_str (path_parent p)) = false) ∧ ∃ m, e = ValueError m) ∨
  ∃ w, start_error E (pa_server_cmd a) (pa_server_cwd a) w e.

Lemma run_server_client_pair_cases a w r w' :
  run_server_client_pair E a w = (r, w') →
  (w_procs w' = w_procs w ∧ ∃ e, r = Err e ∧ setup_error a e) ∨
  finished a (w_procs w)
    (w_out w ++ [server_line a "server-startup" "bind" (JStr (pa_bind_addr a))]) r w'.
Proof.
  intros Hrun. unfold run_server_client_pair in Hrun.
  destruct (make_dirs_cases (path_parent (pa_server_artifact a)) w) as (fs1 & [Hm1|(e & Hm1 & He)]).
  2: { rewrite (io_bind_err _ _ _ _ _ Hm1) in Hrun. injection Hrun as <- <-. left.
       split; [done|]. exists e. split; [done|].
       destruct He as [?|[??]]; [by left|]. do 3 right. left. split; [|done].
       eexists. split; [|done]. set_solver. }
  rewrite (io_bind_run _ _ _ _ _ Hm1) in Hrun. set (w1 := set_fs fs1 w) in *.
  destruct (make_dirs_cases (path_parent (pa_client_artifact a)) w1) as (fs2 & [Hm2|(e & Hm2 & He)]).
  2: { rewrite (io_bind_err _ _ _ _ _ Hm2) in Hrun. injection Hrun as <- <-. left.
       split; [done|]. exists e. split; [done|].
       destruct He as [?|[??]]; [by left|]. do 3 right. left. split; [|done].
       eexists. split; [|done]. set_solver. }
  rewrite (io_bind_run _ _ _ _ _ Hm2) in Hrun. set (w2 := set_fs fs2 w1) in *.
  unfold mbind at 1, io_bind at 1, catch at 1 in Hrun. unfold mbind at 1, io_bind at 1 in Hrun.
  destruct (io_print_cases (server_line a "server-startup" "bind" (JStr (pa_bind_addr a))) w2)
    as [[_ Hpr]|[Hbad Hpr]]; rewrite Hpr in Hrun.
  2: { injection Hrun as <- <-. left. split; [done|]. eexists. split; [done|].
       do 2 right. left. split; [done|]. eexists. split; [|exact Hbad]. unfold run_lines. set_solver. }
  set (w3 := set_out _ w2) in *.
  destruct (popen_cases E (pa_server_cmd a) (pa_server_cwd a) w3)
    as [(e & Hp & He)|(p & w4 & Hp & Hw4 & _ & Ho & _ & _)]; rewrite Hp in Hrun.
  - left. assert (∃ e', on_timeout (A:=nat) a e w3 = (Err e', w3) ∧ setup_error a e') as (e' & Ht & He').
    { unfold setup_error. destruct e; simpl; (eexists; split; [done|]); eauto 8. }
    rewrite Ht in Hrun. injection Hrun as <- <-. split; [done|]. eauto.
  - right. replace (w_out w ++ _) with (w_out w4) by (by rewrite Ho).
    change (w_procs w) with (w_procs w3). eapply guarded_serve_cases; [|done]. by split.
Qed.
End runner_lemmas.

(** ** Addresses *)

Lemma rsplit1_None c s : str_all (λ a, negb (bool_decide (a = c))) s = true → rsplit1 c s = None.
Proof.
  induction s as [|a s IH]; simpl; [done|]. intros [Ha Hs]%andb_true_iff.
  rewrite (IH Hs). apply negb_true_iff in Ha. by rewrite Ha.
Qed.

Lemma rsplit1_app c h t :
  str_all (λ a, negb (bool_decide (a = c))) t = true →
  rsplit1 c (h +:+ String c t) = Some (h, t).
Proof.
  intros Ht. induction h as [|a h IH].
  - rewrite app_nil_l_str. simpl. rewrite (rsplit1_None _ _ Ht). by rewrite bool_decide_true.
  - rewrite app_cons_str. simpl. by rewrite IH.
Qed.

Lemma str_all_mono (P Q : ascii → bool) s :
  (∀ c, P c = true → Q c = true) → str_all P s = true → str_all Q s = true.
Proof. intros H. induction s; simpl; [done|]. rewrite !andb_true_iff. naive_solver. Qed.

Lemma reserved_addr_split (n : N) :
  rsplit1 ":"%char (cat ["127.0.0.1:"; pretty n]) = Some ("127.0.0.1", pretty n).
Proof.
  unfold cat. simpl foldr. rewrite app_nil_r_str.
  change ("127.0.0.1:" +:+ pretty n) with ("127.0.0.1" +:+ String ":"%char (pretty n)).
  apply rsplit1_app. destruct (pretty_N_digits n) as [Hd _].
  eapply str_all_mono, Hd. intros c Hc. apply negb_true_iff, bool_decide_eq_false.
  intros ->. by vm_compute in Hc.
Qed.

Lemma locate_binary_world mk explicit d missing w p w' :
  locate_binary mk explicit d missing w = (Ok p, w') → w' = w.
Proof.
  unfold locate_binary. cbv zeta. rewrite io_gets_bind. intros [_ H]%io_bind_raise_if.
  by injection H as _ <-.
Qed.

(** ** Sequences of runs *)

(** [ran n w w']: between [w] and [w'], [n] children were started, waited for,
    and exited with code 0. *)
Definition ran (n : nat) (w w' : world) : Prop :=
  ∃ ps, w_procs w' = w_procs w ++ ps ∧ length ps = n ∧ Forall (λ p, pr_ret p = Some 0) ps.

Lemma ran_refl w w' : w_procs w' = w_procs w → ran 0 w w'.
Proof. intros H. exists []. by rewrite H, app_nil_r. Qed.

Lemma ran_trans n k w1 w2 w3 : ran n w1 w2 → ran k w2 w3 → ran (n + k) w1 w3.
Proof.
  intros (ps & H1 & <- & F1) (qs & H2 & <- & F2). exists (ps ++ qs).
  rewrite H2, H1, <-app_assoc, length_app. split_and!; [done..|]. by apply Forall_app.
Qed.

Lemma ran_pair E a w w' : run_server_client_pair E a w = (Ok tt, w') → ran 2 w w'.
Proof.
  intros [(_ & e & ? & _)|(ps & cs & [Hw _] & _ & Hps & (pc & -> & Hpc) & _)]%run_server_client_pair_cases;
    [done|]. exists [ps; pc]. split_and!; [done..|]. by repeat constructor.
Qed.

Lemma ran_iterM {B} (f : B → io unit) k l w w' :
  (∀ x w w', x ∈ l → f x w = (Ok tt, w') → ran k w w') →
  iterM f l w = (Ok tt, w') → ran (length l * k) w w'.
Proof.
  unfold iterM. revert w. induction l as [|x l IH]; intros w Hf Hrun; simpl in *.
  - injection Hrun as <-. by apply ran_refl.
  - apply io_bind_Ok in Hrun as ([] & w1 & Hx & Hl).
    eapply ran_trans; [by eapply Hf; [left|]|]. apply IH; [|done].
    intros y ? ? Hy. apply Hf. by right.
Qed.

Lemma io_iterM_raises {B} P (f : B → io unit) l :
  (∀ x, x ∈ l → io_raises P (f x)) → io_raises P (iterM f l).
Proof. intros Hf. apply io_foldM_raises. auto. Qed.

Lemma io_raises_run {A} (P : exn → Prop) (m : io A) :
  (∀ w e w', m w = (Err e, w') → P e) → io_raises P m.
Proof. intros H w. destruct (m w) as [[a|e] w'] eqn:Hm; simpl; [done|]. by eapply H. Qed.

(** The exceptions a caller of the runner has to expect. *)
Definition run_error (mk : string → exn) (e : exn) : Prop :=
  (∃ m, e = mk m) ∨ (∃ m, e = OSError m) ∨ e = TimeoutExpired.

(** The causes of the other exceptions that can leave a run: a string that
    cannot be handed to the system or printed, an address that has no port
    number, and what a connection attempt finds wrong with the address. *)
Definition value_fault (E : environment) (a : pair_args) : Prop :=
  address_error (pa_bind_addr a) ∨
  (∃ line, line ∈ run_lines a ∧ utf8_valid line = false) ∨
  (∃ s, passable s = false ∧
     (JStr s ∈ pa_server_cmd a ++ pa_client_cmd a ∨
      s ∈ path_str <$> [path_parent (pa_server_artifact a); path_parent (pa_client_artifact a);
                        pa_server_cwd a; pa_client_cwd a])) ∨
  ∃ host port_str port w d m, rsplit1 ":"%char (pa_bind_addr a) = Some (host, port_str) ∧
    py_int (JStr port_str) = Ok port ∧ env_connect E w host port = (d, Err (NotEncodable m)).

Definition type_fault (E : environment) (a : pair_args) : Prop :=
  (∃ v, v ∈ pa_server_cmd a ++ pa_client_cmd a ∧ ∀ s, v ≠ JStr s) ∨
  ∃ host port_str port w d, rsplit1 ":"%char (pa_bind_addr a) = Some (host, port_str) ∧
    py_int (JStr port_str) = Ok port ∧ env_connect E w host port = (d, Err NulInName).

Definition port_fault (a : pair_args) : Prop :=
  ∃ host port_str port, rsplit1 ":"%char (pa_bind_addr a) = Some (host, port_str) ∧
    py_int (JStr port_str) = Ok port ∧ is_port port = false.

Definition pair_failure (E : environment) (a : pair_args) (e : exn) : Prop :=
  run_error (pa_error_cls a) e ∨
  ((∃ m, e = ValueError m) ∧ value_fault E a) ∨ ((∃ m, e = TypeError m) ∧ type_fault E a) ∨
  (e = port_error ∧ port_fault a) ∨
  ((∃ m, e = IndexError m) ∧ (pa_server_cmd a = [] ∨ pa_client_cmd a = [])).

Lemma start_failure E a cmd cwd w e :
  start_error E cmd cwd w e →
  (cmd, cwd) ∈ [(pa_server_cmd a, pa_server_cwd a); (pa_client_cmd a, pa_client_cwd a)] →
  pair_failure E a e.
Proof.
  intros He Hin. unfold pair_failure, run_error, value_fault, type_fault.
  rewrite !elem_of_cons, elem_of_nil in Hin.
  destruct (start_error_cases _ _ _ _ _ He) as [?|[[-> ?]|[[(v & Hv & Hn) ?]|[(s & Hs & Hp) ?]]]];
    [by eauto|..].
  - do 4 right. split; [done|]. naive_solver.
  - do 2 right. left. split; [done|]. left. exists v. split; [|done].
    apply elem_of_app. naive_solver.
  - right. left. split; [done|]. do 2 right. left. exists s. split; [done|].
    rewrite elem_of_app. cbn [fmap list_fmap]. set_solver.
Qed.

Lemma attempt_failure E a e : attempt_error E (pa_bind_addr a) e → pair_failure E a e.
Proof.
  intros (host & ps & port & Hs & Hp & [[-> Hport]|(w & d & f & Hc & ->)]).
  - do 3 right. left. split; [done|]. by exists host, ps, port.
  - destruct f as [m|m|]; simpl.
    + left. right. left. eauto.
    + right. left. split; [eauto|]. do 3 right. by exists host, ps, port, w, d, m.
    + do 2 right. left. split; [eauto|]. right. by exists host, ps, port, w, d.
Qed.

Lemma line_failure E a e : line_error a e → pair_failure E a e.
Proof. intros [-> ?]. right. left. split; [by eexists|]. right. by left. Qed.

(** The exceptions that leave a run. *)
Lemma run_pair_raises E a : io_raises (pair_failure E a) (run_server_client_pair E a).
Proof.
  apply io_raises_run. intros w e w'.
  intros [(_ & e0 & [= <-] & Hs)|(ps & cs & _ & _ & [[_ Hs]|[-> _]])]%run_server_client_pair_cases.
  - destruct Hs as [?|[?|[?|[[(p & Hp & Hbad) ?]|(w0 & Hs)]]]].
    + left. right. by left.
    + left. by left.
    + by apply line_failure.
    + right. left. split; [done|]. do 2 right. left. eexists. split; [exact Hbad|]. right. set_solver.
    + eapply start_failure; [done|]. set_solver.
  - destruct Hs as [?|[[? ?]|[?|[?|(w0 & Hs)]]]].
    + left. by left.
    + right. left. split; [done|]. by left.
    + by apply attempt_failure.
    + by apply line_failure.
    + eapply start_failure; [done|]. set_solver.
  - left. by do 2 right.
Qed.
