(* ===== verification/RunnerSpec.v ===== *)
(** * What the shared runner guarantees

    The theorems about [wait_for_port] and [run_server_client_pair], for every
    environment: the poll loop ends and is bounded in time, a run that returns
    has a server and a client that both exited with code 0, no child is left
    running, and which exceptions a caller can see.  Also the address
    [reserve_addr] gives out, and what [placeholder_only] computes. *)

From Stdlib Require Import Ascii.
From S2P Require Import Prelude PyFloat PyVal PyPath Json World Process RunnerCommon.

Local Open Scope Z_scope.

(** ** An environment to run in *)

(** A server that exits with code 0 after a second, a client that exits with
    code [client] after 100 ms, and a port that accepts connections 120 ms after
    the start of the clock. *)
Definition demo_proc (now : Z) (args : list string) (client : Z) : proc :=
  if bool_decide ("server" ∈ args) then
    Proc (Some (now + SECOND, 0)) (Some (0%N, -15)) 0 (Some 0%N) "served" "" None
  else Proc (Some (now + 100 * MILLISECOND, client)) (Some (0%N, -15)) 0 (Some 0%N) "called" "" None.

Definition demo_env (client : Z) : environment :=
  Environment (λ args _ w, Ok (demo_proc (w_now w) args client)) (λ w _, w_fs w)
    (λ w _ _, (1000%N, Ok (120 * MILLISECOND <? w_now w))) (λ _, 40000%N) (λ _ _, true)
    (λ w, w_now w / 1000) (λ _, ("", "")) (λ _, 4096) (λ _, 7).

Definition demo_world : world := World ∅ ["tmp"] [] [] [] 0 [].

Definition demo_args : pair_args :=
  PairArgs "demo" [JStr "bin"; JStr "server"] [JStr "bin"; JStr "client"]
    (parse_path "/out/server.json") (parse_path "/out/client.json")
    "127.0.0.1:40000" "127.0.0.1:40000" (10 * SECOND) (20 * SECOND) (10 * SECOND)
    RunError (parse_path ".") (parse_path ".") [("instrumentation", JStr "on")] "cleanup".

Definition demo_server : world :=
  set_procs [demo_proc 0 ["server"] 0] demo_world.

(** ** [wait_for_port] *)

(** C8: [wait_for_port] always ends (the fuel of the model is never used up).
    It returns only for an address with a host and a port number from 0 to 65535,
    after a connection was accepted before the deadline while the server had not
    exited.  Otherwise it raises: the caller's error class, the [TimeoutExpired]
    of draining a server whose pipes stay open, a [ValueError] for an address
    without a port number, or what a connection attempt raises, which is an
    [OverflowError] for a port out of range, or the error of looking up a host
    that has no address. *)
Theorem wait_for_port_ends E i addr timeout label artifact error_cls extras w r w' :
  is_Some (w_procs w !! i) → (∀ m, error_cls m ≠ OutOfFuel) →
  wait_for_port E i addr timeout label artifact error_cls extras w = (r, w') →
  r ≠ Err OutOfFuel ∧
  match r with
  | Ok _ => ∃ host port_str port w1,
      rsplit1 ":"%char addr = Some (host, port_str) ∧ py_int (JStr port_str) = Ok port ∧
      0 ≤ port ≤ 65535 ∧ evolves i w w1 ∧ w_now w1 < w_now w + timeout ∧
      (∃ d, env_connect E w1 host port = (d, Ok true)) ∧
      (∃ p, w_procs w1 !! i = Some p ∧ exited (w_now w1) p = None)
  | Err e => e = TimeoutExpired ∨ (∃ m, e = error_cls m) ∨
      (address_error addr ∧ ∃ m, e = ValueError m) ∨
      ∃ host port_str port,
        rsplit1 ":"%char addr = Some (host, port_str) ∧ py_int (JStr port_str) = Ok port ∧
        ((e = port_error ∧ ¬ (0 ≤ port ≤ 65535)) ∨
         ∃ w1 d f, env_connect E w1 host port = (d, Err f) ∧ e = lookup_exn f)
  end.
Proof.
  intros Hi Herr Hrun. destruct r as [[]|e].
  - split; [done|]. by eapply wait_for_port_returns in Hrun.
  - apply wait_for_port_errors in Hrun; [|done]. split.
    + intros [= ->]. destruct Hrun as [?|[[m ?]|[[_ [m ?]]|(h & s & n & _ & _ & [[? _]|(w1 & d & [] & _ & ?)])]]];
        try done. by eapply Herr.
    + destruct Hrun as [?|[?|[?|(h & s & n & Hs & Hp & He)]]]; eauto. do 3 right. exists h, s, n.
      split_and!; [done..|]. destruct He as [[-> Hn]|?]; [left|by right].
      split; [done|]. unfold is_port in Hn. lia.
Qed.

Lemma wait_for_port_ends_witness :
  ∃ w', wait_for_port (demo_env 0) 0 "127.0.0.1:40000" SECOND "l" (parse_path "a") RunError []
          demo_server = (Ok tt, w') ∧
        ∃ w1, w_now w1 < SECOND ∧ ∃ host port d, env_connect (demo_env 0) w1 host port = (d, Ok true).
Proof.
  eexists. split; [vm_compute; reflexivity|].
  destruct (wait_for_port_ends (demo_env 0) 0 "127.0.0.1:40000" SECOND "l" (parse_path "a") RunError
    [] demo_server (Ok tt) _ (mk_is_Some _ _ eq_refl)
    ltac:(intros m; discriminate) ltac:(vm_compute; reflexivity))
    as [_ (host & ps & port & w1 & _ & _ & _ & _ & ? & [d ?] & _)].
  exists w1. split; [done|]. by exists host, port, d.
Defined.

(** A port out of range is found out at the first attempt. *)
Example port_out_of_range :
  (wait_for_port (demo_env 0) 0 "127.0.0.1:70000" SECOND "l" (parse_path "a") RunError []
     demo_server).1 = Err (OverflowError "connect_ex(): port must be 0-65535.").
Proof. vm_compute. reflexivity. Qed.

(** When a connection attempt lasts at most 200 ms, the socket's time-out,
    [wait_for_port] is over 250 ms after its deadline at the latest, plus the
    four seconds it may take to drain a server that has exited. *)
Theorem wait_for_port_deadline E i addr timeout label artifact error_cls extras w host port_str port :
  (∀ w, Z.of_N (env_connect E w host port).1 ≤ 200 * MILLISECOND) →
  is_Some (w_procs w !! i) →
  rsplit1 ":"%char addr = Some (host, port_str) → py_int (JStr port_str) = Ok port →
  w_now (wait_for_port E i addr timeout label artifact error_cls extras w).2 ≤
    w_now w + Z.max 0 (timeout + 250 * MILLISECOND) + 4 * SECOND.
Proof.
  intros Hconn Hi Hs Hp.
  destruct (wait_for_port E i addr timeout label artifact error_cls extras w) as [r w'] eqn:Hrun.
  erewrite wait_for_port_run in Hrun by done.
  apply poll_port_time in Hrun; [simpl; lia|done|done|by apply join_fuel].
Qed.

Lemma wait_for_port_deadline_witness :
  w_now (wait_for_port (demo_env 0) 0 "127.0.0.1:40000" SECOND "l" (parse_path "a") RunError []
           demo_server).2 ≤ 0 + Z.max 0 (SECOND + 250 * MILLISECOND) + 4 * SECOND.
Proof.
  apply (wait_for_port_deadline (demo_env 0) 0 "127.0.0.1:40000" SECOND "l" (parse_path "a") RunError
    [] demo_server "127.0.0.1" "40000" 40000); [intros w; unfold MILLISECOND; simpl; lia|..].
  - by eexists.
  - reflexivity.
  - reflexivity.
Defined.

(** C9: a server that is found.  When the port is in range, the host has an
    address, connection attempts last at most 200 ms, the server runs past the
    deadline and accepts every connection from the time [ready] on, and [ready]
    is at least 250 ms before the deadline, then [wait_for_port] returns, at most 450 ms after the server became ready (or
    200 ms after it was called, if the server was ready before). *)
Theorem wait_for_port_live E i addr timeout label artifact error_cls extras w host port_str port p ready :
  rsplit1 ":"%char addr = Some (host, port_str) → py_int (JStr port_str) = Ok port →
  reachable E host port ready →
  w_procs w !! i = Some p → (∀ t, t < w_now w + timeout → exited t p = None) →
  ready + 250 * MILLISECOND ≤ w_now w + timeout → 0 < timeout →
  ∃ w', wait_for_port E i addr timeout label artifact error_cls extras w = (Ok tt, w') ∧
    w_now w' ≤ Z.max (w_now w) (ready + 250 * MILLISECOND) + 200 * MILLISECOND.
Proof.
  intros Hs Hp Hready Hlk Hrun Hdl Ht. erewrite wait_for_port_run by done.
  apply (poll_port_ready _ _ _ _ _ _ _ _ _ _ _ _ p); (done || lia || by apply join_fuel).
Qed.

(** A server that accepts connections two seconds after it was started *)
Definition slow_env : environment := Environment
  (env_spawn (demo_env 0)) (env_files (demo_env 0))
  (λ w _ _, (100000000%N, Ok (bool_decide (2 * SECOND ≤ w_now w))))
  (env_port (demo_env 0)) (env_which (demo_env 0)) (env_time_us (demo_env 0))
  (env_partial (demo_env 0)) (env_dir_size (demo_env 0)) (env_hash (demo_env 0)).

Definition slow_server : proc := Proc None None 0 (Some 0%N) "" "" None.

Lemma wait_for_port_live_witness :
  ∃ w', wait_for_port slow_env 0 "127.0.0.1:40000" (5 * SECOND) "l" (parse_path "a") RunError []
      (set_procs [slow_server] demo_world) = (Ok tt, w') ∧ w_now w' ≤ 2450 * MILLISECOND.
Proof.
  apply (wait_for_port_live slow_env 0 "127.0.0.1:40000" (5 * SECOND) "l" (parse_path "a") RunError []
    (set_procs [slow_server] demo_world) "127.0.0.1" "40000" 40000 slow_server (2 * SECOND)).
  - reflexivity.
  - reflexivity.
  - split; [reflexivity|]. intros w. do 2 eexists. split; [reflexivity|].
    split; [vm_compute; discriminate|]. intros Hw. apply bool_decide_eq_true. exact Hw.
  - reflexivity.
  - intros t _. reflexivity.
  - vm_compute. discriminate.
  - reflexivity.
Defined.

(** ** [run_server_client_pair] *)

(** C5: a run that returns started exactly two children, after those that were
    there before; the server and the client have both been waited for and exited
    with code 0; and exactly the three phase lines were printed, in order. *)
Theorem run_server_client_pair_success E a w w' :
  run_server_client_pair E a w = (Ok tt, w') →
  ∃ ps pc, w_procs w' = w_procs w ++ [ps; pc] ∧ pr_ret ps = Some 0 ∧ pr_ret pc = Some 0 ∧
    w_out w' = w_out w ++
      [server_line a "server-startup" "bind" (JStr (pa_bind_addr a));
       client_line a "target" (JStr (pa_target_addr a));
       server_line a "server-flush" "verdict" (JStr "pass")].
Proof.
  intros [(_ & e & ? & _)|(ps & cs & [Hw _] & _ & Hps & (pc & -> & Hpc) & Ho)]%run_server_client_pair_cases;
    [done|]. exists ps, pc. by rewrite <-app_assoc in Ho.
Qed.

Lemma run_server_client_pair_success_witness :
  ∃ ps pc, w_procs (run_server_client_pair (demo_env 0) demo_args demo_world).2 = [ps; pc] ∧
    pr_ret ps = Some 0 ∧ pr_ret pc = Some 0.
Proof.
  destruct (run_server_client_pair_success (demo_env 0) demo_args demo_world
    (run_server_client_pair (demo_env 0) demo_args demo_world).2) as (ps & pc & Hw & ? & ? & _).
  - vm_compute. reflexivity.
  - exists ps, pc. split; [exact Hw|by split].
Defined.

(** C6: however a run ends, it leaves the children from before as they were and
    has started at most two.  Every child it started has exited and been waited
    for, unless the server outlived SIGKILL by two seconds, and then the run
    ends with [TimeoutExpired]. *)
Theorem run_server_client_pair_cleanup E a w :
  let '(r, w') := run_server_client_pair E a w in
  ∃ started, w_procs w' = w_procs w ++ started ∧ (length started ≤ 2)%nat ∧
    (Forall (λ p, is_Some (pr_ret p)) started ∨
     r = Err TimeoutExpired ∧ ∃ p, p ∈ started ∧ 2 * SECOND < Z.of_N (pr_kill p)).
Proof.
  destruct (run_server_client_pair E a w) as [r w'] eqn:Hrun.
  destruct (run_server_client_pair_cases _ _ _ _ _ Hrun)
    as [(Hw & _)|(ps & cs & [Hw Hcs] & Hlen & Hr)].
  { exists []. rewrite Hw, app_nil_r. split_and!; [done|simpl; lia|by left]. }
  exists (ps :: cs). split_and!; [done|simpl; lia|].
  destruct r as [[]|e].
  - left. constructor; [|done]. destruct Hr as [-> _]. done.
  - destruct Hr as [[? _]|[-> ?]]; [left; by constructor|right]. split; [done|].
    exists ps. split; [apply elem_of_cons; by left|done].
Qed.



(** ** Addresses *)

(** The address [reserve_addr] returns reads back as the local host and the
    port the kernel assigned, so waiting for it never fails to parse it. *)
Theorem reserve_addr_parses E w :
  ∃ addr, reserve_addr E w = (Ok addr, w) ∧
    rsplit1 ":"%char addr = Some ("127.0.0.1", pretty (env_port E w)) ∧
    py_int (JStr (pretty (env_port E w))) = Ok (Z.of_N (env_port E w)).
Proof.
  eexists. split; [done|]. split; [apply reserved_addr_split|].
  simpl. by rewrite int_of_str_pretty.
Qed.
