(* ===== verification/Evidence.v ===== *)
(** * Checks shared by the evidence runners

    run_s02_evidence.py and run_s03_idxd_evidence.py validate their manifests
    and reports with the same statements and different message prefixes.  Each
    definition here is one group of those statements, with the prefix as the
    argument [ctx] (or the error as an argument), and the lemma that says when
    it passes. *)

From S2P Require Import Prelude PyFloat PyVal PyPath Json World Process RunnerCommon.

Local Open Scope Z_scope.

(** ** Definitions *)

(** [value or {}] *)
Definition or_empty (v : json) : json := if truthy v then v else JObj [].

(** [isinstance(v, int) and v >= 0] *)
Definition nonneg_int (v : json) : bool :=
  match as_int v with Some z => 0 <=? z | None => false end.

(** The fields every workload has, whatever its rpc mode. *)
Definition check_fields (scope warmup_error : string) (ints strs : list string)
    (merged : dict json) : exc unit :=
  raise_if (negb (nonneg_int (get "warmup_ms" merged))) (ManifestError warmup_error);;
  iterM (λ field, required_positive_int ManifestError merged field scope;; mret tt) ints;;
  iterM (λ field, required_str ManifestError merged field scope;; mret tt) strs.

(** The fields of the rpc mode. *)
Definition check_rpc (scope unsupported rpc : string) (merged : dict json) : exc unit :=
  if bool_decide (rpc = "unary-bytes") then
    required_positive_int ManifestError merged "payload_size" scope;;
    required_str ManifestError merged "payload_kind" scope;;
    mret tt
  else if bool_decide (rpc = "unary-proto-shape") then
    required_str ManifestError merged "proto_shape" scope;;
    required_str ManifestError merged "response_shape" scope;;
    mret tt
  else raise (ManifestError unsupported).

(** One role of an artifact pair: the pair so far and the paths seen. *)
Definition artifact_role_step (pair : dict json) (scope : string)
    (duplicate : string → string → exn) (acc : dict json * gset string) (role : string)
    : exc (dict json * gset string) :=
  let '(validated, seen_paths) := acc in
  artifact ← required_str ManifestError pair role scope;
  raise_if (bool_decide (artifact ∈ seen_paths)) (duplicate role artifact);;
  mret (dset role (JStr artifact) validated, {[artifact]} ∪ seen_paths).

Definition validate_pair (pair : dict json) (scope : string) (duplicate : string → string → exn)
    (seen_paths : gset string) : exc (dict json * gset string) :=
  foldM (artifact_role_step pair scope duplicate) ([], seen_paths) ENDPOINT_ROLES.

(** The three sections of a report. *)
Definition report_sections (ctx : string) (missing : string → exn) (report : dict json)
    : exc (dict json * dict json * dict json) :=
  metadata ← of_option (missing "metadata") (dget "metadata" report);
  metrics ← of_option (missing "metrics") (dget "metrics" report);
  stages ← of_option (missing "stages") (dget "stages" report);
  metadata ← of_option (RunError (cat [ctx; " metadata must be an object"])) (as_dict metadata);
  metrics ← of_option (RunError (cat [ctx; " metrics must be an object"])) (as_dict metrics);
  stages ← of_option (RunError (cat [ctx; " stages must be an object"])) (as_dict stages);
  mret (metadata, metrics, stages).

Definition check_pairs (ctx : string) (metadata expected_pairs : dict json) : exc unit :=
  iterM (λ '(key, expected),
    raise_if (negb (py_eq (get key metadata) expected))
      (RunError (cat [ctx; " metadata."; key; "="; py_repr (get key metadata); " expected ";
                      py_repr expected]))) expected_pairs.

Definition check_run_id (ctx : string) (metadata : dict json) : exc unit :=
  raise_if (negb (bool_decide (is_Some (nonempty_str (get "run_id" metadata)))))
    (RunError (cat [ctx; " metadata.run_id must be a non-empty string"])).

Definition check_sizes (ctx : string) (metadata : dict json) (fields : list string) : exc unit :=
  iterM (λ field,
    raise_if (negb (bool_decide (is_Some (pos_int (get field metadata)))))
      (RunError (cat [ctx; " metadata."; field; " must be a positive integer"]))) fields.

(** [if metadata.get(key) != entry[entry_key]: raise] *)
Definition check_same (ctx : string) (metadata entry : dict json) (key entry_key : string)
    : exc unit :=
  expected ← ditem entry_key entry;
  raise_if (negb (py_eq (get key metadata) expected))
    (RunError (cat [ctx; " metadata."; key; " mismatch"])).

Definition check_shape (ctx : string) (metadata entry : dict json) : exc unit :=
  rpc ← ditem "rpc" entry;
  if py_eq rpc (JStr "unary-bytes") then
    check_same ctx metadata entry "payload_size" "payload_size";;
    check_same ctx metadata entry "payload_kind" "payload_kind"
  else
    check_same ctx metadata entry "request_shape" "proto_shape";;
    check_same ctx metadata entry "response_shape" "response_shape".

Definition check_requests (ctx : string) (metrics : dict json) : exc unit :=
  raise_if (negb (bool_decide (is_Some (pos_int (get "requests_completed" metrics)))))
    (RunError (cat [ctx; " metrics.requests_completed must be a positive integer"])).

(** [v is b] for a Boolean [b] *)
Definition is_identical (v : json) (b : bool) : bool :=
  match v with JBool b' => Bool.eqb b b' | _ => false end.

Definition check_enabled (ctx : string) (stages : dict json) (expected : bool) : exc unit :=
  raise_if (negb (is_identical (get "enabled" stages) expected))
    (RunError (cat [ctx; " stages.enabled="; py_repr (get "enabled" stages); " expected ";
                    py_repr (JBool expected)])).

Definition check_stages (ctx : string) (missing : string → exn) (stages : dict json) : exc unit :=
  iterM (λ stage_name,
    stage ← of_option (missing stage_name) (dget stage_name stages);
    d ← of_option (RunError (cat [ctx; " stages."; stage_name; " must be an object"]))
          (as_dict stage);
    iterM (λ counter_field,
      raise_if (negb (din counter_field d))
        (RunError (cat [ctx; " missing stages."; stage_name; "."; counter_field])))
      REQUIRED_STAGE_COUNTER_FIELDS) REQUIRED_STAGE_NAMES.

Definition check_placeholder (ctx : string) (report : dict json) : exc unit :=
  b ← placeholder_only report;
  raise_if b (RunError (cat [ctx; " counters stayed placeholder-only"])).

(** The file of a report: [parse_json] with the prefix of its messages. *)
Definition parse_report (read_failed invalid : string → string) (empty root : string)
    (path : path) : io (dict json) :=
  raw ← catch (read_text path) (λ e,
    match e with
    | OSError err => io_raise (RunError (read_failed err))
    | e => io_raise e
    end);
  io_raise_if (is_blank raw) (RunError empty);;
  value ← catch (pure_ (json_loads raw)) (λ e,
    match e with
    | JSONDecodeError err => io_raise (RunError (invalid err))
    | e => io_raise e
    end);
  pure_ (of_option (RunError root) (as_dict value)).

(** [int(report["stages"][stage]["bytes"])] for the four byte counters. *)
Definition signature : Type := Z * Z * Z * Z.

Definition stage_bytes (report : dict json) (stage : string) : exc Z :=
  stages ← ditem "stages" report;
  s ← item stage stages;
  b ← item "bytes" s;
  py_int b.

Definition report_signature (report : dict json) : exc signature :=
  encode ← stage_bytes report "encode";
  decode ← stage_bytes report "decode";
  body_accum ← stage_bytes report "body_accum";
  frame_header ← stage_bytes report "frame_header";
  mret (encode, decode, body_accum, frame_header).

(** [report["metadata"].get(key)] *)
Definition metadata_field (report : dict json) (key : string) : exc json :=
  metadata ← ditem "metadata" report;
  d ← of_option (AttributeError (cat ["'"; type_name metadata; "' object has no attribute 'get'"]))
        (as_dict metadata);
  mret (get key d).

(** The signatures collected so far, for the two endpoints. *)
Abbreviation signatures := (dict (dict signature)).

(** The loop over the workloads: the validated ones in order, and their labels. *)
Definition collect (validate : nat → json → gset string → exc (dict json * gset string))
    (workloads : list json) : exc (list (dict json) * gset string) :=
  foldM (λ acc item,
    let '(validated, seen_labels) := acc in
    let '(index, entry) := item in
    '(merged, seen_labels) ← validate index entry seen_labels;
    mret (validated ++ [merged], seen_labels)) ([], ∅) (enumerate workloads).

(** [{entry["label"] for entry in validated_workloads}] *)
Definition labels_of (ws : list (dict json)) : exc (gset string) :=
  labels ← mapM (λ entry, v ← ditem "label" entry; mret (py_str v)) ws;
  mret (list_to_set labels).

(** The time-outs of a run. *)
Record timeouts : Type := Timeouts {
  server_start_timeout : Z;
  client_timeout : Z;
  server_flush_timeout : Z;
}.

(** [not value] of an optional argument *)
Definition given (v : option string) : option string :=
  match v with Some s => if bool_decide (s = "") then None else Some s | None => None end.

(** ** When the checks pass *)

Lemma required_str_Ok mk d k sc s :
  required_str mk d k sc = Ok s ↔ get k d = JStr s ∧ s ≠ "".
Proof. unfold required_str. by rewrite of_option_Ok, nonempty_str_Some. Qed.

Lemma required_positive_int_Ok mk d k sc v :
  required_positive_int mk d k sc = Ok v ↔ v = get k d ∧ is_Some (pos_int (get k d)).
Proof.
  unfold required_positive_int. rewrite bind_Ok. setoid_rewrite raise_if_negb_Ok. split.
  - intros (_ & ? & H). injection H as <-. done.
  - intros [-> ?]. by exists tt.
Qed.

Lemma nonempty_str_is_Some v : is_Some (nonempty_str v) ↔ ∃ s, v = JStr s ∧ s ≠ "".
Proof. unfold is_Some. by setoid_rewrite nonempty_str_Some. Qed.

Lemma check_then {A} (m : exc A) u : (m ;; mret tt) = Ok u ↔ is_ok m = true.
Proof. destruct m, u; naive_solver. Qed.

Lemma seq_Ok {E} (m k : result E unit) u : (m ;; k) = Ok u ↔ m = Ok tt ∧ k = Ok u.
Proof. destruct m as [[]|], u; naive_solver. Qed.

Lemma iterM_check {E B} (P : B → Prop) (f : B → result E unit) l u :
  (∀ x, f x = Ok tt ↔ P x) → iterM f l = Ok u ↔ Forall P l.
Proof.
  intros Hf. destruct u. rewrite iterM_Ok. by apply Forall_iff.
Qed.

Lemma is_ok_required_int d k sc mk :
  is_ok (required_positive_int mk d k sc) = true ↔ is_Some (pos_int (get k d)).
Proof.
  rewrite is_ok_iff. setoid_rewrite required_positive_int_Ok. naive_solver.
Qed.

Lemma is_ok_required_str d k sc mk :
  is_ok (required_str mk d k sc) = true ↔ is_Some (nonempty_str (get k d)).
Proof.
  rewrite is_ok_iff, nonempty_str_is_Some. by setoid_rewrite required_str_Ok.
Qed.

(** What the field checks of a workload establish. *)
Record fields_ok (ints strs : list string) (merged : dict json) : Prop := {
  fk_warmup : nonneg_int (get "warmup_ms" merged) = true;
  fk_ints : Forall (λ f, is_Some (pos_int (get f merged))) ints;
  fk_strs : Forall (λ f, is_Some (nonempty_str (get f merged))) strs;
}.

Lemma check_fields_Ok scope we ints strs merged u :
  check_fields scope we ints strs merged = Ok u ↔ fields_ok ints strs merged.
Proof.
  unfold check_fields. rewrite !seq_Ok, raise_if_Ok, negb_false_iff.
  rewrite (iterM_check (λ f, is_Some (pos_int (get f merged)))).
  2: { intros f. by rewrite check_then, is_ok_required_int. }
  rewrite (iterM_check (λ f, is_Some (nonempty_str (get f merged)))).
  2: { intros f. by rewrite check_then, is_ok_required_str. }
  split; [intros (? & ? & ?); by split|intros []; auto].
Qed.

Definition rpc_ok (rpc : string) (merged : dict json) : Prop :=
  (rpc = "unary-bytes" ∧ is_Some (pos_int (get "payload_size" merged)) ∧
     is_Some (nonempty_str (get "payload_kind" merged))) ∨
  (rpc = "unary-proto-shape" ∧ is_Some (nonempty_str (get "proto_shape" merged)) ∧
     is_Some (nonempty_str (get "response_shape" merged))).

Lemma check_two {A B} (m : exc A) (k : exc B) u :
  (m ;; k ;; mret tt) = Ok u ↔ is_ok m = true ∧ is_ok k = true.
Proof. destruct m, k, u; naive_solver. Qed.

Lemma check_rpc_Ok scope un rpc merged u :
  check_rpc scope un rpc merged = Ok u ↔ rpc_ok rpc merged.
Proof.
  unfold check_rpc, rpc_ok. case_bool_decide; [|case_bool_decide].
  - rewrite check_two, is_ok_required_int, is_ok_required_str. naive_solver.
  - rewrite check_two, !is_ok_required_str. naive_solver.
  - naive_solver.
Qed.

(** A validated artifact pair. *)
Definition pair_json (client server : string) : dict json :=
  [("client", JStr client); ("server", JStr server)].

Lemma artifact_role_step_Ok pair sc dup validated seen role acc' :
  artifact_role_step pair sc dup (validated, seen) role = Ok acc' ↔
  ∃ s, get role pair = JStr s ∧ s ≠ "" ∧ (s ∉ seen) ∧
    acc' = (dset role (JStr s) validated, {[s]} ∪ seen).
Proof.
  unfold artifact_role_step. rewrite bind_Ok. setoid_rewrite required_str_Ok. split.
  - intros (s & [? ?] & Hr). inv_ok. eauto 6.
  - intros (s & ? & ? & ? & ->). exists s. split; [done|].
    eapply bind_run; [by refine (proj2 (raise_if_decide_Ok _ _ tt) _)|done].
Qed.

Lemma validate_pair_Ok pair sc dup seen vp seen' :
  validate_pair pair sc dup seen = Ok (vp, seen') ↔
  ∃ c s, get "client" pair = JStr c ∧ get "server" pair = JStr s ∧ c ≠ "" ∧ s ≠ "" ∧
    fresh seen [c; s] ∧ vp = pair_json c s ∧ seen' = list_to_set [c; s] ∪ seen.
Proof.
  unfold validate_pair, ENDPOINT_ROLES. cbn [foldM]. rewrite bind_Ok. split.
  - intros ([v1 s1] & (c & ? & ? & ? & [= -> ->])%artifact_role_step_Ok & Hr).
    apply bind_Ok in Hr as ([v2 s2] & (s & ? & ? & ? & [= -> ->])%artifact_role_step_Ok & Hr).
    injection Hr as <- <-. exists c, s. split_and!; [done..| |done|set_solver].
    rewrite !fresh_cons. eauto using fresh_nil.
  - intros (c & s & ? & ? & ? & ? & Hf & -> & ->). rewrite !fresh_cons in Hf.
    destruct Hf as (? & ? & _).
    eexists (_, _). split; [apply artifact_role_step_Ok; eauto 6|].
    eapply bind_run; [apply artifact_role_step_Ok; eauto 6|].
    cbn [mret result_ret]. f_equal. f_equal. set_solver.
Qed.

Lemma report_sections_Ok ctx missing report md mt st :
  report_sections ctx missing report = Ok (md, mt, st) ↔
  dget "metadata" report = Some (JObj md) ∧ dget "metrics" report = Some (JObj mt) ∧
  dget "stages" report = Some (JObj st).
Proof.
  unfold report_sections. split.
  - intros H. inv_ok.
    repeat match goal with H : as_dict _ = Some _ |- _ => apply as_dict_Some in H as -> end. done.
  - intros (-> & -> & ->). done.
Qed.

Lemma check_pairs_Ok ctx md pairs u :
  check_pairs ctx md pairs = Ok u ↔ Forall (λ '(k, v), py_eq (get k md) v = true) pairs.
Proof. apply iterM_check. intros [k v]. by rewrite raise_if_Ok, negb_false_iff. Qed.

Lemma check_run_id_Ok ctx md u :
  check_run_id ctx md = Ok u ↔ is_Some (nonempty_str (get "run_id" md)).
Proof. apply raise_if_negb_Ok. Qed.

Lemma check_sizes_Ok ctx md fields u :
  check_sizes ctx md fields = Ok u ↔ Forall (λ f, is_Some (pos_int (get f md))) fields.
Proof. apply iterM_check. intros f. apply raise_if_negb_Ok. Qed.

Lemma check_same_Ok ctx md entry k k' u :
  check_same ctx md entry k k' = Ok u ↔
  ∃ v, dget k' entry = Some v ∧ py_eq (get k md) v = true.
Proof.
  unfold check_same. rewrite bind_Ok. setoid_rewrite ditem_Ok.
  setoid_rewrite raise_if_Ok. by setoid_rewrite negb_false_iff.
Qed.

(** What a report says about the shape of its workload. *)
Definition shape_ok (entry md : dict json) : Prop :=
  ∃ rpc, dget "rpc" entry = Some rpc ∧
  Forall (λ '(k, k'), ∃ v, dget k' entry = Some v ∧ py_eq (get k md) v = true)
    (if py_eq rpc (JStr "unary-bytes")
     then [("payload_size", "payload_size"); ("payload_kind", "payload_kind")]
     else [("request_shape", "proto_shape"); ("response_shape", "response_shape")]).

Lemma check_shape_Ok ctx md entry u : check_shape ctx md entry = Ok u ↔ shape_ok entry md.
Proof.
  unfold check_shape, shape_ok. rewrite bind_Ok. setoid_rewrite ditem_Ok.
  split; intros (rpc & Hrpc & H); exists rpc; (split; [done|]); destruct (py_eq _ _);
    rewrite !Forall_cons in *; rewrite seq_Ok, !check_same_Ok in *; naive_solver constructor.
Qed.

Lemma check_requests_Ok ctx mt u :
  check_requests ctx mt = Ok u ↔ is_Some (pos_int (get "requests_completed" mt)).
Proof. apply raise_if_negb_Ok. Qed.

Lemma check_enabled_Ok ctx st b u : check_enabled ctx st b = Ok u ↔ get "enabled" st = JBool b.
Proof.
  unfold check_enabled. rewrite raise_if_Ok, negb_false_iff. unfold is_identical.
  destruct (get "enabled" st) as [|b'| | | | |]; try naive_solver.
  destruct b, b'; naive_solver.
Qed.

(** Every stage is an object with every counter. *)
Definition stages_ok (st : dict json) : Prop :=
  Forall (λ name, ∃ d, dget name st = Some (JObj d) ∧
    Forall (λ c, is_Some (dget c d)) REQUIRED_STAGE_COUNTER_FIELDS) REQUIRED_STAGE_NAMES.

Lemma din_is_Some {V} k (d : dict V) : din k d = true ↔ is_Some (dget k d).
Proof. unfold din. destruct (dget k d); naive_solver. Qed.

Lemma check_stages_Ok ctx missing st u : check_stages ctx missing st = Ok u ↔ stages_ok st.
Proof.
  apply iterM_check. intros name. rewrite bind_Ok. setoid_rewrite of_option_Ok.
  setoid_rewrite bind_Ok. setoid_rewrite of_option_Ok. setoid_rewrite as_dict_Some.
  assert (∀ d : dict json, iterM (λ counter_field, raise_if (negb (din counter_field d))
    (RunError (cat [ctx; " missing stages."; name; "."; counter_field])))
    REQUIRED_STAGE_COUNTER_FIELDS = Ok tt ↔
    Forall (λ c, is_Some (dget c d)) REQUIRED_STAGE_COUNTER_FIELDS) as Hc.
  { intros d. apply iterM_check. intros c. by rewrite raise_if_Ok, negb_false_iff, din_is_Some. }
  setoid_rewrite Hc. naive_solver.
Qed.

Lemma check_placeholder_Ok ctx report u :
  check_placeholder ctx report = Ok u ↔ placeholder_only report = Ok false.
Proof.
  unfold check_placeholder. rewrite bind_Ok. setoid_rewrite raise_if_Ok. naive_solver.
Qed.

(** ** Workloads *)

(** The label of a merged workload. *)
Definition label_of (m : dict json) : string := py_str (get "label" m).

Lemma get_dget k m v : get k m = v → v ≠ JNull → dget k m = Some v.
Proof. unfold get. destruct (dget k m); naive_solver. Qed.

Lemma pos_int_dget k m : is_Some (pos_int (get k m)) → ∃ v, dget k m = Some v ∧ is_Some (pos_int v).
Proof.
  intros H. exists (get k m). split; [|done]. apply get_dget; [done|].
  intros E. rewrite E in H. by destruct H.
Qed.

Lemma nonempty_str_dget k m :
  is_Some (nonempty_str (get k m)) → ∃ s, dget k m = Some (JStr s) ∧ s ≠ "".
Proof. intros (s & Hs & ?)%nonempty_str_is_Some. exists s. split; [by apply get_dget|done]. Qed.

Lemma nonneg_int_dget k m : nonneg_int (get k m) = true → ∃ v, dget k m = Some v.
Proof.
  intros H. exists (get k m). apply get_dget; [done|]. intros E. by rewrite E in H.
Qed.

(** The values a workload passes on its command line. *)
Definition rpc_fields (rpc : string) : list string * list string :=
  if bool_decide (rpc = "unary-bytes") then (["payload_size"], ["payload_kind"])
  else ([], ["proto_shape"; "response_shape"]).

(** A merged workload with the fields a command line needs. *)
Record runnable (m : dict json) : Prop := {
  rn_label : ∃ s, dget "label" m = Some (JStr s) ∧ s ≠ "";
  rn_rpc : ∃ rpc, dget "rpc" m = Some (JStr rpc) ∧ rpc_ok rpc m;
  rn_warmup : nonneg_int (get "warmup_ms" m) = true;
  rn_ints : Forall (λ f, is_Some (pos_int (get f m))) ["measure_ms"; "requests"; "concurrency"];
  rn_strs : Forall (λ f, is_Some (nonempty_str (get f m))) ["runtime"; "compression"; "buffer_policy"];
}.

Definition is_arg (v : json) : Prop := ∃ s, v = JStr s.

(** How a machine treats a reserved address: the kernel assigns a 16-bit port,
    and the local host, written as an address, is not looked up. *)
Record loopback (E : environment) : Prop := {
  lb_port w : (env_port E w ≤ 65535)%N;
  lb_attempt w port : ∃ d ok, env_connect E w "127.0.0.1" port = (d, Ok ok);
}.

(** A command of strings. *)
Definition is_command (cmd : list json) : Prop := cmd ≠ [] ∧ Forall is_arg cmd.

(** At a reserved address, with commands of strings, what is left is the
    runner's error, an [OSError], [TimeoutExpired], and the [ValueError] of a
    string that cannot be passed on or printed. *)
Lemma reserved_failure E a w e :
  loopback E → is_command (pa_server_cmd a) → is_command (pa_client_cmd a) →
  pa_bind_addr a = cat ["127.0.0.1:"; pretty (env_port E w)] → pair_failure E a e →
  run_error (pa_error_cls a) e ∨ ∃ m, e = ValueError m.
Proof.
  intros [Hport Hatt] [Hs1 Hs2] [Hc1 Hc2] Ha [?|[[? _]|[[_ Ht]|[[_ Hp]|[_ Hi]]]]]; [by left|by right|..].
  - destruct Ht as [(v & Hv & Hn)|(h & s & n & w1 & d & Hs & _ & Hc)].
    + assert (is_arg v) as [t ->]; [|by destruct (Hn t)].
      rewrite Forall_forall in Hs2, Hc2. rewrite elem_of_app in Hv. naive_solver.
    + rewrite Ha, reserved_addr_split in Hs. simplify_eq.
      destruct (Hatt w1 n) as (d' & ok & Ho). congruence.
  - destruct Hp as (h & s & n & Hs & Hn & Hbad). rewrite Ha, reserved_addr_split in Hs. simplify_eq.
    simpl in Hn. rewrite int_of_str_pretty in Hn. simplify_eq/=. specialize (Hport w).
    unfold is_port in Hbad. lia.
  - naive_solver.
Qed.

Lemma arg_str_Ok k m s : dget k m = Some (JStr s) → arg k m = Ok (JStr s).
Proof. intros H. unfold arg, ditem. by rewrite H. Qed.

Lemma arg_text_Ok k m v : dget k m = Some v → arg_text k m = Ok (JStr (py_str v)).
Proof. intros H. unfold arg_text, ditem. by rewrite H. Qed.

(** The command line of a runnable workload exists and is made of strings. *)
Lemma build_rpc_args_Ok m addr :
  runnable m → ∃ args, build_rpc_args m addr = Ok args ∧ Forall is_arg args.
Proof.
  intros [_ (rpc & Hrpc & Hok) Hw Hints Hstrs]. rewrite !Forall_cons in Hints, Hstrs.
  destruct Hints as ((?&Hm&_)%pos_int_dget & (?&Hr&_)%pos_int_dget & (?&Hc&_)%pos_int_dget & _).
  destruct Hstrs as ((?&Hrt&_)%nonempty_str_dget & (?&Hcp&_)%nonempty_str_dget
                     & (?&Hb&_)%nonempty_str_dget & _).
  apply nonneg_int_dget in Hw as [? Hw]. unfold build_rpc_args.
  rewrite (arg_str_Ok _ _ _ Hrpc), (arg_text_Ok _ _ _ Hw), (arg_text_Ok _ _ _ Hm),
    (arg_text_Ok _ _ _ Hr), (arg_text_Ok _ _ _ Hc), (arg_str_Ok _ _ _ Hrt),
    (arg_str_Ok _ _ _ Hcp), (arg_str_Ok _ _ _ Hb). cbn [mbind result_bind].
  destruct Hok as [(-> & (?&Hs&_)%pos_int_dget & (?&Hk&_)%nonempty_str_dget)|
                   (-> & (?&Hs&_)%nonempty_str_dget & (?&Hk&_)%nonempty_str_dget)];
    vm_compute (py_eq _ _); cbv iota;
    rewrite ?(arg_text_Ok _ _ _ Hs), ?(arg_str_Ok _ _ _ Hs), (arg_str_Ok _ _ _ Hk);
    (eexists; split; [reflexivity|]); repeat constructor; by eexists.
Qed.

Lemma collect_Ok validate (J : dict json → json → Prop) l ws seen :
  (∀ i v seen m seen', validate i v seen = Ok (m, seen') ↔
     J m v ∧ (label_of m ∉ seen) ∧ seen' = {[label_of m]} ∪ seen) →
  collect validate l = Ok (ws, seen) ↔
  Forall2 J ws l ∧ NoDup (label_of <$> ws) ∧
  seen = list_to_set (label_of <$> ws).
Proof.
  intros Hval. unfold collect. rewrite <-(fresh_empty (label_of <$> ws)).
  rewrite <-(enumerate_snd l) at 2. generalize (enumerate l) as il. clear l.
  assert (∀ il ws0 seen0, foldM (λ acc item,
    let '(validated, seen_labels) := acc in
    let '(index, entry) := item in
    '(merged, seen_labels) ← validate index entry seen_labels;
    mret (validated ++ [merged], seen_labels)) (ws0, seen0) il = Ok (ws, seen) ↔
    ∃ new, ws = ws0 ++ new ∧ Forall2 J new il.*2 ∧
      fresh seen0 (label_of <$> new) ∧ seen = list_to_set (label_of <$> new) ∪ seen0) as Hgen.
  { induction il as [|[i v] il IH]; intros ws0 seen0; simpl.
    - split; [intros; inv_ok; exists []; simpl; rewrite app_nil_r, (left_id_L ∅ (∪)); auto using fresh_nil|].
      intros (new & -> & H & _ & ->). inversion H; subst. simpl.
      by rewrite app_nil_r, (left_id_L ∅ (∪)).
    - rewrite bind_Ok. split.
      + intros ([ws1 seen1] & ([m seen2] & (Hm & Hs & ->)%Hval & [= <- <-])%bind_Ok & H).
        apply IH in H as (new & -> & Hj & Hf & ->). exists (m :: new).
        rewrite <-app_assoc, list_to_set_push. csimpl. rewrite fresh_cons.
        split_and!; [done|by constructor|done..].
      + intros (new & -> & Hj & Hf & ->). inversion Hj as [|m ? new' ? Hm Hj']; subst.
        csimpl in Hf. apply fresh_cons in Hf as [? ?].
        eexists (_, _). split.
        { eapply (bind_run _ _ (_, _)); [by apply Hval|done]. }
        apply IH. exists new'. by rewrite <-app_assoc, list_to_set_push. }
  intros il. rewrite Hgen. split.
  - intros (new & -> & ? & ? & ->). by rewrite app_nil_l, (right_id_L ∅ (∪)).
  - intros (? & ? & ->). exists ws. by rewrite (right_id_L ∅ (∪)).
Qed.

Lemma labels_of_Ok (J : dict json → json → Prop) ws l :
  (∀ m v, J m v → dget "label" m = Some (JStr (label_of m))) →
  Forall2 J ws l → labels_of ws = Ok (list_to_set (label_of <$> ws)).
Proof.
  intros HJ H. unfold labels_of. eapply (bind_run _ _ (label_of <$> ws)); [|done].
  apply mapM_Ok. induction H as [|m v ws l Hm _ IH]; [constructor|].
  csimpl. constructor; [|done]. pose proof (HJ _ _ Hm) as Hl.
  unfold ditem. rewrite Hl. done.
Qed.

Lemma required_labels_cond (required : gset string) (ls : list string) :
  sorted_strings (elements (required ∖ list_to_set ls)) = [] ↔
  ∀ l, l ∈ required → l ∈ ls.
Proof.
  rewrite sorted_strings_nil, elements_empty_iff. split.
  - intros H l Hl. apply (elem_of_list_to_set (C:=gset string)), dec_stable. intros Hn.
    apply (not_elem_of_empty (C:=gset string) l), H, elem_of_difference. done.
  - intros H l. rewrite elem_of_difference, elem_of_list_to_set. set_solver.
Qed.

(** ** Exceptions, files and signatures *)

Lemma evidence_required_str_raises mk d k sc (P : exn → Prop) :
  (∀ s, P (mk s)) → raises P (required_str mk d k sc).
Proof. intros. unfold required_str. apply raises_of_option. auto. Qed.

Lemma evidence_required_int_raises mk d k sc (P : exn → Prop) :
  (∀ s, P (mk s)) → raises P (required_positive_int mk d k sc).
Proof. intros. unfold required_positive_int. raises_tac. Qed.

#[export] Hint Resolve evidence_required_str_raises evidence_required_int_raises : raises.

Lemma check_fields_raises scope we ints strs merged :
  raises is_ManifestError (check_fields scope we ints strs merged).
Proof. unfold check_fields, iterM. raises_tac. Qed.

Lemma check_rpc_raises scope un rpc merged : raises is_ManifestError (check_rpc scope un rpc merged).
Proof. unfold check_rpc. repeat case_bool_decide; raises_tac. Qed.

#[export] Hint Resolve check_fields_raises check_rpc_raises : raises.

Lemma collect_raises validate l (P : exn → Prop) :
  (∀ i v seen, raises P (validate i v seen)) → raises P (collect validate l).
Proof. intros Hv. unfold collect. raises_tac. Qed.

Lemma mkdir_p_raises p : io_raises (run_error RunError) (mkdir_p p).
Proof.
  intros w. destruct (mkdir_p_cases p w) as (fs & [->|[m ->]]); simpl; [done|].
  right; left. by eexists.
Qed.

Lemma if_Ok {E} (b : bool) (m : result E unit) u :
  (if b then m else mret tt) = Ok u ↔ (b = true → m = Ok u).
Proof. destruct b, u; naive_solver. Qed.

(** A report file that was read: what it holds. *)
Lemma parse_report_Ok rf inv empty root p w d w' :
  parse_report rf inv empty root p w = (Ok d, w') → w' = w ∧ json_file w p = Some (JObj d).
Proof.
  unfold parse_report, json_file. intros H.
  apply io_bind_Ok in H as (raw & w1 & Hraw & H). unfold catch, read_text in Hraw.
  destruct (file_bytes w p ≫= decode_text) as [text|[]]; try discriminate Hraw.
  injection Hraw as -> <-. apply io_bind_raise_if in H as [_ H].
  apply io_bind_Ok in H as (v & w2 & Hv & H). unfold catch, pure_ in Hv.
  destruct (json_loads raw) as [v'|[]]; try discriminate Hv. injection Hv as -> <-.
  by apply io_pure_Ok in H as [->%of_option_Ok%as_dict_Some ->].
Qed.

Lemma io_iterM_elem {B} (f : B → io unit) l w w' x :
  iterM f l w = (Ok tt, w') → x ∈ l → ∃ w1 w2, f x w1 = (Ok tt, w2).
Proof.
  unfold iterM. revert w. induction l as [|y l IH]; intros w Hrun Hx; simpl in *; [set_solver|].
  apply io_bind_Ok in Hrun as ([] & w1 & Hy & Hrun).
  apply elem_of_cons in Hx as [->|Hx]; [by exists w, w1|by eapply IH].
Qed.

(** [V entry role report]: what the caller knows of a report. *)
Section signatures.
Context (V : dict json → string → dict json → Prop).

(** Every signature was computed from a report of a workload in [entries]. *)
Definition sigs_ok (entries : list (dict json)) (sigs : dict (dict signature)) : Prop :=
  ∀ role, role ∈ ENDPOINT_ROLES → ∃ bl, dget role sigs = Some bl ∧
    Forall (λ '(_, s), ∃ entry report, entry ∈ entries ∧ V entry role report ∧
      report_signature report = Ok s) bl.

(** Two reports of this endpoint have different signatures. *)
Definition sensitive (entries : list (dict json)) (role : string) : Prop :=
  ∃ e1 r1 s1 e2 r2 s2,
    e1 ∈ entries ∧ V e1 role r1 ∧ report_signature r1 = Ok s1 ∧
    e2 ∈ entries ∧ V e2 role r2 ∧ report_signature r2 = Ok s2 ∧ s1 ≠ s2.

Lemma sigs_ok_init entries : sigs_ok entries [("client", []); ("server", [])].
Proof.
  intros role. unfold ENDPOINT_ROLES. rewrite !elem_of_cons, elem_of_nil.
  intros [->|[->|[]]]; by eexists.
Qed.

Lemma sigs_ok_record entries entry label role sigs s bl report :
  entry ∈ entries → V entry role report → report_signature report = Ok s →
  dget role sigs = Some bl → sigs_ok entries sigs →
  sigs_ok entries (dset role (dset label s bl) sigs).
Proof.
  intros He Hv Hs Hbl Hok r Hr. destruct (Hok r Hr) as (bl' & Hbl' & Hall).
  rewrite dget_dset. case_bool_decide as Heq; [subst r|by exists bl'].
  eexists. split; [done|]. assert (bl' = bl) as -> by congruence.
  apply dset_Forall; [|done]. eauto 6.
Qed.

Lemma sigs_ok_sensitive entries sigs role bl :
  sigs_ok entries sigs → role ∈ ENDPOINT_ROLES → dget role sigs = Some bl →
  ¬ (size (list_to_set bl.*2 : gset signature) ≤ 1)%nat → sensitive entries role.
Proof.
  intros Hok Hr Hbl Hsz. destruct (Hok role Hr) as (bl' & Hbl' & Hall).
  assert (bl' = bl) as -> by congruence.
  apply size_list_to_set_gt_1 in Hsz as (s1 & s2 & H1 & H2 & Hne).
  rewrite Forall_forall in Hall.
  apply list_elem_of_fmap in H1 as ([l1 ?] & -> & H1), H2 as ([l2 ?] & -> & H2).
  destruct (Hall _ H1) as (e1 & r1 & ? & ? & ?), (Hall _ H2) as (e2 & r2 & ? & ? & ?).
  by exists e1, r1, s, e2, r2, s0.
Qed.
End signatures.
