(* ===== verification/S01.v ===== *)
(** * The ordinary-path workload runner

    Model of accel-rpc/tonic-profile/scripts/run_s01_workloads.py, the oldest of
    the runners: it has its own process handling (a server is stopped when its
    client is done, and every exception of a run becomes a [RunError]) and
    validates one report per run.  The command-line parser is not modelled. *)

From Stdlib Require Import Ascii.
From S2P Require Import Prelude PyFloat PyVal PyPath Json World Process RunnerCommon Evidence.

Local Open Scope Z_scope.

Module S01.

Record manifest : Type := Manifest {
  version : json;
  defaults : dict json;
  workloads : list (dict json);
}.

(** ** Manifest *)

Definition required_str (obj : dict json) (index : nat) (key : string) (scope : option string)
    : exc string :=
  let label := match scope with
    | Some s => if bool_decide (s = "") then cat ["workloads["; pretty index; "]"] else s
    | None => cat ["workloads["; pretty index; "]"]
    end in
  of_option (ManifestError (cat [label; " missing "; key])) (nonempty_str (get key obj)).

(** A field that must be there, with the suffix of the message if it is not, and
    must pass a test. *)
Definition check_present (at_ field suffix : string) (merged : dict json) : exc unit :=
  raise_if (negb (din field merged)) (ManifestError (cat [at_; " missing "; field; suffix])).

Definition check_positive (at_ field : string) (merged : dict json) : exc unit :=
  raise_if (negb (bool_decide (is_Some (pos_int (get field merged)))))
    (ManifestError (cat [at_; " field "; field; " must be a positive integer"])).

Definition check_text (at_ field : string) (merged : dict json) : exc unit :=
  raise_if (negb (bool_decide (is_Some (nonempty_str (get field merged)))))
    (ManifestError (cat [at_; " field "; field; " must be a non-empty string"])).

Definition check_rpc (at_ rpc : string) (merged : dict json) : exc unit :=
  if bool_decide (rpc = "unary-bytes") then
    check_present at_ "payload_size" " for rpc unary-bytes" merged;;
    check_present at_ "payload_kind" " for rpc unary-bytes" merged;;
    check_positive at_ "payload_size" merged;;
    check_text at_ "payload_kind" merged
  else if bool_decide (rpc = "unary-proto-shape") then
    check_present at_ "proto_shape" " for rpc unary-proto-shape" merged;;
    check_present at_ "response_shape" " for rpc unary-proto-shape" merged;;
    check_text at_ "proto_shape" merged;;
    check_text at_ "response_shape" merged
  else raise (ManifestError (cat [at_; " has unsupported rpc mode "; repr_str rpc])).

(** The label is added to [seen_labels], the second result. *)
Definition validate_workload (index : nat) (entry : json) (defaults : dict json)
    (seen_labels : gset string) : exc (dict json * gset string) :=
  let here := cat ["workloads["; pretty index; "]"] in
  d ← of_option (ManifestError (here +:+ " must be an object")) (as_dict entry);
  label ← required_str d index "label" None;
  let at_ := cat [here; " label="; repr_str label] in
  raise_if (bool_decide (label ∈ seen_labels)) (ManifestError (at_ +:+ " is duplicated"));;
  rpc ← required_str d index "rpc" None;
  pair ← of_option (ManifestError (at_ +:+ " missing artifact_pair object"))
           (as_dict (get "artifact_pair" d));
  artifact_off ← required_str pair index "off" (Some (here +:+ ".artifact_pair"));
  artifact_on ← required_str pair index "on" (Some (here +:+ ".artifact_pair"));
  let merged := dset "artifact_pair" (JObj [("off", JStr artifact_off); ("on", JStr artifact_on)])
    (dset "rpc" (JStr rpc) (dset "label" (JStr label) (dupdate defaults d))) in
  iterM (λ field, check_present at_ field "" merged;; check_positive at_ field merged)
    ["warmup_ms"; "measure_ms"; "requests"; "concurrency"];;
  iterM (λ field, check_present at_ field "" merged;; check_text at_ field merged)
    ["runtime"; "compression"; "buffer_policy"];;
  check_rpc at_ rpc merged;;
  mret (merged, {[label]} ∪ seen_labels).

(** [{}] if [v] is [None] *)
Definition none_to_empty (v : json) : json := match v with JNull => JObj [] | v => v end.

Definition validate_manifest (v : json) : exc manifest :=
  manifest ← of_option (ManifestError "manifest root must be an object") (as_dict v);
  defaults ← of_option (ManifestError "manifest.defaults must be an object")
               (as_dict (none_to_empty (get "defaults" manifest)));
  workloads ← of_option (ManifestError "manifest.workloads must be a non-empty array")
                (nonempty_list (get "workloads" manifest));
  '(validated, _) ← collect (λ index entry seen_labels,
     validate_workload index entry defaults seen_labels) workloads;
  mret (Manifest (get "version" manifest) defaults validated).

Definition load_manifest (path : path) : io manifest :=
  raw ← catch (read_text path) (λ e,
    match e with
    | OSError err =>
        io_raise (ManifestError (cat ["manifest read failed ("; path_str path; "): "; err]))
    | e => io_raise e
    end);
  value ← catch (pure_ (json_loads raw)) (λ e,
    match e with
    | JSONDecodeError err =>
        io_raise (ManifestError (cat ["manifest parse failed ("; path_str path; "): "; err]))
    | e => io_raise e
    end);
  pure_ (validate_manifest value).

(** ** Runs *)

Definition DEFAULT_BINARY : path := parse_path "accel-rpc/target/release/tonic-profile".

Definition locate_binary (explicit : option string) : io path :=
  RunnerCommon.locate_binary RunError explicit DEFAULT_BINARY (λ path,
    cat ["tonic-profile binary not found at "; path_str path;
         "; build it first with cargo build --release -p tonic-profile --manifest-path accel-rpc/Cargo.toml"]).

(** The statements are those of [build_rpc_args]. *)
Definition build_common_args (entry : dict json) (addr : string) : exc (list json) :=
  build_rpc_args entry addr.

(** [output_dir / entry["artifact_pair"][mode]] *)
Definition artifact_path (output_dir : path) (entry : dict json) (mode : string) : exc path :=
  pair ← ditem "artifact_pair" entry;
  artifact ← item mode pair;
  s ← arg_str artifact;
  mret (path_div output_dir s).

(** [str(err)]; there is none for a time-out, which has its own handler, and for
    the exceptions no statement of a run can raise. *)
Definition exn_str (e : exn) : option string :=
  match e with
  | ManifestError m | RunError m | SummaryError m | ExportError m | TypeError m
  | AttributeError m | ValueError m | OverflowError m | OSError m | JSONDecodeError m
  | RuntimeError m | IndexError m | ZeroDivisionError m => Some m
  | KeyError k => Some (repr_str k)
  | UnicodeDecodeError | TimeoutExpired | CalledProcessError | SystemExit _ | StopIteration | OutOfFuel => None
  end.

(** The [except] clauses of a run. *)
Definition on_exception {A} (label mode : string) (client_timeout : Z) (e : exn) : io A :=
  match e with
  | TimeoutExpired =>
      io_raise (RunError (cat ["label="; label; " phase=client-execution instrumentation="; mode;
        " timeout after "; timeout_text client_timeout; "s"]))
  | RunError m => io_raise (RunError m)
  | e =>
      match exn_str e with
      | Some err => io_raise (RunError (cat ["label="; label;
          " phase=server-startup instrumentation="; mode; " "; err]))
      | None => io_raise e
      end
  end.

Section run.
Context (E : environment).

Section wait_for_port.
Context (addr host : string) (port deadline timeout : Z).

(** The [while] loop, one turn per unit of fuel. *)
Fixpoint poll_addr (fuel : nat) : io unit :=
  match fuel with
  | O => io_raise OutOfFuel
  | S fuel =>
      now ← gets w_now;
      if now <? deadline then
        ok ← connect E host port;
        if (ok : bool) then mret tt
        else sleep E (50 * MILLISECOND);; poll_addr fuel
      else
        io_raise (RunError (cat ["server startup timeout after "; timeout_text timeout; "s for "; addr]))
  end.
End wait_for_port.

Definition wait_for_port (addr : string) (timeout : Z) : io unit :=
  '(host, port_str) ← pure_ (of_option
    (ValueError "not enough values to unpack (expected 2, got 1)") (rsplit1 ":"%char addr));
  port ← pure_ (py_int (JStr port_str));
  now ← gets w_now;
  poll_addr addr host port (now + timeout) timeout (poll_fuel timeout).

Definition terminate_process (proc : nat) (label phase : string) : io unit :=
  terminate_with E proc (cat ["label="; label; " phase="; phase;
    " process did not exit after SIGTERM; sending SIGKILL"]).

(** The statements of the [try] block after the server has been started. *)
Definition serve (label mode addr : string) (client_cmd : list json) (artifact_path : path)
    (server_start_timeout client_timeout : Z) : io unit :=
  wait_for_port addr server_start_timeout;;
  print (cat ["label="; label; " phase=client-execution instrumentation="; mode; " artifact=";
              path_str artifact_path]);;
  '(code, stdout, stderr) ← subprocess_run E client_cmd (parse_path ".") client_timeout;
  io_raise_if (negb (code =? 0))
    (RunError (join newline
       [cat ["label="; label; " phase=client-execution instrumentation="; mode; " exit=";
             pretty code];
        cat ["artifact="; path_str artifact_path];
        cat ["stdout:"; newline; utf8_replace stdout];
        cat ["stderr:"; newline; utf8_replace stderr]])).

(** The body of the loop over the modes. *)
Definition run_mode (binary output_dir : path) (server_start_timeout client_timeout : Z)
    (entry : dict json) (label mode : string) : io unit :=
  addr ← reserve_addr E;
  common_args ← pure_ (build_common_args entry addr);
  artifact_path ← pure_ (artifact_path output_dir entry mode);
  let head role :=
    [JStr (path_str binary); JStr "--mode"; JStr role; JStr "--instrumentation"; JStr mode] in
  let server_cmd := head "server" ++ common_args in
  let client_cmd := head "client" ++ common_args ++
    [JStr "--json-out"; JStr (path_str artifact_path)] in
  server ← catch
    (print (cat ["label="; label; " phase=server-startup instrumentation="; mode; " bind="; addr;
                 " binary="; path_str binary]);;
     popen E server_cmd (parse_path "."))
    (on_exception label mode client_timeout);
  finally
    (catch (serve label mode addr client_cmd artifact_path server_start_timeout client_timeout)
       (on_exception label mode client_timeout))
    (terminate_process server label ("server-shutdown instrumentation=" +:+ mode)).

Definition run_manifest (m : manifest) (binary output_dir : path)
    (server_start_timeout client_timeout : Z) : io unit :=
  mkdir_p output_dir;;
  iterM (λ entry,
    label ← pure_ (ditem "label" entry ≫= arg_str);
    iterM (run_mode binary output_dir server_start_timeout client_timeout entry label)
      ["off"; "on"]) (workloads m).
End run.

(** ** Reports *)

Definition parse_json (path : path) : io (dict json) :=
  let failed := cat ["artifact validation failed path="; path_str path; ": "] in
  parse_report (λ err, cat ["artifact read failed ("; path_str path; "): "; err])
    (λ err, cat [failed; "invalid json: "; err])
    (failed +:+ "file is empty") (failed +:+ "root must be an object") path.

Definition missing_key (path : path) (key : string) : exn :=
  RunError (cat ["artifact validation failed path="; path_str path; ": missing "; key]).

Definition context (label mode where_ : string) : string :=
  cat ["label="; label; " phase=artifact-validation instrumentation="; mode; " artifact="; where_].

(** [entry["proto_shape"] if entry["response_shape"] == "same" else entry["response_shape"]] *)
Definition expected_response_shape (entry : dict json) : exc json :=
  response_shape ← ditem "response_shape" entry;
  if py_eq response_shape (JStr "same") then ditem "proto_shape" entry else mret response_shape.

(** [if metadata.get(key) != expected: raise] *)
Definition check_value (ctx : string) (metadata : dict json) (key : string) (expected : json)
    : exc unit :=
  raise_if (negb (py_eq (get key metadata) expected))
    (RunError (cat [ctx; " metadata."; key; " mismatch"])).

Definition assert_metadata (entry : dict json) (mode : string) (artifact_path : path)
    (metadata : dict json) : exc unit :=
  label ← ditem "label" entry;
  rpc ← ditem "rpc" entry;
  let ctx := context (py_str label) mode (path_str artifact_path) in
  check_pairs ctx metadata
    [("ordinary_path", JStr "software"); ("seam", JStr "codec_body"); ("rpc", rpc);
     ("workload_label", label); ("instrumentation", JStr mode)];;
  (if py_eq rpc (JStr "unary-bytes") then
     check_same ctx metadata entry "payload_size" "payload_size";;
     check_same ctx metadata entry "payload_kind" "payload_kind"
   else
     request_shape ← ditem "proto_shape" entry;
     response_shape ← expected_response_shape entry;
     check_value ctx metadata "request_shape" request_shape;;
     check_value ctx metadata "response_shape" response_shape);;
  check_sizes ctx metadata ["request_serialized_size"; "response_serialized_size"].

(** The checks of a parsed report. *)
Definition check_report (entry : dict json) (label mode : string) (artifact_path : path)
    (report : dict json) : exc unit :=
  let ctx := context label mode (path_str artifact_path) in
  '(metadata, metrics, stages) ← report_sections
     (cat ["artifact validation failed path="; path_str artifact_path; ":"])
     (missing_key artifact_path) report;
  assert_metadata entry mode artifact_path metadata;;
  _ ← of_option (missing_key artifact_path "enabled") (dget "enabled" stages);
  check_enabled ctx stages (bool_decide (mode = "on"));;
  (if bool_decide (mode = "on") then check_stages ctx (missing_key artifact_path) stages
   else mret tt);;
  raise_if (negb (bool_decide (is_Some (as_int (get "requests_completed" metrics)))))
    (RunError (ctx +:+ " missing integer metrics.requests_completed")).

(** One report: read, validated, announced. *)
Definition validate_artifact (output_dir : path) (entry : dict json) (label mode : string)
    : io unit :=
  path ← pure_ (artifact_path output_dir entry mode);
  present ← gets (λ w, path_exists w path);
  io_raise_if (negb present) (RunError (cat ["label="; label;
    " phase=artifact-validation instrumentation="; mode; " missing artifact="; path_str path]));;
  report ← parse_json path;
  pure_ (check_report entry label mode path report);;
  print (context label mode (path_str path)).

Definition validate_artifacts (m : manifest) (output_dir : path) : io unit :=
  iterM (λ entry,
    label ← pure_ (ditem "label" entry ≫= arg_str);
    iterM (validate_artifact output_dir entry label) ["off"; "on"]) (workloads m).

(** ** The program *)

(** The parsed command line. *)
Record arguments : Type := Arguments {
  a_manifest : string;
  a_output_dir : option string;
  a_binary : option string;
  a_validate_only : bool;
  a_verify_only : bool;
  a_server_start_timeout : Z;
  a_client_timeout : Z;
}.

Definition main_body (E : environment) (args : arguments) : io Z :=
  m ← load_manifest (parse_path (a_manifest args));
  manifest_path ← gets (λ w, resolve (w_cwd w) (parse_path (a_manifest args)));
  print (cat ["phase=manifest-parse manifest="; path_str manifest_path; " workloads=";
              pretty (length (workloads m))]);;
  if a_validate_only args then mret 0
  else
    raw ← pure_ (of_option (RunError "--output-dir is required unless --validate-only is used")
                   (given (a_output_dir args)));
    output_dir ← gets (λ w, resolve (w_cwd w) (parse_path raw));
    if a_verify_only args then
      validate_artifacts m output_dir;;
      print ("phase=artifact-validation-complete output_dir=" +:+ path_str output_dir);;
      mret 0
    else
      binary ← locate_binary (a_binary args);
      run_manifest E m binary output_dir (a_server_start_timeout args) (a_client_timeout args);;
      print ("phase=run-complete output_dir=" +:+ path_str output_dir);;
      mret 0.

Definition main (E : environment) (args : arguments) : io Z :=
  if a_validate_only args && a_verify_only args then
    fail "--validate-only and --verify-only are mutually exclusive";; mret 2
  else
    catch (main_body E args) (λ e,
      match e with
      | ManifestError err | RunError err => fail err;; mret 1
      | e => io_raise e
      end).
End S01.
