(* ===== verification/S01Spec.v ===== *)
(** * What the ordinary-path workload runner guarantees

    The theorems about run_s01_workloads.py. *)

From Stdlib Require Import Ascii.
From S2P Require Import Prelude PyFloat PyVal PyPath Json World Process RunnerCommon Evidence.
From S2P Require Import RunnerSpec Fixtures S01.
Import S01.

Local Open Scope Z_scope.

(** ** The manifest *)

(** The integers and strings every workload needs. *)
Definition int_fields : list string := ["warmup_ms"; "measure_ms"; "requests"; "concurrency"].
Definition str_fields : list string := ["runtime"; "compression"; "buffer_policy"].

Lemma s01_required_str_Ok d i k sc s :
  required_str d i k sc = Ok s ↔ get k d = JStr s ∧ s ≠ "".
Proof. unfold required_str. by rewrite of_option_Ok, nonempty_str_Some. Qed.

Lemma check_present_Ok at_ k suf m u : check_present at_ k suf m = Ok u ↔ is_Some (dget k m).
Proof. unfold check_present. by rewrite raise_if_Ok, negb_false_iff, din_is_Some. Qed.

Lemma check_positive_Ok at_ k m u : check_positive at_ k m = Ok u ↔ is_Some (pos_int (get k m)).
Proof. apply raise_if_negb_Ok. Qed.

Lemma check_text_Ok at_ k m u : check_text at_ k m = Ok u ↔ is_Some (nonempty_str (get k m)).
Proof. apply raise_if_negb_Ok. Qed.

Lemma pos_int_present k m : is_Some (pos_int (get k m)) → is_Some (dget k m).
Proof. intros (v & -> & _)%pos_int_dget. by eexists. Qed.

Lemma text_present k m : is_Some (nonempty_str (get k m)) → is_Some (dget k m).
Proof. intros (v & -> & _)%nonempty_str_dget. by eexists. Qed.

Lemma s01_check_rpc_Ok at_ rpc m u : check_rpc at_ rpc m = Ok u ↔ rpc_ok rpc m.
Proof.
  unfold check_rpc, rpc_ok. case_bool_decide; [|case_bool_decide].
  - rewrite !seq_Ok, !check_present_Ok, check_positive_Ok, check_text_Ok.
    naive_solver eauto using pos_int_present, text_present.
  - rewrite !seq_Ok, !check_present_Ok, !check_text_Ok.
    naive_solver eauto using text_present.
  - naive_solver.
Qed.

(** The dictionary a workload [d] is merged into. *)
Definition merge (dflt d : dict json) (label rpc off on : string) : dict json :=
  dset "artifact_pair" (JObj [("off", JStr off); ("on", JStr on)])
    (dset "rpc" (JStr rpc) (dset "label" (JStr label) (dupdate dflt d))).

(** The workload [v] of the manifest is accepted as [m]. *)
Definition workload_json (dflt : dict json) (m : dict json) (v : json) : Prop :=
  ∃ d label rpc pair off on, v = JObj d ∧ get "label" d = JStr label ∧ label ≠ "" ∧
    get "rpc" d = JStr rpc ∧ rpc ≠ "" ∧ get "artifact_pair" d = JObj pair ∧
    get "off" pair = JStr off ∧ off ≠ "" ∧ get "on" pair = JStr on ∧ on ≠ "" ∧
    m = merge dflt d label rpc off on ∧
    Forall (λ f, is_Some (pos_int (get f m))) int_fields ∧
    Forall (λ f, is_Some (nonempty_str (get f m))) str_fields ∧ rpc_ok rpc m.

Lemma s01_merge_label dflt d label rpc off on :
  dget "label" (merge dflt d label rpc off on) = Some (JStr label).
Proof. unfold merge. by rewrite !dget_dset. Qed.

Lemma s01_merge_label_of dflt d label rpc off on : label_of (merge dflt d label rpc off on) = label.
Proof. unfold label_of, get. by rewrite s01_merge_label. Qed.

Lemma int_loop_Ok at_ m u :
  iterM (λ field, check_present at_ field "" m;; check_positive at_ field m) int_fields = Ok u ↔
  Forall (λ f, is_Some (pos_int (get f m))) int_fields.
Proof.
  apply iterM_check. intros f. rewrite seq_Ok, check_present_Ok, check_positive_Ok.
  naive_solver eauto using pos_int_present.
Qed.

Lemma str_loop_Ok at_ m u :
  iterM (λ field, check_present at_ field "" m;; check_text at_ field m) str_fields = Ok u ↔
  Forall (λ f, is_Some (nonempty_str (get f m))) str_fields.
Proof.
  apply iterM_check. intros f. rewrite seq_Ok, check_present_Ok, check_text_Ok.
  naive_solver eauto using text_present.
Qed.

Lemma s01_validate_workload_Ok index v dflt seen m seen' :
  validate_workload index v dflt seen = Ok (m, seen') ↔
  workload_json dflt m v ∧ (label_of m ∉ seen) ∧ seen' = {[label_of m]} ∪ seen.
Proof.
  unfold validate_workload, workload_json. split.
  - intros Hrun. apply bind_Ok in Hrun as (d & ->%of_option_Ok%as_dict_Some & Hrun).
    apply bind_Ok in Hrun as (label & [Hl ?]%s01_required_str_Ok & Hrun).
    apply bind_Ok in Hrun as (u & Hs%raise_if_decide_Ok & Hrun).
    apply bind_Ok in Hrun as (rpc & [Hr ?]%s01_required_str_Ok & Hrun).
    apply bind_Ok in Hrun as (pair & Hp%of_option_Ok%as_dict_Some & Hrun).
    apply bind_Ok in Hrun as (off & [Hoff ?]%s01_required_str_Ok & Hrun).
    apply bind_Ok in Hrun as (on & [Hon ?]%s01_required_str_Ok & Hrun).
    fold (merge dflt d label rpc off on) in Hrun.
    apply bind_Ok in Hrun as (u1 & Hi%int_loop_Ok & Hrun).
    apply bind_Ok in Hrun as (u2 & Ht%str_loop_Ok & Hrun).
    apply bind_Ok in Hrun as (u3 & Hrpc%s01_check_rpc_Ok & [= <- <-]).
    rewrite s01_merge_label_of. split; [|done]. by exists d, label, rpc, pair, off, on.
  - intros ((d & label & rpc & pair & off & on & -> & ? & ? & ? & ? & ? & ? & ? & ? & ? & -> & ? & ? & ?)
      & Hs & ->). rewrite s01_merge_label_of in *.
    eapply bind_run; [done|]. eapply bind_run; [by apply s01_required_str_Ok|].
    eapply (bind_run _ _ tt); [by apply raise_if_decide_Ok|].
    eapply bind_run; [by apply s01_required_str_Ok|].
    eapply bind_run; [by apply of_option_Ok, as_dict_Some|].
    eapply bind_run; [by apply s01_required_str_Ok|]. eapply bind_run; [by apply s01_required_str_Ok|].
    fold (merge dflt d label rpc off on).
    eapply (bind_run _ _ tt); [by apply int_loop_Ok|].
    eapply (bind_run _ _ tt); [by apply str_loop_Ok|].
    eapply (bind_run _ _ tt); [by apply s01_check_rpc_Ok|done].
Qed.

(** What a manifest document [v] must be for [m] to be its validated form. *)
Record manifest_json (v : json) (m : manifest) : Prop := {
  mj_root : ∃ d l, v = JObj d ∧ version m = get "version" d ∧
    (get "defaults" d = JObj (defaults m) ∨ get "defaults" d = JNull ∧ defaults m = []) ∧
    get "workloads" d = JArr l ∧ l ≠ [] ∧ Forall2 (workload_json (defaults m)) (workloads m) l;
  mj_labels : NoDup (label_of <$> workloads m);
}.

Lemma defaults_cond (v : json) d :
  none_to_empty v = JObj d ↔ v = JObj d ∨ v = JNull ∧ d = [].
Proof. destruct v; naive_solver. Qed.

Lemma s01_validate_manifest_Ok v m : validate_manifest v = Ok m ↔ manifest_json v m.
Proof.
  unfold validate_manifest. split.
  - intros H. apply bind_Ok in H as (d & ->%of_option_Ok%as_dict_Some & H).
    apply bind_Ok in H as (df & Hdf%of_option_Ok%as_dict_Some%defaults_cond & H).
    apply bind_Ok in H as (l & [Hl Hne]%of_option_Ok%nonempty_list_Some & H).
    apply bind_Ok in H as ([ws seen] & Hws & [= <-]).
    apply (collect_Ok _ (workload_json df)) in Hws as (Hws & Hnd & _);
      [|intros; apply s01_validate_workload_Ok].
    split; [|done]. by exists d, l.
  - intros [(d & l & -> & Hv & Hdf & Hl & Hne & Hws) Hnd].
    destruct m as [ver df ws]; simpl in *. subst ver.
    eapply bind_run; [by apply of_option_Ok, as_dict_Some, defaults_cond|].
    eapply bind_run; [by apply of_option_Ok, nonempty_list_Some|].
    eapply (bind_run _ _ (_, _)); [|done].
    apply (collect_Ok _ (workload_json df)); [intros; apply s01_validate_workload_Ok|done].
Qed.

Lemma s01_load_manifest_run p w :
  load_manifest p w =
  (match file_bytes w p ≫= decode_text with
   | Err (OSError err) => Err (ManifestError (cat ["manifest read failed ("; path_str p; "): "; err]))
   | Err e => Err e
   | Ok raw =>
       match json_loads raw with
       | Err (JSONDecodeError err) =>
           Err (ManifestError (cat ["manifest parse failed ("; path_str p; "): "; err]))
       | Err e => Err e
       | Ok v => validate_manifest v
       end
   end, w).
Proof.
  unfold load_manifest, catch, read_text, pure_, io_raise, mbind at 1, io_bind at 1.
  destruct (file_bytes w p ≫= decode_text) as [text|e]; [|by destruct e].
  unfold mbind at 1, io_bind at 1. destruct (json_loads text) as [v|e]; [done|by destruct e].
Qed.

Lemma s01_load_manifest_Ok p w m w' :
  load_manifest p w = (Ok m, w') ↔ w' = w ∧ ∃ v, json_file w p = Some v ∧ manifest_json v m.
Proof.
  rewrite s01_load_manifest_run. unfold json_file.
  destruct (file_bytes w p ≫= decode_text) as [text|e]; [|destruct e; naive_solver].
  destruct (json_loads text) as [v|e]; [|destruct e; naive_solver].
  split.
  - intros [= Hv <-]. split; [done|]. exists v. by rewrite <-s01_validate_manifest_Ok.
  - intros (-> & v' & [= <-] & Hv). by rewrite (proj2 (s01_validate_manifest_Ok _ _) Hv).
Qed.

Lemma s01_loaded_workloads p w m w' :
  load_manifest p w = (Ok m, w') → ∃ l, Forall2 (workload_json (defaults m)) (workloads m) l.
Proof.
  intros (_ & v & _ & [(d & l & _ & _ & _ & _ & _ & Hws) _])%s01_load_manifest_Ok. by exists l.
Qed.

Lemma s01_workload_runnable dflt m v : workload_json dflt m v → runnable m.
Proof.
  intros (d & label & rpc & pair & off & on & _ & _ & ? & _ & ? & _ & _ & _ & _ & _ & -> & Hi & Hs & ?).
  split; [exists label; by rewrite s01_merge_label| | | |done].
  - exists rpc. split; [|done]. unfold merge. by rewrite !dget_dset.
  - unfold int_fields in Hi. rewrite Forall_cons in Hi. destruct Hi as [[z Hz] _].
    unfold pos_int in Hz. unfold nonneg_int. destruct (as_int _) as [n|]; [|done].
    simpl in Hz. case_match; simplify_eq; lia.
  - by apply Forall_cons in Hi as [_ ?].
Qed.

Lemma s01_workload_artifacts dflt m v out :
  workload_json dflt m v → ∃ off on,
    artifact_path out m "off" = Ok (path_div out off) ∧
    artifact_path out m "on" = Ok (path_div out on).
Proof.
  intros (d & label & rpc & pair & off & on & _ & _ & _ & _ & _ & _ & _ & _ & _ & _ & -> & _).
  exists off, on. unfold artifact_path, ditem, merge. by rewrite !dget_dset.
Qed.

(** ** Runs *)

Section runs.
Context (E : environment).

Lemma s01_stays_wait_for_port i addr timeout : stays i (wait_for_port E addr timeout).
Proof.
  assert (∀ host port deadline fuel, stays i (poll_addr E addr host port deadline timeout fuel)) as Hp.
  { intros host port deadline fuel. induction fuel as [|fuel IH]; simpl; stays_tac;
      auto using stays_connect, stays_sleep. apply stays_sleep. unfold MILLISECOND. lia. }
  unfold wait_for_port. stays_tac.
Qed.

(** The exceptions that the [try] statement turns into the runner's error. *)
Definition reported (e : exn) : Prop := e = TimeoutExpired ∨ is_Some (exn_str e).

Lemma connect_reported host port e : connect_error E host port e → reported e.
Proof. intros [[-> _]|(w & d & [] & _ & ->)]; right; by eexists. Qed.

Lemma start_reported cmd cwd w e : start_error E cmd cwd w e → reported e.
Proof.
  intros [[m ->]|[[_ [m ->]]|[[_ [m ->]]|[_ [m ->]]]]]%start_error_cases; right; by eexists.
Qed.

(** With fuel for the rest of the time-out the loop ends. *)
Lemma poll_addr_ends addr host port deadline timeout n w r w' :
  deadline ≤ w_now w + Z.of_nat n * (50 * MILLISECOND) →
  poll_addr E addr host port deadline timeout (S n) w = (r, w') →
  match r with Ok _ => True | Err e => reported e end.
Proof.
  revert w. induction n as [|n IH]; intros w Hfuel; cbn [poll_addr];
    unfold gets, mbind at 1, io_bind at 1;
    (destruct (Z.ltb_spec (w_now w) deadline) as [Hlt|_]; [|intros [= <- <-]; right; by eexists]).
  - lia.
  - unfold mbind at 1, io_bind at 1. destruct (connect E host port w) as [[[]|e] w1] eqn:Hc;
      destruct (connect_cases _ _ _ _ _ _ Hc) as [Hnow Hr].
    + by intros [= <- <-].
    + unfold mbind at 1, io_bind at 1, sleep. apply IH. simpl. unfold MILLISECOND in *. lia.
    + intros [= <- <-]. by eapply connect_reported.
Qed.

Lemma s01_wait_for_port_errors addr timeout w e w' :
  wait_for_port E addr timeout w = (Err e, w') → reported e.
Proof.
  intros Hrun. unfold wait_for_port in Hrun.
  destruct (rsplit1 ":"%char addr) as [[host port_str]|] eqn:Hs.
  2: { injection Hrun as <- <-. right. by eexists. }
  rewrite (io_bind_run _ _ w (host, port_str) w) in Hrun by done.
  destruct (py_int (JStr port_str)) as [port|e'] eqn:Hp.
  - rewrite (io_bind_run _ _ w port w), (io_bind_run _ _ w (w_now w) w) in Hrun by done.
    apply (poll_addr_ends _ _ _ _ _ _ _ (Err e)) in Hrun; [done|by apply join_fuel].
  - injection Hrun as <- <-. simpl in Hp. destruct (int_of_str port_str); simplify_eq/=.
    right. by eexists.
Qed.

Lemma s01_serve_cases label mode addr cmd art ts tc base ps w r w' :
  children base ps [] w → serve E label mode addr cmd art ts tc w = (r, w') →
  ∃ ps' cs, children base ps' cs w' ∧ (length cs ≤ 1)%nat ∧
  match r with
  | Ok _ => ∃ pc, cs = [pc] ∧ pr_ret pc = Some 0
  | Err e => reported e
  end.
Proof.
  intros Hch Hrun. unfold serve in Hrun. unfold mbind at 1, io_bind at 1 in Hrun.
  destruct (stays_children base ps [] (wait_for_port E addr ts) w) as (ps1 & Hch1 & _ & _ & _ & _);
    [done|apply s01_stays_wait_for_port|].
  destruct (wait_for_port E addr ts w) as [[[]|e] w1] eqn:Hm; simpl in Hch1.
  2: { injection Hrun as <- <-. exists ps1, []. split_and!; [done|simpl; lia|].
       by eapply s01_wait_for_port_errors. }
  match type of Hrun with (print ?s ≫= _) _ = _ =>
    destruct (io_print_cases s w1) as [[_ Hpr]|[_ Hpr]] end.
  2: { rewrite (io_bind_err _ _ _ _ _ Hpr) in Hrun. injection Hrun as <- <-. exists ps1, [].
       split_and!; [done|simpl; lia|]. right. by eexists. }
  rewrite (io_bind_run _ _ _ _ _ Hpr) in Hrun. set (w2 := set_out _ w1) in Hrun.
  unfold mbind at 1, io_bind at 1 in Hrun.
  destruct (subprocess_run E _ _ _ w2) as [rc w3] eqn:Hsub. destruct Hch1 as [Hw1 _].
  destruct (subprocess_run_cases _ _ _ _ _ _ _ Hsub)
    as [(-> & e & -> & He)|(pc & Hw3 & _ & _ & _ & Hrc)].
  { injection Hrun as <- <-. exists ps1, []. split_and!; [done|simpl; lia|].
    by eapply start_reported. }
  assert (is_Some (pr_ret pc) → children base ps1 [pc] w3) as Hch3.
  { intros ?. split; [|by constructor]. rewrite Hw3. simpl. by rewrite Hw1, <-app_assoc. }
  destruct rc as [[[c out] err]|e].
  2: { injection Hrun as <- <-. destruct Hrc as [-> ?]. exists ps1, [pc].
       split_and!; [auto|simpl; lia|by left]. }
  exists ps1, [pc]. rewrite Hrc in Hch3. unfold io_raise_if, pure_ in Hrun.
  destruct (Z.eqb_spec c 0) as [->|Hc]; injection Hrun as <- <-;
    (split_and!; [by auto|simpl; lia|]); [by exists pc|]. right. by eexists.
Qed.

Lemma on_exception_run {A} label mode tc e w :
  reported e → ∃ m, on_exception (A:=A) label mode tc e w = (Err (RunError m), w).
Proof. intros [->|[m Hm]]; [by eexists|]. destruct e; try done; by eexists. Qed.

(** What a run of a server and a client leaves: both have been waited for and the
    client succeeded, or the runner's error, or a server that outlived SIGKILL. *)
Definition run_result (base : list proc) (r : exc unit) (w' : world) : Prop :=
  match r with
  | Ok _ => ∃ ps pc, w_procs w' = base ++ [ps; pc] ∧ is_Some (pr_ret ps) ∧ pr_ret pc = Some 0
  | Err e => ((∃ m, e = RunError m) ∨ e = TimeoutExpired ∧
      ∃ ps, w_procs w' !! length base = Some ps ∧ 2 * SECOND < Z.of_N (pr_kill ps))
  end.

Lemma s01_guarded_serve_cases label mode addr cmd art ts tc phase base ps w r w' :
  children base ps [] w →
  finally (catch (serve E label mode addr cmd art ts tc) (on_exception label mode tc))
    (terminate_process E (length base) label phase) w = (r, w') →
  run_result base r w'.
Proof.
  intros Hch Hrun. unfold finally, catch in Hrun.
  destruct (serve E label mode addr cmd art ts tc w) as [r1 w1] eqn:Hs.
  destruct (s01_serve_cases _ _ _ _ _ _ _ _ _ _ _ _ Hch Hs) as (ps1 & cs & Hch1 & _ & Hr1).
  set (t := terminate_process _ _ _ _) in Hrun.
  destruct (stays_children base ps1 cs t w1) as (ps2 & [Hw2 _] & _ & _ & _ & Hlk2);
    [done|apply stays_terminate_with|].
  assert (is_Some (w_procs w1 !! length base)) as Hlk1.
  { destruct Hch1 as [-> _]. by rewrite list_lookup_middle. }
  destruct (t w1) as [rt w2] eqn:Ht; simpl in Hw2, Hlk2.
  destruct (terminate_with_cases _ _ _ _ _ _ Hlk1 Ht) as (p & Hp & Hrt).
  assert (p = ps2) as -> by congruence.
  assert (∃ r2, match r1 with Ok a => (Ok a, w1) | Err e => on_exception label mode tc e w1 end = (r2, w1) ∧
    match r2 with Ok _ => r1 = Ok tt | Err e => ∃ m, e = RunError m end) as (r2 & Hcatch & Hr2).
  { destruct r1 as [[]|e]; [by exists (Ok tt)|].
    destruct (on_exception_run (A:=unit) label mode tc e w1) as [m Hm]; [done|].
    exists (Err (RunError m)). split; [done|by eexists]. }
  rewrite Hcatch, Ht in Hrun. destruct rt as [[]|et]; injection Hrun as <- <-.
  - destruct r2 as [[]|e]; [|by left]. subst r1. destruct Hr1 as (pc & -> & Hpc). by exists ps2, pc.
  - right. split; [by destruct Hrt|]. exists ps2. by destruct Hrt.
Qed.

Lemma run_mode_cases dflt binary out ts tc m v label mode w r w' :
  workload_json dflt m v → mode ∈ ["off"; "on"] →
  run_mode E binary out ts tc m label mode w = (r, w') → run_result (w_procs w) r w'.
Proof.
  intros Hw Hmode Hrun. set (addr := cat ["127.0.0.1:"; pretty (env_port E w)]).
  destruct (build_rpc_args_Ok m addr (s01_workload_runnable _ _ _ Hw)) as (args & Hargs & Hstr).
  destruct (s01_workload_artifacts _ _ _ out Hw) as (off & on & Hoff & Hon).
  assert (∃ p, artifact_path out m mode = Ok p) as [art Hart].
  { rewrite !elem_of_cons, elem_of_nil in Hmode. destruct Hmode as [->|[->|[]]]; eauto. }
  unfold run_mode in Hrun. rewrite (io_bind_run _ _ w addr w) in Hrun by done.
  unfold build_common_args in Hrun. rewrite Hargs, Hart in Hrun.
  rewrite (io_bind_run _ _ w args w), (io_bind_run _ _ w art w) in Hrun by done. cbv zeta in Hrun.
  match type of Hrun with context [popen E ?cmd _] => set (scmd := cmd) in Hrun end.
  match type of Hrun with context [serve E _ _ _ ?cmd _ _ _] => set (ccmd := cmd) in Hrun end.
  unfold mbind at 1, io_bind at 1, catch at 1 in Hrun. unfold mbind at 1, io_bind at 1 in Hrun.
  match type of Hrun with context [print ?s w] =>
    destruct (io_print_cases s w) as [[_ Hpr]|[_ Hpr]]; rewrite Hpr in Hrun end.
  2: { injection Hrun as <- <-. left. by eexists. }
  set (w1 := set_out _ w) in *.
  destruct (popen_cases E scmd (parse_path ".") w1) as [(e & Hp & He)|(p & w2 & Hp & Hw2 & _)];
    rewrite Hp in Hrun.
  - destruct (on_exception_run (A:=nat) label mode tc e w1) as [msg Hm];
      [by eapply start_reported|]. rewrite Hm in Hrun. injection Hrun as <- <-.
    left. by eexists.
  - change (w_procs w) with (w_procs w1).
    eapply s01_guarded_serve_cases; [|exact Hrun]. by split.
Qed.
End runs.

(** [ran_pairs n w w']: between [w] and [w'], [n] servers and clients were
    started; all have been waited for and the clients exited with code 0. *)
Definition ran_pairs (n : nat) (w w' : world) : Prop :=
  ∃ runs : list (proc * proc),
    w_procs w' = w_procs w ++ concat ((λ '(s, c), [s; c]) <$> runs) ∧ length runs = n ∧
    Forall (λ '(s, c), is_Some (pr_ret s) ∧ pr_ret c = Some 0) runs.

Lemma ran_pairs_refl w w' : w_procs w' = w_procs w → ran_pairs 0 w w'.
Proof. intros H. exists []. simpl. by rewrite H, app_nil_r. Qed.

Lemma ran_pairs_trans n k w1 w2 w3 : ran_pairs n w1 w2 → ran_pairs k w2 w3 → ran_pairs (n + k) w1 w3.
Proof.
  intros (r1 & H1 & <- & F1) (r2 & H2 & <- & F2). exists (r1 ++ r2).
  rewrite H2, H1, fmap_app, concat_app, <-app_assoc, length_app.
  split_and!; [done..|]. by apply Forall_app.
Qed.

Lemma ran_pairs_iterM {B} (f : B → io unit) k l w w' :
  (∀ x w w', x ∈ l → f x w = (Ok tt, w') → ran_pairs k w w') →
  iterM f l w = (Ok tt, w') → ran_pairs (length l * k) w w'.
Proof.
  unfold iterM. revert w. induction l as [|x l IH]; intros w Hf Hrun; simpl in *.
  - injection Hrun as <-. by apply ran_pairs_refl.
  - apply io_bind_Ok in Hrun as ([] & w1 & Hx & Hl).
    eapply ran_pairs_trans; [by eapply Hf; [left|]|]. apply IH; [|done].
    intros y ? ? Hy. apply Hf. by right.
Qed.

Section manifest_runs.
Context (E : environment) (dflt : dict json).

Lemma s01_label_arg m v : workload_json dflt m v → ∃ label, (ditem "label" m ≫= arg_str) = Ok label.
Proof.
  intros Hw. destruct (s01_workload_runnable _ _ _ Hw) as [(s & Hs & _) _ _ _ _].
  exists s. unfold ditem. by rewrite Hs.
Qed.

Lemma run_workload_cases binary out ts tc m v w r w' :
  workload_json dflt m v →
  (label ← pure_ (ditem "label" m ≫= arg_str);
   iterM (run_mode E binary out ts tc m label) ["off"; "on"]) w = (r, w') →
  match r with Ok _ => ran_pairs 2 w w' | Err e => run_error RunError e end.
Proof.
  intros Hw. destruct (s01_label_arg _ _ Hw) as [label ->].
  rewrite (io_bind_run _ _ w label w) by done. intros Hrun. destruct r as [[]|e].
  - change 2%nat with (length ["off"; "on"] * 1)%nat. eapply ran_pairs_iterM; [|done].
    intros mode w1 w2 Hmode Hmd. eapply run_mode_cases in Hmd; [|done..].
    destruct Hmd as (ps & pc & Hps & ? & ?). exists [(ps, pc)]. split_and!; [done|done|by repeat constructor].
  - assert (io_raises (run_error RunError) (iterM (run_mode E binary out ts tc m label) ["off"; "on"])) as Hr.
    { apply io_iterM_raises. intros mode Hmode. apply io_raises_run. intros w1 e1 w2 Hmd.
      eapply run_mode_cases in Hmd; [|done..]. unfold run_error. naive_solver. }
    specialize (Hr w). by rewrite Hrun in Hr.
Qed.

Lemma run_manifest_cases m binary out ts tc l w r w' :
  Forall2 (workload_json dflt) (workloads m) l →
  run_manifest E m binary out ts tc w = (r, w') →
  match r with
  | Ok _ => ran_pairs (2 * length (workloads m)) w w'
  | Err e => run_error RunError e
  end.
Proof.
  intros Hws Hrun. unfold run_manifest in Hrun.
  destruct (mkdir_p_cases out w) as (fs & [Hm|[msg Hm]]).
  2: { rewrite (io_bind_err _ _ _ _ _ Hm) in Hrun. injection Hrun as <- <-. right; left. by eexists. }
  rewrite (io_bind_run _ _ _ _ _ Hm) in Hrun. destruct r as [[]|e].
  - replace (2 * _)%nat with (0 + length (workloads m) * 2)%nat by lia.
    apply (ran_pairs_trans _ _ _ (set_fs fs w)); [by apply ran_pairs_refl|]. eapply ran_pairs_iterM; [|done].
    intros x w2 w3 Hx Hrx. destruct (Forall2_elem_l _ _ _ _ Hws Hx) as (v & _ & Hv).
    exact (run_workload_cases binary out ts tc x v w2 (Ok tt) w3 Hv Hrx).
  - match type of Hrun with iterM ?f _ _ = _ => assert (io_raises (run_error RunError) (iterM f (workloads m))) as Hr end.
    { apply io_iterM_raises. intros x Hx. apply io_raises_run. intros w1 e1 w2 Hrx.
      destruct (Forall2_elem_l _ _ _ _ Hws Hx) as (v & _ & Hv).
      exact (run_workload_cases binary out ts tc x v w1 (Err e1) w2 Hv Hrx). }
    specialize (Hr (set_fs fs w)). by rewrite Hrun in Hr.
Qed.
End manifest_runs.

(** ** Reports *)

(** What a report says about the shape of its workload; the response shape
    [same] stands for the shape of the request. *)
Definition shape_resolved (entry md : dict json) (rpc : json) : Prop :=
  if py_eq rpc (JStr "unary-bytes") then
    Forall (λ k, ∃ v, dget k entry = Some v ∧ py_eq (get k md) v = true) ["payload_size"; "payload_kind"]
  else ∃ ps rs, dget "proto_shape" entry = Some ps ∧ dget "response_shape" entry = Some rs ∧
    py_eq (get "request_shape" md) ps = true ∧
    py_eq (get "response_shape" md) (if py_eq rs (JStr "same") then ps else rs) = true.

Record report_ok (entry : dict json) (mode : string) (report : dict json) : Prop := {
  rp_sections : ∃ md mt st,
    dget "metadata" report = Some (JObj md) ∧ dget "metrics" report = Some (JObj mt) ∧
    dget "stages" report = Some (JObj st) ∧
    (∃ label rpc, dget "label" entry = Some label ∧ dget "rpc" entry = Some rpc ∧
       Forall (λ '(k, v), py_eq (get k md) v = true)
         [("ordinary_path", JStr "software"); ("seam", JStr "codec_body"); ("rpc", rpc);
          ("workload_label", label); ("instrumentation", JStr mode)] ∧
       shape_resolved entry md rpc) ∧
    Forall (λ f, is_Some (pos_int (get f md))) ["request_serialized_size"; "response_serialized_size"] ∧
    get "enabled" st = JBool (bool_decide (mode = "on")) ∧ (mode = "on" → stages_ok st) ∧
    is_Some (as_int (get "requests_completed" mt));
}.

Lemma shape_check_Ok ctx entry md rpc u :
  (if py_eq rpc (JStr "unary-bytes") then
     check_same ctx md entry "payload_size" "payload_size";;
     check_same ctx md entry "payload_kind" "payload_kind"
   else
     request_shape ← ditem "proto_shape" entry;
     response_shape ← expected_response_shape entry;
     check_value ctx md "request_shape" request_shape;;
     check_value ctx md "response_shape" response_shape) = Ok u ↔ shape_resolved entry md rpc.
Proof.
  unfold shape_resolved. destruct (py_eq rpc _).
  { rewrite seq_Ok, !check_same_Ok, !Forall_cons. naive_solver constructor. }
  rewrite bind_Ok. setoid_rewrite bind_Ok. setoid_rewrite seq_Ok. setoid_rewrite ditem_Ok.
  unfold check_value. setoid_rewrite raise_if_Ok. setoid_rewrite negb_false_iff.
  unfold expected_response_shape. setoid_rewrite bind_Ok. setoid_rewrite ditem_Ok. split.
  - intros (ps & Hps & rs' & (rs & Hrs & Hres) & ? & ?). exists ps, rs. split_and!; [done..|].
    destruct (py_eq rs _); [|by injection Hres as <-]. apply ditem_Ok in Hres. congruence.
  - intros (ps & rs & Hps & Hrs & ? & ?). exists ps. split; [done|].
    exists (if py_eq rs (JStr "same") then ps else rs). split_and!; [|done..].
    exists rs. split; [done|]. destruct (py_eq rs _); [by apply ditem_Ok|done].
Qed.

Lemma assert_metadata_Ok entry mode path md u :
  assert_metadata entry mode path md = Ok u ↔
  (∃ label rpc, dget "label" entry = Some label ∧ dget "rpc" entry = Some rpc ∧
     Forall (λ '(k, v), py_eq (get k md) v = true)
       [("ordinary_path", JStr "software"); ("seam", JStr "codec_body"); ("rpc", rpc);
        ("workload_label", label); ("instrumentation", JStr mode)] ∧
     shape_resolved entry md rpc) ∧
  Forall (λ f, is_Some (pos_int (get f md))) ["request_serialized_size"; "response_serialized_size"].
Proof.
  unfold assert_metadata. rewrite bind_Ok. setoid_rewrite ditem_Ok. split.
  - intros (label & Hl & H). apply bind_Ok in H as (rpc & Hr%ditem_Ok & H).
    rewrite !seq_Ok, check_pairs_Ok, shape_check_Ok, check_sizes_Ok in H.
    destruct H as (? & ? & ?). split; [by exists label, rpc|done].
  - intros [(label & rpc & Hl & Hr & ? & ?) ?]. exists label. split; [done|].
    eapply bind_run; [by apply ditem_Ok|].
    by rewrite !seq_Ok, check_pairs_Ok, shape_check_Ok, check_sizes_Ok.
Qed.

Lemma check_report_Ok entry label mode path report u :
  check_report entry label mode path report = Ok u ↔ report_ok entry mode report.
Proof.
  unfold check_report. rewrite bind_Ok. split.
  - intros ([[md mt] st] & (? & ? & ?)%report_sections_Ok & Hr).
    apply bind_Ok in Hr as (u1 & [? ?]%assert_metadata_Ok & Hr).
    apply bind_Ok in Hr as (en & _ & Hr).
    rewrite !seq_Ok, check_enabled_Ok, if_Ok, check_stages_Ok, raise_if_negb_Ok, bool_decide_eq_true in Hr.
    destruct Hr as (? & ? & ?). split. exists md, mt, st. by split_and!.
  - intros [(md & mt & st & ? & ? & ? & ? & ? & Hen & ? & ?)].
    exists (md, mt, st). split; [by apply report_sections_Ok|].
    eapply (bind_run _ _ tt); [by apply assert_metadata_Ok|].
    eapply bind_run; [by apply of_option_Ok, (get_dget _ _ _ Hen)|].
    by rewrite !seq_Ok, check_enabled_Ok, if_Ok, check_stages_Ok, raise_if_negb_Ok, bool_decide_eq_true.
Qed.

(** The artifact of this run holds [report], which passes. *)
Definition validated (w : world) (out : path) (entry : dict json) (mode : string) : Prop :=
  ∃ p report, artifact_path out entry mode = Ok p ∧ json_file w p = Some (JObj report) ∧
    report_ok entry mode report.

Lemma s01_validate_artifact_Ok w0 out entry label mode w w' :
  same_files w0 w → validate_artifact out entry label mode w = (Ok tt, w') →
  same_files w0 w' ∧ validated w0 out entry mode.
Proof.
  intros Hw H. unfold validate_artifact in H. apply io_bind_pure in H as (p & Hp & H).
  apply io_bind_Ok in H as (present & w1 & [= <- <-] & H). apply io_bind_raise_if in H as [_ H].
  apply io_bind_Ok in H as (rep & w1 & [-> Hj]%parse_report_Ok & H).
  apply io_bind_pure in H as ([] & Hv%check_report_Ok & H). apply io_print_Ok in H as [_ ->].
  split; [by eapply same_files_trans|]. exists p, rep.
  rewrite (same_files_json w0 w) in Hj by done. done.
Qed.

Lemma io_iterM_visits {B} (f : B → io unit) (I : world → Prop) (P : B → Prop) l w w' :
  (∀ x w w', x ∈ l → I w → f x w = (Ok tt, w') → I w' ∧ P x) →
  I w → iterM f l w = (Ok tt, w') → I w' ∧ ∀ x, x ∈ l → P x.
Proof.
  unfold iterM. revert w. induction l as [|y l IH]; intros w Hf Hi Hrun; simpl in *.
  - injection Hrun as <-. split; [done|set_solver].
  - apply io_bind_Ok in Hrun as ([] & w1 & Hy & Hrun).
    destruct (Hf y w w1) as [Hi1 Py]; [by left|done..|].
    destruct (IH w1) as [? Hl]; [|done..|]; [intros x ? ? Hx; apply Hf; by right|].
    split; [done|]. intros x [->|Hx]%elem_of_cons; auto.
Qed.

Lemma s01_validate_artifacts_Ok m out w w' :
  validate_artifacts m out w = (Ok tt, w') →
  ∀ entry mode, entry ∈ workloads m → mode ∈ ["off"; "on"] → validated w out entry mode.
Proof.
  intros H entry mode He Hm. unfold validate_artifacts in H.
  eapply (io_iterM_visits _ (same_files w) (λ entry, ∀ mode, mode ∈ ["off"; "on"] →
    validated w out entry mode)) in H; [by eapply H| |done].
  intros x w1 w2 _ Hw1 Hx. apply io_bind_pure in Hx as (label & _ & Hx).
  eapply (io_iterM_visits _ (same_files w) (validated w out x)) in Hx; [done| |done].
  intros md w3 w4 _ Hw3. by apply s01_validate_artifact_Ok.
Qed.

(** The same file cannot hold both reports of a workload. *)
Lemma validated_distinct w out entry p p' :
  validated w out entry "off" → validated w out entry "on" →
  artifact_path out entry "off" = Ok p → artifact_path out entry "on" = Ok p' → p ≠ p'.
Proof.
  intros (q & r & Hq & Hj & [(md & mt & st & _ & _ & Hst & _ & _ & Hen & _)])
    (q' & r' & Hq' & Hj' & [(md' & mt' & st' & _ & _ & Hst' & _ & _ & Hen' & _)]) Hp Hp' ->.
  assert (r = r') as -> by congruence. assert (st = st') as -> by congruence.
  rewrite Hen in Hen'. vm_compute in Hen'. discriminate.
Qed.

(** ** The guarantees *)

Definition s01_path : path := fixture_manifest "s01_ordinary_matrix.json".
Definition s01_out : path := parse_path "/repo/out".

Definition no_manifest : manifest := Manifest JNull [] [].
Definition s01_manifest : manifest :=
  match (load_manifest s01_path tracked_world).1 with Ok m => m | Err _ => no_manifest end.

Lemma s01_manifest_run : load_manifest s01_path tracked_world = (Ok s01_manifest, tracked_world).
Proof.
  rewrite s01_load_manifest_run. apply (f_equal (λ r, (r, tracked_world))). vm_compute. reflexivity.
Qed.

(** [load_manifest] changes nothing and returns [m] exactly when the file
    holds a manifest that describes [m]: workloads with distinct labels, complete
    merged fields and a pair of artifact names. *)
Theorem s01_load_manifest_accepts p w m w' :
  load_manifest p w = (Ok m, w') ↔ w' = w ∧ ∃ v, json_file w p = Some v ∧ manifest_json v m.
Proof. apply s01_load_manifest_Ok. Qed.

(** C15: [run_manifest] on a loaded manifest either runs a server and a client
    twice per workload, waits for all of them and sees every client exit with
    code 0, or it raises the runner's own error, the [OSError] of the output
    directory, or the [TimeoutExpired] of a server that outlives SIGKILL. *)
Theorem s01_run_manifest_outcome E p w0 m w1 binary out ts tc w r w' :
  load_manifest p w0 = (Ok m, w1) →
  run_manifest E m binary out ts tc w = (r, w') →
  match r with
  | Ok _ => ran_pairs (2 * length (workloads m)) w w'
  | Err e => run_error RunError e
  end.
Proof. intros [l Hws]%s01_loaded_workloads. by eapply run_manifest_cases. Qed.

Definition s01_demo : io unit :=
  run_manifest (demo_env 0) s01_manifest (parse_path "/bin") s01_out (10 * SECOND) (20 * SECOND).

Lemma s01_run_manifest_outcome_witness :
  ran_pairs 8 tracked_world (s01_demo tracked_world).2.
Proof.
  apply (s01_run_manifest_outcome (demo_env 0) s01_path tracked_world s01_manifest tracked_world
    (parse_path "/bin") s01_out (10 * SECOND) (20 * SECOND) tracked_world (Ok tt)
    (s01_demo tracked_world).2).
  - apply s01_manifest_run.
  - apply io_run_fst. vm_compute. reflexivity.
Defined.

(** C16: the checks of a report pass exactly the reports that satisfy [report_ok]:
    they identify this workload and mode, carry its shape (where [same] stands
    for the shape of the request), positive sizes and a request count, and every
    stage counter if they were instrumented. *)
Theorem s01_check_report_spec entry label mode path report :
  check_report entry label mode path report = Ok tt ↔ report_ok entry mode report.
Proof. apply check_report_Ok. Qed.

(** A completed [validate_artifacts] means that, in the files as they are,
    every workload has a passing report for both modes, and that they are two
    files. *)
Theorem s01_validate_artifacts_evidence m out w w' :
  validate_artifacts m out w = (Ok tt, w') →
  ∀ entry, entry ∈ workloads m →
    validated w out entry "off" ∧ validated w out entry "on" ∧
    ∀ p p', artifact_path out entry "off" = Ok p → artifact_path out entry "on" = Ok p' → p ≠ p'.
Proof.
  intros Hv entry He. pose proof (s01_validate_artifacts_Ok _ _ _ _ Hv entry) as Hval.
  split_and!; [apply Hval; set_solver..|]. intros p p'.
  apply validated_distinct with w; apply Hval; set_solver.
Qed.

Definition s01_reports : list (list string * string) :=
  mode ← ["off"; "on"];
  [(["repo"; "out"; cat ["ordinary__unary-bytes__repeated-64."; mode; ".json"]],
    bytes_report "client" mode "")].

Definition s01_world : world :=
  repo_world (manifest_files s02_text s03_text s04_text ++ s01_reports).

(** The first workload of the tracked manifest. *)
Definition s01_first : manifest :=
  Manifest (version s01_manifest) (defaults s01_manifest) (take 1 (workloads s01_manifest)).

Definition s01_entry : dict json := default [] (workloads s01_first !! 0%nat).

Lemma s01_validate_artifacts_evidence_witness :
  validated s01_world s01_out s01_entry "off" ∧ validated s01_world s01_out s01_entry "on" ∧
  ∀ p p', artifact_path s01_out s01_entry "off" = Ok p →
    artifact_path s01_out s01_entry "on" = Ok p' → p ≠ p'.
Proof.
  apply (s01_validate_artifacts_evidence s01_first s01_out s01_world
    (validate_artifacts s01_first s01_out s01_world).2).
  - apply io_run_fst. vm_compute. reflexivity.
  - apply (list_elem_of_lookup_2 _ 0). vm_compute. reflexivity.
Defined.
