(* ===== verification/S02.v ===== *)
(** * The software evidence runner

    Model of accel-rpc/tonic-profile/scripts/run_s02_evidence.py: the manifest
    of the software workloads, the runs of each workload without and with
    instrumentation, and the validation of the reports they write.  A validated
    workload stays the dictionary the source merges; the validated manifest is a
    record.  The command-line parser is not modelled: [main] takes the parsed
    arguments. *)

From S2P Require Import Prelude PyFloat PyVal PyPath Json World Process RunnerCommon Evidence.

Local Open Scope Z_scope.

Module S02.

Definition EXPECTED_BENCHMARKS : list string :=
  ["tokio_spawn_join"; "tokio_oneshot_completion"; "tokio_mpsc_round_trip";
   "tokio_same_thread_wake"; "tokio_cross_thread_wake"].

Definition required_labels : gset string :=
  {[ "ordinary/unary-bytes/repeated-64";
     "ordinary/unary-proto-shape/fleet-small-to-fleet-response-heavy" ]}.

Record manifest : Type := Manifest {
  version : json;
  defaults : dict json;
  expected_benchmarks : list string;
  workloads : list (dict json);
}.

(** ** Manifest *)

(** One turn of the loop over the instrumentations. *)
Definition endpoint_pair_step (scope : string) (endpoint_artifacts : dict json)
    (acc : dict json * gset string) (instrumentation : string) : exc (dict json * gset string) :=
  let '(validated, seen_paths) := acc in
  pair ← of_option (ManifestError (cat [scope; " missing "; instrumentation; " object"]))
           (as_dict (get instrumentation endpoint_artifacts));
  '(validated_pair, seen_paths) ← validate_pair pair (cat [scope; "."; instrumentation])
    (λ role artifact, ManifestError (cat [scope; "."; instrumentation; "."; role;
       " duplicates artifact path "; repr_str artifact])) seen_paths;
  mret (dset instrumentation (JObj validated_pair) validated, seen_paths).

Definition validate_endpoint_artifacts (index : nat) (label : string)
    (endpoint_artifacts : dict json) : exc (dict json) :=
  let scope := cat ["workloads["; pretty index; "] label="; repr_str label;
                    " endpoint_artifacts"] in
  '(validated, _) ← foldM (endpoint_pair_step scope endpoint_artifacts) ([], ∅) ["off"; "on"];
  mret validated.

(** The label is added to [seen_labels], the second result. *)
Definition validate_workload (index : nat) (entry : json) (defaults : dict json)
    (seen_labels : gset string) : exc (dict json * gset string) :=
  let scope := cat ["workloads["; pretty index; "]"] in
  d ← of_option (ManifestError (cat [scope; " must be an object"])) (as_dict entry);
  label ← required_str ManifestError d "label" scope;
  raise_if (bool_decide (label ∈ seen_labels))
    (ManifestError (cat [scope; " label="; repr_str label; " is duplicated"]));;
  rpc ← required_str ManifestError d "rpc" scope;
  endpoint_artifacts ← of_option (ManifestError (cat [scope; " missing endpoint_artifacts object"]))
    (as_dict (get "endpoint_artifacts" d));
  validated ← validate_endpoint_artifacts index label endpoint_artifacts;
  let merged := dset "endpoint_artifacts" (JObj validated)
    (dset "rpc" (JStr rpc) (dset "label" (JStr label) (dupdate defaults d))) in
  check_fields scope (cat [scope; " field warmup_ms must be a non-negative integer"])
    ["measure_ms"; "requests"; "concurrency"] ["runtime"; "compression"; "buffer_policy"] merged;;
  check_rpc scope (cat [scope; " label="; repr_str label; " has unsupported rpc mode ";
                        repr_str rpc]) rpc merged;;
  mret (merged, {[label]} ∪ seen_labels).

Definition validate_workloads (defaults : dict json) (workloads : list json)
    : exc (list (dict json) * gset string) :=
  collect (λ index entry seen_labels, validate_workload index entry defaults seen_labels) workloads.

Definition check_benchmarks (v : json) : exc (list string) :=
  l ← of_option (ManifestError "manifest.expected_benchmarks must be a non-empty array")
        (nonempty_list v);
  validated ← mapM (λ '(index, name),
    of_option (ManifestError (cat ["manifest.expected_benchmarks["; pretty index;
                 "] must be a non-empty string"])) (nonempty_str name)) (enumerate l);
  raise_if (negb (bool_decide (sorted_strings validated = sorted_strings EXPECTED_BENCHMARKS)))
    (ManifestError (cat ["manifest.expected_benchmarks must match the async control-floor suite: ";
                         join ", " EXPECTED_BENCHMARKS]));;
  mret validated.

Definition validate_manifest (v : json) : exc manifest :=
  manifest ← of_option (ManifestError "manifest root must be an object") (as_dict v);
  defaults ← of_option (ManifestError "manifest.defaults must be an object")
               (as_dict (or_empty (get "defaults" manifest)));
  validated_benchmarks ← check_benchmarks (get "expected_benchmarks" manifest);
  workloads ← of_option (ManifestError "manifest.workloads must be a non-empty array")
                (nonempty_list (get "workloads" manifest));
  '(validated_workloads, _) ← validate_workloads defaults workloads;
  labels ← labels_of validated_workloads;
  let missing_labels := sorted_strings (elements (required_labels ∖ labels)) in
  raise_if (negb (bool_decide (missing_labels = [])))
    (ManifestError (cat ["manifest.workloads missing required trust-verification labels: ";
                         join ", " missing_labels]));;
  mret (Manifest (get "version" manifest) defaults validated_benchmarks validated_workloads).

Definition load_manifest (path : path) : io manifest :=
  value ← catch (raw ← read_text path; pure_ (json_loads raw)) (λ e,
    match e with
    | OSError err =>
        io_raise (ManifestError (cat ["manifest read failed ("; path_str path; "): "; err]))
    | JSONDecodeError err =>
        io_raise (ManifestError (cat ["manifest parse failed ("; path_str path; "): "; err]))
    | e => io_raise e
    end);
  pure_ (validate_manifest value).

(** ** Runs *)

Definition DEFAULT_BINARY : path := parse_path "accel-rpc/target/release/tonic-profile".

Definition locate_binary (explicit : option string) : io path :=
  RunnerCommon.locate_binary RunError explicit DEFAULT_BINARY (λ path,
    cat ["tonic-profile binary not found at "; path_str path;
         "; build it first with cargo build --release -p tonic-profile --manifest-path accel-rpc/Cargo.toml"]).

Definition build_common_args (entry : dict json) (addr : string) : exc (list json) :=
  build_rpc_args entry addr.

(** [output_dir / entry["endpoint_artifacts"][instrumentation][role]] *)
Definition artifact_path (output_dir : path) (entry : dict json) (instrumentation role : string)
    : exc path :=
  arts ← ditem "endpoint_artifacts" entry;
  pair ← item instrumentation arts;
  artifact ← item role pair;
  s ← arg_str artifact;
  mret (path_div output_dir s).

Section run.
Context (E : environment).

Definition run_id (label instrumentation addr : string) (w : world) : string :=
  cat ["run-s02-"; pretty (env_time_us E w); "-"; instrumentation; "-";
       pretty (Z.abs (env_hash E [label; instrumentation; addr]) mod 1000000)].

Definition run_entry (binary output_dir : path) (t : timeouts) (entry : dict json)
    (label instrumentation : string) : io unit :=
  addr ← reserve_addr E;
  run_id ← gets (run_id label instrumentation addr);
  common_args ← pure_ (build_common_args entry addr);
  client_artifact ← pure_ (artifact_path output_dir entry instrumentation "client");
  server_artifact ← pure_ (artifact_path output_dir entry instrumentation "server");
  requests ← pure_ (arg_text "requests" entry);
  let head mode :=
    [JStr (path_str binary); JStr "--mode"; JStr mode; JStr "--instrumentation";
     JStr instrumentation] in
  let server_cmd := head "server" ++ common_args ++
    [JStr "--run-id"; JStr run_id; JStr "--shutdown-after-requests"; requests;
     JStr "--server-json-out"; JStr (path_str server_artifact)] in
  let client_cmd := head "client" ++ common_args ++
    [JStr "--run-id"; JStr run_id; JStr "--json-out"; JStr (path_str client_artifact)] in
  run_server_client_pair E (PairArgs label server_cmd client_cmd server_artifact client_artifact
    addr addr (server_start_timeout t) (client_timeout t) (server_flush_timeout t)
    RunError (parse_path ".") (parse_path ".") [("instrumentation", JStr instrumentation)]
    ("cleanup instrumentation=" +:+ instrumentation)).

Definition run_manifest (m : manifest) (binary output_dir : path) (t : timeouts) : io unit :=
  mkdir_p output_dir;;
  iterM (λ entry,
    label ← pure_ (ditem "label" entry ≫= arg_str);
    iterM (run_entry binary output_dir t entry label) ["off"; "on"]) (workloads m).
End run.

(** ** Reports *)

Definition parse_json (path : path) : io (dict json) :=
  let failed := cat ["artifact validation failed path="; path_str path; ": "] in
  parse_report (λ err, cat ["artifact read failed ("; path_str path; "): "; err])
    (λ err, cat [failed; "invalid json: "; err])
    (failed +:+ "file is empty") (failed +:+ "root must be an object") path.

Definition missing_key (path : path) (key : string) : exn :=
  RunError (cat ["artifact validation failed path="; path_str path; ": missing "; key]).

Definition context (label instrumentation role where_ : string) : string :=
  cat ["label="; label; " phase=artifact-validation instrumentation="; instrumentation;
       " endpoint_role="; role; " artifact="; where_].

Definition expected_pairs (entry : dict json) (label : json) (instrumentation role : string)
    : exc (dict json) :=
  rpc ← ditem "rpc" entry;
  buffer_policy ← ditem "buffer_policy" entry;
  mret [("mode", JStr role); ("endpoint_role", JStr role); ("ordinary_path", JStr "software");
        ("seam", JStr "codec_body"); ("rpc", rpc); ("workload_label", label);
        ("instrumentation", JStr instrumentation); ("buffer_policy", buffer_policy)].

Definition validate_report (entry : dict json) (instrumentation endpoint_role : string)
    (artifact_path : path) (report : dict json) : exc unit :=
  label ← ditem "label" entry;
  let ctx := context (py_str label) instrumentation endpoint_role (path_str artifact_path) in
  '(metadata, metrics, stages) ← report_sections ctx (missing_key artifact_path) report;
  pairs ← expected_pairs entry label instrumentation endpoint_role;
  check_pairs ctx metadata pairs;;
  check_run_id ctx metadata;;
  check_sizes ctx metadata ["effective_codec_buffer_size"; "effective_codec_yield_threshold"];;
  check_sizes ctx metadata ["request_serialized_size"; "response_serialized_size"];;
  check_shape ctx metadata entry;;
  check_requests ctx metrics;;
  check_enabled ctx stages (bool_decide (instrumentation = "on"));;
  check_stages ctx (missing_key artifact_path) stages;;
  (if bool_decide (instrumentation = "on") then check_placeholder ctx report else mret tt).

(** One report: read, validated, announced, its signature recorded. *)
Definition validate_artifact (output_dir : path) (entry : dict json) (label : string)
    (instrumentation role : string) (sigs : signatures) : io (dict json * signatures) :=
  path ← pure_ (artifact_path output_dir entry instrumentation role);
  let ctx := context label instrumentation role (path_str path) in
  present ← gets (λ w, path_exists w path);
  io_raise_if (negb present) (RunError (ctx +:+ " missing artifact"));;
  report ← parse_json path;
  pure_ (validate_report entry instrumentation role path report);;
  print (ctx +:+ " verdict=pass");;
  if bool_decide (instrumentation = "on") then
    s ← pure_ (report_signature report);
    by_label ← pure_ (ditem role sigs);
    mret (report, dset role (dset label s by_label) sigs)
  else mret (report, sigs).

(** The two reports of a run. *)
Definition validate_run (output_dir : path) (entry : dict json) (label : string)
    (sigs : signatures) (instrumentation : string) : io signatures :=
  '(client_report, sigs) ← validate_artifact output_dir entry label instrumentation "client" sigs;
  '(server_report, sigs) ← validate_artifact output_dir entry label instrumentation "server" sigs;
  let ctx := context label instrumentation "client/server" (path_str output_dir) in
  client_run_id ← pure_ (metadata_field client_report "run_id");
  server_run_id ← pure_ (metadata_field server_report "run_id");
  io_raise_if (negb (py_eq client_run_id server_run_id))
    (RunError (cat [ctx; " run_id mismatch client="; py_repr client_run_id; " server=";
                    py_repr server_run_id]));;
  client_label ← pure_ (metadata_field client_report "workload_label");
  server_label ← pure_ (metadata_field server_report "workload_label");
  io_raise_if (negb (py_eq client_label server_label))
    (RunError (ctx +:+ " workload_label mismatch"));;
  mret sigs.

Definition check_sensitivity (output_dir : path) (sigs : signatures) (role : string) : io unit :=
  by_label ← pure_ (ditem role sigs);
  let unique : gset signature := list_to_set by_label.*2 in
  let ctx := cat ["phase=workload-sensitivity instrumentation=on endpoint_role="; role;
                  " artifact="; path_str output_dir] in
  io_raise_if (bool_decide (size unique <= 1)%nat)
    (RunError (cat [ctx; " labels="; join ", " (sorted_strings by_label.*1);
                    " stage signatures were identical across workloads"]));;
  print (cat [ctx; " verdict=pass workloads="; pretty (length by_label)]).

Definition validate_artifacts (m : manifest) (output_dir : path) : io unit :=
  sigs ← foldM (λ sigs entry,
    label ← pure_ (ditem "label" entry ≫= arg_str);
    foldM (validate_run output_dir entry label) sigs ["off"; "on"])
    [("client", []); ("server", [])] (workloads m);
  iterM (check_sensitivity output_dir sigs) ENDPOINT_ROLES.

(** ** The program *)

(** The parsed command line. *)
Record arguments : Type := Arguments {
  a_manifest : string;
  a_output_dir : option string;
  a_binary : option string;
  a_validate_only : bool;
  a_verify_only : bool;
  a_timeouts : timeouts;
}.

Definition main_body (E : environment) (args : arguments) : io Z :=
  manifest_path ← gets (λ w, resolve (w_cwd w) (parse_path (a_manifest args)));
  m ← load_manifest manifest_path;
  print (cat ["phase=manifest-parse manifest="; path_str manifest_path; " workloads=";
              pretty (length (workloads m)); " expected_benchmarks=";
              pretty (length (expected_benchmarks m))]);;
  if a_validate_only args then mret 0
  else
    raw ← pure_ (of_option (RunError "--output-dir is required unless --validate-only is used")
                   (given (a_output_dir args)));
    output_dir ← gets (λ w, resolve (w_cwd w) (parse_path raw));
    if a_verify_only args then
      validate_artifacts m output_dir;;
      print ("phase=artifact-validation-complete output_dir=" +:+ path_str output_dir);;
      mret 0
    else
      binary ← locate_binary (a_binary args);
      run_manifest E m binary output_dir (a_timeouts args);;
      validate_artifacts m output_dir;;
      print ("phase=run-complete output_dir=" +:+ path_str output_dir);;
      mret 0.

Definition main (E : environment) (args : arguments) : io Z :=
  if a_validate_only args && a_verify_only args then
    fail "--validate-only and --verify-only are mutually exclusive";; mret 2
  else
    catch (main_body E args) (λ e,
      match e with
      | ManifestError err | RunError err => fail err;; mret 1
      | e => io_raise e
      end).
End S02.
