(* ===== verification/S02Spec.v ===== *)
(** * What the software evidence runner guarantees

    The theorems about run_s02_evidence.py: which manifests it accepts, that
    every accepted workload can be run, what a completed run and a completed
    validation establish, and how the program exits. *)

From S2P Require Import Prelude PyFloat PyVal PyPath Json World Process RunnerCommon Evidence.
From S2P Require Import RunnerSpec Fixtures S02.
Import S02.

Local Open Scope Z_scope.

(** ** The manifest *)

(** The endpoint artifacts [v] of a workload, four distinct names. *)
Definition artifacts_json (v : json) (arts : dict json) : Prop :=
  ∃ ea doff don c0 s0 c1 s1, v = JObj ea ∧ get "off" ea = JObj doff ∧ get "on" ea = JObj don ∧
    get "client" doff = JStr c0 ∧ get "server" doff = JStr s0 ∧
    get "client" don = JStr c1 ∧ get "server" don = JStr s1 ∧
    Forall (λ s, s ≠ "") [c0; s0; c1; s1] ∧ NoDup [c0; s0; c1; s1] ∧
    arts = [("off", JObj (pair_json c0 s0)); ("on", JObj (pair_json c1 s1))].

Lemma endpoint_pair_step_Ok scope ea validated seen ins acc' :
  endpoint_pair_step scope ea (validated, seen) ins = Ok acc' ↔
  ∃ d c s, get ins ea = JObj d ∧ get "client" d = JStr c ∧ get "server" d = JStr s ∧
    c ≠ "" ∧ s ≠ "" ∧ fresh seen [c; s] ∧
    acc' = (dset ins (JObj (pair_json c s)) validated, list_to_set [c; s] ∪ seen).
Proof.
  unfold endpoint_pair_step. rewrite bind_Ok. setoid_rewrite of_option_Ok.
  setoid_rewrite as_dict_Some. split.
  - intros (d & Hd & H). apply bind_Ok in H as ([vp seen2] & Hp & H).
    apply validate_pair_Ok in Hp as (c & s & ? & ? & ? & ? & ? & -> & ->).
    injection H as <-. by exists d, c, s.
  - intros (d & c & s & Hd & ? & ? & ? & ? & ? & ->). exists d. split; [done|].
    eapply (bind_run _ _ (_, _)); [apply validate_pair_Ok; exists c, s; by split_and!|done].
Qed.

Lemma s02_validate_endpoint_artifacts_Ok index label ea arts :
  validate_endpoint_artifacts index label ea = Ok arts ↔ artifacts_json (JObj ea) arts.
Proof.
  unfold validate_endpoint_artifacts, artifacts_json. cbn [foldM]. split.
  - intros Hr. apply bind_Ok in Hr as ([a0 x0] & Hr & [= <-]).
    apply bind_Ok in Hr as ([a1 x1] & (doff & c0 & s0 & ? & ? & ? & ? & ? & Hf1 & [= -> ->])%endpoint_pair_step_Ok & Hr).
    apply bind_Ok in Hr as ([a2 x2] & (don & c1 & s1 & ? & ? & ? & ? & ? & Hf2 & [= -> ->])%endpoint_pair_step_Ok & Hr).
    injection Hr as <- <-. exists ea, doff, don, c0, s0, c1, s1.
    split_and!; [done..|by repeat constructor| |done].
    apply (fresh_NoDup ∅), (fresh_app ∅ [c0; s0] [c1; s1]). done.
  - intros (? & doff & don & c0 & s0 & c1 & s1 & [= <-] & Hoff & Hon & ? & ? & ? & ? & Hne & Hnd & ->).
    rewrite !Forall_cons in Hne. destruct Hne as (? & ? & ? & ? & _).
    apply fresh_empty in Hnd. apply (fresh_app ∅ [c0; s0] [c1; s1]) in Hnd as [Hf1 Hf2].
    eapply (bind_run _ _ (_, _)); [|done].
    eapply bind_run; [apply endpoint_pair_step_Ok; exists doff, c0, s0; by split_and!|].
    eapply bind_run; [apply endpoint_pair_step_Ok; exists don, c1, s1; by split_and!|done].
Qed.

(** The dictionary a workload [d] is merged into. *)
Definition merge (dflt d : dict json) (label rpc : string) (arts : dict json) : dict json :=
  dset "endpoint_artifacts" (JObj arts)
    (dset "rpc" (JStr rpc) (dset "label" (JStr label) (dupdate dflt d))).

(** The workload [v] of the manifest is accepted as [m]. *)
Definition workload_json (dflt : dict json) (m : dict json) (v : json) : Prop :=
  ∃ d label rpc arts, v = JObj d ∧ get "label" d = JStr label ∧ label ≠ "" ∧
    get "rpc" d = JStr rpc ∧ rpc ≠ "" ∧ artifacts_json (get "endpoint_artifacts" d) arts ∧
    m = merge dflt d label rpc arts ∧
    fields_ok ["measure_ms"; "requests"; "concurrency"] ["runtime"; "compression"; "buffer_policy"] m ∧
    rpc_ok rpc m.

Lemma s02_merge_label dflt d label rpc arts : dget "label" (merge dflt d label rpc arts) = Some (JStr label).
Proof. unfold merge. by rewrite !dget_dset. Qed.

Lemma merge_rpc dflt d label rpc arts : dget "rpc" (merge dflt d label rpc arts) = Some (JStr rpc).
Proof. unfold merge. by rewrite !dget_dset. Qed.

Lemma merge_artifacts dflt d label rpc arts :
  dget "endpoint_artifacts" (merge dflt d label rpc arts) = Some (JObj arts).
Proof. unfold merge. by rewrite dget_dset. Qed.

Lemma s02_workload_label dflt m v :
  workload_json dflt m v → dget "label" m = Some (JStr (label_of m)) ∧ label_of m ≠ "".
Proof.
  intros (d & label & rpc & arts & _ & _ & ? & _ & _ & _ & -> & _).
  assert (label_of (merge dflt d label rpc arts) = label) as ->.
  { unfold label_of, get. by rewrite s02_merge_label. }
  by rewrite s02_merge_label.
Qed.

Lemma s02_validate_workload_Ok index v dflt seen m seen' :
  validate_workload index v dflt seen = Ok (m, seen') ↔
  workload_json dflt m v ∧ (label_of m ∉ seen) ∧ seen' = {[label_of m]} ∪ seen.
Proof.
  unfold validate_workload, workload_json. split.
  - intros H. inv_ok.
    repeat match goal with
    | H : as_dict _ = Some _ |- _ => apply as_dict_Some in H
    | H : required_str _ _ _ _ = Ok _ |- _ => apply required_str_Ok in H as [? ?]
    | H : validate_endpoint_artifacts _ _ _ = Ok _ |- _ => apply s02_validate_endpoint_artifacts_Ok in H
    | H : check_fields _ _ _ _ _ = Ok _ |- _ => apply check_fields_Ok in H
    | H : check_rpc _ _ _ _ = Ok _ |- _ => apply check_rpc_Ok in H
    end. simplify_eq.
    match goal with |- context [dset "endpoint_artifacts" (JObj ?a)
      (dset "rpc" (JStr ?r) (dset "label" (JStr ?l) (dupdate ?f ?d)))] =>
      change (dset "endpoint_artifacts" (JObj a)
        (dset "rpc" (JStr r) (dset "label" (JStr l) (dupdate f d)))) with (merge f d l r a) end.
    assert (∀ f d l r a, label_of (merge f d l r a) = l) as Hl.
    { intros. unfold label_of, get. by rewrite s02_merge_label. }
    rewrite !Hl. split; [|done]. do 4 eexists. split_and!; [done..| |done|done|done].
    congruence.
  - intros ((d & label & rpc & arts & -> & ? & ? & ? & ? & Harts & -> & ? & ?) & Hs & ->).
    assert (label_of (merge dflt d label rpc arts) = label) as Hl.
    { unfold label_of, get. by rewrite s02_merge_label. }
    rewrite Hl in *. pose proof Harts as (ea & _ & _ & _ & _ & _ & _ & Hea & _).
    rewrite Hea in Harts.
    run_ok_with ltac:(first [ done | apply required_str_Ok; by split | by apply as_dict_Some
      | by apply s02_validate_endpoint_artifacts_Ok | by refine (proj2 (check_fields_Ok _ _ _ _ _ tt) _)
      | by refine (proj2 (check_rpc_Ok _ _ _ _ tt) _) ]). done.
Qed.

Lemma s02_validate_workloads_Ok dflt l ws seen :
  validate_workloads dflt l = Ok (ws, seen) ↔
  Forall2 (workload_json dflt) ws l ∧ NoDup (label_of <$> ws) ∧
  seen = list_to_set (label_of <$> ws).
Proof. apply collect_Ok. intros. apply s02_validate_workload_Ok. Qed.

Lemma s02_labels_of_workloads dflt ws l :
  Forall2 (workload_json dflt) ws l → labels_of ws = Ok (list_to_set (label_of <$> ws)).
Proof. apply labels_of_Ok. intros m v Hm. by destruct (s02_workload_label _ _ _ Hm). Qed.

(** The benchmark names [v]: the five of the control-floor suite, in any order. *)
Lemma check_benchmarks_Ok v names :
  check_benchmarks v = Ok names ↔ v = JArr (JStr <$> names) ∧ names ≡ₚ EXPECTED_BENCHMARKS.
Proof.
  unfold check_benchmarks. split.
  - intros H. apply bind_Ok in H as (l & Hl & H). apply of_option_Ok, nonempty_list_Some in Hl as [-> _].
    apply bind_Ok in H as (ks & Hk & H). apply (mapM_nonempty_str (λ i, _)) in Hk as [-> _].
    apply bind_Ok in H as (u & Hs%raise_if_negb_Ok & [= <-]).
    by apply sorted_strings_eq in Hs.
  - intros [-> Hp].
    assert (Forall (λ s, s ≠ "") names) as Hne.
    { rewrite Hp. unfold EXPECTED_BENCHMARKS. by repeat constructor. }
    eapply bind_run; [apply of_option_Ok, nonempty_list_Some; split; [done|]|].
    { intros E. destruct names; [|done]. by apply Permutation_nil_l in Hp. }
    eapply bind_run; [by apply (mapM_nonempty_str (λ i, _))|].
    eapply (bind_run _ _ tt); [|done]. by apply raise_if_negb_Ok, sorted_strings_eq.
Qed.

(** What a manifest document [v] must be for [m] to be its validated form. *)
Record manifest_json (v : json) (m : manifest) : Prop := {
  mj_root : ∃ d, v = JObj d ∧ version m = get "version" d ∧
    or_empty (get "defaults" d) = JObj (defaults m) ∧
    get "expected_benchmarks" d = JArr (JStr <$> expected_benchmarks m) ∧
    ∃ l, get "workloads" d = JArr l ∧ l ≠ [] ∧ Forall2 (workload_json (defaults m)) (workloads m) l;
  mj_benchmarks : expected_benchmarks m ≡ₚ EXPECTED_BENCHMARKS;
  mj_labels : NoDup (label_of <$> workloads m);
  mj_required : ∀ l, l ∈ required_labels → l ∈ label_of <$> workloads m;
}.

Lemma s02_validate_manifest_Ok v m : validate_manifest v = Ok m ↔ manifest_json v m.
Proof.
  unfold validate_manifest. split.
  - intros H. apply bind_Ok in H as (d & ->%of_option_Ok%as_dict_Some & H).
    apply bind_Ok in H as (df & Hdf%of_option_Ok%as_dict_Some & H).
    apply bind_Ok in H as (bs & [Hbs Hp]%check_benchmarks_Ok & H).
    apply bind_Ok in H as (l & [Hl Hne]%of_option_Ok%nonempty_list_Some & H).
    apply bind_Ok in H as ([ws seen] & (Hws & Hnd & ->)%s02_validate_workloads_Ok & H).
    rewrite (s02_labels_of_workloads _ _ _ Hws) in H. cbn [mbind result_bind] in H.
    apply bind_Ok in H as (u & Hm%raise_if_negb_Ok & [= <-]).
    pose proof (proj1 (required_labels_cond _ _) Hm) as Hreq.
    split; [|done..]. exists d. split_and!; try done. by exists l.
  - intros [(d & -> & Hv & Hdf & Hbs & l & Hl & Hne & Hws) Hp Hnd Hreq].
    destruct m as [ver df bs ws]; simpl in *. subst ver.
    eapply bind_run; [by apply of_option_Ok, as_dict_Some|].
    eapply bind_run; [by apply check_benchmarks_Ok|].
    eapply bind_run; [by apply of_option_Ok, nonempty_list_Some|].
    eapply (bind_run _ _ (_, _)); [by apply s02_validate_workloads_Ok|].
    rewrite (s02_labels_of_workloads _ _ _ Hws). cbn [mbind result_bind].
    eapply (bind_run _ _ tt); [|done]. by apply raise_if_negb_Ok, required_labels_cond.
Qed.

Lemma s02_load_manifest_run p w :
  load_manifest p w =
  (match (file_bytes w p ≫= decode_text) ≫= json_loads with
   | Err (OSError err) => Err (ManifestError (cat ["manifest read failed ("; path_str p; "): "; err]))
   | Err (JSONDecodeError err) =>
       Err (ManifestError (cat ["manifest parse failed ("; path_str p; "): "; err]))
   | Err e => Err e
   | Ok v => validate_manifest v
   end, w).
Proof.
  unfold load_manifest, catch, read_text, pure_, io_raise, mbind at 1, io_bind at 1.
  unfold mbind at 1, io_bind at 1.
  destruct (file_bytes w p ≫= decode_text) as [text|e]; [|by destruct e].
  cbn [mbind result_bind]. destruct (json_loads text) as [v|e]; [done|by destruct e].
Qed.

Lemma s02_load_manifest_Ok p w m w' :
  load_manifest p w = (Ok m, w') ↔ w' = w ∧ ∃ v, json_file w p = Some v ∧ manifest_json v m.
Proof.
  rewrite s02_load_manifest_run. unfold json_file.
  destruct (file_bytes w p ≫= decode_text) as [text|e]; cbn [mbind result_bind];
    [|destruct e; naive_solver].
  destruct (json_loads text) as [v|e]; [|destruct e; naive_solver].
  split.
  - intros [= Hv <-]. split; [done|]. exists v. by rewrite <-s02_validate_manifest_Ok.
  - intros (-> & v' & [= <-] & Hv). by rewrite (proj2 (s02_validate_manifest_Ok _ _) Hv).
Qed.

(** ** Exceptions of the manifest *)

Lemma s02_validate_workload_raises index v dflt seen :
  raises is_ManifestError (validate_workload index v dflt seen).
Proof.
  unfold validate_workload, validate_endpoint_artifacts, endpoint_pair_step, validate_pair,
    artifact_role_step. raises_tac.
Qed.

Lemma s02_validate_manifest_raises v : raises is_ManifestError (validate_manifest v).
Proof.
  unfold validate_manifest.
  apply raises_bind; [raises_tac|intros d _]. apply raises_bind; [raises_tac|intros df _].
  apply raises_bind; [unfold check_benchmarks; raises_tac|intros bs _].
  apply raises_bind; [raises_tac|intros l _]. apply raises_bind.
  - apply collect_raises. intros. apply s02_validate_workload_raises.
  - intros [ws seen] (Hws & _)%s02_validate_workloads_Ok. rewrite (s02_labels_of_workloads _ _ _ Hws).
    cbn [mbind result_bind]. raises_tac.
Qed.

(** ** Runs *)

Lemma s02_workload_runnable dflt m v : workload_json dflt m v → runnable m.
Proof.
  intros Hw. pose proof (s02_workload_label _ _ _ Hw) as [Hl ?].
  destruct Hw as (d & label & rpc & arts & _ & _ & _ & _ & ? & _ & -> & [? ? ?] & ?).
  split; [by eexists|by exists rpc; rewrite merge_rpc|done..].
Qed.

(** The four artifact names of a workload. *)
Definition has_artifacts (m : dict json) (c0 s0 c1 s1 : string) : Prop :=
  dget "endpoint_artifacts" m =
    Some (JObj [("off", JObj (pair_json c0 s0)); ("on", JObj (pair_json c1 s1))]) ∧
  Forall (λ s, s ≠ "") [c0; s0; c1; s1] ∧ NoDup [c0; s0; c1; s1].

Lemma s02_workload_artifacts dflt m v :
  workload_json dflt m v → ∃ c0 s0 c1 s1, has_artifacts m c0 s0 c1 s1.
Proof.
  intros (d & label & rpc & arts & _ & _ & _ & _ & _ & Ha & -> & _ & _).
  destruct Ha as (ea & doff & don & c0 & s0 & c1 & s1 & _ & _ & _ & _ & _ & _ & _ & Hne & Hnd & ->).
  exists c0, s0, c1, s1. split_and!; [apply merge_artifacts|done..].
Qed.

(** The artifact of a run: those of [off] before those of [on]. *)
Lemma artifact_path_Ok m c0 s0 c1 s1 out :
  has_artifacts m c0 s0 c1 s1 →
  artifact_path out m "off" "client" = Ok (path_div out c0) ∧
  artifact_path out m "off" "server" = Ok (path_div out s0) ∧
  artifact_path out m "on" "client" = Ok (path_div out c1) ∧
  artifact_path out m "on" "server" = Ok (path_div out s1).
Proof. intros [H _]. unfold artifact_path, ditem. by rewrite H. Qed.

Section runs.
Context (E : environment) (dflt : dict json).

(** The run of a workload is a run of a server and a client with commands made
    of strings, at a reserved address. *)
Lemma s02_run_entry_run binary out t m v label ins w :
  workload_json dflt m v → ins ∈ ["off"; "on"] →
  ∃ a, run_entry E binary out t m label ins w = run_server_client_pair E a w ∧
    is_command (pa_server_cmd a) ∧ is_command (pa_client_cmd a) ∧
    pa_bind_addr a = cat ["127.0.0.1:"; pretty (env_port E w)] ∧ pa_error_cls a = RunError.
Proof.
  intros Hw Hins. set (addr := cat ["127.0.0.1:"; pretty (env_port E w)]).
  destruct (build_rpc_args_Ok m addr (s02_workload_runnable _ _ _ Hw)) as (args & Hargs & Hstr).
  destruct (s02_workload_artifacts _ _ _ Hw) as (c0 & s0 & c1 & s1 & Ha).
  destruct (artifact_path_Ok _ _ _ _ _ out Ha) as (Hc0 & Hs0 & Hc1 & Hs1).
  assert (∃ pc ps, artifact_path out m ins "client" = Ok pc ∧ artifact_path out m ins "server" = Ok ps)
    as (pc & ps & Hpc & Hps).
  { rewrite !elem_of_cons, elem_of_nil in Hins. destruct Hins as [->|[->|[]]]; eauto. }
  destruct (s02_workload_runnable _ _ _ Hw) as [_ _ _ Hints _]. rewrite !Forall_cons in Hints.
  destruct Hints as (_ & (rq & Hrq & _)%pos_int_dget & _).
  unfold run_entry, reserve_addr, gets, build_common_args, pure_, mbind, io_bind, mret, io_ret.
  fold addr. rewrite Hargs, Hpc, Hps, (arg_text_Ok _ _ _ Hrq).
  eexists. split; [reflexivity|]. cbn [pa_server_cmd pa_client_cmd pa_bind_addr pa_error_cls].
  split_and!; [| |done|done]; (split; [done|]);
    rewrite ?Forall_app, ?Forall_cons; split_and!; try done; by eexists.
Qed.

Lemma s02_label_arg m v : workload_json dflt m v → (ditem "label" m ≫= arg_str) = Ok (label_of m).
Proof. intros [Hl _]%s02_workload_label. unfold ditem. by rewrite Hl. Qed.

Lemma run_workload_ran binary out t m v w w' :
  workload_json dflt m v →
  (label ← pure_ (ditem "label" m ≫= arg_str);
   iterM (run_entry E binary out t m label) ["off"; "on"]) w = (Ok tt, w') →
  ran 4 w w'.
Proof.
  intros Hw. rewrite (s02_label_arg _ _ Hw).
  rewrite (io_bind_run _ _ w (label_of m) w) by done.
  intros Hrun. change 4%nat with (length ["off"; "on"] * 2)%nat. eapply ran_iterM; [|done].
  intros ins w1 w2 Hins. destruct (s02_run_entry_run binary out t m v (label_of m) ins w1 Hw Hins)
    as (a & -> & _). apply ran_pair.
Qed.

Lemma run_workload_raises binary out t m v :
  loopback E → workload_json dflt m v →
  io_raises (λ e, run_error RunError e ∨ ∃ m, e = ValueError m) (label ← pure_ (ditem "label" m ≫= arg_str);
    iterM (run_entry E binary out t m label) ["off"; "on"]).
Proof.
  intros Hloop Hw. rewrite (s02_label_arg _ _ Hw).
  apply io_raises_bind; [by apply io_raises_pure|]. intros label.
  apply io_iterM_raises. intros ins Hins w.
  destruct (s02_run_entry_run binary out t m v label ins w Hw Hins) as (a & -> & Hs & Hc & Ha & He).
  eapply raises_mono; [|apply run_pair_raises]. intros e Hf. rewrite <-He. by eapply reserved_failure.
Qed.

Lemma s02_run_manifest_ran m binary out t l w w' :
  Forall2 (workload_json dflt) (workloads m) l →
  run_manifest E m binary out t w = (Ok tt, w') → ran (4 * length (workloads m)) w w'.
Proof.
  intros Hws Hrun. unfold run_manifest in Hrun.
  apply io_bind_Ok in Hrun as ([] & w1 & Hmk & Hrun).
  assert (w_procs w1 = w_procs w) as Hp.
  { destruct (mkdir_p_cases out w) as (fs & [Hm|[? Hm]]); rewrite Hm in Hmk; by simplify_eq/=. }
  replace (4 * _)%nat with (0 + length (workloads m) * 4)%nat by lia.
  eapply ran_trans; [by apply ran_refl|]. eapply ran_iterM; [|done].
  intros x w2 w3 Hx. destruct (Forall2_elem_l _ _ _ _ Hws Hx) as (v & _ & Hv).
  by eapply run_workload_ran.
Qed.

Lemma s02_run_manifest_raises m binary out t l :
  loopback E → Forall2 (workload_json dflt) (workloads m) l →
  io_raises (λ e, run_error RunError e ∨ ∃ m, e = ValueError m) (run_manifest E m binary out t).
Proof.
  intros Hloop Hws. apply io_raises_bind; [intros w; eapply raises_mono; [|apply mkdir_p_raises]; by left|]. intros _.
  apply io_iterM_raises. intros x Hx. destruct (Forall2_elem_l _ _ _ _ Hws Hx) as (v & _ & Hv).
  by eapply run_workload_raises.
Qed.
End runs.

(** ** Reports *)

(** What a report must say to pass: it is the report of this workload, this
    endpoint and this instrumentation, with plausible sizes, every stage counter,
    and counters that are not all zero when instrumentation is on. *)
Record report_ok (entry : dict json) (ins role : string) (report : dict json) : Prop := {
  rp_sections : ∃ md mt st,
    dget "metadata" report = Some (JObj md) ∧ dget "metrics" report = Some (JObj mt) ∧
    dget "stages" report = Some (JObj st) ∧
    (∃ label rpc bp, dget "label" entry = Some label ∧ dget "rpc" entry = Some rpc ∧
       dget "buffer_policy" entry = Some bp ∧
       Forall (λ '(k, v), py_eq (get k md) v = true)
         [("mode", JStr role); ("endpoint_role", JStr role); ("ordinary_path", JStr "software");
          ("seam", JStr "codec_body"); ("rpc", rpc); ("workload_label", label);
          ("instrumentation", JStr ins); ("buffer_policy", bp)]) ∧
    is_Some (nonempty_str (get "run_id" md)) ∧
    Forall (λ f, is_Some (pos_int (get f md)))
      ["effective_codec_buffer_size"; "effective_codec_yield_threshold";
       "request_serialized_size"; "response_serialized_size"] ∧
    shape_ok entry md ∧
    is_Some (pos_int (get "requests_completed" mt)) ∧
    get "enabled" st = JBool (bool_decide (ins = "on")) ∧ stages_ok st;
  rp_counters : ins = "on" → placeholder_only report = Ok false;
}.

Lemma s02_validate_report_Ok entry ins role path report u :
  validate_report entry ins role path report = Ok u ↔ report_ok entry ins role report.
Proof.
  unfold validate_report. split.
  - intros Hr. apply bind_Ok in Hr as (label & Hlab%ditem_Ok & Hr).
    apply bind_Ok in Hr as ([[md mt] st] & (? & ? & ?)%report_sections_Ok & Hr).
    apply bind_Ok in Hr as (pairs & Hp & Hr). unfold expected_pairs in Hp.
    apply bind_Ok in Hp as (rpc & Hrpc%ditem_Ok & Hp).
    apply bind_Ok in Hp as (bp & Hbp%ditem_Ok & [= <-]).
    rewrite !seq_Ok, check_pairs_Ok, check_run_id_Ok, !check_sizes_Ok, check_shape_Ok,
      check_requests_Ok, check_enabled_Ok, check_stages_Ok, if_Ok, check_placeholder_Ok,
      bool_decide_eq_true in Hr.
    destruct Hr as (? & ? & Hs1 & Hs2 & ? & ? & ? & ? & ?).
    split; [|done]. exists md, mt, st. split_and!; [done|done|done| |done| |done..].
    + by exists label, rpc, bp.
    + rewrite !Forall_cons in *. naive_solver.
  - intros [(md & mt & st & Hmd & Hmt & Hst & (label & rpc & bp & Hlab & Hrpc & Hbp & Hp) &
      Hid & Hsz & Hsh & Hrq & Hen & Hstg) Hc].
    unfold ditem at 1. rewrite Hlab. cbn [mbind result_bind of_option].
    eapply (bind_run _ _ (md, mt, st)); [by apply report_sections_Ok|].
    cbv beta iota. unfold expected_pairs, ditem. rewrite Hrpc, Hbp.
    cbn [mbind result_bind of_option mret result_ret].
    rewrite !seq_Ok, check_pairs_Ok, check_run_id_Ok, !check_sizes_Ok, check_shape_Ok,
      check_requests_Ok, check_enabled_Ok, check_stages_Ok, if_Ok, check_placeholder_Ok,
      bool_decide_eq_true.
    rewrite !Forall_cons in Hsz. destruct Hsz as (? & ? & ? & ? & _).
    split_and!; try done; by repeat constructor.
Qed.

(** [validated w out entry ins role report]: the artifact of this run and
    endpoint holds [report], which passes. *)
Definition validated (w : world) (out : path) (entry : dict json) (ins role : string)
    (report : dict json) : Prop :=
  ∃ p, artifact_path out entry ins role = Ok p ∧ json_file w p = Some (JObj report) ∧
    report_ok entry ins role report.

Lemma s02_validate_artifact_Ok out entry label ins role sigs w report sigs' w' :
  validate_artifact out entry label ins role sigs w = (Ok (report, sigs'), w') →
  same_files w w' ∧ validated w out entry ins role report ∧
  if bool_decide (ins = "on") then
    ∃ s by_label, report_signature report = Ok s ∧ dget role sigs = Some by_label ∧
      sigs' = dset role (dset label s by_label) sigs
  else sigs' = sigs.
Proof.
  unfold validate_artifact. intros H.
  apply io_bind_pure in H as (p & Hp & H).
  apply io_bind_Ok in H as (present & w1 & [= <- <-] & H). apply io_bind_raise_if in H as [_ H].
  apply io_bind_Ok in H as (rep & w1 & [-> Hj]%parse_report_Ok & H).
  apply io_bind_pure in H as ([] & Hv%s02_validate_report_Ok & H).
  apply io_print_bind in H as [_ H].
  case_bool_decide.
  - apply io_bind_pure in H as (s & Hs & H). apply io_bind_pure in H as (bl & Hbl%ditem_Ok & H).
    apply io_mret_Ok in H as [[= <- <-] ->]. split_and!; [done|by exists p|by exists s, bl].
  - apply io_mret_Ok in H as [[= <- <-] ->]. split_and!; [done|by exists p|done].
Qed.

Lemma s02_report_ok_run_id entry ins role report :
  report_ok entry ins role report → ∃ id, metadata_field report "run_id" = Ok (JStr id) ∧ id ≠ "".
Proof.
  intros [(md & mt & st & Hmd & _ & _ & _ & (id & Hid & ?)%nonempty_str_is_Some & _) _].
  exists id. split; [|done]. unfold metadata_field, ditem. rewrite Hmd. cbn. by rewrite Hid.
Qed.

(** The reports of a run: both pass and carry the same run id. *)
Definition run_validated (w : world) (out : path) (entry : dict json) (ins : string) : Prop :=
  ∃ rc rs id, validated w out entry ins "client" rc ∧ validated w out entry ins "server" rs ∧
    metadata_field rc "run_id" = Ok (JStr id) ∧ metadata_field rs "run_id" = Ok (JStr id) ∧ id ≠ "".

(** The instrumented reports, whose signatures are compared. *)
Definition evidence (w : world) (out : path) (entry : dict json) (role : string) : dict json → Prop :=
  validated w out entry "on" role.

Lemma s02_validated_same w w' out entry ins role report :
  same_files w w' → validated w' out entry ins role report ↔ validated w out entry ins role report.
Proof. intros Hs. unfold validated. by setoid_rewrite (same_files_json w w' _ Hs). Qed.

Lemma validate_artifact_sigs w0 out entries entry label ins role sigs w report sigs' w' :
  same_files w0 w → entry ∈ entries → sigs_ok (evidence w0 out) entries sigs →
  validate_artifact out entry label ins role sigs w = (Ok (report, sigs'), w') →
  same_files w0 w' ∧ sigs_ok (evidence w0 out) entries sigs' ∧ validated w0 out entry ins role report.
Proof.
  intros Hw He Hok (Hs & Hv & Hsig)%s02_validate_artifact_Ok.
  apply (s02_validated_same _ _ _ _ _ _ _ Hw) in Hv.
  split_and!; [by eapply same_files_trans| |done].
  case_bool_decide; [subst ins|by subst].
  destruct Hsig as (s & bl & ? & ? & ->). by eapply sigs_ok_record.
Qed.

Lemma validate_run_Ok w0 out entries entry label ins sigs w sigs' w' :
  same_files w0 w → entry ∈ entries → sigs_ok (evidence w0 out) entries sigs →
  validate_run out entry label sigs ins w = (Ok sigs', w') →
  same_files w0 w' ∧ sigs_ok (evidence w0 out) entries sigs' ∧ run_validated w0 out entry ins.
Proof.
  intros Hw He Hok H. unfold validate_run in H.
  apply io_bind_Ok in H as ([rc sg1] & w1 & Hc & H).
  destruct (validate_artifact_sigs _ _ _ _ _ _ _ _ _ _ _ _ Hw He Hok Hc) as (Hw1 & Hok1 & Hvc).
  apply io_bind_Ok in H as ([rs sg2] & w2 & Hs & H).
  destruct (validate_artifact_sigs _ _ _ _ _ _ _ _ _ _ _ _ Hw1 He Hok1 Hs) as (Hw2 & Hok2 & Hvs).
  apply io_bind_pure in H as (ic & Hic & H). apply io_bind_pure in H as (sid & Hsid & H).
  apply io_bind_raise_if in H as [Hid%negb_false_iff H].
  apply io_bind_pure in H as (lc & _ & H). apply io_bind_pure in H as (ls & _ & H).
  apply io_bind_raise_if in H as [_ H]. apply io_mret_Ok in H as [<- ->].
  split_and!; [done..|].
  destruct Hvc as (pc & Hpc & Hjc & Hrc), Hvs as (ps & Hps & Hjs & Hrs).
  destruct (s02_report_ok_run_id _ _ _ _ Hrc) as (id & Hid' & Hne).
  assert (ic = JStr id) as -> by congruence. apply py_eq_str_l in Hid as ->.
  exists rc, rs, id. split_and!; [by exists pc|by exists ps|done..].
Qed.

Lemma validate_workload_runs w0 out entries entry label sigs w sigs' w' :
  same_files w0 w → entry ∈ entries → sigs_ok (evidence w0 out) entries sigs →
  foldM (validate_run out entry label) sigs ["off"; "on"] w = (Ok sigs', w') →
  same_files w0 w' ∧ sigs_ok (evidence w0 out) entries sigs' ∧
  ∀ ins, ins ∈ ["off"; "on"] → run_validated w0 out entry ins.
Proof.
  intros Hw He Hok H. cbn [foldM] in H.
  apply io_bind_Ok in H as (sg1 & w1 & H1 & H).
  destruct (validate_run_Ok _ _ _ _ _ _ _ _ _ _ Hw He Hok H1) as (Hw1 & Hok1 & Hv1).
  apply io_bind_Ok in H as (sg2 & w2 & H2 & H).
  destruct (validate_run_Ok _ _ _ _ _ _ _ _ _ _ Hw1 He Hok1 H2) as (Hw2 & Hok2 & Hv2).
  apply io_mret_Ok in H as [<- ->]. split_and!; [done..|].
  intros ins. rewrite !elem_of_cons, elem_of_nil. by intros [->|[->|[]]].
Qed.

(** What a completed validation establishes, for the files as they are. *)
Definition evidence_ok (w : world) (out : path) (entries : list (dict json)) : Prop :=
  (∀ entry ins, entry ∈ entries → ins ∈ ["off"; "on"] → run_validated w out entry ins) ∧
  ∀ role, role ∈ ENDPOINT_ROLES → sensitive (evidence w out) entries role.

Lemma check_sensitivity_Ok w0 out entries sigs role w w' :
  sigs_ok (evidence w0 out) entries sigs → role ∈ ENDPOINT_ROLES →
  check_sensitivity out sigs role w = (Ok tt, w') → sensitive (evidence w0 out) entries role.
Proof.
  intros Hok Hr H. unfold check_sensitivity in H.
  apply io_bind_pure in H as (bl & Hbl%ditem_Ok & H).
  apply io_bind_raise_if in H as [Hsz%bool_decide_eq_false _].
  by eapply sigs_ok_sensitive.
Qed.

Lemma s02_validate_artifacts_Ok m out w w' :
  validate_artifacts m out w = (Ok tt, w') → evidence_ok w out (workloads m).
Proof.
  intros H. unfold validate_artifacts in H. apply io_bind_Ok in H as (sigs & w1 & Hfold & Hsens).
  assert (same_files w w1 ∧ sigs_ok (evidence w out) (workloads m) sigs ∧
    ∀ entry ins, entry ∈ workloads m → ins ∈ ["off"; "on"] → run_validated w out entry ins)
    as (_ & Hok & Hruns).
  { revert Hfold. apply (io_foldM_inv _ (λ done sigs w1, same_files w w1 ∧
      sigs_ok (evidence w out) (workloads m) sigs ∧
      ∀ entry ins, entry ∈ done → ins ∈ ["off"; "on"] → run_validated w out entry ins)).
    - split_and!; [done| |set_solver]. intros role. unfold ENDPOINT_ROLES.
      rewrite !elem_of_cons, elem_of_nil. intros [->|[->|[]]]; by eexists.
    - intros done x rest acc acc' wa wb Heq (Hs & Hsig & Hall) Hstep.
      apply io_bind_pure in Hstep as (label & _ & Hstep).
      destruct (validate_workload_runs w out (workloads m) x label acc wa acc' wb)
        as (? & ? & Hx); [done|rewrite Heq; set_solver|done|done|].
      split_and!; [done..|]. intros entry ins [He|He%list_elem_of_singleton]%elem_of_app Hins;
        [by apply Hall|subst; by apply Hx]. }
  split; [done|]. intros role Hr. destruct (io_iterM_elem _ _ _ _ _ Hsens Hr) as (wa & wb & Hc).
  by eapply check_sensitivity_Ok.
Qed.

(** ** The guarantees *)

Definition s02_path : path := fixture_manifest "s02_trustworthy_matrix.json".
Definition s02_out : path := parse_path "/repo/out".

Definition no_manifest : manifest := Manifest JNull [] [] [].
Definition s02_manifest : manifest :=
  match (load_manifest s02_path s02_world).1 with Ok m => m | Err _ => no_manifest end.

Lemma s02_manifest_run : load_manifest s02_path s02_world = (Ok s02_manifest, s02_world).
Proof.
  rewrite s02_load_manifest_run. apply (f_equal (λ r, (r, s02_world))). vm_compute. reflexivity.
Qed.

(** C10: [load_manifest] changes nothing and returns [m] exactly when the file
    holds a manifest that describes [m]: the five benchmarks in any order, and
    workloads with distinct labels, the two required ones among them, whose
    merged fields are complete and whose four artifact names are distinct. *)
Theorem s02_load_manifest_accepts p w m w' :
  load_manifest p w = (Ok m, w') ↔ w' = w ∧ ∃ v, json_file w p = Some v ∧ manifest_json v m.
Proof. apply s02_load_manifest_Ok. Qed.

(** The only exceptions of [load_manifest] are its own error class and the
    decoding error of a file that is not UTF-8. *)
Theorem s02_load_manifest_errors p w :
  raises (λ e, is_ManifestError e ∨ e = UnicodeDecodeError) (load_manifest p w).1.
Proof.
  rewrite s02_load_manifest_run. cbn [fst]. pose proof (file_bytes_raises w p) as Hf.
  destruct (file_bytes w p) as [bytes|e]; cbn [mbind result_bind].
  2: { destruct Hf as [m ->]. simpl. left. by eexists. }
  pose proof (decode_text_raises bytes) as Hd.
  destruct (decode_text bytes) as [text|e]; cbn [mbind result_bind].
  2: { simpl in Hd. subst. by right. }
  pose proof (json_loads_raises text) as Hj.
  destruct (json_loads text) as [v|e]; cbn [mbind result_bind].
  2: { destruct Hj as [m ->]. simpl. left. by eexists. }
  eapply raises_mono; [|apply s02_validate_manifest_raises]. by left.
Qed.

(** Every workload of a loaded manifest can be run: for any address its
    command line exists and consists of strings, and its four artifacts are
    distinct paths below the output directory. *)
Theorem s02_workloads_runnable p w m w' entry addr :
  load_manifest p w = (Ok m, w') → entry ∈ workloads m →
  (∃ args, build_common_args entry addr = Ok args ∧ Forall is_arg args) ∧
  ∃ c0 s0 c1 s1, NoDup [c0; s0; c1; s1] ∧ ∀ out,
    artifact_path out entry "off" "client" = Ok (path_div out c0) ∧
    artifact_path out entry "off" "server" = Ok (path_div out s0) ∧
    artifact_path out entry "on" "client" = Ok (path_div out c1) ∧
    artifact_path out entry "on" "server" = Ok (path_div out s1).
Proof.
  intros (_ & v & _ & [(d & _ & _ & _ & _ & l & _ & _ & Hws) _ _ _])%s02_load_manifest_Ok He.
  destruct (Forall2_elem_l _ _ _ _ Hws He) as (x & _ & Hx). split.
  - apply build_rpc_args_Ok. by eapply s02_workload_runnable.
  - destruct (s02_workload_artifacts _ _ _ Hx) as (c0 & s0 & c1 & s1 & Ha).
    exists c0, s0, c1, s1. split; [by destruct Ha as (_ & _ & ?)|].
    intros out. by apply artifact_path_Ok.
Qed.

Definition s02_entry : dict json := default [] (workloads s02_manifest !! 1%nat).

Lemma s02_workloads_runnable_witness :
  ∃ args, build_common_args s02_entry "127.0.0.1:1" = Ok args ∧ Forall is_arg args.
Proof.
  apply (s02_workloads_runnable s02_path s02_world s02_manifest s02_world).
  - apply s02_manifest_run.
  - apply (list_elem_of_lookup_2 _ 1). vm_compute. reflexivity.
Defined.

(** A completed [run_manifest] has started a server and a client for each
    workload without and with instrumentation, four children per workload, and
    all of them exited with code 0. *)
Theorem s02_run_manifest_success E p w0 m w1 binary out t w w' :
  load_manifest p w0 = (Ok m, w1) → run_manifest E m binary out t w = (Ok tt, w') →
  ∃ ps, w_procs w' = w_procs w ++ ps ∧ length ps = (4 * length (workloads m))%nat ∧
    Forall (λ p, pr_ret p = Some 0) ps.
Proof.
  intros (_ & v & _ & [(d & _ & _ & _ & _ & l & _ & _ & Hws) _ _ _])%s02_load_manifest_Ok Hrun.
  by apply (s02_run_manifest_ran E (defaults m) m binary out t l).
Qed.

Definition s02_timeouts : timeouts := Timeouts (10 * SECOND) (20 * SECOND) (10 * SECOND).

Lemma s02_run_manifest_success_witness :
  ∃ ps, w_procs (run_manifest (demo_env 0) s02_manifest (parse_path "/bin") s02_out s02_timeouts
                   s02_world).2 = ps ∧ length ps = 8%nat ∧ Forall (λ p, pr_ret p = Some 0) ps.
Proof.
  destruct (s02_run_manifest_success (demo_env 0) s02_path s02_world s02_manifest s02_world
    (parse_path "/bin") s02_out s02_timeouts s02_world
    (run_manifest (demo_env 0) s02_manifest (parse_path "/bin") s02_out s02_timeouts s02_world).2)
    as (ps & Hps & Hlen & Hall).
  - apply s02_manifest_run.
  - apply io_run_fst. vm_compute. reflexivity.
  - exists ps. split; [exact Hps|]. split; [|done]. rewrite Hlen. vm_compute. reflexivity.
Defined.

(** An exception that leaves [run_manifest] on a loaded manifest is the runner's
    own error, an [OSError], the [TimeoutExpired] of a server that outlives
    SIGKILL, or the [ValueError] of a string that cannot be passed on or printed;
    never a lookup, type or port error. *)
Theorem s02_run_manifest_errors E p w0 m w1 binary out t w :
  loopback E → load_manifest p w0 = (Ok m, w1) →
  raises (λ e, run_error RunError e ∨ ∃ m, e = ValueError m) (run_manifest E m binary out t w).1.
Proof.
  intros Hloop (_ & v & _ & [(d & _ & _ & _ & _ & l & _ & _ & Hws) _ _ _])%s02_load_manifest_Ok.
  by apply (s02_run_manifest_raises E (defaults m) m binary out t l).
Qed.

Lemma s02_run_manifest_errors_witness :
  raises (λ e, run_error RunError e ∨ ∃ m, e = ValueError m)
    (run_manifest (demo_env 1) s02_manifest (parse_path "/bin") s02_out s02_timeouts s02_world).1.
Proof.
  apply (s02_run_manifest_errors (demo_env 1) s02_path s02_world s02_manifest s02_world).
  - split; [intros w; discriminate|]. intros w port. do 2 eexists. reflexivity.
  - apply s02_manifest_run.
Defined.

(** C11: [validate_report] passes exactly the reports that satisfy [report_ok]:
    they identify this workload, endpoint and instrumentation, carry a run id,
    positive sizes, the workload's shape and every stage counter, say whether
    they were instrumented, and have a non-zero counter if they were. *)
Theorem s02_validate_report_spec entry ins role path report :
  validate_report entry ins role path report = Ok tt ↔ report_ok entry ins role report.
Proof. apply s02_validate_report_Ok. Qed.

(** A completed [validate_artifacts] means that, in the files as they are,
    every workload has passing client and server reports with the same run id
    for both instrumentations, and that for each endpoint two instrumented
    reports have different byte signatures. *)
Theorem s02_validate_artifacts_evidence m out w w' :
  validate_artifacts m out w = (Ok tt, w') → evidence_ok w out (workloads m).
Proof. apply s02_validate_artifacts_Ok. Qed.

Lemma s02_validate_artifacts_evidence_witness :
  evidence_ok s02_world s02_out (workloads s02_manifest).
Proof.
  apply (s02_validate_artifacts_evidence s02_manifest s02_out s02_world
    (validate_artifacts s02_manifest s02_out s02_world).2).
  apply io_run_fst. vm_compute. reflexivity.
Defined.

Lemma s02_main_catch E args w c w' :
  a_validate_only args && a_verify_only args = false →
  main E args w = (Ok c, w') → c = 0 → main_body E args w = (Ok 0, w').
Proof.
  unfold main, catch. intros -> Hrun ->.
  destruct (main_body E args w) as [[c|e] w1]; [done|].
  destruct e; unfold io_raise, pure_, fail, eprint, mbind, io_bind, mret, io_ret in Hrun; by simplify_eq.
Qed.

Lemma s02_validate_artifacts_quiet R `{!Quiet R} m out : preserves R (validate_artifacts m out).
Proof.
  unfold validate_artifacts, validate_run, validate_artifact, check_sensitivity, parse_json,
    parse_report. preserves_tac.
Qed.

Lemma s02_evidence_same w w' out entries :
  same_files w w' → evidence_ok w out entries → evidence_ok w' out entries.
Proof.
  intros Hs. unfold evidence_ok, run_validated, evidence, sensitive.
  by setoid_rewrite (s02_validated_same w w' _ _ _ _ _ Hs).
Qed.

(** The end of [main]: the reports are checked and a last line is printed. *)
Lemma s02_check_and_report m out line w c w' :
  (validate_artifacts m out;; print line;; mret 0) w = (Ok c, w') →
  same_files w w' ∧ same_procs w w' ∧ evidence_ok w' out (workloads m).
Proof.
  intros H. apply io_bind_Ok in H as ([] & w1 & Hv & H).
  apply io_print_bind in H as [_ H]. apply io_mret_Ok in H as [_ ->].
  pose proof (preserves_Ok same_files _ _ _ _ (s02_validate_artifacts_quiet _ m out) Hv) as Hf.
  pose proof (preserves_Ok same_procs _ _ _ _ (s02_validate_artifacts_quiet _ m out) Hv) as Hp.
  split_and!; [by eapply same_files_trans|done|].
  apply (s02_evidence_same w); [by eapply same_files_trans|]. by eapply s02_validate_artifacts_Ok.
Qed.

(** C12: when the program exits with code 0, the options do not conflict and the
    manifest was accepted.  Asked to validate the manifest only, it has done
    nothing but print.  Otherwise the evidence in the output directory is
    complete in the files it leaves behind; asked to verify only, it has changed
    no file and started nothing; and if not, the children it has started are a
    server and a client for each workload without and with instrumentation, all
    waited for and all with exit code 0. *)
Theorem s02_main_success E args w w' :
  main E args w = (Ok 0, w') →
  a_validate_only args && a_verify_only args = false ∧
  ∃ m, (load_manifest (resolve (w_cwd w) (parse_path (a_manifest args))) w).1 = Ok m ∧
    if a_validate_only args then w' = set_out (w_out w') w
    else ∃ raw, given (a_output_dir args) = Some raw ∧
      evidence_ok w' (resolve (w_cwd w) (parse_path raw)) (workloads m) ∧
      if a_verify_only args then same_files w w' ∧ same_procs w w'
      else ran (4 * length (workloads m)) w w'.
Proof.
  intros Hmain. destruct (a_validate_only args && a_verify_only args) eqn:Hconf.
  { unfold main in Hmain. rewrite Hconf in Hmain. discriminate Hmain. }
  split; [done|].
  apply (s02_main_catch _ _ _ _ _ Hconf) in Hmain; [|done]. unfold main_body in Hmain.
  rewrite io_gets_bind in Hmain.
  apply io_bind_Ok in Hmain as (m & w1 & Hm & Hmain). exists m. rewrite Hm. split; [done|].
  apply s02_load_manifest_Ok in Hm as (-> & v & _ & [(d & _ & _ & _ & _ & l & _ & _ & Hws) _ _ _]).
  apply io_print_bind in Hmain as [_ Hmain]. set (w1 := set_out _ w) in Hmain.
  destruct (a_validate_only args); [by injection Hmain as <-|].
  apply io_bind_pure in Hmain as (raw & Hraw%of_option_Ok & Hmain).
  rewrite io_gets_bind in Hmain. exists raw. split; [done|].
  destruct (a_verify_only args).
  - apply s02_check_and_report in Hmain as (? & ? & ?). by split_and!.
  - apply io_bind_Ok in Hmain as (bin & w2 & ->%locate_binary_world & Hmain).
    apply io_bind_Ok in Hmain as ([] & w3 & Hrun & Hmain).
    apply s02_check_and_report in Hmain as (_ & Hp & ?). split; [done|].
    apply (s02_run_manifest_ran E (defaults m) m bin _ _ l) in Hrun; [|done].
    unfold ran. by rewrite Hp.
Qed.

(** The checked-out reports, verified, and a machine on which the runs succeed. *)
Definition s02_args (verify : bool) : arguments :=
  Arguments "accel-rpc/tonic-profile/workloads/s02_trustworthy_matrix.json" (Some "out")
    (Some "accel-rpc/tonic-profile/workloads/s02_trustworthy_matrix.json") false verify s02_timeouts.

Lemma s02_main_success_witness :
  ∃ m w', main (demo_env 0) (s02_args false) s02_world = (Ok 0, w') ∧
    evidence_ok w' s02_out (workloads m) ∧ ran (4 * length (workloads m)) s02_world w'.
Proof.
  destruct (s02_main_success (demo_env 0) (s02_args false) s02_world
    (main (demo_env 0) (s02_args false) s02_world).2
    ltac:(apply io_run_fst; vm_compute; reflexivity)) as (_ & m & _ & raw & [= <-] & He & Hr).
  exists m, (main (demo_env 0) (s02_args false) s02_world).2.
  split; [apply io_run_fst; vm_compute; reflexivity|by split].
Defined.

(** A proto-shape workload that asks for the response shape [same] passes
    only reports that say [same] literally; a report of the shape that was
    resolved from it is rejected. *)
Theorem s02_same_shape_literal entry ins role path report md :
  dget "rpc" entry = Some (JStr "unary-proto-shape") →
  dget "response_shape" entry = Some (JStr "same") →
  dget "metadata" report = Some (JObj md) →
  validate_report entry ins role path report = Ok tt →
  get "response_shape" md = JStr "same".
Proof.
  intros Hrpc Hsame Hmd Hv%s02_validate_report_Ok.
  destruct Hv as [(md' & _ & _ & Hmd' & _ & _ & _ & _ & _ & (rpc & Hrpc' & Hsh) & _) _].
  assert (md' = md) as -> by congruence. assert (rpc = JStr "unary-proto-shape") as -> by congruence.
  change (py_eq (JStr "unary-proto-shape") (JStr "unary-bytes")) with false in Hsh.
  cbv iota in Hsh. rewrite !Forall_cons in Hsh.
  destruct Hsh as (_ & (v & Hv & Heq) & _). assert (v = JStr "same") as -> by congruence.
  by apply py_eq_str_r in Heq.
Qed.

(** A workload whose response shape is [same], and a report that says so. *)
Definition same_entry : dict json :=
  dset "response_shape" (JStr "same") s02_entry.
Definition same_report : dict json :=
  match json_loads (report_text "client" shape_label "unary-proto-shape" "off"
    "'request_shape': 'fleet-small', 'response_shape': 'same'" "0") with
  | Ok (JObj d) => d
  | _ => []
  end.
Definition same_metadata : dict json :=
  match dget "metadata" same_report with Some (JObj d) => d | _ => [] end.

Lemma s02_same_shape_literal_witness : get "response_shape" same_metadata = JStr "same".
Proof.
  apply (s02_same_shape_literal same_entry "off" "client" (parse_path "a") same_report);
    vm_compute; reflexivity.
Defined.
