(* ===== verification/S03.v ===== *)
(** * The hardware evidence runner

    Model of accel-rpc/tonic-profile/scripts/run_s03_idxd_evidence.py: the
    manifest of the IDXD workloads, their runs on an accelerator device through
    the [devenv] launcher, and the validation of the reports they write.  The
    repository the script is in, which it finds from its own path, is the
    argument [repo_root]. *)

From S2P Require Import Prelude PyFloat PyVal PyPath Json World Process RunnerCommon Evidence.

Local Open Scope Z_scope.

Module S03.

Definition REQUIRED_LABELS : gset string :=
  {[ "ordinary/unary-bytes/repeated-64";
     "ordinary/unary-proto-shape/fleet-small-to-fleet-response-heavy" ]}.

Definition EXPECTED_METADATA_FIELDS : dict string :=
  [("ordinary_path", "software"); ("selected_path", "idxd"); ("seam", "codec_body");
   ("accelerated_lane", "codec_memmove"); ("accelerated_direction", "bidirectional")].

Record manifest : Type := Manifest {
  version : json;
  defaults : dict json;
  expected_metadata : dict json;
  workloads : list (dict json);
}.

(** ** Manifest *)

(** [raise ManifestError(f"phase=manifest-parse {message}")] *)
Definition parse_error (message : list string) : exn :=
  ManifestError ("phase=manifest-parse " +:+ cat message).

(** One turn of the loop over the expected fields. *)
Definition metadata_step (scope : string) (expected_metadata validated : dict json)
    (field : string * string) : exc (dict json) :=
  let '(key, expected) := field in
  actual ← required_str ManifestError expected_metadata key scope;
  raise_if (negb (bool_decide (actual = expected)))
    (ManifestError (cat [scope; "."; key; "="; repr_str actual; " expected "; repr_str expected;
                         " for tracked S03 idxd validation"]));;
  mret (dset key (JStr actual) validated).

Definition validate_expected_metadata (expected_metadata : dict json) : exc (dict json) :=
  let scope := "manifest.expected_metadata" in
  validated ← foldM (metadata_step scope expected_metadata) [] EXPECTED_METADATA_FIELDS;
  b ← required_bool ManifestError expected_metadata "require_device_path" scope;
  mret (dset "require_device_path" (JBool b) validated).

(** The caller has checked that [endpoint_artifacts] is an object. *)
Definition validate_endpoint_artifacts (index : nat) (label : string)
    (endpoint_artifacts : dict json) : exc (dict json) :=
  let scope := cat ["workloads["; pretty index; "] label="; repr_str label;
                    " endpoint_artifacts"] in
  '(validated, _) ← validate_pair endpoint_artifacts scope (λ role artifact,
     parse_error [scope; "."; role; " duplicates artifact path "; repr_str artifact]) ∅;
  mret validated.

(** [merged[key] != expected] for a field that is known to be a string *)
Definition check_field (scope : string) (merged : dict json) (key expected : string) : exc unit :=
  v ← ditem key merged;
  raise_if (negb (py_eq v (JStr expected)))
    (parse_error [scope; " field "; key; "="; py_repr v; " expected "; repr_str expected]).

(** The label is added to [seen_labels], the second result. *)
Definition validate_workload (index : nat) (entry : json) (defaults : dict json)
    (seen_labels : gset string) (expected_metadata : dict json)
    : exc (dict json * gset string) :=
  let scope := cat ["workloads["; pretty index; "]"] in
  d ← of_option (parse_error [scope; " must be an object"]) (as_dict entry);
  label ← required_str ManifestError d "label" scope;
  raise_if (bool_decide (label ∈ seen_labels))
    (parse_error [scope; " label="; repr_str label; " is duplicated"]);;
  rpc ← required_str ManifestError d "rpc" scope;
  endpoint_artifacts ← of_option (parse_error [scope; " missing endpoint_artifacts object"])
    (as_dict (get "endpoint_artifacts" d));
  validated ← validate_endpoint_artifacts index label endpoint_artifacts;
  let merged := dset "expected_metadata" (JObj expected_metadata)
    (dset "endpoint_artifacts" (JObj validated)
    (dset "rpc" (JStr rpc) (dset "label" (JStr label) (dupdate defaults d)))) in
  check_fields scope
    (cat ["phase=manifest-parse "; scope; " field warmup_ms must be a non-negative integer"])
    ["measure_ms"; "requests"; "concurrency"]
    ["runtime"; "compression"; "buffer_policy"; "instrumentation"; "accelerated_path"] merged;;
  check_field scope merged "instrumentation" "on";;
  check_field scope merged "accelerated_path" "idxd";;
  check_rpc scope (cat ["phase=manifest-parse "; scope; " label="; repr_str label;
                        " has unsupported rpc mode "; repr_str rpc]) rpc merged;;
  mret (merged, {[label]} ∪ seen_labels).

Definition validate_workloads (defaults expected_metadata : dict json) (workloads : list json)
    : exc (list (dict json) * gset string) :=
  collect (λ index entry seen_labels,
    validate_workload index entry defaults seen_labels expected_metadata) workloads.

Definition validate_manifest (v : json) : exc manifest :=
  manifest ← of_option (parse_error ["manifest root must be an object"]) (as_dict v);
  defaults ← of_option (parse_error ["manifest.defaults must be an object"])
               (as_dict (or_empty (get "defaults" manifest)));
  expected_metadata ← of_option (parse_error ["manifest.expected_metadata must be an object"])
                        (as_dict (get "expected_metadata" manifest));
  validated_expected_metadata ← validate_expected_metadata expected_metadata;
  workloads ← of_option (parse_error ["manifest.workloads must be a non-empty array"])
                (nonempty_list (get "workloads" manifest));
  '(validated_workloads, _) ← validate_workloads defaults validated_expected_metadata workloads;
  labels ← labels_of validated_workloads;
  let missing_labels := sorted_strings (elements (REQUIRED_LABELS ∖ labels)) in
  raise_if (negb (bool_decide (missing_labels = [])))
    (parse_error ["manifest.workloads missing required idxd labels: "; join ", " missing_labels]);;
  mret (Manifest (get "version" manifest) defaults validated_expected_metadata validated_workloads).

Definition load_manifest (path : path) : io manifest :=
  value ← catch (raw ← read_text path; pure_ (json_loads raw)) (λ e,
    match e with
    | OSError err => io_raise (parse_error ["manifest="; path_str path; " read failed: "; err])
    | JSONDecodeError err => io_raise (parse_error ["manifest="; path_str path; " parse failed: "; err])
    | e => io_raise e
    end);
  pure_ (validate_manifest value).

(** ** Runs *)

Definition DEFAULT_BINARY (repo_root : path) : path :=
  path_join repo_root (parse_path "accel-rpc/target/release/tonic-profile").

Definition locate_binary (repo_root : path) (explicit : option string) : io path :=
  RunnerCommon.locate_binary RunError explicit (DEFAULT_BINARY repo_root) (λ path,
    cat ["phase=build artifact="; path_str path;
         " tonic-profile binary not found; build it first with cargo build --release -p tonic-profile --manifest-path accel-rpc/Cargo.toml"]).

Definition build_common_args (entry : dict json) (addr device_path : string) : exc (list json) :=
  args ← build_rpc_args entry addr;
  instrumentation ← arg "instrumentation" entry;
  accelerated_path ← arg "accelerated_path" entry;
  mret (args ++ [JStr "--instrumentation"; instrumentation; JStr "--accelerated-path";
                 accelerated_path; JStr "--accelerator-device"; JStr device_path]).

(** [output_dir / entry["endpoint_artifacts"][role]] *)
Definition artifact_path (output_dir : path) (entry : dict json) (role : string) : exc path :=
  arts ← ditem "endpoint_artifacts" entry;
  artifact ← item role arts;
  s ← arg_str artifact;
  mret (path_div output_dir s).

Section run.
Context (E : environment) (repo_root : path).

Definition launch_prefix : io (list json) :=
  found ← gets (λ w, env_which E w "devenv");
  io_raise_if (negb found)
    (RunError "phase=preflight launcher=devenv status=missing command not found");;
  mret [JStr "devenv"; JStr "shell"; JStr "--"; JStr "launch"].

Definition run_id (label addr accelerator_device : string) (w : world) : string :=
  cat ["run-s03-"; pretty (env_time_us E w); "-";
       pretty (Z.abs (env_hash E [label; addr; accelerator_device]) mod 1000000)].

(** The body of the loop over the workloads. *)
Definition run_entry (launch : list json) (binary output_dir : path) (accelerator_device : string)
    (t : timeouts) (entry : dict json) : io unit :=
  label ← pure_ (ditem "label" entry ≫= arg_str);
  addr ← reserve_addr E;
  run_id ← gets (run_id label addr accelerator_device);
  common_args ← pure_ (build_common_args entry addr accelerator_device);
  client_artifact ← pure_ (artifact_path output_dir entry "client");
  server_artifact ← pure_ (artifact_path output_dir entry "server");
  requests ← pure_ (arg_text "requests" entry);
  let head mode := launch ++ [JStr (path_str binary); JStr "--mode"; JStr mode] in
  let server_cmd := head "server" ++ common_args ++
    [JStr "--run-id"; JStr run_id; JStr "--shutdown-after-requests"; requests;
     JStr "--server-json-out"; JStr (path_str server_artifact)] in
  let client_cmd := head "client" ++ common_args ++
    [JStr "--run-id"; JStr run_id; JStr "--json-out"; JStr (path_str client_artifact)] in
  run_server_client_pair E (PairArgs label server_cmd client_cmd server_artifact client_artifact
    addr addr (server_start_timeout t) (client_timeout t) (server_flush_timeout t)
    RunError repo_root repo_root
    [("device_path", JStr accelerator_device); ("launcher", JStr "launch")] "cleanup").

Definition run_manifest (m : manifest) (binary output_dir : path) (accelerator_device : string)
    (t : timeouts) : io unit :=
  mkdir_p output_dir;;
  launch ← launch_prefix;
  iterM (run_entry launch binary output_dir accelerator_device t) (workloads m).
End run.

(** ** Reports *)

Definition parse_json (path : path) : io (dict json) :=
  let at_ := cat ["phase=artifact-validation artifact="; path_str path; " "] in
  parse_report (λ err, cat [at_; "read failed: "; err]) (λ err, cat [at_; "invalid json: "; err])
    (at_ +:+ "file is empty") (at_ +:+ "root must be an object") path.

Definition missing_key (path : path) (key : string) : exn :=
  RunError (cat ["phase=artifact-validation artifact="; path_str path; " missing "; key]).

Definition context (label role where_ device : string) : string :=
  cat ["label="; label; " phase=artifact-validation endpoint_role="; role; " artifact="; where_;
       " device_path="; device].

(** [entry["expected_metadata"][key]] *)
Definition expected_field (entry : dict json) (key : string) : exc json :=
  v ← ditem "expected_metadata" entry;
  item key v.

Definition expected_pairs (entry : dict json) (label : json) (role : string) : exc (dict json) :=
  ordinary_path ← expected_field entry "ordinary_path";
  selected_path ← expected_field entry "selected_path";
  seam ← expected_field entry "seam";
  rpc ← ditem "rpc" entry;
  instrumentation ← ditem "instrumentation" entry;
  buffer_policy ← ditem "buffer_policy" entry;
  accelerated_lane ← expected_field entry "accelerated_lane";
  accelerated_direction ← expected_field entry "accelerated_direction";
  mret [("mode", JStr role); ("endpoint_role", JStr role); ("ordinary_path", ordinary_path);
        ("selected_path", selected_path); ("seam", seam); ("rpc", rpc);
        ("workload_label", label); ("instrumentation", instrumentation);
        ("buffer_policy", buffer_policy); ("accelerated_lane", accelerated_lane);
        ("accelerated_direction", accelerated_direction)].

Definition check_device (ctx : string) (metadata entry : dict json) (accelerator_device : string)
    : exc unit :=
  require_device_path ← expected_field entry "require_device_path";
  if truthy require_device_path then
    raise_if (negb (py_eq (get "accelerated_device_path" metadata) (JStr accelerator_device)))
      (RunError (cat [ctx; " metadata.accelerated_device_path=";
                      py_repr (get "accelerated_device_path" metadata); " expected ";
                      repr_str accelerator_device]))
  else mret tt.

Definition validate_report (entry : dict json) (endpoint_role : string) (artifact_path : path)
    (report : dict json) (accelerator_device : string) : exc unit :=
  label ← ditem "label" entry;
  let ctx := context (py_str label) endpoint_role (path_str artifact_path) accelerator_device in
  '(metadata, metrics, stages) ← report_sections ctx (missing_key artifact_path) report;
  pairs ← expected_pairs entry label endpoint_role;
  check_pairs ctx metadata pairs;;
  check_device ctx metadata entry accelerator_device;;
  check_run_id ctx metadata;;
  check_sizes ctx metadata ["effective_codec_buffer_size"; "effective_codec_yield_threshold"];;
  check_sizes ctx metadata ["request_serialized_size"; "response_serialized_size"];;
  check_shape ctx metadata entry;;
  check_requests ctx metrics;;
  check_enabled ctx stages true;;
  check_stages ctx (missing_key artifact_path) stages;;
  check_placeholder ctx report.

(** One report: read, validated, announced, its signature recorded. *)
Definition validate_artifact (output_dir : path) (accelerator_device : string) (entry : dict json)
    (label role : string) (sigs : signatures) : io (dict json * signatures) :=
  path ← pure_ (artifact_path output_dir entry role);
  let ctx := context label role (path_str path) accelerator_device in
  present ← gets (λ w, path_exists w path);
  io_raise_if (negb present) (RunError (ctx +:+ " missing artifact"));;
  report ← parse_json path;
  pure_ (validate_report entry role path report accelerator_device);;
  print (ctx +:+ " verdict=pass");;
  s ← pure_ (report_signature report);
  by_label ← pure_ (ditem role sigs);
  mret (report, dset role (dset label s by_label) sigs).

(** The two reports of a workload. *)
Definition validate_entry (output_dir : path) (accelerator_device : string) (sigs : signatures)
    (entry : dict json) : io signatures :=
  label ← pure_ (ditem "label" entry ≫= arg_str);
  '(client_report, sigs) ← validate_artifact output_dir accelerator_device entry label "client" sigs;
  '(server_report, sigs) ← validate_artifact output_dir accelerator_device entry label "server" sigs;
  let ctx := context label "client/server" (path_str output_dir) accelerator_device in
  client_run_id ← pure_ (metadata_field client_report "run_id");
  server_run_id ← pure_ (metadata_field server_report "run_id");
  io_raise_if (negb (py_eq client_run_id server_run_id))
    (RunError (cat [ctx; " run_id mismatch client="; py_repr client_run_id; " server=";
                    py_repr server_run_id]));;
  client_label ← pure_ (metadata_field client_report "workload_label");
  server_label ← pure_ (metadata_field server_report "workload_label");
  io_raise_if (negb (py_eq client_label server_label))
    (RunError (ctx +:+ " workload_label mismatch"));;
  mret sigs.

Definition check_sensitivity (output_dir : path) (accelerator_device : string) (sigs : signatures)
    (role : string) : io unit :=
  by_label ← pure_ (ditem role sigs);
  let unique : gset signature := list_to_set by_label.*2 in
  let ctx := cat ["phase=workload-sensitivity endpoint_role="; role; " artifact=";
                  path_str output_dir; " device_path="; accelerator_device] in
  io_raise_if (bool_decide (size unique <= 1)%nat)
    (RunError (cat [ctx; " labels="; join ", " (sorted_strings by_label.*1);
                    " stage signatures were identical across workloads"]));;
  print (cat [ctx; " verdict=pass workloads="; pretty (length by_label)]).

Definition validate_artifacts (m : manifest) (output_dir : path) (accelerator_device : string)
    : io unit :=
  sigs ← foldM (validate_entry output_dir accelerator_device) [("client", []); ("server", [])]
           (workloads m);
  iterM (check_sensitivity output_dir accelerator_device sigs) ENDPOINT_ROLES.

(** ** The program *)

(** The parsed command line. *)
Record arguments : Type := Arguments {
  a_manifest : string;
  a_output_dir : option string;
  a_binary : option string;
  a_accelerator_device : option string;
  a_validate_only : bool;
  a_verify_only : bool;
  a_timeouts : timeouts;
}.

Definition main_body (E : environment) (repo_root : path) (args : arguments) : io Z :=
  manifest_path ← gets (λ w, resolve (w_cwd w) (parse_path (a_manifest args)));
  m ← load_manifest manifest_path;
  print (cat ["phase=manifest-parse manifest="; path_str manifest_path; " workloads=";
              pretty (length (workloads m))]);;
  if a_validate_only args then mret 0
  else
    accelerator_device ← pure_ (of_option
      (RunError "phase=preflight accelerator-device is required unless --validate-only is used")
      (given (a_accelerator_device args)));
    raw ← pure_ (of_option
      (RunError "phase=artifact-validation --output-dir is required unless --validate-only is used")
      (given (a_output_dir args)));
    output_dir ← gets (λ w, resolve (w_cwd w) (parse_path raw));
    if a_verify_only args then
      validate_artifacts m output_dir accelerator_device;;
      print (cat ["phase=artifact-validation-complete output_dir="; path_str output_dir;
                  " device_path="; accelerator_device]);;
      mret 0
    else
      binary ← locate_binary repo_root (a_binary args);
      run_manifest E repo_root m binary output_dir accelerator_device (a_timeouts args);;
      validate_artifacts m output_dir accelerator_device;;
      print (cat ["phase=run-complete output_dir="; path_str output_dir; " device_path=";
                  accelerator_device]);;
      mret 0.

Definition main (E : environment) (repo_root : path) (args : arguments) : io Z :=
  if a_validate_only args && a_verify_only args then
    fail "--validate-only and --verify-only are mutually exclusive";; mret 2
  else
    catch (main_body E repo_root args) (λ e,
      match e with
      | ManifestError err | RunError err => fail err;; mret 1
      | e => io_raise e
      end).
End S03.
