(* ===== verification/S03Spec.v ===== *)
(** * What the hardware evidence runner guarantees

    The theorems about run_s03_idxd_evidence.py: which manifests it accepts,
    what a completed run and a completed validation establish, which exceptions
    can leave it, and how the program exits. *)

From S2P Require Import Prelude PyFloat PyVal PyPath Json World Process RunnerCommon Evidence.
From S2P Require Import RunnerSpec Fixtures S03.
Import S03.

Local Open Scope Z_scope.

(** ** The manifest *)

(** The metadata every report is compared with. *)
Definition idxd_metadata (require_device : bool) : dict json :=
  [("ordinary_path", JStr "software"); ("selected_path", JStr "idxd"); ("seam", JStr "codec_body");
   ("accelerated_lane", JStr "codec_memmove"); ("accelerated_direction", JStr "bidirectional");
   ("require_device_path", JBool require_device)].

Lemma metadata_step_Ok sc em validated key expected acc :
  metadata_step sc em validated (key, expected) = Ok acc ↔
  get key em = JStr expected ∧ expected ≠ "" ∧ acc = dset key (JStr expected) validated.
Proof.
  unfold metadata_step. rewrite bind_Ok. setoid_rewrite required_str_Ok. split.
  - intros (s & [? ?] & Hr). apply bind_Ok in Hr as ([] & ->%raise_if_negb_Ok & [= <-]). done.
  - intros (? & ? & ->). exists expected. split; [done|].
    eapply (bind_run _ _ tt); [by apply raise_if_negb_Ok|done].
Qed.

Lemma required_bool_Ok mk d k sc b : required_bool mk d k sc = Ok b ↔ get k d = JBool b.
Proof. unfold required_bool. destruct (get k d); naive_solver. Qed.

Lemma validate_expected_metadata_Ok em d :
  validate_expected_metadata em = Ok d ↔
  Forall (λ '(k, v), get k em = JStr v) EXPECTED_METADATA_FIELDS ∧
  ∃ b, get "require_device_path" em = JBool b ∧ d = idxd_metadata b.
Proof.
  unfold validate_expected_metadata, EXPECTED_METADATA_FIELDS. cbn [foldM]. split.
  - intros H. apply bind_Ok in H as (v5 & H & Hb).
    apply bind_Ok in H as (? & (H1 & _ & ->)%metadata_step_Ok & H).
    apply bind_Ok in H as (? & (H2 & _ & ->)%metadata_step_Ok & H).
    apply bind_Ok in H as (? & (H3 & _ & ->)%metadata_step_Ok & H).
    apply bind_Ok in H as (? & (H4 & _ & ->)%metadata_step_Ok & H).
    apply bind_Ok in H as (? & (H5 & _ & ->)%metadata_step_Ok & H).
    injection H as <-.
    apply bind_Ok in Hb as (b & Hb%required_bool_Ok & [= <-]).
    split; [by repeat constructor|by exists b].
  - intros [Hf (b & Hb & ->)]. rewrite !Forall_cons in Hf.
    destruct Hf as (? & ? & ? & ? & ? & _). eapply bind_run.
    { do 5 (eapply bind_run; [by apply metadata_step_Ok|]). done. }
    eapply bind_run; [by apply required_bool_Ok|done].
Qed.

(** The endpoint artifacts [v] of a workload, two distinct names. *)
Definition artifacts_json (v : json) (arts : dict json) : Prop :=
  ∃ ea c s, v = JObj ea ∧ get "client" ea = JStr c ∧ get "server" ea = JStr s ∧
    c ≠ "" ∧ s ≠ "" ∧ c ≠ s ∧ arts = pair_json c s.

Lemma s03_validate_endpoint_artifacts_Ok index label ea arts :
  validate_endpoint_artifacts index label ea = Ok arts ↔ artifacts_json (JObj ea) arts.
Proof.
  unfold validate_endpoint_artifacts, artifacts_json. split.
  - intros H. apply bind_Ok in H as ([vp seen] & Hp & [= <-]).
    apply validate_pair_Ok in Hp as (c & s & ? & ? & ? & ? & Hf & -> & _).
    exists ea, c, s. split_and!; try done. rewrite !fresh_cons in Hf. set_solver.
  - intros (? & c & s & [= <-] & ? & ? & ? & ? & Hne & ->).
    eapply (bind_run _ _ (_, _)); [|done]. apply validate_pair_Ok. exists c, s.
    split_and!; try done. rewrite !fresh_cons. split_and!; [set_solver..|apply fresh_nil].
Qed.

(** The dictionary a workload [d] is merged into. *)
Definition merge (dflt em d : dict json) (label rpc : string) (arts : dict json) : dict json :=
  dset "expected_metadata" (JObj em) (dset "endpoint_artifacts" (JObj arts)
    (dset "rpc" (JStr rpc) (dset "label" (JStr label) (dupdate dflt d)))).

(** The workload [v] of the manifest is accepted as [m]. *)
Definition workload_json (dflt em : dict json) (m : dict json) (v : json) : Prop :=
  ∃ d label rpc arts, v = JObj d ∧ get "label" d = JStr label ∧ label ≠ "" ∧
    get "rpc" d = JStr rpc ∧ rpc ≠ "" ∧ artifacts_json (get "endpoint_artifacts" d) arts ∧
    m = merge dflt em d label rpc arts ∧
    fields_ok ["measure_ms"; "requests"; "concurrency"]
      ["runtime"; "compression"; "buffer_policy"; "instrumentation"; "accelerated_path"] m ∧
    get "instrumentation" m = JStr "on" ∧ get "accelerated_path" m = JStr "idxd" ∧ rpc_ok rpc m.

Lemma s03_merge_label dflt em d label rpc arts :
  dget "label" (merge dflt em d label rpc arts) = Some (JStr label).
Proof. unfold merge. by rewrite !dget_dset. Qed.

Lemma s03_merge_label_of dflt em d label rpc arts : label_of (merge dflt em d label rpc arts) = label.
Proof. unfold label_of, get. by rewrite s03_merge_label. Qed.

Lemma check_field_Ok sc m k v u : check_field sc m k v = Ok u ↔ get k m = JStr v.
Proof.
  unfold check_field. rewrite bind_Ok. setoid_rewrite ditem_Ok. setoid_rewrite raise_if_Ok.
  setoid_rewrite negb_false_iff. split.
  - intros (x & Hx & ->%py_eq_str_r). unfold get. by rewrite Hx.
  - intros H. exists (JStr v). split; [by apply get_dget|by apply py_eq_str_r].
Qed.

Lemma s03_validate_workload_Ok index v dflt seen em m seen' :
  validate_workload index v dflt seen em = Ok (m, seen') ↔
  workload_json dflt em m v ∧ (label_of m ∉ seen) ∧ seen' = {[label_of m]} ∪ seen.
Proof.
  unfold validate_workload, workload_json. split.
  - intros Hrun. apply bind_Ok in Hrun as (d & ->%of_option_Ok%as_dict_Some & Hrun).
    apply bind_Ok in Hrun as (label & [Hl ?]%required_str_Ok & Hrun).
    apply bind_Ok in Hrun as (u & Hs%raise_if_decide_Ok & Hrun).
    apply bind_Ok in Hrun as (rpc & [Hr ?]%required_str_Ok & Hrun).
    apply bind_Ok in Hrun as (ea & Hea%of_option_Ok%as_dict_Some & Hrun).
    apply bind_Ok in Hrun as (arts & Ha%s03_validate_endpoint_artifacts_Ok & Hrun).
    fold (merge dflt em d label rpc arts) in Hrun.
    apply bind_Ok in Hrun as (u1 & Hf%check_fields_Ok & Hrun).
    apply bind_Ok in Hrun as (u2 & Hi%check_field_Ok & Hrun).
    apply bind_Ok in Hrun as (u3 & Hp%check_field_Ok & Hrun).
    apply bind_Ok in Hrun as (u4 & Hrpc%check_rpc_Ok & [= <- <-]).
    rewrite s03_merge_label_of. split; [|done]. exists d, label, rpc, arts. rewrite Hea. done.
  - intros ((d & label & rpc & arts & -> & ? & ? & ? & ? & Ha & -> & ? & ? & ? & ?) & Hs & ->).
    rewrite s03_merge_label_of in *. pose proof Ha as (ea & _ & _ & Hea & _). rewrite Hea in Ha.
    eapply bind_run; [done|]. eapply bind_run; [by apply required_str_Ok|].
    eapply (bind_run _ _ tt); [by apply raise_if_decide_Ok|].
    eapply bind_run; [by apply required_str_Ok|].
    eapply bind_run; [by apply of_option_Ok, as_dict_Some|].
    eapply bind_run; [by apply s03_validate_endpoint_artifacts_Ok|].
    fold (merge dflt em d label rpc arts).
    eapply (bind_run _ _ tt); [by apply check_fields_Ok|].
    eapply (bind_run _ _ tt); [by apply check_field_Ok|].
    eapply (bind_run _ _ tt); [by apply check_field_Ok|].
    eapply (bind_run _ _ tt); [by apply check_rpc_Ok|done].
Qed.

Lemma s03_workload_label dflt em m v :
  workload_json dflt em m v → dget "label" m = Some (JStr (label_of m)) ∧ label_of m ≠ "".
Proof.
  intros (d & label & rpc & arts & _ & _ & ? & _ & _ & _ & -> & _).
  by rewrite s03_merge_label_of, s03_merge_label.
Qed.

Lemma s03_validate_workloads_Ok dflt em l ws seen :
  validate_workloads dflt em l = Ok (ws, seen) ↔
  Forall2 (workload_json dflt em) ws l ∧ NoDup (label_of <$> ws) ∧
  seen = list_to_set (label_of <$> ws).
Proof. apply collect_Ok. intros. apply s03_validate_workload_Ok. Qed.

(** What a manifest document [v] must be for [m] to be its validated form. *)
Record manifest_json (v : json) (m : manifest) : Prop := {
  mj_root : ∃ d em l, v = JObj d ∧ version m = get "version" d ∧
    or_empty (get "defaults" d) = JObj (defaults m) ∧
    get "expected_metadata" d = JObj em ∧
    Forall (λ '(k, v), get k em = JStr v) EXPECTED_METADATA_FIELDS ∧
    (∃ b, get "require_device_path" em = JBool b ∧ expected_metadata m = idxd_metadata b) ∧
    get "workloads" d = JArr l ∧ l ≠ [] ∧
    Forall2 (workload_json (defaults m) (expected_metadata m)) (workloads m) l;
  mj_labels : NoDup (label_of <$> workloads m);
  mj_required : ∀ l, l ∈ REQUIRED_LABELS → l ∈ label_of <$> workloads m;
}.

Lemma s03_labels_of_workloads dflt em ws l :
  Forall2 (workload_json dflt em) ws l → labels_of ws = Ok (list_to_set (label_of <$> ws)).
Proof. apply labels_of_Ok. intros m v Hm. by destruct (s03_workload_label _ _ _ _ Hm). Qed.

Lemma s03_validate_manifest_Ok v m : validate_manifest v = Ok m ↔ manifest_json v m.
Proof.
  unfold validate_manifest. split.
  - intros Hrun. apply bind_Ok in Hrun as (d & ->%of_option_Ok%as_dict_Some & Hrun).
    apply bind_Ok in Hrun as (df & Hdf%of_option_Ok%as_dict_Some & Hrun).
    apply bind_Ok in Hrun as (em & Hem%of_option_Ok%as_dict_Some & Hrun).
    apply bind_Ok in Hrun as (em' & [? ?]%validate_expected_metadata_Ok & Hrun).
    apply bind_Ok in Hrun as (l & [Hl Hne]%of_option_Ok%nonempty_list_Some & Hrun).
    apply bind_Ok in Hrun as ([ws seen] & (Hws & Hnd & ->)%s03_validate_workloads_Ok & Hrun).
    rewrite (s03_labels_of_workloads _ _ _ _ Hws) in Hrun. cbn [mbind result_bind] in Hrun.
    apply bind_Ok in Hrun as (u & Hm%raise_if_negb_Ok & [= <-]).
    pose proof (proj1 (required_labels_cond _ _) Hm) as Hreq.
    split; [|done..]. by exists d, em, l.
  - intros [(d & em & l & -> & Hv & Hdf & Hem & Hf & Hb & Hl & Hne & Hws) Hnd Hreq].
    destruct m as [ver df em' ws]; simpl in *. subst ver.
    eapply bind_run; [by apply of_option_Ok, as_dict_Some|].
    eapply bind_run; [by apply of_option_Ok, as_dict_Some|].
    eapply bind_run; [by apply validate_expected_metadata_Ok|].
    eapply bind_run; [by apply of_option_Ok, nonempty_list_Some|].
    eapply (bind_run _ _ (_, _)); [by apply s03_validate_workloads_Ok|].
    rewrite (s03_labels_of_workloads _ _ _ _ Hws). cbn [mbind result_bind].
    eapply (bind_run _ _ tt); [|done]. by apply raise_if_negb_Ok, required_labels_cond.
Qed.

Lemma s03_load_manifest_run p w :
  load_manifest p w =
  (match (file_bytes w p ≫= decode_text) ≫= json_loads with
   | Err (OSError err) => Err (parse_error ["manifest="; path_str p; " read failed: "; err])
   | Err (JSONDecodeError err) => Err (parse_error ["manifest="; path_str p; " parse failed: "; err])
   | Err e => Err e
   | Ok v => validate_manifest v
   end, w).
Proof.
  unfold load_manifest, catch, read_text, pure_, io_raise, mbind at 1, io_bind at 1.
  unfold mbind at 1, io_bind at 1.
  destruct (file_bytes w p ≫= decode_text) as [text|e]; [|by destruct e].
  cbn [mbind result_bind]. destruct (json_loads text) as [v|e]; [done|by destruct e].
Qed.

Lemma s03_load_manifest_Ok p w m w' :
  load_manifest p w = (Ok m, w') ↔ w' = w ∧ ∃ v, json_file w p = Some v ∧ manifest_json v m.
Proof.
  rewrite s03_load_manifest_run. unfold json_file.
  destruct (file_bytes w p ≫= decode_text) as [text|e]; cbn [mbind result_bind];
    [|destruct e; naive_solver].
  destruct (json_loads text) as [v|e]; [|destruct e; naive_solver].
  split.
  - intros [= Hv <-]. split; [done|]. exists v. by rewrite <-s03_validate_manifest_Ok.
  - intros (-> & v' & [= <-] & Hv). by rewrite (proj2 (s03_validate_manifest_Ok _ _) Hv).
Qed.

(** The workloads of a loaded manifest. *)
Lemma s03_loaded_workloads p w m w' :
  load_manifest p w = (Ok m, w') →
  ∃ b l, Forall2 (workload_json (defaults m) (idxd_metadata b)) (workloads m) l.
Proof.
  intros (_ & v & _ & [(d & em & l & _ & _ & _ & _ & _ & (b & _ & Hem) & _ & _ & Hws) _ _])%s03_load_manifest_Ok.
  exists b, l. by rewrite <-Hem.
Qed.

Lemma s03_validate_workload_raises index v dflt seen em :
  raises is_ManifestError (validate_workload index v dflt seen em).
Proof.
  unfold validate_workload.
  apply raises_bind; [raises_tac|intros d _]. apply raises_bind; [raises_tac|intros label _].
  apply raises_bind; [raises_tac|intros _ _]. apply raises_bind; [raises_tac|intros rpc _].
  apply raises_bind; [raises_tac|intros ea _]. apply raises_bind.
  { unfold validate_endpoint_artifacts, validate_pair, artifact_role_step. raises_tac. }
  intros arts _. apply raises_bind; [raises_tac|]. intros u Hf%check_fields_Ok.
  destruct Hf as [_ _ Hs]. rewrite !Forall_cons in Hs.
  destruct Hs as (_ & _ & _ & (s1 & H1 & _)%nonempty_str_dget & (s2 & H2 & _)%nonempty_str_dget & _).
  unfold check_field, ditem. rewrite H1, H2. cbn [mbind result_bind of_option]. raises_tac.
Qed.

Lemma required_bool_raises mk d k sc (P : exn → Prop) :
  (∀ s, P (mk s)) → raises P (required_bool mk d k sc).
Proof. intros. unfold required_bool. by destruct (get k d); simpl. Qed.

Lemma s03_validate_manifest_raises v : raises is_ManifestError (validate_manifest v).
Proof.
  unfold validate_manifest.
  apply raises_bind; [raises_tac|intros d _]. apply raises_bind; [raises_tac|intros df _].
  apply raises_bind; [raises_tac|intros em _]. apply raises_bind.
  { unfold validate_expected_metadata, metadata_step. raises_tac. apply required_bool_raises.
    intros. by eexists. }
  intros em' _. apply raises_bind; [raises_tac|intros l _]. apply raises_bind.
  - apply collect_raises. intros. apply s03_validate_workload_raises.
  - intros [ws seen] (Hws & _)%s03_validate_workloads_Ok. rewrite (s03_labels_of_workloads _ _ _ _ Hws).
    cbn [mbind result_bind]. raises_tac.
Qed.

(** ** Runs *)

Lemma s03_workload_runnable dflt em m v : workload_json dflt em m v → runnable m.
Proof.
  intros Hw. pose proof (s03_workload_label _ _ _ _ Hw) as [Hl ?].
  destruct Hw as (d & label & rpc & arts & _ & _ & _ & _ & ? & _ & -> & [? ? Hs] & _ & _ & ?).
  split; [by eexists| |done|done|].
  - exists rpc. split; [|done]. unfold merge. by rewrite !dget_dset.
  - rewrite !Forall_cons in *. naive_solver constructor.
Qed.

Lemma s03_workload_artifacts dflt em m v out :
  workload_json dflt em m v → ∃ c s, c ≠ s ∧
    artifact_path out m "client" = Ok (path_div out c) ∧
    artifact_path out m "server" = Ok (path_div out s).
Proof.
  intros (d & label & rpc & arts & _ & _ & _ & _ & _ & Ha & -> & _).
  destruct Ha as (ea & c & s & _ & _ & _ & _ & _ & Hne & ->). exists c, s.
  unfold artifact_path, ditem, merge. by rewrite !dget_dset.
Qed.

Lemma workload_args dflt em m v addr device :
  workload_json dflt em m v →
  ∃ args, build_common_args m addr device = Ok args ∧ Forall is_arg args.
Proof.
  intros Hw. destruct (build_rpc_args_Ok m addr (s03_workload_runnable _ _ _ _ Hw)) as (args & Hargs & Hstr).
  destruct Hw as (d & label & rpc & arts & _ & _ & _ & _ & _ & _ & _ & _ & Hi & Ha & _).
  unfold build_common_args. rewrite Hargs. cbn [mbind result_bind].
  apply get_dget in Hi, Ha; [|done..].
  rewrite (arg_str_Ok _ _ _ Hi), (arg_str_Ok _ _ _ Ha). cbn [mbind result_bind mret result_ret].
  eexists. split; [done|]. rewrite Forall_app, !Forall_cons. split_and!; try done; by eexists.
Qed.

Section runs.
Context (E : environment) (repo_root : path) (dflt em : dict json).

(** The run of a workload is a run of a server and a client with commands made
    of strings, at a reserved address. *)
Lemma s03_run_entry_run launch binary out device t m v w :
  Forall is_arg launch → workload_json dflt em m v →
  ∃ a, run_entry E repo_root launch binary out device t m w = run_server_client_pair E a w ∧
    is_command (pa_server_cmd a) ∧ is_command (pa_client_cmd a) ∧
    pa_bind_addr a = cat ["127.0.0.1:"; pretty (env_port E w)] ∧ pa_error_cls a = RunError.
Proof.
  intros Hlaunch Hw. set (addr := cat ["127.0.0.1:"; pretty (env_port E w)]).
  destruct (workload_args _ _ _ _ addr device Hw) as (args & Hargs & Hstr).
  destruct (s03_workload_artifacts _ _ _ _ out Hw) as (c & s & _ & Hpc & Hps).
  destruct (s03_workload_runnable _ _ _ _ Hw) as [_ _ _ Hints _]. rewrite !Forall_cons in Hints.
  destruct Hints as (_ & (rq & Hrq & _)%pos_int_dget & _).
  destruct (s03_workload_label _ _ _ _ Hw) as [Hl _].
  unfold run_entry, reserve_addr, gets, pure_, ditem, mbind, io_bind, mret, io_ret.
  rewrite Hl. cbn [of_option result_bind arg_str]. fold addr. rewrite Hargs, Hpc, Hps, (arg_text_Ok _ _ _ Hrq).
  eexists. split; [reflexivity|]. cbn [pa_server_cmd pa_client_cmd pa_bind_addr pa_error_cls].
  split_and!; [| |done|done]; (split; [by destruct launch|]);
    rewrite ?Forall_app, ?Forall_cons; split_and!; try done; by eexists.
Qed.

Lemma launch_prefix_Ok w l w' : launch_prefix E w = (Ok l, w') → w' = w ∧ Forall is_arg l.
Proof.
  unfold launch_prefix. intros H. apply io_bind_Ok in H as (found & w1 & [= <- <-] & H).
  apply io_bind_raise_if in H as [_ H]. apply io_mret_Ok in H as [<- ->].
  split; [done|]. repeat constructor; by eexists.
Qed.

Lemma s03_run_manifest_ran m binary out device t l w w' :
  Forall2 (workload_json dflt em) (workloads m) l →
  run_manifest E repo_root m binary out device t w = (Ok tt, w') →
  ran (2 * length (workloads m)) w w'.
Proof.
  intros Hws Hrun. unfold run_manifest in Hrun.
  apply io_bind_Ok in Hrun as ([] & w1 & Hmk & Hrun).
  apply io_bind_Ok in Hrun as (launch & w2 & [-> Hl]%launch_prefix_Ok & Hrun).
  assert (w_procs w1 = w_procs w) as Hp.
  { destruct (mkdir_p_cases out w) as (fs & [Hm|[? Hm]]); rewrite Hm in Hmk; by simplify_eq/=. }
  replace (2 * _)%nat with (0 + length (workloads m) * 2)%nat by lia.
  eapply ran_trans; [by apply ran_refl|]. eapply ran_iterM; [|done].
  intros x w2 w3 Hx. destruct (Forall2_elem_l _ _ _ _ Hws Hx) as (v & _ & Hv).
  destruct (s03_run_entry_run launch binary out device t x v w2 Hl Hv) as (a & -> & _). apply ran_pair.
Qed.

Lemma s03_run_manifest_raises m binary out device t l :
  loopback E → Forall2 (workload_json dflt em) (workloads m) l →
  io_raises (λ e, run_error RunError e ∨ ∃ m, e = ValueError m) (run_manifest E repo_root m binary out device t).
Proof.
  intros Hloop Hws. apply io_raises_bind; [intros w; eapply raises_mono; [|apply mkdir_p_raises]; by left|]. intros _ w.
  unfold mbind, io_bind. destruct (launch_prefix E w) as [[launch|e] w1] eqn:Hl.
  - apply launch_prefix_Ok in Hl as [-> Hl]. apply io_iterM_raises. intros x Hx w1.
    destruct (Forall2_elem_l _ _ _ _ Hws Hx) as (v & _ & Hv).
    destruct (s03_run_entry_run launch binary out device t x v w1 Hl Hv) as (a & -> & Hs & Hc & Ha & He).
    eapply raises_mono; [|apply run_pair_raises]. intros e Hf. rewrite <-He. by eapply reserved_failure.
  - unfold launch_prefix, gets, io_raise_if, pure_, mbind, io_bind in Hl.
    destruct (env_which E w "devenv"); simplify_eq/=. left. left. by eexists.
Qed.
End runs.

(** ** Reports *)

(** What a report must say to pass: it is the report of this workload and
    endpoint on the accelerated path, on this device if the manifest asks for
    it, with plausible sizes, every stage counter, and a counter that is not
    zero. *)
Record report_ok (b : bool) (device : string) (entry : dict json) (role : string)
    (report : dict json) : Prop := {
  rp_sections : ∃ md mt st,
    dget "metadata" report = Some (JObj md) ∧ dget "metrics" report = Some (JObj mt) ∧
    dget "stages" report = Some (JObj st) ∧
    Forall (λ '(k, v), py_eq (get k md) v = true)
      [("mode", JStr role); ("endpoint_role", JStr role); ("ordinary_path", JStr "software");
       ("selected_path", JStr "idxd"); ("seam", JStr "codec_body"); ("rpc", get "rpc" entry);
       ("workload_label", get "label" entry); ("instrumentation", JStr "on");
       ("buffer_policy", get "buffer_policy" entry); ("accelerated_lane", JStr "codec_memmove");
       ("accelerated_direction", JStr "bidirectional")] ∧
    (b = true → get "accelerated_device_path" md = JStr device) ∧
    is_Some (nonempty_str (get "run_id" md)) ∧
    Forall (λ f, is_Some (pos_int (get f md)))
      ["effective_codec_buffer_size"; "effective_codec_yield_threshold";
       "request_serialized_size"; "response_serialized_size"] ∧
    shape_ok entry md ∧
    is_Some (pos_int (get "requests_completed" mt)) ∧
    get "enabled" st = JBool true ∧ stages_ok st;
  rp_counters : placeholder_only report = Ok false;
}.

(** The fields of a workload the validation of its reports reads. *)
Record checked (b : bool) (entry : dict json) : Prop := {
  ck_metadata : dget "expected_metadata" entry = Some (JObj (idxd_metadata b));
  ck_instrumentation : dget "instrumentation" entry = Some (JStr "on");
  ck_label : dget "label" entry = Some (get "label" entry);
  ck_rpc : dget "rpc" entry = Some (get "rpc" entry);
  ck_policy : dget "buffer_policy" entry = Some (get "buffer_policy" entry);
}.

Lemma dget_get k (m : dict json) v : dget k m = Some v → dget k m = Some (get k m).
Proof. intros H. unfold get. by rewrite H. Qed.

Lemma workload_checked dflt b m v : workload_json dflt (idxd_metadata b) m v → checked b m.
Proof.
  intros Hw. pose proof (s03_workload_runnable _ _ _ _ Hw) as [(l & Hl & _) (r & Hr & _) _ _ Hs].
  rewrite !Forall_cons in Hs. destruct Hs as (_ & _ & (bp & Hbp & _)%nonempty_str_dget & _).
  destruct Hw as (d & label & rpc & arts & _ & _ & _ & _ & _ & _ & -> & _ & Hi%get_dget & _); [|done].
  split; [unfold merge; by rewrite !dget_dset|done|by eapply dget_get..].
Qed.

Lemma expected_field_Ok b entry k v :
  dget "expected_metadata" entry = Some (JObj (idxd_metadata b)) →
  dget k (idxd_metadata b) = Some v → expected_field entry k = Ok v.
Proof. intros H Hk. unfold expected_field, ditem. rewrite H. simpl. unfold ditem. by rewrite Hk. Qed.

Lemma check_device_Ok b ctx md entry device u :
  dget "expected_metadata" entry = Some (JObj (idxd_metadata b)) →
  check_device ctx md entry device = Ok u ↔
  (b = true → get "accelerated_device_path" md = JStr device).
Proof.
  intros He. unfold check_device. rewrite (expected_field_Ok b entry _ (JBool b) He) by done.
  cbn [mbind result_bind truthy]. destruct b; [|destruct u; naive_solver].
  rewrite raise_if_Ok, negb_false_iff. split.
  - by intros H%py_eq_str_r _.
  - intros H. rewrite H by done. by apply py_eq_str_r.
Qed.

Lemma expected_pairs_Ok b entry label role :
  checked b entry → expected_pairs entry label role =
  Ok [("mode", JStr role); ("endpoint_role", JStr role); ("ordinary_path", JStr "software");
      ("selected_path", JStr "idxd"); ("seam", JStr "codec_body"); ("rpc", get "rpc" entry);
      ("workload_label", label); ("instrumentation", JStr "on");
      ("buffer_policy", get "buffer_policy" entry); ("accelerated_lane", JStr "codec_memmove");
      ("accelerated_direction", JStr "bidirectional")].
Proof.
  intros [He Hi Hl Hr Hp]. unfold expected_pairs.
  rewrite (expected_field_Ok b entry "ordinary_path" _ He eq_refl),
    (expected_field_Ok b entry "selected_path" _ He eq_refl),
    (expected_field_Ok b entry "seam" _ He eq_refl),
    (expected_field_Ok b entry "accelerated_lane" _ He eq_refl),
    (expected_field_Ok b entry "accelerated_direction" _ He eq_refl). unfold ditem. by rewrite Hi, Hr, Hp.
Qed.

Lemma s03_validate_report_Ok b entry role path report device u :
  checked b entry →
  validate_report entry role path report device = Ok u ↔ report_ok b device entry role report.
Proof.
  intros Hc. pose proof Hc as [He _ Hl _ _]. unfold validate_report, ditem at 1. rewrite Hl.
  cbn [mbind result_bind of_option]. rewrite bind_Ok. split.
  - intros ([[md mt] st] & (? & ? & ?)%report_sections_Ok & Hr).
    rewrite (expected_pairs_Ok b entry _ _ Hc) in Hr. cbn [mbind result_bind] in Hr.
    rewrite !seq_Ok, check_pairs_Ok, (check_device_Ok b), check_run_id_Ok, !check_sizes_Ok,
      check_shape_Ok, check_requests_Ok, check_enabled_Ok, check_stages_Ok,
      check_placeholder_Ok in Hr by done.
    destruct Hr as (? & ? & ? & Hs1 & Hs2 & ? & ? & ? & ? & ?).
    split; [|done]. exists md, mt, st. split_and!; try done.
    rewrite !Forall_cons in *. naive_solver.
  - intros [(md & mt & st & ? & ? & ? & ? & ? & ? & Hsz & ? & ? & ? & ?) ?].
    exists (md, mt, st). split; [by apply report_sections_Ok|].
    rewrite (expected_pairs_Ok b entry _ _ Hc). cbn [mbind result_bind].
    rewrite !seq_Ok, check_pairs_Ok, (check_device_Ok b), check_run_id_Ok, !check_sizes_Ok,
      check_shape_Ok, check_requests_Ok, check_enabled_Ok, check_stages_Ok,
      check_placeholder_Ok by done.
    rewrite !Forall_cons in Hsz. destruct Hsz as (? & ? & ? & ? & _).
    split_and!; try done; by repeat constructor.
Qed.

(** The artifact of this endpoint holds [report], which passes. *)
Definition validated (b : bool) (device : string) (w : world) (out : path) (entry : dict json)
    (role : string) (report : dict json) : Prop :=
  ∃ p, artifact_path out entry role = Ok p ∧ json_file w p = Some (JObj report) ∧
    report_ok b device entry role report.

Section validation.
Context (b : bool) (device : string) (out : path).

Lemma s03_validated_same w w' entry role report :
  same_files w w' → validated b device w' out entry role report → validated b device w out entry role report.
Proof. intros Hs. unfold validated. by setoid_rewrite (same_files_json w w' _ Hs). Qed.

Lemma s03_validate_artifact_Ok w0 entries entry label role sigs w report sigs' w' :
  same_files w0 w → entry ∈ entries → checked b entry →
  sigs_ok (validated b device w0 out) entries sigs →
  validate_artifact out device entry label role sigs w = (Ok (report, sigs'), w') →
  same_files w0 w' ∧ sigs_ok (validated b device w0 out) entries sigs' ∧
  validated b device w0 out entry role report.
Proof.
  intros Hw He Hc Hok H. unfold validate_artifact in H.
  apply io_bind_pure in H as (p & Hp & H).
  apply io_bind_Ok in H as (present & w1 & [= <- <-] & H). apply io_bind_raise_if in H as [_ H].
  apply io_bind_Ok in H as (rep & w1 & [-> Hj]%parse_report_Ok & H).
  apply io_bind_pure in H as ([] & Hv & H). apply (s03_validate_report_Ok b) in Hv; [|done].
  apply io_print_bind in H as [_ H].
  apply io_bind_pure in H as (s & Hs & H). apply io_bind_pure in H as (bl & Hbl%ditem_Ok & H).
  apply io_mret_Ok in H as [[= <- <-] ->].
  assert (validated b device w0 out entry role rep) as Hval.
  { eapply s03_validated_same; [done|]. by exists p. }
  split_and!; [by eapply same_files_trans|by eapply sigs_ok_record|done].
Qed.

Lemma s03_report_ok_run_id entry role report :
  report_ok b device entry role report →
  ∃ id, metadata_field report "run_id" = Ok (JStr id) ∧ id ≠ "".
Proof.
  intros [(md & mt & st & Hmd & _ & _ & _ & _ & (id & Hid & ?)%nonempty_str_is_Some & _) _].
  exists id. split; [|done]. unfold metadata_field, ditem. rewrite Hmd. cbn. by rewrite Hid.
Qed.

(** The reports of a workload: both pass and carry the same run id. *)
Definition entry_validated (w : world) (entry : dict json) : Prop :=
  ∃ rc rs id, validated b device w out entry "client" rc ∧ validated b device w out entry "server" rs ∧
    metadata_field rc "run_id" = Ok (JStr id) ∧ metadata_field rs "run_id" = Ok (JStr id) ∧ id ≠ "".

Lemma validate_entry_Ok w0 entries entry sigs w sigs' w' :
  same_files w0 w → entry ∈ entries → checked b entry →
  sigs_ok (validated b device w0 out) entries sigs →
  validate_entry out device sigs entry w = (Ok sigs', w') →
  same_files w0 w' ∧ sigs_ok (validated b device w0 out) entries sigs' ∧ entry_validated w0 entry.
Proof.
  intros Hw He Hch Hok H. unfold validate_entry in H.
  apply io_bind_pure in H as (label & _ & H).
  apply io_bind_Ok in H as ([rc sg1] & w1 & Hc & H).
  destruct (s03_validate_artifact_Ok _ _ _ _ _ _ _ _ _ _ Hw He Hch Hok Hc) as (Hw1 & Hok1 & Hvc).
  apply io_bind_Ok in H as ([rs sg2] & w2 & Hs & H).
  destruct (s03_validate_artifact_Ok _ _ _ _ _ _ _ _ _ _ Hw1 He Hch Hok1 Hs) as (Hw2 & Hok2 & Hvs).
  apply io_bind_pure in H as (ic & Hic & H). apply io_bind_pure in H as (sid & Hsid & H).
  apply io_bind_raise_if in H as [Hid%negb_false_iff H].
  apply io_bind_pure in H as (lc & _ & H). apply io_bind_pure in H as (ls & _ & H).
  apply io_bind_raise_if in H as [_ H]. apply io_mret_Ok in H as [<- ->].
  split_and!; [done..|]. pose proof Hvc as (_ & _ & _ & Hrc).
  destruct (s03_report_ok_run_id _ _ _ Hrc) as (id & Hid' & Hne).
  assert (ic = JStr id) as -> by congruence. apply py_eq_str_l in Hid as ->.
  by exists rc, rs, id.
Qed.

(** What a completed validation establishes, for the files as they are. *)
Definition evidence_ok (w : world) (entries : list (dict json)) : Prop :=
  (∀ entry, entry ∈ entries → entry_validated w entry) ∧
  ∀ role, role ∈ ENDPOINT_ROLES → sensitive (validated b device w out) entries role.

Lemma s03_validate_artifacts_Ok m w w' :
  (∀ entry, entry ∈ workloads m → checked b entry) →
  validate_artifacts m out device w = (Ok tt, w') → evidence_ok w (workloads m).
Proof.
  intros Hch H. unfold validate_artifacts in H. apply io_bind_Ok in H as (sigs & w1 & Hfold & Hsens).
  assert (same_files w w1 ∧ sigs_ok (validated b device w out) (workloads m) sigs ∧
    ∀ entry, entry ∈ workloads m → entry_validated w entry) as (_ & Hok & Hall).
  { revert Hfold. apply (io_foldM_inv _ (λ done sigs w1, same_files w w1 ∧
      sigs_ok (validated b device w out) (workloads m) sigs ∧
      ∀ entry, entry ∈ done → entry_validated w entry)).
    - split_and!; [done|apply sigs_ok_init|set_solver].
    - intros done x rest acc acc' wa wb Heq (Hs & Hsig & Hall) Hstep.
      assert (x ∈ workloads m) as Hx by (rewrite Heq; set_solver).
      destruct (validate_entry_Ok w (workloads m) x acc wa acc' wb) as (? & ? & ?); [by auto..|].
      split_and!; [done..|]. intros entry [He|He%list_elem_of_singleton]%elem_of_app;
        [by apply Hall|by subst]. }
  split; [done|]. intros role Hr. destruct (io_iterM_elem _ _ _ _ _ Hsens Hr) as (wa & wb & Hc).
  unfold check_sensitivity in Hc. apply io_bind_pure in Hc as (bl & Hbl%ditem_Ok & Hc).
  apply io_bind_raise_if in Hc as [Hsz%bool_decide_eq_false _]. by eapply sigs_ok_sensitive.
Qed.
End validation.

Lemma loaded_checked p w m w' :
  load_manifest p w = (Ok m, w') → ∃ b, expected_metadata m = idxd_metadata b ∧
    ∀ entry, entry ∈ workloads m → checked b entry.
Proof.
  intros (_ & v & _ & [(d & em & l & _ & _ & _ & _ & _ & (b & _ & Hem) & _ & _ & Hws) _ _])%s03_load_manifest_Ok.
  rewrite Hem in Hws. exists b. split; [done|]. intros entry He.
  destruct (Forall2_elem_l _ _ _ _ Hws He) as (x & _ & Hx). by eapply workload_checked.
Qed.

(** ** The guarantees *)

Definition s03_device : string := "/dev/dsa/wq0.0".
Definition s03_checkout : world := s03_world s03_device.
Definition s03_path : path := fixture_manifest "s03_idxd_matrix.json".
Definition s03_out : path := parse_path "/repo/out".

Definition no_manifest : manifest := Manifest JNull [] [] [].
Definition s03_manifest : manifest :=
  match (load_manifest s03_path s03_checkout).1 with Ok m => m | Err _ => no_manifest end.
Definition s03_entry : dict json := default [] (workloads s03_manifest !! 0%nat).

Lemma s03_manifest_run : load_manifest s03_path s03_checkout = (Ok s03_manifest, s03_checkout).
Proof.
  rewrite s03_load_manifest_run. apply (f_equal (λ r, (r, s03_checkout))). vm_compute. reflexivity.
Qed.

Lemma s03_entry_in : s03_entry ∈ workloads s03_manifest.
Proof. apply (list_elem_of_lookup_2 _ 0). vm_compute. reflexivity. Qed.

(** [load_manifest] changes nothing and returns [m] exactly when the file
    holds a manifest that describes [m]: the metadata of the accelerated path,
    and instrumented [idxd] workloads with distinct labels, the two required ones
    among them, complete merged fields and two distinct artifact names each. *)
Theorem s03_load_manifest_accepts p w m w' :
  load_manifest p w = (Ok m, w') ↔ w' = w ∧ ∃ v, json_file w p = Some v ∧ manifest_json v m.
Proof. apply s03_load_manifest_Ok. Qed.

(** A completed [run_manifest] has started a server and a client for each
    workload, and all of them exited with code 0. *)
Theorem s03_run_manifest_success E root p w0 m w1 binary out device t w w' :
  load_manifest p w0 = (Ok m, w1) →
  run_manifest E root m binary out device t w = (Ok tt, w') →
  ∃ ps, w_procs w' = w_procs w ++ ps ∧ length ps = (2 * length (workloads m))%nat ∧
    Forall (λ p, pr_ret p = Some 0) ps.
Proof.
  intros (b & l & Hws)%s03_loaded_workloads Hrun. by eapply s03_run_manifest_ran.
Qed.

Definition s03_timeouts : timeouts := Timeouts (10 * SECOND) (20 * SECOND) (10 * SECOND).

Definition s03_demo (E : environment) : io unit :=
  run_manifest E fixture_root s03_manifest (parse_path "/bin") s03_out s03_device s03_timeouts.

Lemma s03_run_manifest_success_witness :
  ∃ ps, w_procs (s03_demo (demo_env 0) s03_checkout).2 = ps ∧ length ps = 4%nat ∧
    Forall (λ p, pr_ret p = Some 0) ps.
Proof.
  destruct (s03_run_manifest_success (demo_env 0) fixture_root s03_path s03_checkout s03_manifest
    s03_checkout (parse_path "/bin") s03_out s03_device s03_timeouts s03_checkout
    (s03_demo (demo_env 0) s03_checkout).2) as (ps & Hps & Hlen & Hall).
  - apply s03_manifest_run.
  - apply io_run_fst. vm_compute. reflexivity.
  - exists ps. split; [exact Hps|]. split; [|done]. rewrite Hlen. vm_compute. reflexivity.
Defined.

(** An exception that leaves [run_manifest] on a loaded manifest is the runner's
    own error, an [OSError], the [TimeoutExpired] of a server that outlives
    SIGKILL, or the [ValueError] of a string that cannot be passed on or printed. *)
Theorem s03_run_manifest_errors E root p w0 m w1 binary out device t w :
  loopback E → load_manifest p w0 = (Ok m, w1) →
  raises (λ e, run_error RunError e ∨ ∃ m, e = ValueError m) (run_manifest E root m binary out device t w).1.
Proof.
  intros Hloop (b & l & Hws)%s03_loaded_workloads. by eapply s03_run_manifest_raises.
Qed.

Lemma s03_run_manifest_errors_witness :
  raises (λ e, run_error RunError e ∨ ∃ m, e = ValueError m) (s03_demo (demo_env 1) s03_checkout).1.
Proof.
  apply (s03_run_manifest_errors (demo_env 1) fixture_root s03_path s03_checkout s03_manifest
    s03_checkout (parse_path "/bin") s03_out s03_device s03_timeouts s03_checkout).
  - split; [intros w; discriminate|]. intros w port. do 2 eexists. reflexivity.
  - apply s03_manifest_run.
Defined.

(** Without the [devenv] command nothing is started: [run_manifest] fails
    with the preflight error, or because the output directory cannot be made. *)
Theorem s03_run_manifest_preflight E root m binary out device t w :
  (∀ w, env_which E w "devenv" = false) →
  ∃ e w', run_manifest E root m binary out device t w = (Err e, w') ∧ w_procs w' = w_procs w ∧
    (e = RunError "phase=preflight launcher=devenv status=missing command not found" ∨
     ∃ msg, e = OSError msg).
Proof.
  intros Hw. unfold run_manifest, mbind, io_bind.
  destruct (mkdir_p_cases out w) as (fs & [->|[msg ->]]).
  - unfold launch_prefix, gets, io_raise_if, pure_, mbind, io_bind. rewrite Hw.
    eexists _, _. split; [done|]. split; [done|by left].
  - eexists _, _. split; [done|]. split; [done|right; by eexists].
Qed.

(** A machine without any command. *)
Definition bare_env : environment :=
  Environment (λ _ _ _, Err "no such file") (λ w _, w_fs w) (λ _ _ _, (0%N, Ok false))
    (λ _, 1%N) (λ _ _, false) (λ _, 0) (λ _, ("", "")) (λ _, 0) (λ _, 0).

Lemma s03_run_manifest_preflight_witness :
  ∃ e w', s03_demo bare_env s03_checkout = (Err e, w') ∧ w_procs w' = w_procs s03_checkout ∧
    (e = RunError "phase=preflight launcher=devenv status=missing command not found" ∨
     ∃ msg, e = OSError msg).
Proof.
  apply (s03_run_manifest_preflight bare_env fixture_root s03_manifest (parse_path "/bin") s03_out
    s03_device s03_timeouts s03_checkout). intros w. reflexivity.
Defined.

(** C13: for a workload of a loaded manifest, [validate_report] passes exactly the
    reports that satisfy [report_ok]; [b] is the manifest's [require_device_path]. *)
Theorem s03_validate_report_spec p w m w' :
  load_manifest p w = (Ok m, w') →
  ∃ b, expected_metadata m = idxd_metadata b ∧
    ∀ entry role path report device, entry ∈ workloads m →
      validate_report entry role path report device = Ok tt ↔
      report_ok b device entry role report.
Proof.
  intros (b & Hem & Hch)%loaded_checked. exists b. split; [done|].
  intros entry role path report device He. by apply s03_validate_report_Ok, Hch.
Qed.

Lemma s03_validate_report_spec_witness :
  ∃ b, expected_metadata s03_manifest = idxd_metadata b ∧
    ∀ role path report device,
      validate_report s03_entry role path report device = Ok tt ↔
      report_ok b device s03_entry role report.
Proof.
  destruct (s03_validate_report_spec s03_path s03_checkout s03_manifest s03_checkout
    s03_manifest_run) as (b & Hb & H).
  exists b. split; [exact Hb|]. intros. apply H, s03_entry_in.
Defined.

(** A completed [validate_artifacts] of a loaded manifest means that, in the
    files as they are, every workload has passing client and server reports of
    this device with the same run id, and that for each endpoint two reports
    have different byte signatures. *)
Theorem s03_validate_artifacts_evidence p w0 m w1 out device w w' :
  load_manifest p w0 = (Ok m, w1) → validate_artifacts m out device w = (Ok tt, w') →
  ∃ b, expected_metadata m = idxd_metadata b ∧ evidence_ok b device out w (workloads m).
Proof.
  intros (b & Hem & Hch)%loaded_checked Hv. exists b. split; [done|]. by eapply s03_validate_artifacts_Ok.
Qed.

Lemma s03_validate_artifacts_evidence_witness :
  ∃ b, expected_metadata s03_manifest = idxd_metadata b ∧
    evidence_ok b s03_device s03_out s03_checkout (workloads s03_manifest).
Proof.
  apply (s03_validate_artifacts_evidence s03_path s03_checkout s03_manifest s03_checkout s03_out
    s03_device s03_checkout (validate_artifacts s03_manifest s03_out s03_device s03_checkout).2).
  - apply s03_manifest_run.
  - apply io_run_fst. vm_compute. reflexivity.
Defined.

Lemma s03_main_catch E root args w w' :
  main E root args w = (Ok 0, w') → main_body E root args w = (Ok 0, w').
Proof.
  unfold main, catch. destruct (a_validate_only args && a_verify_only args); [discriminate|].
  intros Hrun. destruct (main_body E root args w) as [[c|e] w1]; [done|].
  destruct e; unfold io_raise, pure_, fail, eprint, mbind, io_bind, mret, io_ret in Hrun; by simplify_eq.
Qed.

Lemma s03_validate_artifacts_quiet R `{!Quiet R} m out device :
  preserves R (validate_artifacts m out device).
Proof.
  unfold validate_artifacts, validate_entry, validate_artifact, check_sensitivity, parse_json,
    parse_report. preserves_tac.
Qed.

Lemma s03_evidence_same b device out w w' entries :
  same_files w w' → evidence_ok b device out w entries → evidence_ok b device out w' entries.
Proof.
  intros Hs. unfold evidence_ok, entry_validated, validated, sensitive.
  by setoid_rewrite (same_files_json w w' _ Hs).
Qed.

(** The end of [main]: the reports are checked and a last line is printed. *)
Lemma s03_check_and_report b m out device line w c w' :
  (∀ entry, entry ∈ workloads m → checked b entry) →
  (validate_artifacts m out device;; print line;; mret 0) w = (Ok c, w') →
  same_files w w' ∧ same_procs w w' ∧ evidence_ok b device out w' (workloads m).
Proof.
  intros Hch H. apply io_bind_Ok in H as ([] & w1 & Hv & H).
  apply io_print_bind in H as [_ H]. apply io_mret_Ok in H as [_ ->].
  pose proof (preserves_Ok same_files _ _ _ _ (s03_validate_artifacts_quiet _ m out device) Hv) as Hf.
  pose proof (preserves_Ok same_procs _ _ _ _ (s03_validate_artifacts_quiet _ m out device) Hv) as Hp.
  split_and!; [by eapply same_files_trans|done|].
  apply (s03_evidence_same _ _ _ w); [by eapply same_files_trans|]. by eapply s03_validate_artifacts_Ok.
Qed.

(** C14: when the program exits with code 0, the options do not conflict and the
    manifest was accepted.  Asked to validate the manifest only, it has done
    nothing but print.  Otherwise a device and an output directory were given,
    and the evidence for that device is complete in the files it leaves behind;
    asked to verify only, it has changed no file and started nothing; and if
    not, the children it has started are a server and a client for each
    workload, all waited for and all with exit code 0. *)
Theorem s03_main_success E root args w w' :
  main E root args w = (Ok 0, w') →
  a_validate_only args && a_verify_only args = false ∧
  ∃ m b, (load_manifest (resolve (w_cwd w) (parse_path (a_manifest args))) w).1 = Ok m ∧
    expected_metadata m = idxd_metadata b ∧
    if a_validate_only args then w' = set_out (w_out w') w
    else ∃ raw device,
      given (a_output_dir args) = Some raw ∧ given (a_accelerator_device args) = Some device ∧
      evidence_ok b device (resolve (w_cwd w) (parse_path raw)) w' (workloads m) ∧
      if a_verify_only args then same_files w w' ∧ same_procs w w'
      else ran (2 * length (workloads m)) w w'.
Proof.
  intros Hmain. split.
  { unfold main in Hmain. destruct (a_validate_only args && a_verify_only args); [discriminate Hmain|done]. }
  apply s03_main_catch in Hmain. unfold main_body in Hmain. rewrite io_gets_bind in Hmain.
  apply io_bind_Ok in Hmain as (m & w1 & Hm & Hmain).
  destruct (loaded_checked _ _ _ _ Hm) as (b & Hem & Hch).
  destruct (s03_loaded_workloads _ _ _ _ Hm) as (b' & l & Hws).
  exists m, b. rewrite Hm. split_and!; [done..|]. apply s03_load_manifest_Ok in Hm as [-> _].
  apply io_print_bind in Hmain as [_ Hmain]. set (w1 := set_out _ w) in Hmain.
  destruct (a_validate_only args); [by injection Hmain as <-|].
  apply io_bind_pure in Hmain as (device & Hdev%of_option_Ok & Hmain).
  apply io_bind_pure in Hmain as (raw & Hraw%of_option_Ok & Hmain).
  rewrite io_gets_bind in Hmain. exists raw, device. split; [done|]. split; [done|].
  destruct (a_verify_only args).
  - destruct (s03_check_and_report b _ _ _ _ _ _ _ Hch Hmain) as (? & ? & ?). by split_and!.
  - apply io_bind_Ok in Hmain as (bin & w2 & ->%locate_binary_world & Hmain).
    apply io_bind_Ok in Hmain as ([] & w3 & Hrun & Hmain).
    destruct (s03_check_and_report b _ _ _ _ _ _ _ Hch Hmain) as (_ & Hp & ?). split; [done|].
    eapply s03_run_manifest_ran in Hrun; [|done]. unfold ran. by rewrite Hp.
Qed.

(** The checked-out reports, verified after runs that succeed. *)
Definition s03_args (verify : bool) : arguments :=
  Arguments "accel-rpc/tonic-profile/workloads/s03_idxd_matrix.json" (Some "out")
    (Some "accel-rpc/tonic-profile/workloads/s03_idxd_matrix.json") (Some s03_device) false verify
    s03_timeouts.

Lemma s03_main_success_witness :
  ∃ m b w', main (demo_env 0) fixture_root (s03_args false) s03_checkout = (Ok 0, w') ∧
    evidence_ok b s03_device s03_out w' (workloads m) ∧ ran (2 * length (workloads m)) s03_checkout w'.
Proof.
  destruct (s03_main_success (demo_env 0) fixture_root (s03_args false) s03_checkout
    (main (demo_env 0) fixture_root (s03_args false) s03_checkout).2
    ltac:(apply io_run_fst; vm_compute; reflexivity))
    as (_ & m & b & _ & _ & raw & device & [= <-] & [= <-] & He & Hr).
  exists m, b, (main (demo_env 0) fixture_root (s03_args false) s03_checkout).2.
  split; [apply io_run_fst; vm_compute; reflexivity|by split].
Defined.
