(* ===== verification/Contract.v ===== *)
(** * The S04 claim-package contract

    Model of accel-rpc/tonic-profile/scripts/claim_package_contract.py: the
    validator of the S04 manifest.  [load_manifest] reads the manifest file and
    the two upstream manifests it names and returns the validated manifest, a
    record here and a dictionary in the source.  The repository root, which the
    source computes from its own location, is the section variable
    [repo_root]. *)

From S2P Require Import Prelude PyFloat PyVal PyPath Json World Fixtures.

Local Open Scope Z_scope.

(** ** Constants *)

Definition LABEL_BYTES : string := "ordinary/unary-bytes/repeated-64".
Definition LABEL_SHAPE : string :=
  "ordinary/unary-proto-shape/fleet-small-to-fleet-response-heavy".

Definition REQUIRED_LABELS : gset string := {[ LABEL_BYTES; LABEL_SHAPE ]}.

Definition REQUIRED_PAIRING_KEYS : list string :=
  ["workload_label"; "endpoint_role"; "run_family"].

Definition EXPECTED_ENDPOINT_ROLES : list string := ["client"; "server"].

Record expected_family : Type := ExpectedFamily {
  source_key : string;
  ex_instrumentation : string;
  ex_selected_path : string;
  prefix : string;
}.

Definition EXPECTED_FAMILIES : dict expected_family :=
  [("software_baseline", ExpectedFamily "software_manifest" "off" "software" "software/");
   ("software_attribution", ExpectedFamily "software_manifest" "on" "software" "software/");
   ("idxd_attribution", ExpectedFamily "idxd_manifest" "on" "idxd" "idxd/")].

Definition EXPECTED_DERIVED_OUTPUTS : dict string :=
  [("comparison_summary_json", "summary/comparison_summary.json");
   ("ordinary_vs_idxd_csv", "summary/ordinary_vs_idxd.csv");
   ("claim_table_md", "summary/claim_table.md")].

Definition EXPECTED_REPORT_PATH : string :=
  "docs/report/benchmarking/014.idxd_tonic_same_repo_claim_package.md".

Definition EXPECTED_RUN_ROOT : string := "accel-rpc/target/s04-claim-package/latest".

(** ** The validated manifest *)

Record endpoint_report : Type := EndpointReport {
  er_label : string;
  er_role : string;
  er_artifact : string;
}.

Record family : Type := Family {
  fa_run_family : string;
  fa_source_manifest : string;
  fa_instrumentation : string;
  fa_selected_path : string;
  fa_reports : list endpoint_report;
}.

Record scope : Type := Scope {
  sc_labels : list string;
  sc_pairing_keys : list string;
}.

Record report_ref : Type := ReportRef {
  rr_path : string;
  rr_references : list string;
}.

Record manifest : Type := Manifest {
  m_version : json;
  m_run_root : string;
  m_scope : scope;
  m_inputs : dict string;
  m_families : list family;
  m_outputs : dict string;
  m_report : report_ref;
}.

(** ** Field readers *)

Definition required_str (obj : dict json) (key scope : string) : exc string :=
  of_option (ManifestError (cat [scope; " missing "; key])) (nonempty_str (get key obj)).

Definition required_list (obj : dict json) (key scope : string) : exc (list json) :=
  of_option (ManifestError (cat [scope; "."; key; " must be a non-empty array"]))
    (nonempty_list (get key obj)).

(** A list of non-empty strings; [scope] names the list in the message. *)
Definition string_items (scope : string) (l : list json) : exc (list string) :=
  mapM (λ '(index, v),
    of_option (ManifestError (cat [scope; "["; pretty index; "] must be a non-empty string"]))
      (nonempty_str v)) (enumerate l).

(** ** Pure validators *)

Definition validate_scope (scope_obj : json) : exc scope :=
  d ← of_option (ManifestError "manifest.scope must be an object") (as_dict scope_obj);
  labels ← required_list d "workload_labels" "manifest.scope";
  validated_labels ← string_items "manifest.scope.workload_labels" labels;
  raise_if (negb (bool_decide (list_to_set validated_labels = REQUIRED_LABELS)))
    (ManifestError (cat ["manifest.scope.workload_labels must match the curated S04 workloads: ";
                         join ", " (sorted_strings (elements REQUIRED_LABELS))]));;
  pairing_keys ← required_list d "pairing_keys" "manifest.scope";
  validated_pairing_keys ← string_items "manifest.scope.pairing_keys" pairing_keys;
  raise_if (negb (bool_decide (validated_pairing_keys = REQUIRED_PAIRING_KEYS)))
    (ManifestError (cat ["manifest.scope.pairing_keys must be exactly: ";
                         join ", " REQUIRED_PAIRING_KEYS]));;
  mret (Scope validated_labels validated_pairing_keys).

Definition expected_report_references (run_root : string) : list string :=
  map (λ '(_, value), cat [run_root; "/"; value]) EXPECTED_DERIVED_OUTPUTS.

Definition validate_report (report_obj : json) (run_root : string) : exc report_ref :=
  d ← of_option (ManifestError "manifest.report must be an object") (as_dict report_obj);
  path ← required_str d "path" "manifest.report";
  raise_if (negb (bool_decide (path = EXPECTED_REPORT_PATH)))
    (ManifestError (cat ["manifest.report.path="; repr_str path; " expected ";
                         repr_str EXPECTED_REPORT_PATH]));;
  references ← required_list d "required_references" "manifest.report";
  validated_references ← string_items "manifest.report.required_references" references;
  raise_if (negb (bool_decide (validated_references = expected_report_references run_root)))
    (ManifestError (cat ["manifest.report.required_references must point at the stable generated outputs: ";
                         join ", " (expected_report_references run_root)]));;
  mret (ReportRef path validated_references).

(** One iteration of the loop over the expected outputs: the validated
    dictionary and the paths seen so far. *)
Definition derived_output_step (d : dict json) (acc : dict string * gset string)
    (item : string * string) : exc (dict string * gset string) :=
  let '(validated, seen_paths) := acc in
  let '(key, expected) := item in
  actual ← required_str d key "manifest.derived_outputs";
  raise_if (negb (bool_decide (actual = expected)))
    (ManifestError (cat ["manifest.derived_outputs."; key; "="; repr_str actual;
                         " expected "; repr_str expected]));;
  raise_if (bool_decide (actual ∈ seen_paths))
    (ManifestError (cat ["manifest.derived_outputs."; key; " duplicates output path ";
                         repr_str actual]));;
  mret (dset key actual validated, {[actual]} ∪ seen_paths).

Definition validate_derived_outputs (derived_outputs_obj : json) : exc (dict string) :=
  d ← of_option (ManifestError "manifest.derived_outputs must be an object")
        (as_dict derived_outputs_obj);
  '(validated, _) ← foldM (derived_output_step d) ([], ∅) EXPECTED_DERIVED_OUTPUTS;
  mret validated.

(** ** Upstream manifests *)

Definition index_s02_pair (index : nat) (label : string) (endpoint_artifacts : dict json)
    (acc : dict (dict string)) (instrumentation : string) : exc (dict (dict string)) :=
  pair ← of_option (ManifestError (cat ["inputs.software_manifest workloads["; pretty index;
                      "] label="; repr_str label; " endpoint_artifacts missing "; instrumentation]))
           (as_dict (get instrumentation endpoint_artifacts));
  roles ← foldM (λ acc endpoint_role,
      value ← required_str pair endpoint_role
        (cat ["inputs.software_manifest.workloads["; pretty index; "].endpoint_artifacts.";
              instrumentation]);
      mret (dset endpoint_role value acc)) [] EXPECTED_ENDPOINT_ROLES;
  mret (dset instrumentation roles acc).

Definition index_s02_entry (acc : dict (dict (dict string))) (item : nat * json)
    : exc (dict (dict (dict string))) :=
  let '(index, entry) := item in
  d ← of_option (ManifestError (cat ["inputs.software_manifest workloads["; pretty index;
                                     "] must be an object"])) (as_dict entry);
  label ← required_str d "label"
            (cat ["inputs.software_manifest.workloads["; pretty index; "]"]);
  endpoint_artifacts ←
    of_option (ManifestError (cat ["inputs.software_manifest workloads["; pretty index;
                 "] label="; repr_str label; " missing endpoint_artifacts"]))
      (as_dict (get "endpoint_artifacts" d));
  inner ← foldM (index_s02_pair index label endpoint_artifacts) [] ["off"; "on"];
  mret (dset label inner acc).

Definition index_s02_workloads (workloads : list json) : exc (dict (dict (dict string))) :=
  foldM index_s02_entry [] (enumerate workloads).

Definition index_s03_entry (acc : dict (dict string)) (item : nat * json)
    : exc (dict (dict string)) :=
  let '(index, entry) := item in
  d ← of_option (ManifestError (cat ["inputs.idxd_manifest workloads["; pretty index;
                                     "] must be an object"])) (as_dict entry);
  label ← required_str d "label" (cat ["inputs.idxd_manifest.workloads["; pretty index; "]"]);
  endpoint_artifacts ←
    of_option (ManifestError (cat ["inputs.idxd_manifest workloads["; pretty index;
                 "] label="; repr_str label; " missing endpoint_artifacts"]))
      (as_dict (get "endpoint_artifacts" d));
  roles ← foldM (λ acc endpoint_role,
      value ← required_str endpoint_artifacts endpoint_role
        (cat ["inputs.idxd_manifest.workloads["; pretty index; "].endpoint_artifacts"]);
      mret (dset endpoint_role value acc)) [] EXPECTED_ENDPOINT_ROLES;
  mret (dset label roles acc).

Definition index_s03_workloads (workloads : list json) : exc (dict (dict string)) :=
  foldM index_s03_entry [] (enumerate workloads).

(** ** Artifact families *)

(** Tuples compare by their first component, then by the second. *)
Definition pair_le (a b : string * string) : Prop :=
  if bool_decide (a.1 = b.1) then String.le a.2 b.2 else String.le a.1 b.1.
#[export] Instance pair_le_dec : RelDecision pair_le.
Proof. intros a b. unfold pair_le. destruct (bool_decide _); apply _. Defined.

Abbreviation pair_set := (gset (string * string)).

Definition cross (labels roles : list string) : list (string * string) :=
  label ← labels; (λ role, (label, role)) <$> roles.

(** One iteration of the loop over the entries of a family: the entries
    validated so far, the pairs they name, and the artifacts of all families. *)
Definition family_entry_step (family_name : string) (expected_labels : list string)
    (expected_prefix : string) (upstream_artifacts : dict (dict string))
    (acc : list endpoint_report * pair_set * gset string) (item : nat * json)
    : exc (list endpoint_report * pair_set * gset string) :=
  let '(validated, seen_pairs, global_artifacts) := acc in
  let '(index, entry) := item in
  let scope := cat ["artifact_families."; family_name; ".endpoint_reports["; pretty index; "]"] in
  d ← of_option (ManifestError (cat [scope; " must be an object"])) (as_dict entry);
  workload_label ← required_str d "workload_label" scope;
  endpoint_role ← required_str d "endpoint_role" scope;
  artifact ← required_str d "artifact" scope;
  raise_if (bool_decide (workload_label ∉ expected_labels))
    (ManifestError (cat [scope; ".workload_label="; repr_str workload_label;
                         " is outside the curated S04 scope"]));;
  raise_if (bool_decide (endpoint_role ∉ EXPECTED_ENDPOINT_ROLES))
    (ManifestError (cat [scope; ".endpoint_role="; repr_str endpoint_role; " expected one of ";
                         join ", " EXPECTED_ENDPOINT_ROLES]));;
  let pair := (workload_label, endpoint_role) in
  raise_if (bool_decide (pair ∈ seen_pairs))
    (ManifestError (cat [scope; " duplicates workload_label="; repr_str workload_label;
                         " endpoint_role="; repr_str endpoint_role]));;
  raise_if (bool_decide (artifact ∈ global_artifacts))
    (ManifestError (cat [scope; ".artifact duplicates artifact path "; repr_str artifact]));;
  raise_if (negb (startswith expected_prefix artifact))
    (ManifestError (cat [scope; ".artifact="; repr_str artifact; " expected to live under ";
                         repr_str expected_prefix]));;
  roles ← ditem workload_label upstream_artifacts;
  expected_upstream ← ditem endpoint_role roles;
  raise_if (negb (bool_decide (path_name (parse_path artifact) = expected_upstream)))
    (ManifestError (cat [scope; ".artifact="; repr_str artifact; " expected basename ";
                         repr_str expected_upstream; " from upstream manifest"]));;
  mret (validated ++ [EndpointReport workload_label endpoint_role artifact],
        {[pair]} ∪ seen_pairs, {[artifact]} ∪ global_artifacts).

Definition validate_family_entries (family_name : string) (entries : json)
    (expected_labels : list string) (expected_prefix : string)
    (upstream_artifacts : dict (dict string)) (global_artifacts : gset string)
    : exc (list endpoint_report * gset string) :=
  l ← of_option (ManifestError (cat ["artifact_families."; family_name;
                   ".endpoint_reports must be a non-empty array"])) (nonempty_list entries);
  '(validated, seen_pairs, global_artifacts) ←
    foldM (family_entry_step family_name expected_labels expected_prefix upstream_artifacts)
      ([], ∅, global_artifacts) (enumerate l);
  let expected_pairs : pair_set := list_to_set (cross expected_labels EXPECTED_ENDPOINT_ROLES) in
  let missing_pairs := merge_sort pair_le (elements (expected_pairs ∖ seen_pairs)) in
  raise_if (negb (bool_decide (missing_pairs = [])))
    (ManifestError (cat ["artifact_families."; family_name;
       ".endpoint_reports missing curated entries: ";
       join ", " (map (λ '(label, role), cat [label; ":"; role]) missing_pairs)]));;
  mret (validated, global_artifacts).

(** The upstream artifacts a family is checked against. *)
Definition family_upstream (run_family instrumentation : string)
    (s02_artifacts : dict (dict (dict string))) (s03_artifacts : dict (dict string))
    : exc (dict (dict string)) :=
  if bool_decide (run_family ∈ ["software_baseline"; "software_attribution"]) then
    mapM (λ '(label, values), roles ← ditem instrumentation values; mret (label, roles))
      s02_artifacts
  else mret s03_artifacts.

(** One iteration of the loop over the families. *)
Definition family_step (inputs : dict string) (labels : list string)
    (s02_artifacts : dict (dict (dict string))) (s03_artifacts : dict (dict string))
    (acc : list family * gset string * gset string) (item : nat * json)
    : exc (list family * gset string * gset string) :=
  let '(validated, seen_families, global_artifacts) := acc in
  let '(index, fam) := item in
  let scope_name := cat ["manifest.artifact_families["; pretty index; "]"] in
  d ← of_option (ManifestError (cat [scope_name; " must be an object"])) (as_dict fam);
  run_family ← required_str d "run_family" scope_name;
  raise_if (bool_decide (run_family ∈ seen_families))
    (ManifestError (cat [scope_name; ".run_family="; repr_str run_family; " is duplicated"]));;
  expected ← of_option (ManifestError (cat [scope_name; ".run_family="; repr_str run_family;
               " is not a tracked S04 family"])) (dget run_family EXPECTED_FAMILIES);
  source_manifest ← required_str d "source_manifest" scope_name;
  source ← ditem (source_key expected) inputs;
  raise_if (negb (bool_decide (source_manifest = source)))
    (ManifestError (cat [scope_name; ".source_manifest="; repr_str source_manifest;
                         " expected "; repr_str source]));;
  instrumentation ← required_str d "instrumentation" scope_name;
  raise_if (negb (bool_decide (instrumentation = ex_instrumentation expected)))
    (ManifestError (cat [scope_name; ".instrumentation="; repr_str instrumentation;
                         " expected "; repr_str (ex_instrumentation expected)]));;
  selected_path ← required_str d "selected_path" scope_name;
  raise_if (negb (bool_decide (selected_path = ex_selected_path expected)))
    (ManifestError (cat [scope_name; ".selected_path="; repr_str selected_path;
                         " expected "; repr_str (ex_selected_path expected)]));;
  upstream ← family_upstream run_family instrumentation s02_artifacts s03_artifacts;
  '(endpoint_reports, global_artifacts) ←
    validate_family_entries run_family (get "endpoint_reports" d) labels (prefix expected)
      upstream global_artifacts;
  mret (validated ++ [Family run_family source_manifest instrumentation selected_path
                        endpoint_reports],
        {[run_family]} ∪ seen_families, global_artifacts).

Definition validate_families (families : list json) (inputs : dict string) (sc : scope)
    (s02_artifacts : dict (dict (dict string))) (s03_artifacts : dict (dict string))
    : exc (list family) :=
  '(validated, seen_families, _) ←
    foldM (family_step inputs (sc_labels sc) s02_artifacts s03_artifacts)
      ([], ∅, ∅) (enumerate families);
  let missing_families :=
    sorted_strings (elements ((list_to_set EXPECTED_FAMILIES.*1 : gset string) ∖ seen_families)) in
  raise_if (negb (bool_decide (missing_families = [])))
    (ManifestError (cat ["manifest.artifact_families missing required S04 families: ";
                         join ", " missing_families]));;
  mret validated.

(** ** Reading the manifests *)

Section repository.
Context (repo_root : path).

Definition resolve_repo_path (raw : string) : path :=
  let path := parse_path raw in
  if is_absolute path then path else path_join repo_root path.

Definition load_json (path : path) (scope : string) : io (dict json) :=
  raw ← catch (read_text path) (λ e,
    match e with
    | OSError err =>
        io_raise (ManifestError (cat [scope; " read failed ("; path_str path; "): "; err]))
    | e => io_raise e
    end);
  value ← catch (pure_ (json_loads raw)) (λ e,
    match e with
    | JSONDecodeError err =>
        io_raise (ManifestError (cat [scope; " parse failed ("; path_str path; "): "; err]))
    | e => io_raise e
    end);
  pure_ (of_option (ManifestError (cat [scope; " root must be an object"])) (as_dict value)).

(** The source returns the whole manifest; its callers use the workloads. *)
Definition load_upstream_manifest (path_raw scope : string) : io (list json) :=
  manifest ← load_json (resolve_repo_path path_raw) scope;
  pure_ (of_option (ManifestError (cat [scope; " workloads must be a non-empty array"]))
           (nonempty_list (get "workloads" manifest))).

Definition INPUT_KEYS : list string :=
  ["software_manifest"; "idxd_manifest"; "control_floor_summary"; "report_contract"].

Definition input_step (d : dict json) (validated : dict string) (key : string)
    : io (dict string) :=
  raw ← pure_ (required_str d key "manifest.inputs");
  present ← gets (λ w, path_exists w (resolve_repo_path raw));
  io_raise_if (negb present)
    (ManifestError (cat ["manifest.inputs."; key; " path does not exist: "; raw]));;
  mret (dset key raw validated).

Definition validate_inputs (inputs_obj : json) : io (dict string) :=
  d ← pure_ (of_option (ManifestError "manifest.inputs must be an object")
               (as_dict inputs_obj));
  foldM (input_step d) [] INPUT_KEYS.

Definition validate_artifact_families (artifact_families_obj : json) (inputs : dict string)
    (sc : scope) : io (list family) :=
  families ← pure_ (of_option (ManifestError "manifest.artifact_families must be a non-empty array")
                      (nonempty_list artifact_families_obj));
  software_path ← pure_ (ditem "software_manifest" inputs);
  software_manifest ← load_upstream_manifest software_path "inputs.software_manifest";
  idxd_path ← pure_ (ditem "idxd_manifest" inputs);
  idxd_manifest ← load_upstream_manifest idxd_path "inputs.idxd_manifest";
  s02_artifacts ← pure_ (index_s02_workloads software_manifest);
  s03_artifacts ← pure_ (index_s03_workloads idxd_manifest);
  pure_ (validate_families families inputs sc s02_artifacts s03_artifacts).

Definition load_manifest (path : path) : io manifest :=
  doc ← load_json path "phase=manifest-parse manifest";
  let version := get "version" doc in
  io_raise_if (negb (py_eq version (JInt 1)))
    (ManifestError (cat ["manifest.version="; py_repr version; " expected 1"]));;
  run_root ← pure_ (required_str doc "run_root" "manifest");
  io_raise_if (negb (bool_decide (run_root = EXPECTED_RUN_ROOT)))
    (ManifestError (cat ["manifest.run_root="; repr_str run_root;
       " expected 'accel-rpc/target/s04-claim-package/latest'"]));;
  sc ← pure_ (validate_scope (get "scope" doc));
  inputs ← validate_inputs (get "inputs" doc);
  derived_outputs ← pure_ (validate_derived_outputs (get "derived_outputs" doc));
  artifact_families ← validate_artifact_families (get "artifact_families" doc) inputs sc;
  report ← pure_ (validate_report (get "report" doc) run_root);
  mret (Manifest version run_root sc inputs artifact_families derived_outputs report).

(** ** Paths derived from a validated manifest *)

Definition summary_path (m : manifest) : exc string :=
  out ← ditem "comparison_summary_json" (m_outputs m);
  mret (cat [m_run_root m; "/"; out]).

Definition resolve_run_root (cwd : list string) (raw : string) : path :=
  resolve cwd (resolve_repo_path raw).

Definition manifest_copy_path (run_root : path) : path := path_div run_root "manifest.json".

Definition summary_output_paths (m : manifest) (run_root : path) : dict path :=
  map (λ '(key, relpath), (key, path_div run_root relpath)) (m_outputs m).
End repository.

#[global] Arguments derived_output_step : simpl never.
#[global] Arguments index_s02_pair : simpl never.
#[global] Arguments index_s02_entry : simpl never.
#[global] Arguments index_s03_entry : simpl never.
#[global] Arguments family_entry_step : simpl never.
#[global] Arguments family_step : simpl never.
#[global] Arguments input_step : simpl never.
#[global] Arguments cat : simpl never.

(** ** Field readers and pure validators: what they accept *)

Lemma contract_required_str_Ok d k sc s :
  required_str d k sc = Ok s ↔ get k d = JStr s ∧ s ≠ "".
Proof. unfold required_str. by rewrite of_option_Ok, nonempty_str_Some. Qed.

Lemma required_list_Ok d k sc l :
  required_list d k sc = Ok l ↔ get k d = JArr l ∧ l ≠ [].
Proof. unfold required_list. by rewrite of_option_Ok, nonempty_list_Some. Qed.

Lemma string_items_Ok sc l ks :
  string_items sc l = Ok ks ↔ l = JStr <$> ks ∧ Forall (λ s, s ≠ "") ks.
Proof. apply (mapM_nonempty_str (λ i, _)). Qed.

(** Reading the guards of this module backwards ([inv_read]) and forwards
    ([run_read]). *)
Ltac inv_read_step :=
  first
  [ inv_ok_step
  | match goal with
    | H : required_str _ _ _ = Ok _ |- _ => apply contract_required_str_Ok in H as [? ?]
    | H : required_list _ _ _ = Ok _ |- _ => apply required_list_Ok in H as [? ?]
    | H : string_items _ _ = Ok _ |- _ => apply string_items_Ok in H as [? ?]
    | H : ditem _ _ = Ok _ |- _ => apply ditem_Ok in H
    | H : as_dict _ = Some _ |- _ => apply as_dict_Some in H
    | H : nonempty_list _ = Some _ |- _ => apply nonempty_list_Some in H as [? ?]
    | x : _ * _ |- _ => destruct x
    end ].
Ltac inv_read := repeat (inv_read_step; subst).

Ltac read_guard :=
  first
  [ done
  | apply contract_required_str_Ok; by split
  | apply required_list_Ok; by split
  | apply string_items_Ok; by split
  | apply ditem_Ok; done
  | apply nonempty_list_Some; by split
  | tauto ].
Ltac run_read := run_ok_with read_guard.

Lemma validate_scope_Ok v sc :
  validate_scope v = Ok sc ↔
  ∃ d, v = JObj d ∧
    get "workload_labels" d = JArr (JStr <$> sc_labels sc) ∧
    get "pairing_keys" d = JArr (JStr <$> REQUIRED_PAIRING_KEYS) ∧
    (list_to_set (sc_labels sc) : gset string) = REQUIRED_LABELS ∧
    sc_pairing_keys sc = REQUIRED_PAIRING_KEYS.
Proof.
  split.
  - unfold validate_scope. intros H. inv_read. by eexists.
  - intros (d & -> & Hl & Hk & Hset & Hpk). destruct sc as [labels keys]; simpl in *; subst keys.
    assert (∀ s, s ∈ labels ↔ s = LABEL_BYTES ∨ s = LABEL_SHAPE) as Hlabels.
    { intros s. rewrite <-(elem_of_list_to_set (C:=gset string)), Hset. unfold REQUIRED_LABELS. set_solver. }
    assert (labels ≠ []) by (intros ->; by eapply not_elem_of_nil, Hlabels; left).
    assert (Forall (λ s, s ≠ "") labels).
    { apply Forall_forall. intros s [->| ->]%Hlabels; done. }
    assert (JStr <$> labels ≠ []) by (by destruct labels).
    unfold validate_scope. by run_read.
Qed.

Lemma derived_output_step_Ok d validated seen k e acc' :
  derived_output_step d (validated, seen) (k, e) = Ok acc' ↔
  get k d = JStr e ∧ e ≠ "" ∧ (e ∉ seen) ∧ acc' = (dset k e validated, {[e]} ∪ seen).
Proof.
  unfold derived_output_step. split.
  - intros H. inv_read. done.
  - intros (? & ? & ? & ->). by run_read.
Qed.

(** The only accepted derived outputs are the expected ones, in their order. *)
Lemma validate_derived_outputs_Ok v outs :
  validate_derived_outputs v = Ok outs ↔
  outs = EXPECTED_DERIVED_OUTPUTS ∧
  ∃ d, v = JObj d ∧ Forall (λ '(k, p), get k d = JStr p) EXPECTED_DERIVED_OUTPUTS.
Proof.
  unfold validate_derived_outputs, EXPECTED_DERIVED_OUTPUTS. split.
  - intros H. cbn [foldM] in H. inv_read.
    repeat match goal with
    | H : derived_output_step _ (?v, _) _ = _ |- _ =>
        apply derived_output_step_Ok in H as (? & ? & ? & ?); simplify_eq
    end.
    split; [done|]. eexists; split; [done|]. by repeat constructor.
  - intros (-> & d & -> & H). rewrite !Forall_cons in H. destruct H as (? & ? & ? & _).
    eapply bind_run; [reflexivity|]. eapply (bind_run _ _ (_, _)); [|reflexivity].
    do 3 (eapply bind_run;
      [apply derived_output_step_Ok; split_and!; [eassumption|done|set_solver|done]|]).
    done.
Qed.

Lemma contract_validate_report_Ok v rr run_root :
  validate_report v run_root = Ok rr ↔
  rr = ReportRef EXPECTED_REPORT_PATH (expected_report_references run_root) ∧
  ∃ d, v = JObj d ∧ get "path" d = JStr EXPECTED_REPORT_PATH ∧
    get "required_references" d = JArr (JStr <$> expected_report_references run_root).
Proof.
  unfold validate_report. split.
  - intros H. inv_read. split; [done|]. by eexists.
  - intros (-> & d & -> & Hp & Hr). 
    assert (Forall (λ s, s ≠ "") (expected_report_references run_root)).
    { repeat constructor; by destruct run_root. }
    by run_read.
Qed.

(** ** The entries of one family *)

Definition report_pair (r : endpoint_report) : string * string := (er_label r, er_role r).

(** The JSON entry [v] reads as the report [r]. *)
Definition report_json (r : endpoint_report) (v : json) : Prop :=
  ∃ d, v = JObj d ∧ get "workload_label" d = JStr (er_label r) ∧
    get "endpoint_role" d = JStr (er_role r) ∧ get "artifact" d = JStr (er_artifact r).

(** A report inside the curated scope whose artifact has the family's prefix
    and the file name its upstream manifest gives. *)
Record report_ok (labels : list string) (pre : string) (upstream : dict (dict string))
    (r : endpoint_report) : Prop := {
  ro_label : er_label r ∈ labels ∧ er_label r ≠ "";
  ro_role : er_role r ∈ EXPECTED_ENDPOINT_ROLES;
  ro_artifact : er_artifact r ≠ "";
  ro_prefix : startswith pre (er_artifact r) = true;
  ro_upstream : ∃ roles, dget (er_label r) upstream = Some roles ∧
    dget (er_role r) roles = Some (path_name (parse_path (er_artifact r)));
}.

Section entries.
Context (name : string) (labels : list string) (pre : string) (upstream : dict (dict string)).

Lemma family_entry_step_Ok rs seen glob i v acc' :
  family_entry_step name labels pre upstream (rs, seen, glob) (i, v) = Ok acc' ↔
  ∃ r, report_json r v ∧ report_ok labels pre upstream r ∧ (report_pair r ∉ seen) ∧
    (er_artifact r ∉ glob) ∧
    acc' = (rs ++ [r], {[report_pair r]} ∪ seen, {[er_artifact r]} ∪ glob).
Proof.
  unfold family_entry_step. split.
  - intros H. inv_read.
    match goal with H : negb _ = false |- _ => apply negb_false_iff in H end.
    match goal with |- context [_ ++ [?r0]] => exists r0 end.
    split_and!; [eexists; eauto| |done..].
    split; simpl; eauto.
  - intros ([l r a] & (d & -> & Hl & Hr & Ha) & [[] ? ? Hpre (roles & Hup & Hrole)] & Hs & Hg & ->);
      simpl in *.
    assert (r ≠ "") by (intros ->; set_solver).
    unfold report_pair; simpl. rewrite <-negb_false_iff in Hpre. by run_read.
Qed.

(** A list of entries is accepted from a state exactly when it reads as new
    reports that are in scope and use no pair and no artifact twice. *)
Lemma family_entries_fold l rs0 seen glob rs seen' glob' :
  foldM (family_entry_step name labels pre upstream) (rs0, seen, glob) l = Ok (rs, seen', glob') ↔
  ∃ new, rs = rs0 ++ new ∧ Forall2 report_json new l.*2 ∧
    Forall (report_ok labels pre upstream) new ∧
    fresh seen (report_pair <$> new) ∧ fresh glob (er_artifact <$> new) ∧
    seen' = list_to_set (report_pair <$> new) ∪ seen ∧
    glob' = list_to_set (er_artifact <$> new) ∪ glob.
Proof.
  revert rs0 seen glob. induction l as [|[i v] l IH]; intros rs0 seen glob; simpl.
  - split.
    + intros H. inv_ok. exists []. simpl. rewrite app_nil_r, !(left_id_L ∅ (∪)).
      split_and!; auto using fresh_nil.
    + intros (new & -> & H & _ & _ & _ & -> & ->). inversion H; subst. simpl.
      by rewrite app_nil_r, !(left_id_L ∅ (∪)).
  - rewrite bind_Ok. split.
    + intros (acc' & (r & Hj & Hok & Hs & Hg & ->)%family_entry_step_Ok & H).
      apply IH in H as (new & -> & Hjs & Hoks & Hp & Ha & -> & ->).
      exists (r :: new). rewrite <-app_assoc, !list_to_set_push.
      split_and!; [done|by constructor|by constructor| | |done..]; by apply fresh_cons.
    + intros (new & -> & Hjs & Hoks & Hp & Ha & -> & ->).
      destruct new as [|r new]; inversion Hjs; subst.
      apply fresh_cons in Hp as [? ?], Ha as [? ?]. inversion Hoks; subst.
      eexists. split; [apply family_entry_step_Ok; exists r; by split_and!|].
      apply IH. exists new. by rewrite <-app_assoc, !list_to_set_push.
Qed.
End entries.

(** What a validated list of reports is: every report in scope, and every pair
    of a label and a role exactly once. *)
Record reports_ok (labels : list string) (pre : string) (upstream : dict (dict string))
    (rs : list endpoint_report) : Prop := {
  rs_ok : Forall (report_ok labels pre upstream) rs;
  rs_pairs : NoDup (report_pair <$> rs);
  rs_cover : ∀ l r, l ∈ labels → r ∈ EXPECTED_ENDPOINT_ROLES → (l, r) ∈ report_pair <$> rs;
}.

Lemma elem_of_cross labels roles p : p ∈ cross labels roles ↔ p.1 ∈ labels ∧ p.2 ∈ roles.
Proof.
  unfold cross. destruct p as [l r]. rewrite list_elem_of_bind. split.
  - intros (l' & (r' & ? & ?)%list_elem_of_fmap & ?). by simplify_eq/=.
  - intros [? ?]. exists l. split; [|done]. apply list_elem_of_fmap. eauto.
Qed.

Lemma merge_sort_nil {A} (R : relation A) `{!RelDecision R} l : merge_sort R l = [] ↔ l = [].
Proof.
  split; [|by intros ->]. intros H. apply Permutation_nil_r.
  by rewrite <-(merge_sort_Permutation R l), H.
Qed.

(** The entries validator accepts exactly the entries that read as reports
    covering the scope once. *)
Lemma validate_family_entries_Ok name entries labels pre upstream glob rs glob' :
  validate_family_entries name entries labels pre upstream glob = Ok (rs, glob') ↔
  ∃ l, entries = JArr l ∧ l ≠ [] ∧ Forall2 report_json rs l ∧
    reports_ok labels pre upstream rs ∧ fresh glob (er_artifact <$> rs) ∧
    glob' = list_to_set (er_artifact <$> rs) ∪ glob.
Proof.
  unfold validate_family_entries. split.
  - intros H. inv_read.
    match goal with H : foldM _ _ _ = _ |- _ =>
      apply family_entries_fold in H as (new & -> & Hj & Hok & Hp & Ha & -> & ->) end.
    match goal with H : merge_sort _ _ = [] |- _ =>
      apply merge_sort_nil, elements_empty_inv in H; rename H into Hmiss end.
    rewrite enumerate_snd in Hj. rewrite (right_id_L ∅ (∪)) in Hmiss.
    eexists; split_and!; [done..| |done|done]. split; [done|by eapply fresh_NoDup|].
    intros lb r Hl Hr. apply (elem_of_list_to_set (C:=pair_set)).
    apply dec_stable. intros Hnot.
    apply (not_elem_of_empty (C:=pair_set) (lb, r)), Hmiss.
    apply elem_of_difference. split; [|done]. by apply elem_of_list_to_set, elem_of_cross.
  - intros (l & -> & Hl & Hj & [Hok Hp Hcov] & Ha & ->).
    eapply bind_run; [apply of_option_Ok, nonempty_list_Some; by split|].
    eapply (bind_run _ _ (_, _, _)).
    { apply family_entries_fold. exists rs. rewrite enumerate_snd.
      split_and!; try done. by apply fresh_empty. }
    cbv beta iota. eapply (bind_run _ _ tt); [|done].
    apply raise_if_negb_Ok, merge_sort_nil. apply elements_empty_iff.
    intros [lb r]. rewrite elem_of_difference, elem_of_list_to_set, elem_of_cross.
    split; [|set_solver]. intros [[? ?] Hnot]. exfalso. apply Hnot, elem_of_union_l.
    apply elem_of_list_to_set. by apply Hcov.
Qed.

(** ** The artifact families *)

(** The JSON family [v] reads as [f]. *)
Definition family_json (f : family) (v : json) : Prop :=
  ∃ d l, v = JObj d ∧ get "run_family" d = JStr (fa_run_family f) ∧
    get "source_manifest" d = JStr (fa_source_manifest f) ∧
    get "instrumentation" d = JStr (fa_instrumentation f) ∧
    get "selected_path" d = JStr (fa_selected_path f) ∧
    get "endpoint_reports" d = JArr l ∧ l ≠ [] ∧ Forall2 report_json (fa_reports f) l.

Definition artifacts (f : family) : list string := er_artifact <$> fa_reports f.

(** A family that is what its expectation [ex] says, with reports checked
    against the upstream artifacts [up]. *)
Record family_ok (inputs : dict string) (labels : list string) (f : family)
    (ex : expected_family) (up : dict (dict string)) : Prop := {
  fo_expected : dget (fa_run_family f) EXPECTED_FAMILIES = Some ex;
  fo_source : dget (source_key ex) inputs = Some (fa_source_manifest f);
  fo_source_nonempty : fa_source_manifest f ≠ "";
  fo_instrumentation : fa_instrumentation f = ex_instrumentation ex;
  fo_selected_path : fa_selected_path f = ex_selected_path ex;
  fo_reports : reports_ok labels (prefix ex) up (fa_reports f);
}.

Lemma expected_families_inv name ex :
  dget name EXPECTED_FAMILIES = Some ex →
  (name, ex) ∈ EXPECTED_FAMILIES ∧ name ≠ "" ∧ source_key ex ∈ ["software_manifest"; "idxd_manifest"] ∧
  ex_instrumentation ex ∈ ["off"; "on"] ∧ ex_selected_path ex ≠ "".
Proof.
  intros H%dget_elem. split; [done|]. unfold EXPECTED_FAMILIES in H.
  rewrite !elem_of_cons, elem_of_nil in H. destruct_or!; simplify_eq/=; set_solver.
Qed.

Section families.
Context (inputs : dict string) (labels : list string).
Context (s02 : dict (dict (dict string))) (s03 : dict (dict string)).

Definition family_checked (f : family) : Prop :=
  ∃ ex up, family_upstream (fa_run_family f) (fa_instrumentation f) s02 s03 = Ok up ∧
    family_ok inputs labels f ex up.

Lemma family_step_Ok fs seen glob i v acc' :
  family_step inputs labels s02 s03 (fs, seen, glob) (i, v) = Ok acc' ↔
  ∃ f, family_json f v ∧ family_checked f ∧ (fa_run_family f ∉ seen) ∧
    fresh glob (artifacts f) ∧
    acc' = (fs ++ [f], {[fa_run_family f]} ∪ seen, list_to_set (artifacts f) ∪ glob).
Proof.
  unfold family_step. split.
  - intros H. inv_read.
    match goal with H : validate_family_entries _ _ _ _ _ _ = _ |- _ =>
      apply validate_family_entries_Ok in H as (? & ? & ? & ? & ? & ? & ->) end.
    match goal with |- context [_ ++ [?f0]] => exists f0 end.
    split_and!; [by do 2 eexists| |done..].
    do 2 eexists. split; [done|]. by split.
  - intros ([rf src ins sel rs] & (d & l & -> & ? & ? & ? & ? & ? & ? & ?) &
      (ex & up & ? & [? ? ? Hins Hsel ?]) & ? & ? & ->); simpl in *.
    destruct (expected_families_inv rf ex) as (_ & ? & ? & Hon & ?); [done|]. subst.
    assert (ex_instrumentation ex ≠ "") by (intros E; rewrite E in Hon; set_solver).
    run_read. eapply (bind_run _ _ (_, _)); [|done].
    apply validate_family_entries_Ok. by exists l.
Qed.

(** The loop over the families accepts exactly the lists that read as checked
    families with distinct names and no artifact twice, across families. *)
Lemma families_fold l fs0 seen glob fs seen' glob' :
  foldM (family_step inputs labels s02 s03) (fs0, seen, glob) l = Ok (fs, seen', glob') ↔
  ∃ new, fs = fs0 ++ new ∧ Forall2 family_json new l.*2 ∧ Forall family_checked new ∧
    fresh seen (fa_run_family <$> new) ∧ fresh glob (new ≫= artifacts) ∧
    seen' = list_to_set (fa_run_family <$> new) ∪ seen ∧
    glob' = list_to_set (new ≫= artifacts) ∪ glob.
Proof.
  revert fs0 seen glob. induction l as [|[i v] l IH]; intros fs0 seen glob; simpl.
  - split.
    + intros H. inv_ok. exists []. simpl. rewrite app_nil_r, !(left_id_L ∅ (∪)).
      split_and!; auto using fresh_nil.
    + intros (new & -> & H & _ & _ & _ & -> & ->). inversion H; subst. simpl.
      by rewrite app_nil_r, !(left_id_L ∅ (∪)).
  - rewrite bind_Ok. split.
    + intros (acc' & (f & Hj & Hok & Hs & Hg & ->)%family_step_Ok & H).
      apply IH in H as (new & -> & Hjs & Hoks & Hp & Ha & -> & ->).
      exists (f :: new). csimpl. rewrite <-app_assoc, !list_to_set_push, list_to_set_push_app.
      split_and!; [done|by constructor|by constructor|by apply fresh_cons|by apply fresh_app|done..].
    + intros (new & -> & Hjs & Hoks & Hp & Ha & -> & ->).
      destruct new as [|f new]; inversion Hjs; subst.
      csimpl in *. apply fresh_cons in Hp as [? ?]. apply fresh_app in Ha as [? ?].
      inversion Hoks; subst.
      eexists. split; [apply family_step_Ok; exists f; by split_and!|].
      apply IH. exists new. by rewrite <-app_assoc, !list_to_set_push, list_to_set_push_app.
Qed.
End families.

(** The families validator accepts exactly the lists of checked families that
    name each expected family once and use no artifact path twice. *)
Lemma validate_families_Ok l inputs sc s02 s03 fs :
  validate_families l inputs sc s02 s03 = Ok fs ↔
  Forall2 family_json fs l ∧ Forall (family_checked inputs (sc_labels sc) s02 s03) fs ∧
  NoDup (fs ≫= artifacts) ∧ fa_run_family <$> fs ≡ₚ EXPECTED_FAMILIES.*1.
Proof.
  unfold validate_families. split.
  - intros H. inv_read.
    match goal with H : foldM _ _ _ = _ |- _ =>
      apply families_fold in H as (new & -> & Hj & Hok & Hp & Ha & -> & ->) end.
    match goal with H : sorted_strings _ = [] |- _ =>
      apply sorted_strings_nil, elements_empty_inv in H; rename H into Hmiss end.
    rewrite enumerate_snd in Hj. rewrite (right_id_L ∅ (∪)) in Hmiss.
    rewrite app_nil_l in *. split_and!; [done..|by eapply fresh_NoDup|].
    apply NoDup_Permutation; [by eapply fresh_NoDup|by apply (bool_decide_unpack _)|].
    intros x. split.
    + intros (f & -> & Hf)%list_elem_of_fmap. rewrite Forall_forall in Hok.
      destruct (Hok f Hf) as (ex & up & _ & [Hex _ _ _ _ _]).
      apply dget_elem in Hex. apply list_elem_of_fmap. by exists (fa_run_family f, ex).
    + intros Hx. apply (elem_of_list_to_set (C:=gset string)). apply dec_stable. intros Hnot.
      apply (not_elem_of_empty (C:=gset string) x), Hmiss.
      apply elem_of_difference. by rewrite elem_of_list_to_set.
  - intros (Hj & Hok & Ha & Hp). eapply (bind_run _ _ (_, _, _)).
    { apply families_fold. exists fs. rewrite enumerate_snd.
      split_and!; [done..| |by apply fresh_empty|done|done].
      apply fresh_empty. rewrite Hp. by apply (bool_decide_unpack _). }
    cbv beta iota. eapply (bind_run _ _ tt); [|done].
    apply raise_if_negb_Ok, sorted_strings_nil, elements_empty_iff.
    rewrite Hp. set_solver.
Qed.

(** ** The upstream indexes *)

(** The file names of the two endpoints, as an index entry. *)
Definition endpoint_paths (client server : string) : dict string :=
  [("client", client); ("server", server)].

Definition paths_json (roles : dict string) (d : dict json) : Prop :=
  ∃ c s, roles = endpoint_paths c s ∧ get "client" d = JStr c ∧ c ≠ "" ∧
    get "server" d = JStr s ∧ s ≠ "".

Lemma endpoint_loop_Ok (scope : string) (d : dict json) roles :
  foldM (λ acc endpoint_role,
    value ← required_str d endpoint_role scope;
    mret (dset endpoint_role value acc)) [] EXPECTED_ENDPOINT_ROLES = Ok roles ↔
  paths_json roles d.
Proof.
  unfold EXPECTED_ENDPOINT_ROLES, paths_json. cbn [foldM]. split.
  - intros H. inv_read. by do 2 eexists.
  - intros (c & s & -> & ? & ? & ? & ?).
    do 2 (eapply bind_run; [eapply bind_run; [apply contract_required_str_Ok; by split|done]|]). done.
Qed.

(** The workload [v] of the hardware manifest has label and endpoint paths [e]. *)
Definition s03_entry_json (e : string * dict string) (v : json) : Prop :=
  ∃ d ea, v = JObj d ∧ get "label" d = JStr e.1 ∧ e.1 ≠ "" ∧
    get "endpoint_artifacts" d = JObj ea ∧ paths_json e.2 ea.

(** The workload [v] of the software manifest has label and endpoint paths
    [e], with and without instrumentation. *)
Definition s02_entry_json (e : string * dict (dict string)) (v : json) : Prop :=
  ∃ d ea doff don roff ron, v = JObj d ∧ get "label" d = JStr e.1 ∧ e.1 ≠ "" ∧
    get "endpoint_artifacts" d = JObj ea ∧
    get "off" ea = JObj doff ∧ get "on" ea = JObj don ∧
    paths_json roff doff ∧ paths_json ron don ∧ e.2 = [("off", roff); ("on", ron)].

Lemma index_s03_workloads_Ok ws idx :
  index_s03_workloads ws = Ok idx ↔
  ∃ es, Forall2 s03_entry_json es ws ∧ idx = dupdate [] es.
Proof.
  unfold index_s03_workloads. apply foldM_dset_enumerate.
  intros d i v d'. unfold index_s03_entry, s03_entry_json; split.
  - intros H. inv_read.
    match goal with H : foldM _ _ _ = _ |- _ => apply endpoint_loop_Ok in H end.
    eexists (_, _). split; [by do 2 eexists|done].
  - intros ([k r] & (d1 & ea & -> & ? & ? & ? & ?) & ->); cbn [fst snd] in *.
    run_ok_with ltac:(first [read_guard | apply as_dict_Some; eassumption
                            | apply endpoint_loop_Ok; eassumption]). done.
Qed.

Lemma index_s02_workloads_Ok ws idx :
  index_s02_workloads ws = Ok idx ↔
  ∃ es, Forall2 s02_entry_json es ws ∧ idx = dupdate [] es.
Proof.
  unfold index_s02_workloads. apply foldM_dset_enumerate.
  intros d i v d'. unfold index_s02_entry, s02_entry_json; cbn [foldM]. split.
  - intros H. unfold index_s02_pair in H. inv_read.
    repeat match goal with H : foldM _ _ _ = _ |- _ => apply endpoint_loop_Ok in H end.
    eexists (_, _). split; [|done]. do 6 eexists. by split_and!.
  - intros ([k r] & (d1 & ea & doff & don & roff & ron & -> & ? & ? & ? & ? & ? & ? & ? & ?) & ->);
      cbn [fst snd] in *; subst.
    run_ok_with ltac:(first [read_guard | apply as_dict_Some; eassumption]).
    eapply bind_run; [|done]. unfold index_s02_pair.
    do 2 (eapply bind_run;
      [run_ok_with ltac:(first [ apply as_dict_Some; eassumption
                               | apply endpoint_loop_Ok; eassumption]); done|]). done.
Qed.

(** ** Reading and loading *)

Lemma load_json_run p sc w :
  load_json p sc w =
  (match file_bytes w p ≫= decode_text with
   | Err (OSError m) => Err (ManifestError (cat [sc; " read failed ("; path_str p; "): "; m]))
   | Err e => Err e
   | Ok text =>
       match json_loads text with
       | Err (JSONDecodeError m) =>
           Err (ManifestError (cat [sc; " parse failed ("; path_str p; "): "; m]))
       | Err e => Err e
       | Ok v => of_option (ManifestError (cat [sc; " root must be an object"])) (as_dict v)
       end
   end, w).
Proof.
  unfold load_json, catch, read_text, pure_, io_raise, mbind at 1, io_bind at 1.
  destruct (file_bytes w p ≫= decode_text) as [text|[]]; try done.
  unfold pure_, mbind, io_bind. by destruct (json_loads text) as [v|[]].
Qed.

Lemma load_json_Ok p sc w d w' :
  load_json p sc w = (Ok d, w') ↔ w' = w ∧ json_file w p = Some (JObj d).
Proof.
  rewrite load_json_run. unfold json_file.
  destruct (file_bytes w p ≫= decode_text) as [text|[]]; [|naive_solver..].
  destruct (json_loads text) as [v|[]]; [|naive_solver..].
  destruct v; naive_solver.
Qed.

Section loading.
Context (repo_root : path).
Implicit Types (w : world) (m : manifest).

(** The upstream manifest at [raw] holds the workloads [ws]. *)
Definition upstream_json w (raw : string) (ws : list json) : Prop :=
  ∃ d, json_file w (resolve_repo_path repo_root raw) = Some (JObj d) ∧
    get "workloads" d = JArr ws ∧ ws ≠ [].

Lemma load_upstream_manifest_Ok raw sc w ws w' :
  load_upstream_manifest repo_root raw sc w = (Ok ws, w') ↔ w' = w ∧ upstream_json w raw ws.
Proof.
  unfold load_upstream_manifest, upstream_json. rewrite io_bind_Ok.
  setoid_rewrite load_json_Ok. setoid_rewrite io_pure_Ok.
  setoid_rewrite of_option_Ok. setoid_rewrite nonempty_list_Some. naive_solver.
Qed.

(** The inputs object [v] of the manifest names existing paths [inputs]. *)
Definition inputs_json w (inputs : dict string) (v : json) : Prop :=
  inputs.*1 = INPUT_KEYS ∧ ∃ d, v = JObj d ∧
  Forall (λ '(k, raw), get k d = JStr raw ∧ raw ≠ "" ∧
    path_exists w (resolve_repo_path repo_root raw) = true) inputs.

Lemma input_step_Ok d validated k w acc' w' :
  input_step repo_root d validated k w = (Ok acc', w') ↔
  w' = w ∧ ∃ raw, get k d = JStr raw ∧ raw ≠ "" ∧
    path_exists w (resolve_repo_path repo_root raw) = true ∧ acc' = dset k raw validated.
Proof.
  unfold input_step. rewrite io_bind_pure. setoid_rewrite contract_required_str_Ok. split.
  - intros (raw & [? ?] & Hrun). inv_io.
    match goal with H : negb _ = false |- _ => apply negb_false_iff in H end. eauto 6.
  - intros (-> & raw & ? & ? & Hp & ->). exists raw. split; [done|].
    unfold gets, io_raise_if, pure_, mbind, io_bind. by rewrite Hp.
Qed.

Lemma validate_inputs_Ok v w inputs w' :
  validate_inputs repo_root v w = (Ok inputs, w') ↔ w' = w ∧ inputs_json w inputs v.
Proof.
  unfold validate_inputs, inputs_json, INPUT_KEYS. rewrite io_bind_pure.
  setoid_rewrite of_option_Ok. setoid_rewrite as_dict_Some. split.
  - intros (d & -> & H). cbn [foldM] in H. inv_io.
    repeat match goal with H : input_step _ _ _ _ _ = _ |- _ =>
      apply input_step_Ok in H as (-> & ? & ? & ? & ? & ?); subst end.
    split; [done|]. split; [done|]. eexists. split; [done|]. by repeat constructor.
  - intros (-> & Hk & d & -> & H). exists d. split; [done|].
    do 4 (destruct inputs as [|[? ?] inputs]; [done|]). destruct inputs; [|done].
    cbn in Hk. simplify_eq. rewrite !Forall_cons in H.
    destruct H as ((? & ? & ?) & (? & ? & ?) & (? & ? & ?) & (? & ? & ?) & _). cbn [foldM].
    do 4 (erewrite io_bind_run by (apply input_step_Ok; split; [done|eauto 6])). done.
Qed.

(** The families array [v] of the manifest and the upstream manifests its
    inputs name, together, give the families [fs]. *)
Record families_json w (inputs : dict string) (labels : list string) (fs : list family)
    (v : json) (es02 : dict (dict (dict string))) (es03 : dict (dict string)) : Prop := {
  fj_software : ∃ raw ws, dget "software_manifest" inputs = Some raw ∧
    upstream_json w raw ws ∧ Forall2 s02_entry_json es02 ws;
  fj_idxd : ∃ raw ws, dget "idxd_manifest" inputs = Some raw ∧
    upstream_json w raw ws ∧ Forall2 s03_entry_json es03 ws;
  fj_array : ∃ l, v = JArr l ∧ Forall2 family_json fs l;
  fj_checked : Forall (family_checked inputs labels (dupdate [] es02) (dupdate [] es03)) fs;
  fj_artifacts : NoDup (fs ≫= artifacts);
  fj_names : fa_run_family <$> fs ≡ₚ EXPECTED_FAMILIES.*1;
}.

Lemma validate_artifact_families_Ok v inputs sc w fs w' :
  validate_artifact_families repo_root v inputs sc w = (Ok fs, w') ↔
  w' = w ∧ ∃ es02 es03, families_json w inputs (sc_labels sc) fs v es02 es03.
Proof.
  unfold validate_artifact_families. split.
  - intros Hrun. inv_io.
    repeat match goal with
    | H : load_upstream_manifest _ _ _ _ = _ |- _ =>
        apply load_upstream_manifest_Ok in H as [-> ?]
    end. inv_read.
    repeat match goal with
    | H : index_s02_workloads _ = _ |- _ => apply index_s02_workloads_Ok in H as (es02 & ? & ->)
    | H : index_s03_workloads _ = _ |- _ => apply index_s03_workloads_Ok in H as (es03 & ? & ->)
    | H : validate_families _ _ _ _ _ = _ |- _ => apply validate_families_Ok in H as (? & ? & ? & ?)
    end.
    split; [done|]. exists es02, es03. split; eauto 6.
  - intros (-> & es02 & es03 & [(r2 & ws2 & ? & ? & ?) (r3 & ws3 & ? & ? & ?) (l & -> & Hl) ? ? Hn]).
    assert (l ≠ []).
    { intros ->. inversion Hl; subst. by apply Permutation_nil_l in Hn. }
    do 2 (erewrite io_bind_run by
      (apply io_pure_Ok; split; [first [apply of_option_Ok, nonempty_list_Some; by split
                                       |by apply ditem_Ok]|done])).
    erewrite io_bind_run by (apply load_upstream_manifest_Ok; by split).
    erewrite io_bind_run by (apply io_pure_Ok; split; [by apply ditem_Ok|done]).
    erewrite io_bind_run by (apply load_upstream_manifest_Ok; by split).
    erewrite io_bind_run by (apply io_pure_Ok; split; [apply index_s02_workloads_Ok; eauto|done]).
    erewrite io_bind_run by (apply io_pure_Ok; split; [apply index_s03_workloads_Ok; eauto|done]).
    apply io_pure_Ok. split; [|done]. by apply validate_families_Ok.
Qed.

(** What the manifest document [doc] must be for [m] to be its validated
    form, in a world [w]. *)
Record manifest_json w (doc : dict json) m (es02 : dict (dict (dict string)))
    (es03 : dict (dict string)) : Prop := {
  mj_version : m_version m = get "version" doc ∧ py_eq (m_version m) (JInt 1) = true;
  mj_run_root : get "run_root" doc = JStr EXPECTED_RUN_ROOT ∧ m_run_root m = EXPECTED_RUN_ROOT;
  mj_scope : ∃ d, get "scope" doc = JObj d ∧
    get "workload_labels" d = JArr (JStr <$> sc_labels (m_scope m)) ∧
    get "pairing_keys" d = JArr (JStr <$> REQUIRED_PAIRING_KEYS) ∧
    (list_to_set (sc_labels (m_scope m)) : gset string) = REQUIRED_LABELS ∧
    sc_pairing_keys (m_scope m) = REQUIRED_PAIRING_KEYS;
  mj_inputs : inputs_json w (m_inputs m) (get "inputs" doc);
  mj_outputs : m_outputs m = EXPECTED_DERIVED_OUTPUTS ∧ ∃ d, get "derived_outputs" doc = JObj d ∧
    Forall (λ '(k, p), get k d = JStr p) EXPECTED_DERIVED_OUTPUTS;
  mj_families : families_json w (m_inputs m) (sc_labels (m_scope m)) (m_families m)
    (get "artifact_families" doc) es02 es03;
  mj_report : m_report m =
      ReportRef EXPECTED_REPORT_PATH (expected_report_references EXPECTED_RUN_ROOT) ∧
    ∃ d, get "report" doc = JObj d ∧ get "path" d = JStr EXPECTED_REPORT_PATH ∧
      get "required_references" d =
        JArr (JStr <$> expected_report_references EXPECTED_RUN_ROOT);
}.

Lemma contract_load_manifest_Ok p w m w' :
  load_manifest repo_root p w = (Ok m, w') ↔
  w' = w ∧ ∃ doc es02 es03, json_file w p = Some (JObj doc) ∧ manifest_json w doc m es02 es03.
Proof.
  unfold load_manifest. split.
  - intros Hrun. apply io_bind_Ok in Hrun as (doc & w1 & [-> Hdoc]%load_json_Ok & Hrun).
    apply io_bind_raise_if in Hrun as [Hv%negb_false_iff Hrun].
    apply io_bind_pure in Hrun as (rr & [Hrr _]%contract_required_str_Ok & Hrun).
    apply io_bind_raise_if in Hrun as [Hr%negb_false_iff%bool_decide_eq_true Hrun]. subst rr.
    apply io_bind_pure in Hrun as (sc & Hsc%validate_scope_Ok & Hrun).
    apply io_bind_Ok in Hrun as (inputs & w2 & [-> Hin]%validate_inputs_Ok & Hrun).
    apply io_bind_pure in Hrun as (outs & Hout%validate_derived_outputs_Ok & Hrun).
    apply io_bind_Ok in Hrun as (fs & w3 & Hfs & Hrun).
    apply validate_artifact_families_Ok in Hfs as (-> & es02 & es03 & Hfs).
    apply io_bind_pure in Hrun as (rep & Hrep%contract_validate_report_Ok & Hrun).
    apply io_mret_Ok in Hrun as [<- ->]. split; [done|].
    exists doc, es02, es03. by split.
  - intros (-> & doc & es02 & es03 & Hdoc & [[Hv1 Hv] [Hr1 Hr] Hsc Hin Hout Hfs Hrep]).
    destruct m as [v rr sc inputs fs outs rep]; simpl in *; subst v rr.
    apply io_bind_Ok. exists doc, w. split; [by apply load_json_Ok|].
    apply io_bind_raise_if. split; [by rewrite Hv|].
    apply io_bind_pure. exists EXPECTED_RUN_ROOT. split; [by apply contract_required_str_Ok|].
    apply io_bind_raise_if. split; [by rewrite bool_decide_true|].
    apply io_bind_pure. exists sc. split; [by apply validate_scope_Ok|].
    apply io_bind_Ok. exists inputs, w. split; [by apply validate_inputs_Ok|].
    apply io_bind_pure. exists outs. split; [by apply validate_derived_outputs_Ok|].
    apply io_bind_Ok. exists fs, w. split; [apply validate_artifact_families_Ok; eauto|].
    apply io_bind_pure. exists rep. split; [by apply contract_validate_report_Ok|done].
Qed.
End loading.

(** ** Exceptions *)

Lemma required_str_raises d k sc : raises is_ManifestError (required_str d k sc).
Proof. unfold required_str. raises_tac. Qed.

Lemma required_list_raises d k sc : raises is_ManifestError (required_list d k sc).
Proof. unfold required_list. raises_tac. Qed.

Lemma string_items_raises sc l : raises is_ManifestError (string_items sc l).
Proof. unfold string_items. raises_tac. Qed.

#[export] Hint Resolve required_str_raises required_list_raises string_items_raises : raises.

Lemma validate_scope_raises v : raises is_ManifestError (validate_scope v).
Proof. unfold validate_scope. raises_tac. Qed.

Lemma validate_report_raises v rr : raises is_ManifestError (validate_report v rr).
Proof. unfold validate_report. raises_tac. Qed.

Lemma validate_derived_outputs_raises v : raises is_ManifestError (validate_derived_outputs v).
Proof. unfold validate_derived_outputs, derived_output_step. raises_tac. Qed.

Lemma index_s02_workloads_raises ws : raises is_ManifestError (index_s02_workloads ws).
Proof. unfold index_s02_workloads, index_s02_entry, index_s02_pair. raises_tac. Qed.

Lemma index_s03_workloads_raises ws : raises is_ManifestError (index_s03_workloads ws).
Proof. unfold index_s03_workloads, index_s03_entry. raises_tac. Qed.

#[export] Hint Resolve validate_scope_raises validate_report_raises
  validate_derived_outputs_raises index_s02_workloads_raises index_s03_workloads_raises : raises.

(** An index whose entries have both endpoints. *)
Definition roles_wf (roles : dict string) : Prop := ∃ c s, roles = endpoint_paths c s.
Definition s02_wf (s02 : dict (dict (dict string))) : Prop :=
  Forall (λ '(_, vals), ∃ roff ron, vals = [("off", roff); ("on", ron)] ∧
    roles_wf roff ∧ roles_wf ron) s02.
Definition s03_wf (s03 : dict (dict string)) : Prop := Forall (λ '(_, roles), roles_wf roles) s03.

Lemma s02_index_wf es ws : Forall2 s02_entry_json es ws → s02_wf (dupdate [] es).
Proof.
  intros H. apply dupdate_Forall; [constructor|].
  induction H as [|[l vals] v es ws He _ IH]; constructor; [|done].
  destruct He as (? & ? & ? & ? & ? & ? & ? & ? & ? & ? & ? & ? & (? & ? & -> & _) & (? & ? & -> & _) & Hv).
  cbn [snd] in Hv. subst. unfold roles_wf. do 2 eexists. by split_and!; [|do 2 eexists..].
Qed.

Lemma s03_index_wf es ws : Forall2 s03_entry_json es ws → s03_wf (dupdate [] es).
Proof.
  intros H. apply dupdate_Forall; [constructor|].
  induction H as [|[l roles] v es ws He _ IH]; constructor; [|done].
  destruct He as (? & ? & ? & ? & ? & ? & (? & ? & ? & _)). unfold roles_wf. eauto.
Qed.

Lemma wf_lookup {V} (P : string * V → Prop) k v (d : dict V) :
  Forall P d → dget k d = Some v → P (k, v).
Proof. rewrite Forall_forall. intros H ?%dget_elem. auto. Qed.

Definition is_software (run_family : string) : bool :=
  bool_decide (run_family ∈ ["software_baseline"; "software_attribution"]).

(** The upstream artifacts of a family: those of the software manifest at its
    instrumentation, or those of the hardware manifest. *)
Lemma family_upstream_lookup rf ins s02 s03 up l :
  family_upstream rf ins s02 s03 = Ok up →
  dget l up = if is_software rf then dget l s02 ≫= dget ins else dget l s03.
Proof.
  unfold family_upstream, is_software. case_bool_decide; [|by intros; inv_ok].
  rewrite mapM_Ok. induction 1 as [|[l' vals] [l'' roles] s02 up He _ IH]; simpl; [done|].
  inv_read. case_bool_decide; [by subst|done].
Qed.

Lemma family_upstream_total rf ins s02 s03 :
  s02_wf s02 → ins ∈ ["off"; "on"] → ∃ up, family_upstream rf ins s02 s03 = Ok up.
Proof.
  intros Hwf Hins. unfold family_upstream. case_bool_decide; [|by eexists].
  induction Hwf as [|[l vals] s02 (roff & ron & -> & _) _ [up IH]]; simpl; [by eexists|].
  rewrite !elem_of_cons, elem_of_nil in Hins.
  destruct Hins as [->|[->|[]]]; simpl; rewrite IH; simpl; eauto.
Qed.

Lemma family_upstream_wf rf ins s02 s03 up l roles :
  s02_wf s02 → s03_wf s03 → ins ∈ ["off"; "on"] →
  family_upstream rf ins s02 s03 = Ok up → dget l up = Some roles → roles_wf roles.
Proof.
  intros H02 H03 Hins Hup. rewrite (family_upstream_lookup _ _ _ _ _ _ Hup).
  destruct (is_software rf); [|by intros ?%(wf_lookup _ _ _ _ H03)].
  intros (vals & Hl & Hv)%bind_Some.
  apply (wf_lookup _ _ _ _ H02) in Hl as (roff & ron & -> & ? & ?).
  rewrite !elem_of_cons, elem_of_nil in Hins.
  destruct Hins as [->|[->|[]]]; simpl in Hv; by simplify_eq.
Qed.

(** The exceptions of the family validators: the contract's own error, or the
    [KeyError] of a curated label that an upstream index lacks. *)
Definition label_error (labels : list string) (s02 : dict (dict (dict string)))
    (s03 : dict (dict string)) (e : exn) : Prop :=
  is_ManifestError e ∨
  ∃ l, e = KeyError l ∧ l ∈ labels ∧ (dget l s02 = None ∨ dget l s03 = None).

Lemma label_error_manifest labels s02 s03 m : label_error labels s02 s03 (ManifestError m).
Proof. left. by exists m. Qed.
#[local] Hint Resolve label_error_manifest : raises.

Lemma raises_label_error {A} labels s02 s03 (m : exc A) :
  raises is_ManifestError m → raises (label_error labels s02 s03) m.
Proof. apply raises_mono. by left. Qed.
#[local] Hint Resolve raises_label_error : raises.

Section family_errors.
Context (inputs : dict string) (labels : list string).
Context (s02 : dict (dict (dict string))) (s03 : dict (dict string)).
Context (Hs02 : s02_wf s02) (Hs03 : s03_wf s03).
Context (Hinputs : ∀ k, k ∈ ["software_manifest"; "idxd_manifest"] → is_Some (dget k inputs)).

Lemma family_entry_step_raises rf ins up name pre acc item :
  ins ∈ ["off"; "on"] → family_upstream rf ins s02 s03 = Ok up →
  raises (label_error labels s02 s03) (family_entry_step name labels pre up acc item).
Proof.
  intros Hins Hup. destruct acc as [[rs seen] glob], item as [i v].
  unfold family_entry_step. raises_tac; inv_read.
  - apply raises_ditem. intros Hl. right. eexists. split_and!; [done..|].
    rewrite (family_upstream_lookup _ _ _ _ _ _ Hup) in Hl.
    destruct (is_software rf); [|by right]. left.
    apply bind_None in Hl as [?|(vals & Hl & Hv)]; [done|].
    apply (wf_lookup _ _ _ _ Hs02) in Hl as (roff & ron & -> & _).
    rewrite !elem_of_cons, elem_of_nil in Hins. by destruct Hins as [->|[->|[]]].
  - match goal with H : dget _ up = Some _ |- _ =>
      apply (family_upstream_wf rf ins s02 s03) in H as (c & s & ->); [|done..] end.
    apply raises_ditem. intros Hr. exfalso.
    match goal with H : _ ∈ EXPECTED_ENDPOINT_ROLES |- _ =>
      unfold EXPECTED_ENDPOINT_ROLES in H; rewrite !elem_of_cons, elem_of_nil in H end.
    by destruct_or!; subst.
Qed.

Lemma family_step_raises acc item :
  raises (label_error labels s02 s03) (family_step inputs labels s02 s03 acc item).
Proof.
  destruct acc as [[fs seen] glob], item as [i v]. unfold family_step. raises_tac; inv_read;
    match goal with H : dget _ EXPECTED_FAMILIES = Some _ |- _ =>
      apply expected_families_inv in H as (_ & _ & Hkey & Hins & _) end.
  - apply raises_ditem. intros Hn. destruct (Hinputs _ Hkey) as [? Hs]. congruence.
  - match goal with |- raises _ (family_upstream ?rf _ _ _) =>
      destruct (family_upstream_total rf _ s02 s03 Hs02 Hins) as [up Hup] end.
    by rewrite Hup.
  - unfold validate_family_entries. raises_tac. by eapply family_entry_step_raises.
Qed.

Lemma validate_families_raises l sc :
  labels = sc_labels sc →
  raises (label_error labels s02 s03) (validate_families l inputs sc s02 s03).
Proof.
  intros Hl. unfold validate_families. rewrite <-Hl. raises_tac. apply family_step_raises.
Qed.
End family_errors.

Definition field (k : string) (v : json) : json :=
  match v with JObj d => get k d | _ => JNull end.

(** An upstream manifest has a workload of every label of its index. *)
Lemma s02_index_label es ws l :
  Forall2 s02_entry_json es ws → dget l (dupdate [] es) = None →
  Forall (λ v, field "label" v ≠ JStr l) ws.
Proof.
  intros H [_ Hl]%dget_dupdate_None.
  induction H as [|e v es ws He _ IH]; constructor; [|set_solver].
  destruct He as (? & ? & ? & ? & ? & ? & -> & Hlab & _). simpl. rewrite Hlab.
  intros [= E]. apply Hl. set_solver.
Qed.

Lemma s03_index_label es ws l :
  Forall2 s03_entry_json es ws → dget l (dupdate [] es) = None →
  Forall (λ v, field "label" v ≠ JStr l) ws.
Proof.
  intros H [_ Hl]%dget_dupdate_None.
  induction H as [|e v es ws He _ IH]; constructor; [|set_solver].
  destruct He as (? & ? & -> & Hlab & _). simpl. rewrite Hlab.
  intros [= E]. apply Hl. set_solver.
Qed.

Section load_errors.
Context (repo_root : path).
Implicit Types w : world.

(** The exceptions of [load_manifest]. *)
Definition load_error w (e : exn) : Prop :=
  is_ManifestError e ∨ e = UnicodeDecodeError ∨
  ∃ l raw ws, e = KeyError l ∧ l ∈ REQUIRED_LABELS ∧ upstream_json repo_root w raw ws ∧
    Forall (λ v, field "label" v ≠ JStr l) ws.

Lemma load_error_manifest w m : load_error w (ManifestError m).
Proof. left. by exists m. Qed.

Lemma raises_load_error {A} w (m : exc A) : raises is_ManifestError m → raises (load_error w) m.
Proof. apply raises_mono. by left. Qed.
#[local] Hint Resolve load_error_manifest raises_load_error : raises.

Lemma load_json_raises p sc w : raises_at (load_error w) (load_json p sc) w.
Proof.
  intros e w'. rewrite load_json_run. intros [= He <-]. split; [done|]. revert He.
  pose proof (file_bytes_raises w p) as Hf.
  destruct (file_bytes w p) as [bytes|e1]; simpl.
  2: { destruct Hf as [m ->]. intros [= <-]. apply load_error_manifest. }
  pose proof (decode_text_raises bytes) as Hd.
  destruct (decode_text bytes) as [text|e1]; simpl.
  2: { simpl in Hd. subst. intros [= <-]. right; by left. }
  pose proof (json_loads_raises text) as Hj.
  destruct (json_loads text) as [v|e1]; simpl.
  2: { destruct Hj as [m ->]. intros [= <-]. apply load_error_manifest. }
  destruct v; simpl; intros [= <-]; apply load_error_manifest.
Qed.

Lemma load_upstream_manifest_raises raw sc w :
  raises_at (load_error w) (load_upstream_manifest repo_root raw sc) w.
Proof.
  apply raises_at_bind; [apply load_json_raises|]. intros d w' [-> _]%load_json_Ok.
  split; [done|]. apply raises_at_pure. raises_tac.
Qed.

Lemma validate_inputs_raises v w : raises_at (load_error w) (validate_inputs repo_root v) w.
Proof.
  apply raises_at_bind_pure; [raises_tac|]. intros d _. generalize (@nil (string * string)).
  induction INPUT_KEYS as [|k keys IH]; intros acc; [apply raises_at_ret|].
  apply raises_at_bind.
  - apply raises_at_bind_pure; [raises_tac|]. intros raw _ e w'.
    unfold gets, io_raise_if, pure_, mbind, io_bind, mret, io_ret.
    destruct (path_exists _ _); intros [= <- <-]. split; [done|]. apply load_error_manifest.
  - intros acc' w' (-> & _)%input_step_Ok. split; [done|]. apply IH.
Qed.

Lemma validate_artifact_families_raises v inputs sc w :
  inputs.*1 = INPUT_KEYS → (list_to_set (sc_labels sc) : gset string) = REQUIRED_LABELS →
  raises_at (load_error w) (validate_artifact_families repo_root v inputs sc) w.
Proof.
  intros Hin Hsc.
  assert (∀ k, k ∈ INPUT_KEYS → is_Some (dget k inputs)) as Hk.
  { intros k Hk. destruct (dget k inputs) eqn:E; [done|]. apply dget_None in E.
    by rewrite Hin in E. }
  apply raises_at_bind_pure; [raises_tac|]. intros fams _.
  apply raises_at_bind_pure.
  { apply raises_ditem. intros E. destruct (Hk "software_manifest"); [set_solver|congruence]. }
  intros p02 _. apply raises_at_bind; [apply load_upstream_manifest_raises|].
  intros ws02 w1 [-> Hw02]%load_upstream_manifest_Ok. split; [done|].
  apply raises_at_bind_pure.
  { apply raises_ditem. intros E. destruct (Hk "idxd_manifest"); [set_solver|congruence]. }
  intros p03 _. apply raises_at_bind; [apply load_upstream_manifest_raises|].
  intros ws03 w2 [-> Hw03]%load_upstream_manifest_Ok. split; [done|].
  apply raises_at_bind_pure; [raises_tac|].
  intros s02 (es02 & H02 & ->)%index_s02_workloads_Ok.
  apply raises_at_bind_pure; [raises_tac|].
  intros s03 (es03 & H03 & ->)%index_s03_workloads_Ok.
  apply raises_at_pure. eapply raises_mono; [|eapply (validate_families_raises _ (sc_labels sc))].
  - intros e [?|(l & -> & Hl & Hn)]; [by left|]. do 2 right.
    assert (l ∈ REQUIRED_LABELS) by (rewrite <-Hsc; by apply elem_of_list_to_set).
    destruct Hn as [Hn|Hn].
    + exists l, p02, ws02. eauto using s02_index_label.
    + exists l, p03, ws03. eauto using s03_index_label.
  - by eapply s02_index_wf.
  - by eapply s03_index_wf.
  - intros k Hk'. apply Hk. unfold INPUT_KEYS. set_solver.
  - done.
Qed.

Lemma load_manifest_raises p w : raises_at (load_error w) (load_manifest repo_root p) w.
Proof.
  apply raises_at_bind; [apply load_json_raises|]. intros doc w1 [-> _]%load_json_Ok.
  split; [done|]. apply raises_at_raise_if; [apply load_error_manifest|]. intros _.
  apply raises_at_bind_pure; [raises_tac|]. intros rr _.
  apply raises_at_raise_if; [apply load_error_manifest|]. intros _.
  apply raises_at_bind_pure; [raises_tac|].
  intros sc (d & _ & _ & _ & Hsc & _)%validate_scope_Ok.
  apply raises_at_bind; [apply validate_inputs_raises|].
  intros inputs w2 (-> & Hin & _)%validate_inputs_Ok. split; [done|].
  apply raises_at_bind_pure; [raises_tac|]. intros outs _.
  apply raises_at_bind; [by apply validate_artifact_families_raises|].
  intros fs w3 [-> _]%validate_artifact_families_Ok. split; [done|].
  apply raises_at_bind_pure; [raises_tac|]. intros rep _. apply raises_at_ret.
Qed.

(** Validation does not change the world. *)
Lemma load_manifest_world p w r :
  (load_manifest repo_root p w).1 = r → load_manifest repo_root p w = (r, w).
Proof.
  intros <-. destruct (load_manifest repo_root p w) as [[m|e] w'] eqn:E.
  - by apply contract_load_manifest_Ok in E as [-> _].
  - by apply load_manifest_raises in E as [-> _].
Qed.
End load_errors.

(** ** What a validated manifest promises *)

Lemma reports_pairs labels pre up rs :
  reports_ok labels pre up rs → (list_to_set labels : gset string) = REQUIRED_LABELS →
  report_pair <$> rs ≡ₚ cross [LABEL_BYTES; LABEL_SHAPE] EXPECTED_ENDPOINT_ROLES.
Proof.
  intros [Hok Hnd Hcov] Hl.
  assert (∀ l, l ∈ labels ↔ l ∈ [LABEL_BYTES; LABEL_SHAPE]) as Hlab.
  { intros l. rewrite <-(elem_of_list_to_set (C:=gset string)), Hl.
    unfold REQUIRED_LABELS. set_solver. }
  apply NoDup_Permutation; [done|by apply (bool_decide_unpack _)|].
  intros [l r]. rewrite elem_of_cross, <-Hlab. simpl. split; [|intros []; by apply Hcov].
  intros (rep & [= -> ->] & Hin)%list_elem_of_fmap. rewrite Forall_forall in Hok.
  destruct (Hok rep Hin) as [[? ?] ? _ _ _]. done.
Qed.

Lemma manifest_families_reports repo_root w doc m es02 es03 f :
  manifest_json repo_root w doc m es02 es03 → f ∈ m_families m →
  report_pair <$> fa_reports f ≡ₚ cross [LABEL_BYTES; LABEL_SHAPE] EXPECTED_ENDPOINT_ROLES.
Proof.
  intros [_ _ (d & _ & _ & _ & Hl & _) _ _ [_ _ _ Hch _ _] _] Hf.
  rewrite Forall_forall in Hch. destruct (Hch f Hf) as (ex & up & _ & Hok).
  by eapply reports_pairs, Hl; destruct Hok.
Qed.

(** What the runner and the summarizer read from an accepted manifest. *)
Lemma loaded_package repo_root p w m w' :
  load_manifest repo_root p w = (Ok m, w') →
  w' = w ∧ m_run_root m = EXPECTED_RUN_ROOT ∧ m_outputs m = EXPECTED_DERIVED_OUTPUTS ∧
  rr_references (m_report m) = expected_report_references EXPECTED_RUN_ROOT ∧
  ∃ raw, dget "report_contract" (m_inputs m) = Some raw.
Proof.
  intros (-> & doc & es02 & es03 & _ & Hm)%contract_load_manifest_Ok.
  destruct Hm as [_ [_ Hroot] _ [Hin _] [Hout _] _ [Hrep _]].
  split_and!; [done..|by rewrite Hrep|].
  destruct (dget "report_contract" (m_inputs m)) as [raw|] eqn:Hd; [by exists raw|].
  apply dget_None in Hd. destruct Hd. rewrite Hin. by repeat constructor.
Qed.

Lemma loaded_inputs repo_root p w m w' k :
  load_manifest repo_root p w = (Ok m, w') → k ∈ INPUT_KEYS → ∃ raw, dget k (m_inputs m) = Some raw.
Proof.
  intros (-> & doc & es02 & es03 & _ & Hm)%contract_load_manifest_Ok Hk.
  destruct Hm as [_ _ _ [Hin _] _ _ _].
  destruct (dget k (m_inputs m)) as [raw|] eqn:Hd; [by exists raw|].
  apply dget_None in Hd. by rewrite Hin in Hd.
Qed.

(** Every family is planned once and has one report per workload and endpoint. *)
Lemma loaded_plan repo_root p w m w' :
  load_manifest repo_root p w = (Ok m, w') →
  fa_run_family <$> m_families m ≡ₚ EXPECTED_FAMILIES.*1 ∧
  ∀ f, f ∈ m_families m →
    (∃ ex, (fa_run_family f, ex) ∈ EXPECTED_FAMILIES ∧ fa_selected_path f = ex_selected_path ex) ∧
    NoDup (report_pair <$> fa_reports f) ∧
    ∀ l role, l ∈ sc_labels (m_scope m) → role ∈ EXPECTED_ENDPOINT_ROLES →
      ∃ e, e ∈ fa_reports f ∧ report_pair e = (l, role).
Proof.
  intros (-> & doc & es02 & es03 & _ & Hm)%contract_load_manifest_Ok.
  destruct Hm as [_ _ (d & _ & _ & _ & Hlabels & _) _ _ [_ _ _ Hch _ Hnames] _].
  split; [done|]. intros f Hf. rewrite Forall_forall in Hch.
  destruct (Hch f Hf) as (ex & up & _ & [Hex _ _ _ Hsel Hrep]). split_and!.
  - exists ex. split; [by apply expected_families_inv in Hex as [? _]|done].
  - by destruct Hrep.
  - intros l role Hl Hr. destruct Hrep as [_ _ Hcov]. 
    assert ((l, role) ∈ report_pair <$> fa_reports f) as Hin by by apply Hcov.
    apply list_elem_of_fmap in Hin as (e & He & Hin). by exists e.
Qed.

Lemma length_bind_const {A B} (g : A → list B) n l :
  (∀ x, x ∈ l → length (g x) = n) → length (l ≫= g) = (length l * n)%nat.
Proof.
  induction l as [|x l IH]; intros Hg; csimpl; [done|].
  rewrite length_app, IH, Hg by set_solver. lia.
Qed.

(** The file name the workload [v] of an upstream manifest gives an endpoint:
    software workloads have one per instrumentation. *)
Definition workload_artifact (run_family instrumentation role : string) (v : json) : json :=
  let artifacts := field "endpoint_artifacts" v in
  if is_software run_family then field role (field instrumentation artifacts)
  else field role artifacts.

Lemma paths_json_field roles d r p :
  paths_json roles d → dget r roles = Some p → get r d = JStr p.
Proof.
  intros (c & s & -> & Hc & _ & Hs & _). simpl.
  repeat case_bool_decide; intros; simplify_eq; done.
Qed.

Lemma dget_dupdate_elem {V} k v (es : dict V) : dget k (dupdate [] es) = Some v → (k, v) ∈ es.
Proof.
  intros H. assert (Forall (λ e, e ∈ es) (dupdate [] es)) as Hall.
  { apply dupdate_Forall; [constructor|]. by apply Forall_forall. }
  by apply (wf_lookup _ _ _ _ Hall).
Qed.

Lemma s02_entry_artifact es ws l vals ins roles r p :
  Forall2 s02_entry_json es ws → dget l (dupdate [] es) = Some vals →
  dget ins vals = Some roles → dget r roles = Some p →
  ∃ v, v ∈ ws ∧ field "label" v = JStr l ∧
    field r (field ins (field "endpoint_artifacts" v)) = JStr p.
Proof.
  intros Hes Hl%dget_dupdate_elem Hins Hr.
  destruct (Forall2_elem_l _ _ _ _ Hes Hl)
    as (v & Hv & d & ea & doff & don & roff & ron & -> & Hlab & _ & Hea & Hoff & Hon & Hpo & Hpn & Hvals).
  cbn [fst snd] in *. subst vals. exists (JObj d). split_and!; [done..|].
  cbn [field]. rewrite Hea. cbn [field dget] in *.
  repeat case_bool_decide; simplify_eq; [rewrite Hoff|rewrite Hon]; by eapply paths_json_field.
Qed.

Lemma s03_entry_artifact es ws l roles r p :
  Forall2 s03_entry_json es ws → dget l (dupdate [] es) = Some roles →
  dget r roles = Some p →
  ∃ v, v ∈ ws ∧ field "label" v = JStr l ∧ field r (field "endpoint_artifacts" v) = JStr p.
Proof.
  intros Hes Hl%dget_dupdate_elem Hr.
  destruct (Forall2_elem_l _ _ _ _ Hes Hl) as (v & Hv & d & ea & -> & Hlab & _ & Hea & Hp).
  cbn [fst snd] in *. exists (JObj d). split_and!; [done..|].
  cbn [field]. rewrite Hea. by eapply paths_json_field.
Qed.

(** The source manifest of a family is the input its kind names. *)
Lemma expected_families_source name ex :
  dget name EXPECTED_FAMILIES = Some ex →
  source_key ex = if is_software name then "software_manifest" else "idxd_manifest".
Proof.
  intros (H & _)%expected_families_inv. unfold EXPECTED_FAMILIES in H.
  rewrite !elem_of_cons, elem_of_nil in H. by destruct_or!; simplify_eq/=.
Qed.
