(* ===== verification/ContractSpec.v ===== *)
(** * What the claim-package contract guarantees

    The theorems about [load_manifest]: exactly which files it accepts and what
    it returns, the artifact plan every accepted manifest describes, its
    agreement with the upstream manifests, and every exception that can leave
    it. *)

From S2P Require Import Prelude PyFloat PyVal PyPath Json World Fixtures Contract.

Local Open Scope Z_scope.

(** The validated form of the manifest that is tracked in the repository. *)
Definition s04_path : path := fixture_manifest "s04_claim_package.json".

Definition empty_manifest : manifest :=
  Manifest JNull "" (Scope [] []) [] [] [] (ReportRef "" []).

Definition tracked_manifest : manifest :=
  match (load_manifest fixture_root s04_path tracked_world).1 with
  | Ok m => m
  | Err _ => empty_manifest
  end.

Lemma tracked_manifest_run :
  load_manifest fixture_root s04_path tracked_world = (Ok tracked_manifest, tracked_world).
Proof. apply load_manifest_world. vm_compute. reflexivity. Qed.

(** C1: [load_manifest] changes nothing and returns [m] exactly when the file
    holds a JSON object that describes [m]: version 1, the expected run root,
    the curated labels and pairing keys, inputs that exist, the expected derived
    outputs and report references, and families that read as [m]'s, cover every
    label and endpoint once, use no artifact twice and agree with the upstream
    manifests the inputs name. *)
Theorem load_manifest_accepts repo_root p w m w' :
  load_manifest repo_root p w = (Ok m, w') ↔
  w' = w ∧ ∃ doc es02 es03,
    json_file w p = Some (JObj doc) ∧ manifest_json repo_root w doc m es02 es03.
Proof. apply contract_load_manifest_Ok. Qed.

(** C2: an accepted manifest plans the three tracked families, each once; each
    family has exactly one report for each of the two curated workloads and two
    endpoints; and the twelve artifact paths are distinct. *)
Theorem load_manifest_plan repo_root p w m w' :
  load_manifest repo_root p w = (Ok m, w') →
  fa_run_family <$> m_families m ≡ₚ
    ["software_baseline"; "software_attribution"; "idxd_attribution"] ∧
  (∀ f, f ∈ m_families m → report_pair <$> fa_reports f ≡ₚ
    [(LABEL_BYTES, "client"); (LABEL_BYTES, "server");
     (LABEL_SHAPE, "client"); (LABEL_SHAPE, "server")]) ∧
  NoDup (m_families m ≫= artifacts) ∧ length (m_families m ≫= artifacts) = 12%nat.
Proof.
  intros (-> & doc & es02 & es03 & _ & Hm)%contract_load_manifest_Ok.
  pose proof (λ f, manifest_families_reports _ _ _ _ _ _ f Hm) as Hpairs.
  destruct Hm as [_ _ _ _ _ [_ _ _ _ Hart Hnames] _]. split_and!; [done|done|done|].
  rewrite (length_bind_const _ 4).
  - apply Permutation_length in Hnames. rewrite length_fmap in Hnames. by rewrite Hnames.
  - intros f Hf. pose proof (Permutation_length (Hpairs f Hf)) as Hlen.
    rewrite length_fmap in Hlen. unfold artifacts. by rewrite length_fmap, Hlen.
Qed.

Lemma load_manifest_plan_witness :
  length (m_families tracked_manifest ≫= artifacts) = 12%nat.
Proof.
  apply (load_manifest_plan fixture_root s04_path tracked_world tracked_manifest tracked_world).
  apply tracked_manifest_run.
Defined.

(** C3: every report of an accepted manifest lives under its family's
    directory, and its file name is the one the family's source manifest gives
    that workload and endpoint, at the family's instrumentation. *)
Theorem load_manifest_upstream repo_root p w m w' f r :
  load_manifest repo_root p w = (Ok m, w') →
  f ∈ m_families m → r ∈ fa_reports f →
  startswith (fa_selected_path f +:+ "/") (er_artifact r) = true ∧
  ∃ ws v, upstream_json repo_root w (fa_source_manifest f) ws ∧ v ∈ ws ∧
    field "label" v = JStr (er_label r) ∧
    workload_artifact (fa_run_family f) (fa_instrumentation f) (er_role r) v =
      JStr (path_name (parse_path (er_artifact r))).
Proof.
  intros (-> & doc & es02 & es03 & _ & Hm)%contract_load_manifest_Ok Hf Hr.
  destruct Hm as [_ _ _ _ _ [(r2 & ws2 & Hi2 & Hu2 & He2) (r3 & ws3 & Hi3 & Hu3 & He3) _ Hch _ _] _].
  rewrite Forall_forall in Hch. destruct (Hch f Hf) as (ex & up & Hup & [Hex Hsrc _ _ Hsel [Hok _ _]]).
  rewrite Forall_forall in Hok. destruct (Hok r Hr) as [_ _ _ Hpre (roles & Hl & Hrole)].
  split.
  { rewrite Hsel. apply expected_families_inv in Hex as (Hex & _).
    unfold EXPECTED_FAMILIES in Hex. rewrite !elem_of_cons, elem_of_nil in Hex.
    by destruct_or!; simplify_eq/=. }
  rewrite (family_upstream_lookup _ _ _ _ _ _ Hup) in Hl.
  rewrite (expected_families_source _ _ Hex) in Hsrc. unfold workload_artifact.
  destruct (is_software (fa_run_family f)).
  - apply bind_Some in Hl as (vals & Hl & Hv).
    destruct (s02_entry_artifact _ _ _ _ _ _ _ _ He2 Hl Hv Hrole) as (v & ? & ? & ?).
    exists ws2, v. split_and!; [congruence|done..].
  - destruct (s03_entry_artifact _ _ _ _ _ _ He3 Hl Hrole) as (v & ? & ? & ?).
    exists ws3, v. split_and!; [congruence|done..].
Qed.

Definition tracked_family : family :=
  default (Family "" "" "" "" []) (m_families tracked_manifest !! 2%nat).
Definition tracked_report : endpoint_report :=
  default (EndpointReport "" "" "") (fa_reports tracked_family !! 1%nat).

Lemma load_manifest_upstream_witness :
  startswith "idxd/" (er_artifact tracked_report) = true.
Proof.
  apply (load_manifest_upstream fixture_root s04_path tracked_world tracked_manifest tracked_world
           tracked_family tracked_report).
  - apply tracked_manifest_run.
  - apply (list_elem_of_lookup_2 _ 2). vm_compute. reflexivity.
  - apply (list_elem_of_lookup_2 _ 1). vm_compute. reflexivity.
Defined.

(** C4: an exception that leaves [load_manifest] is the contract's own error,
    a decoding error of a file that is not UTF-8, or the [KeyError] of a curated
    label, and the last only when an upstream manifest that was read has no
    workload of that label. *)
Theorem load_manifest_errors repo_root p w e w' :
  load_manifest repo_root p w = (Err e, w') →
  w' = w ∧
  (is_ManifestError e ∨ e = UnicodeDecodeError ∨
   ∃ l raw ws, e = KeyError l ∧ l ∈ REQUIRED_LABELS ∧ upstream_json repo_root w raw ws ∧
     Forall (λ v, field "label" v ≠ JStr l) ws).
Proof. apply load_manifest_raises. Qed.

(** A checkout whose software manifest has no curated workload. *)
Definition foreign_s02 : string := jtext
  "{'workloads': [{'label': 'other', 'endpoint_artifacts':
     {'off': {'client': 'a', 'server': 'b'}, 'on': {'client': 'c', 'server': 'd'}}}]}".
Definition foreign_world : world := manifest_world foreign_s02 s03_text s04_text.

Lemma load_manifest_errors_witness :
  ∃ raw ws, upstream_json fixture_root foreign_world raw ws ∧
    Forall (λ v, field "label" v ≠ JStr LABEL_BYTES) ws.
Proof.
  destruct (load_manifest_errors fixture_root s04_path foreign_world (KeyError LABEL_BYTES)
              foreign_world) as [_ [[? ?]|[?|(l & raw & ws & [= <-] & _ & ? & ?)]]]; [|done..|].
  - apply load_manifest_world. vm_compute. reflexivity.
  - by exists raw, ws.
Defined.

(** The manifest tracked in the repository is accepted, and its validated
    form has the twelve artifacts in the order of the file. *)
Theorem tracked_manifest_loads :
  load_manifest fixture_root s04_path tracked_world = (Ok tracked_manifest, tracked_world) ∧
  sc_labels (m_scope tracked_manifest) = [LABEL_BYTES; LABEL_SHAPE] ∧
  fa_run_family <$> m_families tracked_manifest =
    ["software_baseline"; "software_attribution"; "idxd_attribution"] ∧
  (m_families tracked_manifest ≫= artifacts) !! 11%nat =
    Some "idxd/idxd__unary-proto-shape__fleet-small-to-fleet-response-heavy.server.json".
Proof. split; [apply tracked_manifest_run|]. split_and!; vm_compute; reflexivity. Qed.

(** When the software manifest lacks a curated label, the lookup of the
    label escapes [load_manifest] as a [KeyError] instead of being reported as
    a manifest error. *)
Theorem load_manifest_missing_label :
  (load_manifest fixture_root s04_path foreign_world).1 = Err (KeyError LABEL_BYTES).
Proof. vm_compute. reflexivity. Qed.
