(* ===== verification/S04.v ===== *)
(** * The claim-package runner

    Model of accel-rpc/tonic-profile/scripts/run_s04_claim_package.py: it plans
    the package from the manifest (Contract.v), prepares the run root, runs the
    software verifier, the hardware verifier (or falls back to fixture reports)
    and the summarizer, and checks what they wrote.  [machine env] is how the
    rest of the machine behaves towards a child started with the environment
    variables [env]; the repository is the argument [repo_root].  Captured
    output is decoded as UTF-8, the locale the scripts are run in.  The
    functions of the source that its last statements rebind to those of
    claim_package_contract.py are never called and not modelled. *)

From S2P Require Import Prelude PyFloat PyVal PyPath Json JsonOut World Process Contract.

Local Open Scope Z_scope.

Module S04.

(** [value or default] for an optional string argument *)
Definition or_default (v : option string) (d : string) : string :=
  match v with Some s => if bool_decide (s = "") then d else s | None => d end.

Definition fail (message : string) : io unit := eprint message.

(** [os.environ.get(key, default)] *)
Definition environ_get (key d : string) (w : world) : string := default d (dget key (w_env w)).

Definition selected_device_path (cli_value : option string) (w : world) : string :=
  or_default cli_value (environ_get "S03_ACCELERATOR_DEVICE" "<auto>" w).

(** [f"{key}={value}"] *)
Definition field (key value : string) : string := cat [key; "="; value].

(** [outputs["comparison_summary_json"]] *)
Definition summary_output_of (m : manifest) (run_root : path) : exc path :=
  ditem "comparison_summary_json" (summary_output_paths m run_root).

Section package.
Context (machine : dict string → environment) (repo_root : path).

Definition log_artifact_plan (m : manifest) (run_root : path) (device_path : string) : io unit :=
  iterM (λ family,
    iterM (λ entry,
      summary ← pure_ (summary_output_of m run_root);
      print (join " "
        ["phase=plan"; field "workload_label" (er_label entry);
         field "endpoint_role" (er_role entry); field "run_family" (fa_run_family family);
         field "instrumentation" (fa_instrumentation family);
         field "output_root" (path_str run_root); field "summary_path" (path_str summary);
         field "device_path" device_path])) (fa_reports family)) (m_families m).

Definition prepare_run_root (manifest_path : path) (m : manifest) (run_root : path) : io path :=
  mkdir_p run_root;;
  mkdir_p (path_div run_root "software");;
  mkdir_p (path_div run_root "idxd");;
  mkdir_p (path_div run_root "summary");;
  let copied_manifest_path := manifest_copy_path run_root in
  text ← read_text manifest_path;
  write_text copied_manifest_path text;;
  summary ← pure_ (summary_output_of m run_root);
  print (join " "
    ["phase=run-root-ready"; field "manifest" (path_str manifest_path);
     field "manifest_copy" (path_str copied_manifest_path);
     field "output_root" (path_str run_root); field "summary_path" (path_str summary)]);;
  mret copied_manifest_path.

Definition copy_control_floor_reference (m : manifest) (run_root : path) : io path :=
  raw ← pure_ (ditem "control_floor_summary" (m_inputs m));
  source ← gets (λ w, resolve (w_cwd w) (resolve_repo_path repo_root raw));
  let destination := path_div (path_div run_root "control-floor") "async_control_floor_summary.json" in
  mkdir_p (path_parent destination);;
  copy2 source destination;;
  print (join " "
    ["phase=control-floor-reference"; field "source" (path_str source);
     field "destination" (path_str destination); field "output_root" (path_str run_root)]);;
  mret destination.

(** [print(text, end="" if text.endswith("\n") else "\n")]: one line of output *)
Definition chomp (text : string) : string :=
  if endswith newline text then take_str (String.length text - 1) text else text.

Definition emit_completed_process_output (stdout stderr : string) : io unit :=
  (if bool_decide (stdout = "") then mret tt else print (chomp stdout));;
  (if bool_decide (stderr = "") then mret tt else eprint (chomp stderr)).

Definition idxd_fixture_source (run_root : path) : path :=
  path_div (path_div (path_parent run_root) "fixture") "idxd".

Definition FALLBACK_MARKERS : list string :=
  ["launcher_status=missing_capability"; "launcher_status=missing_work_queue";
   "launcher_status=missing_launcher"; "launcher_status=missing_devenv"; "phase=preflight"].

(** The argument is [str(error)]. *)
Definition idxd_failure_allows_fallback (rendered : string) : bool :=
  existsb (λ marker, str_in marker rendered) FALLBACK_MARKERS.

Definition load_json_object (path : path) (scope : string) : io (dict json) :=
  let message outcome rest :=
    RunError (cat ["phase=idxd-fallback outcome="; outcome; " scope="; scope; " artifact=";
                   path_str path; ": "; rest]) in
  raw ← catch (read_text path) (λ e,
    match e with
    | OSError err => io_raise (message "read-failed" err)
    | e => io_raise e
    end);
  value ← catch (pure_ (json_loads raw)) (λ e,
    match e with
    | JSONDecodeError err => io_raise (message "parse-failed" err)
    | e => io_raise e
    end);
  pure_ (of_option (message "malformed" "root must be an object") (as_dict value)).

Definition idxd_fallback_device_path (source_dir : path) : io string :=
  candidates ← gets (λ w, sorted_strings (glob_suffix ".json" w source_dir));
  name ← pure_ (of_option (RunError (cat
    ["phase=idxd-fallback outcome=missing-source-artifacts source="; path_str source_dir]))
    (head candidates));
  let candidate := path_join source_dir (Path "" [name]) in
  report ← load_json_object candidate "fixture-device";
  metadata ← pure_ (of_option (RunError (cat
    ["phase=idxd-fallback outcome=malformed scope=fixture-device artifact="; path_str candidate;
     " metadata must be an object"])) (as_dict (get "metadata" report)));
  pure_ (of_option (RunError (cat
    ["phase=idxd-fallback outcome=missing-device-path scope=fixture-device artifact=";
     path_str candidate])) (nonempty_str (get "accelerated_device_path" metadata))).

(** One fixture report: copied to where the hardware run would have put it. *)
Definition seed_report (source_dir destination_dir : path) (triggering_error : exn)
    (report : endpoint_report) : io unit :=
  let name := path_name (parse_path (er_artifact report)) in
  let source := path_div source_dir name in
  present ← gets (λ w, path_exists w source);
  io_raise_if (negb present) triggering_error;;
  let destination := path_div destination_dir name in
  mkdir_p (path_parent destination);;
  copy2 source destination.

Definition idxd_reports (m : manifest) : list endpoint_report :=
  family ← m_families m;
  if bool_decide (fa_run_family family = "idxd_attribution") then fa_reports family else [].

(** The failure of a phase, with what the command printed. *)
Definition phase_error (phase outcome : string) (run_root summary_output : path)
    (device_path : string) (last_field : string) (stdout stderr : string) : exn :=
  RunError (join newline
    [join " " [field "phase" phase; field "outcome" outcome;
               field "output_root" (path_str run_root);
               field "summary_path" (path_str summary_output);
               field "device_path" device_path; last_field];
     cat ["stdout:"; newline; stdout]; cat ["stderr:"; newline; stderr]]).

Definition DEFAULT_S03_RUNNER : path :=
  path_div repo_root "accel-rpc/tonic-profile/scripts/run_s03_idxd_evidence.py".
Definition DEFAULT_S02_VERIFY : path :=
  path_div repo_root "accel-rpc/tonic-profile/scripts/verify_s02_trustworthy_evidence.sh".
Definition DEFAULT_S03_VERIFY : path :=
  path_div repo_root "accel-rpc/tonic-profile/scripts/verify_s03_idxd_path.sh".
Definition DEFAULT_SUMMARIZER : path :=
  path_div repo_root "accel-rpc/tonic-profile/scripts/summarize_s04_claim_package.py".

(** [Path(os.environ.get(key, str(default))).resolve()] *)
Definition tool_path (key : string) (d : path) (w : world) : path :=
  resolve (w_cwd w) (parse_path (environ_get key (path_str d) w)).

(** [subprocess.run(..., text=True)]: the captured output is decoded strictly. *)
Definition decoded (r : Z * string * string) : exc (Z * string * string) :=
  let '(code, out, err) := r in
  stdout ← decode_text out;
  stderr ← decode_text err;
  mret (code, stdout, stderr).

Definition seed_idxd_fallback (m : manifest) (run_root summary_output : path)
    (triggering_error : exn) : io string :=
  let source_dir := idxd_fixture_source run_root in
  present ← gets (λ w, path_exists w source_dir);
  io_raise_if (negb present) triggering_error;;
  let destination_dir := path_div run_root "idxd" in
  iterM (seed_report source_dir destination_dir triggering_error) (idxd_reports m);;
  let copied := length (idxd_reports m) in
  fallback_device ← idxd_fallback_device_path source_dir;
  s03_runner ← gets (tool_path "S04_S03_RUNNER_PATH" DEFAULT_S03_RUNNER);
  idxd_manifest ← pure_ (ditem "idxd_manifest" (m_inputs m));
  let verify_cmd :=
    ["python3"; path_str s03_runner; "--manifest";
     path_str (resolve_repo_path repo_root idxd_manifest); "--output-dir";
     path_str destination_dir; "--accelerator-device"; fallback_device; "--verify-only"] in
  print (join " "
    ["phase=idxd-fallback-start"; field "source" (path_str source_dir);
     field "destination" (path_str destination_dir); field "copied_files" (pretty copied);
     field "device_path" fallback_device; field "summary_path" (path_str summary_output)]);;
  env ← gets w_env;
  result ← subprocess_run_forever (machine env) (JStr <$> verify_cmd) repo_root;
  '(returncode, stdout, stderr) ← pure_ (decoded result);
  emit_completed_process_output stdout stderr;;
  io_raise_if (negb (returncode =? 0))
    (phase_error "idxd-fallback" "error" run_root summary_output fallback_device
       (field "exit_code" (pretty returncode)) stdout stderr);;
  print (join " "
    ["phase=idxd-fallback-done"; "verdict=pass"; field "source" (path_str source_dir);
     field "destination" (path_str destination_dir); field "device_path" fallback_device;
     field "summary_path" (path_str summary_output)]);;
  mret fallback_device.

(** The time-out is a whole number of seconds. *)
Definition run_phase_command (phase : string) (command : list string) (env : dict string)
    (timeout_s : Z) (run_root summary_output : path) (device_path : string) : io unit :=
  let roots := [field "output_root" (path_str run_root);
                field "summary_path" (path_str summary_output); field "device_path" device_path] in
  print (join " " ([field "phase" (phase +:+ "-start")] ++ roots ++
    [field "timeout_s" (pretty timeout_s); field "command" (dumps (JArr (JStr <$> command)))]));;
  result ← catch
    (subprocess_run (machine env) (JStr <$> command) repo_root (timeout_s * SECOND)) (λ e,
      match e with
      | TimeoutExpired =>
          '(stdout, stderr) ← gets (env_partial (machine env));
          io_raise (phase_error phase "timeout" run_root summary_output device_path
            (field "timeout_s" (pretty timeout_s)) (utf8_replace stdout) (utf8_replace stderr))
      | e => io_raise e
      end);
  '(returncode, stdout, stderr) ← pure_ (decoded result);
  emit_completed_process_output stdout stderr;;
  io_raise_if (negb (returncode =? 0))
    (phase_error phase "error" run_root summary_output device_path
       (field "exit_code" (pretty returncode)) stdout stderr);;
  print (join " " ([field "phase" (phase +:+ "-done")] ++ roots ++
    [field "exit_code" (pretty returncode)])).

(** The fields every message of the output checks ends with. *)
Definition output_fields (run_root summary_output : path) (device_path : string) : string :=
  join " " [field "output_root" (path_str run_root);
            field "summary_path" (path_str summary_output); field "device_path" device_path].

Definition check_output (run_root summary_output : path) (device_path : string)
    (output : string * path) : io unit :=
  let '(key, path) := output in
  let error outcome :=
    RunError (join " " ["phase=summary"; field "outcome" outcome; field "output_key" key;
      output_fields run_root summary_output device_path; field "artifact" (path_str path)]) in
  present ← gets (λ w, path_exists w path);
  io_raise_if (negb present) (error "missing-output");;
  size ← (λ w, (stat_size (env_dir_size (machine (w_env w))) w path, w));
  io_raise_if (size =? 0) (error "empty-output").

Definition validate_summary_outputs (m : manifest) (run_root summary_output : path)
    (device_path : string) : io unit :=
  iterM (check_output run_root summary_output device_path) (summary_output_paths m run_root).

Definition reference_error (outcome : string) (run_root summary_output : path)
    (device_path : string) (rest : list string) : exn :=
  RunError (join " " (["phase=report-reference-validation"; field "outcome" outcome;
    output_fields run_root summary_output device_path] ++ rest)).

(** The file a reference of the report names in this run root. *)
Definition reference_path (m : manifest) (run_root summary_output : path) (device_path ref : string)
    : io string :=
  let manifest_root := m_run_root m +:+ "/" in
  io_raise_if (negb (startswith manifest_root ref))
    (reference_error "bad-reference" run_root summary_output device_path [field "reference" ref]);;
  gets (λ w, path_str (resolve (w_cwd w) (path_div run_root (removeprefix manifest_root ref)))).

Definition derived_output_missing (run_root summary_output : path) (device_path : string)
    (output : string * path) : io unit :=
  let '(key, path) := output in
  present ← gets (λ w, path_exists w path);
  io_raise_if (negb present)
    (RunError (join " " ["phase=report-reference-validation outcome=missing-derived-output";
      field "output_key" key; output_fields run_root summary_output device_path;
      field "artifact" (path_str path)])).

(** [repr] of a list of strings *)
Definition repr_list (l : list string) : string := py_repr (JArr (JStr <$> l)).

(** The last line of the check *)
Definition reference_verdict (m : manifest) (run_root summary_output : path) (device_path : string)
    (report_contract : path) : string :=
  join " "
    ["phase=report-reference-validation"; "verdict=pass";
     output_fields run_root summary_output device_path;
     field "report_contract" (path_str report_contract);
     field "report_path" (rr_path (m_report m))].

Definition validate_report_references (m : manifest) (run_root summary_output : path)
    (device_path : string) : io unit :=
  raw ← pure_ (ditem "report_contract" (m_inputs m));
  report_contract ← gets (λ w, resolve (w_cwd w) (resolve_repo_path repo_root raw));
  present ← gets (λ w, path_exists w report_contract);
  io_raise_if (negb present) (reference_error "missing-report-contract" run_root summary_output
    device_path [field "artifact" (path_str report_contract)]);;
  expected_refs ← gets (λ w, map (λ '(_, relpath),
    path_str (resolve (w_cwd w) (path_div run_root relpath))) (m_outputs m));
  actual_refs ← mapM (reference_path m run_root summary_output device_path)
    (rr_references (m_report m));
  io_raise_if (negb (bool_decide (actual_refs = expected_refs)))
    (reference_error "reference-mismatch" run_root summary_output device_path
       [field "expected" (repr_list expected_refs); field "actual" (repr_list actual_refs)]);;
  iterM (derived_output_missing run_root summary_output device_path)
    (summary_output_paths m run_root);;
  print (reference_verdict m run_root summary_output device_path report_contract).

(** The hardware phase: the verifier, or the fixture when its failure allows it.
    The result is the device path from then on. *)
Definition hardware_phase (m : manifest) (s03_verify : path) (env : dict string) (timeout_s : Z)
    (run_root summary_output : path) (device_path : string) : io string :=
  catch
    (run_phase_command "idxd" ["bash"; path_str s03_verify] env timeout_s run_root summary_output
       device_path;;
     mret device_path)
    (λ e,
      match e with
      | RunError err =>
          if idxd_failure_allows_fallback err then
            seed_idxd_fallback m run_root summary_output (RunError err)
          else io_raise (RunError err)
      | e => io_raise e
      end).

Record timeouts : Type := Timeouts {
  software_timeout_s : Z;
  idxd_timeout_s : Z;
  summary_timeout_s : Z;
}.

Definition base_env (run_root : path) (device_path_override : option string) (w : world)
    : dict string :=
  let outputs :=
    dset "S03_OUTPUT_DIR" (path_str (resolve (w_cwd w) (path_div run_root "idxd")))
      (dset "S02_OUTPUT_DIR" (path_str (resolve (w_cwd w) (path_div run_root "software")))
        (w_env w)) in
  match device_path_override with
  | Some d => if bool_decide (d = "") then outputs else dset "S03_ACCELERATOR_DEVICE" d outputs
  | None => outputs
  end.

Definition execute_run (manifest_path : path) (m : manifest)
    (run_root_override device_path_override : option string) (t : timeouts) : io unit :=
  run_root ← gets (λ w, resolve_run_root repo_root (w_cwd w)
                          (or_default run_root_override (m_run_root m)));
  device_path ← gets (selected_device_path device_path_override);
  summary_output ← pure_ (summary_output_of m run_root);
  copied_manifest ← prepare_run_root manifest_path m run_root;
  copy_control_floor_reference m run_root;;
  log_artifact_plan m run_root device_path;;
  env ← gets (base_env run_root device_path_override);
  s02_verify ← gets (tool_path "S04_VERIFY_S02_PATH" DEFAULT_S02_VERIFY);
  s03_verify ← gets (tool_path "S04_VERIFY_S03_PATH" DEFAULT_S03_VERIFY);
  summarizer ← gets (tool_path "S04_SUMMARIZER_PATH" DEFAULT_SUMMARIZER);
  run_phase_command "software" ["bash"; path_str s02_verify] env (software_timeout_s t) run_root
    summary_output device_path;;
  device_path ← hardware_phase m s03_verify env (idxd_timeout_s t) run_root summary_output
                  device_path;
  run_phase_command "summary"
    ["python3"; path_str summarizer; "--manifest"; path_str copied_manifest; "--run-root";
     path_str run_root] env (summary_timeout_s t) run_root summary_output device_path;;
  validate_summary_outputs m run_root summary_output device_path;;
  validate_report_references m run_root summary_output device_path;;
  print (join " "
    ["phase=done"; "verdict=pass"; field "manifest" (path_str copied_manifest);
     output_fields run_root summary_output device_path]).

(** The parsed command line. *)
Record arguments : Type := Arguments {
  a_manifest : string;
  a_validate_only : bool;
  a_run_root : option string;
  a_device_path : option string;
  a_timeouts : timeouts;
}.

Definition main_body (args : arguments) : io Z :=
  manifest_path ← gets (λ w, resolve (w_cwd w) (parse_path (a_manifest args)));
  m ← load_manifest repo_root manifest_path;
  run_root ← gets (λ w, resolve_run_root repo_root (w_cwd w)
                          (or_default (a_run_root args) (m_run_root m)));
  summary ← pure_ (summary_output_of m run_root);
  print (join " "
    ["phase=manifest-parse"; field "manifest" (path_str manifest_path);
     field "run_root" (path_str run_root); field "summary_path" (path_str summary);
     field "report_path" (rr_path (m_report m));
     field "families" (pretty (length (m_families m)))]);;
  if a_validate_only args then mret 0
  else
    execute_run manifest_path m (a_run_root args) (a_device_path args) (a_timeouts args);;
    mret 0.

Definition main (args : arguments) : io Z :=
  catch (main_body args) (λ e,
    match e with
    | ManifestError err | RunError err => fail err;; mret 1
    | e => io_raise e
    end).
End package.
End S04.
