(* ===== verification/S04Spec.v ===== *)
(** * What the claim-package runner guarantees

    The theorems about run_s04_claim_package.py: what exit code 0 means, when
    the fixture reports replace a hardware run, and what the checks of the
    outputs establish. *)

From S2P Require Import Prelude PyFloat PyVal PyPath Json JsonOut World Process RunnerCommon.
From S2P Require Import Contract ContractSpec Fixtures S04.
Import S04.

Local Open Scope Z_scope.

(** ** Phases *)

Lemma start_not_RunError E cmd cwd w e : start_error E cmd cwd w e → ∀ m, e ≠ RunError m.
Proof. intros [[? ->]|[[_ [? ->]]|[[_ [? ->]]|[_ [? ->]]]]]%start_error_cases; done. Qed.

Lemma decoded_code c out err r : decoded (c, out, err) = Ok r → r.1.1 = c.
Proof. unfold decoded. destruct (decode_text out), (decode_text err); [by intros [= <-]|done..]. Qed.

Lemma emit_preserves R `{!Quiet R} stdout stderr :
  preserves R (emit_completed_process_output stdout stderr).
Proof. unfold emit_completed_process_output. preserves_tac. Qed.
#[export] Hint Resolve emit_preserves : preserves.

(** The statements after a command has ended: the only way to pass them is an
    exit code 0. *)
Lemma finish_phase c out err (k : Z → string → string → io unit) (mk : string → string → Z → string) w r w' :
  ('(returncode, stdout, stderr) ← pure_ (decoded (c, out, err));
   emit_completed_process_output stdout stderr;;
   io_raise_if (negb (returncode =? 0)) (RunError (mk stdout stderr returncode));;
   k returncode stdout stderr) w = (r, w') →
  (∀ c stdout stderr, preserves same_procs (k c stdout stderr)) →
  w_procs w' = w_procs w ∧ (r = Ok tt → c = 0).
Proof.
  intros Hrun Hp. split.
  - assert (preserves same_procs ('(returncode, stdout, stderr) ← pure_ (decoded (c, out, err));
      emit_completed_process_output stdout stderr;;
      io_raise_if (negb (returncode =? 0)) (RunError (mk stdout stderr returncode));;
      k returncode stdout stderr)) as Hall by preserves_tac.
    specialize (Hall w). by rewrite Hrun in Hall.
  - intros ->. apply io_bind_pure in Hrun as ([[c' so] se] & Hdec%decoded_code & Hrun). simpl in Hdec.
    apply io_bind_Ok in Hrun as ([] & w1 & _ & Hrun).
    apply io_bind_raise_if in Hrun as [Hc _]. lia.
Qed.

Section phases.
Context (machine : dict string → environment) (repo_root : path).

(** A phase either cannot start its command, or leaves one more child, which it
    has waited for; it passes only when the child exited with code 0. *)
Definition phase_result (w : world) (r : exc unit) (w' : world) : Prop :=
  (w_procs w' = w_procs w ∧ ∃ e, r = Err e ∧ ∀ m, e ≠ RunError m) ∨
  (∃ pc, w_procs w' = w_procs w ++ [pc] ∧ is_Some (pr_ret pc) ∧ (r = Ok tt → pr_ret pc = Some 0)).

Lemma run_phase_command_cases phase cmd env t rr so dp w r w' :
  run_phase_command machine repo_root phase cmd env t rr so dp w = (r, w') → phase_result w r w'.
Proof.
  unfold run_phase_command. cbv zeta. intros Hrun.
  match type of Hrun with (print ?s ≫= _) _ = _ =>
    destruct (io_print_cases s w) as [[_ Hpr]|[_ Hpr]] end.
  2: { rewrite (io_bind_err _ _ _ _ _ Hpr) in Hrun. injection Hrun as <- <-. left.
       split; [done|]. by eexists. }
  rewrite (io_bind_run _ _ _ _ _ Hpr) in Hrun. set (w1 := set_out _ w) in Hrun.
  unfold mbind at 1, io_bind at 1, catch at 1 in Hrun.
  destruct (subprocess_run (machine env) _ _ _ w1) as [rs w2] eqn:Hs.
  destruct (subprocess_run_cases _ _ _ _ _ _ _ Hs)
    as [(-> & e & -> & He)|(pc & Hw2 & _ & _ & _ & Hrs)].
  - pose proof (start_not_RunError _ _ _ _ _ He) as Hne. left.
    assert (∃ e', r = Err e' ∧ w' = w1 ∧ ∀ m, e' ≠ RunError m) as (e' & -> & -> & ?); [|by eauto].
    destruct (start_error_cases _ _ _ _ _ He) as [[? ->]|[[_ [? ->]]|[[_ [? ->]]|[_ [? ->]]]]];
      injection Hrun as <- <-; by eexists.
  - right. exists pc. change (w_procs w) with (w_procs w1).
    destruct rs as [[[c out] err]|e].
    + unfold phase_error in Hrun.
      apply (finish_phase c out err (λ c so se, _) (λ so se c, _)) in Hrun as [Hp Hr].
      * rewrite Hp. split_and!; [done|by rewrite Hrs|]. intros Hok. by rewrite Hrs, (Hr Hok).
      * intros. preserves_tac.
    + destruct Hrs as [-> Hret]. unfold gets, mbind, io_bind in Hrun.
      destruct (env_partial (machine env) w2) as [ps pe]. injection Hrun as <- <-.
      by split_and!.
Qed.

Lemma idxd_fallback_device_procs dir : preserves same_procs (idxd_fallback_device_path dir).
Proof. unfold idxd_fallback_device_path, load_json_object. preserves_tac. Qed.

Lemma seed_report_procs src dst e report : preserves same_procs (seed_report src dst e report).
Proof. unfold seed_report. preserves_tac. Qed.

(** A completed fallback has verified the fixture reports. *)
Lemma seed_idxd_fallback_Ok m rr so e w d w' :
  seed_idxd_fallback machine repo_root m rr so e w = (Ok d, w') →
  ∃ pv, w_procs w' = w_procs w ++ [pv] ∧ pr_ret pv = Some 0.
Proof.
  unfold seed_idxd_fallback. cbv zeta. intros Hrun.
  apply io_bind_Ok in Hrun as (present & w1 & [= <- <-] & Hrun).
  apply io_bind_raise_if in Hrun as [_ Hrun].
  apply io_bind_Ok in Hrun as ([] & w1 & Hseed & Hrun).
  assert (same_procs w w1) as H1.
  { eapply preserves_Ok, Hseed. apply preserves_iterM; [apply _|]. intros. apply seed_report_procs. }
  apply io_bind_Ok in Hrun as (dev & w2 & Hdev & Hrun).
  assert (same_procs w1 w2) as H2 by (eapply preserves_Ok, Hdev; apply idxd_fallback_device_procs).
  apply io_bind_Ok in Hrun as (runner & w3 & [= <- <-] & Hrun).
  apply io_bind_pure in Hrun as (im & _ & Hrun).
  apply io_print_bind in Hrun as [_ Hrun]. set (w3 := set_out _ w2) in Hrun.
  apply io_bind_Ok in Hrun as (env & w4 & [= <- <-] & Hrun).
  apply io_bind_Ok in Hrun as ([[c out] err] & w4 & Hsub & Hrun).
  destruct (subprocess_run_forever_cases _ _ _ _ _ _ Hsub) as [(_ & ? & ? & _)|(pv & Hw4 & Hret)]; [done|].
  apply io_bind_pure in Hrun as ([[c' so'] se'] & Hdec%decoded_code & Hrun). simpl in Hdec. subst c'.
  apply io_bind_Ok in Hrun as ([] & w5 & Hem & Hrun).
  assert (same_procs w4 w5) as H5 by (eapply preserves_Ok, Hem; apply emit_preserves; apply _).
  apply io_bind_raise_if in Hrun as [Hc%negb_false_iff%Z.eqb_eq Hrun].
  apply io_print_bind in Hrun as [_ Hrun]. apply io_mret_Ok in Hrun as [_ ->].
  exists pv. unfold same_procs in *. split; [|congruence]. simpl. rewrite H5, Hw4. simpl. congruence.
Qed.

(** How the hardware phase can pass: the verifier exited with code 0, or it
    failed with a message that allows the fallback and the fixture reports were
    verified; then two children were started. *)
Lemma hardware_phase_Ok m s03 env t rr so dp w d w' :
  hardware_phase machine repo_root m s03 env t rr so dp w = (Ok d, w') →
  ∃ hw, is_Some (pr_ret hw) ∧
    ((w_procs w' = w_procs w ++ [hw] ∧ pr_ret hw = Some 0 ∧ d = dp) ∨
     ∃ err w1 pv,
       run_phase_command machine repo_root "idxd" ["bash"; path_str s03] env t rr so dp w =
         (Err (RunError err), w1) ∧
       idxd_failure_allows_fallback err = true ∧
       w_procs w' = w_procs w ++ [hw; pv] ∧ pr_ret pv = Some 0).
Proof.
  unfold hardware_phase. intros Hrun. unfold catch, mbind at 1, io_bind at 1 in Hrun.
  destruct (run_phase_command _ _ _ _ _ _ _ _ _ w) as [r1 w1] eqn:Hph.
  destruct (run_phase_command_cases _ _ _ _ _ _ _ _ _ _ Hph)
    as [(_ & e & -> & Hne)|(pc & Hw1 & Hret & Hr)]; [by destruct e; try done; destruct (Hne msg)|].
  destruct r1 as [[]|e].
  - injection Hrun as <- <-. exists pc. split; [done|]. left. by split_and!; [|apply Hr|].
  - destruct e as [|err| | | | | | | | | | | | | | | | | |]; try done.
    destruct (idxd_failure_allows_fallback err) eqn:Hf; [|done].
    apply seed_idxd_fallback_Ok in Hrun as (pv & Hw' & Hpv).
    exists pc. split; [done|]. right. exists err, w1, pv.
    split_and!; [done|done| |done]. by rewrite Hw', Hw1, <-app_assoc.
Qed.
End phases.

(** ** The outputs *)

Section outputs.
Context (machine : dict string → environment) (repo_root : path).

(** An output that exists and is not an empty file. *)
Definition written (w : world) (p : path) : Prop :=
  path_exists w p = true ∧ ∃ n, stat_size (env_dir_size (machine (w_env w))) w p = Ok n ∧ n ≠ 0.

Lemma check_output_spec rr so dp o w :
  (check_output machine rr so dp o w).2 = w ∧
  ((check_output machine rr so dp o w).1 = Ok tt ↔ written w o.2).
Proof.
  destruct o as [key p]. unfold check_output, written. rewrite io_gets_bind. cbn [snd].
  unfold io_raise_if, pure_, mbind, io_bind.
  destruct (path_exists w p); simpl; [|naive_solver].
  destruct (stat_size _ w p) as [n|e]; simpl; [|naive_solver].
  destruct (Z.eqb_spec n 0); simpl; naive_solver.
Qed.

Lemma validate_summary_outputs_Ok m rr so dp w w' :
  validate_summary_outputs machine m rr so dp w = (Ok tt, w') →
  w' = w ∧ Forall (λ o, written w o.2) (summary_output_paths m rr).
Proof.
  unfold validate_summary_outputs. intros Hrun.
  destruct (io_iterM_check (check_output machine rr so dp) (λ o, written w o.2)
    (summary_output_paths m rr) w) as [Hw Hok]; [intros; apply check_output_spec..|].
  rewrite Hrun in Hw, Hok. simpl in *. naive_solver.
Qed.

(** The references of a contract's report, in any run root, are its outputs. *)
Lemma reference_paths_run m rr so dp w :
  m_run_root m = EXPECTED_RUN_ROOT →
  mapM (reference_path m rr so dp) (expected_report_references EXPECTED_RUN_ROOT) w =
  (Ok (map (λ '(_, relpath), path_str (resolve (w_cwd w) (path_div rr relpath)))
         EXPECTED_DERIVED_OUTPUTS), w).
Proof.
  intros Hroot. unfold expected_report_references. set (outs := EXPECTED_DERIVED_OUTPUTS).
  assert (∀ v, reference_path m rr so dp (cat [EXPECTED_RUN_ROOT; "/"; v]) w =
    (Ok (path_str (resolve (w_cwd w) (path_div rr v))), w)) as Hr.
  { intros v. unfold reference_path. rewrite Hroot. unfold cat. cbn [foldr].
    rewrite app_nil_r_str, <-app_assoc_str. set (pre := EXPECTED_RUN_ROOT +:+ "/").
    rewrite (proj2 (startswith_spec pre (pre +:+ v))) by eauto.
    rewrite removeprefix_app. done. }
  induction outs as [|[k v] outs IH]; [done|]. cbn [map mapM].
  rewrite (io_bind_run _ _ _ _ _ (Hr v)), (io_bind_run _ _ _ _ _ IH). done.
Qed.

Lemma derived_output_missing_spec rr so dp o w :
  (derived_output_missing rr so dp o w).2 = w ∧
  ((derived_output_missing rr so dp o w).1 = Ok tt ↔ path_exists w o.2 = true).
Proof.
  destruct o as [key p]. unfold derived_output_missing. rewrite io_gets_bind. cbn [snd].
  unfold io_raise_if, pure_. destruct (path_exists w p); simpl; naive_solver.
Qed.

Lemma validate_report_references_spec m rr so dp raw w r w' :
  m_run_root m = EXPECTED_RUN_ROOT → m_outputs m = EXPECTED_DERIVED_OUTPUTS →
  rr_references (m_report m) = expected_report_references EXPECTED_RUN_ROOT →
  dget "report_contract" (m_inputs m) = Some raw →
  validate_report_references repo_root m rr so dp w = (r, w') →
  w' = set_out (w_out w') w ∧
  (r = Ok tt ↔
   path_exists w (resolve (w_cwd w) (resolve_repo_path repo_root raw)) = true ∧
   Forall (λ o, path_exists w o.2 = true) (summary_output_paths m rr) ∧
   utf8_valid (reference_verdict m rr so dp (resolve (w_cwd w) (resolve_repo_path repo_root raw))) = true).
Proof.
  intros Hroot Hout Href Hraw. unfold validate_report_references, ditem. rewrite Hraw. intros Hrun.
  rewrite (io_bind_run _ _ w raw w), !io_gets_bind in Hrun by done.
  assert (w = set_out (w_out w) w) as Hsame by by destruct w.
  destruct (path_exists w _); [|injection Hrun as <- <-; naive_solver].
  rewrite (io_bind_run _ _ w tt w), io_gets_bind, Href in Hrun by done.
  rewrite (io_bind_run _ _ _ _ _ (reference_paths_run _ _ _ _ _ Hroot)), Hout in Hrun.
  rewrite bool_decide_true in Hrun by done.
  rewrite (io_bind_run _ _ w tt w) in Hrun by done.
  destruct (io_iterM_check (derived_output_missing rr so dp) (λ o, path_exists w o.2 = true)
    (summary_output_paths m rr) w) as [Hw Hok]; [intros; apply derived_output_missing_spec..|].
  unfold mbind, io_bind in Hrun.
  destruct (iterM (derived_output_missing rr so dp) (summary_output_paths m rr) w) as [[[]|e] w1];
    cbn [fst snd] in *; subst w1.
  - match type of Hrun with print ?s _ = _ =>
      destruct (io_print_cases s w) as [[Hv Hpr]|[Hv Hpr]]; rewrite Hpr in Hrun; injection Hrun as <- <- end.
    + split; [done|]. naive_solver.
    + split; [done|]. split; [done|]. intros (_ & _ & H). congruence.
  - injection Hrun as <- <-. split; [done|]. split; [done|]. intros (_ & H & _). by apply Hok in H.
Qed.
End outputs.

(** ** A run *)

(** The children of a completed run, in the order they were started: the
    software verifier, the hardware verifier, the check of the fixture reports
    when they replaced the hardware run, and the summarizer. *)
Definition phases_passed (children : list proc) : Prop :=
  ∃ sw hw sm, pr_ret sw = Some 0 ∧ pr_ret sm = Some 0 ∧
    ((children = [sw; hw; sm] ∧ pr_ret hw = Some 0) ∨
     ∃ pv, children = [sw; hw; pv; sm] ∧ is_Some (pr_ret hw) ∧ pr_ret pv = Some 0).

Definition run_root_of (repo_root : path) (w : world) (override : option string) (m : manifest) : path :=
  resolve_run_root repo_root (w_cwd w) (or_default override (m_run_root m)).

Section run.
Context (machine : dict string → environment) (repo_root : path).

Lemma prepare_run_root_procs p m rr : preserves same_procs (prepare_run_root p m rr).
Proof. unfold prepare_run_root. preserves_tac. Qed.

Lemma copy_control_floor_procs m rr : preserves same_procs (copy_control_floor_reference repo_root m rr).
Proof. unfold copy_control_floor_reference. preserves_tac. Qed.

Lemma log_plan_procs m rr dp : preserves same_procs (log_artifact_plan m rr dp).
Proof. unfold log_artifact_plan. preserves_tac. Qed.

Lemma run_phase_command_Ok phase cmd env t rr so dp w w' :
  run_phase_command machine repo_root phase cmd env t rr so dp w = (Ok tt, w') →
  ∃ pc, w_procs w' = w_procs w ++ [pc] ∧ pr_ret pc = Some 0.
Proof.
  intros Hrun. apply run_phase_command_cases in Hrun as [(_ & m & ? & _)|(pc & ? & _ & ?)]; [done|].
  exists pc. by split; [|auto].
Qed.

Lemma execute_run_Ok mp m rro dpo t raw w w' :
  m_run_root m = EXPECTED_RUN_ROOT → m_outputs m = EXPECTED_DERIVED_OUTPUTS →
  rr_references (m_report m) = expected_report_references EXPECTED_RUN_ROOT →
  dget "report_contract" (m_inputs m) = Some raw →
  execute_run machine repo_root mp m rro dpo t w = (Ok tt, w') →
  (∃ children, w_procs w' = w_procs w ++ children ∧ phases_passed children) ∧
  path_exists w' (resolve (w_cwd w') (resolve_repo_path repo_root raw)) = true ∧
  Forall (λ o, written machine w' o.2) (summary_output_paths m (run_root_of repo_root w rro m)).
Proof.
  intros Hroot Hout Href Hraw. unfold execute_run. rewrite !io_gets_bind. fold (run_root_of repo_root w rro m).
  set (rr := run_root_of repo_root w rro m). intros Hrun.
  apply io_bind_pure in Hrun as (so & _ & Hrun).
  apply io_bind_Ok in Hrun as (cm & w1 & Hprep & Hrun).
  apply (preserves_Ok _ _ _ _ _ (prepare_run_root_procs _ _ _)) in Hprep.
  apply io_bind_Ok in Hrun as (dst & w2 & Hcopy & Hrun).
  apply (preserves_Ok _ _ _ _ _ (copy_control_floor_procs _ _)) in Hcopy.
  apply io_bind_Ok in Hrun as ([] & w3 & Hlog & Hrun).
  apply (preserves_Ok _ _ _ _ _ (log_plan_procs _ _ _)) in Hlog.
  rewrite !io_gets_bind in Hrun. unfold same_procs in *.
  apply io_bind_Ok in Hrun as ([] & w4 & (sw & Hw4 & Hsw)%run_phase_command_Ok & Hrun).
  apply io_bind_Ok in Hrun as (dev & w5 & Hhw & Hrun).
  apply hardware_phase_Ok in Hhw as (hw & Hhret & Hhw).
  apply io_bind_Ok in Hrun as ([] & w6 & (sm & Hw6 & Hsm)%run_phase_command_Ok & Hrun).
  apply io_bind_Ok in Hrun as ([] & w7 & [-> Hwr]%validate_summary_outputs_Ok & Hrun).
  apply io_bind_Ok in Hrun as ([] & w8 & Hv & Hrun). apply io_print_Ok in Hrun as [_ ->].
  eapply validate_report_references_spec in Hv as [Hw8 Hiff]; [|done..].
  destruct (proj1 Hiff eq_refl) as [Hrc _]. rewrite Hw8. split_and!; [|done..].
  destruct Hhw as [(Hw5 & Hh0 & _)|(err & w5' & pv & _ & _ & Hw5 & Hpv)].
  - exists [sw; hw; sm]. split.
    + simpl. rewrite Hw6, Hw5, Hw4, <-!app_assoc. simpl. congruence.
    + exists sw, hw, sm. split_and!; [done..|]. by left.
  - exists [sw; hw; pv; sm]. split.
    + simpl. rewrite Hw6, Hw5, Hw4, <-!app_assoc. simpl. congruence.
    + exists sw, hw, sm. split_and!; [done..|]. right. by exists pv.
Qed.
End run.

(** Output printed by a command is part of the failure of its phase. *)
Lemma phase_error_output marker phase outcome rr so dp last stdout stderr :
  marker ∈ FALLBACK_MARKERS → str_in marker stdout = true ∨ str_in marker stderr = true →
  ∃ err, phase_error phase outcome rr so dp last stdout stderr = RunError err ∧
    idxd_failure_allows_fallback err = true.
Proof.
  intros Hm Hin. unfold phase_error. eexists. split; [done|].
  apply existsb_exists. exists marker. split; [by apply list_elem_of_In|].
  set (pre := join " " (field "phase" phase :: _)). cbn [join cat foldr].
  do 2 apply str_in_app_r. destruct Hin.
  - apply str_in_app_l. do 2 apply str_in_app_r. by apply str_in_app_l.
  - do 4 apply str_in_app_r. by apply str_in_app_l.
Qed.

(** ** An example run *)

(** A machine on which every command exits with code 0 after a second, except
    the hardware verifier, which reports its preflight and exits with code
    [hw]; the summarizer leaves its three files. *)
Definition package_dir : list string := repo_file EXPECTED_RUN_ROOT.

Definition summary_files : list (list string * string) :=
  (λ name, (package_dir ++ ["summary"; name], "summary")) <$>
    ["comparison_summary.json"; "ordinary_vs_idxd.csv"; "claim_table.md"].

Definition package_proc (hw now : Z) (args : list string) : proc :=
  if existsb (endswith "verify_s03_idxd_path.sh") args then
    Proc (Some (now + SECOND, hw)) (Some (0%N, -15)) 0 (Some 0%N) "phase=preflight binary=b" "" None
  else Proc (Some (now + SECOND, 0)) (Some (0%N, -15)) 0 (Some 0%N) "ok" "" None.

Definition package_machine (hw : Z) (_ : dict string) : environment :=
  Environment (λ args _ w, Ok (package_proc hw (w_now w) args))
    (λ w _, if (length (w_procs w) <? 3)%nat then w_fs w
            else foldr (λ '(q, text) fs, <[q := File text]> fs) (w_fs w) summary_files)
    (λ _ _ _, (0%N, Ok false)) (λ _, 1%N) (λ _ _, true) (λ _, 0) (λ _, ("", "")) (λ _, 4096) (λ _, 0).

Definition fixture_reports : list (list string * string) :=
  (λ '(q, text), (removelast package_dir ++ ["fixture"; "idxd"; List.last q ""], text)) <$>
    s03_reports "/dev/dsa/wq0.0".

Definition package_world : world :=
  repo_world (manifest_files s02_text s03_text s04_text ++ fixture_reports).

Definition package_args (validate_only : bool) : arguments :=
  Arguments (path_str s04_path) validate_only None None (Timeouts 60 60 60).

(** ** The guarantees *)

(** C17: when the runner exits with code 0, the manifest was accepted.  With
    [--validate-only] no command was started and no file was touched.
    Otherwise the software verifier and the summarizer exited with code 0, the
    hardware verifier did or the fixture reports that replaced its run were
    verified with exit code 0, every child has been waited for, the report
    contract exists, and each of the three derived outputs exists and is not
    empty. *)
Theorem s04_main_success machine repo_root args w w' :
  main machine repo_root args w = (Ok 0, w') →
  ∃ m raw, load_manifest repo_root (resolve (w_cwd w) (parse_path (a_manifest args))) w = (Ok m, w) ∧
    dget "report_contract" (m_inputs m) = Some raw ∧
    if a_validate_only args then w' = set_out (w_out w') w
    else
      (∃ children, w_procs w' = w_procs w ++ children ∧ phases_passed children) ∧
      path_exists w' (resolve (w_cwd w') (resolve_repo_path repo_root raw)) = true ∧
      Forall (λ o, written machine w' o.2)
        (summary_output_paths m (run_root_of repo_root w (a_run_root args) m)).
Proof.
  intros Hrun. unfold main, catch in Hrun.
  destruct (main_body machine repo_root args w) as [[c|e] w1] eqn:Hbody; [|by destruct e].
  injection Hrun as -> ->. unfold main_body in Hbody. rewrite io_gets_bind in Hbody.
  apply io_bind_Ok in Hbody as (m & w1 & Hload & Hbody).
  destruct (loaded_package _ _ _ _ _ Hload) as (-> & Hroot & Hout & Href & raw & Hraw).
  exists m, raw. split_and!; [done..|].
  rewrite io_gets_bind in Hbody. apply io_bind_pure in Hbody as (so & _ & Hbody).
  apply io_print_bind in Hbody as [_ Hbody]. set (w1 := set_out _ w) in Hbody.
  destruct (a_validate_only args); [by injection Hbody as <-|].
  apply io_bind_Ok in Hbody as ([] & w2 & Hex & Hbody). injection Hbody as <-.
  by eapply execute_run_Ok in Hex.
Qed.

Lemma s04_main_success_witness :
  phases_passed (w_procs (main (package_machine 0) fixture_root (package_args false) package_world).2).
Proof.
  destruct (s04_main_success (package_machine 0) fixture_root (package_args false) package_world
    (main (package_machine 0) fixture_root (package_args false) package_world).2
    ltac:(apply io_run_fst; vm_compute; reflexivity))
    as (m & raw & _ & _ & (children & Hp & Hpass) & _).
  rewrite Hp. exact Hpass.
Defined.

(** C18: the hardware phase passes only when its verifier exited with code 0,
    and then the device path is unchanged, or when the verifier ran and failed
    with a message that allows the fallback and the fixture reports were
    verified with exit code 0. *)
Theorem s04_hardware_phase_passes machine repo_root m s03_verify env t run_root summary dp w d w' :
  hardware_phase machine repo_root m s03_verify env t run_root summary dp w = (Ok d, w') →
  ∃ hw, is_Some (pr_ret hw) ∧
    ((w_procs w' = w_procs w ++ [hw] ∧ pr_ret hw = Some 0 ∧ d = dp) ∨
     ∃ err w1 pv,
       run_phase_command machine repo_root "idxd" ["bash"; path_str s03_verify] env t run_root
         summary dp w = (Err (RunError err), w1) ∧
       idxd_failure_allows_fallback err = true ∧
       w_procs w' = w_procs w ++ [hw; pv] ∧ pr_ret pv = Some 0).
Proof. apply hardware_phase_Ok. Qed.

Definition package_root : path := parse_path (cat ["/repo/"; EXPECTED_RUN_ROOT]).

Definition package_phase (hw : Z) : io string :=
  hardware_phase (package_machine hw) fixture_root tracked_manifest
    (parse_path "/repo/verify_s03_idxd_path.sh") [] 60 package_root
    (path_div package_root "summary/comparison_summary.json") "/dev/dsa/wq1.0".

Lemma package_phase_run :
  package_phase 0 package_world = (Ok "/dev/dsa/wq1.0", (package_phase 0 package_world).2).
Proof. apply io_run_fst. vm_compute. reflexivity. Qed.

Lemma s04_hardware_phase_passes_witness :
  ∃ hw w', is_Some (pr_ret hw) ∧ package_phase 0 package_world = (Ok "/dev/dsa/wq1.0", w') ∧
    hw ∈ w_procs w'.
Proof.
  pose proof package_phase_run as Hrun. revert Hrun. generalize (package_phase 0 package_world).2.
  unfold package_phase. intros w' Hrun.
  destruct (s04_hardware_phase_passes (package_machine 0) fixture_root tracked_manifest
    (parse_path "/repo/verify_s03_idxd_path.sh") [] 60 package_root
    (path_div package_root "summary/comparison_summary.json") "/dev/dsa/wq1.0" package_world
    "/dev/dsa/wq1.0" w' Hrun)
    as (hw & Hret & [(Hp & _)|(err & w1 & pv & _ & _ & Hp & _)]);
    exists hw, w'; rewrite Hp; (split; [exact Hret|split; [exact Hrun|]]);
    apply elem_of_app; right; left.
Defined.

(** A marker anywhere in what the hardware verifier printed is enough for
    the fallback, whatever the failure was: the phase continues with the
    fixture reports. *)
Theorem s04_fallback_on_marker machine repo_root m s03_verify env t run_root summary dp w w1
    marker outcome last stdout stderr :
  run_phase_command machine repo_root "idxd" ["bash"; path_str s03_verify] env t run_root summary
    dp w = (Err (phase_error "idxd" outcome run_root summary dp last stdout stderr), w1) →
  marker ∈ FALLBACK_MARKERS → str_in marker stdout = true ∨ str_in marker stderr = true →
  hardware_phase machine repo_root m s03_verify env t run_root summary dp w =
  seed_idxd_fallback machine repo_root m run_root summary
    (phase_error "idxd" outcome run_root summary dp last stdout stderr) w1.
Proof.
  intros Hrun Hm Hin.
  destruct (phase_error_output _ "idxd" outcome run_root summary dp last _ _ Hm Hin) as (err & He & Ha).
  unfold hardware_phase, catch, mbind at 1, io_bind at 1. rewrite Hrun, He. by rewrite Ha.
Qed.

Lemma s04_fallback_on_marker_witness :
  ∃ e w1, package_phase 3 package_world =
    seed_idxd_fallback (package_machine 3) fixture_root tracked_manifest package_root
      (path_div package_root "summary/comparison_summary.json") e w1.
Proof.
  eexists _, _. unfold package_phase.
  apply (s04_fallback_on_marker (package_machine 3) fixture_root tracked_manifest
    (parse_path "/repo/verify_s03_idxd_path.sh") [] 60 package_root
    (path_div package_root "summary/comparison_summary.json") "/dev/dsa/wq1.0" package_world
    _ "phase=preflight" "error" "exit_code=3" "phase=preflight binary=b" "").
  - apply io_run_fst. vm_compute. reflexivity.
  - apply (list_elem_of_lookup_2 _ 4). reflexivity.
  - left. vm_compute. reflexivity.
Defined.

(** A run whose hardware verifier gets through its preflight and then
    fails with exit code 3 still exits with code 0: the text of the preflight
    line is one of the markers. *)
Theorem s04_late_failure_passes :
  (main (package_machine 3) fixture_root (package_args false) package_world).1 = Ok 0 ∧
  map pr_ret (w_procs (main (package_machine 3) fixture_root (package_args false) package_world).2) =
    [Some 0; Some 3; Some 0; Some 0].
Proof. vm_compute. by split. Qed.

(** For an accepted manifest the check of the report's references changes
    no file, and passes exactly when the report contract and every derived
    output of the run root exist and its last line can be printed. *)
Theorem s04_references_checked repo_root p w0 m run_root summary dp w r w' :
  load_manifest repo_root p w0 = (Ok m, w0) →
  validate_report_references repo_root m run_root summary dp w = (r, w') →
  same_files w w' ∧
  (r = Ok tt ↔
   (∃ raw, dget "report_contract" (m_inputs m) = Some raw ∧
     path_exists w (resolve (w_cwd w) (resolve_repo_path repo_root raw)) = true ∧
     utf8_valid (reference_verdict m run_root summary dp
       (resolve (w_cwd w) (resolve_repo_path repo_root raw))) = true) ∧
   Forall (λ o, path_exists w o.2 = true) (summary_output_paths m run_root)).
Proof.
  intros (_ & Hroot & Hout & Href & raw & Hraw)%loaded_package Hrun.
  destruct (validate_report_references_spec _ _ _ _ _ _ _ _ _ Hroot Hout Href Hraw Hrun) as [Hw Hiff].
  split; [by rewrite Hw|]. rewrite Hiff, Hraw. naive_solver.
Qed.

Lemma s04_references_checked_witness :
  ∃ w', same_files tracked_world w' ∧
    (validate_report_references fixture_root tracked_manifest package_root package_root ""
       tracked_world).2 = w'.
Proof.
  eexists. split; [|reflexivity].
  apply (s04_references_checked fixture_root s04_path tracked_world tracked_manifest package_root
    package_root "" tracked_world
    (validate_report_references fixture_root tracked_manifest package_root package_root ""
       tracked_world).1).
  - exact tracked_manifest_run.
  - apply io_run_fst. reflexivity.
Defined.
