(* ===== verification/Summarize.v ===== *)
(** * The summarizer

    accel-rpc/tonic-profile/scripts/summarize_s04_claim_package.py: it reads the
    reports of a run and the control-floor summary, compares the hardware runs
    with the software runs, and writes the comparison as JSON, CSV and Markdown. *)

From Stdlib Require Import Ascii SpecFloat.
From S2P Require Import Prelude PyFloat PyVal PyPath Json JsonOut World RunnerCommon Contract.

Local Open Scope Z_scope.

Module Summarize.

(** ** What the standard library does *)

(** [float(v)] of a number *)
Definition to_float (v : json) : exc float :=
  match v with
  | JFloat f => Ok f
  | JInt z => of_option (OverflowError "int too large to convert to float") (f_of_Z z)
  | JBool b => Ok (if b then f_normalize 1 0 else f_zero)
  | v => Err (TypeError (cat ["float() argument must be a string or a real number, not '";
                              type_name v; "'"]))
  end.

(** The proleptic Gregorian date [days] after 1970-01-01, counted in eras of
    400 years that start on the first of March. *)
Definition civil_date (days : Z) : Z * Z * Z :=
  let z := days + 719468 in
  let era := z / 146097 in
  let doe := z mod 146097 in
  let yoe := (doe - doe / 1460 + doe / 36524 - doe / 146096) / 365 in
  let doy := doe - (365 * yoe + yoe / 4 - yoe / 100) in
  let mp := (5 * doy + 2) / 153 in
  let d := doy - (153 * mp + 2) / 5 + 1 in
  let m := if mp <? 10 then mp + 3 else mp - 9 in
  (yoe + era * 400 + (if m <=? 2 then 1 else 0), m, d).

(** [datetime.isoformat()] of the UTC time [us] microseconds after the epoch *)
Definition iso_utc (us : Z) : string :=
  let secs := us / 1000000 in
  let frac := us mod 1000000 in
  let '(y, m, d) := civil_date (secs / 86400) in
  let tod := secs mod 86400 in
  let pad n z := zero_pad n (digits z) in
  cat [pad 4%nat y; "-"; pad 2%nat m; "-"; pad 2%nat d; "T"; pad 2%nat (tod / 3600); ":";
       pad 2%nat (tod / 60 mod 60); ":"; pad 2%nat (tod mod 60);
       (if frac =? 0 then "" else "." +:+ pad 6%nat frac); "+00:00"].

Example iso_utc_example :
  iso_utc 1700000000000042 = "2023-11-14T22:13:20.000042+00:00" ∧
  iso_utc 951782400000000 = "2000-02-29T00:00:00+00:00".
Proof. vm_compute. by split. Qed.

(** The [csv] module's default dialect: a field with a comma, a quote or a line
    break is quoted, and quotes inside are doubled. *)
Definition cr : ascii := byte 13.
Definition lf : ascii := byte 10.

Definition csv_special (c : ascii) : bool :=
  bool_decide (c ∈ [","%char; quote_char; cr; lf]).

Fixpoint csv_double (s : string) : string :=
  match s with
  | "" => ""
  | String c s =>
      if bool_decide (c = quote_char) then String quote_char (String quote_char (csv_double s))
      else String c (csv_double s)
  end.

Definition csv_field (s : string) : string :=
  if str_all (λ c, negb (csv_special c)) s then s
  else String quote_char (csv_double s +:+ String quote_char "").

Definition csv_line (fields : list string) : string :=
  join "," (map csv_field fields) +:+ String cr (String lf "").

(** What the writer does to a value that is not a string *)
Definition csv_value (v : json) : string :=
  match v with
  | JNull => ""
  | JFloat f => f_repr f
  | v => py_str v
  end.

(** [DictWriter.writerow]: the line, or the complaint about unknown columns *)
Definition dict_line (fieldnames : list string) (row : dict string) : exc string :=
  raise_if (negb (forallb (λ k, bool_decide (k ∈ fieldnames)) row.*1))
    (ValueError "dict contains fields not in fieldnames");;
  mret (csv_line (map (λ k, default "" (dget k row)) fieldnames)).

(** ** Reading values *)

Definition REQUIRED_METRIC_NAMES : list string :=
  ["requests_completed"; "bytes_sent"; "bytes_received"; "duration_ms"; "throughput_rps";
   "throughput_mib_s"; "latency_us_p50"; "latency_us_p95"; "latency_us_p99"; "latency_us_max"].
Definition REQUIRED_REPORT_METADATA : list string :=
  ["mode"; "endpoint_role"; "run_id"; "selected_path"; "workload_label"; "instrumentation"].
Definition STAGE_FIELDS : list string := ["count"; "nanos"; "millis"; "bytes"; "avg_nanos"].

Definition fail (message : string) : io unit := eprint message.

Definition summary_error (parts : list string) : exn :=
  SummaryError (cat ("phase=summarization " :: parts)).

Definition require_dict (value : json) (scope : string) : exc (dict json) :=
  of_option (summary_error [scope; " must be an object"]) (as_dict value).

Definition require_value (parent : dict json) (key scope : string) : exc json :=
  of_option (summary_error [scope; " missing "; key]) (dget key parent).

Definition require_str (parent : dict json) (key scope : string) : exc string :=
  value ← require_value parent key scope;
  of_option (summary_error [scope; "."; key; " must be a non-empty string"]) (nonempty_str value).

Definition require_bool (parent : dict json) (key scope : string) : exc bool :=
  value ← require_value parent key scope;
  match value with
  | JBool b => Ok b
  | _ => Err (summary_error [scope; "."; key; " must be a bool"])
  end.

Definition is_number (v : json) : bool :=
  match v with JInt _ | JFloat _ => true | _ => false end.

Definition require_number (parent : dict json) (key scope : string) : exc float :=
  value ← require_value parent key scope;
  raise_if (negb (is_number value)) (summary_error [scope; "."; key; " must be numeric"]);;
  to_float value.

Definition load_json_object (path : path) (phase scope : string) : io (dict json) :=
  let message what rest :=
    SummaryError (cat (["phase="; phase; " "; scope; " "; what; " artifact="; path_str path] ++ rest)) in
  raw ← catch (read_text path) (λ e,
    match e with
    | OSError err => io_raise (message "read failed" [": "; err])
    | e => io_raise e
    end);
  value ← catch (pure_ (json_loads raw)) (λ e,
    match e with
    | JSONDecodeError err => io_raise (message "parse failed" [": "; err])
    | e => io_raise e
    end);
  pure_ (of_option (message "root must be an object" []) (as_dict value)).

(** ** One report *)

Record loaded_report : Type := LoadedReport {
  lr_artifact : string;
  lr_metadata : dict json;
  lr_metrics : dict json;
  lr_stages : dict json;
  lr_total_nanos : float;
  lr_total_bytes : float;
}.

Definition stage_totals_step (stages : dict json) (acc : float * float) (stage_name : string)
    : exc (float * float) :=
  let scope := "stages." +:+ stage_name in
  let '(total_nanos, total_bytes) := acc in
  stage ← require_dict (get stage_name stages) scope;
  nanos ← require_number stage "nanos" scope;
  bytes ← require_number stage "bytes" scope;
  mret (f_add total_nanos nanos, f_add total_bytes bytes).

Definition stage_totals (stages : dict json) : exc (float * float) :=
  foldM (stage_totals_step stages) (f_zero, f_zero) REQUIRED_STAGE_NAMES.

Definition safe_ratio (numerator denominator : float) : option float :=
  if f_eqb denominator f_zero then None else Some (f_div numerator denominator).

Definition render_float (value : option float) (digits : nat) : string :=
  match value with None => "n/a" | Some f => format_fixed digits f end.

(** [metadata.field={actual!r} expected {expected!r}] *)
Definition expect_str (context section key actual expected : string) : exc unit :=
  raise_if (negb (bool_decide (actual = expected)))
    (SummaryError (cat [context; " "; section; "."; key; "="; repr_str actual; " expected ";
                        repr_str expected])).

Definition check_stage (context : string) (stages : dict json) (stage_name : string) : exc unit :=
  let scope := cat [context; " stages."; stage_name] in
  stage ← require_dict (get stage_name stages) scope;
  iterM (λ field, require_number stage field scope;; mret tt) STAGE_FIELDS.

(** The device of a hardware report, and none of a software report *)
Definition check_device (context : string) (metadata : dict json) (selected_path : string)
    : exc unit :=
  let device_path := get "accelerated_device_path" metadata in
  let error rest := SummaryError (cat [context; " metadata.accelerated_device_path must be "; rest]) in
  if bool_decide (selected_path = "idxd") then
    of_option (error "a non-empty string for idxd summaries") (nonempty_str device_path);; mret tt
  else
    raise_if (match device_path with JNull => false | _ => true end)
      (error "null for software summaries").

(** Everything [load_report] checks of a report that was read. *)
Definition check_report (context label endpoint_role instrumentation selected_path : string)
    (artifact : string) (report : dict json) : exc loaded_report :=
  metadata ← require_dict (get "metadata" report) (context +:+ " metadata");
  metrics ← require_dict (get "metrics" report) (context +:+ " metrics");
  stages ← require_dict (get "stages" report) (context +:+ " stages");
  iterM (λ field, require_str metadata field (context +:+ " metadata");; mret tt)
    REQUIRED_REPORT_METADATA;;
  iterM (λ field, require_number metrics field (context +:+ " metrics");; mret tt)
    REQUIRED_METRIC_NAMES;;
  enabled ← require_bool stages "enabled" (context +:+ " stages");
  let actual key := py_str (get key metadata) in
  expect_str context "metadata" "endpoint_role" (actual "endpoint_role") endpoint_role;;
  expect_str context "metadata" "workload_label" (actual "workload_label") label;;
  expect_str context "metadata" "instrumentation" (actual "instrumentation") instrumentation;;
  expect_str context "metadata" "selected_path" (actual "selected_path") selected_path;;
  raise_if (negb (eqb (bool_decide (instrumentation = "on")) enabled))
    (SummaryError (cat [context; " stages.enabled="; py_repr (JBool enabled); " expected ";
                        py_repr (JBool (bool_decide (instrumentation = "on")))]));;
  of_option (SummaryError (context +:+ " metadata.run_id must be a non-empty string"))
    (nonempty_str (get "run_id" metadata));;
  iterM (check_stage context stages) REQUIRED_STAGE_NAMES;;
  check_device context metadata selected_path;;
  '(nanos, bytes) ← stage_totals stages;
  mret (LoadedReport artifact metadata metrics stages nanos bytes).

Definition load_report (report_path : path)
    (label endpoint_role run_family instrumentation selected_path : string) : io loaded_report :=
  let context :=
    cat ["label="; label; " phase=summarization endpoint_role="; endpoint_role; " run_family=";
         run_family; " artifact="; path_str report_path] in
  report ← load_json_object report_path "summarization" context;
  pure_ (check_report context label endpoint_role instrumentation selected_path
           (path_str report_path) report).

(** ** The control floor *)

Record benchmark : Type := Benchmark {
  b_name : string;
  b_mean_ns : float;
  b_median_ns : float;
  b_std_dev_ns : float;
  b_sample_count : Z;
}.

Record control_floor : Type := ControlFloor {
  cf_path : string;
  cf_suite_name : json;
  cf_schema_version : json;
  cf_benchmarks : dict benchmark;
}.

Definition control_floor_error (parts : list string) : exn :=
  SummaryError (cat ("phase=control-floor-validation " :: parts)).

(** One expected benchmark of the control-floor summary *)
Definition benchmark_step (software_manifest_path : path) (benchmarks : dict json)
    (rendered : dict benchmark) (raw_name : json) : exc (dict benchmark) :=
  name ← of_option (control_floor_error ["software_manifest="; path_str software_manifest_path;
    " expected_benchmarks contains a non-string entry"]) (nonempty_str raw_name);
  value ← of_option (control_floor_error ["control_floor_summary missing benchmark="; name])
    (as_dict (get name benchmarks));
  let scope := "control_floor_summary.benchmarks." +:+ name in
  benchmark_name ← require_str value "benchmark_name" scope;
  raise_if (negb (bool_decide (benchmark_name = name)))
    (control_floor_error ["control_floor_summary benchmark="; name; " benchmark_name=";
       repr_str benchmark_name; " expected "; repr_str name]);;
  mean ← require_number value "mean_ns" scope;
  median ← require_number value "median_ns" scope;
  std_dev ← require_number value "std_dev_ns" scope;
  count ← require_number value "sample_count" scope;
  sample_count ← py_int (JFloat count);
  mret (dset name (Benchmark benchmark_name mean median std_dev sample_count) rendered).

(** ** Rows *)

(** One family's share of a row *)
Record side : Type := Side {
  s_artifact : string;
  s_run_id : json;
  s_rps : float;
  s_p50 : float;
  s_p95 : float;
  s_nanos : float;
  s_bytes : float;
}.

Record row : Type := Row {
  r_label : string;
  r_role : string;
  r_device : json;
  r_baseline : side;
  r_attribution : side;
  r_idxd : side;
}.

(** The comparisons of a row *)
Definition baseline_rps_delta (r : row) : float := f_sub (s_rps (r_idxd r)) (s_rps (r_baseline r)).
Definition baseline_ratio (r : row) : option float := safe_ratio (s_rps (r_idxd r)) (s_rps (r_baseline r)).
Definition baseline_p50_delta (r : row) : float := f_sub (s_p50 (r_idxd r)) (s_p50 (r_baseline r)).
Definition attribution_rps_delta (r : row) : float := f_sub (s_rps (r_idxd r)) (s_rps (r_attribution r)).
Definition attribution_ratio (r : row) : option float :=
  safe_ratio (s_rps (r_idxd r)) (s_rps (r_attribution r)).
Definition attribution_p50_delta (r : row) : float := f_sub (s_p50 (r_idxd r)) (s_p50 (r_attribution r)).
Definition attribution_nanos_delta (r : row) : float := f_sub (s_nanos (r_idxd r)) (s_nanos (r_attribution r)).

Definition option_float (v : option float) : json := match v with Some f => JFloat f | None => JNull end.

Definition side_json (s : side) : json := JObj
  [("artifact", JStr (s_artifact s)); ("run_id", s_run_id s); ("throughput_rps", JFloat (s_rps s));
   ("latency_us_p50", JFloat (s_p50 s)); ("latency_us_p95", JFloat (s_p95 s));
   ("stage_nanos_total", JFloat (s_nanos s)); ("stage_bytes_total", JFloat (s_bytes s))].

Definition row_json (r : row) : json := JObj
  [("workload_label", JStr (r_label r)); ("endpoint_role", JStr (r_role r));
   ("device_path", r_device r); ("software_baseline", side_json (r_baseline r));
   ("software_attribution", side_json (r_attribution r)); ("idxd_attribution", side_json (r_idxd r));
   ("comparisons", JObj
     [("throughput_baseline", JObj
        [("idxd_minus_software_baseline_rps", JFloat (baseline_rps_delta r));
         ("idxd_vs_software_baseline_throughput_ratio", option_float (baseline_ratio r));
         ("idxd_minus_software_baseline_latency_us_p50", JFloat (baseline_p50_delta r))]);
      ("attribution", JObj
        [("idxd_minus_software_attribution_rps", JFloat (attribution_rps_delta r));
         ("idxd_vs_software_attribution_throughput_ratio", option_float (attribution_ratio r));
         ("idxd_minus_software_attribution_latency_us_p50", JFloat (attribution_p50_delta r));
         ("idxd_minus_software_attribution_stage_nanos_total",
            JFloat (attribution_nanos_delta r))])])].

(** The reports of a run, by family and by workload and endpoint *)
Abbreviation reports := (dict (gmap (string * string) loaded_report)).

Definition key_repr (key : string * string) : string :=
  cat ["("; repr_str key.1; ", "; repr_str key.2; ")"].

(** [family_reports[family][key]] *)
Definition report_of (rs : reports) (family : string) (key : string * string) : exc loaded_report :=
  family_reports ← ditem family rs;
  of_option (KeyError (key_repr key)) (family_reports !! key).

Definition metric (r : loaded_report) (key : string) : exc float :=
  v ← ditem key (lr_metrics r); to_float v.

Definition side_of (r : loaded_report) (rps p50 : float) : exc side :=
  run_id ← ditem "run_id" (lr_metadata r);
  p95 ← metric r "latency_us_p95";
  mret (Side (lr_artifact r) run_id rps p50 p95 (lr_total_nanos r) (lr_total_bytes r)).

(** The row of one workload and endpoint *)
Definition build_row (rs : reports) (label endpoint_role : string) : exc row :=
  let key := (label, endpoint_role) in
  baseline ← report_of rs "software_baseline" key;
  sw_on ← report_of rs "software_attribution" key;
  idxd ← report_of rs "idxd_attribution" key;
  device_path ← ditem "accelerated_device_path" (lr_metadata idxd);
  baseline_rps ← metric baseline "throughput_rps";
  sw_on_rps ← metric sw_on "throughput_rps";
  idxd_rps ← metric idxd "throughput_rps";
  baseline_p50 ← metric baseline "latency_us_p50";
  sw_on_p50 ← metric sw_on "latency_us_p50";
  idxd_p50 ← metric idxd "latency_us_p50";
  baseline_side ← side_of baseline baseline_rps baseline_p50;
  sw_on_side ← side_of sw_on sw_on_rps sw_on_p50;
  idxd_side ← side_of idxd idxd_rps idxd_p50;
  mret (Row label endpoint_role device_path baseline_side sw_on_side idxd_side).

(** ** The three documents *)

Definition CSV_COLUMNS : list string :=
  ["workload_label"; "endpoint_role"; "device_path"; "software_baseline_run_id";
   "software_attribution_run_id"; "idxd_attribution_run_id"; "software_baseline_throughput_rps";
   "software_attribution_throughput_rps"; "idxd_attribution_throughput_rps";
   "idxd_vs_software_baseline_throughput_ratio"; "idxd_vs_software_attribution_throughput_ratio";
   "software_baseline_latency_us_p50"; "software_attribution_latency_us_p50";
   "idxd_attribution_latency_us_p50"; "software_attribution_stage_nanos_total";
   "idxd_attribution_stage_nanos_total"; "idxd_minus_software_attribution_stage_nanos_total"].

Definition csv_cells (r : row) : dict string :=
  let fixed digits f := render_float (Some f) digits in
  [("workload_label", r_label r); ("endpoint_role", r_role r); ("device_path", csv_value (r_device r));
   ("software_baseline_run_id", csv_value (s_run_id (r_baseline r)));
   ("software_attribution_run_id", csv_value (s_run_id (r_attribution r)));
   ("idxd_attribution_run_id", csv_value (s_run_id (r_idxd r)));
   ("software_baseline_throughput_rps", fixed 3%nat (s_rps (r_baseline r)));
   ("software_attribution_throughput_rps", fixed 3%nat (s_rps (r_attribution r)));
   ("idxd_attribution_throughput_rps", fixed 3%nat (s_rps (r_idxd r)));
   ("idxd_vs_software_baseline_throughput_ratio", render_float (baseline_ratio r) 3);
   ("idxd_vs_software_attribution_throughput_ratio", render_float (attribution_ratio r) 3);
   ("software_baseline_latency_us_p50", fixed 0%nat (s_p50 (r_baseline r)));
   ("software_attribution_latency_us_p50", fixed 0%nat (s_p50 (r_attribution r)));
   ("idxd_attribution_latency_us_p50", fixed 0%nat (s_p50 (r_idxd r)));
   ("software_attribution_stage_nanos_total", fixed 0%nat (s_nanos (r_attribution r)));
   ("idxd_attribution_stage_nanos_total", fixed 0%nat (s_nanos (r_idxd r)));
   ("idxd_minus_software_attribution_stage_nanos_total", fixed 0%nat (attribution_nanos_delta r))].

Definition table_row (cells : list string) : string := cat ["| "; join " | " cells; " |"].

Definition claim_row (r : row) : string :=
  table_row
    [r_label r; r_role r; render_float (Some (s_rps (r_baseline r))) 3;
     render_float (Some (s_rps (r_attribution r))) 3; render_float (Some (s_rps (r_idxd r))) 3;
     render_float (baseline_ratio r) 3; render_float (attribution_ratio r) 3;
     render_float (Some (s_nanos (r_attribution r))) 0; render_float (Some (s_nanos (r_idxd r))) 0;
     py_str (r_device r)].

Definition benchmark_row (b : string * benchmark) : string :=
  table_row
    [b.1; render_float (Some (b_mean_ns b.2)) 3; render_float (Some (b_median_ns b.2)) 3;
     render_float (Some (b_std_dev_ns b.2)) 3; pretty (b_sample_count b.2)].

(** [control_floor["benchmarks"][name]] for the names in order *)
Definition sorted_benchmarks (d : dict benchmark) : list (string * benchmark) :=
  omap (λ name, (λ b, (name, b)) <$> dget name d) (sorted_strings d.*1).

Definition claim_table (rows : list row) (cf : control_floor) : string :=
  join newline
    (["# S04 ordinary versus IDXD claim table"; ""; "## Workload and endpoint comparisons"; "";
      "| workload_label | endpoint_role | sw baseline rps | sw attribution rps | idxd attribution rps | idxd/sw baseline | idxd/sw attribution | sw attribution stage ns | idxd attribution stage ns | device_path |";
      "| --- | --- | ---: | ---: | ---: | ---: | ---: | ---: | ---: | --- |"]
     ++ map claim_row rows
     ++ [""; "## Async control-floor reference"; "";
         "| benchmark | mean_ns | median_ns | std_dev_ns | sample_count |";
         "| --- | ---: | ---: | ---: | ---: |"]
     ++ map benchmark_row (sorted_benchmarks (cf_benchmarks cf))) +:+ newline.

Definition benchmark_json (b : benchmark) : json := JObj
  [("benchmark_name", JStr (b_name b)); ("mean_ns", JFloat (b_mean_ns b));
   ("median_ns", JFloat (b_median_ns b)); ("std_dev_ns", JFloat (b_std_dev_ns b));
   ("sample_count", JInt (b_sample_count b))].

Definition control_floor_json (cf : control_floor) : json := JObj
  [("path", JStr (cf_path cf)); ("suite_name", cf_suite_name cf);
   ("schema_version", cf_schema_version cf);
   ("benchmarks", JObj (prod_map id benchmark_json <$> cf_benchmarks cf))].

Definition build_summary_document (now_us : Z) (manifest_path run_root : path) (m : manifest)
    (rows : list row) (cf : control_floor) (outputs : dict path) : json := JObj
  [("schema_version", JInt 1); ("generated_at_utc", JStr (iso_utc now_us));
   ("manifest_path", JStr (path_str manifest_path)); ("run_root", JStr (path_str run_root));
   ("pairing_keys", JArr (JStr <$> sc_pairing_keys (m_scope m)));
   ("summary_outputs", JObj (prod_map id (λ p, JStr (path_str p)) <$> outputs));
   ("control_floor", control_floor_json cf); ("rows", JArr (row_json <$> rows))].

Definition write_json (p : path) (value : json) : io unit :=
  mkdir_p (path_parent p);;
  write_utf8 p (dumps_indent value +:+ newline).

Definition write_csv (p : path) (rows : list row) : io unit :=
  mkdir_p (path_parent p);;
  write_utf8 p "";;
  append_utf8 p (csv_line CSV_COLUMNS);;
  iterM (λ r, line ← pure_ (dict_line CSV_COLUMNS (csv_cells r)); append_utf8 p line) rows.

Definition write_claim_table (p : path) (rows : list row) (cf : control_floor) : io unit :=
  mkdir_p (path_parent p);;
  write_utf8 p (claim_table rows cf).

(** ** The program *)

Section summarizer.
(** The clock of [datetime.now(timezone.utc)] in microseconds, the size of a
    directory, and the root of the checkout *)
Context (now_us : world → Z) (dir_size : list string → Z) (repo_root : path).

Definition resolve_run_root (m : manifest) (run_root_override : option string) (w : world) : path :=
  resolve (w_cwd w) (resolve_repo_path repo_root
    match run_root_override with
    | Some s => if bool_decide (s = "") then m_run_root m else s
    | None => m_run_root m
    end).

Definition output_paths (m : manifest) (run_root : path) : dict path :=
  map (λ '(key, relpath), (key, path_div run_root relpath)) (m_outputs m).

Definition load_control_floor (m : manifest) : io control_floor :=
  raw ← pure_ (ditem "control_floor_summary" (m_inputs m));
  let control_floor_path := resolve_repo_path repo_root raw in
  summary ← load_json_object control_floor_path "control-floor-validation"
    ("control_floor_summary=" +:+ path_str control_floor_path);
  benchmarks ← pure_ (require_dict (get "benchmarks" summary) "control_floor_summary.benchmarks");
  raw ← pure_ (ditem "software_manifest" (m_inputs m));
  let software_manifest_path := resolve_repo_path repo_root raw in
  software_manifest ← load_json_object software_manifest_path "control-floor-validation"
    ("software_manifest=" +:+ path_str software_manifest_path);
  expected_names ← pure_ (of_option (control_floor_error
    ["software_manifest="; path_str software_manifest_path; " missing expected_benchmarks"])
    (nonempty_list (get "expected_benchmarks" software_manifest)));
  rendered ← pure_ (foldM (benchmark_step software_manifest_path benchmarks) [] expected_names);
  mret (ControlFloor (path_str control_floor_path) (get "suite_name" summary)
          (get "schema_version" summary) rendered).

Definition load_entry (run_root : path) (f : family)
    (family_reports : gmap (string * string) loaded_report) (entry : endpoint_report)
    : io (gmap (string * string) loaded_report) :=
  artifact_path ← gets (λ w, resolve (w_cwd w) (path_div run_root (er_artifact entry)));
  report ← load_report artifact_path (er_label entry) (er_role entry) (fa_run_family f)
             (fa_instrumentation f) (fa_selected_path f);
  mret (<[(er_label entry, er_role entry) := report]> family_reports).

Definition load_family (run_root : path) (loaded : reports) (f : family) : io reports :=
  family_reports ← foldM (load_entry run_root f) ∅ (fa_reports f);
  mret (dset (fa_run_family f) family_reports loaded).

(** Client and server of a workload report the same run. *)
Definition check_pair (run_root : path) (loaded : reports) (f : family) (label : string) : exc unit :=
  client ← report_of loaded (fa_run_family f) (label, "client");
  server ← report_of loaded (fa_run_family f) (label, "server");
  client_run_id ← ditem "run_id" (lr_metadata client);
  server_run_id ← ditem "run_id" (lr_metadata server);
  raise_if (negb (py_eq client_run_id server_run_id))
    (SummaryError (cat
      ["label="; label; " phase=pairing-mismatch endpoint_role=client/server run_family=";
       fa_run_family f; " artifact="; path_str (path_div run_root (fa_selected_path f));
       " run_id mismatch client="; py_repr client_run_id; " server="; py_repr server_run_id])).

Definition load_family_reports (m : manifest) (run_root : path) : io reports :=
  loaded ← foldM (load_family run_root) [] (m_families m);
  pure_ (iterM (λ f, iterM (check_pair run_root loaded f) (sc_labels (m_scope m))) (m_families m));;
  mret loaded.

Definition row_step (rs : reports) (run_root : path) (rows : list row) (key : string * string)
    : io (list row) :=
  r ← pure_ (build_row rs key.1 key.2);
  print (join " "
    ["phase=summarization"; cat ["label="; key.1]; cat ["endpoint_role="; key.2];
     "instrumentation=baseline+attribution"; cat ["run_root="; path_str run_root];
     cat ["device_path="; py_str (r_device r)]]);;
  mret (rows ++ [r]).

Definition row_keys (m : manifest) : list (string * string) :=
  label ← sc_labels (m_scope m); endpoint_role ← EXPECTED_ENDPOINT_ROLES; [(label, endpoint_role)].

Definition build_rows (m : manifest) (run_root : path) (rs : reports) : io (list row) :=
  foldM (row_step rs run_root) [] (row_keys m).

Definition verify_output (output : string * path) : io unit :=
  let '(key, path) := output in
  let error what := SummaryError (cat ["phase=output-validation "; what; " "; key;
                                       " output artifact="; path_str path]) in
  present ← gets (λ w, path_exists w path);
  io_raise_if (negb present) (error "missing");;
  size ← (λ w, (stat_size dir_size w path, w));
  io_raise_if (size =? 0) (error "empty").

Definition verify_outputs (outputs : dict path) : io unit := iterM verify_output outputs.

Definition summarize (manifest_path : path) (run_root_override : option string) (verify_only : bool)
    : io (dict path) :=
  m ← load_manifest repo_root manifest_path;
  run_root ← gets (resolve_run_root m run_root_override);
  let outputs := output_paths m run_root in
  json_path ← pure_ (ditem "comparison_summary_json" outputs);
  csv_path ← pure_ (ditem "ordinary_vs_idxd_csv" outputs);
  table_path ← pure_ (ditem "claim_table_md" outputs);
  let paths := [cat ["summary_path="; path_str json_path]; cat ["csv_path="; path_str csv_path];
                cat ["claim_table_path="; path_str table_path]] in
  print (join " " (["phase=summarization-start"; cat ["manifest="; path_str manifest_path];
                    cat ["run_root="; path_str run_root]] ++ paths));;
  cf ← load_control_floor m;
  rs ← load_family_reports m run_root;
  rows ← build_rows m run_root rs;
  now ← gets now_us;
  write_json json_path (build_summary_document now manifest_path run_root m rows cf outputs);;
  write_csv csv_path rows;;
  write_claim_table table_path rows cf;;
  verify_outputs outputs;;
  print (join " " (["phase=summarization-done"; cat ["run_root="; path_str run_root];
                    cat ["verify_only="; if verify_only then "true" else "false"]] ++ paths ++
                   [cat ["control_floor_path="; cf_path cf]]));;
  mret outputs.

(** The parsed command line *)
Record arguments : Type := Arguments {
  a_manifest : string;
  a_run_root : option string;
  a_verify_only : bool;
}.

Definition main (args : arguments) : io Z :=
  catch
    (manifest_path ← gets (λ w, resolve (w_cwd w) (parse_path (a_manifest args)));
     summarize manifest_path (a_run_root args) (a_verify_only args);;
     mret 0)
    (λ e,
      match e with
      | ManifestError err | SummaryError err => fail err;; mret 1
      | e => io_raise e
      end).
End summarizer.
End Summarize.
