(* ===== verification/SummarizeSpec.v ===== *)
(** * What the summarizer guarantees

    The theorems about summarize_s04_claim_package.py: the CSV file reads back
    as the rows, exit code 0 means three documents made of validated reports,
    and which exceptions can escape. *)

From Stdlib Require Import Ascii SpecFloat.
From S2P Require Import Prelude PyFloat PyVal PyPath Json JsonOut World Files RunnerCommon.
From S2P Require Import Contract ContractSpec Fixtures Summarize.
Import Summarize.

Local Open Scope Z_scope.

(** ** Reading CSV *)

Inductive csv_state : Type := StartRecord | StartField | InField | InQuoted | QuoteInQuoted.

Definition csv_record (st : csv_state) (field : string) (fields : list string) : list string :=
  match st with StartRecord => [] | _ => fields ++ [field] end.

(** The default dialect of [csv.reader] *)
Fixpoint csv_go (st : csv_state) (field : string) (fields : list string) (s : string)
    : list (list string) :=
  match s with
  | "" => match st with StartRecord => [] | _ => [fields ++ [field]] end
  | String c s =>
      match st with
      | InQuoted =>
          if bool_decide (c = quote_char) then csv_go QuoteInQuoted field fields s
          else csv_go InQuoted (field +:+ String c "") fields s
      | _ =>
          if bool_decide (c = quote_char) then
            match st with
            | QuoteInQuoted => csv_go InQuoted (field +:+ String c "") fields s
            | InField => csv_go InField (field +:+ String c "") fields s
            | _ => csv_go InQuoted "" fields s
            end
          else if bool_decide (c = ","%char) then csv_go StartField "" (fields ++ [field]) s
          else if bool_decide (c = lf) then
            csv_record st field fields :: csv_go StartRecord "" [] s
          else if bool_decide (c = cr) then
            csv_record st field fields ::
            match s with
            | "" => []
            | String d s' =>
                if bool_decide (d = lf) then csv_go StartRecord "" [] s'
                else csv_go StartRecord "" [] s
            end
          else csv_go InField (field +:+ String c "") fields s
      end
  end.

Definition csv_read (text : string) : list (list string) := csv_go StartRecord "" [] text.

Example csv_read_example :
  csv_read (csv_line ["a"; "b,c"; String quote_char ""; ""] +:+ csv_line ["x"; "y"]) =
  [["a"; "b,c"; String quote_char ""; ""]; ["x"; "y"]].
Proof. vm_compute. reflexivity. Qed.

Lemma app_char_str s c t : s +:+ String c t = (s +:+ String c "") +:+ t.
Proof. by rewrite app_assoc_str. Qed.

Lemma csv_special_false c :
  csv_special c = false → c ≠ quote_char ∧ c ≠ ","%char ∧ c ≠ lf ∧ c ≠ cr.
Proof. intros H%bool_decide_eq_false. set_solver. Qed.

(** Characters that are not special are added to the field. *)
Lemma csv_go_plain s st field fields t :
  st ≠ InQuoted → str_all (λ c, negb (csv_special c)) s = true →
  csv_go st field fields (s +:+ t) =
  csv_go (match s with "" => st | _ => InField end) (field +:+ s) fields t.
Proof.
  revert st field. induction s as [|c s IH]; intros st field Hst Hall.
  - by rewrite app_nil_r_str.
  - simpl in Hall. apply andb_true_iff in Hall as [Hc%negb_true_iff%csv_special_false Hall].
    destruct Hc as (H1 & H2 & H3 & H4). rewrite app_cons_str, (app_char_str field c s). simpl.
    rewrite !bool_decide_false by done.
    destruct st; try done; rewrite IH by done; by destruct s.
Qed.

(** A quoted field ends at a quote that is not doubled. *)
Lemma csv_go_quoted s field fields t :
  csv_go InQuoted field fields (csv_double s +:+ String quote_char t) =
  csv_go QuoteInQuoted (field +:+ s) fields t.
Proof.
  revert field. induction s as [|c s IH]; intros field.
  - by rewrite app_nil_r_str.
  - rewrite (app_char_str field c s). simpl. case_bool_decide as Hc.
    + subst c. rewrite !app_cons_str. simpl. by rewrite IH.
    + rewrite app_cons_str. simpl. rewrite bool_decide_false by done. by rewrite IH.
Qed.

(** A written field is read, up to a separator. *)
Lemma csv_go_field f st fields t :
  st = StartRecord ∨ st = StartField →
  ∃ st', st' ≠ InQuoted ∧ (st = StartField → st' ≠ StartRecord) ∧
    csv_go st "" fields (csv_field f +:+ t) = csv_go st' f fields t.
Proof.
  intros Hst. unfold csv_field. destruct (str_all _ f) eqn:Hall.
  - eexists. split_and!; [| |rewrite csv_go_plain by (naive_solver || done); reflexivity];
      destruct f; naive_solver.
  - exists QuoteInQuoted. split_and!; [done..|].
    rewrite app_cons_str, app_assoc_str, app_cons_str, app_nil_l_str.
    transitivity (csv_go InQuoted "" fields (csv_double f +:+ String quote_char t)).
    + by destruct Hst as [->| ->].
    + by rewrite csv_go_quoted.
Qed.

Lemma csv_go_comma st f fields t :
  st ≠ InQuoted → csv_go st f fields (String "," t) = csv_go StartField "" (fields ++ [f]) t.
Proof. by destruct st. Qed.

Lemma csv_go_crlf st f fields t :
  st ≠ InQuoted → st ≠ StartRecord →
  csv_go st f fields (String cr (String lf t)) = (fields ++ [f]) :: csv_go StartRecord "" [] t.
Proof. by destruct st. Qed.

(** The rest of a line, after its first field *)
Lemma csv_go_fields fs f fields t :
  csv_go StartField "" fields (join "," (map csv_field (f :: fs)) +:+ String cr (String lf t)) =
  (fields ++ f :: fs) :: csv_go StartRecord "" [] t.
Proof.
  revert f fields. induction fs as [|g fs IH]; intros f fields; cbn [map join].
  - destruct (csv_go_field f StartField fields (String cr (String lf t))) as (st & ? & ? & ->);
      [by right|]. apply csv_go_crlf; auto.
  - rewrite !app_assoc_str.
    edestruct (csv_go_field f StartField fields) as (st & ? & ? & ->); [by right|].
    rewrite app_cons_str, app_nil_l_str, csv_go_comma by done.
    rewrite (IH g). by rewrite <-app_assoc.
Qed.

Lemma csv_go_line f g fs t :
  csv_go StartRecord "" [] (csv_line (f :: g :: fs) +:+ t) =
  (f :: g :: fs) :: csv_go StartRecord "" [] t.
Proof.
  unfold csv_line. cbn [map join]. rewrite !app_assoc_str.
  edestruct (csv_go_field f StartRecord []) as (st & ? & _ & ->); [by left|].
  rewrite app_cons_str, app_nil_l_str, csv_go_comma by done.
  apply (csv_go_fields fs g [f]).
Qed.

(** ** The CSV document *)

Definition csv_text (rows : list row) : string :=
  csv_line CSV_COLUMNS +:+ cat (map (λ r, csv_line (csv_cells r).*2) rows).

Lemma dict_line_cells r : dict_line CSV_COLUMNS (csv_cells r) = Ok (csv_line (csv_cells r).*2).
Proof. reflexivity. Qed.

Lemma csv_read_text rows : csv_read (csv_text rows) = CSV_COLUMNS :: map (λ r, (csv_cells r).*2) rows.
Proof.
  unfold csv_read, csv_text. unfold CSV_COLUMNS at 1. rewrite csv_go_line. f_equal.
  induction rows as [|r rows IH]; [done|].
  unfold cat. cbn [map foldr]. unfold csv_cells at 1. cbn [fmap list_fmap snd].
  rewrite csv_go_line. f_equal. exact IH.
Qed.

Lemma write_rows_reads p rows b w w' :
  file_bytes w p = Ok b →
  iterM (λ r, line ← pure_ (dict_line CSV_COLUMNS (csv_cells r)); append_utf8 p line) rows w =
    (Ok tt, w') →
  file_bytes w' p = Ok (b +:+ cat (map (λ r, csv_line (csv_cells r).*2) rows)).
Proof.
  revert b w. induction rows as [|r rows IH]; intros b w Hb.
  - intros [= <-]. simpl. by rewrite app_nil_r_str.
  - intros Hrun. apply io_bind_Ok in Hrun as ([] & w1 & Hrow & Hrun).
    apply io_bind_pure in Hrow as (line & Hline & Hrow).
    rewrite dict_line_cells in Hline. injection Hline as <-.
    apply (IH (b +:+ csv_line (csv_cells r).*2) w1) in Hrun.
    + rewrite Hrun. unfold cat. cbn [map foldr]. by rewrite app_assoc_str.
    + by eapply append_utf8_reads.
Qed.

Lemma write_csv_reads p rows w w' :
  write_csv p rows w = (Ok tt, w') → file_bytes w' p = Ok (csv_text rows).
Proof.
  unfold write_csv. intros Hrun.
  apply io_bind_Ok in Hrun as ([] & w1 & _ & Hrun).
  apply io_bind_Ok in Hrun as ([] & w2 & Hempty%write_utf8_Ok%write_text_reads & Hrun).
  apply io_bind_Ok in Hrun as ([] & w3 & Hhead & Hrun).
  apply (append_utf8_reads _ _ _ _ _ Hempty) in Hhead. rewrite app_nil_l_str in Hhead.
  by apply (write_rows_reads p rows _ _ _ Hhead).
Qed.

Lemma write_json_reads p v w w' :
  write_json p v w = (Ok tt, w') → file_bytes w' p = Ok (dumps_indent v +:+ newline).
Proof.
  intros Hrun. apply io_bind_Ok in Hrun as ([] & w1 & _ & Hrun%write_utf8_Ok).
  by eapply write_text_reads.
Qed.

Lemma write_claim_table_reads p rows cf w w' :
  write_claim_table p rows cf w = (Ok tt, w') → file_bytes w' p = Ok (claim_table rows cf).
Proof.
  intros Hrun. apply io_bind_Ok in Hrun as ([] & w1 & _ & Hrun%write_utf8_Ok).
  by eapply write_text_reads.
Qed.

Lemma write_csv_keeps p q rows : apart p q → preserves (keeps p) (write_csv q rows).
Proof. intros. unfold write_csv. preserves_tac. Qed.

Lemma write_claim_table_keeps p q rows cf : apart p q → preserves (keeps p) (write_claim_table q rows cf).
Proof. intros. unfold write_claim_table. preserves_tac. Qed.

#[export] Hint Resolve write_csv_keeps write_claim_table_keeps : preserves.

(** C20: the CSV file reads back, with the dialect it is written in, as the
    column names followed by the cells of every row, whatever characters run
    ids and device paths contain. *)
Theorem write_csv_roundtrip p rows w w' :
  write_csv p rows w = (Ok tt, w') →
  ∃ text, file_bytes w' p = Ok text ∧
    csv_read text = CSV_COLUMNS :: map (λ r, (csv_cells r).*2) rows.
Proof. intros Hrun%write_csv_reads. eexists. split; [exact Hrun|apply csv_read_text]. Qed.

Definition sample_side : side :=
  Side "a.json" (JStr "run,1") (f_normalize 5 0) (f_normalize 2 0) (f_normalize 3 0) f_zero f_zero.
Definition sample_row : row :=
  Row "l" "client" (JStr (cat ["wq"; String quote_char ""; newline])) sample_side sample_side sample_side.
Definition sample_path : path := parse_path "/repo/out/rows.csv".

Lemma write_csv_roundtrip_witness :
  ∃ text, file_bytes (write_csv sample_path [sample_row] tracked_world).2 sample_path = Ok text ∧
    csv_read text = [CSV_COLUMNS; (csv_cells sample_row).*2].
Proof.
  apply (write_csv_roundtrip sample_path [sample_row] tracked_world
    (write_csv sample_path [sample_row] tracked_world).2).
  apply io_run_fst. vm_compute. reflexivity.
Defined.

(** ** Validated reports *)

(** A number of a JSON object, and its value as a double *)
Definition number (d : dict json) (key : string) (f : float) : Prop :=
  ∃ v, dget key d = Some v ∧ is_number v = true ∧ to_float v = Ok f.

Definition text (d : dict json) (key s : string) : Prop := dget key d = Some (JStr s) ∧ s ≠ "".

Definition stage_numbers (stages : dict json) (name : string) : Prop :=
  ∃ d, get name stages = JObj d ∧ Forall (λ field, ∃ f, number d field f) STAGE_FIELDS.

(** The report of one endpoint: its identity is the one the package plans, its
    metrics and stages are numbers, instrumentation is on exactly when the
    stages are enabled, and it names a device exactly when it is a hardware
    report. *)
Record validated (label role instrumentation selected_path : string) (report : dict json)
    (lr : loaded_report) : Prop := {
  v_sections : get "metadata" report = JObj (lr_metadata lr) ∧
    get "metrics" report = JObj (lr_metrics lr) ∧ get "stages" report = JObj (lr_stages lr);
  v_metadata : Forall (λ key, ∃ s, text (lr_metadata lr) key s) REQUIRED_REPORT_METADATA;
  v_identity : text (lr_metadata lr) "endpoint_role" role ∧ text (lr_metadata lr) "workload_label" label ∧
    text (lr_metadata lr) "instrumentation" instrumentation ∧
    text (lr_metadata lr) "selected_path" selected_path;
  v_metrics : Forall (λ key, ∃ f, number (lr_metrics lr) key f) REQUIRED_METRIC_NAMES;
  v_enabled : dget "enabled" (lr_stages lr) = Some (JBool (bool_decide (instrumentation = "on")));
  v_stages : Forall (stage_numbers (lr_stages lr)) REQUIRED_STAGE_NAMES;
  v_device : if bool_decide (selected_path = "idxd")
    then ∃ s, text (lr_metadata lr) "accelerated_device_path" s
    else get "accelerated_device_path" (lr_metadata lr) = JNull;
  v_totals : stage_totals (lr_stages lr) = Ok (lr_total_nanos lr, lr_total_bytes lr);
}.

Lemma require_dict_Ok v scope d : require_dict v scope = Ok d → v = JObj d.
Proof. unfold require_dict. intros H. inv_ok. by apply as_dict_Some. Qed.

Lemma require_str_Ok d key scope s : require_str d key scope = Ok s → text d key s.
Proof.
  unfold require_str, require_value. intros H. inv_ok.
  match goal with H : nonempty_str _ = Some _ |- _ => apply nonempty_str_Some in H as [-> ?] end. done.
Qed.

Lemma require_number_Ok d key scope f : require_number d key scope = Ok f → number d key f.
Proof.
  unfold require_number, require_value. intros H. inv_ok.
  match goal with H : negb _ = false |- _ => apply negb_false_iff in H end. by eexists.
Qed.

Lemma get_text d key s : text d key s → get key d = JStr s.
Proof. intros [H _]. unfold get. by rewrite H. Qed.

Lemma require_strs_Ok d scope keys :
  iterM (λ key, require_str d key scope;; mret tt) keys = Ok tt →
  Forall (λ key, ∃ s, text d key s) keys.
Proof.
  rewrite iterM_Ok. intros Hall. eapply Forall_impl; [exact Hall|]. intros key H.
  apply bind_Ok in H as (s & H%require_str_Ok & _). by exists s.
Qed.

Lemma require_numbers_Ok d scope keys :
  iterM (λ key, require_number d key scope;; mret tt) keys = Ok tt →
  Forall (λ key, ∃ f, number d key f) keys.
Proof.
  rewrite iterM_Ok. intros Hall. eapply Forall_impl; [exact Hall|]. intros key H.
  apply bind_Ok in H as (s & H%require_number_Ok & _). by exists s.
Qed.

Lemma expect_str_Ok context section key d expected :
  expect_str context section key (py_str (get key d)) expected = Ok tt →
  (∃ s, text d key s) → text d key expected.
Proof.
  unfold expect_str. intros H [s Hs]. inv_ok. rewrite (get_text _ _ _ Hs). exact Hs.
Qed.

Lemma summary_stages_Ok context stages names :
  iterM (check_stage context stages) names = Ok tt → Forall (stage_numbers stages) names.
Proof.
  rewrite iterM_Ok. intros Hall. eapply Forall_impl; [exact Hall|]. intros name H. unfold check_stage in H.
  apply bind_Ok in H as (d & Hd%require_dict_Ok & H%require_numbers_Ok). by exists d.
Qed.

Lemma summary_device_Ok context md selected_path :
  check_device context md selected_path = Ok tt →
  if bool_decide (selected_path = "idxd") then ∃ s, text md "accelerated_device_path" s
  else get "accelerated_device_path" md = JNull.
Proof.
  unfold check_device. destruct (bool_decide _); intros H; inv_ok.
  - match goal with H : nonempty_str _ = Some ?s |- _ => apply nonempty_str_Some in H as [Hg ?] end.
    unfold get in Hg. destruct (dget _ md) eqn:Hd; simpl in Hg; [|done]. subst. by eexists.
  - by destruct (get _ md).
Qed.

Lemma summary_report_Ok context label role instrumentation selected_path artifact report lr :
  check_report context label role instrumentation selected_path artifact report = Ok lr →
  lr_artifact lr = artifact ∧ validated label role instrumentation selected_path report lr.
Proof.
  unfold check_report. intros H.
  apply bind_Ok in H as (md & Hmd%require_dict_Ok & H).
  apply bind_Ok in H as (mt & Hmt%require_dict_Ok & H).
  apply bind_Ok in H as (st & Hst%require_dict_Ok & H).
  apply bind_Ok in H as ([] & Hstrs%require_strs_Ok & H).
  apply bind_Ok in H as ([] & Hnums%require_numbers_Ok & H).
  apply bind_Ok in H as (enabled & Hen & H). cbv zeta in H.
  pose proof Hstrs as Hf. rewrite Forall_forall in Hf.
  apply bind_Ok in H as ([] & Hrole%expect_str_Ok & H); [|apply Hf; set_solver].
  apply bind_Ok in H as ([] & Hlabel%expect_str_Ok & H); [|apply Hf; set_solver].
  apply bind_Ok in H as ([] & Hins%expect_str_Ok & H); [|apply Hf; set_solver].
  apply bind_Ok in H as ([] & Hsel%expect_str_Ok & H); [|apply Hf; set_solver].
  apply bind_Ok in H as ([] & Hon & H). apply raise_if_Ok in Hon. apply negb_false_iff, eqb_prop in Hon.
  apply bind_Ok in H as (rid & _ & H).
  apply bind_Ok in H as ([] & Hstages%summary_stages_Ok & H).
  apply bind_Ok in H as ([] & Hdev%summary_device_Ok & H).
  apply bind_Ok in H as ([nanos bytes] & Htot & H). injection H as <-.
  split; [done|]. split; simpl; try done.
  apply bind_Ok in Hen as (v & Hv & Hen). unfold require_value in Hv. apply of_option_Ok in Hv.
  destruct v; simplify_eq. by rewrite Hv.
Qed.

(** ** The reports of a run *)

Lemma load_json_object_Ok p phase scope w d w' :
  load_json_object p phase scope w = (Ok d, w') → w' = w ∧ json_file w p = Some (JObj d).
Proof.
  unfold load_json_object. cbv zeta. intros Hrun.
  apply io_bind_Ok in Hrun as (s & w1 & Hread & Hrun). unfold catch, read_text in Hread.
  apply io_bind_Ok in Hrun as (v & w2 & Hparse & Hrun). unfold catch, pure_ in Hparse.
  apply io_pure_Ok in Hrun as [Hd%of_option_Ok%as_dict_Some ->]. unfold json_file.
  destruct (file_bytes w p ≫= decode_text) as [s'|[]]; simplify_eq/=.
  destruct (json_loads s) as [v'|[]]; by simplify_eq/=.
Qed.

Definition entry_path (w : world) (run_root : path) (e : endpoint_report) : path :=
  resolve (w_cwd w) (path_div run_root (er_artifact e)).

(** The file a report of the package names holds [lr]. *)
Definition report_loaded (w : world) (run_root : path) (f : family) (e : endpoint_report)
    (lr : loaded_report) : Prop :=
  lr_artifact lr = path_str (entry_path w run_root e) ∧
  ∃ report, json_file w (entry_path w run_root e) = Some (JObj report) ∧
    validated (er_label e) (er_role e) (fa_instrumentation f) (fa_selected_path f) report lr.

Lemma load_entry_Ok run_root f acc e w acc' w' :
  load_entry run_root f acc e w = (Ok acc', w') →
  w' = w ∧ ∃ lr, acc' = <[report_pair e := lr]> acc ∧ report_loaded w run_root f e lr.
Proof.
  unfold load_entry. rewrite io_gets_bind. intros Hrun.
  apply io_bind_Ok in Hrun as (lr & w1 & Hload & Hrun). apply io_mret_Ok in Hrun as [<- ->].
  unfold load_report in Hload. cbv zeta in Hload.
  apply io_bind_Ok in Hload as (report & w2 & [-> Hfile]%load_json_object_Ok & Hload).
  apply io_pure_Ok in Hload as [[Hart Hval]%summary_report_Ok ->].
  split; [done|]. exists lr. split; [done|]. split; [done|]. by exists report.
Qed.

Lemma load_entries_Ok run_root f entries acc w res w' :
  NoDup (report_pair <$> entries) →
  foldM (load_entry run_root f) acc entries w = (Ok res, w') →
  w' = w ∧ (∀ k, k ∉ report_pair <$> entries → res !! k = acc !! k) ∧
  ∀ e, e ∈ entries → ∃ lr, res !! report_pair e = Some lr ∧ report_loaded w run_root f e lr.
Proof.
  revert acc. induction entries as [|e entries IH]; intros acc Hnd Hrun.
  - injection Hrun as -> ->. split_and!; [done..|]. intros e. by rewrite elem_of_nil.
  - rewrite fmap_cons in Hnd. apply NoDup_cons in Hnd as [Hni Hnd].
    apply io_bind_Ok in Hrun as (acc1 & w1 & Hent & Hrun).
    apply load_entry_Ok in Hent as (-> & lr & -> & Hlr).
    apply IH in Hrun as (-> & Hout & Hin); [|done]. split_and!; [done| |].
    + intros k Hk. rewrite fmap_cons, not_elem_of_cons in Hk.
      rewrite Hout by tauto. apply lookup_insert_ne. naive_solver.
    + intros e' [->|He']%elem_of_cons; [|by apply Hin].
      exists lr. split; [|done]. rewrite Hout by done. apply lookup_insert_eq.
Qed.

(** What [loaded] holds for a family *)
Definition family_loaded (w : world) (run_root : path) (loaded : reports) (f : family) : Prop :=
  ∀ e, e ∈ fa_reports f →
  ∃ lr, report_of loaded (fa_run_family f) (report_pair e) = Ok lr ∧ report_loaded w run_root f e lr.

Lemma load_families_Ok run_root fs loaded w res w' :
  NoDup (fa_run_family <$> fs) → (∀ f, f ∈ fs → NoDup (report_pair <$> fa_reports f)) →
  foldM (load_family run_root) loaded fs w = (Ok res, w') →
  w' = w ∧ (∀ k, k ∉ fa_run_family <$> fs → dget k res = dget k loaded) ∧
  ∀ f, f ∈ fs → family_loaded w run_root res f.
Proof.
  revert loaded. induction fs as [|f fs IH]; intros loaded Hnd Hpairs Hrun.
  - injection Hrun as -> ->. split_and!; [done..|]. intros f. by rewrite elem_of_nil.
  - rewrite fmap_cons in Hnd. apply NoDup_cons in Hnd as [Hni Hnd].
    apply io_bind_Ok in Hrun as (loaded1 & w1 & Hfam & Hrun).
    apply io_bind_Ok in Hfam as (tbl & w2 & Hent & Hfam). apply io_mret_Ok in Hfam as [<- ->].
    apply load_entries_Ok in Hent as (-> & _ & Hin); [|apply Hpairs; set_solver].
    apply IH in Hrun as (-> & Hout & Hrest); [|done|set_solver]. split_and!; [done| |].
    + intros k Hk. rewrite fmap_cons, not_elem_of_cons in Hk. rewrite Hout by tauto.
      apply dget_dset_ne. tauto.
    + intros f' [->|Hf']%elem_of_cons; [|by apply Hrest].
      intros e He. destruct (Hin e He) as (lr & Hlr & Hload). exists lr. split; [|done].
      unfold report_of, ditem. rewrite Hout, dget_dset_eq by done. simpl. by rewrite Hlr.
Qed.

(** Client and server of a workload report the same run. *)
Definition same_run (loaded : reports) (f : family) (label : string) : Prop :=
  ∃ c s run_id, report_of loaded (fa_run_family f) (label, "client") = Ok c ∧
    report_of loaded (fa_run_family f) (label, "server") = Ok s ∧
    text (lr_metadata c) "run_id" run_id ∧ text (lr_metadata s) "run_id" run_id.

Lemma validated_run_id label role ins sel report lr :
  validated label role ins sel report lr → ∃ s, text (lr_metadata lr) "run_id" s.
Proof. intros [_ Hmd _ _ _ _ _ _]. rewrite Forall_forall in Hmd. apply Hmd. set_solver. Qed.

Lemma check_pair_Ok run_root loaded f label w :
  family_loaded w run_root loaded f →
  (∀ role, role ∈ EXPECTED_ENDPOINT_ROLES → ∃ e, e ∈ fa_reports f ∧ report_pair e = (label, role)) →
  check_pair run_root loaded f label = Ok tt → same_run loaded f label.
Proof.
  intros Hload Hpairs H. unfold check_pair in H.
  destruct (Hpairs "client") as (ec & Hec & Ec); [set_solver|].
  destruct (Hpairs "server") as (es & Hes & Es); [set_solver|].
  destruct (Hload _ Hec) as (c & Hc & _ & rc & _ & [s1 Hs1]%validated_run_id).
  destruct (Hload _ Hes) as (s & Hs & _ & rs & _ & [s2 Hs2]%validated_run_id).
  rewrite Ec in Hc. rewrite Es in Hs. rewrite Hc, Hs in H. cbn [mbind result_bind] in H.
  unfold ditem in H. destruct Hs1 as [H1 ?], Hs2 as [H2 ?]. rewrite H1, H2 in H.
  cbn [mbind result_bind of_option] in H. apply raise_if_Ok, negb_false_iff in H. simpl in H.
  apply bool_decide_eq_true in H. subst s2. exists c, s, s1. by split_and!.
Qed.

Lemma load_family_reports_Ok m run_root w rs w' repo_root p w0 w0' :
  load_manifest repo_root p w0 = (Ok m, w0') →
  load_family_reports m run_root w = (Ok rs, w') →
  w' = w ∧ (∀ f, f ∈ m_families m → family_loaded w run_root rs f) ∧
  (∀ f l, f ∈ m_families m → l ∈ sc_labels (m_scope m) → same_run rs f l).
Proof.
  intros [Hnames Hplan]%loaded_plan Hrun. unfold load_family_reports in Hrun.
  apply io_bind_Ok in Hrun as (loaded & w1 & Hload & Hrun).
  apply io_bind_pure in Hrun as ([] & Hpairs & Hrun). apply io_mret_Ok in Hrun as [<- ->].
  apply load_families_Ok in Hload as (-> & _ & Hload).
  2: { rewrite Hnames. by apply (bool_decide_unpack _). }
  2: { intros f Hf. apply (Hplan f Hf). }
  split_and!; [done..|]. intros f l Hf Hl. rewrite iterM_Ok, Forall_forall in Hpairs.
  specialize (Hpairs f Hf). rewrite iterM_Ok, Forall_forall in Hpairs.
  eapply check_pair_Ok; [by apply Hload| |by apply Hpairs].
  intros role Hr. by apply (Hplan f Hf).
Qed.

(** ** Rows *)

Lemma build_rows_fold rs run_root keys rows0 w rows w' :
  foldM (row_step rs run_root) rows0 keys w = (Ok rows, w') →
  same_files w w' ∧ ∃ new, rows = rows0 ++ new ∧
    Forall2 (λ k r, build_row rs k.1 k.2 = Ok r) keys new.
Proof.
  revert rows0 w. induction keys as [|k keys IH]; intros rows0 w Hrun.
  - injection Hrun as -> ->. split; [done|]. exists []. by rewrite app_nil_r.
  - apply io_bind_Ok in Hrun as (rows1 & w1 & Hstep & Hrun). unfold row_step in Hstep.
    apply io_bind_pure in Hstep as (r & Hr & Hstep). apply io_print_bind in Hstep as [_ Hstep].
    apply io_mret_Ok in Hstep as [<- ->].
    apply IH in Hrun as (Hw & new & -> & Hnew). split; [exact Hw|].
    exists (r :: new). rewrite <-app_assoc. split; [done|by constructor].
Qed.

Lemma load_control_floor_files repo_root m : preserves same_files (load_control_floor repo_root m).
Proof. unfold load_control_floor, load_json_object. preserves_tac. Qed.

Lemma verify_outputs_world ds outs w : (verify_outputs ds outs w).2 = w.
Proof.
  apply (io_iterM_check (verify_output ds) (λ o, (verify_output ds o w).1 = Ok tt)); [|done].
  intros [k p]. unfold verify_output. rewrite io_gets_bind. unfold io_raise_if, pure_, mbind, io_bind.
  destruct (path_exists w p); simpl; [|done]. by destruct (stat_size ds w p).
Qed.

(** The outputs of a run are three different files. *)
Lemma outputs_apart (cwd : list string) (p : path) a b :
  a ≠ ".." → b ≠ ".." → a ≠ b →
  apart (path_join (resolve cwd p) (Path "" ["summary"; a]))
        (path_join (resolve cwd p) (Path "" ["summary"; b])).
Proof.
  intros Ha Hb Hne. unfold apart, path_join. simpl.
  pose proof (norm_parts_no_dotdot (anchor cwd p)) as Hd.
  split_and!; [done..|set_solver|set_solver|]. intros H%app_inv_head. by simplify_eq.
Qed.

(** What [summarize] leaves when it returns. *)
Definition summarized (now_us : world → Z) (repo_root manifest_path : path)
    (run_root_override : option string) (w w' : world) : Prop :=
  ∃ m cf rs rows t,
    let run_root := resolve_run_root repo_root m run_root_override w in
    load_manifest repo_root manifest_path w = (Ok m, w) ∧
    (∀ f, f ∈ m_families m → family_loaded w run_root rs f) ∧
    (∀ f l, f ∈ m_families m → l ∈ sc_labels (m_scope m) → same_run rs f l) ∧
    Forall2 (λ k r, build_row rs k.1 k.2 = Ok r) (row_keys m) rows ∧
    file_bytes w' (path_div run_root "summary/comparison_summary.json") =
      Ok (dumps_indent (build_summary_document t manifest_path run_root m rows cf
                          (output_paths m run_root)) +:+ newline) ∧
    file_bytes w' (path_div run_root "summary/ordinary_vs_idxd.csv") = Ok (csv_text rows) ∧
    file_bytes w' (path_div run_root "summary/claim_table.md") = Ok (claim_table rows cf).

Lemma same_files_loaded w w' run_root rs f :
  same_files w w' → family_loaded w' run_root rs f → family_loaded w run_root rs f.
Proof.
  intros Hw Hl e He. destruct (Hl e He) as (lr & Hr & Ha & report & Hfile & Hv).
  exists lr. split; [done|]. unfold report_loaded, entry_path in *.
  rewrite (same_files_json _ _ _ Hw) in Hfile. destruct Hw as [_ Hc]. rewrite Hc in *. eauto.
Qed.

Lemma summarize_Ok now_us ds repo_root mp rro vo w outs w' :
  summarize now_us ds repo_root mp rro vo w = (Ok outs, w') →
  summarized now_us repo_root mp rro w w'.
Proof.
  unfold summarize. cbv zeta. intros Hrun.
  apply io_bind_Ok in Hrun as (m & w1 & Hm & Hrun).
  destruct (loaded_package _ _ _ _ _ Hm) as (-> & _ & Hout & _). rewrite io_gets_bind in Hrun.
  exists m. set (rr := resolve_run_root repo_root m rro w) in *.
  apply io_bind_pure in Hrun as (p1 & Hp1 & Hrun). apply io_bind_pure in Hrun as (p2 & Hp2 & Hrun).
  apply io_bind_pure in Hrun as (p3 & Hp3 & Hrun).
  assert (p1 = path_div rr "summary/comparison_summary.json" ∧ p2 = path_div rr "summary/ordinary_vs_idxd.csv" ∧
    p3 = path_div rr "summary/claim_table.md") as (-> & -> & ->).
  { unfold output_paths in *. rewrite Hout in *. unfold ditem in *. simpl in *. naive_solver. }
  apply io_print_bind in Hrun as [_ Hrun]. set (w1 := set_out _ w) in Hrun.
  apply io_bind_Ok in Hrun as (cf & w2 & Hcf & Hrun).
  apply (preserves_Ok _ _ _ _ _ (load_control_floor_files _ _)) in Hcf.
  apply io_bind_Ok in Hrun as (rs & w3 & Hrs & Hrun).
  destruct (load_family_reports_Ok _ _ _ _ _ _ _ _ _ Hm Hrs) as (-> & Hload & Hsame).
  apply io_bind_Ok in Hrun as (rows & w4 & (_ & new & -> & Hrows)%build_rows_fold & Hrun).
  rewrite io_gets_bind in Hrun.
  apply io_bind_Ok in Hrun as ([] & w5 & Hj%write_json_reads & Hrun).
  apply io_bind_Ok in Hrun as ([] & w6 & Hc & Hrun).
  apply io_bind_Ok in Hrun as ([] & w7 & Ht & Hrun).
  apply io_bind_Ok in Hrun as ([] & w8 & Hv & Hrun).
  pose proof (verify_outputs_world ds (output_paths m rr) w7) as Hw8. rewrite Hv in Hw8. simpl in Hw8.
  subst w8. apply io_print_bind in Hrun as [_ Hrun]. apply io_mret_Ok in Hrun as [_ ->].
  assert (apart (path_div rr "summary/comparison_summary.json") (path_div rr "summary/ordinary_vs_idxd.csv"))
    as Hjc by by apply outputs_apart.
  assert (apart (path_div rr "summary/comparison_summary.json") (path_div rr "summary/claim_table.md"))
    as Hjt by by apply outputs_apart.
  assert (apart (path_div rr "summary/ordinary_vs_idxd.csv") (path_div rr "summary/claim_table.md"))
    as Hct by by apply outputs_apart.
  exists cf, rs, new, (now_us w4). cbv zeta. fold rr. split_and!; [done| |done|done| | |].
  - intros f Hf. eapply same_files_loaded, Hload; [|done]. by etrans; [|exact Hcf].
  - apply (preserves_Ok (keeps _) _ _ _ _ (write_claim_table_keeps _ _ _ _ Hjt)) in Ht as [_ Ht].
    apply (preserves_Ok (keeps _) _ _ _ _ (write_csv_keeps _ _ _ Hjc)) in Hc as [_ Hc]. by apply Ht, Hc.
  - apply (preserves_Ok (keeps _) _ _ _ _ (write_claim_table_keeps _ _ _ _ Hct)) in Ht as [_ Ht].
    by apply Ht, (write_csv_reads _ _ _ _ Hc).
  - by apply (write_claim_table_reads _ _ _ _ _ Ht).
Qed.

(** ** A run tree to summarize *)

Definition stage_sample : json :=
  JObj ((λ k, (k, JInt 5)) <$> STAGE_FIELDS).

Definition report_sample (f : family) (e : endpoint_report) : json :=
  JObj [("metadata", JObj
          ([("mode", JStr "client"); ("endpoint_role", JStr (er_role e)); ("run_id", JStr "run-1");
            ("selected_path", JStr (fa_selected_path f)); ("workload_label", JStr (er_label e));
            ("instrumentation", JStr (fa_instrumentation f))] ++
           if bool_decide (fa_selected_path f = "idxd")
           then [("accelerated_device_path", JStr "/dev/dsa/wq0.0")] else []));
        ("metrics", JObj ((λ k, (k, JFloat (f_of_decimal false 125 (-1)))) <$> REQUIRED_METRIC_NAMES));
        ("stages", JObj (("enabled", JBool (bool_decide (fa_instrumentation f = "on"))) ::
                         ((λ k, (k, stage_sample)) <$> REQUIRED_STAGE_NAMES)))].

Definition benchmark_names : list string :=
  ["tokio_spawn_join"; "tokio_oneshot_completion"; "tokio_mpsc_round_trip";
   "tokio_same_thread_wake"; "tokio_cross_thread_wake"].

Definition control_floor_sample : json :=
  JObj [("suite_name", JStr "async"); ("schema_version", JInt 1);
        ("benchmarks", JObj ((λ k, (k, JObj [("benchmark_name", JStr k); ("mean_ns", JInt 10);
           ("median_ns", JInt 9); ("std_dev_ns", JInt 1); ("sample_count", JInt 100)])) <$>
           benchmark_names))].

Definition report_files : list (list string * string) :=
  f ← m_families tracked_manifest; e ← fa_reports f;
  [(repo_file (cat [EXPECTED_RUN_ROOT; "/"; er_artifact e]), dumps (report_sample f e))].

Definition run_tree : world :=
  repo_world ((repo_file "accel-rpc/target/control-floor/async_control_floor_summary.json",
               dumps control_floor_sample) :: manifest_files s02_text s03_text s04_text ++ report_files).

Definition sample_args : arguments := Arguments (path_str s04_path) None false.

Definition sample_run : exc Z * world :=
  main (λ _, 1700000000000000) (λ _, 4096) fixture_root sample_args run_tree.

(** C19: when the summarizer exits with code 0, the manifest was accepted, every
    report it plans was read and passes the report contract, client and server
    of each workload name the same run, there is one row per workload and
    endpoint in the manifest's order, computed from these reports, and at the
    end the three outputs hold the JSON, CSV and Markdown renderings of these
    rows. *)
Theorem summary_main_success now_us dir_size repo_root args w w' :
  main now_us dir_size repo_root args w = (Ok 0, w') →
  ∃ m cf rs rows t,
    let manifest_path := resolve (w_cwd w) (parse_path (a_manifest args)) in
    let run_root := resolve_run_root repo_root m (a_run_root args) w in
    load_manifest repo_root manifest_path w = (Ok m, w) ∧
    (∀ f, f ∈ m_families m → family_loaded w run_root rs f) ∧
    (∀ f l, f ∈ m_families m → l ∈ sc_labels (m_scope m) → same_run rs f l) ∧
    Forall2 (λ k r, build_row rs k.1 k.2 = Ok r) (row_keys m) rows ∧
    file_bytes w' (path_div run_root "summary/comparison_summary.json") =
      Ok (dumps_indent (build_summary_document t manifest_path run_root m rows cf
                          (output_paths m run_root)) +:+ newline) ∧
    file_bytes w' (path_div run_root "summary/ordinary_vs_idxd.csv") = Ok (csv_text rows) ∧
    file_bytes w' (path_div run_root "summary/claim_table.md") = Ok (claim_table rows cf).
Proof.
  unfold main, catch. rewrite io_gets_bind. intros Hrun.
  destruct ((summarize _ _ _ _ _ _ ≫= _) w) as [[c|e] w1] eqn:Hs; [|by destruct e].
  injection Hrun as -> ->. apply io_bind_Ok in Hs as (outs & w2 & Hs & Hret).
  apply io_mret_Ok in Hret as [_ ->]. exact (summarize_Ok _ _ _ _ _ _ _ _ _ Hs).
Qed.

Lemma summary_main_success_witness :
  ∃ m rows, load_manifest fixture_root s04_path run_tree = (Ok m, run_tree) ∧
    file_bytes sample_run.2 (path_div (resolve_run_root fixture_root m None run_tree)
      "summary/ordinary_vs_idxd.csv") = Ok (csv_text rows).
Proof.
  destruct (summary_main_success (λ _, 1700000000000000) (λ _, 4096) fixture_root sample_args run_tree
    sample_run.2 ltac:(apply io_run_fst; vm_compute; reflexivity))
    as (m & cf & rs & rows & t & Hm & _ & _ & Hrows & _ & Hcsv & _).
  exists m, rows. split; [exact Hm|exact Hcsv].
Defined.

(** ** Exceptions *)

(** What leaves the program as a traceback *)
Definition escapes (e : exn) : Prop :=
  (∃ m, e = OSError m) ∨ (∃ m, e = OverflowError m) ∨ (∃ m, e = ValueError m) ∨
  e = UnicodeDecodeError ∨ ∃ l, e = KeyError l ∧ l ∈ REQUIRED_LABELS.

Definition summary_exn (e : exn) : Prop :=
  (∃ m, e = SummaryError m) ∨ (∃ m, e = ManifestError m) ∨ escapes e.

Lemma exn_summary m : summary_exn (SummaryError m).
Proof. left. by exists m. Qed.
Lemma exn_error parts : summary_exn (summary_error parts).
Proof. apply exn_summary. Qed.
Lemma exn_floor parts : summary_exn (control_floor_error parts).
Proof. apply exn_summary. Qed.
Lemma exn_os m : summary_exn (OSError m).
Proof. right; right; left. by exists m. Qed.
Lemma exn_overflow m : summary_exn (OverflowError m).
Proof. right; right; right; left. by exists m. Qed.
Lemma exn_value m : summary_exn (ValueError m).
Proof. right; right; right; right; left. by exists m. Qed.
Lemma exn_decode : summary_exn UnicodeDecodeError.
Proof. by do 5 right; left. Qed.
#[export] Hint Resolve exn_summary exn_error exn_floor exn_os exn_overflow exn_value exn_decode : raises.

Lemma require_dict_raises v scope : raises summary_exn (require_dict v scope).
Proof. unfold require_dict. raises_tac. Qed.
Lemma require_value_raises d key scope : raises summary_exn (require_value d key scope).
Proof. unfold require_value. raises_tac. Qed.
#[export] Hint Resolve require_dict_raises require_value_raises : raises.

Lemma require_str_raises d key scope : raises summary_exn (require_str d key scope).
Proof. unfold require_str. raises_tac. Qed.

Lemma to_float_raises v : is_number v = true → raises summary_exn (to_float v).
Proof. destruct v; try done. intros _. simpl. raises_tac. Qed.

Lemma require_number_raises d key scope : raises summary_exn (require_number d key scope).
Proof.
  unfold require_number. apply raises_bind; [raises_tac|]. intros v _.
  destruct (is_number v) eqn:Hn; simpl; [by apply to_float_raises|apply exn_summary].
Qed.

Lemma require_bool_raises d key scope : raises summary_exn (require_bool d key scope).
Proof.
  unfold require_bool. apply raises_bind; [raises_tac|]. intros v _. by destruct v; simpl; auto with raises.
Qed.
#[export] Hint Resolve require_str_raises require_number_raises require_bool_raises : raises.

Lemma stage_totals_raises stages : raises summary_exn (stage_totals stages).
Proof. unfold stage_totals. raises_tac. unfold stage_totals_step. raises_tac. Qed.

Lemma expect_str_raises context section key actual expected :
  raises summary_exn (expect_str context section key actual expected).
Proof. unfold expect_str. raises_tac. Qed.

Lemma check_stage_raises context stages name : raises summary_exn (check_stage context stages name).
Proof. unfold check_stage, iterM. raises_tac. Qed.

Lemma check_device_raises context md sel : raises summary_exn (check_device context md sel).
Proof. unfold check_device. destruct (bool_decide _); raises_tac. Qed.
#[export] Hint Resolve stage_totals_raises expect_str_raises check_stage_raises check_device_raises : raises.

Lemma check_report_raises context label role ins sel artifact report :
  raises summary_exn (check_report context label role ins sel artifact report).
Proof. unfold check_report, iterM. raises_tac. Qed.

Lemma int_float_raises f : raises summary_exn (py_int (JFloat f)).
Proof. destruct f; simpl; auto with raises. Qed.
#[export] Hint Resolve check_report_raises int_float_raises : raises.

Lemma benchmark_step_raises p benchmarks acc v : raises summary_exn (benchmark_step p benchmarks acc v).
Proof. unfold benchmark_step. raises_tac. Qed.
#[export] Hint Resolve benchmark_step_raises : raises.

Lemma load_json_object_raises p phase scope : io_raises summary_exn (load_json_object p phase scope).
Proof.
  unfold load_json_object. cbv zeta.
  apply io_raises_bind; [intros w1|intros s; apply io_raises_bind; [intros w1|]].
  - unfold catch, read_text. pose proof (file_bytes_raises w1 p) as Hb.
    destruct (file_bytes w1 p) as [b|e]; simpl.
    + pose proof (decode_text_raises b) as Hd. destruct (decode_text b) as [s|e]; [done|].
      simpl in Hd. subst e. apply exn_decode.
    + destruct Hb as [m ->]. simpl. auto with raises.
  - unfold catch, pure_. pose proof (json_loads_raises s) as Hj.
    destruct (json_loads s) as [v|e]; [done|]. destruct Hj as [m ->]. simpl. auto with raises.
  - intros v. apply io_raises_pure. raises_tac.
Qed.

(** ** Rows can always be built *)

Lemma metric_total label role ins sel report lr key :
  validated label role ins sel report lr → key ∈ REQUIRED_METRIC_NAMES →
  ∃ f, metric lr key = Ok f.
Proof.
  intros [_ _ _ Hm _ _ _ _] Hk. rewrite Forall_forall in Hm.
  destruct (Hm key Hk) as (f & v & Hv & _ & Hf). exists f. unfold metric, ditem. by rewrite Hv.
Qed.

Lemma side_total label role ins sel report lr rps p50 :
  validated label role ins sel report lr → ∃ s, side_of lr rps p50 = Ok s.
Proof.
  intros Hv. destruct (validated_run_id _ _ _ _ _ _ Hv) as (id & Hid & _).
  destruct (metric_total _ _ _ _ _ _ "latency_us_p95" Hv) as [f Hf]; [set_solver|].
  unfold side_of, ditem. rewrite Hid. simpl. rewrite Hf. by eexists.
Qed.

Lemma raises_then {A B} P (m : io A) (f : A → io B) w :
  raises P (m w).1 → (∀ a w', m w = (Ok a, w') → raises P (f a w').1) → raises P ((m ≫= f) w).1.
Proof. unfold mbind, io_bind. intros Hm Hf. destruct (m w) as [[a|e] w']; simpl in *; auto. Qed.

Lemma summary_print s : io_raises summary_exn (print s).
Proof. apply io_raises_print, exn_value. Qed.

Section tables.
Context (repo_root p : path) (w0 w0' : world) (m : manifest).
Context (Hm : load_manifest repo_root p w0 = (Ok m, w0')).
Context (w : world) (run_root : path) (rs : reports).
Context (Hload : ∀ f, f ∈ m_families m → family_loaded w run_root rs f).

Lemma report_total name l role :
  name ∈ EXPECTED_FAMILIES.*1 → l ∈ sc_labels (m_scope m) → role ∈ EXPECTED_ENDPOINT_ROLES →
  ∃ lr ins sel report, report_of rs name (l, role) = Ok lr ∧ validated l role ins sel report lr ∧
    (name = "idxd_attribution" → sel = "idxd").
Proof.
  intros Hn Hl Hr. destruct (loaded_plan _ _ _ _ _ Hm) as [Hnames Hplan].
  rewrite <-Hnames in Hn. apply list_elem_of_fmap in Hn as (f & -> & Hf).
  destruct (Hplan f Hf) as ((ex & Hex & Hsel) & _ & Hcov).
  destruct (Hcov l role Hl Hr) as (e & He & Hpair).
  destruct (Hload f Hf e He) as (lr & Hlr & _ & report & _ & Hv). rewrite Hpair in Hlr.
  injection Hpair as El Er. rewrite El, Er in Hv.
  eexists lr, _, _, report. split_and!; [done..|]. intros Hid. rewrite Hsel. rewrite Hid in Hex.
  unfold EXPECTED_FAMILIES in Hex. rewrite !elem_of_cons, elem_of_nil in Hex. naive_solver.
Qed.

Lemma build_row_total l role :
  l ∈ sc_labels (m_scope m) → role ∈ EXPECTED_ENDPOINT_ROLES → ∃ r, build_row rs l role = Ok r.
Proof.
  intros Hl Hr.
  destruct (report_total "software_baseline" l role) as (b & ? & ? & ? & Hb & Vb & _); [set_solver|done..|].
  destruct (report_total "software_attribution" l role) as (s & ? & ? & ? & Hs & Vs & _); [set_solver|done..|].
  destruct (report_total "idxd_attribution" l role) as (i & ? & sel & ? & Hi & Vi & Hsel); [set_solver|done..|].
  rewrite (Hsel eq_refl) in Vi.
  assert (∃ d, dget "accelerated_device_path" (lr_metadata i) = Some d) as [d Hd].
  { destruct Vi as [_ _ _ _ _ _ (d & Hd & _) _]. by eexists. }
  unfold build_row. cbv zeta. rewrite Hb, Hs, Hi. cbn [mbind result_bind]. unfold ditem.
  rewrite Hd. cbn [of_option mbind result_bind].
  destruct (metric_total _ _ _ _ _ _ "throughput_rps" Vb) as [f1 ->]; [set_solver|].
  destruct (metric_total _ _ _ _ _ _ "throughput_rps" Vs) as [f2 ->]; [set_solver|].
  destruct (metric_total _ _ _ _ _ _ "throughput_rps" Vi) as [f3 ->]; [set_solver|].
  destruct (metric_total _ _ _ _ _ _ "latency_us_p50" Vb) as [f4 ->]; [set_solver|].
  destruct (metric_total _ _ _ _ _ _ "latency_us_p50" Vs) as [f5 ->]; [set_solver|].
  destruct (metric_total _ _ _ _ _ _ "latency_us_p50" Vi) as [f6 ->]; [set_solver|].
  cbn [mbind result_bind].
  destruct (side_total _ _ _ _ _ _ f1 f4 Vb) as [s1 ->], (side_total _ _ _ _ _ _ f2 f5 Vs) as [s2 ->],
    (side_total _ _ _ _ _ _ f3 f6 Vi) as [s3 ->]. by eexists.
Qed.

Lemma build_rows_raises w1 : raises summary_exn (build_rows m run_root rs w1).1.
Proof.
  unfold build_rows.
  assert (Forall (λ k, k.1 ∈ sc_labels (m_scope m) ∧ k.2 ∈ EXPECTED_ENDPOINT_ROLES) (row_keys m)) as Hk.
  { apply Forall_forall. intros [l r]. unfold row_keys. set_solver. }
  generalize ([] : list row) as rows. revert w1. induction Hk as [|[l r] keys [Hl Hr] _ IH]; intros w1 rows.
  { done. }
  cbn [foldM]. destruct (build_row_total l r Hl Hr) as [row Hrow].
  apply raises_then; [|intros; apply IH]. unfold row_step. cbn [fst snd]. rewrite Hrow.
  apply raises_then; [done|]. intros row' w2 [= <- <-]. apply raises_then; [apply summary_print|done].
Qed.

(** With every report loaded, the pairing check fails only by a mismatch. *)
Lemma check_pair_raises f l :
  f ∈ m_families m → l ∈ sc_labels (m_scope m) →
  raises summary_exn (check_pair run_root rs f l).
Proof.
  intros Hf Hl. destruct (loaded_plan _ _ _ _ _ Hm) as [Hnames _].
  assert (fa_run_family f ∈ EXPECTED_FAMILIES.*1) as Hn.
  { rewrite <-Hnames. by apply list_elem_of_fmap_2. }
  destruct (report_total _ l "client" Hn) as (c & ? & ? & ? & Hc & [i1 [H1 _]]%validated_run_id & _);
    [done|set_solver|].
  destruct (report_total _ l "server" Hn) as (s & ? & ? & ? & Hs & [i2 [H2 _]]%validated_run_id & _);
    [done|set_solver|].
  unfold check_pair. rewrite Hc, Hs. cbn [mbind result_bind]. unfold ditem. rewrite H1, H2.
  cbn [of_option mbind result_bind]. apply raises_raise_if. intros _. apply exn_summary.
Qed.
End tables.

(** ** How the program ends *)

Lemma load_entry_raises run_root f acc e : io_raises summary_exn (load_entry run_root f acc e).
Proof.
  apply io_raises_bind; [apply io_raises_gets|]. intros p.
  apply io_raises_bind; [|intros; apply io_raises_ret]. unfold load_report. cbv zeta.
  apply io_raises_bind; [apply load_json_object_raises|]. intros. apply io_raises_pure. raises_tac.
Qed.

Lemma load_family_raises run_root loaded f : io_raises summary_exn (load_family run_root loaded f).
Proof.
  apply io_raises_bind; [|intros; apply io_raises_ret].
  apply io_foldM_raises. intros. apply load_entry_raises.
Qed.

Lemma load_family_reports_raises repo_root p w0 w0' m run_root w :
  load_manifest repo_root p w0 = (Ok m, w0') →
  raises summary_exn (load_family_reports m run_root w).1.
Proof.
  intros Hm. apply raises_then.
  { apply io_foldM_raises. intros. apply load_family_raises. }
  intros rs w' Hfold. destruct (loaded_plan _ _ _ _ _ Hm) as [Hnames Hplan].
  apply load_families_Ok in Hfold as (-> & _ & Hload).
  2: { rewrite Hnames. by apply (bool_decide_unpack _). }
  2: { intros f Hf. apply (Hplan f Hf). }
  apply raises_then; [|done]. simpl. apply iterM_raises. intros f Hf. apply iterM_raises.
  intros l Hl. by eapply check_pair_raises.
Qed.

Lemma load_control_floor_raises repo_root p w0 w0' m :
  load_manifest repo_root p w0 = (Ok m, w0') → io_raises summary_exn (load_control_floor repo_root m).
Proof.
  intros Hm. unfold load_control_floor, ditem.
  destruct (loaded_inputs _ _ _ _ _ "control_floor_summary" Hm) as [r1 ->]; [set_solver|].
  destruct (loaded_inputs _ _ _ _ _ "software_manifest" Hm) as [r2 ->]; [set_solver|].
  apply io_raises_bind; [by apply io_raises_pure|intros ?]. cbv zeta.
  apply io_raises_bind; [apply load_json_object_raises|intros summary].
  apply io_raises_bind; [apply io_raises_pure; raises_tac|intros benchmarks].
  apply io_raises_bind; [by apply io_raises_pure|intros ?].
  apply io_raises_bind; [apply load_json_object_raises|intros sm].
  apply io_raises_bind; [apply io_raises_pure; raises_tac|intros names].
  apply io_raises_bind; [apply io_raises_pure; raises_tac|intros rendered]. apply io_raises_ret.
Qed.

Lemma write_text_raises p text : io_raises summary_exn (write_text p text).
Proof. intros w. unfold write_text, os_error. repeat case_match; simpl; auto with raises. Qed.

Lemma mkdir_raises p : io_raises summary_exn (mkdir_p p).
Proof. intros w. unfold mkdir_p, os_error. case_match; simpl; auto with raises. Qed.

Lemma write_utf8_raises p text : io_raises summary_exn (write_utf8 p text).
Proof.
  unfold write_utf8. destruct (utf8_valid text); [apply write_text_raises|].
  apply io_raises_bind; [apply write_text_raises|]. intros _ w. apply exn_value.
Qed.

Lemma append_utf8_raises p text : io_raises summary_exn (append_utf8 p text).
Proof.
  apply io_raises_bind; [apply io_raises_pure; raises_tac|]. intros _.
  apply io_raises_bind; [|intros; apply write_text_raises]. intros w.
  eapply raises_mono; [|apply file_bytes_raises]. intros e [m ->]. apply exn_os.
Qed.

Lemma write_csv_raises p rows : io_raises summary_exn (write_csv p rows).
Proof.
  apply io_raises_bind; [apply mkdir_raises|intros _].
  apply io_raises_bind; [apply write_utf8_raises|intros _].
  apply io_raises_bind; [apply append_utf8_raises|intros _].
  apply io_foldM_raises. intros _ r _. apply io_raises_bind; [|intros; apply append_utf8_raises].
  apply io_raises_pure. by rewrite dict_line_cells.
Qed.

Lemma verify_outputs_raises ds outs : io_raises summary_exn (verify_outputs ds outs).
Proof.
  apply io_foldM_raises. intros _ [k p] _. unfold verify_output.
  apply io_raises_bind; [apply io_raises_gets|]. intros present.
  apply io_raises_bind; [apply io_raises_pure; raises_tac|]. intros _.
  apply io_raises_bind; [|intros; apply io_raises_pure; raises_tac]. intros w. simpl.
  unfold stat_size, os_error. repeat case_match; simpl; auto with raises.
Qed.

Lemma load_manifest_summary_exn repo_root p w : raises summary_exn (load_manifest repo_root p w).1.
Proof.
  destruct (load_manifest repo_root p w) as [[m|e] w'] eqn:Hl; [done|].
  apply load_manifest_raises in Hl as [_ He]. simpl.
  destruct He as [[msg ->]|[->|(l & raw & ws & -> & Hl & _)]].
  - right; left. by exists msg.
  - apply exn_decode.
  - do 6 right. by exists l.
Qed.

Lemma summarize_raises now_us ds repo_root mp rro vo w :
  raises summary_exn (summarize now_us ds repo_root mp rro vo w).1.
Proof.
  unfold summarize. cbv zeta. apply raises_then; [apply load_manifest_summary_exn|].
  intros m w1 Hm. rewrite io_gets_bind. destruct (loaded_package _ _ _ _ _ Hm) as (-> & _ & Hout & _).
  unfold output_paths. rewrite Hout. unfold ditem.
  do 3 (apply raises_then; [done|]; intros ? ? [= <- <-]).
  apply raises_then; [apply summary_print|]. intros [] w1 _.
  apply raises_then; [by eapply load_control_floor_raises|]. intros cf w2 _.
  apply raises_then; [by eapply load_family_reports_raises|]. intros rs w3 Hrs.
  destruct (load_family_reports_Ok _ _ _ _ _ _ _ _ _ Hm Hrs) as (-> & Hload & _).
  apply raises_then; [by eapply build_rows_raises|]. intros rows w4 _. rewrite io_gets_bind.
  apply raises_then; [apply io_raises_bind; [apply mkdir_raises|intros; apply write_utf8_raises]|].
  intros _ w5 _. apply raises_then; [apply write_csv_raises|]. intros _ w6 _.
  apply raises_then; [apply io_raises_bind; [apply mkdir_raises|intros; apply write_utf8_raises]|].
  intros _ w7 _. apply raises_then; [apply verify_outputs_raises|]. intros _ w8 _.
  by apply raises_then; [apply summary_print|].
Qed.

(** C21: the summarizer exits with code 0, or with code 1 after printing one
    message to standard error, or with one of these uncaught exceptions: an
    [OSError], text that is not UTF-8 or cannot be encoded as UTF-8, a number
    too large for a double or not finite where an integer is needed, or the
    [KeyError] of a curated label.  Missing keys and values of the wrong type
    never get past its checks. *)
Theorem summary_exits now_us dir_size repo_root args w :
  match main now_us dir_size repo_root args w with
  | (Ok c, w') => c = 0 ∨ (c = 1 ∧ ∃ message, last (w_err w') = Some message)
  | (Err e, _) => escapes e
  end.
Proof.
  unfold main, catch. rewrite io_gets_bind. set (mp := resolve _ _).
  pose proof (summarize_raises now_us dir_size repo_root mp (a_run_root args) (a_verify_only args) w) as Hr.
  unfold mbind at 1, io_bind at 1.
  destruct (summarize _ _ _ _ _ _ w) as [[outs|e] w1]; simpl in Hr; [by left|].
  destruct Hr as [[msg ->]|[[msg ->]|He]].
  - right. split; [done|]. exists msg. simpl. apply last_snoc.
  - right. split; [done|]. exists msg. simpl. apply last_snoc.
  - by destruct He as [[m ->]|[[m ->]|[[m ->]|[->|(l & -> & Hl)]]]]; unfold escapes; simpl; eauto 8.
Qed.
