(* ===== verification/ControlFloor.v ===== *)
(** * The control-floor exporter

    accel-rpc/async-bench/scripts/export_control_floor.py: it collects the
    Criterion results of the asynchronous control benchmarks into the summary
    that the claim package refers to, and validates an existing summary. *)

From Stdlib Require Import Ascii SpecFloat.
From S2P Require Import Prelude PyFloat PyVal PyPath Json JsonOut World Contract Summarize.

Local Open Scope Z_scope.

Module ControlFloor.

Definition SCHEMA_VERSION : Z := 1.

(** The names in a directory *)
Definition iterdir (p : path) : io (list string) := λ w,
  (match locate w p with
   | Err m => Err (os_error m p)
   | Ok q =>
       match node_at (w_fs w) q with
       | Some Dir =>
           Ok (omap (λ '(k, _), if bool_decide (removelast k = q) then last k else None)
                 (map_to_list (w_fs w)))
       | Some (File _) => Err (os_error "[Errno 20] Not a directory" p)
       | None => Err (os_error "[Errno 2] No such file or directory" p)
       end
   end, w).

(** [isinstance(err, FileNotFoundError)] *)
Definition not_found (err : string) : bool := startswith "[Errno 2] " err.

Definition load_json (p : path) : io json :=
  catch (raw ← read_text p; pure_ (json_loads raw)) (λ e,
    match e with
    | OSError err =>
        if not_found err then io_raise (ExportError (cat ["missing JSON input: "; path_str p]))
        else io_raise e
    | JSONDecodeError err =>
        io_raise (ExportError (cat ["failed to parse JSON from "; path_str p; ": "; err]))
    | e => io_raise e
    end).

Definition require_mapping (value : json) (description : string) : exc (dict json) :=
  of_option (ExportError (description +:+ " must be a JSON object")) (as_dict value).

Definition require_non_empty_string (value : json) (description : string) : exc string :=
  match value with
  | JStr s =>
      raise_if (is_blank s) (ExportError (description +:+ " must be a non-empty string"));; mret s
  | _ => Err (ExportError (description +:+ " must be a non-empty string"))
  end.

(** A [bool] is an [int]. *)
Definition is_numeric (v : json) : bool :=
  match v with JInt _ | JFloat _ | JBool _ => true | _ => false end.

Definition require_number (value : json) (description : string) : exc float :=
  raise_if (negb (is_numeric value)) (ExportError (description +:+ " must be numeric"));;
  Summarize.to_float value.

Record BenchmarkSummary : Type := MkBenchmarkSummary {
  name : string;
  benchmark_id : string;
  criterion_directory : string;
  benchmark_source : string;
  estimates_source : string;
  sample_source : string;
  mean_ns : float;
  median_ns : float;
  slope_ns : float;
  std_dev_ns : float;
  sample_count : Z;
  sampling_mode : string;
}.

Definition to_json (s : BenchmarkSummary) : json := JObj
  [("benchmark_name", JStr (name s)); ("benchmark_id", JStr (benchmark_id s));
   ("criterion_directory", JStr (criterion_directory s));
   ("benchmark_source", JStr (benchmark_source s)); ("estimates_source", JStr (estimates_source s));
   ("sample_source", JStr (sample_source s)); ("mean_ns", JFloat (mean_ns s));
   ("median_ns", JFloat (median_ns s)); ("slope_ns", JFloat (slope_ns s));
   ("std_dev_ns", JFloat (std_dev_ns s)); ("sample_count", JInt (sample_count s));
   ("sampling_mode", JStr (sampling_mode s))].

Definition benchmark_name_from_metadata (metadata : dict json) (suite_name : string)
    : exc (string * string) :=
  group_id ← require_non_empty_string (get "group_id" metadata) "benchmark group_id";
  raise_if (negb (bool_decide (group_id = suite_name)))
    (ExportError (cat ["benchmark group_id mismatch: expected "; suite_name; ", found "; group_id]));;
  name ← match get "function_id" metadata with
         | JNull => mret group_id
         | function_id => require_non_empty_string function_id "benchmark function_id"
         end;
  let full_id := get "full_id" metadata in
  benchmark_id ← require_non_empty_string
    (if truthy full_id then full_id else get "title" metadata) "benchmark id";
  mret (name, benchmark_id).

(** [estimates.get(key)["point_estimate"]] as the two calls read it *)
Definition estimate (estimates : dict json) (key name : string) : exc (dict json) :=
  require_mapping (get key estimates) (cat [key; " estimate for "; name]).

Definition point_estimate (d : dict json) (key name : string) : exc float :=
  require_number (get "point_estimate" d) (cat [key; " point_estimate for "; name]).

(** The fields of a benchmark, from the three documents of its directory *)
Definition summary_of (directory : path) (suite_name : string)
    (benchmark_json estimates_json sample_json : json) : exc BenchmarkSummary :=
  let file leaf := path_str (path_div (path_div directory "new") leaf) in
  benchmark_meta ← require_mapping benchmark_json ("benchmark metadata in " +:+ path_str directory);
  estimates ← require_mapping estimates_json ("estimates in " +:+ path_str directory);
  sample ← require_mapping sample_json ("sample metadata in " +:+ path_str directory);
  '(name, benchmark_id) ← benchmark_name_from_metadata benchmark_meta suite_name;
  mean ← estimate estimates "mean" name;
  median ← estimate estimates "median" name;
  slope ← estimate estimates "slope" name;
  std_dev ← estimate estimates "std_dev" name;
  sampling_mode ← require_non_empty_string (get "sampling_mode" sample)
    ("sampling mode for " +:+ name);
  times ← of_option (ExportError (cat ["sample times for "; name; " must be a non-empty list"]))
    (nonempty_list (get "times" sample));
  mean_ns ← point_estimate mean "mean" name;
  median_ns ← point_estimate median "median" name;
  slope_ns ← point_estimate slope "slope" name;
  std_dev_ns ← point_estimate std_dev "std_dev" name;
  mret (MkBenchmarkSummary name benchmark_id (path_str directory) (file "benchmark.json")
          (file "estimates.json") (file "sample.json") mean_ns median_ns slope_ns std_dev_ns
          (Z.of_nat (length times)) sampling_mode).

Definition summarize_benchmark (suite_name : string) (directory : path) : io BenchmarkSummary :=
  let file leaf := path_div (path_div directory "new") leaf in
  benchmark_json ← load_json (file "benchmark.json");
  estimates_json ← load_json (file "estimates.json");
  sample_json ← load_json (file "sample.json");
  pure_ (summary_of directory suite_name benchmark_json estimates_json sample_json).

Definition missing_names (expected : list string) (benchmarks : dict json) : list string :=
  filter (λ name, din name benchmarks = false) expected.

Definition check_missing (expected : list string) (benchmarks : dict json) : exc unit :=
  let missing := missing_names expected benchmarks in
  raise_if (negb (bool_decide (missing = [])))
    (ExportError ("missing expected benchmark ids: " +:+ join ", " missing)).

Section exporter.
Context (now_us : world → Z).

(** The Criterion results of a suite, in the order of their directories *)
Definition benchmark_directories (suite_root : path) : io (list path) :=
  names ← iterdir suite_root;
  gets (λ w, filter (λ entry, path_is_dir w entry = true ∧
                       path_exists w (path_div (path_div entry "new") "benchmark.json") = true)
               (map (λ n, path_join suite_root (Path "" [n])) (sorted_strings names))).

Definition benchmark_map (summaries : list BenchmarkSummary) : dict json :=
  dupdate [] (map (λ s, (name s, to_json s)) summaries).

Definition payload_of (criterion_root : path) (suite_name : string) (now : Z)
    (benchmarks : dict json) : dict json :=
  [("schema_version", JInt SCHEMA_VERSION); ("suite_name", JStr suite_name);
   ("criterion_root", JStr (path_str criterion_root));
   ("generated_at_utc", JStr (Summarize.iso_utc now)); ("benchmarks", JObj benchmarks)].

Definition export_summary (criterion_root out_path : path) (suite_name : string)
    (expected_benchmarks : list string) : io (dict json) :=
  let suite_root := path_div criterion_root suite_name in
  present ← gets (λ w, path_exists w suite_root);
  io_raise_if (negb present)
    (ExportError ("missing Criterion suite directory: " +:+ path_str suite_root));;
  directories ← benchmark_directories suite_root;
  io_raise_if (bool_decide (directories = []))
    (ExportError ("no benchmark directories found under " +:+ path_str suite_root));;
  summaries ← mapM (summarize_benchmark suite_name) directories;
  let benchmarks := benchmark_map summaries in
  pure_ (check_missing expected_benchmarks benchmarks);;
  now ← gets now_us;
  let payload := payload_of criterion_root suite_name now benchmarks in
  mkdir_p (path_parent out_path);;
  write_text out_path (dumps_indent (JObj payload) +:+ newline);;
  mret payload.

(** ** Validation *)

Definition STRING_FIELDS : list string :=
  ["benchmark_name"; "benchmark_id"; "criterion_directory"; "benchmark_source"; "estimates_source";
   "sample_source"; "sampling_mode"].
Definition NUMBER_FIELDS : list string := ["mean_ns"; "median_ns"; "slope_ns"; "std_dev_ns"].

Definition validate_entry (entry : string * json) : exc unit :=
  let '(name, value) := entry in
  let describe key := cat [key; " for "; name] in
  benchmark ← require_mapping value ("benchmark entry for " +:+ name);
  iterM (λ key, require_non_empty_string (get key benchmark) (describe key);; mret tt) STRING_FIELDS;;
  iterM (λ key, require_number (get key benchmark) (describe key);; mret tt) NUMBER_FIELDS;;
  of_option (ExportError (describe "sample_count" +:+ " must be a positive integer"))
    (pos_int (get "sample_count" benchmark));;
  mret tt.

Definition validate_payload (suite_name : string) (expected_benchmarks : list string)
    (payload : dict json) : exc unit :=
  let schema_version := get "schema_version" payload in
  raise_if (negb (py_eq schema_version (JInt SCHEMA_VERSION)))
    (ExportError (cat ["summary schema_version mismatch: expected "; pretty SCHEMA_VERSION;
                       ", found "; py_str schema_version]));;
  suite ← require_non_empty_string (get "suite_name" payload) "suite_name";
  raise_if (negb (bool_decide (suite = suite_name)))
    (ExportError (cat ["suite_name mismatch: expected "; suite_name; ", found "; suite]));;
  benchmarks ← require_mapping (get "benchmarks" payload) "benchmarks";
  check_missing expected_benchmarks benchmarks;;
  iterM validate_entry benchmarks.

Definition validate_summary (summary_path : path) (suite_name : string)
    (expected_benchmarks : list string) : io (dict json) :=
  value ← load_json summary_path;
  payload ← pure_ (require_mapping value ("exported summary " +:+ path_str summary_path));
  pure_ (validate_payload suite_name expected_benchmarks payload);;
  mret payload.

(** ** The program *)

(** The parsed command line *)
Record arguments : Type := Arguments {
  a_criterion_root : option path;
  a_out : option path;
  a_suite_name : string;
  a_expected : list string;
  a_validate_existing : option path;
}.

Definition report_line (verb : string) (payload : dict json) (p : path) : io unit :=
  suite ← pure_ (ditem "suite_name" payload);
  benchmarks ← pure_ (ditem "benchmarks" payload);
  print (cat [verb; " control-floor summary: suite="; py_str suite; " benchmarks=";
              pretty (match benchmarks with JObj d => length d | _ => 0%nat end);
              " path="; path_str p]).

Definition main_body (args : arguments) : io Z :=
  match a_validate_existing args with
  | Some p =>
      payload ← validate_summary p (a_suite_name args) (a_expected args);
      report_line "validated" payload p;; mret 0
  | None =>
      match a_criterion_root args, a_out args with
      | Some criterion_root, Some out =>
          payload ← export_summary criterion_root out (a_suite_name args) (a_expected args);
          report_line "exported" payload out;; mret 0
      | _, _ => io_raise (ExportError "--criterion-root and --out are required in export mode")
      end
  end.

Definition main (args : arguments) : io Z :=
  catch (main_body args) (λ e,
    match e with
    | ExportError exc => eprint (cat ["export_control_floor.py: "; exc]);; mret 1
    | e => io_raise e
    end).
End exporter.
End ControlFloor.
