(* ===== verification/ControlFloorSpec.v ===== *)
(** * What the control-floor exporter guarantees

    The theorems about export_control_floor.py: which summaries its validation
    accepts, and that it accepts what its export writes. *)

From Stdlib Require Import Ascii SpecFloat.
From S2P Require Import Prelude PyFloat PyVal PyPath Json JsonOut World Files JsonRound Contract.
From S2P Require Import Summarize.
From S2P Require Import Fixtures ControlFloor.
Import ControlFloor.

Local Open Scope Z_scope.

(** ** The format of a summary *)

Definition text_field (d : dict json) (key : string) : Prop :=
  ∃ s, get key d = JStr s ∧ is_blank s = false.

Definition number_field (d : dict json) (key : string) : Prop :=
  is_numeric (get key d) = true ∧ ∃ f, Summarize.to_float (get key d) = Ok f.

Definition entry_ok (v : json) : Prop :=
  ∃ d, v = JObj d ∧ Forall (text_field d) STRING_FIELDS ∧ Forall (number_field d) NUMBER_FIELDS ∧
    ∃ z, as_int (get "sample_count" d) = Some z ∧ 0 < z.

(** A summary of the suite with all the expected benchmarks *)
Record summary_ok (suite_name : string) (expected : list string) (payload : dict json) : Prop := {
  so_version : py_eq (get "schema_version" payload) (JInt 1) = true;
  so_suite : get "suite_name" payload = JStr suite_name ∧ is_blank suite_name = false;
  so_benchmarks : ∃ bs, get "benchmarks" payload = JObj bs ∧ Forall (.∈ bs.*1) expected ∧
    Forall entry_ok bs.*2;
}.

Lemma bind_unit_Ok {B} (m : exc unit) (f : unit → exc B) b :
  (m ≫= f) = Ok b ↔ m = Ok tt ∧ f tt = Ok b.
Proof. rewrite bind_Ok. split; [intros ([] & ? & ?); auto|intros [? ?]; by exists tt]. Qed.

Lemma require_mapping_Ok v description d : require_mapping v description = Ok d ↔ v = JObj d.
Proof. unfold require_mapping. by rewrite of_option_Ok, as_dict_Some. Qed.

Lemma require_non_empty_string_Ok v description s :
  require_non_empty_string v description = Ok s ↔ v = JStr s ∧ is_blank s = false.
Proof.
  destruct v as [| | | |t| |]; simpl; try (split; [done|by intros [? _]]).
  destruct (is_blank t) eqn:Ht; cbn [raise_if mbind result_bind]; split.
  - done.
  - intros [[= ->] ?]. congruence.
  - by intros [= ->].
  - by intros [[= ->] _].
Qed.

Lemma string_fields_Ok d (describe : string → string) keys :
  iterM (λ key, require_non_empty_string (get key d) (describe key);; mret tt) keys = Ok tt ↔
  Forall (text_field d) keys.
Proof.
  rewrite iterM_Ok. apply Forall_iff. intros key. rewrite bind_Ok. unfold text_field.
  setoid_rewrite require_non_empty_string_Ok. naive_solver.
Qed.

Lemma number_fields_Ok d (describe : string → string) keys :
  iterM (λ key, require_number (get key d) (describe key);; mret tt) keys = Ok tt ↔
  Forall (number_field d) keys.
Proof.
  rewrite iterM_Ok. apply Forall_iff. intros key. unfold require_number, number_field.
  destruct (is_numeric (get key d)); simpl; [|naive_solver].
  destruct (Summarize.to_float (get key d)); simpl; naive_solver.
Qed.

Lemma floor_entry_Ok name v : validate_entry (name, v) = Ok tt ↔ entry_ok v.
Proof.
  unfold validate_entry, entry_ok. rewrite bind_Ok. setoid_rewrite require_mapping_Ok.
  setoid_rewrite bind_unit_Ok. setoid_rewrite string_fields_Ok.
  setoid_rewrite bind_unit_Ok. setoid_rewrite number_fields_Ok.
  setoid_rewrite bind_Ok. setoid_rewrite of_option_Ok. setoid_rewrite pos_int_Some. naive_solver.
Qed.

Lemma check_missing_Ok expected bs : check_missing expected bs = Ok tt ↔ Forall (.∈ bs.*1) expected.
Proof.
  unfold check_missing, missing_names. rewrite raise_if_negb_Ok.
  induction expected as [|n expected IH]; [by split|]. rewrite Forall_cons, filter_cons, <-IH.
  unfold din. destruct (dget n bs) as [v|] eqn:Hd; simpl.
  - apply dget_elem, (list_elem_of_fmap_2 fst) in Hd. naive_solver.
  - apply dget_None in Hd. naive_solver.
Qed.

Lemma validate_payload_Ok suite_name expected payload :
  validate_payload suite_name expected payload = Ok tt ↔ summary_ok suite_name expected payload.
Proof.
  unfold validate_payload. rewrite bind_unit_Ok, raise_if_Ok, negb_false_iff, bind_Ok.
  setoid_rewrite require_non_empty_string_Ok. setoid_rewrite bind_unit_Ok.
  setoid_rewrite raise_if_negb_Ok. setoid_rewrite bind_Ok. setoid_rewrite require_mapping_Ok.
  setoid_rewrite bind_unit_Ok. setoid_rewrite check_missing_Ok. setoid_rewrite iterM_Ok.
  assert (∀ bs, Forall (λ e, validate_entry e = Ok tt) bs ↔ Forall entry_ok bs.*2) as Hall.
  { intros bs. rewrite Forall_fmap. apply Forall_iff. intros [n v]. apply floor_entry_Ok. }
  setoid_rewrite Hall. split.
  - intros (Hv & s & [Hs Hb] & -> & bs & Hbs & Hexp & Hok). split; [done..|]. by exists bs.
  - intros [Hv [Hs Hb] (bs & Hbs & Hexp & Hok)]. split; [done|]. exists suite_name.
    split_and!; [done..|]. by exists bs.
Qed.

Lemma floor_load_json_Ok p w v w' : load_json p w = (Ok v, w') ↔ w' = w ∧ json_file w p = Some v.
Proof.
  unfold load_json, catch, mbind at 1, io_bind, read_text, pure_, json_file.
  destruct (file_bytes w p ≫= decode_text) as [s|e] eqn:Hf.
  - pose proof (json_loads_raises s) as Hj.
    destruct (json_loads s) as [v'|e]; [naive_solver|]. destruct Hj as [m ->]. naive_solver.
  - split; [|naive_solver]. destruct e; try done. destruct (not_found _); done.
Qed.

(** ** Exported summaries *)

(** A path of at least two components *)
Definition nested (p : path) : Prop := (2 ≤ length (p_parts p))%nat.

(** A slash is no white space, whatever surrounds it. *)
Lemma slash_not_blank s t : is_blank (s +:+ String "/" t) = false.
Proof.
  remember (String.length s) as n eqn:Hn. assert (String.length s ≤ n)%nat as Hle by lia. clear Hn.
  revert s Hle. induction n as [|n IH]; intros s Hle; (destruct s as [|a s]; [by destruct t as [|? [|? ?]]|]);
    simpl in Hle; [lia|]. rewrite app_cons_str. cbn [is_blank].
  destruct (is_ascii_space a); [apply IH; lia|].
  destruct s as [|b s]; [rewrite app_nil_l_str|rewrite app_cons_str]; cbv beta iota.
  { change (code "/") with 47. cbn [Z.eqb Pos.eqb orb]. rewrite !andb_false_r. by destruct t. }
  case_match; [apply IH; simpl in Hle; lia|].
  destruct s as [|c s]; [rewrite app_nil_l_str|rewrite app_cons_str]; cbv beta iota.
  { change (in_range 128 138 "/") with false. change (code "/") with 47.
    cbn [Z.eqb Pos.eqb orb]. by rewrite !andb_false_r. }
  rewrite IH by (simpl in Hle; lia). apply andb_false_r.
Qed.

Lemma nested_text p : nested p → is_blank (path_str p) = false.
Proof.
  unfold nested, path_str. destruct p as [r [|x [|y l]]]; simpl; [lia..|]. intros _.
  assert (∀ r, is_blank (r +:+ x +:+ "/" +:+ join "/" (y :: l)) = false) as H.
  { intros r'. rewrite <-app_assoc_str. change ("/" +:+ join "/" (y :: l)) with (String "/" (join "/" (y :: l))).
    apply slash_not_blank. }
  destruct r; [|apply H]. exact (H "").
Qed.

(** Below a suite that is a directory of its own, every benchmark is nested. *)
Lemma nested_entry root suite n :
  p_parts (parse_path suite) ≠ [] →
  nested (path_join (path_div root suite) (Path "" [n])).
Proof.
  unfold nested, path_div. generalize (parse_path suite) as q. intros [r [|x l]] Hs; [done|].
  unfold path_join. destruct (is_absolute (Path r _)); simpl; rewrite !length_app; simpl; lia.
Qed.

Lemma nested_div p s : nested p → is_absolute (parse_path s) = false → nested (path_div p s).
Proof. unfold nested, path_div, path_join. intros Hp ->. simpl. rewrite length_app. lia. Qed.

(** What [summarize_benchmark] puts into the summary passes validation. *)
Lemma summary_of_ok directory suite bj ej sj s :
  nested directory → summary_of directory suite bj ej sj = Ok s →
  entry_ok (to_json s) ∧ is_blank suite = false.
Proof.
  intros Hdir H. unfold summary_of in H. cbv zeta in H.
  apply bind_Ok in H as (md & _ & H). apply bind_Ok in H as (es & _ & H).
  apply bind_Ok in H as (sm & _ & H). apply bind_Ok in H as ([nm id] & Hnm & H).
  do 4 (apply bind_Ok in H as (? & _ & H)).
  apply bind_Ok in H as (mode & [_ Hmode]%require_non_empty_string_Ok & H).
  apply bind_Ok in H as (times & [_ Htimes]%of_option_Ok%nonempty_list_Some & H).
  do 4 (apply bind_Ok in H as (? & _ & H)). injection H as <-.
  unfold benchmark_name_from_metadata in Hnm.
  apply bind_Ok in Hnm as (g & [_ Hg]%require_non_empty_string_Ok & Hnm).
  apply bind_unit_Ok in Hnm as [Hgs%raise_if_negb_Ok Hnm]. subst g.
  apply bind_Ok in Hnm as (n' & Hn & Hnm). cbv zeta in Hnm.
  apply bind_Ok in Hnm as (i' & [_ Hi]%require_non_empty_string_Ok & Hnm). injection Hnm as -> ->.
  assert (is_blank nm = false) as Hblank.
  { destruct (get "function_id" md); try (by apply require_non_empty_string_Ok in Hn as [_ ?]).
    by injection Hn as <-. }
  split; [|done]. eexists. split; [reflexivity|]. split_and!.
  - repeat constructor; (eexists; split; [reflexivity|]);
      cbn [name benchmark_id criterion_directory benchmark_source estimates_source sample_source
           sampling_mode]; auto using nested_text, nested_div.
  - repeat constructor; by eexists.
  - eexists. split; [reflexivity|]. destruct times; [done|]. simpl. lia.
Qed.

Lemma io_mapM_Forall {A B} (f : A → io B) (P : A → Prop) (Q : B → Prop) l w r w' :
  Forall P l → (∀ x w y w', P x → f x w = (Ok y, w') → Q y) →
  mapM f l w = (Ok r, w') → Forall Q r ∧ length r = length l.
Proof.
  intros HP Hf. revert r w w'. induction HP as [|x l Hx _ IH]; intros r w w' Hrun.
  - by injection Hrun as <- <-.
  - apply io_bind_Ok in Hrun as (y & w1 & Hy & Hrun).
    apply io_bind_Ok in Hrun as (k & w2 & Hk & Hrun). apply io_mret_Ok in Hrun as [<- ->].
    destruct (IH _ _ _ Hk) as [? ?]. split; [constructor; eauto|simpl; by f_equal].
Qed.

Lemma summarize_benchmark_ok suite directory w s w' :
  nested directory → summarize_benchmark suite directory w = (Ok s, w') →
  entry_ok (to_json s) ∧ is_blank suite = false.
Proof.
  intros Hdir Hrun. unfold summarize_benchmark in Hrun. cbv zeta in Hrun.
  do 3 (apply io_bind_Ok in Hrun as (? & ? & _ & Hrun)).
  apply io_pure_Ok in Hrun as [Hrun _]. by eapply summary_of_ok.
Qed.

Lemma benchmark_map_ok summaries :
  Forall (λ s, entry_ok (to_json s)) summaries → Forall entry_ok (benchmark_map summaries).*2.
Proof.
  intros Hall. apply Forall_fmap. apply dupdate_Forall; [constructor|].
  apply Forall_fmap. exact Hall.
Qed.

(** ** Exported summaries read back *)

Lemma entry_ok_sorted v : writable v = true → entry_ok v → entry_ok (sort_keys v).
Proof.
  intros Hw (d & -> & Htext & Hnum & z & Hz & Hpos). apply writable_obj in Hw as [Hd _].
  exists (sort_dict d). split; [apply sort_keys_obj|]. split_and!.
  - eapply Forall_impl; [exact Htext|]. intros k (s & Hs & Hb). exists s.
    by rewrite get_sort_dict, Hs.
  - eapply Forall_impl; [exact Hnum|]. intros k [Hn Hf]. unfold number_field.
    rewrite get_sort_dict by done. by destruct (get k d).
  - exists z. rewrite get_sort_dict by done. by destruct (get "sample_count" d).
Qed.

Lemma summary_ok_sorted suite_name expected payload :
  writable (JObj payload) = true → summary_ok suite_name expected payload →
  summary_ok suite_name expected (sort_dict payload).
Proof.
  intros [Hd Hw]%writable_obj [Hv [Hs Hb] (bs & Hbs & Hexp & Hok)]. split.
  - rewrite get_sort_dict by done. by destruct (get "schema_version" payload).
  - by rewrite get_sort_dict, Hs.
  - exists (sort_dict bs). rewrite get_sort_dict, Hbs, sort_keys_obj by done.
    split_and!; [done| |apply sort_dict_Forall].
    { eapply Forall_impl; [exact Hexp|]. intros x Hx. by rewrite sort_dict_keys. }
    assert (writable (JObj bs) = true) as Hwb.
    { unfold get in Hbs. destruct (dget "benchmarks" payload) as [v|] eqn:E; [|done].
      simpl in Hbs. subst v. rewrite Forall_forall in Hw.
      by apply (Hw ("benchmarks", JObj bs)), dget_elem. }
    apply writable_obj in Hwb as [_ Hwb]. rewrite Forall_fmap, Forall_forall in Hok.
    rewrite Forall_forall in Hwb. apply Forall_forall. intros kv Hin.
    apply entry_ok_sorted; [by apply Hwb|by apply Hok].
Qed.

Lemma validate_summary_Ok p suite_name expected w payload w' :
  validate_summary p suite_name expected w = (Ok payload, w') ↔
  w' = w ∧ json_file w p = Some (JObj payload) ∧ summary_ok suite_name expected payload.
Proof.
  unfold validate_summary. rewrite io_bind_Ok. setoid_rewrite floor_load_json_Ok.
  setoid_rewrite io_bind_pure. setoid_rewrite require_mapping_Ok. setoid_rewrite io_bind_pure.
  setoid_rewrite io_mret_Ok. split.
  - intros (v & w1 & [-> Hv] & d & -> & [] & Hok%validate_payload_Ok & -> & ->). done.
  - intros (-> & Hf & Hok). exists (JObj payload), w. split; [done|]. exists payload.
    split; [done|]. exists tt. by rewrite validate_payload_Ok.
Qed.

Lemma validates_written out suite_name expected payload w :
  writable (JObj payload) = true → summary_ok suite_name expected payload →
  file_bytes w out = Ok (dumps_indent (JObj payload) +:+ newline) →
  validate_summary out suite_name expected w = (Ok (sort_dict payload), w).
Proof.
  intros Hw Hok Hf. apply validate_summary_Ok. split; [done|]. split; [|by apply summary_ok_sorted].
  unfold json_file. rewrite Hf. cbn [mbind result_bind].
  by rewrite decode_dumps, loads_dumps, sort_keys_obj by (done || by right).
Qed.

(** The exporter's validation reads the summary without changing anything
    and passes exactly when the file holds an object with schema version 1, the
    suite's name, an entry for every expected benchmark, and entries that all
    have the seven texts, the four numbers and a positive sample count. *)
Theorem control_floor_validate_spec p suite_name expected w payload w' :
  validate_summary p suite_name expected w = (Ok payload, w') ↔
  w' = w ∧ json_file w p = Some (JObj payload) ∧ summary_ok suite_name expected payload.
Proof. apply validate_summary_Ok. Qed.

(** C22: for a suite name that is not just [.] or [/], and any Criterion
    directory, relative or absolute, an export that succeeds leaves at the output
    path the rendering of a summary in the exporter's format, with every expected
    benchmark; and when the strings of that summary hold no lone surrogate and its
    floats read back from their decimal form ([writable]), validating the file for
    the same suite and the same expected benchmarks passes, and returns the
    summary with its keys sorted. *)
Theorem control_floor_export_valid now_us criterion_root out suite_name expected w payload w' :
  p_parts (parse_path suite_name) ≠ [] →
  export_summary now_us criterion_root out suite_name expected w = (Ok payload, w') →
  summary_ok suite_name expected payload ∧
  file_bytes w' out = Ok (dumps_indent (JObj payload) +:+ newline) ∧
  (writable (JObj payload) = true →
   validate_summary out suite_name expected w' = (Ok (sort_dict payload), w')).
Proof.
  intros Hsuite_name. unfold export_summary. cbv zeta. rewrite io_gets_bind. intros Hrun.
  apply io_bind_raise_if in Hrun as [_ Hrun].
  apply io_bind_Ok in Hrun as (dirs & w1 & Hdirs & Hrun).
  apply io_bind_raise_if in Hrun as [Hne%bool_decide_eq_false Hrun].
  apply io_bind_Ok in Hrun as (summaries & w2 & Hsum & Hrun).
  apply io_bind_pure in Hrun as ([] & Hmiss%check_missing_Ok & Hrun). rewrite io_gets_bind in Hrun.
  apply io_bind_Ok in Hrun as ([] & w3 & _ & Hrun).
  apply io_bind_Ok in Hrun as ([] & w4 & Hwrite%write_text_reads & Hrun).
  apply io_mret_Ok in Hrun as [<- ->].
  match goal with |- summary_ok _ _ ?p ∧ _ => assert (summary_ok suite_name expected p) as Hsok;
    [|split; [exact Hsok|]; split; [done|]; intros Hw; by apply validates_written] end.
  assert (Forall nested dirs) as Hnested.
  { unfold benchmark_directories in Hdirs.
    apply io_bind_Ok in Hdirs as (names & w5 & _ & Hdirs). injection Hdirs as <- _.
    apply Forall_forall. intros d [_ Hd]%list_elem_of_filter.
    apply list_elem_of_fmap in Hd as (n & -> & _). by apply nested_entry. }
  destruct (io_mapM_Forall (summarize_benchmark suite_name) nested (λ s, entry_ok (to_json s) ∧ is_blank suite_name = false)
    dirs w1 summaries w2 Hnested) as [Hall Hlen]; [by intros; eapply summarize_benchmark_ok|done|].
  rewrite Forall_and in Hall. destruct Hall as [Hok Hsuite].
  split; simpl.
  - done.
  - split; [done|]. destruct summaries; [by destruct dirs|]. by apply Forall_inv in Hsuite.
  - eexists. split; [reflexivity|]. split; [done|]. by apply benchmark_map_ok.
Qed.

(** A Criterion tree with one benchmark *)
Definition criterion_file (leaf : string) (v : json) : list string * string :=
  (["repo"; "criterion"; "async_control_floor"; "spawn"; "new"; leaf], dumps v).

Definition point_sample : json := JObj [("point_estimate", JInt 12)].

Definition criterion_world : world := repo_world
  [criterion_file "benchmark.json" (JObj [("group_id", JStr "async_control_floor");
     ("function_id", JStr "tokio_spawn_join"); ("full_id", JStr "async_control_floor/spawn")]);
   criterion_file "estimates.json" (JObj [("mean", point_sample); ("median", point_sample);
     ("slope", point_sample); ("std_dev", point_sample)]);
   criterion_file "sample.json" (JObj [("sampling_mode", JStr "Flat"); ("times", JArr [JInt 1])])].

(** The tree as seen from the root of the repository *)
Definition criterion_root : path := parse_path "criterion".

Definition criterion_out : path := parse_path "/repo/target/floor.json".

Definition criterion_export : exc (dict json) * world :=
  export_summary (λ _, 0) criterion_root criterion_out "async_control_floor" ["tokio_spawn_join"]
    criterion_world.

Definition criterion_payload : dict json :=
  match criterion_export.1 with Ok payload => payload | Err _ => [] end.

Lemma control_floor_export_valid_witness :
  validate_summary criterion_out "async_control_floor" ["tokio_spawn_join"] criterion_export.2 =
  (Ok (sort_dict criterion_payload), criterion_export.2).
Proof.
  apply (control_floor_export_valid (λ _, 0) criterion_root criterion_out "async_control_floor"
    ["tokio_spawn_join"] criterion_world criterion_payload criterion_export.2).
  - discriminate.
  - apply io_run_fst. vm_compute. reflexivity.
  - vm_compute. reflexivity.
Defined.
