(* ===== verification/DashboardHtml.v ===== *)
(** * The pages of the dashboards

    The fixed text of the two HTML pages that hw-eval/visualize_interactive.py
    writes, cut where the script fills in a value.  A tilde stands for a double
    quote, which occurs in the pages; the tilde itself does not. *)

From Stdlib Require Import Ascii.
From S2P Require Import Prelude PyFloat PyVal.

(** Tildes become double quotes. *)
Fixpoint template (s : string) : string :=
  match s with
  | "" => ""
  | String c s => String (if bool_decide (c = "~"%char) then quote_char else c) (template s)
  end.

(** ** The dashboard *)

(** The style sheet and the heading, up to the line about the runs *)
Definition dashboard_head : string := template "<!DOCTYPE html>
<html>
<head>
    <title>hw-eval: DSA Benchmark Dashboard</title>
    <script src=~https://cdn.plot.ly/plotly-latest.min.js~></script>
    <style>
        body {
            font-family: -apple-system, BlinkMacSystemFont, ~Segoe UI~, Roboto, sans-serif;
            margin: 0;
            padding: 20px;
            background: #f5f5f5;
        }
        .container {
            max-width: 1400px;
            margin: 0 auto;
        }
        h1 {
            text-align: center;
            color: #333;
            margin-bottom: 5px;
        }
        .meta-info {
            text-align: center;
            color: #888;
            font-size: 12px;
            margin-bottom: 15px;
        }
        .controls {
            background: white;
            padding: 15px 20px;
            border-radius: 8px;
            box-shadow: 0 2px 4px rgba(0,0,0,0.1);
            margin-bottom: 20px;
            display: flex;
            flex-wrap: wrap;
            gap: 20px;
        }
        .filter-group {
            flex: 1;
            min-width: 130px;
        }
        .filter-group h3 {
            margin: 0 0 8px 0;
            font-size: 14px;
            color: #666;
            border-bottom: 1px solid #eee;
            padding-bottom: 5px;
        }
        .filter-group label {
            display: block;
            padding: 3px 0;
            cursor: pointer;
            font-size: 13px;
        }
        .filter-group input[type=~checkbox~] {
            margin-right: 6px;
        }
        .btn-group {
            display: flex;
            gap: 5px;
            margin-top: 5px;
        }
        .btn-group button {
            font-size: 11px;
            padding: 2px 8px;
            cursor: pointer;
            border: 1px solid #ccc;
            background: #f9f9f9;
            border-radius: 3px;
        }
        .btn-group button:hover {
            background: #e9e9e9;
        }
        .plot-container {
            background: white;
            border-radius: 8px;
            box-shadow: 0 2px 4px rgba(0,0,0,0.1);
            padding: 10px;
        }
    </style>
</head>
<body>
    <div class=~container~>
        <h1>hw-eval: DSA Hardware Benchmark Results</h1>
        <div class=~meta-info~>".

(** From that line to the check boxes of the queue types *)
Definition dashboard_controls : string := template "</div>

        <div class=~controls~>
            <div class=~filter-group~>
                <h3>Queue Type</h3>
                ".

(** From there to the check boxes of the strategies *)
Definition dashboard_strategy : string := template "
                <div class=~btn-group~>
                    <button onclick=~selectAll('queue_type')~>All</button>
                    <button onclick=~selectNone('queue_type')~>None</button>
                </div>
            </div>

            <div class=~filter-group~>
                <h3>Strategy</h3>
                ".

(** From there to those of the batch sizes *)
Definition dashboard_batch : string := template "
                <div class=~btn-group~>
                    <button onclick=~selectAll('strategy')~>All</button>
                    <button onclick=~selectNone('strategy')~>None</button>
                </div>
            </div>

            <div class=~filter-group~>
                <h3>Batch Size</h3>
                ".

(** From there to those of the concurrency levels *)
Definition dashboard_concurrency : string := template "
                <div class=~btn-group~>
                    <button onclick=~selectAll('batch_size')~>All</button>
                    <button onclick=~selectNone('batch_size')~>None</button>
                </div>
            </div>

            <div class=~filter-group~>
                <h3>Concurrency</h3>
                ".

(** The end of the controls, and the script up to the traces *)
Definition dashboard_plot : string := template "
                <div class=~btn-group~>
                    <button onclick=~selectAll('concurrency')~>All</button>
                    <button onclick=~selectNone('concurrency')~>None</button>
                </div>
            </div>
        </div>

        <div class=~plot-container~>
            <div id=~plotDiv~></div>
        </div>
    </div>

    <script>
        const traces = ".

Definition dashboard_metadata : string := template ";
        const traceMetadata = ".

Definition dashboard_layout : string := template ";
        const layout = ".

(** The script after the layout; [DashboardPage] models what it does *)
Definition dashboard_script : string := template ";
        const STORAGE_KEY = 'hweval_dashboard_filters';

        Plotly.newPlot('plotDiv', traces, layout, {responsive: true});

        function getCheckedValues(name) {
            const cbs = document.querySelectorAll(`input[name=~${name}~]:checked`);
            return Array.from(cbs).map(cb => cb.value);
        }

        function saveSelections() {
            const state = {};
            document.querySelectorAll('.filter-group').forEach(group => {
                const cbs = group.querySelectorAll('input[type=~checkbox~]');
                if (cbs.length === 0) return;
                const name = cbs[0].name;
                state[name] = Array.from(cbs).filter(cb => cb.checked).map(cb => cb.value);
            });
            try { localStorage.setItem(STORAGE_KEY, JSON.stringify(state)); } catch(e) {}
        }

        function restoreSelections() {
            try {
                const saved = JSON.parse(localStorage.getItem(STORAGE_KEY));
                if (!saved) return false;
                let restored = false;
                for (const [name, values] of Object.entries(saved)) {
                    const cbs = document.querySelectorAll(`input[name=~${name}~]`);
                    if (cbs.length === 0) continue;
                    const available = new Set(Array.from(cbs).map(cb => cb.value));
                    const valid = values.filter(v => available.has(v));
                    if (valid.length > 0) {
                        cbs.forEach(cb => cb.checked = valid.includes(cb.value));
                        restored = true;
                    }
                }
                return restored;
            } catch(e) { return false; }
        }

        function selectAll(name) {
            document.querySelectorAll(`input[name=~${name}~]`).forEach(cb => cb.checked = true);
            updatePlot();
        }

        function selectNone(name) {
            document.querySelectorAll(`input[name=~${name}~]`).forEach(cb => cb.checked = false);
            updatePlot();
        }

        function updatePlot() {
            saveSelections();

            const selStrategy = getCheckedValues('strategy');
            const selQueueType = getCheckedValues('queue_type');
            const selBatch = getCheckedValues('batch_size').map(Number);
            const selConc = getCheckedValues('concurrency').map(Number);

            const visibility = traceMetadata.map(meta => {
                if (meta.subplot === 'latency_median' || meta.subplot === 'latency_p99') {
                    return selQueueType.includes(meta.queue_type);
                }
                return selQueueType.includes(meta.queue_type) &&
                       selStrategy.includes(meta.strategy) &&
                       selBatch.includes(meta.batch_size) &&
                       selConc.includes(meta.concurrency);
            });

            // Show legend for first visible trace of each label (msg_rate subplot only)
            const seenLabels = new Set();
            const showLegend = traceMetadata.map((meta, i) => {
                if (visibility[i] && meta.subplot === 'msg_rate' && meta.label && !seenLabels.has(meta.label)) {
                    seenLabels.add(meta.label);
                    return true;
                }
                return false;
            });

            Plotly.restyle('plotDiv', {
                visible: visibility,
                showlegend: showLegend
            });
        }

        document.querySelectorAll('.controls input[type=~checkbox~]').forEach(cb => {
            cb.addEventListener('change', updatePlot);
        });

        if (restoreSelections()) {
            updatePlot();
        }
    </script>
</body>
</html>
".

(** ** The heatmap *)

(** The style sheet and the heading *)
Definition heatmap_head : string := template "<!DOCTYPE html>
<html>
<head>
    <title>hw-eval: Batch Heatmap</title>
    <script src=~https://cdn.plot.ly/plotly-latest.min.js~></script>
    <style>
        body {
            font-family: -apple-system, BlinkMacSystemFont, ~Segoe UI~, Roboto, sans-serif;
            margin: 0;
            padding: 20px;
            background: #f5f5f5;
        }
        .container {
            max-width: 1000px;
            margin: 0 auto;
        }
        h1 {
            text-align: center;
            color: #333;
            margin-bottom: 5px;
        }
        .meta-info {
            text-align: center;
            color: #888;
            font-size: 12px;
            margin-bottom: 15px;
        }
        .controls {
            background: white;
            padding: 15px 20px;
            border-radius: 8px;
            box-shadow: 0 2px 4px rgba(0,0,0,0.1);
            margin-bottom: 20px;
            display: flex;
            flex-wrap: wrap;
            gap: 20px;
        }
        .filter-group {
            flex: 1;
            min-width: 120px;
        }
        .filter-group h3 {
            margin: 0 0 8px 0;
            font-size: 14px;
            color: #666;
            border-bottom: 1px solid #eee;
            padding-bottom: 5px;
        }
        .filter-group label {
            display: block;
            padding: 3px 0;
            cursor: pointer;
            font-size: 13px;
        }
        .filter-group input[type=~radio~] {
            margin-right: 6px;
        }
        .plot-container {
            background: white;
            border-radius: 8px;
            box-shadow: 0 2px 4px rgba(0,0,0,0.1);
            padding: 10px;
        }
    </style>
</head>
<body>
    <div class=~container~>
        <h1>hw-eval: Batch Strategy Heatmap</h1>
        <div class=~meta-info~>".

(** From the line about the runs to the radio buttons of the queue types *)
Definition heatmap_controls : string := template "</div>

        <div class=~controls~>
            <div class=~filter-group~>
                <h3>Queue Type</h3>
                ".

Definition heatmap_strategy : string := template "
            </div>

            <div class=~filter-group~>
                <h3>Strategy</h3>
                ".

Definition heatmap_size : string := template "
            </div>

            <div class=~filter-group~>
                <h3>Message Size</h3>
                ".

Definition heatmap_metric : string := template "
            </div>

            <div class=~filter-group~>
                <h3>Metric</h3>
                ".

(** The end of the controls, and the script up to the traces *)
Definition heatmap_plot : string := template "
            </div>
        </div>

        <div class=~plot-container~>
            <div id=~heatmapDiv~></div>
        </div>
    </div>

    <script>
        const traces = ".

Definition heatmap_metadata : string := template ";
        const traceMetadata = ".

Definition heatmap_layout : string := template ";
        const layout = ".

(** The script after the layout *)
Definition heatmap_script : string := template ";
        const STORAGE_KEY = 'hweval_heatmap_filters';

        Plotly.newPlot('heatmapDiv', traces, layout, {responsive: true});

        function getSelectedValue(name) {
            const radio = document.querySelector(`input[name=~${name}~]:checked`);
            return radio ? radio.value : null;
        }

        function saveSelections() {
            const state = {};
            const names = new Set();
            document.querySelectorAll('.controls input[type=~radio~]').forEach(r => names.add(r.name));
            names.forEach(name => { state[name] = getSelectedValue(name); });
            try { localStorage.setItem(STORAGE_KEY, JSON.stringify(state)); } catch(e) {}
        }

        function restoreSelections() {
            try {
                const saved = JSON.parse(localStorage.getItem(STORAGE_KEY));
                if (!saved) return false;
                let restored = false;
                for (const [name, value] of Object.entries(saved)) {
                    if (!value) continue;
                    const radio = document.querySelector(`input[name=~${name}~][value=~${CSS.escape(value)}~]`);
                    if (radio) {
                        radio.checked = true;
                        restored = true;
                    }
                }
                return restored;
            } catch(e) { return false; }
        }

        function updateHeatmap() {
            saveSelections();

            const selQueueType = getSelectedValue('queue_type');
            const selStrategy = getSelectedValue('strategy');
            const selSize = parseInt(getSelectedValue('size'));
            const selMetric = getSelectedValue('metric');

            const visibility = traceMetadata.map(meta => {
                return meta.queue_type === selQueueType &&
                       meta.strategy === selStrategy &&
                       meta.size === selSize &&
                       meta.metric === selMetric;
            });

            const selectedMeta = traceMetadata.find((meta, i) => visibility[i]);
            const xLabel = selStrategy === 'pipelined_batch' ? 'Concurrency' : 'Burst Count';
            const title = selectedMeta ?
                `${selQueueType} | ${selStrategy === 'pipelined_batch' ? 'Pipelined Batch' : 'Burst-Batch'}: ${selectedMeta.metric_label}` :
                'Batch Heatmap';

            Plotly.restyle('heatmapDiv', { visible: visibility });
            Plotly.relayout('heatmapDiv', {
                'title.text': title,
                'xaxis.title': xLabel
            });
        }

        document.querySelectorAll('.controls input[type=~radio~]').forEach(r => {
            r.addEventListener('change', updateHeatmap);
        });

        if (restoreSelections()) {
            updateHeatmap();
        }
    </script>
</body>
</html>
".
