(* ===== verification/Dashboard.v ===== *)
(** * The interactive dashboards of the hardware evaluation

    hw-eval/visualize_interactive.py: loading the result files, the throughput
    and latency records, the Plotly traces with the metadata the page filters
    them by, the two pages and the program.  A record of the script, a dictionary
    with fixed keys, is a record here; what comes from the result files stays a
    JSON value, so that a missing key or a value of the wrong type raises where
    the script does.  The text of the pages is in [DashboardHtml]. *)

From Stdlib Require Import Ascii SpecFloat.
From S2P Require Import Prelude PyFloat PyVal PyPath Json JsonOut World PyColl RunnerCommon DashboardHtml.

Local Open Scope Z_scope.

Module Dashboard.

Definition human_size (n : json) : exc string :=
  mb ← py_ge n 1048576;
  if (mb : bool) then Ok (cat [py_str (floordiv_pow2 n 20); "MB"])
  else
    kb ← py_ge n 1024;
    Ok (if (kb : bool) then cat [py_str (floordiv_pow2 n 10); "KB"] else cat [py_str n; "B"]).

Definition COLORS : list string :=
  ["#1f77b4"; "#ff7f0e"; "#2ca02c"; "#d62728"; "#9467bd"; "#8c564b"; "#e377c2"].
Definition LINE_STYLES : list string :=
  ["solid"; "dash"; "dot"; "dashdot"; "longdash"; "longdashdot"].
Definition MARKERS : list string :=
  ["circle"; "square"; "diamond"; "triangle-up"; "cross"; "x"; "star"].

Record strategy_info : Type := StrategyInfo {
  si_label : string;
  si_color : string;
  si_dash : string;
}.

Definition STRATEGY_INFO : dict strategy_info :=
  [("sliding_window", StrategyInfo "Sliding Window" "#1f77b4" "solid");
   ("burst", StrategyInfo "Burst" "#ff7f0e" "dash");
   ("pipelined_batch", StrategyInfo "Pipelined Batch" "#2ca02c" "dot");
   ("burst_batch", StrategyInfo "Burst-Batch" "#d62728" "dashdot")].

(** ** Loading *)

Definition load_results (p : path) : io json :=
  text ← read_text p;
  pure_ (json_loads text).

Definition queue_type_label (metadata : json) : exc string :=
  dedicated ← py_get metadata "wq_dedicated" JNull;
  Ok (if truthy dedicated then "dedicated" else "shared").

Record result_set : Type := ResultSet {
  rs_path : path;
  rs_data : json;
  rs_metadata : json;
  rs_queue_type : string;
}.

Definition load_result_sets (paths : list string) : io (list result_set) :=
  mapM (λ path_str,
    let path := parse_path path_str in
    data ← load_results path;
    pure_ (
      metadata ← item "metadata" data;
      queue_type ← queue_type_label metadata;
      Ok (ResultSet path data metadata queue_type))) paths.

(** [sorted({rs["metadata"][key] for rs in result_sets})] *)
Definition metadata_values (key : string) (result_sets : list result_set) : exc (list json) :=
  s ← foldM (λ s rs, v ← item key (rs_metadata rs); set_add s v) [] result_sets;
  py_sorted s.

Definition f_1e9 : float := f_of_decimal false 1 9.
Definition f_1e6 : float := f_of_decimal false 1 6.
Definition f_1e3 : float := f_of_decimal false 1 3.

Definition queue_types_text (result_sets : list result_set) : string :=
  join ", " (sorted_names (rs_queue_type <$> result_sets)).

Definition build_meta_text (result_sets : list result_set) : exc string :=
  let queue_types := queue_types_text result_sets in
  devices ← (metadata_values "device" result_sets ≫= py_join ", ");
  iterations ← metadata_values "iterations" result_sets;
  pinned_cores ← metadata_values "pinned_core" result_sets;
  tsc ← (metadata_values "tsc_freq_hz" result_sets ≫=
         mapM (λ v, x ← div_float v f_1e9; Ok (format_fixed 3 x)));
  cold_cache ← metadata_values "cold_cache" result_sets;
  let texts l := join ", " (py_str <$> l) in
  Ok (cat ["Queue Type: "; queue_types; " | Device: "; devices; " | Core: "; texts pinned_cores;
           " | TSC: "; join ", " tsc; " GHz"; " | Iterations: "; texts iterations;
           " | Cold cache: "; texts cold_cache]).

(** The code points of the digits zero that Unicode 15 has; the other digits of a
    script follow its zero. *)
Definition zero_digits : list Z :=
  [48; 1632; 1776; 1984; 2406; 2534; 2662; 2790; 2918; 3046; 3174; 3302; 3430; 3558; 3664;
   3792; 3872; 4160; 4240; 6112; 6160; 6470; 6608; 6784; 6800; 6992; 7088; 7232; 7248; 42528;
   43216; 43264; 43472; 43504; 43600; 44016; 65296; 66720; 68912; 69734; 69872; 69942; 70096;
   70384; 70736; 70864; 71248; 71360; 71472; 71904; 72016; 72784; 73040; 73120; 73552; 92768;
   92864; 93008; 120782; 120792; 120802; 120812; 120822; 123200; 123632; 124144; 125264;
   130032].

Definition digit_value (c : Z) : option Z :=
  (λ zero, c - zero) <$> List.find (λ zero, (zero <=? c) && (c <=? zero + 9)) zero_digits.

(** [int] of [acc] followed by the digits at the start of [cs] *)
Fixpoint decimal_from (acc : Z) (cs : list Z) : Z :=
  match cs with
  | [] => acc
  | c :: cs =>
      match digit_value c with
      | Some d => decimal_from (10 * acc + d) cs
      | None => acc
      end
  end.

(** [re.match(prefix + r"(\d+)", name)] and [int] of the group *)
Definition match_digits (prefix name : string) : option Z :=
  if startswith prefix name then
    match code_points (drop_str (String.length prefix) name) with
    | c :: cs => (λ d, decimal_from d cs) <$> digit_value c
    | [] => None
    end
  else None.

(** The strategy and the batch size of a benchmark; [None] for other names *)
Definition classify_name (name : string) : option (string * Z) :=
  match match_digits "pipelined_batch_b" name with
  | Some n => Some ("pipelined_batch", n)
  | None =>
      match match_digits "burst_batch_b" name with
      | Some n => Some ("burst_batch", n)
      | None =>
          if bool_decide (name = "memmove") then Some ("sliding_window", 0)
          else if bool_decide (name = "burst_memmove") then Some ("burst", 0)
          else None
      end
  end.

Definition classify_benchmark (name : json) : exc (option (string * Z)) :=
  match name with
  | JStr name => Ok (classify_name name)
  | v => Err (TypeError (cat ["expected string or bytes-like object, got '"; type_name v; "'"]))
  end.

(** ** Records *)

Record throughput_record : Type := ThroughputRecord {
  t_queue_type : string;
  t_strategy : string;
  t_batch_size : Z;
  t_concurrency : json;
  t_size : json;
  t_ops_per_sec : json;
  t_bandwidth_mb_s : json;
}.

Record latency_record : Type := LatencyRecord {
  l_queue_type : string;
  l_benchmark : string;
  l_size : json;
  l_median_ns : json;
  l_p99_ns : json;
}.

(** The record of one throughput entry, if its strategy is one of those [keep]
    accepts *)
Definition throughput_record_of (keep : string → bool) (queue_type : string) (r : json)
    : exc (option throughput_record) :=
  benchmark ← item "benchmark" r;
  class ← classify_benchmark benchmark;
  match class with
  | Some (strategy, batch_n) =>
      if keep strategy then
        concurrency ← item "concurrency" r;
        size ← item "size" r;
        ops_per_sec ← item "ops_per_sec" r;
        bandwidth_mb_s ← item "bandwidth_mb_s" r;
        Ok (Some (ThroughputRecord queue_type strategy batch_n concurrency size ops_per_sec
                    bandwidth_mb_s))
      else Ok None
  | None => Ok None
  end.

(** [for result_set ...: for r in result_set["data"][key]: ...] *)
Definition collect_records {A} (key : string) (record_of : string → json → exc (option A))
    (result_sets : list result_set) : exc (list A) :=
  foldM (λ records rs,
    entries ← item key (rs_data rs);
    entries ← py_iter entries;
    foldM (λ records r,
      o ← record_of (rs_queue_type rs) r;
      Ok (records ++ option_list o)) records entries) [] result_sets.

Definition throughput_records : list result_set → exc (list throughput_record) :=
  collect_records "throughput" (throughput_record_of (λ _, true)).

Definition LATENCY_BENCHMARKS : list string :=
  ["memmove"; "crc_gen"; "copy_crc"; "sw_memcpy"; "sw_crc32c"].

Definition latency_record_of (queue_type : string) (r : json) : exc (option latency_record) :=
  size ← item "size" r;
  match size with
  | JNull => Ok None
  | _ =>
      benchmark ← item "benchmark" r;
      match benchmark with
      | JStr b =>
          if bool_decide (b ∈ LATENCY_BENCHMARKS) then
            ns ← item "ns" r;
            median ← item "median" ns;
            p99 ← py_get ns "p99" median;
            Ok (Some (LatencyRecord queue_type b size median p99))
          else Ok None
      | _ => Ok None
      end
  end.

Definition latency_records : list result_set → exc (list latency_record) :=
  collect_records "latency" latency_record_of.

(** ** Dimensions *)

(** [list(STRATEGY_INFO.keys()).index(s) if s in STRATEGY_INFO else 99] *)
Definition strategy_index (s : string) : Z :=
  match list_find (λ k, k = s) STRATEGY_INFO.*1 with
  | Some (i, _) => Z.of_nat i
  | None => 99
  end.

Definition strategies_of (records : list throughput_record) : exc (list string) :=
  sorted_on (λ s, JInt (strategy_index s)) (remove_dups (t_strategy <$> records)).

(** The values of the records in each dimension, in order.  The sizes are not
    used further, but sorting them can raise. *)
Record dimensions : Type := Dimensions {
  d_queue_types : list string;
  d_strategies : list string;
  d_batch_sizes : list Z;
  d_concurrencies : list json;
  d_sizes : list json;
}.

Definition dimensions_of (records : list throughput_record) : exc dimensions :=
  let queue_types := sorted_names (t_queue_type <$> records) in
  strategies ← strategies_of records;
  let batch_sizes := sorted_ints (t_batch_size <$> records) in
  concurrencies ← sorted_set (t_concurrency <$> records);
  sizes ← sorted_set (t_size <$> records);
  Ok (Dimensions queue_types strategies batch_sizes concurrencies sizes).

(** ** Throughput traces *)

(** What [traces_json] and [trace_metadata] hold so far *)
Record plot : Type := Plot {
  p_traces : list json;
  p_metadata : list json;
}.

(** [traces_json.append(trace); trace_metadata.append(meta)] *)
Definition add_trace (trace meta : json) (p : plot) : plot :=
  Plot (p_traces p ++ [trace]) (p_metadata p ++ [meta]).

Definition info_of (si : nat) (strategy : string) : strategy_info :=
  default (StrategyInfo strategy (default "" (COLORS !! (si mod length COLORS)%nat)) "solid")
    (dget strategy STRATEGY_INFO).

Definition batch_label (bs : Z) : string := if 0 <? bs then "b=" +:+ pretty bs else "single".

Definition trace_label (queue_type : string) (info : strategy_info) (bs : Z) (conc : json) : string :=
  cat [queue_type; " | "; si_label info; " ("; batch_label bs; ", c="; py_str conc; ")"].

(** The records drawn together *)
Definition in_combination (queue_type strategy : string) (bs : Z) (conc : json)
    (r : throughput_record) : bool :=
  bool_decide (t_queue_type r = queue_type) && bool_decide (t_strategy r = strategy) &&
  (t_batch_size r =? bs) && py_eq (t_concurrency r) conc.

(** [queue_type == queue_types[0] and ...] *)
Definition is_first (d : dimensions) (queue_type strategy : string) (bs : Z) (conc : json) : bool :=
  bool_decide (head (d_queue_types d) = Some queue_type) &&
  bool_decide (head (d_strategies d) = Some strategy) &&
  bool_decide (head (d_batch_sizes d) = Some bs) &&
  match head (d_concurrencies d) with Some c => py_eq conc c | None => false end.

Definition throughput_trace (xs ys : list json) (label : string) (info : strategy_info)
    (marker_sym : string) (visible legend : bool) (unit_ xaxis yaxis : string) : json := JObj
  [("x", JArr xs); ("y", JArr ys); ("mode", JStr "lines+markers"); ("name", JStr label);
   ("line", JObj [("color", JStr (si_color info)); ("dash", JStr (si_dash info)); ("width", JInt 2)]);
   ("marker", JObj [("size", JInt 7); ("symbol", JStr marker_sym)]);
   ("visible", JBool visible); ("showlegend", JBool legend); ("legendgroup", JStr label);
   ("hovertemplate", JStr (cat [label; "<br>%{x}B: %{y:.2f} "; unit_; "<extra></extra>"]));
   ("xaxis", JStr xaxis); ("yaxis", JStr yaxis)].

Definition throughput_meta (queue_type strategy : string) (bs : Z) (conc : json)
    (label subplot : string) : json := JObj
  [("queue_type", JStr queue_type); ("strategy", JStr strategy); ("batch_size", JInt bs);
   ("concurrency", conc); ("label", JStr label); ("subplot", JStr subplot)].

(** The body of the innermost loop: the two traces of one combination *)
Definition combination_step (records : list throughput_record) (d : dimensions)
    (qi si ci : nat) (queue_type strategy : string) (bs : Z) (conc : json) (p : plot) : exc plot :=
  let info := info_of si strategy in
  let pts := filter (λ r, in_combination queue_type strategy bs conc r = true) records in
  match pts with
  | [] => Ok p
  | _ =>
      pts ← sorted_on t_size pts;
      let xs := t_size <$> pts in
      ys_ops ← mapM (λ r, div_float (t_ops_per_sec r) f_1e6) pts;
      ys_bw ← mapM (λ r, div_float (t_bandwidth_mb_s r) f_1e3) pts;
      let label := trace_label queue_type info bs conc in
      let marker_sym := default "" (MARKERS !! ((ci + qi) mod length MARKERS)%nat) in
      let visible := is_first d queue_type strategy bs conc in
      let meta := throughput_meta queue_type strategy bs conc label in
      let p := add_trace
                 (throughput_trace xs (JFloat <$> ys_ops) label info marker_sym visible visible
                    "Mops/s" "x" "y") (meta "msg_rate") p in
      Ok (add_trace
            (throughput_trace xs (JFloat <$> ys_bw) label info marker_sym visible false
               "GB/s" "x2" "y2") (meta "bandwidth") p)
  end.

(** The four nested loops *)
Definition throughput_plot (records : list throughput_record) (d : dimensions) (p : plot)
    : exc plot :=
  foldM (λ p '(qi, queue_type),
    foldM (λ p '(si, strategy),
      foldM (λ p bs,
        foldM (λ p '(ci, conc), combination_step records d qi si ci queue_type strategy bs conc p)
          p (enumerate (d_concurrencies d)))
        p (d_batch_sizes d))
      p (enumerate (d_strategies d)))
    p (enumerate (d_queue_types d)).

(** ** Latency traces *)

Definition lat_colors : dict string :=
  [("memmove", "#1f77b4"); ("crc_gen", "#ff7f0e"); ("copy_crc", "#2ca02c");
   ("sw_memcpy", "#d62728"); ("sw_crc32c", "#9467bd")].
Definition lat_markers : dict string :=
  [("memmove", "circle"); ("crc_gen", "square"); ("copy_crc", "diamond");
   ("sw_memcpy", "triangle-up"); ("sw_crc32c", "cross")].

Definition latency_trace (xs ys : list json) (label name color : string) (dash : list (string * json))
    (marker xaxis yaxis : string) : json := JObj
  [("x", JArr xs); ("y", JArr ys); ("mode", JStr "lines+markers"); ("name", JStr name);
   ("line", JObj ([("color", JStr color)] ++ dash ++ [("width", JInt 2)]));
   ("marker", JObj [("size", JInt 7); ("symbol", JStr marker)]);
   ("visible", JBool true); ("showlegend", JBool false); ("legendgroup", JStr ("lat_" +:+ label));
   ("hovertemplate", JStr (cat [name; "<br>%{x}B: %{y:.0f} ns<extra></extra>"]));
   ("xaxis", JStr xaxis); ("yaxis", JStr yaxis)].

Definition latency_meta (subplot queue_type bench : string) : json := JObj
  [("subplot", JStr subplot); ("queue_type", JStr queue_type); ("latency_bench", JStr bench)].

Definition latency_step (records : list latency_record) (queue_type bench : string) (p : plot)
    : exc plot :=
  pts ← sorted_on l_size (filter (λ r, l_queue_type r = queue_type ∧ l_benchmark r = bench) records);
  match pts with
  | [] => Ok p
  | _ =>
      let xs := l_size <$> pts in
      let color := default "#333" (dget bench lat_colors) in
      let marker := default "circle" (dget bench lat_markers) in
      let label := cat [queue_type; " | "; bench] in
      let p := add_trace
                 (latency_trace xs (l_median_ns <$> pts) label label color [] marker "x3" "y3")
                 (latency_meta "latency_median" queue_type bench) p in
      Ok (add_trace
            (latency_trace xs (l_p99_ns <$> pts) label (label +:+ " p99") color
               [("dash", JStr "dash")] marker "x4" "y4")
            (latency_meta "latency_p99" queue_type bench) p)
  end.

Definition latency_plot (records : list latency_record) (p : plot) : exc plot :=
  let latency_benchmarks := sorted_names (l_benchmark <$> records) in
  let latency_queue_types := sorted_names (l_queue_type <$> records) in
  foldM (λ p queue_type, foldM (λ p bench, latency_step records queue_type bench p)
           p latency_benchmarks) p latency_queue_types.

(** ** The dashboard *)

(** A float literal with [k] digits after the point *)
Definition decimal (m k : Z) : json := JFloat (f_of_decimal false m (- k)).

Definition dashboard_layout_json : json := JObj
  [("title", JObj
    [("text", JStr "hw-eval: DSA Hardware Benchmark Results");
     ("x", decimal 5 1); ("xanchor", JStr "center")]);
   ("height", JInt 750); ("hovermode", JStr "closest");
   ("margin", JObj [("t", JInt 80); ("b", JInt 80); ("r", JInt 220); ("l", JInt 80)]);
   ("legend", JObj
    [("orientation", JStr "v"); ("yanchor", JStr "top"); ("y", JInt 1); ("xanchor", JStr "left");
     ("x", decimal 102 2); ("font", JObj [("size", JInt 10)]);
     ("bgcolor", JStr "rgba(255,255,255,0.8)")]);
   ("grid", JObj
    [("rows", JInt 2); ("columns", JInt 2); ("pattern", JStr "independent");
     ("roworder", JStr "top to bottom")]);
   ("xaxis", JObj
    [("type", JStr "log"); ("title", JStr "Message Size (bytes)");
     ("domain", JArr [JInt 0; decimal 45 2]); ("anchor", JStr "y")]);
   ("yaxis", JObj
    [("title", JStr "Message Rate (Mops/s)"); ("rangemode", JStr "tozero");
     ("domain", JArr [decimal 55 2; JInt 1]); ("anchor", JStr "x")]);
   ("xaxis2", JObj
    [("type", JStr "log"); ("title", JStr "Message Size (bytes)");
     ("domain", JArr [decimal 55 2; JInt 1]); ("anchor", JStr "y2")]);
   ("yaxis2", JObj
    [("title", JStr "Bandwidth (GB/s)"); ("rangemode", JStr "tozero");
     ("domain", JArr [decimal 55 2; JInt 1]); ("anchor", JStr "x2")]);
   ("xaxis3", JObj
    [("type", JStr "log"); ("title", JStr "Message Size (bytes)");
     ("domain", JArr [JInt 0; decimal 45 2]); ("anchor", JStr "y3")]);
   ("yaxis3", JObj
    [("title", JStr "Median Latency (ns)"); ("type", JStr "log");
     ("domain", JArr [JInt 0; decimal 4 1]); ("anchor", JStr "x3")]);
   ("xaxis4", JObj
    [("type", JStr "log"); ("title", JStr "Message Size (bytes)");
     ("domain", JArr [decimal 55 2; JInt 1]); ("anchor", JStr "y4")]);
   ("yaxis4", JObj
    [("title", JStr "P99 Latency (ns)"); ("type", JStr "log");
     ("domain", JArr [JInt 0; decimal 4 1]); ("anchor", JStr "x4")]);
   ("annotations", JArr
    [JObj
      [("text", JStr "<b>Message Rate vs Size</b>"); ("x", decimal 225 3);
       ("y", decimal 102 2); ("xref", JStr "paper");
       ("yref", JStr "paper"); ("showarrow", JBool false); ("font", JObj [("size", JInt 14)])];
     JObj
      [("text", JStr "<b>Bandwidth vs Size</b>"); ("x", decimal 775 3);
       ("y", decimal 102 2); ("xref", JStr "paper");
       ("yref", JStr "paper"); ("showarrow", JBool false); ("font", JObj [("size", JInt 14)])];
     JObj
      [("text", JStr "<b>Median Latency vs Size</b>");
       ("x", decimal 225 3); ("y", decimal 43 2);
       ("xref", JStr "paper"); ("yref", JStr "paper"); ("showarrow", JBool false);
       ("font", JObj [("size", JInt 14)])];
     JObj
      [("text", JStr "<b>P99 Latency vs Size</b>"); ("x", decimal 775 3);
       ("y", decimal 43 2); ("xref", JStr "paper");
       ("yref", JStr "paper"); ("showarrow", JBool false); ("font", JObj [("size", JInt 14)])]])].

(** One [<input>] line per value; [checked i] tells whether the box is checked *)
Definition make_inputs (kind : string) (checked : nat → bool) (name : string)
    (values labels : list string) : string :=
  join (newline +:+ "                ") (map (λ '(i, (val, label)),
    template (cat ["<label><input type=~"; kind; "~ name=~"; name; "~ value=~"]) +:+ val +:+
    template "~ " +:+ (if checked i : bool then "checked" else "") +:+ "> " +:+ label +:+ "</label>")
    (enumerate (zip values labels))).

Definition make_checkboxes (name : string) (values labels : list string) (default_all : bool) : string :=
  make_inputs "checkbox" (λ i, default_all || bool_decide (i = 0%nat)) name values labels.

Definition strategy_label (s : string) : string :=
  match dget s STRATEGY_INFO with Some info => si_label info | None => s end.

Definition dashboard_page (meta_text : string) (d : dimensions) (p : plot) : string :=
  let batch_labels := map (λ b, if 0 <? b then pretty b else "single") (d_batch_sizes d) in
  let concurrencies := py_str <$> d_concurrencies d in
  cat [dashboard_head; meta_text; dashboard_controls;
       make_checkboxes "queue_type" (d_queue_types d) (d_queue_types d) true; dashboard_strategy;
       make_checkboxes "strategy" (d_strategies d) (strategy_label <$> d_strategies d) true;
       dashboard_batch;
       make_checkboxes "batch_size" (pretty <$> d_batch_sizes d) batch_labels false;
       dashboard_concurrency; make_checkboxes "concurrency" concurrencies concurrencies false;
       dashboard_plot; dumps (JArr (p_traces p)); dashboard_metadata; dumps (JArr (p_metadata p));
       dashboard_layout; dumps dashboard_layout_json; dashboard_script].

(** What [create_dashboard] computes before it writes the page *)
Definition dashboard_plot_of (result_sets : list result_set) : exc (dimensions * plot) :=
  records ← throughput_records result_sets;
  latencies ← latency_records result_sets;
  d ← dimensions_of records;
  p ← throughput_plot records d (Plot [] []);
  p ← latency_plot latencies p;
  Ok (d, p).

(** [with open(p, "w") as f: f.write(text)] *)
Definition write_page (p : path) (text : string) : io unit := write_utf8 p text.

Definition create_dashboard (result_sets : list result_set) (output_path : path) : io unit :=
  '(d, p) ← pure_ (dashboard_plot_of result_sets);
  meta_text ← pure_ (build_meta_text result_sets);
  write_page output_path (dashboard_page meta_text d p);;
  print ("Saved dashboard to: " +:+ path_str output_path).

(** ** The heatmap *)

Definition heatmap_records : list result_set → exc (list throughput_record) :=
  collect_records "throughput" (throughput_record_of (λ strategy,
    bool_decide (strategy ∈ ["pipelined_batch"; "burst_batch"]))).

(** A metric: its key, its label, the field and the factor *)
Record metric : Type := Metric {
  m_key : string;
  m_label : string;
  m_field : throughput_record → json;
  m_scale : float;
}.

Definition metrics : list metric :=
  [Metric "ops_per_sec" "Message Rate (Mops/s)" t_ops_per_sec (f_of_decimal false 1 (-6));
   Metric "bandwidth_mb_s" "Bandwidth (GB/s)" t_bandwidth_mb_s (f_of_decimal false 1 (-3))].

(** [[p[metric_key] * scale for p in pts if ...]] and its first element, or 0 *)
Definition grid_cell (m : metric) (pts : list throughput_record) (bs : Z) (c : json) : exc json :=
  val ← mapM (λ p, mul_float (m_field m p) (m_scale m))
          (filter (λ p, (t_batch_size p =? bs) && py_eq (t_concurrency p) c = true) pts);
  Ok (match val with [] => JInt 0 | v :: _ => JFloat v end).

(** Rows are batch sizes, columns concurrency levels. *)
Definition grid_of (m : metric) (pts : list throughput_record) (batch_sizes : list Z)
    (conc_levels : list json) : exc (list (list json)) :=
  mapM (λ bs, mapM (λ c, grid_cell m pts bs c) conc_levels) batch_sizes.

(** [f"{v:.1f}"] of a cell *)
Definition cell_text (v : json) : string :=
  match v with
  | JFloat f => format_fixed 1 f
  | _ => format_fixed 1 f_zero
  end.

Definition heatmap_trace (grid : list (list json)) (conc_levels : list json) (batch_sizes : list Z)
    (visible : bool) (conc_label metric_label : string) : json := JObj
  [("z", JArr (JArr <$> grid)); ("x", JArr (JStr ∘ py_str <$> conc_levels));
   ("y", JArr (JStr ∘ pretty <$> batch_sizes)); ("type", JStr "heatmap");
   ("colorscale", JStr "YlOrRd"); ("reversescale", JBool true); ("visible", JBool visible);
   ("hovertemplate", JStr (cat ["batch=%{y}<br>"; conc_label; "=%{x}<br>%{z:.1f}<extra></extra>"]));
   ("colorbar", JObj [("title", JStr metric_label)]);
   ("text", JArr ((λ row, JArr (JStr ∘ cell_text <$> row)) <$> grid));
   ("texttemplate", JStr "%{text}"); ("textfont", JObj [("size", JInt 10)])].

Definition heatmap_meta (queue_type strategy : string) (size : json) (m : metric) : json := JObj
  [("queue_type", JStr queue_type); ("strategy", JStr strategy); ("size", size);
   ("metric", JStr (m_key m)); ("metric_label", JStr (m_label m))].

Definition in_heatmap (queue_type strategy : string) (size : json) (r : throughput_record) : bool :=
  bool_decide (t_queue_type r = queue_type) && bool_decide (t_strategy r = strategy) &&
  py_eq (t_size r) size.

(** The dimensions of the heatmap page *)
Record heat_dimensions : Type := HeatDimensions {
  h_queue_types : list string;
  h_strategies : list string;
  h_sizes : list json;
}.

Definition heat_dimensions_of (records : list throughput_record) : exc heat_dimensions :=
  let queue_types := sorted_names (t_queue_type <$> records) in
  strategies ← strategies_of records;
  sizes ← sorted_set (t_size <$> records);
  Ok (HeatDimensions queue_types strategies sizes).

Definition heat_first (d : heat_dimensions) (queue_type strategy : string) (size : json)
    (m : metric) : bool :=
  bool_decide (head (h_queue_types d) = Some queue_type) &&
  bool_decide (head (h_strategies d) = Some strategy) &&
  match head (h_sizes d) with Some s => py_eq size s | None => false end &&
  bool_decide (m_key m = "ops_per_sec").

Definition heatmap_step (records : list throughput_record) (d : heat_dimensions)
    (queue_type strategy : string) (size : json) (p : plot) (m : metric) : exc plot :=
  let pts := filter (λ r, in_heatmap queue_type strategy size r = true) records in
  match pts with
  | [] => Ok p
  | _ =>
      let batch_sizes := sorted_ints (t_batch_size <$> pts) in
      conc_levels ← sorted_set (t_concurrency <$> pts);
      grid ← grid_of m pts batch_sizes conc_levels;
      let conc_label :=
        if bool_decide (strategy = "pipelined_batch") then "Concurrency" else "Burst Count" in
      let visible := heat_first d queue_type strategy size m in
      Ok (add_trace (heatmap_trace grid conc_levels batch_sizes visible conc_label (m_label m))
            (heatmap_meta queue_type strategy size m) p)
  end.

Definition heatmap_plot_of (records : list throughput_record) (d : heat_dimensions) : exc plot :=
  foldM (λ p queue_type,
    foldM (λ p strategy,
      foldM (λ p size, foldM (heatmap_step records d queue_type strategy size) p metrics)
        p (h_sizes d))
      p (h_strategies d))
    (Plot [] []) (h_queue_types d).

Definition heatmap_layout_json : json := JObj
  [("title", JObj
    [("text", JStr "hw-eval: Batch Strategy Heatmap"); ("x", decimal 5 1);
     ("xanchor", JStr "center")]);
   ("xaxis", JObj [("title", JStr "Concurrency / Burst Count")]);
   ("yaxis", JObj [("title", JStr "Batch Size")]); ("height", JInt 550)].

Definition make_radios (name : string) (values labels : list string) : string :=
  make_inputs "radio" (λ i, bool_decide (i = 0%nat)) name values labels.

Definition heatmap_page (meta_text : string) (d : heat_dimensions) (size_labels : list string)
    (p : plot) : string :=
  cat [heatmap_head; meta_text; heatmap_controls;
       make_radios "queue_type" (h_queue_types d) (h_queue_types d); heatmap_strategy;
       make_radios "strategy" (h_strategies d) (strategy_label <$> h_strategies d); heatmap_size;
       make_radios "size" (py_str <$> h_sizes d) size_labels; heatmap_metric;
       make_radios "metric" (m_key <$> metrics) (m_label <$> metrics); heatmap_plot;
       dumps (JArr (p_traces p)); heatmap_metadata; dumps (JArr (p_metadata p)); heatmap_layout;
       dumps heatmap_layout_json; heatmap_script].

Definition create_heatmap_dashboard (result_sets : list result_set) (output_path : path) : io unit :=
  records ← pure_ (heatmap_records result_sets);
  match records with
  | [] => print "No pipelined/burst-batch data for heatmap"
  | _ =>
      d ← pure_ (heat_dimensions_of records);
      p ← pure_ (heatmap_plot_of records d);
      size_labels ← pure_ (mapM human_size (h_sizes d));
      meta_text ← pure_ (build_meta_text result_sets);
      write_page output_path (heatmap_page meta_text d size_labels p);;
      print ("Saved heatmap to: " +:+ path_str output_path)
  end.

(** ** The program *)

(** The parsed command line: the input files, at least one, and the output
    directory *)
Record arguments : Type := Arguments {
  a_input : list string;
  a_outdir : string;
}.

Definition main (args : arguments) : io unit :=
  result_sets ← load_result_sets (a_input args);
  let outdir := parse_path (a_outdir args) in
  mkdir_one outdir;;
  iterM (λ rs,
    device ← pure_ (item "device" (rs_metadata rs));
    print (cat ["Loaded "; path_str (rs_path rs); ": "; py_str device; " ("; rs_queue_type rs; ")"]))
    result_sets;;
  print ("Queue types: " +:+ queue_types_text result_sets);;
  create_dashboard result_sets (path_div outdir "dashboard.html");;
  create_heatmap_dashboard result_sets (path_div outdir "heatmap.html");;
  print (newline +:+ "Open in browser:");;
  print ("  " +:+ path_str (path_div outdir "dashboard.html"));;
  print ("  " +:+ path_str (path_div outdir "heatmap.html")).
End Dashboard.
