(* ===== verification/DashboardPage.v ===== *)
(** * The scripts in the dashboard pages

    What the pages do in the browser: the check boxes and radio buttons, the
    selections kept in the local storage, and which traces are shown.  The plot
    is its list of flags, one per trace, which [Plotly.newPlot] takes from the
    traces and [Plotly.restyle] replaces; a JSON number is a double.  [Number] of
    a text that is not a decimal numeral is NaN.  Only these scripts write to
    their storage key. *)

From Stdlib Require Import Ascii SpecFloat.
From S2P Require Import Prelude PyFloat PyVal Json JsonOut PyColl.

Local Open Scope Z_scope.

Module DashboardPage.

(** ** JavaScript values *)

(** [Number(s)] *)
Definition js_number (s : string) : float :=
  match scan_number s with
  | Some (JInt z, "") => f_normalize z 0
  | Some (JFloat f, "") => f
  | _ => S754_nan
  end.

(** A number of the page's JSON *)
Definition js_float (v : json) : option float :=
  match v with
  | JInt z => Some (f_normalize z 0)
  | JFloat f => Some f
  | _ => None
  end.

(** [Array.includes] takes NaN for equal to itself. *)
Definition same_value_zero (a b : float) : bool :=
  match a, b with
  | S754_nan, S754_nan => true
  | _, _ => f_eqb a b
  end.

(** [l.includes(v)] for an array of numbers, and for one of strings *)
Definition includes_number (l : list float) (v : json) : bool :=
  match js_float v with
  | Some f => existsb (same_value_zero f) l
  | None => false
  end.

Definition includes_text (l : list string) (v : json) : bool :=
  match v with JStr s => bool_decide (s ∈ l) | _ => false end.

(** [meta.key]; [undefined] is [None] *)
Definition prop (key : string) (meta : json) : option json := as_dict meta ≫= dget key.
Definition prop_is (key text : string) (meta : json) : bool :=
  match prop key meta with Some (JStr s) => bool_decide (s = text) | _ => false end.
Definition prop_in (key : string) (includes : json → bool) (meta : json) : bool :=
  match prop key meta with Some v => includes v | None => false end.

(** ** Controls *)

Record box : Type := Box {
  b_value : string;
  b_checked : bool;
}.

(** The groups of boxes by name, in the order of the document *)
Abbreviation controls := (dict (list box)).

Definition boxes (name : string) (c : controls) : list box := default [] (dget name c).

Definition checked_values (bs : list box) : list string := b_value <$> filter (λ b, b_checked b = true) bs.

Definition getCheckedValues (name : string) (c : controls) : list string :=
  checked_values (boxes name c).

(** What [saveSelections] stores: the checked values of every group that has
    boxes *)
Definition saveSelections (c : controls) : dict (list string) :=
  omap (λ '(name, bs), match bs with [] => None | _ => Some (name, checked_values bs) end) c.

(** [cbs.forEach(cb => cb.checked = chosen(cb.value))] *)
Definition check_boxes (chosen : string → bool) (bs : list box) : list box :=
  map (λ b, Box (b_value b) (chosen (b_value b))) bs.

Definition update_group (name : string) (f : list box → list box) (c : controls) : controls :=
  map (λ '(n, bs), (n, if bool_decide (n = name) then f bs else bs)) c.

(** One entry of the saved selections *)
Definition restore_group (c : controls) (entry : string * list string) : controls * bool :=
  let '(name, values) := entry in
  let valid := filter (λ v, v ∈ b_value <$> boxes name c) values in
  match boxes name c, valid with
  | [], _ | _, [] => (c, false)
  | _, _ => (update_group name (check_boxes (λ v, bool_decide (v ∈ valid))) c, true)
  end.

Definition restoreSelections (saved : option (dict (list string))) (c : controls) : controls * bool :=
  match saved with
  | None => (c, false)
  | Some saved =>
      foldl (λ '(c, restored) entry,
        let '(c', r) := restore_group c entry in (c', restored || r)) (c, false) saved
  end.

(** ** The dashboard *)

(** The selection the traces are filtered by *)
Definition shown (c : controls) (meta : json) : bool :=
  let selQueueType := getCheckedValues "queue_type" c in
  let selStrategy := getCheckedValues "strategy" c in
  let selBatch := js_number <$> getCheckedValues "batch_size" c in
  let selConc := js_number <$> getCheckedValues "concurrency" c in
  if prop_is "subplot" "latency_median" meta || prop_is "subplot" "latency_p99" meta then
    prop_in "queue_type" (includes_text selQueueType) meta
  else
    prop_in "queue_type" (includes_text selQueueType) meta &&
    prop_in "strategy" (includes_text selStrategy) meta &&
    prop_in "batch_size" (includes_number selBatch) meta &&
    prop_in "concurrency" (includes_number selConc) meta.

(** The first visible trace of each label on the message-rate plot has a legend. *)
Fixpoint legends (seen : list string) (l : list (json * bool)) : list bool :=
  match l with
  | [] => []
  | (meta, visible) :: l =>
      match prop "label" meta with
      | Some (JStr label) =>
          if visible && prop_is "subplot" "msg_rate" meta && negb (bool_decide (label = "")) &&
             negb (bool_decide (label ∈ seen))
          then true :: legends (label :: seen) l
          else false :: legends seen l
      | _ => false :: legends seen l
      end
  end.

(** The page in the browser: the metadata and the groups as the document has
    them, the state of the boxes, the storage, and the flags of the plot *)
Record page : Type := Page {
  pg_metadata : list json;
  pg_document : controls;
  pg_initial : list bool * list bool;
  pg_controls : controls;
  pg_storage : option (dict (list string));
  pg_visible : list bool;
  pg_legend : list bool;
}.

Definition updatePlot (p : page) : page :=
  let visibility := shown (pg_controls p) <$> pg_metadata p in
  Page (pg_metadata p) (pg_document p) (pg_initial p) (pg_controls p)
    (Some (saveSelections (pg_controls p))) visibility
    (legends [] (zip (pg_metadata p) visibility)).

Definition set_controls (c : controls) (p : page) : page :=
  Page (pg_metadata p) (pg_document p) (pg_initial p) c (pg_storage p) (pg_visible p) (pg_legend p).

Definition selectAll (name : string) (p : page) : page :=
  updatePlot (set_controls (update_group name (check_boxes (λ _, true)) (pg_controls p)) p).

Definition selectNone (name : string) (p : page) : page :=
  updatePlot (set_controls (update_group name (check_boxes (λ _, false)) (pg_controls p)) p).

(** A click on the box at position [i] of a group *)
Definition flip (i : nat) (bs : list box) : list box :=
  alter (λ b, Box (b_value b) (negb (b_checked b))) i bs.

Definition change (name : string) (i : nat) (p : page) : page :=
  updatePlot (set_controls (update_group name (flip i) (pg_controls p)) p).

(** Opening the page: the boxes and the flags of the document, then the stored
    selections *)
Definition open_page (storage : option (dict (list string))) (metadata : list json)
    (document : controls) (initial : list bool * list bool) : page :=
  let p := Page metadata document initial document storage initial.1 initial.2 in
  let '(c, restored) := restoreSelections storage document in
  let p := set_controls c p in
  if restored then updatePlot p else p.

Definition reload (p : page) : page :=
  open_page (pg_storage p) (pg_metadata p) (pg_document p) (pg_initial p).

(** What the user does *)
Inductive event : Type :=
  | Change (name : string) (i : nat)
  | SelectAll (name : string)
  | SelectNone (name : string)
  | Reload.

Inductive step : page → event → page → Prop :=
  | step_change p name i : step p (Change name i) (change name i p)
  | step_all p name : step p (SelectAll name) (selectAll name p)
  | step_none p name : step p (SelectNone name) (selectNone name p)
  | step_reload p : step p Reload (reload p).

Inductive steps : page → list event → page → Prop :=
  | steps_nil p : steps p [] p
  | steps_cons p e p' es p'' : step p e p' → steps p' es p'' → steps p (e :: es) p''.

(** ** The heatmap *)

(** [parseInt(s)] of a text that starts with a sign or a digit *)
Definition parseInt (s : string) : float :=
  let '(neg, r) := match expect "-" s with Some r => (true, r) | None => (false, s) end in
  match take_digits r with
  | ("", _) => S754_nan
  | (ds, _) => f_normalize ((if neg : bool then Z.opp else id) (dec_val ds)) 0
  end.

(** The value of the selected radio button of each group *)
Abbreviation radios := (dict string).

(** [saveSelections] of the heatmap: the selected value of every group that has
    radio buttons *)
Definition saveRadios (groups : dict (list string)) (c : radios) : dict (option string) :=
  omap (λ '(name, values), match values with [] => None | _ => Some (name, dget name c) end) groups.

(** Saved values that are missing, empty or no longer offered are skipped. *)
Definition restore_radio (groups : dict (list string)) (c : radios) (entry : string * option string)
    : radios * bool :=
  match entry with
  | (name, Some value) =>
      if negb (bool_decide (value = "")) && bool_decide (value ∈ default [] (dget name groups))
      then (dset name value c, true) else (c, false)
  | (_, None) => (c, false)
  end.

Definition restoreRadios (groups : dict (list string)) (saved : option (dict (option string)))
    (c : radios) : radios * bool :=
  match saved with
  | None => (c, false)
  | Some saved =>
      foldl (λ '(c, restored) entry,
        let '(c', r) := restore_radio groups c entry in (c', restored || r)) (c, false) saved
  end.

(** [a === b] for a number of the page's JSON *)
Definition strict_number (v : json) (f : float) : bool :=
  match js_float v with Some g => f_eqb g f | None => false end.

Definition heat_shown (c : radios) (meta : json) : bool :=
  let selected key v := match v, dget key c with
                        | JStr s, Some t => bool_decide (s = t)
                        | _, _ => false
                        end in
  prop_in "queue_type" (selected "queue_type") meta &&
  prop_in "strategy" (selected "strategy") meta &&
  prop_in "size" (λ v, strict_number v (parseInt (default "null" (dget "size" c)))) meta &&
  prop_in "metric" (selected "metric") meta.

(** [updateHeatmap]: the flags of the plot, its title and the label of its
    horizontal axis *)
Definition updateHeatmap (metadata : list json) (c : radios) : list bool * string * string :=
  let visibility := heat_shown c <$> metadata in
  let pipelined := bool_decide (dget "strategy" c = Some "pipelined_batch") in
  let title :=
    match filter (λ meta, heat_shown c meta = true) metadata with
    | meta :: _ =>
        cat [default "null" (dget "queue_type" c); " | ";
             if pipelined then "Pipelined Batch" else "Burst-Batch"; ": ";
             py_str (default JNull (prop "metric_label" meta))]
    | [] => "Batch Heatmap"
    end in
  (visibility, title, if pipelined then "Concurrency" else "Burst Count").
End DashboardPage.
