(* ===== verification/DashboardSpec.v ===== *)
(** * What the dashboards show

    The theorems about visualize_interactive.py and the scripts of its pages:
    every record is drawn once, traces and metadata correspond, the cells of the
    heatmaps, and which traces the pages show for the boxes that are checked. *)

From Stdlib Require Import Ascii SpecFloat.
From S2P Require Import Prelude PyFloat PyVal PyPath Json JsonOut World PyColl JsonRound RunnerCommon.
From S2P Require Import Fixtures DashboardHtml Dashboard DashboardPage.
Import Dashboard DashboardPage.

Local Open Scope Z_scope.

(** ** Selections *)

Lemma filter_true {A} (P : A → Prop) `{!∀ x, Decision (P x)} l : Forall P l → filter P l = l.
Proof. induction 1; [done|]. rewrite filter_cons_True by done. by f_equal. Qed.

(** The boxes of a group are told apart by their values. *)
Definition distinct_boxes (c : controls) : Prop :=
  NoDup c.*1 ∧ Forall (λ bs, NoDup (b_value <$> bs)) c.*2.

Lemma dget_map_snd {V W} (f : string → V → W) name (d : dict V) :
  dget name (map (λ '(n, v), (n, f n v)) d) = f name <$> dget name d.
Proof.
  induction d as [|[n v] d IH]; simpl; [done|]. case_bool_decide; subst; simpl; [done|apply IH].
Qed.

Lemma boxes_update name f c n :
  f [] = [] →
  boxes n (update_group name f c) = if bool_decide (n = name) then f (boxes n c) else boxes n c.
Proof.
  intros Hf. unfold boxes, update_group. rewrite (dget_map_snd (λ n bs, if bool_decide (n = name) then f bs else bs)).
  destruct (dget n c); simpl; case_bool_decide; simpl; congruence.
Qed.

Lemma update_group_names name f c : (update_group name f c).*1 = c.*1.
Proof. unfold update_group. induction c as [|[n bs] c IH]; simpl; [done|]. by f_equal. Qed.

Lemma check_boxes_checked bs v :
  NoDup (b_value <$> bs) → v ∈ bs → b_checked v = bool_decide (b_value v ∈ checked_values bs).
Proof.
  intros Hnd Hv. unfold checked_values. destruct (b_checked v) eqn:Hc; symmetry.
  - apply bool_decide_eq_true, list_elem_of_fmap. exists v. split; [done|].
    by apply list_elem_of_filter.
  - apply bool_decide_eq_false. intros (u & Huv & [Hu Hin]%list_elem_of_filter)%list_elem_of_fmap.
    enough (u = v) by congruence. clear Hc Hu.
    induction bs as [|b bs IH]; [set_solver|]. simpl in Hnd. apply NoDup_cons in Hnd as [Hb Hnd].
    apply elem_of_cons in Hv as [->|Hv], Hin as [->|Hin]; auto; exfalso; apply Hb.
    + rewrite Huv. by apply list_elem_of_fmap_2.
    + rewrite <-Huv. by apply list_elem_of_fmap_2.
Qed.

(** Checking the boxes whose values were checked changes nothing. *)
Lemma check_boxes_id bs :
  NoDup (b_value <$> bs) → check_boxes (λ v, bool_decide (v ∈ checked_values bs)) bs = bs.
Proof.
  intros Hnd. unfold check_boxes. transitivity (map id bs); [|apply map_id]. apply map_ext_in.
  intros b Hb%list_elem_of_In. destruct b as [v ch] eqn:E. rewrite <-E in *.
  rewrite <-(check_boxes_checked bs b) by done. by rewrite E.
Qed.

(** What restoring saved values makes of a group *)
Definition restored_boxes (values : list string) (bs : list box) : list box :=
  let valid := filter (λ v, v ∈ b_value <$> bs) values in
  match bs, valid with
  | [], _ | _, [] => bs
  | _, _ => check_boxes (λ v, bool_decide (v ∈ valid)) bs
  end.

Lemma restore_group_boxes c name values n :
  boxes n (restore_group c (name, values)).1 =
  if bool_decide (n = name) then restored_boxes values (boxes n c) else boxes n c.
Proof.
  unfold restore_group, restored_boxes. case_bool_decide as Hn.
  - subst n. destruct (boxes name c) as [|b bs] eqn:Hb; [done|].
    destruct (filter _ values) as [|v vs]; [done|]. cbn [fst].
    rewrite boxes_update, bool_decide_true, Hb by done. done.
  - repeat case_match; cbn [fst]; try done.
    by rewrite boxes_update, bool_decide_false by done.
Qed.

Lemma restore_entries c r entries n :
  NoDup entries.*1 →
  boxes n (foldl (λ '(c, restored) entry,
    let '(c', r) := restore_group c entry in (c', restored || r)) (c, r) entries).1 =
  match dget n entries with
  | Some values => restored_boxes values (boxes n c)
  | None => boxes n c
  end.
Proof.
  revert c r. induction entries as [|[name values] entries IH]; intros c r Hnd; [done|].
  apply NoDup_cons in Hnd as [Hname Hnd]. cbn [foldl dget].
  pose proof (restore_group_boxes c name values n) as Hg.
  destruct (restore_group c (name, values)) as [c' r'] eqn:Hr. cbn [fst] in Hg.
  rewrite IH, Hg by done. case_bool_decide; [|done]. subst n.
  by rewrite (proj2 (dget_None name entries)).
Qed.

Lemma saveSelections_names c : NoDup c.*1 → NoDup (saveSelections c).*1 ∧
  ∀ n, dget n (saveSelections c) =
    match dget n c with Some (b :: bs) => Some (checked_values (b :: bs)) | _ => None end.
Proof.
  induction c as [|[m bs] c IH]; intros Hnd; [done|]. apply NoDup_cons in Hnd as [Hm Hnd].
  destruct (IH Hnd) as [IHn IHd]. cbn [dget]. unfold saveSelections in *.
  destruct bs as [|b bs]; cbn [omap list_omap].
  - split; [done|]. intros n. rewrite IHd. case_bool_decide; [|done]. subst n.
    by rewrite (proj2 (dget_None m c)).
  - split.
    + cbn. apply NoDup_cons. split; [|done]. apply dget_None. rewrite IHd.
      by rewrite (proj2 (dget_None m c)).
    + intros n. cbn [dget]. case_bool_decide; [done|apply IHd].
Qed.

(** Two states of the same groups of boxes *)
Definition same_boxes (c doc : controls) : Prop :=
  ∀ n, b_value <$> boxes n c = b_value <$> boxes n doc.

Lemma check_boxes_values chosen bs cs :
  b_value <$> bs = b_value <$> cs → check_boxes chosen bs = check_boxes chosen cs.
Proof.
  revert cs. induction bs as [|b bs IH]; intros [|c cs] H; try done.
  injection H as Hv H. unfold check_boxes in *. cbn [map]. by rewrite Hv, (IH cs).
Qed.

Lemma checked_values_subset bs v : v ∈ checked_values bs → v ∈ b_value <$> bs.
Proof.
  unfold checked_values. intros (b & -> & [_ Hb]%list_elem_of_filter)%list_elem_of_fmap.
  by apply list_elem_of_fmap_2.
Qed.

Lemma restored_checked bs ds :
  NoDup (b_value <$> bs) → b_value <$> bs = b_value <$> ds →
  restored_boxes (checked_values bs) ds =
  match checked_values bs with [] => ds | _ => bs end.
Proof.
  intros Hnd Hv. unfold restored_boxes.
  assert (filter (λ v, v ∈ b_value <$> ds) (checked_values bs) = checked_values bs) as ->.
  { apply filter_true, Forall_forall. rewrite <-Hv. apply checked_values_subset. }
  destruct ds as [|d ds].
  { destruct bs; [done|discriminate]. }
  destruct (checked_values bs) as [|v vs] eqn:Hc; [done|].
  rewrite <-(check_boxes_values _ bs) by done. rewrite <-Hc. by apply check_boxes_id.
Qed.

(** *** Sessions *)

(** A box of the group with this value is checked. *)
Definition ticked (c : controls) (group value : string) : Prop :=
  ∃ b, b ∈ boxes group c ∧ b_value b = value ∧ b_checked b = true.

(** The text, or the number, that a trace has for a key is that of a checked box. *)
Definition text_ticked (c : controls) (meta : json) (key : string) : Prop :=
  ∃ s, prop key meta = Some (JStr s) ∧ ticked c key s.
Definition number_ticked (c : controls) (meta : json) (key : string) : Prop :=
  ∃ v f s, prop key meta = Some v ∧ js_float v = Some f ∧ ticked c key s ∧
    same_value_zero f (js_number s) = true.

Definition of_latencies (meta : json) : Prop :=
  prop "subplot" meta = Some (JStr "latency_median") ∨ prop "subplot" meta = Some (JStr "latency_p99").

(** The boxes ask for the trace: for one of latencies its queue type is checked,
    for another one its strategy, batch size and concurrency are as well. *)
Definition selected (c : controls) (meta : json) : Prop :=
  text_ticked c meta "queue_type" ∧
  (of_latencies meta ∨
   text_ticked c meta "strategy" ∧ number_ticked c meta "batch_size" ∧ number_ticked c meta "concurrency").

(** The trace is a visible one of the message-rate plot, with this label. *)
Definition rate_trace (md : list json) (visible : list bool) (i : nat) (label : string) : Prop :=
  visible !! i = Some true ∧
  ∃ meta, md !! i = Some meta ∧ prop "subplot" meta = Some (JStr "msg_rate") ∧
    prop "label" meta = Some (JStr label).

(** The plot of these traces shows those that the boxes ask for, and in the legend
    the first of the message-rate plot for each label that is not empty. *)
Record consistent (md : list json) (p : page) : Prop := Consistent {
  visible_length : length (pg_visible p) = length md;
  visible_selected i meta :
    md !! i = Some meta → pg_visible p !! i = Some true ↔ selected (pg_controls p) meta;
  legend_length : length (pg_legend p) = length md;
  legend_first i :
    pg_legend p !! i = Some true ↔
    ∃ label, label ≠ "" ∧ rate_trace md (pg_visible p) i label ∧
      ∀ j, (j < i)%nat → ¬ rate_trace md (pg_visible p) j label;
}.

(** The page is as the document describes it. *)
Definition as_document (doc : controls) (init : list bool * list bool) (p : page) : Prop :=
  pg_controls p = doc ∧ (pg_visible p, pg_legend p) = init.

(** What a click makes of the box at position [j] of the group [n] *)
Definition clicked (e : event) (n : string) (j : nat) (b : box) : box :=
  match e with
  | Change name i =>
      if decide (n = name ∧ j = i) then Box (b_value b) (negb (b_checked b)) else b
  | SelectAll name => if decide (n = name) then Box (b_value b) true else b
  | SelectNone name => if decide (n = name) then Box (b_value b) false else b
  | Reload => b
  end.

Lemma ticked_checked c group value : value ∈ getCheckedValues group c ↔ ticked c group value.
Proof.
  unfold getCheckedValues, checked_values, ticked. rewrite list_elem_of_fmap.
  setoid_rewrite list_elem_of_filter. naive_solver.
Qed.

Lemma prop_is_true key text meta : prop_is key text meta = true ↔ prop key meta = Some (JStr text).
Proof.
  unfold prop_is. destruct (prop key meta) as [[]|]; rewrite ?bool_decide_eq_true; naive_solver.
Qed.

Lemma prop_in_text c key meta :
  prop_in key (includes_text (getCheckedValues key c)) meta = true ↔ text_ticked c meta key.
Proof.
  unfold prop_in, text_ticked, includes_text. setoid_rewrite <-ticked_checked.
  destruct (prop key meta) as [[]|]; rewrite ?bool_decide_eq_true; naive_solver.
Qed.

Lemma prop_in_number c key meta :
  prop_in key (includes_number (js_number <$> getCheckedValues key c)) meta = true ↔ number_ticked c meta key.
Proof.
  unfold prop_in, number_ticked, includes_number. setoid_rewrite <-ticked_checked.
  destruct (prop key meta) as [v|]; [|naive_solver].
  destruct (js_float v) as [f|] eqn:Hf; [|split; [done|]; intros (? & ? & ? & [= <-] & Hv & _); congruence].
  rewrite existsb_exists. split.
  - intros (g & Hg & Heq). apply list_elem_of_In, list_elem_of_fmap in Hg as (s & -> & Hs). by exists v, f, s.
  - intros (v' & f' & s & [= <-] & Hf' & Hs & Heq). simplify_eq. exists (js_number s). split; [|done].
    apply list_elem_of_In. by apply list_elem_of_fmap_2.
Qed.

Lemma shown_selected c meta : shown c meta = true ↔ selected c meta.
Proof.
  unfold shown, selected, of_latencies. rewrite <-!prop_is_true.
  destruct (prop_is "subplot" "latency_median" meta), (prop_is "subplot" "latency_p99" meta); cbn [orb];
    rewrite ?andb_true_iff, ?prop_in_text, ?prop_in_number; naive_solver.
Qed.

Lemma legends_length seen l : length (legends seen l) = length l.
Proof.
  revert seen. induction l as [|[meta b] l IH]; intros seen; [done|]. cbn [legends].
  repeat case_match; cbn [length]; by rewrite IH.
Qed.

(** The trace at [i] takes the legend of this label. *)
Definition legend_of (l : list (json * bool)) (i : nat) (label : string) : Prop :=
  ∃ meta, l !! i = Some (meta, true) ∧ prop "subplot" meta = Some (JStr "msg_rate") ∧
    prop "label" meta = Some (JStr label).

Lemma legend_of_cons x l i label : legend_of (x :: l) (S i) label ↔ legend_of l i label.
Proof. done. Qed.

Lemma legends_first seen l i :
  legends seen l !! i = Some true ↔
  ∃ label, label ≠ "" ∧ (label ∉ seen) ∧ legend_of l i label ∧ ∀ j, (j < i)%nat → ¬ legend_of l j label.
Proof.
  revert seen i. induction l as [|[meta b] l IH]; intros seen i.
  { split; [done|]. by intros (label & _ & _ & (? & ? & _) & _). }
  assert (∃ o, legends seen ((meta, b) :: l) =
    match o with Some label => true :: legends (label :: seen) l | None => false :: legends seen l end ∧
    ∀ label, o = Some label ↔ label ≠ "" ∧ (label ∉ seen) ∧ legend_of ((meta, b) :: l) 0 label)
    as (o & -> & Ho).
  { assert (∀ label, legend_of ((meta, b) :: l) 0 label ↔
      b = true ∧ prop_is "subplot" "msg_rate" meta = true ∧ prop "label" meta = Some (JStr label)) as Hl.
    { intros label. rewrite prop_is_true. unfold legend_of. cbn. naive_solver. }
    setoid_rewrite Hl. cbn [legends]. destruct (prop "label" meta) as [[| | | |label| |]|];
      try (exists None; split; [done|naive_solver]).
    destruct (b && _ && _ && _) eqn:E.
    - exists (Some label). split; [done|].
      rewrite !andb_true_iff, !negb_true_iff, !bool_decide_eq_false in E. naive_solver.
    - exists None. split; [done|]. intros label'. split; [done|]. intros (Hne & Hs & -> & Hp & [= <-]).
      rewrite Hp, !bool_decide_false in E by done. done. }
  destruct i as [|i].
  - destruct o as [label|]; cbn; (split; [intros [=]|]).
    + exists label. destruct (proj1 (Ho label) eq_refl) as (? & ? & ?). split_and!; try done. lia.
    + done.
    + intros (label & Hne & Hs & Hl & _). by discriminate (proj2 (Ho label)).
  - transitivity (legends (match o with Some label => label :: seen | None => seen end) l !! i = Some true).
    { by destruct o. }
    rewrite IH. split; intros (label & Hne & Hs & Hl & Hfirst); exists label; (split; [done|]).
    + assert ((label ∉ seen) ∧ o ≠ Some label) as [Hs' Hno].
      { destruct o as [label'|]; [|done]. rewrite not_elem_of_cons in Hs. naive_solver. }
      split_and!; [done..|]. intros [|j] Hj; [|rewrite legend_of_cons; apply Hfirst; lia].
      intros H0. by apply Hno, Ho.
    + split_and!; [|done|intros j Hj; rewrite <-legend_of_cons; apply Hfirst; lia].
      destruct o as [label'|]; [|done]. apply not_elem_of_cons. split; [|done]. intros ->.
      apply (Hfirst 0%nat); [lia|]. by apply Ho.
Qed.

Lemma rate_trace_legend md visible i label :
  length visible = length md → rate_trace md visible i label ↔ legend_of (zip md visible) i label.
Proof.
  intros Hlen. unfold rate_trace, legend_of. rewrite lookup_zip_with.
  destruct (md !! i) as [meta|] eqn:Hm; cbn; [|naive_solver].
  destruct (visible !! i) as [b|] eqn:Hv; cbn; naive_solver.
Qed.

Lemma updatePlot_consistent md p : pg_metadata p = md → consistent md (updatePlot p).
Proof.
  intros <-.
  assert (length (pg_visible (updatePlot p)) = length (pg_metadata p)) as Hlen by apply length_fmap.
  split; [done|..].
  - intros i meta Hi. cbn [updatePlot pg_visible pg_controls]. rewrite list_lookup_fmap, Hi.
    cbn [fmap option_fmap option_map]. rewrite <-shown_selected. split; [apply (inj Some)|by intros ->].
  - cbn [updatePlot pg_legend]. rewrite legends_length, length_zip, length_fmap. lia.
  - intros i. setoid_rewrite rate_trace_legend; [|done..]. cbn [updatePlot pg_legend].
    rewrite legends_first. split; intros (label & H); exists label; [naive_solver|].
    split_and!; [apply H|apply not_elem_of_nil|apply H|apply H].
Qed.

Lemma restore_group_false c entry c' : restore_group c entry = (c', false) → c' = c.
Proof. destruct entry as [name values]. unfold restore_group. repeat case_match; naive_solver. Qed.

Lemma restore_false saved c c' : restoreSelections saved c = (c', false) → c' = c.
Proof.
  unfold restoreSelections. destruct saved as [entries|]; [|naive_solver].
  assert (∀ c r, foldl (λ '(c, restored) entry,
    let '(c', r) := restore_group c entry in (c', restored || r)) (c, r) entries = (c', false) →
    r = false ∧ c' = c) as Hgen; [|intros H; by apply (Hgen c false)].
  clear c. induction entries as [|e entries IH]; intros c r H; cbn [foldl] in H; [naive_solver|].
  destruct (restore_group c e) as [c1 r1] eqn:Hr. destruct (IH _ _ H) as [[-> ->]%orb_false_iff ->].
  by apply restore_group_false in Hr.
Qed.

Lemma open_page_state storage md doc init :
  consistent md (open_page storage md doc init) ∨ as_document doc init (open_page storage md doc init).
Proof.
  unfold open_page. destruct (restoreSelections storage doc) as [c []] eqn:Hr;
    [left; by apply updatePlot_consistent|right].
  apply restore_false in Hr as ->. unfold as_document. simpl. by destruct init.
Qed.

(** The traces and the document stay the same. *)
Definition page_of (md : list json) (doc : controls) (init : list bool * list bool) (p : page) : Prop :=
  pg_metadata p = md ∧ pg_document p = doc ∧ pg_initial p = init.

Lemma open_page_of storage md doc init : page_of md doc init (open_page storage md doc init).
Proof. unfold open_page. by destruct (restoreSelections storage doc) as [c []]. Qed.

Lemma clicked_as e n j f (o : option box) : (∀ b, clicked e n j b = f b) → f <$> o = clicked e n j <$> o.
Proof. intros H. destruct o as [b|]; [|done]. cbn. by rewrite H. Qed.

Lemma clicked_id e n j (o : option box) : (∀ b, clicked e n j b = b) → o = clicked e n j <$> o.
Proof. intros H. destruct o as [b|]; [|done]. cbn. by rewrite H. Qed.

Lemma step_state md doc init p e p' :
  page_of md doc init p → step p e p' →
  page_of md doc init p' ∧
  (consistent md p' ∨ as_document doc init p' ∧ e = Reload) ∧
  (e ≠ Reload → ∀ n j, boxes n (pg_controls p') !! j = clicked e n j <$> boxes n (pg_controls p) !! j).
Proof.
  intros (<- & <- & <-) Hs. assert (∀ c, consistent (pg_metadata p) (updatePlot (set_controls c p))) as Hu
    by (intros c; by apply updatePlot_consistent).
  destruct Hs as [p name i|p name|p name|p]; (split; [|split]); [done|left; apply Hu| |done|left; apply Hu| |done|left; apply Hu| |..].
  - intros _ n j. cbn [change updatePlot pg_controls set_controls]. rewrite boxes_update by done.
    case_bool_decide as Hn; [unfold flip; destruct (decide (j = i)) as [->|Hj]|].
    + rewrite list_lookup_alter_eq. apply clicked_as. intros b. cbn. by rewrite decide_True.
    + rewrite list_lookup_alter_ne by done. apply clicked_id. intros b. cbn. rewrite decide_False; naive_solver.
    + apply clicked_id. intros b. cbn. rewrite decide_False; naive_solver.
  - intros _ n j. cbn [selectAll updatePlot pg_controls set_controls]. rewrite boxes_update by done.
    case_bool_decide as Hn; [unfold check_boxes; rewrite list_lookup_fmap; apply clicked_as|apply clicked_id];
      intros b; cbn; by destruct (decide (n = name)).
  - intros _ n j. cbn [selectNone updatePlot pg_controls set_controls]. rewrite boxes_update by done.
    case_bool_decide as Hn; [unfold check_boxes; rewrite list_lookup_fmap; apply clicked_as|apply clicked_id];
      intros b; cbn; by destruct (decide (n = name)).
  - apply open_page_of.
  - destruct (open_page_state (pg_storage p) (pg_metadata p) (pg_document p) (pg_initial p)) as [?|?]; [by left|by right].
  - done.
Qed.

Lemma steps_last p es e p'' : steps p (es ++ [e]) p'' → ∃ p', steps p es p' ∧ step p' e p''.
Proof.
  revert p. induction es as [|e' es IH]; intros p H; inversion H as [|? ? p1 ? ? Hs Hss]; subst.
  - inversion Hss; subst. exists p. split; [constructor|done].
  - destruct (IH _ Hss) as (p' & H1 & H2). exists p'. split; [by econstructor|done].
Qed.

Lemma steps_page_of md doc init p es p' : page_of md doc init p → steps p es p' → page_of md doc init p'.
Proof. intros Hp Hs. induction Hs as [|p e p' es p'' Hstep _ IH]; [done|]. by apply IH, (step_state _ _ _ p e). Qed.

(** The groups and their values never change. *)
Definition same_groups (p : page) : Prop :=
  (pg_controls p).*1 = (pg_document p).*1 ∧ same_boxes (pg_controls p) (pg_document p).

Lemma check_boxes_keep chosen bs : b_value <$> check_boxes chosen bs = b_value <$> bs.
Proof. unfold check_boxes. induction bs as [|b bs IH]; [done|]. cbn. by f_equal. Qed.

Lemma flip_keep i bs : b_value <$> flip i bs = b_value <$> bs.
Proof.
  unfold flip. revert i. induction bs as [|b bs IH]; intros i; [done|].
  destruct i; [done|]. cbn. f_equal. apply IH.
Qed.

Lemma same_boxes_update name f c doc :
  (∀ bs, b_value <$> f bs = b_value <$> bs) → same_boxes c doc → same_boxes (update_group name f c) doc.
Proof.
  intros Hf Hs n. rewrite boxes_update by (specialize (Hf []); by destruct (f [])).
  case_bool_decide; rewrite ?Hf; apply Hs.
Qed.

Lemma restore_group_same c entry :
  (restore_group c entry).1.*1 = c.*1 ∧ same_boxes (restore_group c entry).1 c.
Proof.
  destruct entry as [name values]. unfold restore_group. repeat case_match; cbn [fst]; try done.
  split; [apply update_group_names|]. apply same_boxes_update; [|done]. intros; apply check_boxes_keep.
Qed.

Lemma restore_same saved c :
  (restoreSelections saved c).1.*1 = c.*1 ∧ same_boxes (restoreSelections saved c).1 c.
Proof.
  unfold restoreSelections. destruct saved as [entries|]; [|done]. generalize false as r.
  revert c. induction entries as [|e entries IH]; intros c r; [done|]. cbn [foldl].
  pose proof (restore_group_same c e) as [H1 H2]. destruct (restore_group c e) as [c1 r1].
  cbn [fst] in *. destruct (IH c1 (r || r1)) as [IH1 IH2]. split; [congruence|].
  intros n. by rewrite IH2, H2.
Qed.

Lemma open_page_groups storage md doc init : same_groups (open_page storage md doc init).
Proof.
  pose proof (restore_same storage doc) as Hs. unfold open_page.
  destruct (restoreSelections storage doc) as [c []]; done.
Qed.

Lemma open_page_document storage md doc init : pg_document (open_page storage md doc init) = doc.
Proof. unfold open_page. by destruct (restoreSelections storage doc) as [c []]. Qed.

Lemma step_groups p e p' : step p e p' → same_groups p → same_groups p' ∧ pg_document p' = pg_document p.
Proof.
  destruct 1; intros [Hn Hs]; (split; [|try done]); [split; cbn; [by rewrite update_group_names|]..| |].
  - apply same_boxes_update; [apply flip_keep|done].
  - apply same_boxes_update; [apply check_boxes_keep|done].
  - apply same_boxes_update; [apply check_boxes_keep|done].
  - apply open_page_groups.
  - apply open_page_document.
Qed.

Lemma steps_groups p es p' : steps p es p' → same_groups p → same_groups p' ∧ pg_document p' = pg_document p.
Proof.
  induction 1 as [|p e p' es p'' Hstep _ IH]; [done|]. intros Hp.
  destruct (step_groups _ _ _ Hstep Hp) as [Hp' Hd]. destruct (IH Hp') as [? ?]. split; [done|congruence].
Qed.

Lemma distinct_group doc n : distinct_boxes doc → NoDup (b_value <$> boxes n doc).
Proof.
  intros [_ Hval]. unfold boxes. destruct (dget n doc) as [bs|] eqn:Hb; [|constructor].
  apply dget_elem in Hb. rewrite Forall_fmap, Forall_forall in Hval. apply (Hval _ Hb).
Qed.

Lemma restored_group c doc n :
  b_value <$> boxes n c = b_value <$> boxes n doc → NoDup (b_value <$> boxes n doc) →
  match match dget n c with Some (b :: bs) => Some (checked_values (b :: bs)) | _ => None end with
  | Some values => restored_boxes values (boxes n doc)
  | None => boxes n doc
  end =
  match checked_values (boxes n c) with [] => boxes n doc | _ => boxes n c end.
Proof.
  intros Hs Hnd. rewrite <-Hs in Hnd. unfold boxes at 1 in Hs. unfold boxes at 1 in Hnd.
  unfold boxes at 3 5. destruct (dget n c) as [[|b bs]|]; [done| |done].
  by apply restored_checked.
Qed.

(** C24: whatever the user clicks, in whatever order, and however often the page is
    reloaded: after a click the boxes are as before, with those checked or cleared
    that the click is about, and the plot shows exactly the traces that the checked
    boxes ask for, those of latencies by their queue type alone, and in the legend
    the first visible one of the message-rate plot for each label.  Only when the
    page has just been opened or reloaded can it be as the document describes it
    instead. *)
Theorem dashboard_session storage md doc init es p :
  steps (open_page storage md doc init) es p →
  (consistent md p ∨ as_document doc init p ∧ ∀ e, last es = Some e → e = Reload) ∧
  ∀ es' e, es = es' ++ [e] → e ≠ Reload →
    ∃ p', steps (open_page storage md doc init) es' p' ∧
      ∀ n j, boxes n (pg_controls p) !! j = clicked e n j <$> boxes n (pg_controls p') !! j.
Proof.
  destruct es as [|e es _] using rev_ind; intros Hs.
  - inversion Hs; subst. destruct (open_page_state storage md doc init) as [?|?];
      (split; [eauto|by intros [] ? [=]]). by right.
  - apply steps_last in Hs as (p' & Hs & Hlast).
    destruct (step_state md doc init p' e p) as (_ & Hstate & Hclick);
      [eapply steps_page_of; [apply open_page_of|done]|done|]. split.
    + destruct Hstate as [?|[? ->]]; [by left|right]. split; [done|]. rewrite last_snoc. by intros e [= <-].
    + intros es' e' [-> [= ->]]%app_inj_2 He; [|done]. exists p'. eauto.
Qed.

(** C25: reloading the page after a change restores the boxes of every group in
    which something is checked; a group in which nothing is checked gets back the
    boxes of the document. *)
Theorem dashboard_reload storage md doc init es p e p' n :
  distinct_boxes doc → steps (open_page storage md doc init) es p → step p e p' → e ≠ Reload →
  boxes n (pg_controls (reload p')) =
  match checked_values (boxes n (pg_controls p')) with
  | [] => boxes n doc
  | _ => boxes n (pg_controls p')
  end.
Proof.
  intros [Hnd Hval] Hsteps Hstep He.
  destruct (steps_groups _ _ _ Hsteps) as [Hp Hd]; [apply open_page_groups|].
  rewrite open_page_document in Hd. destruct (step_groups _ _ _ Hstep Hp) as [[Hn Hs] Hd'].
  rewrite Hd in Hd'. rewrite Hd' in Hn, Hs.
  assert (pg_storage p' = Some (saveSelections (pg_controls p'))) as Hst by (by destruct Hstep).
  set (c := pg_controls p') in *.
  assert (pg_controls (reload p') = (restoreSelections (Some (saveSelections c)) doc).1) as ->.
  { unfold reload, open_page. rewrite Hst, Hd'.
    by destruct (restoreSelections (Some (saveSelections c)) doc) as [c' []]. }
  destruct (saveSelections_names c) as [Hnd' Hget]; [by rewrite Hn|].
  unfold restoreSelections. rewrite restore_entries by done. rewrite Hget.
  specialize (Hs n). by apply (restored_group _ _ _ Hs), distinct_group.
Qed.

(** ** Traces and metadata *)

(** The text at a key of a trace *)
Definition text_at (key : string) (v : json) : option string :=
  match prop key v with Some (JStr s) => Some s | _ => None end.

(** The metadata of a trace names the plot it is drawn in, and its label. *)
Definition fits (trace meta : json) : Prop :=
  ∃ subplot, text_at "subplot" meta = Some subplot ∧
    match subplot with
    | "msg_rate" => text_at "xaxis" trace = Some "x" ∧ text_at "name" trace = text_at "label" meta
    | "bandwidth" => text_at "xaxis" trace = Some "x2" ∧ text_at "name" trace = text_at "label" meta
    | "latency_median" => text_at "xaxis" trace = Some "x3"
    | "latency_p99" => text_at "xaxis" trace = Some "x4"
    | _ => False
    end.

Definition aligned (p : plot) : Prop := Forall2 fits (p_traces p) (p_metadata p).

Lemma aligned_add trace meta p : fits trace meta → aligned p → aligned (add_trace trace meta p).
Proof. intros Hf Hp. apply Forall2_app; [done|]. by repeat constructor. Qed.

Lemma aligned_length p : aligned p → length (p_traces p) = length (p_metadata p).
Proof. apply Forall2_length. Qed.

(** A loop keeps what its body keeps. *)
Lemma foldM_keeps {S X} (f : S → X → exc S) (P : S → Prop) l s s' :
  (∀ s x s', f s x = Ok s' → P s → P s') → foldM f s l = Ok s' → P s → P s'.
Proof.
  intros Hf Hrun Hs. apply (foldM_inv f (λ _, P) l s s' Hs); [|done].
  intros done x rest acc acc' _ Hacc Hx. by eapply Hf.
Qed.

Lemma combination_aligned records d qi si ci qt st bs conc p p' :
  combination_step records d qi si ci qt st bs conc p = Ok p' → aligned p → aligned p'.
Proof.
  unfold combination_step. cbv zeta. destruct (filter _ records); [by intros [= ->]|].
  intros H Hp. apply bind_Ok in H as (pts & _ & H). apply bind_Ok in H as (y1 & _ & H).
  apply bind_Ok in H as (y2 & _ & H). injection H as <-.
  apply aligned_add; [by eexists|]. apply aligned_add; [by eexists|done].
Qed.

Lemma throughput_aligned records d p p' :
  throughput_plot records d p = Ok p' → aligned p → aligned p'.
Proof.
  unfold throughput_plot. apply foldM_keeps. clear. intros p [qi qt] p'.
  apply foldM_keeps. clear. intros p [si st] p'. apply foldM_keeps. clear. intros p bs p'.
  apply foldM_keeps. clear. intros p [ci c] p'. apply combination_aligned.
Qed.

Lemma latency_aligned records p p' : latency_plot records p = Ok p' → aligned p → aligned p'.
Proof.
  unfold latency_plot. apply foldM_keeps. clear. intros p qt p'. apply foldM_keeps. clear.
  intros p b p' H Hp. unfold latency_step in H. apply bind_Ok in H as (pts & _ & H).
  destruct pts; [by injection H as <-|]. injection H as <-.
  apply aligned_add; [by eexists|]. apply aligned_add; [by eexists|done].
Qed.

Lemma dashboard_plot_Ok rss d p :
  dashboard_plot_of rss = Ok (d, p) ↔
  ∃ records latencies p1, throughput_records rss = Ok records ∧ latency_records rss = Ok latencies ∧
    dimensions_of records = Ok d ∧ throughput_plot records d (Plot [] []) = Ok p1 ∧
    latency_plot latencies p1 = Ok p.
Proof.
  unfold dashboard_plot_of. repeat setoid_rewrite bind_Ok. split.
  - intros (records & ? & latencies & ? & d' & ? & p1 & ? & p2 & ? & H). injection H as -> ->.
    eauto 10.
  - intros (records & latencies & p1 & ? & ? & ? & ? & ?). exists records. split; [done|].
    exists latencies. split; [done|]. exists d. split; [done|]. exists p1. split; [done|].
    exists p. by split.
Qed.

(** The metadata the page filters by corresponds to the traces: the two lists
    have the same length, and each entry names the subplot its trace is drawn in
    and, on the throughput plots, the trace's label. *)
Theorem dashboard_aligned rss d p : dashboard_plot_of rss = Ok (d, p) → aligned p.
Proof.
  intros (records & latencies & p1 & _ & _ & _ & H1 & H2)%dashboard_plot_Ok.
  eapply latency_aligned; [done|]. eapply throughput_aligned; [done|]. constructor.
Qed.

(** ** Every record is drawn once *)

(** Splitting a list by keys: when every element has exactly one of the keys,
    the parts together are the list. *)
Definition one_key {A K} (has : K → A → bool) (keys : list K) (x : A) : Prop :=
  length (filter (λ k, has k x = true) keys) = 1%nat.

Lemma parts_cons {A K} (has : K → A → bool) keys x (l : list A) :
  concat (map (λ k, filter (λ y, has k y = true) (x :: l)) keys) ≡ₚ
  replicate (length (filter (λ k, has k x = true) keys)) x ++
  concat (map (λ k, filter (λ y, has k y = true) l) keys).
Proof.
  induction keys as [|k keys IH]; [done|]. cbn [map concat]. rewrite IH, !filter_cons.
  destruct (decide (has k x = true)); cbn [length replicate app].
  - by rewrite Permutation_app_swap_app.
  - by rewrite Permutation_app_swap_app.
Qed.

Lemma parts_perm {A K} (has : K → A → bool) keys (l : list A) :
  Forall (one_key has keys) l → concat (map (λ k, filter (λ y, has k y = true) l) keys) ≡ₚ l.
Proof.
  induction 1 as [|x l Hx _ IH].
  - induction keys as [|k keys IHk]; [done|]. done.
  - rewrite parts_cons, Hx, IH. done.
Qed.

(** A loop whose body keeps [inv] and adds [part x] to what [out] collects *)
Lemma foldM_collect {S X Y} (f : S → X → exc S) (inv : S → Prop) (out : S → list Y)
    (part : X → list Y) l s s' :
  (∀ s x s', x ∈ l → inv s → f s x = Ok s' → inv s' ∧ out s' ≡ₚ out s ++ part x) →
  inv s → foldM f s l = Ok s' → inv s' ∧ out s' ≡ₚ out s ++ concat (map part l).
Proof.
  revert s. induction l as [|x l IH]; intros s Hf Hs; cbn [foldM map concat].
  - intros [= ->]. by rewrite app_nil_r.
  - intros H. apply bind_Ok in H as (s1 & Hs1 & H).
    destruct (Hf s x s1) as [Hi1 Ho1]; [set_solver|done..|].
    destruct (IH s1) as [Hi Ho]; [intros; apply Hf; [set_solver|done..]|done..|].
    split; [done|]. by rewrite Ho, Ho1, app_assoc.
Qed.

Lemma map_enumerate {A B} (f : A → B) l : map (λ '(i, x), f x) (enumerate l) = map f l.
Proof.
  rewrite <-(enumerate_snd l) at 2. rewrite <-list_fmap_compose. apply map_ext. by intros [].
Qed.

(** The points of the traces of one subplot, with the coordinates their
    metadata gives *)
Definition array_at (key : string) (v : json) : list json :=
  match prop key v with Some (JArr l) => l | _ => [] end.

Definition value_at (key : string) (v : json) : json := default JNull (prop key v).

Definition point : Type := json * json * json * json * json * json.

Definition trace_points (subplot : string) (trace meta : json) : list point :=
  if prop_is "subplot" subplot meta then
    map (λ '(x, y), (value_at "queue_type" meta, value_at "strategy" meta,
                     value_at "batch_size" meta, value_at "concurrency" meta, x, y))
      (zip (array_at "x" trace) (array_at "y" trace))
  else [].

Definition plot_points (subplot : string) (p : plot) : list point :=
  concat (zip_with (trace_points subplot) (p_traces p) (p_metadata p)).

Lemma plot_points_add subplot trace meta p :
  length (p_traces p) = length (p_metadata p) →
  plot_points subplot (add_trace trace meta p) = plot_points subplot p ++ trace_points subplot trace meta.
Proof.
  intros Hl. unfold plot_points, add_trace. cbn [p_traces p_metadata].
  rewrite zip_with_app by done. rewrite concat_app. cbn. by rewrite app_nil_r.
Qed.

(** The point of a record in the plot of [field / unit] *)
Definition record_point (field : throughput_record → json) (unit_ : float)
    (r : throughput_record) : point :=
  (JStr (t_queue_type r), JStr (t_strategy r), JInt (t_batch_size r), t_concurrency r, t_size r,
   match div_float (field r) unit_ with Ok f => JFloat f | Err _ => JNull end).

(** The two throughput plots: subplot, field and unit *)
Definition throughput_subplot (subplot : string) (field : throughput_record → json) (unit_ : float) : Prop :=
  (subplot, field, unit_) ∈ [("msg_rate", t_ops_per_sec, f_1e6); ("bandwidth", t_bandwidth_mb_s, f_1e3)].

Lemma zip_points (field : throughput_record → json) unit_ qt st bs conc pts ys :
  Forall (λ r, t_queue_type r = qt ∧ t_strategy r = st ∧ t_batch_size r = bs ∧ t_concurrency r = conc) pts →
  mapM (λ r, div_float (field r) unit_) pts = Ok ys →
  map (λ '(x, y), (JStr qt, JStr st, JInt bs, conc, x, y)) (zip (t_size <$> pts) (JFloat <$> ys))
  = map (record_point field unit_) pts.
Proof.
  intros Hpts Hys%mapM_Ok. induction Hys as [|r y pts ys Hy _ IH]; [done|].
  apply Forall_cons in Hpts as [(? & ? & ? & ?) Hpts]. cbn. rewrite IH by done.
  unfold record_point. by rewrite Hy; subst.
Qed.

Lemma in_combination_true qt st bs conc r :
  in_combination qt st bs conc r = true ↔
  t_queue_type r = qt ∧ t_strategy r = st ∧ t_batch_size r = bs ∧ py_eq (t_concurrency r) conc = true.
Proof.
  unfold in_combination. rewrite !andb_true_iff, !bool_decide_eq_true, Z.eqb_eq. tauto.
Qed.

Lemma throughput_trace_points sp sp' xs ys label info sym v leg u xa ya qt st bs conc :
  trace_points sp (throughput_trace xs ys label info sym v leg u xa ya)
    (throughput_meta qt st bs conc label sp') =
  if bool_decide (sp' = sp) then
    map (λ '(x, y), (JStr qt, JStr st, JInt bs, conc, x, y)) (zip xs ys)
  else [].
Proof. unfold trace_points, prop_is. cbn. by case_bool_decide. Qed.

Lemma combination_points sp field unit_ records d qi si ci qt st bs conc p p' :
  throughput_subplot sp field unit_ →
  (∀ r, r ∈ records → py_eq (t_concurrency r) conc = true → t_concurrency r = conc) →
  aligned p → combination_step records d qi si ci qt st bs conc p = Ok p' →
  plot_points sp p' ≡ₚ
  plot_points sp p ++
    map (record_point field unit_) (filter (λ r, in_combination qt st bs conc r = true) records).
Proof.
  intros Hsp Hconc Hp%Forall2_length H. unfold combination_step in H. cbv zeta in H.
  set (pts := filter (λ r, in_combination qt st bs conc r = true) records) in *.
  assert (Forall (λ r, t_queue_type r = qt ∧ t_strategy r = st ∧ t_batch_size r = bs ∧
                       t_concurrency r = conc) pts) as Hall.
  { apply Forall_forall. intros r [(? & ? & ? & ?)%in_combination_true Hr]%list_elem_of_filter.
    auto. }
  destruct pts as [|r0 pts0] eqn:Epts; [injection H as <-; by rewrite app_nil_r|].
  rewrite <-Epts in *. clear Epts r0 pts0.
  apply bind_Ok in H as (k & Hk%sort_by_perm & H). apply bind_Ok in H as (y1 & Hy1 & H).
  apply bind_Ok in H as (y2 & Hy2 & H). injection H as <-.
  rewrite <-Hk in Hall. rewrite !plot_points_add by
    (unfold add_trace; cbn [p_traces p_metadata]; rewrite ?length_app; cbn [length]; congruence).
  rewrite !throughput_trace_points, <-app_assoc. apply Permutation_app_head. rewrite <-Hk.
  unfold throughput_subplot in Hsp. rewrite !elem_of_cons, elem_of_nil in Hsp.
  destruct Hsp as [[= -> -> ->]|[[= -> -> ->]|[]]].
  - rewrite bool_decide_true, bool_decide_false, app_nil_r by done.
    by rewrite (zip_points t_ops_per_sec f_1e6).
  - rewrite bool_decide_false, bool_decide_true, app_nil_l by done.
    by rewrite (zip_points t_bandwidth_mb_s f_1e3).
Qed.

Lemma concat_perm {A K} (F G : K → list A) keys :
  (∀ k, k ∈ keys → F k ≡ₚ G k) → concat (map F keys) ≡ₚ concat (map G keys).
Proof.
  induction keys as [|k keys IH]; intros H; [done|]. cbn.
  rewrite (H k) by set_solver. rewrite IH by set_solver. done.
Qed.

Lemma filter_andb {A} (f g : A → bool) (l : list A) :
  filter (λ x, f x && g x = true) l = filter (λ x, g x = true) (filter (λ x, f x = true) l).
Proof.
  rewrite list_filter_filter. apply list_filter_iff. intros x. rewrite andb_true_iff. tauto.
Qed.

(** One loop of the nest: the parts of its keys are what is left without it. *)
Lemma parts_step {A B K} (out : A → B) (f : A → bool) (has : K → A → bool) keys (l : list A) :
  Forall (one_key has keys) l →
  concat (map (λ k, map out (filter (λ x, f x && has k x = true) l)) keys) ≡ₚ
  map out (filter (λ x, f x = true) l).
Proof.
  intros Hone. transitivity (map out (concat (map (λ k, filter (λ x, has k x = true)
    (filter (λ x, f x = true) l)) keys))).
  { rewrite concat_map, map_map. apply concat_perm. intros k _. by rewrite filter_andb. }
  apply Permutation_map, parts_perm. apply Forall_forall. intros x [_ Hx]%list_elem_of_filter.
  rewrite Forall_forall in Hone. auto.
Qed.

Lemma one_of {A} (a : A) (keys : list A) (has : A → bool) :
  NoDup keys → a ∈ keys → (∀ k, k ∈ keys → has k = true ↔ a = k) →
  length (filter (λ k, has k = true) keys) = 1%nat.
Proof.
  induction 1 as [|k keys Hk Hnd IH]; [set_solver|]. intros Ha Hhas. rewrite filter_cons.
  destruct (decide (has k = true)) as [->%Hhas|Hne]; [|set_solver|].
  - cbn. f_equal. destruct (filter _ keys) as [|b l] eqn:E; [done|].
    assert (b ∈ filter (λ k', has k' = true) keys) as Hb by (rewrite E; set_solver).
    apply list_elem_of_filter in Hb as [Hb1 Hb2]. apply Hhas in Hb1; [|set_solver]. by subst.
  - apply IH; [|set_solver]. apply elem_of_cons in Ha as [->|?]; [|done].
    destruct Hne. apply Hhas; set_solver.
Qed.

(** The dimensions contain every record once. *)
Definition covers (d : dimensions) (records : list throughput_record) : Prop :=
  Forall (λ r,
    length (filter (λ q, bool_decide (t_queue_type r = q) = true) (d_queue_types d)) = 1%nat ∧
    length (filter (λ s, bool_decide (t_strategy r = s) = true) (d_strategies d)) = 1%nat ∧
    length (filter (λ b, (t_batch_size r =? b) = true) (d_batch_sizes d)) = 1%nat ∧
    length (filter (λ c, py_eq (t_concurrency r) c = true) (d_concurrencies d)) = 1%nat) records ∧
  ∀ r c, r ∈ records → c ∈ d_concurrencies d → py_eq (t_concurrency r) c = true → t_concurrency r = c.

Lemma covers_parts {B} (out : throughput_record → B) d records :
  covers d records →
  concat (map (λ q, concat (map (λ s, concat (map (λ b, concat (map (λ c,
    map out (filter (λ r, in_combination q s b c r = true) records))
    (d_concurrencies d))) (d_batch_sizes d))) (d_strategies d))) (d_queue_types d)) ≡ₚ
  map out records.
Proof.
  intros [Hall _]. unfold in_combination.
  transitivity (concat (map (λ q, map out (filter (λ r, true && bool_decide (t_queue_type r = q) = true)
    records)) (d_queue_types d))).
  { apply concat_perm. intros q _. cbn [andb].
    transitivity (concat (map (λ s, map out (filter (λ r,
      bool_decide (t_queue_type r = q) && bool_decide (t_strategy r = s) = true) records))
      (d_strategies d))).
    - apply concat_perm. intros s _.
      transitivity (concat (map (λ b, map out (filter (λ r, bool_decide (t_queue_type r = q) &&
        bool_decide (t_strategy r = s) && (t_batch_size r =? b) = true) records)) (d_batch_sizes d))).
      + apply concat_perm. intros b _. apply (parts_step out _ (λ c r, py_eq (t_concurrency r) c)).
        eapply Forall_impl; [exact Hall|]. by intros r (_ & _ & _ & ?).
      + apply (parts_step out _ (λ b r, t_batch_size r =? b)).
        eapply Forall_impl; [exact Hall|]. by intros r (_ & _ & ? & _).
    - apply (parts_step out _ (λ s r, bool_decide (t_strategy r = s))).
      eapply Forall_impl; [exact Hall|]. by intros r (_ & ? & _ & _). }
  rewrite (parts_step out (λ _, true) (λ q r, bool_decide (t_queue_type r = q))).
  - by rewrite (filter_true _ records) by (apply Forall_forall; done).
  - eapply Forall_impl; [exact Hall|]. by intros r (? & _ & _ & _).
Qed.

Lemma throughput_points sp field unit_ records d p p' :
  throughput_subplot sp field unit_ → covers d records → aligned p →
  throughput_plot records d p = Ok p' →
  plot_points sp p' ≡ₚ plot_points sp p ++ map (record_point field unit_) records.
Proof.
  intros Hsp Hcov Hp H. rewrite <-(covers_parts _ d records) by done. destruct Hcov as [_ Hconc].
  unfold throughput_plot in H. setoid_rewrite <-(map_enumerate _ (d_queue_types d)).
  eapply (foldM_collect _ aligned (plot_points sp)); [|exact Hp|exact H].
  clear Hp H p p'. intros p [qi q] p' _ Hp H. setoid_rewrite <-(map_enumerate _ (d_strategies d)).
  eapply (foldM_collect _ aligned (plot_points sp)); [|exact Hp|exact H].
  clear Hp H p p'. intros p [si s] p' _ Hp H.
  eapply (foldM_collect _ aligned (plot_points sp)); [|exact Hp|exact H].
  clear Hp H p p'. intros p b p' _ Hp H. setoid_rewrite <-(map_enumerate _ (d_concurrencies d)).
  eapply (foldM_collect _ aligned (plot_points sp)); [|exact Hp|exact H].
  clear Hp H p p'. intros p [ci c] p' Hc Hp H. split; [by eapply combination_aligned|].
  eapply combination_points; [done| |done|done]. intros r Hr. apply Hconc; [done|].
  by apply enumerate_elem, list_elem_of_lookup_2 in Hc.
Qed.

Lemma strategies_of_spec records sts :
  strategies_of records = Ok sts → NoDup sts ∧ ∀ s, s ∈ sts ↔ s ∈ t_strategy <$> records.
Proof.
  intros Hs%sort_by_perm. rewrite Hs. split; [apply NoDup_remove_dups|].
  intros s. rewrite Hs. apply elem_of_remove_dups.
Qed.

Lemma dimensions_cover records d :
  Forall (λ r, ∃ z, t_concurrency r = JInt z) records → dimensions_of records = Ok d → covers d records.
Proof.
  intros Hint H. unfold dimensions_of in H. cbv zeta in H.
  apply bind_Ok in H as (sts & [Hsn Hse]%strategies_of_spec & H). apply bind_Ok in H as (cs & Hcs & H).
  apply bind_Ok in H as (szs & _ & H). injection H as <-.
  apply sorted_set_ints in Hcs as [Hcn Hce]; [|by apply Forall_fmap].
  rewrite Forall_forall in Hint.
  assert (∀ r c, r ∈ records → c ∈ cs → py_eq (t_concurrency r) c = true → t_concurrency r = c) as Heq.
  { intros r c Hr Hc Hpy. apply Hce, list_elem_of_fmap in Hc as (r' & -> & Hr').
    destruct (Hint r Hr) as [z Hz], (Hint r' Hr') as [z' Hz']. rewrite Hz, Hz' in *.
    cbn in Hpy. apply Z.eqb_eq in Hpy. congruence. }
  split; [|done]. apply Forall_forall. intros r Hr.
  assert (∀ {B} (f : throughput_record → B), f r ∈ f <$> records) as Hf by (intros; by apply list_elem_of_fmap_2).
  cbn [d_queue_types d_strategies d_batch_sizes d_concurrencies]. split_and!.
  - apply (one_of (t_queue_type r)); [apply sorted_names_NoDup|by apply sorted_names_elem, Hf|].
    intros. apply bool_decide_eq_true.
  - apply (one_of (t_strategy r)); [done|by apply Hse, Hf|]. intros. apply bool_decide_eq_true.
  - apply (one_of (t_batch_size r)); [apply sorted_ints_NoDup|by apply sorted_ints_elem, Hf|].
    intros. apply Z.eqb_eq.
  - apply (one_of (t_concurrency r)); [done|by apply Hce, Hf|]. intros c Hc. split; [by apply Heq|].
    intros <-. destruct (Hint r Hr) as [z ->]. apply Z.eqb_refl.
Qed.

Lemma latency_points sp field unit_ records p p' :
  throughput_subplot sp field unit_ → aligned p → latency_plot records p = Ok p' →
  plot_points sp p' = plot_points sp p.
Proof.
  intros Hsp Hp H.
  enough (aligned p' ∧ plot_points sp p' = plot_points sp p) as [_ ?] by done.
  set (P q := aligned q ∧ plot_points sp q = plot_points sp p).
  apply (foldM_keeps _ P _ _ _) in H; [done| |done].
  clear H p'. intros p1 qt p2 H Hp1. apply (foldM_keeps _ P _ _ _) in H; [done| |done].
  clear H Hp1 p1 p2. intros p1 b p2 H [Ha Hpt].
  unfold latency_step in H. apply bind_Ok in H as (pts & _ & H).
  destruct pts; [by injection H as <-|]. injection H as <-.
  assert (fits (latency_trace (l_size <$> l :: pts) (l_median_ns <$> l :: pts) (cat [qt; " | "; b])
     (cat [qt; " | "; b]) (default "#333" (dget b lat_colors)) [] (default "circle" (dget b lat_markers))
     "x3" "y3") (latency_meta "latency_median" qt b)) as Hfit by by eexists.
  split; [apply aligned_add; [by eexists|by apply aligned_add]|].
  rewrite !plot_points_add; [|by apply aligned_length|by apply aligned_length, aligned_add].
  unfold throughput_subplot in Hsp. rewrite !elem_of_cons, elem_of_nil in Hsp.
  destruct Hsp as [[= -> -> ->]|[[= -> -> ->]|[]]]; by rewrite !app_nil_r.
Qed.

(** C23: when concurrency levels are integers, each of the two throughput plots
    shows every throughput record exactly once: the points of its traces, with
    the queue type, strategy, batch size and concurrency of their metadata, are
    the records in some order, and the ordinate is the record's rate in the
    plot's unit. *)
Theorem dashboard_draws_records rss records d p sp field unit_ :
  throughput_subplot sp field unit_ → throughput_records rss = Ok records →
  Forall (λ r, ∃ z, t_concurrency r = JInt z) records → dashboard_plot_of rss = Ok (d, p) →
  plot_points sp p ≡ₚ map (record_point field unit_) records.
Proof.
  intros Hsp Hrec Hint (records' & lats & p1 & Hrec' & _ & Hd & H1 & H2)%dashboard_plot_Ok.
  rewrite Hrec in Hrec'. injection Hrec' as <-.
  assert (aligned (Plot [] [])) as H0 by constructor.
  rewrite (latency_points _ _ _ _ _ _ Hsp (throughput_aligned _ _ _ _ H1 H0) H2).
  by rewrite (throughput_points _ _ _ _ _ _ _ Hsp (dimensions_cover _ _ Hint Hd) H0 H1).
Qed.

(** ** The page of a plot *)

(** The groups of check boxes the page has, and the flags of its traces *)
Definition boxes_of (checked : nat → bool) (values : list string) : list box :=
  imap (λ i v, Box v (checked i)) values.

Definition dashboard_document (d : dimensions) : controls :=
  let all _ := true in
  let first i := bool_decide (i = 0%nat) in
  [("queue_type", boxes_of all (d_queue_types d)); ("strategy", boxes_of all (d_strategies d));
   ("batch_size", boxes_of first (pretty <$> d_batch_sizes d));
   ("concurrency", boxes_of first (py_str <$> d_concurrencies d))].

Definition flag_at (key : string) (v : json) : bool :=
  match prop key v with Some (JBool b) => b | _ => false end.

Definition initial_flags (p : plot) : list bool * list bool :=
  (flag_at "visible" <$> p_traces p, flag_at "showlegend" <$> p_traces p).

(** The text of the page has these boxes. *)
Definition render_box (name : string) (b : box) (label : string) : string :=
  template (cat ["<label><input type=~checkbox~ name=~"; name; "~ value=~"]) +:+ b_value b +:+
  template "~ " +:+ (if b_checked b then "checked" else "") +:+ "> " +:+ label +:+ "</label>".

Lemma enumerate_imap {A B} (f : nat → A → B) l :
  map (λ '(i, x), f i x) (enumerate l) = imap f l.
Proof.
  apply list_eq. intros i. rewrite list_lookup_fmap, enumerate_lookup, list_lookup_imap.
  by destruct (l !! i).
Qed.

Lemma make_checkboxes_renders name values labels default_all :
  length values = length labels →
  make_checkboxes name values labels default_all =
  join (newline +:+ "                ")
    (zip_with (render_box name) (boxes_of (λ i, default_all || bool_decide (i = 0%nat)) values) labels).
Proof.
  intros Hl. unfold make_checkboxes, make_inputs, boxes_of. f_equal.
  etrans; [apply (enumerate_imap (λ i '(val, label), _))|].
  apply list_eq. intros i. rewrite list_lookup_imap, !lookup_zip_with, list_lookup_imap.
  destruct (values !! i), (labels !! i); done.
Qed.

(** *** Which traces can be shown *)

(** The metadata of the traces of a plot with dimensions [d] *)
Inductive meta_of (d : dimensions) : json → Prop :=
  | meta_throughput q s b c label sp :
      q ∈ d_queue_types d → s ∈ d_strategies d → b ∈ d_batch_sizes d → c ∈ d_concurrencies d →
      sp ∈ ["msg_rate"; "bandwidth"] → meta_of d (throughput_meta q s b c label sp)
  | meta_latency q b sp :
      sp ∈ ["latency_median"; "latency_p99"] → meta_of d (latency_meta sp q b).

Lemma foldM_keeps_in {S X} (f : S → X → exc S) (P : S → Prop) l s s' :
  (∀ s x s', x ∈ l → f s x = Ok s' → P s → P s') → foldM f s l = Ok s' → P s → P s'.
Proof.
  intros Hf Hrun Hs. apply (foldM_inv f (λ _, P) l s s' Hs); [|done].
  intros done x rest acc acc' -> Hacc Hx. apply (Hf acc x acc'); [set_solver|done..].
Qed.

Lemma combination_meta records d qi si ci q s b c p p' :
  q ∈ d_queue_types d → s ∈ d_strategies d → b ∈ d_batch_sizes d → c ∈ d_concurrencies d →
  combination_step records d qi si ci q s b c p = Ok p' →
  Forall (meta_of d) (p_metadata p) → Forall (meta_of d) (p_metadata p').
Proof.
  intros Hq Hs Hb Hc H Hp. unfold combination_step in H. cbv zeta in H.
  destruct (filter _ records); [by injection H as <-|].
  apply bind_Ok in H as (pts & _ & H). apply bind_Ok in H as (y1 & _ & H).
  apply bind_Ok in H as (y2 & _ & H). injection H as <-. cbn [p_metadata add_trace].
  rewrite !Forall_app, !Forall_singleton. split; [split; [done|]|]; constructor; set_solver.
Qed.

Lemma throughput_meta_of records d p p' :
  throughput_plot records d p = Ok p' →
  Forall (meta_of d) (p_metadata p) → Forall (meta_of d) (p_metadata p').
Proof.
  unfold throughput_plot. apply (foldM_keeps_in _ (λ p, Forall (meta_of d) (p_metadata p))).
  clear. intros p [qi q] p' Hq%enumerate_elem%list_elem_of_lookup_2.
  apply (foldM_keeps_in _ (λ p, Forall (meta_of d) (p_metadata p))).
  clear -Hq. intros p [si s] p' Hs%enumerate_elem%list_elem_of_lookup_2.
  apply (foldM_keeps_in _ (λ p, Forall (meta_of d) (p_metadata p))).
  clear -Hq Hs. intros p b p' Hb.
  apply (foldM_keeps_in _ (λ p, Forall (meta_of d) (p_metadata p))).
  clear -Hq Hs Hb. intros p [ci c] p' Hc%enumerate_elem%list_elem_of_lookup_2.
  by apply combination_meta.
Qed.

Lemma latency_meta_of d records p p' :
  latency_plot records p = Ok p' →
  Forall (meta_of d) (p_metadata p) → Forall (meta_of d) (p_metadata p').
Proof.
  unfold latency_plot. apply (foldM_keeps _ (λ p, Forall (meta_of d) (p_metadata p))).
  clear. intros p q p'. apply (foldM_keeps _ (λ p, Forall (meta_of d) (p_metadata p))).
  clear. intros p b p' H Hp. unfold latency_step in H. apply bind_Ok in H as (pts & _ & H).
  destruct pts; [by injection H as <-|]. injection H as <-. cbn [p_metadata add_trace].
  rewrite !Forall_app, !Forall_singleton. split; [split; [done|]|]; constructor; set_solver.
Qed.

(** All boxes of a group checked *)
Definition check_all (c : controls) : controls :=
  map (λ '(n, bs), (n, check_boxes (λ _, true) bs)) c.

Lemma checked_all checked values : checked_values (check_boxes (λ _, true) (boxes_of checked values)) = values.
Proof.
  unfold checked_values, check_boxes, boxes_of. rewrite filter_true.
  - apply list_eq. intros i. rewrite !list_lookup_fmap, list_lookup_imap. by destruct (values !! i).
  - apply Forall_fmap, Forall_forall. done.
Qed.

Lemma same_value_zero_refl f : same_value_zero f f = true.
Proof.
  destruct f as [[]|[]| |[] m e]; try done; unfold same_value_zero, f_eqb, SFeqb, SFcompare;
    by rewrite Z.compare_refl, Pos.compare_cont_refl.
Qed.

Lemma js_number_int z : js_number (pretty z) = f_normalize z 0.
Proof. unfold js_number. by rewrite (numeral_int z). Qed.

Lemma includes_int z (zs : list Z) :
  z ∈ zs → includes_number (js_number <$> (pretty <$> zs)) (JInt z) = true.
Proof.
  intros Hz. unfold includes_number. cbn [js_float]. apply existsb_exists.
  exists (f_normalize z 0). split; [|apply same_value_zero_refl].
  apply list_elem_of_In. rewrite <-js_number_int. by do 2 apply list_elem_of_fmap_2.
Qed.

Lemma all_selected d :
  let c := check_all (dashboard_document d) in
  getCheckedValues "queue_type" c = d_queue_types d ∧ getCheckedValues "strategy" c = d_strategies d ∧
  getCheckedValues "batch_size" c = pretty <$> d_batch_sizes d ∧
  getCheckedValues "concurrency" c = py_str <$> d_concurrencies d.
Proof. cbv zeta. split_and!; apply checked_all. Qed.

Lemma throughput_props q s b c label sp :
  let m := throughput_meta q s b c label sp in
  prop "queue_type" m = Some (JStr q) ∧ prop "strategy" m = Some (JStr s) ∧
  prop "batch_size" m = Some (JInt b) ∧ prop "concurrency" m = Some c.
Proof. done. Qed.

Lemma shown_all d meta :
  Forall (λ c, ∃ z, c = JInt z) (d_concurrencies d) → meta_of d meta →
  (∀ q, text_at "queue_type" meta = Some q → q ∈ d_queue_types d) →
  shown (check_all (dashboard_document d)) meta = true.
Proof.
  intros Hint Hmeta Hq. unfold shown. destruct (all_selected d) as (-> & -> & -> & ->). destruct Hmeta as [q s b c label sp Hmq Hs Hb Hc Hsp|q b sp Hsp].
  - assert (includes_number (js_number <$> (py_str <$> d_concurrencies d)) c = true) as Hinc.
    { assert (∃ zs, d_concurrencies d = JInt <$> zs) as [zs Hzs].
      { clear Hc. induction Hint as [|c' cs [z ->] _ [zs ->]]; [by exists []|by exists (z :: zs)]. }
      rewrite Hzs in Hc |- *. apply list_elem_of_fmap in Hc as (z & -> & Hz).
      rewrite <-(list_fmap_compose JInt py_str). by apply includes_int. }
    assert (prop_is "subplot" "latency_median" (throughput_meta q s b c label sp) ||
      prop_is "subplot" "latency_p99" (throughput_meta q s b c label sp) = false) as ->.
    { rewrite !elem_of_cons, elem_of_nil in Hsp. by destruct Hsp as [->|[->|[]]]. }
    unfold prop_in. destruct (throughput_props q s b c label sp) as (-> & -> & -> & ->).
    cbn [includes_text]. by rewrite !bool_decide_true, includes_int, Hinc.
  - assert (prop_is "subplot" "latency_median" (latency_meta sp q b) ||
      prop_is "subplot" "latency_p99" (latency_meta sp q b) = true) as ->.
    { rewrite !elem_of_cons, elem_of_nil in Hsp. by destruct Hsp as [->|[->|[]]]. }
    unfold prop_in. cbn. apply bool_decide_eq_true. by apply Hq.
Qed.

(** ** Two runs of the benchmark *)

Definition run_text (dedicated throughput latency : string) : string := jtext (cat
  ["{'metadata': {'device': '/dev/dsa/wq0.0', 'wq_dedicated': "; dedicated;
   ", 'iterations': 100, 'pinned_core': 2, 'tsc_freq_hz': 2200000000, 'cold_cache': false},";
   " 'throughput': ["; throughput; "], 'latency': ["; latency; "]}"]).

Definition throughput_entry (benchmark : string) (size concurrency ops : string) : string :=
  cat ["{'benchmark': '"; benchmark; "', 'size': "; size; ", 'concurrency': "; concurrency;
       ", 'ops_per_sec': "; ops; ", 'bandwidth_mb_s': 512.0}"].

Definition latency_entry : string :=
  "{'benchmark': 'memmove', 'size': 64, 'ns': {'median': 410, 'p99': 650}}".

(** A dedicated queue with three strategies, and a shared one with latencies
    only *)
Definition dedicated_text : string := run_text "true"
  (join ", " [throughput_entry "memmove" "4096" "1" "2000000.0"; throughput_entry "memmove" "64" "1" "3500000.0";
              throughput_entry "burst_memmove" "64" "1" "2500000";
              throughput_entry "pipelined_batch_b4" "64" "2" "1.5e6";
              throughput_entry "pipelined_batch_b4" "64" "1" "1e6"; throughput_entry "crc_gen" "64" "1" "1"])
  latency_entry.
Definition shared_text : string := run_text "false" "" latency_entry.

Definition sample_set (text : string) : result_set :=
  let data := match json_loads text with Ok v => v | Err _ => JNull end in
  let metadata := match item "metadata" data with Ok v => v | Err _ => JNull end in
  ResultSet (parse_path "a.json") data metadata
    (match queue_type_label metadata with Ok q => q | Err _ => "" end).

Definition sample_sets : list result_set := [sample_set dedicated_text; sample_set shared_text].

Definition sample_plot : dimensions * plot :=
  match dashboard_plot_of sample_sets with Ok dp => dp | Err _ => (Dimensions [] [] [] [] [], Plot [] []) end.

Definition sample_records : list throughput_record :=
  match throughput_records sample_sets with Ok l => l | Err _ => [] end.

Lemma dashboard_aligned_witness : aligned sample_plot.2 ∧ length (p_traces sample_plot.2) = 12%nat.
Proof.
  split; [|vm_compute; reflexivity]. apply (dashboard_aligned sample_sets sample_plot.1).
  vm_compute. reflexivity.
Defined.

Lemma dashboard_draws_records_witness :
  plot_points "msg_rate" sample_plot.2 ≡ₚ map (record_point t_ops_per_sec f_1e6) sample_records ∧
  length sample_records = 5%nat.
Proof.
  split; [|vm_compute; reflexivity].
  apply (dashboard_draws_records sample_sets sample_records sample_plot.1).
  - unfold throughput_subplot. left.
  - vm_compute. reflexivity.
  - vm_compute. repeat constructor; eexists; reflexivity.
  - vm_compute. reflexivity.
Defined.

(** With integer concurrency levels, checking all the boxes shows every trace
    of a queue type that has a box: no trace is out of reach. *)
Theorem dashboard_all_shown rss records d p meta :
  throughput_records rss = Ok records → Forall (λ r, ∃ z, t_concurrency r = JInt z) records →
  dashboard_plot_of rss = Ok (d, p) → meta ∈ p_metadata p →
  (∀ q, text_at "queue_type" meta = Some q → q ∈ d_queue_types d) →
  shown (check_all (dashboard_document d)) meta = true.
Proof.
  intros Hrec Hint (records' & lats & p1 & Hrec' & _ & Hd & H1 & H2)%dashboard_plot_Ok Hmeta Hq.
  rewrite Hrec in Hrec'. injection Hrec' as <-.
  apply shown_all; [| |done].
  - unfold dimensions_of in Hd. cbv zeta in Hd. apply bind_Ok in Hd as (sts & _ & Hd).
    apply bind_Ok in Hd as (cs & Hcs & Hd). apply bind_Ok in Hd as (szs & _ & Hd). injection Hd as <-.
    apply sorted_set_ints in Hcs as [_ Hcs]; [|by apply Forall_fmap].
    apply Forall_forall. intros c (r & -> & Hr)%Hcs%list_elem_of_fmap.
    rewrite Forall_forall in Hint. auto.
  - apply throughput_meta_of in H1; [|constructor]. apply (latency_meta_of d) in H2; [|done].
    rewrite Forall_forall in H2. auto.
Qed.

Lemma dashboard_all_shown_witness :
  ∃ meta, p_metadata sample_plot.2 !! 3%nat = Some meta ∧
    shown (check_all (dashboard_document sample_plot.1)) meta = true.
Proof.
  destruct (p_metadata sample_plot.2 !! 3%nat) as [meta|] eqn:Hm; [|vm_compute in Hm; discriminate Hm].
  exists meta. split; [reflexivity|].
  apply (dashboard_all_shown sample_sets sample_records sample_plot.1 sample_plot.2 meta).
  - vm_compute. reflexivity.
  - vm_compute. repeat constructor; eexists; reflexivity.
  - vm_compute. reflexivity.
  - eapply list_elem_of_lookup_2, Hm.
  - vm_compute in Hm. injection Hm as <-. intros q [= <-]. vm_compute. left.
Defined.

(** *** What the page shows before the first click *)

Definition sample_page : page :=
  open_page None (p_metadata sample_plot.2) (dashboard_document sample_plot.1)
    (initial_flags sample_plot.2).

(** When the page is opened, it shows only the traces of the first strategy,
    although the boxes of all strategies are checked: the flags of the traces
    are not those the script computes from the boxes. *)
Theorem dashboard_initial_mismatch :
  pg_visible sample_page ≠ shown (pg_controls sample_page) <$> pg_metadata sample_page.
Proof. vm_compute. discriminate. Qed.

(** A queue type whose results have latencies only has no box, so its traces are
    shown at first, and never again after a click. *)
Theorem dashboard_latency_lost c :
  same_boxes c (dashboard_document sample_plot.1) →
  pg_visible sample_page !! 10%nat = Some true ∧
  shown c <$> (p_metadata sample_plot.2 !! 10%nat) = Some false.
Proof.
  intros Hc. split; [vm_compute; reflexivity|].
  destruct (p_metadata sample_plot.2 !! 10%nat) as [meta|] eqn:Hm; [|vm_compute in Hm; discriminate Hm].
  vm_compute in Hm. injection Hm as <-. cbn [fmap option_fmap option_map]. f_equal.
  unfold shown. cbn -[getCheckedValues]. apply bool_decide_eq_false. unfold getCheckedValues.
  intros Hin%checked_values_subset. rewrite Hc in Hin. vm_compute in Hin.
  by apply list_elem_of_singleton in Hin.
Qed.

Lemma dashboard_session_witness :
  ∃ p, steps sample_page [SelectAll "batch_size"; Reload; Change "concurrency" 1] p ∧
    consistent (p_metadata sample_plot.2) p.
Proof.
  eexists. split.
  - repeat econstructor.
  - eapply or_ind; [intros H; exact H| |eapply (proj1 (dashboard_session None (p_metadata sample_plot.2)
      (dashboard_document sample_plot.1) (initial_flags sample_plot.2)
      [SelectAll "batch_size"; Reload; Change "concurrency" 1] _ _))].
    intros [_ H]. discriminate (H _ eq_refl).
  Unshelve. repeat econstructor.
Defined.

Lemma sample_distinct : distinct_boxes (dashboard_document sample_plot.1).
Proof.
  split; apply (bool_decide_unpack _); vm_compute; done.
Qed.

Lemma dashboard_reload_witness :
  boxes "batch_size" (pg_controls (reload (selectNone "batch_size" sample_page))) =
  boxes "batch_size" (dashboard_document sample_plot.1).
Proof.
  rewrite (dashboard_reload None (p_metadata sample_plot.2) (dashboard_document sample_plot.1)
    (initial_flags sample_plot.2) [] sample_page (SelectNone "batch_size")).
  - vm_compute. reflexivity.
  - apply sample_distinct.
  - constructor.
  - constructor.
  - discriminate.
Defined.
