(* ===== verification/HeatmapSpec.v ===== *)
(** * What the heatmaps show

    The theorems about the heatmap page of visualize_interactive.py: every batch
    record has a cell, and the page opens with the heatmap its radio buttons
    select. *)

From Stdlib Require Import Ascii SpecFloat.
From S2P Require Import Prelude PyFloat PyVal PyPath Json JsonOut World PyColl JsonRound RunnerCommon.
From S2P Require Import Files Fixtures DashboardHtml Dashboard DashboardPage DashboardSpec.
Import Dashboard DashboardPage.

Local Open Scope Z_scope.

(** ** One trace per combination *)

(** The trace of a combination, and its metadata *)
Definition heat_trace (records : list throughput_record) (d : heat_dimensions) (q s : string)
    (size : json) (m : metric) (trace meta : json) : Prop :=
  let pts := filter (λ r, in_heatmap q s size r = true) records in
  let batches := sorted_ints (t_batch_size <$> pts) in
  ∃ levels grid label, sorted_set (t_concurrency <$> pts) = Ok levels ∧
    grid_of m pts batches levels = Ok grid ∧
    trace = heatmap_trace grid levels batches (heat_first d q s size m) label (m_label m) ∧
    meta = heatmap_meta q s size m.

Lemma heatmap_step_Ok records d q s size p m p' :
  heatmap_step records d q s size p m = Ok p' →
  (filter (λ r, in_heatmap q s size r = true) records = [] ∧ p' = p) ∨
  ∃ trace meta, heat_trace records d q s size m trace meta ∧ p' = add_trace trace meta p.
Proof.
  unfold heatmap_step. cbv zeta. intros H.
  destruct (filter _ records) as [|r pts] eqn:Hpts; [left; by injection H as <-|right].
  rewrite <-Hpts in H. apply bind_Ok in H as (cs & Hcs & H). apply bind_Ok in H as (grid & Hgrid & H).
  injection H as <-. eexists _, _. split; [|done]. exists cs, grid. eexists. by rewrite Hpts in *.
Qed.

(** The traces of a heatmap plot come from combinations of its dimensions. *)
Definition heat_aligned (records : list throughput_record) (d : heat_dimensions) (p : plot) : Prop :=
  Forall2 (λ trace meta, ∃ q s size m, q ∈ h_queue_types d ∧ s ∈ h_strategies d ∧ size ∈ h_sizes d ∧
    m ∈ metrics ∧ heat_trace records d q s size m trace meta) (p_traces p) (p_metadata p).

Lemma heatmap_step_aligned records d q s size p m p' :
  q ∈ h_queue_types d → s ∈ h_strategies d → size ∈ h_sizes d → m ∈ metrics →
  heatmap_step records d q s size p m = Ok p' → heat_aligned records d p → heat_aligned records d p'.
Proof.
  intros Hq Hs Hz Hm [[_ ->]|(trace & meta & Ht & ->)]%heatmap_step_Ok Hp; [done|].
  apply Forall2_app; [done|]. repeat constructor. by exists q, s, size, m.
Qed.

Lemma heatmap_plot_aligned records d p :
  heatmap_plot_of records d = Ok p → heat_aligned records d p.
Proof.
  intros H. unfold heatmap_plot_of in H.
  apply (foldM_keeps_in _ (heat_aligned records d)) in H; [done| |constructor].
  clear. intros p q p' Hq. apply foldM_keeps_in. clear -Hq. intros p s p' Hs.
  apply foldM_keeps_in. clear -Hq Hs. intros p size p' Hz. apply foldM_keeps_in.
  clear -Hq Hs Hz. intros p m p' Hm. by apply heatmap_step_aligned.
Qed.

(** ** The heatmap the page opens with *)

Definition heat_groups (d : heat_dimensions) : dict (list string) :=
  [("queue_type", h_queue_types d); ("strategy", h_strategies d); ("size", py_str <$> h_sizes d);
   ("metric", m_key <$> metrics)].

(** The first radio button of every group is selected. *)
Definition default_radios (groups : dict (list string)) : radios :=
  omap (λ '(name, values), (λ v, (name, v)) <$> head values) groups.

Lemma parseInt_pretty z : parseInt (pretty z) = f_normalize z 0.
Proof.
  assert (∀ n : N, take_digits (pretty n) = (pretty n, "") ∧ dec_val (pretty n) = Z.of_N n ∧
    ∃ c s, pretty n = String c s ∧ is_digit c = true) as Hn.
  { intros n. destruct (pretty_N_digits n) as (Hd & Hv & Hne). rewrite take_digits_all by done.
    split; [done|]. split; [unfold dec_val; by rewrite Hv|].
    destruct (pretty n) as [|c s]; [done|]. exists c, s. simpl in Hd.
    by apply andb_true_iff in Hd as [? _]. }
  unfold parseInt. destruct z as [|p|p]; [done| |].
  - change (pretty (Z.pos p)) with (pretty (N.pos p)).
    destruct (Hn (N.pos p)) as (Ht & Hv & c & s & E & Hc).
    assert (expect "-" (pretty (N.pos p)) = None) as ->.
    { rewrite E. simpl. rewrite bool_decide_false; [done|]. by intros ->. }
    rewrite Ht. rewrite E at 1. by rewrite Hv.
  - change (pretty (Z.neg p)) with (String "-"%char (pretty (N.pos p))).
    destruct (Hn (N.pos p)) as (Ht & Hv & c & s & E & Hc).
    change (expect "-" (String "-" ?x)) with (Some x). cbv beta iota.
    rewrite Ht. rewrite E at 1. by rewrite Hv.
Qed.

(** A size the page can tell from the others: an integer a double represents *)
Definition exact_size (v : json) : Prop := ∃ z, v = JInt z ∧ Z.abs z < 2 ^ 53.

Lemma default_dget name d :
  dget name (default_radios (heat_groups d)) = dget name (heat_groups d) ≫= head.
Proof.
  unfold default_radios, heat_groups. cbn [omap list_omap].
  destruct (h_queue_types d), (h_strategies d), (h_sizes d); cbn;
    repeat (case_bool_decide; subst; try done).
Qed.

Lemma head_selected (q : string) l :
  match head l with Some t => bool_decide (q = t) | None => false end = bool_decide (head l = Some q).
Proof. destruct l as [|x l]; cbn; [done|]. apply bool_decide_ext. naive_solver. Qed.

Lemma heat_default d q s size m :
  Forall exact_size (h_sizes d) → size ∈ h_sizes d →
  heat_shown (default_radios (heat_groups d)) (heatmap_meta q s size m) = heat_first d q s size m.
Proof.
  intros Hex Hz. unfold heat_shown. rewrite !default_dget.
  change (dget "queue_type" (heat_groups d) ≫= head) with (head (h_queue_types d)).
  change (dget "strategy" (heat_groups d) ≫= head) with (head (h_strategies d)).
  change (dget "size" (heat_groups d) ≫= head) with (head (py_str <$> h_sizes d)).
  change (dget "metric" (heat_groups d) ≫= head) with (Some "ops_per_sec").
  unfold prop_in.
  change (prop "queue_type" (heatmap_meta q s size m)) with (Some (JStr q)).
  change (prop "strategy" (heatmap_meta q s size m)) with (Some (JStr s)).
  change (prop "size" (heatmap_meta q s size m)) with (Some size).
  change (prop "metric" (heatmap_meta q s size m)) with (Some (JStr (m_key m))).
  cbv beta iota. rewrite !head_selected. unfold heat_first. do 2 f_equal.
  rewrite Forall_forall in Hex. destruct (Hex size Hz) as (z & -> & Hzb).
  destruct (h_sizes d) as [|z0 zs]; [set_solver|].
  destruct (Hex z0) as (y & -> & Hy); [set_solver|]. cbn [head fmap list_fmap].
  change (default "null" (Some (py_str (JInt y)))) with (pretty y).
  rewrite parseInt_pretty. unfold strict_number. cbn [js_float].
  rewrite f_normalize_eqb by done. done.
Qed.

(** When the message sizes are integers below 2^53, the heatmap page opens
    with exactly the traces its radio buttons select: the flags of the traces
    are those [updateHeatmap] computes from the default selection. *)
Theorem heatmap_initial records d p :
  heat_dimensions_of records = Ok d → heatmap_plot_of records d = Ok p →
  Forall (λ r, exact_size (t_size r)) records →
  (initial_flags p).1 = (updateHeatmap (p_metadata p) (default_radios (heat_groups d))).1.1.
Proof.
  intros Hd Hp%heatmap_plot_aligned Hex.
  assert (Forall exact_size (h_sizes d)) as Hsizes.
  { unfold heat_dimensions_of in Hd. cbv zeta in Hd. apply bind_Ok in Hd as (sts & _ & Hd).
    apply bind_Ok in Hd as (szs & Hszs & Hd). injection Hd as <-. cbn [h_sizes].
    apply sorted_set_ints in Hszs as [_ Hel].
    - apply Forall_forall. intros v (r & -> & Hr)%Hel%list_elem_of_fmap.
      rewrite Forall_forall in Hex. auto.
    - apply Forall_fmap. eapply Forall_impl; [exact Hex|]. intros r (z & Hz & _). by exists z. }
  cbn [fst snd initial_flags updateHeatmap]. unfold heat_aligned in Hp.
  induction Hp as [|trace meta ts ms (q & s & size & m & _ & _ & Hz & _ & Ht) _ IH]; [done|].
  rewrite !fmap_cons. f_equal; [|exact IH]. destruct Ht as (levels & grid & label & _ & _ & -> & ->).
  symmetry. by apply heat_default.
Qed.

(** ** Every record has a cell *)

(** The traces with their metadata *)
Definition zipped (p : plot) : list (json * json) := zip (p_traces p) (p_metadata p).

(** More traces, and as many metadata *)
Definition extends (p p' : plot) : Prop :=
  length (p_traces p) = length (p_metadata p) →
  length (p_traces p') = length (p_metadata p') ∧ ∃ k, zipped p' = zipped p ++ k.

#[local] Instance extends_preorder : PreOrder extends.
Proof.
  split; [intros p Hp; split; [done|exists []; by rewrite app_nil_r]|].
  intros p1 p2 p3 H12 H23 H1. destruct (H12 H1) as [H2 [k Hk]]. destruct (H23 H2) as [H3 [k' Hk']].
  split; [done|]. exists (k ++ k'). by rewrite Hk', Hk, app_assoc.
Qed.

Lemma foldM_extends {X} (f : plot → X → exc plot) l p p' :
  (∀ p x p', f p x = Ok p' → extends p p') → foldM f p l = Ok p' → extends p p'.
Proof.
  intros Hf H. apply (foldM_keeps f (extends p)) in H; [done| |reflexivity].
  intros p1 x p2 H1 He. etrans; [exact He|]. by eapply Hf.
Qed.

(** A loop passes through every element of its list. *)
Lemma foldM_visits {X} (f : plot → X → exc plot) l x p p' :
  (∀ p x p', f p x = Ok p' → extends p p') → x ∈ l → foldM f p l = Ok p' →
  ∃ p1 p2, extends p p1 ∧ f p1 x = Ok p2 ∧ extends p2 p'.
Proof.
  intros Hf Hx. revert p. induction l as [|y l IH]; intros p H; [set_solver|].
  cbn [foldM] in H. apply bind_Ok in H as (p1 & H1 & H).
  apply elem_of_cons in Hx as [->|Hx].
  - exists p, p1. split_and!; [reflexivity|done|by eapply foldM_extends].
  - destruct (IH Hx p1 H) as (p2 & p3 & He & H2 & He'). exists p2, p3.
    split_and!; [|done..]. etrans; [by eapply Hf|done].
Qed.

Lemma heatmap_step_extends records d q s size p m p' :
  heatmap_step records d q s size p m = Ok p' → extends p p'.
Proof.
  intros [[_ ->]|(trace & meta & _ & ->)]%heatmap_step_Ok; [reflexivity|]. intros Hp.
  unfold zipped. cbn. rewrite !length_app. cbn. split; [lia|].
  exists [(trace, meta)]. by rewrite zip_with_app.
Qed.

(** The trace of a combination with records is in the plot. *)
Lemma heatmap_reaches records d q s size m p :
  q ∈ h_queue_types d → s ∈ h_strategies d → size ∈ h_sizes d → m ∈ metrics →
  filter (λ r, in_heatmap q s size r = true) records ≠ [] →
  heatmap_plot_of records d = Ok p →
  ∃ trace meta, heat_trace records d q s size m trace meta ∧ (trace, meta) ∈ zipped p.
Proof.
  intros Hq Hs Hz Hm Hne H. unfold heatmap_plot_of in H.
  pose proof (heatmap_step_extends records d) as He1.
  assert (∀ q s size p p', foldM (heatmap_step records d q s size) p metrics = Ok p' → extends p p') as He2.
  { intros q1 s1 z1 p1 p2. apply foldM_extends. intros ?? m1. apply He1. }
  assert (∀ q s p p', foldM (λ p size, foldM (heatmap_step records d q s size) p metrics) p (h_sizes d) = Ok p' →
    extends p p') as He3 by (intros q1 s1 p1 p2; apply foldM_extends; intros ?? m1; apply He2).
  assert (∀ q p p', foldM (λ p s, foldM (λ p size, foldM (heatmap_step records d q s size) p metrics) p (h_sizes d))
    p (h_strategies d) = Ok p' → extends p p') as He4
    by (intros q1 p1 p2; apply foldM_extends; intros ?? m1; apply He3).
  apply (foldM_visits _ _ q) in H as (p1 & p2 & E1 & H & E2); [|intros ?? ?; apply He4|done].
  apply (foldM_visits _ _ s) in H as (p3 & p4 & E3 & H & E4); [|intros ?? ?; apply He3|done].
  apply (foldM_visits _ _ size) in H as (p5 & p6 & E5 & H & E6); [|intros ?? ?; apply He2|done].
  apply (foldM_visits _ _ m) in H as (p7 & p8 & E7 & H & E8); [|intros ?? ?; apply He1|done].
  destruct (heatmap_step_Ok _ _ _ _ _ _ _ _ H) as [[? _]|(trace & meta & Ht & ->)]; [done|].
  exists trace, meta. split; [done|].
  assert (extends (Plot [] []) p7) as [Hl7 _]; [|done|].
  { etrans; [exact E1|]. etrans; [exact E3|]. etrans; [exact E5|]. exact E7. }
  assert (extends (add_trace trace meta p7) p) as Hext.
  { etrans; [exact E8|]. etrans; [exact E6|]. etrans; [exact E4|]. exact E2. }
  destruct Hext as [_ [k ->]]; [cbn; rewrite !length_app; cbn; lia|].
  apply elem_of_app. left. unfold zipped. cbn. rewrite zip_with_app by done.
  apply elem_of_app. right. by apply list_elem_of_singleton.
Qed.

(** The cell of a trace at a batch size and a concurrency level, found by the
    labels of its axes *)
Definition label_is (text : string) (v : json) : bool :=
  match v with JStr s => bool_decide (s = text) | _ => false end.

Definition index_of (text : string) (l : list json) : option nat :=
  fst <$> list_find (λ v, label_is text v = true) l.

Definition cell (trace : json) (b : Z) (c : json) : option json :=
  i ← index_of (pretty b) (array_at "y" trace);
  j ← index_of (py_str c) (array_at "x" trace);
  row ← array_at "z" trace !! i;
  match row with JArr l => l !! j | _ => None end.

Lemma index_of_label {A} (f : A → string) (l : list A) x :
  (∀ y, y ∈ l → f y = f x → y = x) → x ∈ l →
  ∃ i, index_of (f x) (JStr ∘ f <$> l) = Some i ∧ l !! i = Some x.
Proof.
  intros Hinj Hx. unfold index_of. induction l as [|y l IH]; [set_solver|].
  rewrite fmap_cons. cbn [list_find]. unfold compose at 1.
  destruct (decide (label_is (f x) (JStr (f y)) = true)) as [Hy|Hy].
  - apply bool_decide_eq_true in Hy. exists 0%nat. split; [done|]. cbn. f_equal.
    apply Hinj; [set_solver|done].
  - apply elem_of_cons in Hx as [->|Hx]; [by destruct Hy; apply bool_decide_eq_true|].
    destruct IH as (i & Hi & Hl); [intros; apply Hinj; [set_solver|done]|done|].
    exists (S i). split; [|done]. destruct (list_find _ (JStr ∘ f <$> l)) as [[j v]|]; [|done].
    cbn in *. by simplify_eq.
Qed.

(** Records drawn in the same cell *)
Definition same_cell (r p : throughput_record) : bool :=
  in_heatmap (t_queue_type r) (t_strategy r) (t_size r) p &&
  ((t_batch_size p =? t_batch_size r) && py_eq (t_concurrency p) (t_concurrency r)).

Lemma grid_cell_Ok m pts b c v r0 rest :
  filter (λ p, (t_batch_size p =? b) && py_eq (t_concurrency p) c = true) pts = r0 :: rest →
  grid_cell m pts b c = Ok v → ∃ f, mul_float (m_field m r0) (m_scale m) = Ok f ∧ v = JFloat f.
Proof.
  intros Hf H. unfold grid_cell in H. rewrite Hf in H. apply bind_Ok in H as (val & Hval & H).
  cbn [mapM] in Hval. apply bind_Ok in Hval as (f & Hm & Hval).
  apply bind_Ok in Hval as (fs & _ & Hval). injection Hval as <-. injection H as <-. by exists f.
Qed.

Lemma heat_trace_cell records d r m trace meta :
  Forall (λ r, ∃ z, t_concurrency r = JInt z) records → r ∈ records →
  py_eq (t_size r) (t_size r) = true →
  heat_trace records d (t_queue_type r) (t_strategy r) (t_size r) m trace meta →
  ∃ r0 f, head (filter (λ p, same_cell r p = true) records) = Some r0 ∧
    mul_float (m_field m r0) (m_scale m) = Ok f ∧
    cell trace (t_batch_size r) (t_concurrency r) = Some (JFloat f).
Proof.
  intros Hint Hr Hsz (levels & grid & label & Hlev & Hgrid & -> & _).
  set (pts := filter _ records) in *.
  assert (r ∈ pts) as Hpts.
  { apply list_elem_of_filter. split; [|done]. unfold in_heatmap. by rewrite !bool_decide_true. }
  assert (Forall (λ v, ∃ z, v = JInt z) (t_concurrency <$> pts)) as Hints.
  { apply Forall_fmap, Forall_forall. intros p [_ Hp]%list_elem_of_filter.
    rewrite Forall_forall in Hint. by apply Hint. }
  destruct (sorted_set_ints _ _ Hints Hlev) as [Hnd Hel].
  rewrite Forall_forall in Hints. set (b := t_batch_size r). set (c := t_concurrency r).
  assert (b ∈ t_batch_size <$> pts ∧ c ∈ t_concurrency <$> pts) as [Hb Hc]
    by (split; by apply list_elem_of_fmap_2).
  destruct (index_of_label pretty (sorted_ints (t_batch_size <$> pts)) b) as (i & Hi & Hbi);
    [by intros ? _ ?%(inj pretty)|by apply sorted_ints_elem|].
  destruct (index_of_label py_str levels c) as (j & Hj & Hcj); [|by apply Hel|].
  { intros v Hv Heq. destruct (Hints c Hc) as [z Hz]. apply Hel in Hv.
    destruct (Hints v Hv) as [z' ->]. rewrite Hz in Heq |- *. cbn in Heq.
    apply (inj pretty) in Heq. by subst. }
  apply mapM_Ok in Hgrid. eapply Forall2_lookup_l in Hgrid as (row & Hrow & Hcells); [|exact Hbi].
  apply mapM_Ok in Hcells. eapply Forall2_lookup_l in Hcells as (v & Hv & Hcell); [|exact Hcj].
  destruct (filter (λ p, (t_batch_size p =? b) && py_eq (t_concurrency p) c = true) pts)
    as [|r0 rest] eqn:Hf.
  { assert (r ∈ filter (λ p, (t_batch_size p =? b) && py_eq (t_concurrency p) c = true) pts) as Hin;
      [|rewrite Hf in Hin; by apply not_elem_of_nil in Hin].
    apply list_elem_of_filter. split; [|done]. unfold b, c. rewrite Z.eqb_refl.
    destruct (Hints c Hc) as [z Hz]. unfold c in Hz. rewrite Hz. apply Z.eqb_refl. }
  destruct (grid_cell_Ok _ _ _ _ _ _ _ Hf Hcell) as (f & Hmul & ->).
  exists r0, f. split_and!; [|done|].
  - unfold same_cell. rewrite filter_andb. fold pts b c. by rewrite Hf.
  - unfold cell. change (array_at "y" _) with (JStr ∘ pretty <$> sorted_ints (t_batch_size <$> pts)).
    change (array_at "x" _) with (JStr ∘ py_str <$> levels). rewrite Hi, Hj. cbn [mbind option_bind].
    change (array_at "z" _) with (JArr <$> grid). rewrite list_lookup_fmap, Hrow. exact Hv.
Qed.

Lemma heat_dimensions_elem records d r :
  Forall (λ r, exact_size (t_size r)) records → heat_dimensions_of records = Ok d → r ∈ records →
  t_queue_type r ∈ h_queue_types d ∧ t_strategy r ∈ h_strategies d ∧ t_size r ∈ h_sizes d.
Proof.
  intros Hex Hd Hr. unfold heat_dimensions_of in Hd. cbv zeta in Hd.
  apply bind_Ok in Hd as (sts & [_ Hsts]%strategies_of_spec & Hd).
  apply bind_Ok in Hd as (szs & Hszs & Hd). injection Hd as <-.
  apply sorted_set_ints in Hszs as [_ Hel].
  - cbn [h_queue_types h_strategies h_sizes]. split_and!.
    + apply sorted_names_elem. by apply list_elem_of_fmap_2.
    + apply Hsts. by apply list_elem_of_fmap_2.
    + apply Hel. by apply list_elem_of_fmap_2.
  - apply Forall_fmap. eapply Forall_impl; [exact Hex|]. intros p (z & Hz & _). by exists z.
Qed.

(** C26: with integer message sizes and concurrency levels, every batch record has
    its cell in a heatmap of each metric: the plot has the trace of its queue
    type, strategy and size, and the cell labelled with its batch size and
    concurrency holds the scaled value of the first record with these
    coordinates. *)
Theorem heatmap_cells records d p r m :
  heat_dimensions_of records = Ok d → heatmap_plot_of records d = Ok p →
  Forall (λ r, exact_size (t_size r) ∧ ∃ z, t_concurrency r = JInt z) records →
  r ∈ records → m ∈ metrics →
  ∃ trace r0 f,
    (trace, heatmap_meta (t_queue_type r) (t_strategy r) (t_size r) m) ∈ zipped p ∧
    head (filter (λ p, same_cell r p = true) records) = Some r0 ∧
    mul_float (m_field m r0) (m_scale m) = Ok f ∧
    cell trace (t_batch_size r) (t_concurrency r) = Some (JFloat f).
Proof.
  intros Hd Hp [Hex Hint]%Forall_and Hr Hm.
  destruct (heat_dimensions_elem records d r) as (Hq & Hs & Hz); [done..|].
  assert (py_eq (t_size r) (t_size r) = true) as Hrefl.
  { rewrite Forall_forall in Hex. destruct (Hex r Hr) as (z & -> & _). apply Z.eqb_refl. }
  destruct (heatmap_reaches records d (t_queue_type r) (t_strategy r) (t_size r) m p)
    as (trace & meta & Ht & Hin); [done..| |done|].
  { intros Hnil. assert (r ∈ filter (λ p, in_heatmap (t_queue_type r) (t_strategy r) (t_size r) p = true)
      records) as Hin; [|rewrite Hnil in Hin; by apply not_elem_of_nil in Hin].
    apply list_elem_of_filter. split; [|done]. unfold in_heatmap. by rewrite !bool_decide_true. }
  destruct (heat_trace_cell records d r m trace meta) as (r0 & f & ? & ? & ?); [done..|].
  exists trace, r0, f. destruct Ht as (? & ? & ? & _ & _ & _ & ->). done.
Qed.

(** *** The sample run *)

Definition heat_sample : list throughput_record :=
  match heatmap_records sample_sets with Ok l => l | Err _ => [] end.

Definition heat_sample_dimensions : heat_dimensions :=
  match heat_dimensions_of heat_sample with Ok d => d | Err _ => HeatDimensions [] [] [] end.

Definition heat_sample_plot : plot :=
  match heatmap_plot_of heat_sample heat_sample_dimensions with Ok p => p | Err _ => Plot [] [] end.

Lemma heat_sample_exact :
  Forall (λ r, exact_size (t_size r) ∧ ∃ z, t_concurrency r = JInt z) heat_sample.
Proof.
  let l := eval vm_compute in heat_sample in change heat_sample with l.
  repeat apply Forall_cons_2; [..|apply Forall_nil_2];
    (split; [eexists; split; [reflexivity|reflexivity]|eexists; reflexivity]).
Qed.

Lemma heatmap_initial_witness :
  (initial_flags heat_sample_plot).1 =
  (updateHeatmap (p_metadata heat_sample_plot) (default_radios (heat_groups heat_sample_dimensions))).1.1.
Proof.
  apply (heatmap_initial heat_sample heat_sample_dimensions heat_sample_plot).
  - vm_compute. reflexivity.
  - vm_compute. reflexivity.
  - eapply Forall_impl; [exact heat_sample_exact|]. intros r [H _]. exact H.
Defined.

Lemma heatmap_cells_witness :
  ∃ r trace r0 f, r ∈ heat_sample ∧
    (trace, heatmap_meta (t_queue_type r) (t_strategy r) (t_size r)
       (Metric "ops_per_sec" "Message Rate (Mops/s)" t_ops_per_sec (f_of_decimal false 1 (-6))))
      ∈ zipped heat_sample_plot ∧
    head (filter (λ p, same_cell r p = true) heat_sample) = Some r0 ∧
    cell trace (t_batch_size r) (t_concurrency r) = Some (JFloat f).
Proof.
  destruct heat_sample as [|r rest] eqn:Hs; [vm_compute in Hs; discriminate Hs|].
  exists r. destruct (heatmap_cells heat_sample heat_sample_dimensions heat_sample_plot r
    (Metric "ops_per_sec" "Message Rate (Mops/s)" t_ops_per_sec (f_of_decimal false 1 (-6))))
    as (trace & r0 & f & H1 & H2 & _ & H3).
  - vm_compute. reflexivity.
  - vm_compute. reflexivity.
  - exact heat_sample_exact.
  - rewrite Hs. left.
  - left.
  - exists trace, r0, f. rewrite <-Hs. split_and!; [|exact H1|exact H2|exact H3]. rewrite Hs. left.
Defined.

(** ** The program *)

Lemma page_names : plain_name "dashboard.html" ∧ plain_name "heatmap.html".
Proof. by split; split. Qed.

Lemma create_dashboard_Ok rss out w w' :
  create_dashboard rss out w = (Ok tt, w') →
  ∃ d p meta, dashboard_plot_of rss = Ok (d, p) ∧ build_meta_text rss = Ok meta ∧
    file_bytes w' out = Ok (dashboard_page meta d p).
Proof.
  unfold create_dashboard. intros H. apply io_bind_pure in H as ([d p] & Hp & H).
  apply io_bind_pure in H as (meta & Hm & H). apply io_bind_Ok in H as ([] & w1 & Hw & H).
  apply io_print_Ok in H as [_ ->]. exists d, p, meta. split_and!; [done..|].
  by apply write_utf8_Ok, write_text_reads in Hw.
Qed.

(** The heatmap page of a list of batch records, if there are any *)
Definition heatmap_text (rss : list result_set) (meta text : string) : Prop :=
  ∃ records d p labels, heatmap_records rss = Ok records ∧ heat_dimensions_of records = Ok d ∧
    heatmap_plot_of records d = Ok p ∧ mapM human_size (h_sizes d) = Ok labels ∧
    text = heatmap_page meta d labels p.

Lemma create_heatmap_Ok rss dir w w' meta b :
  build_meta_text rss = Ok meta → file_bytes w (path_div dir "dashboard.html") = Ok b →
  create_heatmap_dashboard rss (path_div dir "heatmap.html") w = (Ok tt, w') →
  file_bytes w' (path_div dir "dashboard.html") = Ok b ∧
  (heatmap_records rss = Ok [] ∨
   ∃ text, heatmap_text rss meta text ∧ file_bytes w' (path_div dir "heatmap.html") = Ok text).
Proof.
  intros Hmeta Hb H. unfold create_heatmap_dashboard in H.
  apply io_bind_pure in H as (records & Hr & H).
  destruct records as [|r records]; [apply io_print_Ok in H as [_ ->]; split; [done|by left]|].
  apply io_bind_pure in H as (d & Hd & H). apply io_bind_pure in H as (p & Hp & H).
  apply io_bind_pure in H as (labels & Hl & H). apply io_bind_pure in H as (meta' & Hm & H).
  rewrite Hmeta in Hm. injection Hm as <-. apply io_bind_Ok in H as ([] & w1 & Hw & H).
  apply io_print_Ok in H as [_ ->]. apply write_utf8_Ok in Hw. destruct page_names as [? ?]. split.
  - by eapply (write_text_sibling dir "dashboard.html" "heatmap.html") in Hw.
  - right. eexists. split; [|by apply write_text_reads in Hw]. by exists (r :: records), d, p, labels.
Qed.

(** C27: when the program succeeds, dashboard.html in the output directory is the
    page of the plot of the loaded results, and heatmap.html is the page of their
    batch records, unless they have none. *)
Theorem dashboard_main_success args w w' :
  main args w = (Ok tt, w') →
  ∃ rss w1 d p meta,
    load_result_sets (a_input args) w = (Ok rss, w1) ∧ dashboard_plot_of rss = Ok (d, p) ∧
    build_meta_text rss = Ok meta ∧
    file_bytes w' (path_div (parse_path (a_outdir args)) "dashboard.html") =
      Ok (dashboard_page meta d p) ∧
    (heatmap_records rss = Ok [] ∨
     ∃ text, heatmap_text rss meta text ∧
       file_bytes w' (path_div (parse_path (a_outdir args)) "heatmap.html") = Ok text).
Proof.
  unfold main. cbv zeta. intros H. apply io_bind_Ok in H as (rss & w1 & Hrss & H).
  apply io_bind_Ok in H as ([] & w2 & _ & H). apply io_bind_Ok in H as ([] & w3 & _ & H).
  apply io_print_bind in H as [_ H]. apply io_bind_Ok in H as ([] & w4 & Hdash & H).
  apply io_bind_Ok in H as ([] & w5 & Hheat & H). apply io_print_bind in H as [_ H].
  apply io_print_bind in H as [_ H]. apply io_print_Ok in H as [_ ->].
  apply create_dashboard_Ok in Hdash as (d & p & meta & Hp & Hm & Hb).
  destruct (create_heatmap_Ok _ _ _ _ _ _ Hm Hb Hheat) as [Hb' Hh].
  exists rss, w1, d, p, meta. split_and!; done.
Qed.

(** The two sample runs under [/repo] *)
Definition sample_world : world :=
  repo_world [(["repo"; "a.json"], dedicated_text); (["repo"; "b.json"], shared_text)].

Definition sample_main : exc unit * world := main (Arguments ["a.json"; "b.json"] "graphs") sample_world.

Lemma dashboard_main_success_witness :
  ∃ meta d p, file_bytes sample_main.2 (parse_path "graphs/dashboard.html") = Ok (dashboard_page meta d p).
Proof.
  destruct (dashboard_main_success (Arguments ["a.json"; "b.json"] "graphs") sample_world sample_main.2)
    as (rss & w1 & d & p & meta & _ & _ & _ & Hb & _).
  - apply io_run_fst. vm_compute. reflexivity.
  - exists meta, d, p. exact Hb.
Defined.
