(* ===== verification/PlotResults.v ===== *)
(** * The graphs of the hardware evaluation

    hw-eval/plot_results.py: six graphs drawn from one result file.  The plotting
    library is a parameter ([library]): a figure is the sequence of calls made on
    it, and the library says which call raises after which calls, and what image
    a figure gives.  What the script computes for the calls, the series, the
    grids, the labels and the layout of the subplots, is modelled, with the
    exceptions of entries that lack a key or hold a value of the wrong type.  As
    in [Dashboard], the digits a benchmark's name ends in are ASCII digits. *)

From Stdlib Require Import Ascii SpecFloat.
From S2P Require Import Prelude PyFloat PyVal PyPath Json JsonOut World PyColl RunnerCommon Dashboard.

Local Open Scope Z_scope.

(** ** Figures *)

Inductive target : Type :=
  | Pyplot
  | Figure
  | Axes (row col : nat).

(** What a call is given: values, and what other calls have returned.
    [BarCentre s i] and [BarTop s i] are the positions
    [bar.get_x() + bar.get_width() / 2] and [bar.get_height()] of the bar [i] that
    the call [s] of [bar] returned. *)
Inductive argument : Type :=
  | Val (v : json)
  | Image (row col : nat)
  | Subplot (row col : nat)
  | BarCentre (series index : nat)
  | BarTop (series index : nat).

Record call : Type := Call {
  c_target : target;
  c_method : string;
  c_args : list argument;
  c_kwargs : list (string * argument);
}.

(** [lib_accept calls c]: the call [c] after [calls];
    [lib_png dpi calls]: the image [savefig] writes *)
Record library : Type := Library {
  lib_accept : list call → call → exc unit;
  lib_png : Z → list call → exc string;
}.

(** Statements that draw on a figure *)
Definition draw (A : Type) : Type := list call → exc (A * list call).

#[global] Instance draw_ret : MRet draw := λ A x calls, Ok (x, calls).
#[global] Instance draw_bind : MBind draw := λ A B f m calls, '(x, calls') ← m calls; f x calls'.

Definition lift {A} (m : exc A) : draw A := λ calls, x ← m; Ok (x, calls).

Module PlotResults.
Import Dashboard.

Definition human_size (n : json) : exc string := Dashboard.human_size n.

Definition load_results (p : string) : io json :=
  text ← read_text (parse_path p);
  pure_ (json_loads text).

Definition int (z : Z) : argument := Val (JInt z).
Definition str (s : string) : argument := Val (JStr s).
Definition dec (m k : Z) : argument := Val (decimal m k).
Definition values (l : list json) : argument := Val (JArr l).
Definition pair_ (a b : Z) : argument := values [JInt a; JInt b].
Definition range (n : nat) : argument := values (JInt ∘ Z.of_nat <$> seq 0 n).
Definition yes : argument := Val (JBool true).

Section plots.
Context (lib : library).

(** One call on the figure *)
Definition on (t : target) (method : string) (args : list argument)
    (kwargs : list (string * argument)) : draw unit := λ calls,
  let c := Call t method args kwargs in
  lib_accept lib calls c;;
  Ok (tt, calls ++ [c]).

(** The file [fig.savefig(os.path.join(outdir, name), dpi=150)] writes for a
    figure, and the line that names it.  A graph without data has no figure. *)
Definition graph (figure : exc (option (draw unit))) (outdir : path) (name : string) : io unit :=
  o ← pure_ figure;
  match o with
  | None => mret tt
  | Some m =>
      '(_, calls) ← pure_ (m []);
      png ← pure_ (lib_png lib 150 calls);
      write_text (path_div outdir name) png;;
      print ("  " +:+ name)
  end.

(** [data[key]], iterated *)
Definition entries (key : string) (data : json) : exc (list json) :=
  v ← item key data; py_iter v.

(** [re.match(prefix + r"(\d+)", v)] and its number *)
Definition batch_number (prefix : string) (v : json) : exc (option Z) :=
  match v with
  | JStr name => Ok (match_digits prefix name)
  | v => Err (TypeError (cat ["expected string or bytes-like object, got '"; type_name v; "'"]))
  end.

Definition log2_axis (ax : target) : draw unit :=
  on ax "set_xscale" [str "log"] [("base", int 2)].
Definition grid_lines (ax : target) (more : list (string * argument)) : draw unit :=
  on ax "grid" [yes] (("alpha", dec 3 1) :: more).

(** ** Graph 1: latency and bandwidth by message size *)

(** The two lists of a benchmark grow together: one list of pairs *)
Definition latency_step (benchmarks : dict (list (json * json))) (r : json)
    : exc (dict (list (json * json))) :=
  size ← item "size" r;
  match size with
  | JNull => Ok benchmarks
  | _ =>
      benchmark ← item "benchmark" r;
      match benchmark with
      | JStr name =>
          if bool_decide (name ∈ LATENCY_BENCHMARKS) then
            ns ← item "ns" r;
            median ← item "median" ns;
            Ok (dset name (default [] (dget name benchmarks) ++ [(size, median)]) benchmarks)
          else Ok benchmarks
      | _ => Ok benchmarks
      end
  end.

Definition latency_benchmarks (data : json) : exc (dict (list (json * json))) :=
  l ← entries "latency" data;
  foldM latency_step [] l.

Definition colors : dict string :=
  [("memmove", "C0"); ("crc_gen", "C1"); ("copy_crc", "C2"); ("sw_memcpy", "C3"); ("sw_crc32c", "C4")].
Definition markers : dict string :=
  [("memmove", "o"); ("crc_gen", "s"); ("copy_crc", "D"); ("sw_memcpy", "^"); ("sw_crc32c", "v")].

(** [s / (m * 1e-9) / 1e9] *)
Definition bandwidth (point : json * json) : exc json :=
  seconds ← mul_float point.2 (f_of_decimal false 1 (-9));
  rate ← py_div point.1 (JFloat seconds);
  gb ← py_div (JFloat rate) (JFloat f_1e9);
  Ok (JFloat gb).

(** The two curves of one benchmark *)
Definition latency_curves (benchmarks : dict (list (json * json))) (name : string) : draw unit :=
  match dget name benchmarks with
  | None => mret tt
  | Some points =>
      points ← lift (sorted_on fst points);
      marker ← lift (ditem name markers);
      color ← lift (ditem name colors);
      let style := [("marker", str marker); ("color", str color); ("label", str name);
                    ("linewidth", int 2); ("markersize", int 6)] in
      on (Axes 0 0) "plot" [values points.*1; values points.*2] style;;
      bw ← lift (mapM bandwidth points);
      on (Axes 0 1) "plot" [values points.*1; values bw] style
  end.

Definition size_ticks : list json :=
  JInt <$> [64; 256; 1024; 4096; 16384; 65536; 262144; 1048576].

Definition size_axis (ax : target) : draw unit :=
  on ax "set_xticks" [values size_ticks] [];;
  labels ← lift (mapM human_size size_ticks);
  on ax "set_xticklabels" [values (JStr <$> labels)] [("rotation", int 45)].

Definition latency_figure (data : json) : draw unit :=
  on Pyplot "subplots" [int 1; int 2] [("figsize", pair_ 14 6)];;
  benchmarks ← lift (latency_benchmarks data);
  iterM (latency_curves benchmarks) LATENCY_BENCHMARKS;;
  log2_axis (Axes 0 0);;
  on (Axes 0 0) "set_yscale" [str "log"] [];;
  on (Axes 0 0) "set_xlabel" [str "Message size (bytes)"] [];;
  on (Axes 0 0) "set_ylabel" [str "Median latency (ns)"] [];;
  on (Axes 0 0) "set_title" [str "Single-op Latency vs Message Size"] [];;
  on (Axes 0 0) "legend" [] [("fontsize", int 9)];;
  grid_lines (Axes 0 0) [];;
  size_axis (Axes 0 0);;
  log2_axis (Axes 0 1);;
  on (Axes 0 1) "set_xlabel" [str "Message size (bytes)"] [];;
  on (Axes 0 1) "set_ylabel" [str "Bandwidth (GB/s)"] [];;
  on (Axes 0 1) "set_title" [str "Effective Bandwidth vs Message Size"] [];;
  on (Axes 0 1) "legend" [] [("fontsize", int 9)];;
  grid_lines (Axes 0 1) [];;
  size_axis (Axes 0 1);;
  on Figure "tight_layout" [] [].

Definition plot_latency_vs_size (data : json) (outdir : path) : io unit :=
  graph (Ok (Some (latency_figure data))) outdir "latency_vs_size.png".

(** ** Subplots, three in a row *)

(** The rows and columns for [n] subplots, [n] positive *)
Definition grid_shape (n : nat) : nat * nat :=
  let ncols := Nat.min 3 n in
  (((n + ncols - 1) `div` ncols)%nat, ncols).

Definition row_of (ncols idx : nat) : nat := (idx `div` ncols)%nat.
Definition col_of (ncols idx : nat) : nat := (idx `mod` ncols)%nat.
Definition axes_at (ncols idx : nat) : target := Axes (row_of ncols idx) (col_of ncols idx).

(** A subplot for each size, the rest of the grid hidden *)
Definition subplots_by_size (width : Z) (sizes : list json) (one : nat → nat → json → draw unit)
    : draw unit :=
  let '(nrows, ncols) := grid_shape (length sizes) in
  on Pyplot "subplots" [int (Z.of_nat nrows); int (Z.of_nat ncols)]
    [("figsize", pair_ (width * Z.of_nat ncols) (5 * Z.of_nat nrows)); ("squeeze", Val (JBool false))];;
  iterM (λ '(idx, size), one (row_of ncols idx) (col_of ncols idx) size) (enumerate sizes);;
  iterM (λ idx, on (axes_at ncols idx) "set_visible" [Val (JBool false)] [])
    (seq (length sizes) (nrows * ncols - length sizes));;
  on Figure "tight_layout" [] [].

(** ** Graph 2: throughput by concurrency *)

(** By size, the pairs of a concurrency and a rate *)
Definition table : Type := list (json * list (json * json)).

Definition add_point (t : table) (r : json) : exc table :=
  size ← item "size" r;
  hashable size;;
  concurrency ← item "concurrency" r;
  ops ← item "ops_per_sec" r;
  mops ← div_float ops f_1e6;
  Ok (vset size (default [] (vget size t) ++ [(concurrency, JFloat mops)]) t).

(** [sw_data] and [burst_data] after one more entry *)
Definition window_step (acc : table * table) (r : json) : exc (table * table) :=
  let '(sw_data, burst_data) := acc in
  benchmark ← item "benchmark" r;
  if py_eq benchmark (JStr "memmove") then sw_data ← add_point sw_data r; Ok (sw_data, burst_data)
  else if py_eq benchmark (JStr "burst_memmove") then
    burst_data ← add_point burst_data r; Ok (sw_data, burst_data)
  else Ok acc.

(** The best rate by size and concurrency of the benchmarks called [prefix]
    with a number *)
Definition best_step (prefix : string) (t : table) (r : json) : exc table :=
  benchmark ← item "benchmark" r;
  m ← batch_number prefix benchmark;
  match m with
  | None => Ok t
  | Some _ =>
      key ← item "size" r;
      ops ← item "ops_per_sec" r;
      hashable key;;
      concurrency ← item "concurrency" r;
      hashable concurrency;;
      let row := default [] (vget key t) in
      let best := default (JFloat f_zero) (vget concurrency row) in
      better ← gt_number ops best;
      Ok (vset key (vset concurrency (if better : bool then ops else best) row) t)
  end.

Definition best_rates (prefix : string) (data : json) : exc table :=
  l ← entries "throughput" data;
  foldM (best_step prefix) [] l.

Definition curve (ax : target) (xs ys : list json) (fmt label color : string) : draw unit :=
  on ax "plot" [values xs; values ys; str fmt]
    [("label", str label); ("linewidth", int 2); ("color", str color)].

Definition window_curve (ax : target) (t : table) (size : json) (fmt label color : string) : draw unit :=
  match vget size t with
  | None => mret tt
  | Some points =>
      points ← lift (sorted_on fst points);
      curve ax points.*1 points.*2 fmt label color
  end.

Definition best_curve (ax : target) (t : table) (size : json) (fmt label color : string) : draw unit :=
  match vget size t with
  | None | Some [] => mret tt
  | Some row =>
      concs ← lift (py_sorted row.*1);
      ops ← lift (mapM (λ c,
        best ← of_option (KeyError (py_str c)) (vget c row);
        mops ← div_float best f_1e6;
        Ok (JFloat mops)) concs);
      curve ax concs ops fmt label color
  end.

Definition throughput_subplot (sw_data burst_data pb_data bb_data : table) (row col : nat) (size : json)
    : draw unit :=
  let ax := Axes row col in
  window_curve ax sw_data size "o-" "sliding_window" "C0";;
  window_curve ax burst_data size "s--" "burst" "C1";;
  best_curve ax pb_data size "D-." "pipelined_batch (best)" "C2";;
  best_curve ax bb_data size "^:" "burst_batch (best)" "C3";;
  log2_axis ax;;
  on ax "set_xlabel" [str "Concurrency / Burst size"] [];;
  on ax "set_ylabel" [str "Mops/sec"] [];;
  label ← lift (human_size size);
  on ax "set_title" [str ("Throughput: memmove " +:+ label)] [];;
  on ax "legend" [] [("fontsize", int 8)];;
  grid_lines ax [].

Definition throughput_figure (data : json) : exc (option (draw unit)) :=
  l ← entries "throughput" data;
  '(sw_data, burst_data) ← foldM window_step ([], []) l;
  pb_data ← best_rates "pipelined_batch_b" data;
  bb_data ← best_rates "burst_batch_b" data;
  sizes ← sorted_set (sw_data.*1 ++ burst_data.*1);
  Ok (match sizes with
      | [] => None
      | _ => Some (subplots_by_size 6 sizes (throughput_subplot sw_data burst_data pb_data bb_data))
      end).

Definition plot_throughput_vs_concurrency (data : json) (outdir : path) : io unit :=
  graph (throughput_figure data) outdir "throughput_vs_concurrency.png".

(** ** Graph 3: latency per operation of a batch *)

Definition batch_step (batch_data : table) (r : json) : exc table :=
  benchmark ← item "benchmark" r;
  if py_eq benchmark (JStr "batch_memmove") then
    batch_size ← item "batch_size" r;
    match batch_size with
    | JNull => Ok batch_data
    | _ =>
        size ← item "size" r;
        hashable size;;
        ns ← item "ns" r;
        median ← item "median" ns;
        per_op ← py_div median batch_size;
        Ok (vset size (default [] (vget size batch_data) ++ [(batch_size, JFloat per_op)]) batch_data)
    end
  else Ok batch_data.

(** The median of the first entry called [noop] *)
Fixpoint noop_median (l : list json) : exc (option json) :=
  match l with
  | [] => Ok None
  | r :: l =>
      benchmark ← item "benchmark" r;
      if py_eq benchmark (JStr "noop") then
        ns ← item "ns" r;
        median ← item "median" ns;
        Ok (Some median)
      else noop_median l
  end.

Definition batch_curve (batch_data : table) (size : json) : draw unit :=
  points ← lift (sorted_on fst (default [] (vget size batch_data)));
  label ← lift (human_size size);
  on (Axes 0 0) "plot" [values points.*1; values points.*2; str "o-"]
    [("label", str label); ("linewidth", int 2); ("markersize", int 5)].

Definition noop_line (noop : option json) : draw unit :=
  match noop with
  | None => mret tt
  | Some median =>
      on (Axes 0 0) "axhline" []
        [("y", Val median); ("color", str "red"); ("linestyle", str ":"); ("linewidth", dec 15 1);
         ("label", str (cat ["NOOP ("; py_str median; " ns)"]))]
  end.

Definition batch_figure (data : json) : exc (option (draw unit)) :=
  l ← entries "latency" data;
  batch_data ← foldM batch_step [] l;
  Ok (match batch_data with
      | [] => None
      | _ => Some (
          on Pyplot "subplots" [] [("figsize", pair_ 10 6)];;
          sizes ← lift (py_sorted batch_data.*1);
          iterM (batch_curve batch_data) sizes;;
          noop ← lift (noop_median l);
          noop_line noop;;
          log2_axis (Axes 0 0);;
          on (Axes 0 0) "set_xlabel" [str "Batch size"] [];;
          on (Axes 0 0) "set_ylabel" [str "Per-op latency (ns)"] [];;
          on (Axes 0 0) "set_title" [str "Batch Amortization: Per-op Latency vs Batch Size"] [];;
          on (Axes 0 0) "legend" [] [];;
          grid_lines (Axes 0 0) [];;
          on Figure "tight_layout" [] [])
      end).

Definition plot_batch_amortization (data : json) (outdir : path) : io unit :=
  graph (batch_figure data) outdir "batch_amortization.png".

(** ** Graphs 4 and 4b: heat maps by batch size and concurrency *)

Definition heat_entry : Type := Z * json * float.

Definition heat_step (prefix : string) (by_size : list (json * list heat_entry)) (r : json)
    : exc (list (json * list heat_entry)) :=
  benchmark ← item "benchmark" r;
  m ← batch_number prefix benchmark;
  match m with
  | None => Ok by_size
  | Some bn =>
      size ← item "size" r;
      hashable size;;
      concurrency ← item "concurrency" r;
      ops ← item "ops_per_sec" r;
      mops ← div_float ops f_1e6;
      Ok (vset size (default [] (vget size by_size) ++ [(bn, concurrency, mops)]) by_size)
  end.

(** The position of the first element that passes the test *)
Definition index_of {A} (p : A → bool) (l : list A) : option nat :=
  fst <$> list_find (λ x, p x = true) l.

(** [grid[bi_map[bn]][ci_map[conc]] = ops] *)
Definition set_cell (batch_sizes : list Z) (levels : list json) (grid : list (list float))
    (e : heat_entry) : exc (list (list float)) :=
  let '(bn, conc, ops) := e in
  i ← of_option (KeyError (pretty bn)) (index_of (Z.eqb bn) batch_sizes);
  j ← of_option (KeyError (py_str conc)) (index_of (same_item conc) levels);
  Ok (alter (insert j ops) i grid).

(** The rows, the columns and the cells *)
Definition heat_grid (l : list heat_entry) : exc (list Z * list json * list (list float)) :=
  let batch_sizes := sorted_ints (map (λ e, e.1.1) l) in
  levels ← sorted_set (map (λ e, e.1.2) l);
  let zeros := replicate (length batch_sizes) (replicate (length levels) f_zero) in
  grid ← foldM (set_cell batch_sizes levels) zeros l;
  Ok (batch_sizes, levels, grid).

(** [grid.max()]: nan if a cell is nan *)
Definition max_cell (a b : float) : float :=
  if is_nan a then a else if is_nan b || f_ltb a b then b else a.
Definition grid_max (grid : list (list float)) : float :=
  match concat grid with
  | [] => f_zero
  | f :: l => foldl max_cell f l
  end.

Definition cell_color (peak val : float) : string :=
  if f_ltb (f_mul peak (f_of_decimal false 6 (-1))) val then "white" else "black".

Definition heat_subplot (xlabel title : string) (by_size : list (json * list heat_entry))
    (row col : nat) (size : json) : draw unit :=
  let ax := Axes row col in
  '(batch_sizes, levels, grid) ← lift (heat_grid (default [] (vget size by_size)));
  on ax "imshow" [values (JArr ∘ fmap JFloat <$> grid)]
    [("aspect", str "auto"); ("origin", str "lower"); ("cmap", str "YlOrRd")];;
  on ax "set_xticks" [range (length levels)] [];;
  on ax "set_xticklabels" [values levels] [];;
  on ax "set_yticks" [range (length batch_sizes)] [];;
  on ax "set_yticklabels" [values (JInt <$> batch_sizes)] [];;
  on ax "set_xlabel" [str xlabel] [];;
  on ax "set_ylabel" [str "Batch size"] [];;
  label ← lift (human_size size);
  on ax "set_title" [str (cat [title; ": "; label; " (Mops/sec)"])] [];;
  iterM (λ '(i, cells),
    iterM (λ '(j, val),
      on ax "text" [int (Z.of_nat j); int (Z.of_nat i); str (format_fixed 1 val)]
        [("ha", str "center"); ("va", str "center"); ("fontsize", int 7);
         ("color", str (cell_color (grid_max grid) val))]) (enumerate cells)) (enumerate grid);;
  on Figure "colorbar" [Image row col] [("ax", Subplot row col); ("shrink", dec 8 1)].

Definition heat_figure (prefix xlabel title : string) (data : json) : exc (option (draw unit)) :=
  l ← entries "throughput" data;
  by_size ← foldM (heat_step prefix) [] l;
  match by_size with
  | [] => Ok None
  | _ =>
      sizes ← py_sorted by_size.*1;
      Ok (Some (subplots_by_size 7 sizes (heat_subplot xlabel title by_size)))
  end.

Definition pipelined_figure : json → exc (option (draw unit)) :=
  heat_figure "pipelined_batch_b" "Concurrency" "Pipelined Batch".
Definition burst_batch_figure : json → exc (option (draw unit)) :=
  heat_figure "burst_batch_b" "Burst count" "Burst-Batch".

Definition plot_pipelined_heatmap (data : json) (outdir : path) : io unit :=
  graph (pipelined_figure data) outdir "pipelined_batch_heatmap.png".

Definition plot_burst_batch_heatmap (data : json) (outdir : path) : io unit :=
  graph (burst_batch_figure data) outdir "burst_batch_heatmap.png".

(** ** Graph 5: the best rate of each strategy *)

(** The peak rates by size of each strategy *)
Definition peaks : Type := dict (list (json * float)).

Definition strategy_of (benchmark : json) : exc (option string) :=
  if py_eq benchmark (JStr "memmove") then Ok (Some "sliding_window")
  else if py_eq benchmark (JStr "burst_memmove") then Ok (Some "burst")
  else
    m ← batch_number "pipelined_batch_b" benchmark;
    match m with
    | Some _ => Ok (Some "pipelined_batch")
    | None =>
        m ← batch_number "burst_batch_b" benchmark;
        Ok (match m with Some _ => Some "burst_batch" | None => None end)
    end.

(** [max(a, b)] of two floats *)
Definition py_max (a b : float) : float := if f_ltb a b then b else a.

Definition peak_step (strategies : peaks) (r : json) : exc peaks :=
  sz ← item "size" r;
  ops ← item "ops_per_sec" r;
  ops ← div_float ops f_1e6;
  benchmark ← item "benchmark" r;
  o ← strategy_of benchmark;
  match o with
  | None => Ok strategies
  | Some name =>
      hashable sz;;
      let row := default [] (dget name strategies) in
      Ok (dset name (vset sz (py_max (default f_zero (vget sz row)) ops) row) strategies)
  end.

Definition no_peaks : peaks :=
  [("sliding_window", []); ("burst", []); ("pipelined_batch", []); ("burst_batch", [])].

Definition strategy_colors : dict string :=
  [("sliding_window", "C0"); ("burst", "C1"); ("pipelined_batch", "C2"); ("burst_batch", "C3")].

(** [vals.get(sz, 0)] *)
Definition height (vals : list (json * float)) (sz : json) : json :=
  match vget sz vals with Some h => JFloat h | None => JInt 0 end.

Definition width : float := f_of_decimal false 2 (-1).
Definition float_of_nat (n : nat) : float := f_normalize (Z.of_nat n) 0.

(** [x + shift] for [x = np.arange(n)] *)
Definition shifted (n : nat) (shift : float) : argument :=
  values ((λ k, JFloat (f_add (float_of_nat k) shift)) <$> seq 0 n).

(** The number above a bar of positive height *)
Definition bar_label (series : nat) (bar : nat * json) : draw unit :=
  let '(k, h) := bar in
  match h with
  | JFloat f =>
      if f_ltb f_zero f then
        on (Axes 0 0) "text" [BarCentre series k; BarTop series k; str (format_fixed 1 f)]
          [("ha", str "center"); ("va", str "bottom"); ("fontsize", int 7)]
      else mret tt
  | _ => mret tt
  end.

Definition strategy_bars (sizes : list json) (strategy : nat * (string * list (json * float)))
    : draw unit :=
  let '(i, (name, vals)) := strategy in
  let heights := height vals <$> sizes in
  color ← lift (ditem name strategy_colors);
  on (Axes 0 0) "bar" [shifted (length sizes) (f_mul (float_of_nat i) width); values heights;
                       Val (JFloat width)] [("label", str name); ("color", str color)];;
  iterM (bar_label i) (enumerate heights).

Definition strategy_graph (strategies : peaks) (sizes : list json) : draw unit :=
  on Pyplot "subplots" [] [("figsize", pair_ 14 6)];;
  iterM (strategy_bars sizes) (enumerate strategies);;
  on (Axes 0 0) "set_xlabel" [str "Message size"] [];;
  on (Axes 0 0) "set_ylabel" [str "Peak Mops/sec"] [];;
  on (Axes 0 0) "set_title" [str "Peak Message Rate by Strategy"] [];;
  on (Axes 0 0) "set_xticks" [shifted (length sizes) (f_mul (f_of_decimal false 15 (-1)) width)] [];;
  labels ← lift (mapM human_size sizes);
  on (Axes 0 0) "set_xticklabels" [values (JStr <$> labels)] [];;
  on (Axes 0 0) "legend" [] [];;
  grid_lines (Axes 0 0) [("axis", str "y")];;
  on Figure "tight_layout" [] [].

Definition strategy_figure (data : json) : exc (option (draw unit)) :=
  l ← entries "throughput" data;
  strategies ← foldM peak_step no_peaks l;
  sizes ← sorted_set (concat (map fst <$> strategies.*2));
  Ok (match sizes with [] => None | _ => Some (strategy_graph strategies sizes) end).

Definition plot_strategy_comparison (data : json) (outdir : path) : io unit :=
  graph (strategy_figure data) outdir "strategy_comparison.png".

(** ** The program *)

(** [os.makedirs(p, exist_ok=True)] *)
Definition makedirs (p : string) : io unit :=
  match p with
  | "" => io_raise (OSError "[Errno 2] No such file or directory: ''")
  | _ => mkdir_p (parse_path p)
  end.

Definition print_metadata (input outdir : string) (meta : json) : io unit :=
  print ("Results: " +:+ input);;
  device ← pure_ (item "device" meta);
  dedicated ← pure_ (queue_type_label meta);
  print (cat ["  Device: "; py_str device; " ("; dedicated; ")"]);;
  core ← pure_ (item "pinned_core" meta);
  cpu ← pure_ (py_get meta "cpu_numa_node" JNull);
  dsa ← pure_ (py_get meta "device_numa_node" JNull);
  print (cat ["  Core: "; py_str core; ", NUMA: CPU="; py_str cpu; ", DSA="; py_str dsa]);;
  tsc ← pure_ (item "tsc_freq_hz" meta);
  ghz ← pure_ (div_float tsc f_1e9);
  iterations ← pure_ (item "iterations" meta);
  print (cat ["  TSC: "; format_fixed 3 ghz; " GHz, Iterations: "; py_str iterations]);;
  cold ← pure_ (item "cold_cache" meta);
  print ("  Cold cache: " +:+ py_str cold);;
  print (cat [newline; "Generating graphs to "; outdir; "/:"]).

Definition main (input outdir : string) : io unit :=
  data ← load_results input;
  makedirs outdir;;
  meta ← pure_ (item "metadata" data);
  print_metadata input outdir meta;;
  let dir := parse_path outdir in
  plot_latency_vs_size data dir;;
  plot_throughput_vs_concurrency data dir;;
  plot_batch_amortization data dir;;
  plot_pipelined_heatmap data dir;;
  plot_burst_batch_heatmap data dir;;
  plot_strategy_comparison data dir;;
  n ← gets (λ w, length (glob_suffix "" w dir));
  print (cat [newline; "Done. "; pretty n; " graphs generated."]).
End plots.
End PlotResults.
