(* ===== verification/PlotResultsSpec.v ===== *)
(** * Theorems about the graphs of the hardware evaluation

    What plot_results.py draws ([PlotResults]): the bars of the strategy
    comparison are the best rates of their strategies, the cells of the heat maps
    hold the last measured rates, each size has a subplot of its own, and a
    successful run leaves the images of these figures.  [writes] is a logic for
    the calls that a drawing statement adds to its figure. *)

From Stdlib Require Import Ascii SpecFloat.
From S2P Require Import Prelude PyFloat PyVal PyPath Json JsonOut World Files PyColl Fixtures RunnerCommon Dashboard DashboardSpec PlotResults.

Local Open Scope Z_scope.
Import Dashboard PlotResults.

(** ** The greatest of a list of floats *)

(** [h] is the greatest of the rates [l], and zero *)
Definition greatest (h : float) (l : list float) : Prop :=
  (h = f_zero ∨ h ∈ l) ∧ ∀ f, f ∈ f_zero :: l → f_ltb h f = false.

Lemma py_max_not_nan a b : is_nan a = false → is_nan (py_max a b) = false.
Proof. unfold py_max. destruct (f_ltb a b) eqn:H; [|done]. by apply f_ltb_not_nan in H. Qed.

Lemma max_bounds acc l :
  is_nan acc = false →
  let h := foldl py_max acc l in
  (h = acc ∨ h ∈ l) ∧ f_ltb h acc = false ∧ Forall (λ f, f_ltb h f = false) l.
Proof.
  revert acc. induction l as [|x l IH]; intros acc Hacc; cbn [foldl]; [by split_and!; [left|apply f_ltb_irrefl|]|].
  destruct (IH (py_max acc x)) as (Hin & Hle & Hall); [by apply py_max_not_nan|].
  set (h := foldl py_max (py_max acc x) l) in *. clearbody h. unfold py_max in Hin, Hle.
  destruct (f_ltb acc x) eqn:Hlt.
  - split_and!; [set_solver| |by constructor].
    apply not_true_iff_false. intros H. rewrite (f_ltb_trans h acc x) in Hle; done.
  - split_and!; [set_solver|done|]. constructor; [|done].
    apply not_true_iff_false. intros H. destruct (f_ltb_split h acc x) as [?|?]; congruence.
Qed.

Lemma max_greatest l : greatest (foldl py_max f_zero l) l.
Proof.
  destruct (max_bounds f_zero l) as (Hin & Hle & Hall); [done|]. split; [done|].
  rewrite Forall_forall in Hall. intros f [->|?]%elem_of_cons; [done|]. by apply Hall.
Qed.

(** ** Measurements *)

(** An entry of the throughput list *)
Record run : Type := Run {
  r_benchmark : string;
  r_size : Z;
  r_concurrency : Z;
  r_mops : float;
}.

(** The JSON object [j] is the entry [r], with the rate in another unit. *)
Definition measures (j : json) (r : run) : Prop :=
  item "benchmark" j = Ok (JStr (r_benchmark r)) ∧ item "size" j = Ok (JInt (r_size r)) ∧
  item "concurrency" j = Ok (JInt (r_concurrency r)) ∧
  ∃ ops, item "ops_per_sec" j = Ok ops ∧ div_float ops f_1e6 = Ok (r_mops r).

Lemma hashable_int z : hashable (JInt z) = Ok tt.
Proof. done. Qed.

Ltac measured H :=
  let ops := fresh "ops" in let Hb := fresh "Hb" in let Hs := fresh "Hs" in
  let Hc := fresh "Hc" in let Ho := fresh "Ho" in let Hm := fresh "Hm" in
  destruct H as (Hb & Hs & Hc & ops & Ho & Hm);
  rewrite ?Hb, ?Hs; cbn [mbind result_bind]; rewrite ?Ho, ?Hc; cbn [mbind result_bind];
  rewrite ?Hm, ?Hb; cbn [mbind result_bind].

(** A loop over measured entries is a fold over the measurements. *)
Lemma foldM_measures {A} (f : A → json → exc A) (g : A → run → A) l runs a :
  (∀ a j r, measures j r → f a j = Ok (g a r)) → Forall2 measures l runs →
  foldM f a l = Ok (foldl g a runs).
Proof.
  intros Hstep Hl. revert a. induction Hl as [|j r l runs Hj _ IH]; intros a; [done|].
  cbn [foldM foldl]. rewrite (Hstep a j r Hj). apply IH.
Qed.

(** ** The peak rates of the strategies *)

Definition strategy (r : run) : option string :=
  match strategy_of (JStr (r_benchmark r)) with Ok o => o | Err _ => None end.

Definition strategy_names : list string := ["sliding_window"; "burst"; "pipelined_batch"; "burst_batch"].

Lemma strategy_Ok r : strategy_of (JStr (r_benchmark r)) = Ok (strategy r).
Proof.
  unfold strategy, strategy_of, batch_number. cbn [mbind result_bind]. by repeat case_match; simplify_eq/=.
Qed.

Lemma strategy_name r name : strategy r = Some name → name ∈ strategy_names.
Proof.
  unfold strategy, strategy_of, batch_number. cbn [mbind result_bind].
  repeat case_match; simplify_eq/=; intros; simplify_eq; set_solver.
Qed.

(** The rates of a strategy at a size *)
Definition rates (name : string) (z : Z) (runs : list run) : list float :=
  omap (λ r, if bool_decide (strategy r = Some name) && (r_size r =? z) then Some (r_mops r) else None) runs.

Definition peak_run (st : peaks) (r : run) : peaks :=
  match strategy r with
  | None => st
  | Some name =>
      let row := default [] (dget name st) in
      dset name (vset (JInt (r_size r))
        (py_max (default f_zero (vget (JInt (r_size r)) row)) (r_mops r)) row) st
  end.

Lemma peak_step_measures st j r : measures j r → peak_step st j = Ok (peak_run st r).
Proof.
  intros Hj. unfold peak_step. measured Hj. rewrite strategy_Ok. unfold peak_run.
  cbn [mbind result_bind]. by destruct (strategy r).
Qed.

(** What the table of a strategy holds *)
Definition peak_table (name : string) (runs : list run) (row : list (json * float)) : Prop :=
  int_keys row ∧ (∀ z, JInt z ∈ row.*1 ↔ rates name z runs ≠ []) ∧
  ∀ z, vget (JInt z) row =
    match rates name z runs with [] => None | rs => Some (foldl py_max f_zero rs) end.

Lemma rates_snoc name z runs r :
  rates name z (runs ++ [r]) =
    rates name z runs ++
      (if bool_decide (strategy r = Some name) && (r_size r =? z) then [r_mops r] else []).
Proof. unfold rates. rewrite omap_app. f_equal. cbn [omap list_omap]. by destruct (_ && _). Qed.

Lemma peak_table_step name runs r row :
  peak_table name runs row → strategy r = Some name →
  peak_table name (runs ++ [r])
    (vset (JInt (r_size r)) (py_max (default f_zero (vget (JInt (r_size r)) row)) (r_mops r)) row).
Proof.
  intros (Hint & Hkeys & Hget) Hr. split_and!; [by apply vset_ints|..]; intros z;
    rewrite rates_snoc, bool_decide_true by done; cbn [andb].
  - rewrite vset_elem, Hkeys, (Z.eqb_sym _ z) by done.
    destruct (Z.eqb_spec z (r_size r)) as [->|]; [|rewrite app_nil_r; naive_solver].
    split; [|by left]. intros _ H. by apply app_nil in H as [_ H].
  - rewrite vget_vset_int, (Z.eqb_sym _ z) by done. rewrite Hget.
    destruct (Z.eqb_spec z (r_size r)) as [->|]; [|by rewrite app_nil_r, Hget].
    destruct (rates name (r_size r) runs) as [|f l]; [done|].
    cbn [app default from_option]. by rewrite app_comm_cons, foldl_snoc.
Qed.

Lemma peaks_spec runs :
  let st := foldl peak_run no_peaks runs in
  st.*1 = strategy_names ∧
  ∀ name, name ∈ strategy_names → ∃ row, dget name st = Some row ∧ peak_table name runs row.
Proof.
  induction runs as [|r runs IH] using rev_ind; cbn zeta.
  - split; [done|]. intros name Hn. assert (dget name no_peaks = Some []) as Hd.
    { unfold strategy_names in Hn. repeat (apply elem_of_cons in Hn as [->|Hn]; [done|]).
      by apply not_elem_of_nil in Hn. }
    exists []. split; [done|]. split_and!; [constructor| |done]. intros z. split; [|done].
    by intros ?%not_elem_of_nil.
  - cbn zeta in IH. rewrite foldl_snoc. set (st := foldl peak_run no_peaks runs) in *. clearbody st.
    destruct IH as [Hnames IH]. unfold peak_run. destruct (strategy r) as [name|] eqn:Hr.
    + destruct (IH name) as (row & Hrow & Ht); [by eapply strategy_name|].
      rewrite Hrow. cbn [default from_option]. split.
      { rewrite dset_keys. unfold din. by rewrite Hrow. }
      intros name' Hn'. destruct (decide (name' = name)) as [->|Hne].
      * rewrite dget_dset_eq. eexists. split; [done|]. by apply peak_table_step.
      * rewrite dget_dset_ne by done. destruct (IH name' Hn') as (row' & Hrow' & Ht').
        exists row'. split; [done|]. unfold peak_table in *. setoid_rewrite rates_snoc.
        rewrite bool_decide_false by congruence. setoid_rewrite app_nil_r. done.
    + split; [done|]. intros name' Hn'. destruct (IH name' Hn') as (row' & Hrow' & Ht').
      exists row'. split; [done|]. unfold peak_table in *. setoid_rewrite rates_snoc.
      rewrite bool_decide_false by congruence. setoid_rewrite app_nil_r. done.
Qed.

(** ** The calls of a drawing statement *)

Definition writes {A} (m : draw A) (Q : A → list call → Prop) : Prop :=
  ∀ calls x calls', m calls = Ok (x, calls') → ∃ new, calls' = calls ++ new ∧ Q x new.

Lemma writes_ret {A} (x : A) (Q : A → list call → Prop) : Q x [] → writes (mret x) Q.
Proof. intros HQ calls y calls' [= <- <-]. exists []. by rewrite app_nil_r. Qed.

Lemma writes_lift {A} (m : exc A) (Q : A → list call → Prop) :
  (∀ x, m = Ok x → Q x []) → writes (lift m) Q.
Proof.
  intros HQ calls y calls' H. apply bind_Ok in H as (x & Hx & [= <- <-]). exists [].
  rewrite app_nil_r. auto.
Qed.

Lemma writes_bind {A B} (m : draw A) (f : A → draw B) R Q :
  writes m R → (∀ x new, R x new → writes (f x) (λ y more, Q y (new ++ more))) → writes (m ≫= f) Q.
Proof.
  intros Hm Hf calls y calls' H. apply bind_Ok in H as ([x mid] & Hx & H).
  destruct (Hm _ _ _ Hx) as (new & -> & HR). destruct (Hf x new HR _ _ _ H) as (more & -> & HQ).
  exists (new ++ more). by rewrite app_assoc.
Qed.

Lemma writes_mono {A} (m : draw A) (R Q : A → list call → Prop) :
  writes m R → (∀ x new, R x new → Q x new) → writes m Q.
Proof. intros Hm HQ calls x calls' (new & -> & HR)%Hm. eauto. Qed.

Lemma writes_on lib t method args kwargs :
  writes (on lib t method args kwargs) (λ _ new, new = [Call t method args kwargs]).
Proof. intros calls [] calls' H. apply bind_Ok in H as ([] & _ & [= <-]). eauto. Qed.

(** A statement only adds calls. *)
Definition extends {A} (m : draw A) : Prop := writes m (λ _ _, True).

Lemma extends_bind {A B} (m : draw A) (f : A → draw B) :
  extends m → (∀ x, extends (f x)) → extends (m ≫= f).
Proof. intros Hm Hf. eapply writes_bind; [exact Hm|]. intros x new _. apply Hf. Qed.

Lemma extends_ret {A} (x : A) : extends (mret x).
Proof. by apply writes_ret. Qed.

Lemma extends_lift {A} (m : exc A) : extends (lift m).
Proof. by apply writes_lift. Qed.

Lemma extends_on lib t method args kwargs : extends (on lib t method args kwargs).
Proof. by eapply writes_mono; [apply writes_on|]. Qed.

Lemma extends_iterM {X} (f : X → draw unit) l : (∀ x, extends (f x)) → extends (iterM f l).
Proof.
  intros Hf. unfold iterM. generalize tt. induction l as [|x l IH]; intros u; [apply extends_ret|].
  cbn [foldM]. apply extends_bind; [apply Hf|apply IH].
Qed.

(** The call [c] is among those of the statement [m]. *)
Definition makes {A} (m : draw A) (c : call) : Prop := writes m (λ _ new, c ∈ new).

Lemma makes_here {A B} (m : draw A) (f : A → draw B) c :
  makes m c → (∀ x, extends (f x)) → makes (m ≫= f) c.
Proof.
  intros Hm Hf. eapply writes_bind; [exact Hm|]. intros x new Hc.
  eapply writes_mono; [apply Hf|]. set_solver.
Qed.

Lemma makes_later {A B} (m : draw A) (f : A → draw B) c :
  extends m → (∀ x, makes (f x) c) → makes (m ≫= f) c.
Proof.
  intros Hm Hf. eapply writes_bind; [exact Hm|]. intros x new _.
  eapply writes_mono; [apply Hf|]. set_solver.
Qed.

Lemma makes_lift {A B} (m : exc A) (f : A → draw B) c :
  (∀ x, m = Ok x → makes (f x) c) → makes (lift m ≫= f) c.
Proof.
  intros Hf. eapply writes_bind; [by apply (writes_lift _ (λ x new, m = Ok x))|].
  intros x new Hx. eapply writes_mono; [by apply Hf|]. set_solver.
Qed.

Lemma makes_on lib t method args kwargs :
  makes (on lib t method args kwargs) (Call t method args kwargs).
Proof. eapply writes_mono; [apply writes_on|]. set_solver. Qed.

Lemma makes_iterM {X} (f : X → draw unit) l x c :
  x ∈ l → makes (f x) c → (∀ y, extends (f y)) → makes (iterM f l) c.
Proof.
  intros Hx Hc Hf. unfold iterM. generalize tt.
  induction l as [|y l IH]; intros u; [by apply not_elem_of_nil in Hx|]. cbn [foldM].
  apply elem_of_cons in Hx as [<-|Hx].
  - apply makes_here; [done|]. intros []. exact (extends_iterM f l Hf).
  - apply makes_later; [apply Hf|by apply IH].
Qed.

(** [extends_tac] follows the structure of a statement. *)
Create HintDb draws.
Ltac extends_step :=
  match goal with
  | |- extends (mbind _ _) => apply extends_bind; [|intros ?]
  | |- extends (iterM _ _) => apply extends_iterM; intros ?
  | |- extends (mret _) => apply extends_ret
  | |- extends (lift _) => apply extends_lift
  | |- extends (on _ _ _ _ _) => apply extends_on
  | |- extends (match ?x with _ => _ end) => destruct x
  | |- extends _ => solve [eauto with draws nocore]
  end.
Ltac extends_tac := cbv zeta; repeat extends_step.

(** A statement that no call of a library that accepts them all stops *)
Definition succeeds {A} (m : draw A) : Prop := ∀ calls, ∃ x calls', m calls = Ok (x, calls').

Lemma succeeds_bind {A B} (m : draw A) (f : A → draw B) :
  succeeds m → (∀ x, succeeds (f x)) → succeeds (m ≫= f).
Proof.
  intros Hm Hf calls. destruct (Hm calls) as (x & mid & Hx). destruct (Hf x mid) as (y & calls' & Hy).
  exists y, calls'. unfold mbind, draw_bind. rewrite Hx. exact Hy.
Qed.

Lemma succeeds_lift {A B} (m : exc A) (f : A → draw B) x :
  m = Ok x → succeeds (f x) → succeeds (lift m ≫= f).
Proof. intros -> Hf. exact Hf. Qed.

Lemma succeeds_ret {A} (x : A) : succeeds (mret x).
Proof. intros calls. by eexists _, _. Qed.

Lemma succeeds_iterM_in {X} (f : X → draw unit) l : (∀ x, x ∈ l → succeeds (f x)) → succeeds (iterM f l).
Proof.
  intros Hf. unfold iterM. generalize tt. induction l as [|x l IH]; intros u; [apply succeeds_ret|].
  cbn [foldM]. apply succeeds_bind; [apply Hf; by left|]. apply IH. intros y Hy. apply Hf. by right.
Qed.

Definition accepting (lib : library) : Prop := ∀ calls c, lib_accept lib calls c = Ok tt.

Lemma succeeds_on lib t method args kwargs : accepting lib → succeeds (on lib t method args kwargs).
Proof. intros Hlib calls. unfold on. rewrite Hlib. by eexists _, _. Qed.

Ltac succeeds_step :=
  match goal with
  | |- succeeds (lift _ ≫= _) => eapply succeeds_lift
  | |- succeeds (mbind _ _) => apply succeeds_bind; [|intros ?]
  | |- succeeds (iterM _ _) => apply succeeds_iterM_in; intros ? ?
  | |- succeeds (mret _) => apply succeeds_ret
  | |- succeeds (on _ _ _ _ _) => by apply succeeds_on
  | |- succeeds _ => solve [eauto with draws nocore]
  end.
Ltac succeeds_tac := cbv zeta; repeat succeeds_step.

(** ** Labels of sizes *)

Lemma human_size_int z : ∃ s, human_size (JInt z) = Ok s.
Proof.
  unfold human_size, Dashboard.human_size, py_ge, as_int. cbn [mbind result_bind].
  destruct (1048576 <=? z); [by eexists|by eexists].
Qed.

Lemma human_sizes_ints zs : ∃ labels, mapM human_size (JInt <$> zs) = Ok labels.
Proof.
  induction zs as [|z zs [labels IH]]; [by eexists|]. destruct (human_size_int z) as [s Hs].
  exists (s :: labels). rewrite fmap_cons. cbn [mapM]. by rewrite Hs, IH.
Qed.

(** ** The strategy comparison *)

Definition measured_size (r : run) : option Z := (λ _, r_size r) <$> strategy r.

(** The sizes at which some strategy was measured *)
Definition compared_sizes (runs : list run) : list Z :=
  sorted_ints (omap measured_size runs).

Lemma rates_nonempty z runs :
  z ∈ omap measured_size runs ↔ ∃ name, name ∈ strategy_names ∧ rates name z runs ≠ [].
Proof.
  unfold rates. rewrite list_elem_of_omap. unfold measured_size. split.
  - intros (r & Hr & Hz). destruct (strategy r) as [name|] eqn:Hs; [|done]. injection Hz as <-.
    exists name. split; [by eapply strategy_name|]. intros H.
    enough (r_mops r ∈ @nil float) by (by eapply not_elem_of_nil). rewrite <-H.
    apply list_elem_of_omap. exists r. split; [done|].
    by rewrite bool_decide_true, Z.eqb_refl.
  - intros (name & _ & Hne).
    destruct (omap _ runs) as [|f l] eqn:H in Hne; [done|].
    assert (f ∈ f :: l) as Hf by left. rewrite <-H in Hf. apply list_elem_of_omap in Hf as (r & Hr & Hf).
    exists r. split; [done|]. case_bool_decide as Hs; [|done]. rewrite Hs.
    by destruct (Z.eqb_spec (r_size r) z) as [->|].
Qed.

Lemma peak_entry runs name row :
  (name, row) ∈ foldl peak_run no_peaks runs → name ∈ strategy_names ∧ peak_table name runs row.
Proof.
  destruct (peaks_spec runs) as [Hnames Hrows]. intros Hin.
  assert (name ∈ strategy_names) as Hn by (rewrite <-Hnames; by apply (list_elem_of_fmap_2 fst _ _ Hin)).
  split; [done|]. destruct (Hrows name Hn) as (row' & Hd & Ht).
  rewrite (elem_dget name row) in Hd; [by injection Hd as <-|rewrite Hnames|done].
  by apply (bool_decide_unpack _).
Qed.

Lemma peak_sizes runs :
  sorted_set (concat (map fst <$> (foldl peak_run no_peaks runs).*2)) = Ok (JInt <$> compared_sizes runs).
Proof.
  set (st := foldl peak_run no_peaks runs).
  assert (∀ v, v ∈ concat (map fst <$> st.*2) ↔ ∃ name row, (name, row) ∈ st ∧ v ∈ row.*1) as Hkeys.
  { intros v. rewrite list_elem_of_In, List.in_concat. setoid_rewrite <-list_elem_of_In. split.
    - intros (ks & (row & -> & ([name row'] & -> & Hr)%list_elem_of_fmap)%list_elem_of_fmap & Hv). eauto.
    - intros (name & row & Hr & Hv). exists row.*1. split; [|done].
      apply (list_elem_of_fmap_2 (map fst)). by apply (list_elem_of_fmap_2 snd _ _ Hr). }
  destruct (int_values (concat (map fst <$> st.*2))) as [ks Hks].
  { apply Forall_forall. intros v (name & row & Hr & Hv)%Hkeys.
    apply peak_entry in Hr as (_ & Hint & _). apply list_elem_of_fmap in Hv as (e & -> & He).
    unfold int_keys in Hint. rewrite Forall_forall in Hint. by apply Hint. }
  rewrite Hks, sorted_set_Z. do 2 f_equal. symmetry.
  apply sorted_ints_unique; [apply sorted_ints_sorted|apply sorted_ints_NoDup|].
  intros z. unfold compared_sizes. rewrite sorted_ints_elem, rates_nonempty.
  rewrite <-(list_elem_of_fmap_inj JInt ks z), <-Hks, Hkeys. split.
  - intros (name & Hn & Hne). destruct (peaks_spec runs) as [_ Hrows].
    destruct (Hrows name Hn) as (row & Hd & _ & Hk & _). exists name, row.
    split; [by apply dget_elem|by apply Hk].
  - intros (name & row & Hr & Hv). apply peak_entry in Hr as (Hn & _ & Hk & _).
    exists name. split; [done|by apply Hk].
Qed.

(** The height of a bar: the greatest rate, 0 if there is none *)
Definition bar_height (rs : list float) (h : json) : Prop :=
  match rs with [] => h = JInt 0 | _ => ∃ f, h = JFloat f ∧ greatest f rs end.

Lemma peak_height name runs row z :
  peak_table name runs row → bar_height (rates name z runs) (height row (JInt z)).
Proof.
  intros (_ & _ & Hget). unfold height, bar_height. rewrite Hget.
  destruct (rates name z runs) as [|f l]; [done|]. eexists. split; [done|]. apply max_greatest.
Qed.

Lemma bar_label_extends lib i bar : extends (bar_label lib i bar).
Proof. destruct bar as [k []]; cbn; extends_tac. Qed.
Lemma grid_lines_extends lib ax more : extends (grid_lines lib ax more).
Proof. apply extends_on. Qed.
Lemma log2_axis_extends lib ax : extends (log2_axis lib ax).
Proof. apply extends_on. Qed.
#[export] Hint Resolve bar_label_extends grid_lines_extends log2_axis_extends : draws.

Lemma strategy_bars_extends lib sizes s : extends (strategy_bars lib sizes s).
Proof. destruct s as [i [name vals]]. unfold strategy_bars. extends_tac. Qed.
#[export] Hint Resolve strategy_bars_extends : draws.

Lemma bar_label_succeeds lib i bar : accepting lib → succeeds (bar_label lib i bar).
Proof. intros. destruct bar as [k []]; cbn; try case_match; succeeds_tac. Qed.
Lemma grid_lines_succeeds lib ax more : accepting lib → succeeds (grid_lines lib ax more).
Proof. apply succeeds_on. Qed.
Lemma log2_axis_succeeds lib ax : accepting lib → succeeds (log2_axis lib ax).
Proof. apply succeeds_on. Qed.
#[export] Hint Resolve bar_label_succeeds grid_lines_succeeds log2_axis_succeeds : draws.

Lemma strategy_color name : name ∈ strategy_names → ∃ color, ditem name strategy_colors = Ok color.
Proof.
  unfold strategy_names. intros Hn.
  repeat (apply elem_of_cons in Hn as [->|Hn]; [by eexists|]). by apply not_elem_of_nil in Hn.
Qed.

Definition bar_call (n i : nat) (name color : string) (heights : list json) : call :=
  Call (Axes 0 0) "bar" [shifted n (f_mul (float_of_nat i) width); values heights; Val (JFloat width)]
    [("label", str name); ("color", str color)].

Lemma strategy_bars_makes lib sizes i name vals color :
  ditem name strategy_colors = Ok color →
  makes (strategy_bars lib sizes (i, (name, vals)))
    (bar_call (length sizes) i name color (height vals <$> sizes)).
Proof.
  intros Hc. unfold strategy_bars. cbv zeta. apply makes_lift. rewrite Hc. intros color' [= <-].
  apply makes_here; [apply makes_on|intros _; extends_tac].
Qed.

Lemma makes_calls {A} (m : draw A) c x calls : makes m c → m [] = Ok (x, calls) → c ∈ calls.
Proof. intros Hm H. by destruct (Hm _ _ _ H) as (new & -> & Hc). Qed.

Lemma strategy_graph_succeeds lib runs zs :
  accepting lib → succeeds (strategy_graph lib (foldl peak_run no_peaks runs) (JInt <$> zs)).
Proof.
  intros Hlib. destruct (human_sizes_ints zs) as [labels Hlabels]. unfold strategy_graph. succeeds_tac.
  - match goal with H : ?s ∈ _ |- _ => destruct s as [i [name vals]];
      apply enumerate_elem, list_elem_of_lookup_2, peak_entry in H as [Hn _] end.
    destruct (strategy_color name Hn) as [color Hc]. unfold strategy_bars. succeeds_tac. exact Hc.
  - exact Hlabels.
Qed.

Lemma strategy_graph_makes lib st sizes i name vals color :
  st !! i = Some (name, vals) → ditem name strategy_colors = Ok color →
  makes (strategy_graph lib st sizes)
    (bar_call (length sizes) i name color (height vals <$> sizes)).
Proof.
  intros Hi Hc. unfold strategy_graph. apply makes_later; [apply extends_on|intros _].
  apply makes_here; [|intros _; extends_tac].
  eapply (makes_iterM _ _ (i, (name, vals))); [by apply enumerate_elem|by apply strategy_bars_makes|].
  intros y. apply strategy_bars_extends.
Qed.

(** C35: on a well-formed result file the strategy comparison is drawn whenever a
    strategy was measured (unless the library refuses a call), and it has a bar
    for every strategy and every size at which some strategy was measured, in
    increasing order: as high as the best rate of the strategy at this size, zero
    if it has none. *)
Theorem strategy_bars_drawn lib data l runs :
  entries "throughput" data = Ok l → Forall2 measures l runs → compared_sizes runs ≠ [] →
  ∃ m, strategy_figure lib data = Ok (Some m) ∧
    (accepting lib → ∃ calls, m [] = Ok (tt, calls)) ∧
    ∀ calls, m [] = Ok (tt, calls) → ∀ i name, strategy_names !! i = Some name →
      ∃ color heights,
        bar_call (length (compared_sizes runs)) i name color heights ∈ calls ∧
        Forall2 (λ z h, bar_height (rates name z runs) h) (compared_sizes runs) heights.
Proof.
  intros Hl Hruns Hne. exists (strategy_graph lib (foldl peak_run no_peaks runs) (JInt <$> compared_sizes runs)).
  split_and!.
  - unfold strategy_figure. rewrite Hl. cbn [mbind result_bind].
    rewrite (foldM_measures _ peak_run l runs) by (eauto using peak_step_measures).
    cbn [mbind result_bind]. rewrite peak_sizes. cbn [mbind result_bind]. by destruct (compared_sizes runs).
  - intros Hlib. destruct (strategy_graph_succeeds lib runs (compared_sizes runs) Hlib []) as ([] & calls & H).
    by exists calls.
  - intros calls H i name Hi. destruct (peaks_spec runs) as [Hnames _]. rewrite <-Hnames in Hi.
    apply list_lookup_fmap_Some in Hi as ([name' row] & -> & Hi).
    destruct (peak_entry runs name' row) as [Hn Ht]; [by eapply list_elem_of_lookup_2|].
    destruct (strategy_color name' Hn) as [color Hc]. exists color, (height row <$> (JInt <$> compared_sizes runs)).
    split.
    + rewrite <-(length_fmap JInt). eapply makes_calls; [by apply strategy_graph_makes|done].
    + rewrite <-list_fmap_compose. apply Forall2_fmap_r, Forall_Forall2_diag, Forall_forall.
      intros z _. by apply peak_height.
Qed.

(** ** Heat maps *)

(** A measured cell: batch size, concurrency, rate *)
Definition cell : Type := Z * Z * float.
Definition heat_of (c : cell) : heat_entry := (c.1.1, JInt c.1.2, c.2).

(** The rate that was measured last for a batch size and a concurrency *)
Definition last_rate (b c : Z) (cells : list cell) : float :=
  default f_zero (last (omap (λ e : cell,
    if (e.1.1 =? b) && (e.1.2 =? c) then Some e.2 else None) cells)).

Lemma last_rate_snoc b c cells e :
  last_rate b c (cells ++ [e]) = if (e.1.1 =? b) && (e.1.2 =? c) then e.2 else last_rate b c cells.
Proof.
  unfold last_rate. rewrite omap_app. cbn [omap list_omap].
  destruct (_ && _); [by rewrite last_snoc|by rewrite app_nil_r].
Qed.

Lemma index_of_Some {A} (p : A → bool) l i x :
  NoDup l → (∀ y, y ∈ l → p y = true ↔ y = x) → l !! i = Some x → index_of p l = Some i.
Proof.
  intros Hnd Hp Hi. unfold index_of.
  assert (list_find (λ y, p y = true) l = Some (i, x)) as ->; [|done].
  apply list_find_Some. split_and!; [done|by apply Hp; [eapply list_elem_of_lookup_2|]|].
  intros j y Hj Hlt Hy. apply Hp in Hy as ->; [|by eapply list_elem_of_lookup_2].
  assert (j = i) by (by eapply NoDup_lookup). lia.
Qed.

(** [grid[i][j]] *)
Definition grid_at (grid : list (list float)) (i j : nat) : option float := grid !! i ≫= (.!! j).

Definition shaped (grid : list (list float)) (n k : nat) : Prop :=
  length grid = n ∧ Forall (λ row, length row = k) grid.

Lemma grid_at_alter grid n k i j i' j' f :
  shaped grid n k → (i < n)%nat → (j < k)%nat →
  grid_at (alter (insert j f) i grid) i' j' =
    if decide (i' = i ∧ j' = j) then Some f else grid_at grid i' j'.
Proof.
  intros [Hn Hk] Hi Hj. unfold grid_at.
  destruct (decide (i' = i)) as [->|Hne].
  - rewrite list_lookup_alter_eq. destruct (grid !! i) as [row|] eqn:Hrow; [|by apply lookup_ge_None in Hrow; lia].
    assert (length row = k) as Hlen by (rewrite Forall_forall in Hk; by eapply Hk, list_elem_of_lookup_2).
    cbn. destruct (decide (j' = j)) as [->|Hne].
    + rewrite list_lookup_insert_eq by lia. by rewrite decide_True.
    + rewrite list_lookup_insert_ne by done. by rewrite decide_False by naive_solver.
  - rewrite list_lookup_alter_ne by done. by rewrite decide_False by naive_solver.
Qed.

Lemma shaped_alter grid n k i j f : shaped grid n k → shaped (alter (insert j f) i grid) n k.
Proof.
  intros [Hn Hk]. split; [by rewrite length_alter|].
  apply Forall_lookup. intros i' row Hrow. rewrite Forall_lookup in Hk.
  destruct (decide (i' = i)) as [->|Hne].
  - rewrite list_lookup_alter_eq in Hrow. destruct (grid !! i) as [r|] eqn:Hr; [|done].
    injection Hrow as <-. rewrite length_insert. by eapply Hk.
  - rewrite list_lookup_alter_ne in Hrow by done. by eapply Hk.
Qed.

Lemma grid_at_zeros n k i j :
  (i < n)%nat → (j < k)%nat → grid_at (replicate n (replicate k f_zero)) i j = Some f_zero.
Proof.
  intros Hi Hj. unfold grid_at. rewrite lookup_replicate_2 by done. cbn. by rewrite lookup_replicate_2.
Qed.

Definition batches_of (cells : list cell) : list Z := sorted_ints (map (λ e, e.1.1) cells).
Definition levels_of (cells : list cell) : list Z := sorted_ints (map (λ e, e.1.2) cells).

(** The cell of a row and a column *)
Definition cells_hold (bs cs : list Z) (done : list cell) (grid : list (list float)) : Prop :=
  shaped grid (length bs) (length cs) ∧
  ∀ i j b c, bs !! i = Some b → cs !! j = Some c → grid_at grid i j = Some (last_rate b c done).

Lemma set_cell_holds bs cs done grid e :
  NoDup bs → NoDup cs → e.1.1 ∈ bs → e.1.2 ∈ cs → cells_hold bs cs done grid →
  ∃ grid', set_cell bs (JInt <$> cs) grid (heat_of e) = Ok grid' ∧ cells_hold bs cs (done ++ [e]) grid'.
Proof.
  destruct e as [[b c] f]. cbn [fst snd]. intros Hbs Hcs Hb Hc [Hshape Hcells].
  apply list_elem_of_lookup in Hb as [i Hi]. apply list_elem_of_lookup in Hc as [j Hj].
  assert (index_of (Z.eqb b) bs = Some i) as Hib.
  { eapply index_of_Some; [done| |done]. intros y _. rewrite Z.eqb_eq. naive_solver. }
  assert (index_of (same_item (JInt c)) (JInt <$> cs) = Some j) as Hjc.
  { eapply (index_of_Some _ _ _ (JInt c)); [by apply (NoDup_fmap_2 JInt)| |by rewrite list_lookup_fmap, Hj].
    intros y (z & -> & _)%list_elem_of_fmap. cbn. rewrite Z.eqb_eq. naive_solver. }
  unfold set_cell, heat_of. cbn [fst snd]. rewrite Hib, Hjc. cbn [of_option mbind result_bind].
  eexists. split; [done|]. split; [by apply shaped_alter|]. intros i' j' b' c' Hi' Hj'.
  rewrite (grid_at_alter grid (length bs) (length cs)); [|done|by eapply lookup_lt_Some..].
  rewrite last_rate_snoc. cbn [fst snd].
  destruct (Z.eqb_spec b b') as [<-|Hb], (Z.eqb_spec c c') as [<-|Hc]; cbn [andb].
  - rewrite decide_True; [done|]. split; [by eapply (NoDup_lookup bs)|by eapply (NoDup_lookup cs)].
  - rewrite decide_False by naive_solver. by apply Hcells.
  - rewrite decide_False by naive_solver. by apply Hcells.
  - rewrite decide_False by naive_solver. by apply Hcells.
Qed.

Lemma heat_grid_spec cells :
  ∃ grid, heat_grid (heat_of <$> cells) = Ok (batches_of cells, JInt <$> levels_of cells, grid) ∧
    cells_hold (batches_of cells) (levels_of cells) cells grid.
Proof.
  unfold heat_grid. cbv zeta.
  replace (map (λ e, e.1.1) (heat_of <$> cells)) with (map (λ e : cell, e.1.1) cells)
    by (by rewrite <-list_fmap_compose).
  replace (map (λ e, e.1.2) (heat_of <$> cells)) with (JInt <$> map (λ e : cell, e.1.2) cells)
    by (by rewrite <-!list_fmap_compose).
  rewrite sorted_set_Z. cbn [mbind result_bind]. rewrite length_fmap.
  change (sorted_ints (map (λ e : cell, e.1.1) cells)) with (batches_of cells).
  change (sorted_ints (map (λ e : cell, e.1.2) cells)) with (levels_of cells).
  set (bs := batches_of cells). set (cs := levels_of cells).
  assert (∀ e, e ∈ cells → e.1.1 ∈ bs ∧ e.1.2 ∈ cs) as Hin.
  { intros e He. split; apply sorted_ints_elem; by apply (list_elem_of_fmap_2 (λ e : cell, _) _ _ He). }
  enough (∃ grid, foldM (set_cell bs (JInt <$> cs))
    (replicate (length bs) (replicate (length cs) f_zero)) (heat_of <$> cells) = Ok grid ∧
    cells_hold bs cs cells grid) as (grid & -> & Hg) by (by exists grid).
  assert (NoDup bs ∧ NoDup cs) as [Hbs Hcs] by (split; apply sorted_ints_NoDup). clearbody bs cs.
  induction cells as [|e cells IH] using rev_ind.
  - eexists. split; [done|]. split; [split; [by rewrite length_replicate|]|].
    + apply Forall_replicate. by rewrite length_replicate.
    + intros i j b c Hi Hj. rewrite grid_at_zeros by (by eapply lookup_lt_Some). done.
  - destruct IH as (grid & Hg & Hold); [intros e' He'; apply Hin; set_solver|].
    destruct (Hin e) as [Hb Hc]; [set_solver|].
    destruct (set_cell_holds bs cs cells grid e) as (grid' & Hg' & Hold'); [done..|].
    exists grid'. split; [|done]. rewrite fmap_app. cbn [fmap list_fmap]. by rewrite foldM_snoc, Hg.
Qed.

(** ** Layout *)

Lemma position_inj ncols a b :
  (0 < ncols)%nat → row_of ncols a = row_of ncols b → col_of ncols a = col_of ncols b → a = b.
Proof.
  unfold row_of, col_of. intros Hn Hr Hc.
  rewrite (Nat.div_mod_eq a ncols), (Nat.div_mod_eq b ncols). by rewrite Hr, Hc.
Qed.

Lemma grid_shape_bounds n :
  (0 < n)%nat →
  (1 ≤ (grid_shape n).2 ≤ 3 ∧ n ≤ (grid_shape n).1 * (grid_shape n).2 < n + (grid_shape n).2)%nat.
Proof.
  intros Hn. unfold grid_shape. cbn [fst snd]. set (k := Nat.min 3 n). assert (1 ≤ k ≤ 3)%nat by lia.
  clearbody k. split; [done|].
  pose proof (Nat.div_mod_eq (n + k - 1) k). pose proof (Nat.mod_upper_bound (n + k - 1) k).
  lia.
Qed.

(** The grid of subplots has at most three columns and a place for each of
    the [n] subplots, with less than a row of places left over; the place of every
    index is inside the grid, and no two indices share one. *)
Theorem subplot_layout n :
  (0 < n)%nat →
  let '(nrows, ncols) := grid_shape n in
  (1 ≤ ncols ≤ 3)%nat ∧ (n ≤ nrows * ncols < n + ncols)%nat ∧
  (∀ idx, idx < nrows * ncols → row_of ncols idx < nrows ∧ col_of ncols idx < ncols)%nat ∧
  NoDup (axes_at ncols <$> seq 0 (nrows * ncols)).
Proof.
  intros Hn. destruct (grid_shape_bounds n Hn) as [Hc Hr]. destruct (grid_shape n) as [nrows ncols].
  cbn [fst snd] in *. split_and!; [lia..| |].
  - intros idx Hidx. unfold row_of, col_of. split; [apply Nat.Div0.div_lt_upper_bound; lia|].
    apply Nat.mod_upper_bound. lia.
  - apply NoDup_fmap_2_strong; [|apply NoDup_seq]. intros a b _ _ [= Ha Hb].
    apply (position_inj ncols); [lia|done..].
Qed.

(** ** The heat map of a size *)

Definition heat_cell (prefix : string) (r : run) : option cell :=
  (λ b, (b, r_concurrency r, r_mops r)) <$> match_digits prefix (r_benchmark r).

(** The measured cells of a size, in the order of the file *)
Definition heat_cells (prefix : string) (z : Z) (runs : list run) : list cell :=
  omap (λ r, if r_size r =? z then heat_cell prefix r else None) runs.

Definition heat_sizes (prefix : string) (runs : list run) : list Z :=
  sorted_ints (omap (λ r, (λ _, r_size r) <$> heat_cell prefix r) runs).

Definition heat_value (prefix : string) (r : run) : option heat_entry := heat_of <$> heat_cell prefix r.

Lemma heat_step_measures prefix t j r :
  measures j r → heat_step prefix t j = Ok (group_step r_size (heat_value prefix) t r).
Proof.
  intros Hj. unfold heat_step, group_step, heat_value, heat_cell, batch_number. measured Hj.
  by destruct (match_digits prefix (r_benchmark r)).
Qed.

Lemma heat_group prefix z runs : group r_size (heat_value prefix) z runs = heat_of <$> heat_cells prefix z runs.
Proof.
  unfold group, heat_cells, heat_value. induction runs as [|r runs IH]; [done|]. cbn [omap list_omap].
  destruct (r_size r =? z); [|done]. destruct (heat_cell prefix r); cbn; by rewrite <-?IH.
Qed.

Lemma heat_keys prefix runs :
  keys_of r_size (heat_value prefix) runs = omap (λ r, (λ _, r_size r) <$> heat_cell prefix r) runs.
Proof.
  unfold keys_of, heat_value. induction runs as [|r runs IH]; [done|]. cbn [omap list_omap].
  rewrite IH. by destruct (heat_cell prefix r).
Qed.

Definition imshow_call (ax : target) (grid : list (list float)) : call :=
  Call ax "imshow" [values (JArr ∘ fmap JFloat <$> grid)]
    [("aspect", str "auto"); ("origin", str "lower"); ("cmap", str "YlOrRd")].
Definition labels_call (ax : target) (method : string) (zs : list Z) : call :=
  Call ax method [values (JInt <$> zs)] [].

Lemma heat_subplot_extends lib xlabel title t row col size :
  extends (heat_subplot lib xlabel title t row col size).
Proof. unfold heat_subplot. extends_tac. Qed.
#[export] Hint Resolve heat_subplot_extends : draws.

Lemma heat_subplot_makes lib xlabel title t row col z cells grid :
  default [] (vget (JInt z) t) = heat_of <$> cells →
  heat_grid (heat_of <$> cells) = Ok (batches_of cells, JInt <$> levels_of cells, grid) →
  ∀ c, c ∈ [imshow_call (Axes row col) grid; labels_call (Axes row col) "set_xticklabels" (levels_of cells);
            labels_call (Axes row col) "set_yticklabels" (batches_of cells)] →
  makes (heat_subplot lib xlabel title t row col (JInt z)) c.
Proof.
  intros Ht Hg c Hc. unfold heat_subplot. cbv zeta. apply makes_lift. rewrite Ht, Hg.
  intros x [= <-]. cbv beta iota.
  apply elem_of_cons in Hc as [->|Hc]; [apply makes_here; [apply makes_on|intros _; extends_tac]|].
  apply makes_later; [apply extends_on|intros _]. apply makes_later; [apply extends_on|intros _].
  apply elem_of_cons in Hc as [->|Hc]; [apply makes_here; [apply makes_on|intros _; extends_tac]|].
  apply list_elem_of_singleton in Hc as ->.
  apply makes_later; [apply extends_on|intros _]. apply makes_later; [apply extends_on|intros _].
  apply makes_here; [apply makes_on|intros _; extends_tac].
Qed.

Lemma heat_subplot_succeeds lib xlabel title t row col z cells :
  accepting lib → default [] (vget (JInt z) t) = heat_of <$> cells →
  succeeds (heat_subplot lib xlabel title t row col (JInt z)).
Proof.
  intros Hlib Ht. unfold heat_subplot. cbv zeta. destruct (heat_grid_spec cells) as (grid & Hg & _).
  eapply succeeds_lift; [by rewrite Ht, Hg|]. cbv beta iota.
  destruct (human_size_int z) as [label Hlabel].
  succeeds_tac; [exact Hlabel|].
  repeat match goal with p : nat * _ |- _ => destruct p; succeeds_tac end.
Qed.

Lemma subplots_makes lib w sizes one idx size c :
  sizes !! idx = Some size → (∀ row col s, extends (one row col s)) →
  (let ncols := (grid_shape (length sizes)).2 in makes (one (row_of ncols idx) (col_of ncols idx) size) c) →
  makes (subplots_by_size lib w sizes one) c.
Proof.
  intros Hidx Hone Hc. unfold subplots_by_size. destruct (grid_shape (length sizes)) as [nrows ncols].
  apply makes_later; [apply extends_on|intros _]. apply makes_here; [|intros _; extends_tac].
  eapply (makes_iterM _ _ (idx, size)); [by apply enumerate_elem|done|]. intros [i s]. apply Hone.
Qed.

Lemma subplots_succeeds lib w sizes one :
  accepting lib → (∀ row col s, s ∈ sizes → succeeds (one row col s)) →
  succeeds (subplots_by_size lib w sizes one).
Proof.
  intros Hlib Hone. unfold subplots_by_size. destruct (grid_shape (length sizes)) as [nrows ncols].
  succeeds_tac. match goal with H : ?p ∈ _ |- _ => destruct p; apply enumerate_elem in H end.
  by eapply Hone, list_elem_of_lookup_2.
Qed.

(** C36: on a well-formed result file a heat map is drawn for every size of the
    batch benchmarks called [prefix] (unless the library refuses a call), in the
    subplot of its place.  Its rows are labelled with the batch sizes, its columns
    with the concurrency levels, both increasing, and each cell is the rate
    measured last for its row and column, zero if there is none. *)
Theorem heat_cells_drawn lib prefix xlabel title data l runs :
  entries "throughput" data = Ok l → Forall2 measures l runs → heat_sizes prefix runs ≠ [] →
  ∃ m, heat_figure lib prefix xlabel title data = Ok (Some m) ∧
    (accepting lib → ∃ calls, m [] = Ok (tt, calls)) ∧
    ∀ calls, m [] = Ok (tt, calls) → ∀ idx z, heat_sizes prefix runs !! idx = Some z →
      let ax := axes_at (grid_shape (length (heat_sizes prefix runs))).2 idx in
      let cells := heat_cells prefix z runs in
      ∃ grid, cells_hold (batches_of cells) (levels_of cells) cells grid ∧
        imshow_call ax grid ∈ calls ∧ labels_call ax "set_xticklabels" (levels_of cells) ∈ calls ∧
        labels_call ax "set_yticklabels" (batches_of cells) ∈ calls.
Proof.
  intros Hl Hruns Hne. set (t := foldl (group_step r_size (heat_value prefix)) [] runs).
  destruct (groups_spec r_size (heat_value prefix) runs) as [(ks & Hks & Hnd & Hel) Hget].
  rewrite heat_keys in Hel. setoid_rewrite heat_group in Hget. fold t in Hks, Hget.
  assert (sorted_ints ks = heat_sizes prefix runs) as Hsizes.
  { apply sorted_ints_unique; [apply sorted_ints_sorted|apply sorted_ints_NoDup|].
    intros z. by rewrite sorted_ints_elem, Hel. }
  exists (subplots_by_size lib 7 (JInt <$> heat_sizes prefix runs) (heat_subplot lib xlabel title t)).
  split_and!.
  - unfold heat_figure. rewrite Hl. cbn [mbind result_bind].
    rewrite (foldM_measures _ (group_step r_size (heat_value prefix)) l runs) by (eauto using heat_step_measures).
    cbn [mbind result_bind]. fold t. rewrite Hks, py_sorted_Z, Hsizes by done.
    destruct t; [|done]. cbn in Hks. destruct ks; [|done]. by rewrite <-Hsizes in Hne.
  - intros Hlib. edestruct (subplots_succeeds lib 7 (JInt <$> heat_sizes prefix runs)
      (heat_subplot lib xlabel title t) Hlib) as ([] & calls & H); [|by exists calls].
    intros row col s (z & -> & _)%list_elem_of_fmap. by eapply heat_subplot_succeeds.
  - intros calls H idx z Hidx ax cells. destruct (heat_grid_spec cells) as (grid & Hg & Hold).
    exists grid. split; [done|].
    assert (∀ c, c ∈ [imshow_call ax grid; labels_call ax "set_xticklabels" (levels_of cells);
        labels_call ax "set_yticklabels" (batches_of cells)] → c ∈ calls) as Hcalls.
    { intros c Hc. eapply makes_calls; [|exact H]. eapply (subplots_makes _ _ _ _ idx (JInt z)).
      - by rewrite list_lookup_fmap, Hidx.
      - intros. apply heat_subplot_extends.
      - cbv zeta. eapply heat_subplot_makes; [apply Hget|exact Hg|]. by rewrite length_fmap. }
    split_and!; apply Hcalls; set_solver.
Qed.

(** ** The program *)

(** The figure of a graph is the image [name] in [dir], if it has data. *)
Definition drawn (lib : library) (w : world) (dir : path) (g : string * exc (option (draw unit))) : Prop :=
  g.2 = Ok None ∨
  ∃ m calls png, g.2 = Ok (Some m) ∧ m [] = Ok (tt, calls) ∧ lib_png lib 150 calls = Ok png ∧
    file_bytes w (path_div dir g.1) = Ok png.

Definition graphs (lib : library) (data : json) : list (string * exc (option (draw unit))) :=
  [("latency_vs_size.png", Ok (Some (latency_figure lib data)));
   ("throughput_vs_concurrency.png", throughput_figure lib data);
   ("batch_amortization.png", batch_figure lib data);
   ("pipelined_batch_heatmap.png", pipelined_figure lib data);
   ("burst_batch_heatmap.png", burst_batch_figure lib data);
   ("strategy_comparison.png", strategy_figure lib data)].

Lemma graph_drawn lib figure dir name w w' :
  graph lib figure dir name w = (Ok tt, w') → drawn lib w' dir (name, figure).
Proof.
  intros H. apply io_bind_pure in H as ([m|] & Hm & H); [|by left].
  right. apply io_bind_pure in H as ([[] calls] & Hc & H). apply io_bind_pure in H as (png & Hp & H).
  apply io_bind_Ok in H as ([] & w1 & Hw & H). apply io_print_Ok in H as [_ ->].
  exists m, calls, png. split_and!; [done..|]. by apply write_text_reads in Hw.
Qed.

(** A later graph leaves the image alone. *)
Lemma graph_keeps lib figure dir name w w' g :
  plain_name name → plain_name g.1 → g.1 ≠ name →
  graph lib figure dir name w = (Ok tt, w') → drawn lib w dir g → drawn lib w' dir g.
Proof.
  intros Hn Hg Hne H [?|(m & calls & png & Hm & Hc & Hp & Hb)]; [by left|]. right.
  exists m, calls, png. split_and!; [done..|].
  apply io_bind_pure in H as ([m'|] & _ & H); [|by injection H as <-].
  apply io_bind_pure in H as ([[] calls'] & _ & H). apply io_bind_pure in H as (png' & _ & H).
  apply io_bind_Ok in H as ([] & w1 & Hw & H). apply io_print_Ok in H as [_ ->].
  by eapply write_text_sibling in Hw.
Qed.

(** The graphs one after the other *)
Lemma graphs_drawn lib dir gs w w' :
  NoDup gs.*1 → Forall (λ g, plain_name g.1) gs →
  iterM (λ g, graph lib g.2 dir g.1) gs w = (Ok tt, w') → Forall (drawn lib w' dir) gs.
Proof.
  intros Hnd Hplain H. unfold iterM in H.
  apply (io_foldM_inv _ (λ done _ w, Forall (drawn lib w dir) done)) in H; [done|constructor|].
  intros done g rest [] [] w1 w2 -> Hdone Hg. apply Forall_app. split.
  - rewrite Forall_forall in Hdone, Hplain |- *. intros g' Hg'.
    eapply graph_keeps; [| | |exact Hg|by apply Hdone]; [apply Hplain; set_solver..|].
    rewrite fmap_app in Hnd. apply NoDup_app in Hnd as (_ & Hnd & _). intros Heq.
    apply (Hnd g'.1); [by apply (list_elem_of_fmap_2 fst)|]. rewrite Heq. by left.
  - apply Forall_singleton. destruct g. by apply graph_drawn in Hg.
Qed.

Lemma graph_names lib data : NoDup (graphs lib data).*1 ∧ Forall (λ g, plain_name g.1) (graphs lib data).
Proof.
  split; [by apply (bool_decide_unpack _)|].
  by repeat (apply Forall_cons; split; [split; [vm_compute; reflexivity|done]|]).
Qed.

(** C37: when the program succeeds, the input file was JSON, and every graph that
    has data is an image in the output directory, the one the library makes of
    the calls that its figure consists of. *)
Theorem plot_main_files lib input outdir w w' :
  PlotResults.main lib input outdir w = (Ok tt, w') →
  ∃ data, json_file w (parse_path input) = Some data ∧
    Forall (drawn lib w' (parse_path outdir)) (graphs lib data).
Proof.
  unfold PlotResults.main. cbv zeta. intros H. apply io_bind_Ok in H as (data & w1 & Hload & H).
  apply io_bind_Ok in H as ([] & w2 & _ & H). apply io_bind_pure in H as (meta & _ & H).
  apply io_bind_Ok in H as ([] & w3 & _ & H).
  apply io_bind_Ok in H as ([] & w4 & H1 & H). apply io_bind_Ok in H as ([] & w5 & H2 & H).
  apply io_bind_Ok in H as ([] & w6 & H3 & H). apply io_bind_Ok in H as ([] & w7 & H4 & H).
  apply io_bind_Ok in H as ([] & w8 & H5 & H). apply io_bind_Ok in H as ([] & w9 & H6 & H).
  rewrite io_gets_bind in H. apply io_print_Ok in H as [_ ->]. exists data. split.
  - unfold load_results in Hload. apply io_bind_Ok in Hload as (text & w0 & Hread & Hjson).
    unfold read_text in Hread. injection Hread as Hread <-. apply io_pure_Ok in Hjson as [Hjson _].
    unfold json_file. by rewrite Hread, Hjson.
  - destruct (graph_names lib data) as [Hnd Hplain].
    assert (iterM (λ g, graph lib g.2 (parse_path outdir) g.1) (graphs lib data) w3 = (Ok tt, w9)) as Hall.
    { unfold iterM, graphs. cbn [foldM fst snd].
      rewrite (io_bind_run _ _ _ _ _ H1), (io_bind_run _ _ _ _ _ H2), (io_bind_run _ _ _ _ _ H3),
        (io_bind_run _ _ _ _ _ H4), (io_bind_run _ _ _ _ _ H5), (io_bind_run _ _ _ _ _ H6). done. }
    apply graphs_drawn in Hall; [|done..]. eapply Forall_impl; [exact Hall|]. intros g Hg.
    destruct Hg as [?|(m & calls & png & Hg)]; [by left|right]. by exists m, calls, png.
Qed.

(** ** A sample *)

(** A library that accepts every call; its image is the number of calls. *)
Definition sample_library : library := Library (λ _ _, Ok tt) (λ _ calls, Ok (pretty (length calls))).

Definition sample_data : json := match json_loads dedicated_text with Ok v => v | Err _ => JNull end.
Definition sample_entries : list json :=
  match entries "throughput" sample_data with Ok l => l | Err _ => [] end.

(** The measurement of an entry, if it is one *)
Definition run_of (j : json) : option run :=
  match item "benchmark" j, item "size" j, item "concurrency" j,
        (ops ← item "ops_per_sec" j; div_float ops f_1e6) with
  | Ok (JStr b), Ok (JInt z), Ok (JInt c), Ok f => Some (Run b z c f)
  | _, _, _, _ => None
  end.

Lemma run_of_measures l runs : mapM run_of l = Some runs → Forall2 measures l runs.
Proof.
  intros H%mapM_Some_1. eapply Forall2_impl; [exact H|]. clear. intros j r H. unfold run_of in H.
  destruct (item "benchmark" j) as [[]|] eqn:Hb; try done. destruct (item "size" j) as [[]|] eqn:Hs; try done.
  destruct (item "concurrency" j) as [[]|] eqn:Hc; try done.
  destruct (_ ≫= _) as [f|] eqn:Ho; [|done]. injection H as <-.
  apply bind_Ok in Ho as (ops & Ho & Hf). split_and!; [done..|]. by exists ops.
Qed.

Definition sample_runs : list run := default [] (mapM run_of sample_entries).

Lemma strategy_bars_drawn_witness :
  ∃ m, strategy_figure sample_library sample_data = Ok (Some m) ∧ compared_sizes sample_runs = [64; 4096] ∧
    rates "pipelined_batch" 64 sample_runs = [f_of_decimal false 15 (-1); f_of_decimal false 1 0].
Proof.
  destruct (strategy_bars_drawn sample_library sample_data sample_entries sample_runs) as (m & Hm & _).
  - vm_compute. reflexivity.
  - apply run_of_measures. vm_compute. reflexivity.
  - vm_compute. discriminate.
  - exists m. split; [exact Hm|]. split; vm_compute; reflexivity.
Defined.

Lemma subplot_layout_witness : grid_shape 4 = (2%nat, 3%nat) ∧ NoDup (axes_at 3 <$> seq 0 6).
Proof.
  split; [reflexivity|]. destruct (subplot_layout 4) as (_ & _ & _ & H); [lia|]. exact H.
Defined.

Lemma heat_cells_drawn_witness :
  ∃ m calls grid, pipelined_figure sample_library sample_data = Ok (Some m) ∧ m [] = Ok (tt, calls) ∧
    heat_sizes "pipelined_batch_b" sample_runs = [64] ∧
    grid_at grid 0 1 = Some (f_of_decimal false 15 (-1)) ∧ imshow_call (Axes 0 0) grid ∈ calls.
Proof.
  destruct (heat_cells_drawn sample_library "pipelined_batch_b" "Concurrency" "Pipelined Batch" sample_data
    sample_entries sample_runs) as (m & Hm & Hok & Hcells).
  - vm_compute. reflexivity.
  - apply run_of_measures. vm_compute. reflexivity.
  - vm_compute. discriminate.
  - destruct Hok as [calls Hcalls]; [intros ? ?; reflexivity|].
    destruct (Hcells calls Hcalls 0%nat 64) as (grid & [_ Hold] & Himshow & _); [vm_compute; reflexivity|].
    exists m, calls, grid. split; [exact Hm|]. split; [exact Hcalls|]. split; [vm_compute; reflexivity|].
    split; [|exact Himshow]. rewrite (Hold 0%nat 1%nat 4 2); vm_compute; reflexivity.
Defined.

(** The sample as a file next to a directory that already holds a file *)
Definition graph_world : world :=
  repo_world [(["repo"; "a.json"], dedicated_text); (["repo"; "graphs"; "old.png"], "old")].

Definition graph_main : exc unit * world := PlotResults.main sample_library "a.json" "graphs" graph_world.

Lemma plot_main_files_witness :
  ∃ data, Forall (drawn sample_library graph_main.2 (parse_path "graphs")) (graphs sample_library data).
Proof.
  destruct (plot_main_files sample_library "a.json" "graphs" graph_world graph_main.2) as (data & _ & H).
  - apply io_run_fst. vm_compute. reflexivity.
  - exists data. exact H.
Defined.

(** The last line of the output counts whatever is in the directory: here four
    graphs are drawn next to a file that was there before. *)
Example graphs_counted :
  last (w_out graph_main.2) = Some (newline +:+ "Done. 5 graphs generated.") ∧
  glob_suffix "" graph_world (parse_path "graphs") = ["old.png"] ∧
  omap (λ g, match g.2 with Ok (Some _) => Some g.1 | _ => None end) (graphs sample_library sample_data) =
    ["latency_vs_size.png"; "throughput_vs_concurrency.png"; "pipelined_batch_heatmap.png";
     "strategy_comparison.png"].
Proof. split_and!; vm_compute; reflexivity. Qed.
