(* ===== verification/PyRe.v ===== *)
(** * Text and regular expressions

    Python strings as lists of code points, with the methods the paper-text
    tools call, and the part of the [re] module they use: a backtracking matcher
    with greedy repetition, alternatives, groups, anchors and word boundaries,
    [search], [finditer] and [sub] by leftmost matches.  Character classes of
    ASCII are spelled out; of the other characters white space and line
    boundaries are, and whether they are letters, digits or lower case is a
    parameter, the Unicode character database. *)

From Stdlib Require Import Ascii.
From S2P Require Import Prelude PyFloat PyVal Json JsonOut.

Local Open Scope Z_scope.

(** ** Text *)

Abbreviation text := (list Z).

(** A string literal *)
Definition lit (s : string) : text := code_points s.

Definition encode (t : text) : string := cat (map utf8 t).

(** [str.isspace] of one character, [\s] *)
Definition is_space (c : Z) : bool :=
  (9 <=? c) && (c <=? 13) || (28 <=? c) && (c <=? 32) || (c =? 133) || (c =? 160) || (c =? 5760)
  || (8192 <=? c) && (c <=? 8202) || (c =? 8232) || (c =? 8233) || (c =? 8239) || (c =? 8287)
  || (c =? 12288).

(** Where [str.splitlines] ends a line *)
Definition is_line_end (c : Z) : bool :=
  (10 <=? c) && (c <=? 13) || (28 <=? c) && (c <=? 30) || (c =? 133) || (c =? 8232) || (c =? 8233).

Definition is_ascii_digit (c : Z) : bool := (48 <=? c) && (c <=? 57).
Definition is_ascii_lower (c : Z) : bool := (97 <=? c) && (c <=? 122).
Definition is_ascii_word (c : Z) : bool :=
  is_ascii_digit c || is_ascii_lower c || (65 <=? c) && (c <=? 90) || (c =? 95).

(** The database, beyond ASCII: alphanumeric, the value of a decimal digit, and
    lower case *)
Record unicode : Type := Unicode {
  u_word : Z → bool;
  u_digit : Z → option Z;
  u_lower : Z → bool;
}.

Section classes.
Context (U : unicode).
Definition is_word (c : Z) : bool := if c <? 128 then is_ascii_word c else u_word U c.
Definition decimal (c : Z) : option Z :=
  if c <? 128 then if is_ascii_digit c then Some (c - 48) else None else u_digit U c.
Definition is_decimal (c : Z) : bool := match decimal c with Some _ => true | None => false end.
Definition is_lower (c : Z) : bool := if c <? 128 then is_ascii_lower c else u_lower U c.

(** [int(t)] of decimal digits *)
Definition tint (t : text) : Z := foldl (λ acc c, 10 * acc + default 0 (decimal c)) 0 t.
End classes.

Fixpoint tstarts (p t : text) : bool :=
  match p, t with
  | [], _ => true
  | a :: p, b :: t => (a =? b) && tstarts p t
  | _, _ => false
  end.

(** [t.find(p)] *)
Fixpoint tfind (p t : text) : option nat :=
  if tstarts p t then Some 0%nat
  else match t with [] => None | _ :: t => S <$> tfind p t end.

(** [p in t] *)
Definition tin (p t : text) : bool := match tfind p t with Some _ => true | None => false end.

Fixpoint tlstrip (t : text) : text :=
  match t with
  | c :: t' => if is_space c then tlstrip t' else t
  | [] => []
  end.
Definition trstrip (t : text) : text := reverse (tlstrip (reverse t)).
Definition tstrip (t : text) : text := trstrip (tlstrip t).

Fixpoint tjoin (sep : text) (l : list text) : text :=
  match l with
  | [] => []
  | [t] => t
  | t :: l => t ++ sep ++ tjoin sep l
  end.

(** [t.split(c)] for one character *)
Fixpoint tsplit (c : Z) (t : text) : list text :=
  match t with
  | [] => [[]]
  | a :: t =>
      if a =? c then [] :: tsplit c t
      else match tsplit c t with l :: ls => (a :: l) :: ls | [] => [[a]] end
  end.

(** [t.splitlines()]: a carriage return and a line feed end one line. *)
Fixpoint splitlines_go (cur : text) (t : text) : list text :=
  match t with
  | [] => match cur with [] => [] | _ => [reverse cur] end
  | c :: t' =>
      if is_line_end c then
        reverse cur ::
        match t' with
        | d :: t'' => if (c =? 13) && (d =? 10) then splitlines_go [] t'' else splitlines_go [] t'
        | [] => []
        end
      else splitlines_go (c :: cur) t'
  end.
Definition splitlines (t : text) : list text := splitlines_go [] t.

(** [t.replace(p, r)], [p] not empty: leftmost occurrences; [skip] characters
    of the last one are left *)
Fixpoint treplace_go (p r : text) (skip : nat) (t : text) : text :=
  match t with
  | [] => []
  | c :: t' =>
      match skip with
      | S skip => treplace_go p r skip t'
      | O => if tstarts p t then r ++ treplace_go p r (length p - 1) t' else c :: treplace_go p r 0 t'
      end
  end.
Definition treplace (p r t : text) : text := treplace_go p r 0 t.

(** [t.endswith(p)] *)
Definition tends (p t : text) : bool := tstarts (reverse p) (reverse t).

(** ** Patterns *)

Inductive re : Type :=
  | Set_ (p : Z → bool)
  | Lit (t : text)
  | Seq (a b : re)
  | Alt (a b : re)
  | Repeat (lo : nat) (hi : option nat) (a : re)
  | Group (n : nat) (a : re)
  | Bol
  | Eol
  | LineStart
  | LineEnd
  | Boundary.

Fixpoint seqs (l : list re) : re :=
  match l with
  | [] => Lit []
  | [r] => r
  | r :: l => Seq r (seqs l)
  end.

Definition star (r : re) : re := Repeat 0 None r.
Definition plus (r : re) : re := Repeat 1 None r.
Definition opt (r : re) : re := Repeat 0 (Some 1%nat) r.

(** [\s], [.] and one character *)
Definition space : re := Set_ is_space.
Definition any : re := Set_ (λ c, negb (c =? 10)).
Definition char (c : Z) : re := Set_ (Z.eqb c).

(** What was read so far, in reverse, what is left, and the groups *)
Record state : Type := State {
  st_before : text;
  st_after : text;
  st_groups : list (nat * text);
}.

Definition prev_char (st : state) : option Z := head (st_before st).
Definition next_char (st : state) : option Z := head (st_after st).

Definition at_newline (o : option Z) : bool := bool_decide (o = Some 10).

Section matcher.
Context (U : unicode).

Definition word_at (o : option Z) : bool :=
  match o with Some c => is_word U c | None => false end.

(** An assertion about a position: [^] and [$] outside and inside multi-line
    mode, and [\b] *)
Definition bol (st : state) : bool := bool_decide (st_before st = []).
Definition eol (st : state) : bool := bool_decide (st_after st = []) || bool_decide (st_after st = [10]).
Definition line_start (st : state) : bool := bol st || at_newline (prev_char st).
Definition line_end (st : state) : bool := bool_decide (st_after st = []) || at_newline (next_char st).
Definition boundary (st : state) : bool := xorb (word_at (prev_char st)) (word_at (next_char st)).

(** Read the characters of [t]. *)
Fixpoint read_lit (t : text) (st : state) : option state :=
  match t with
  | [] => Some st
  | a :: t =>
      match st_after st with
      | c :: rest =>
          if c =? a then read_lit t (State (c :: st_before st) rest (st_groups st)) else None
      | [] => None
      end
  end.

(** Repeat a match between [lo] and [hi] times, as often as possible, and go on
    with [k].  There is fuel for one turn per character that is left, after the
    lower bound; it is the list of these characters. *)
Section repeat.
Context {A : Type} (step : state → (state → option A) → option A).
Context (lo : nat) (hi : option nat) (k : state → option A).
Fixpoint repeat_re (fuel : text) (count : nat) (st : state) : option A :=
  let more :=
    match fuel with
    | [] => None
    | _ :: fuel =>
        if match hi with Some h => (h <=? count)%nat | None => false end then None
        else step st (repeat_re fuel (S count))
    end in
  match more with
  | Some x => Some x
  | None => if (lo <=? count)%nat then k st else None
  end.
End repeat.

(** Try to match [r] at [st] and go on with [k]: the first way that succeeds. *)
Fixpoint match_re {A} (r : re) (st : state) (k : state → option A) {struct r} : option A :=
  match r with
  | Set_ p =>
      match st_after st with
      | c :: rest => if p c then k (State (c :: st_before st) rest (st_groups st)) else None
      | [] => None
      end
  | Lit t => match read_lit t st with Some st' => k st' | None => None end
  | Seq a b => match_re a st (λ st', match_re b st' k)
  | Alt a b => match match_re a st k with Some x => Some x | None => match_re b st k end
  | Repeat lo hi a => repeat_re (match_re a) lo hi k (replicate lo 0 ++ st_after st) 0 st
  | Group n a =>
      match_re a st (λ st',
        let t := reverse (take (length (st_before st') - length (st_before st)) (st_before st')) in
        k (State (st_before st') (st_after st') ((n, t) :: st_groups st')))
  | Bol => if bol st then k st else None
  | Eol => if eol st then k st else None
  | LineStart => if line_start st then k st else None
  | LineEnd => if line_end st then k st else None
  | Boundary => if boundary st then k st else None
  end.

(** A match at one position: the state after it *)
Definition match_at (r : re) (before after : text) : option state :=
  match_re r (State before after []) Some.

(** [re.match(r, t)] *)
Definition re_match (r : re) (t : text) : option state := match_at r [] t.

(** The matches of [finditer], none of them empty: each with the text in front
    of it since the last one, and the text after the last.  [fuel] is the length
    of the text. *)
Fixpoint find_from (fuel : nat) (r : re) (skipped before after : text)
    : list (text * state) * text :=
  match match_at r before after with
  | Some st =>
      match fuel with
      | O => ([], reverse skipped ++ after)
      | S fuel =>
          let '(ms, rest) := find_from fuel r [] (st_before st) (st_after st) in
          ((reverse skipped, st) :: ms, rest)
      end
  | None =>
      match after, fuel with
      | c :: after', S fuel => find_from fuel r (c :: skipped) (c :: before) after'
      | _, _ => ([], reverse skipped ++ after)
      end
  end.

Definition find_all (r : re) (t : text) : list (text * state) * text :=
  find_from (S (length t)) r [] [] t.

(** [m.group(n)] *)
Definition group (n : nat) (st : state) : text :=
  match list_find (λ g, g.1 = n) (st_groups st) with Some (_, (_, t)) => t | None => [] end.

(** [re.search(r, t)] *)
Definition re_search (r : re) (t : text) : option state :=
  match (find_all r t).1 with (_, st) :: _ => Some st | [] => None end.

Definition finditer (r : re) (t : text) : list state := (find_all r t).1.*2.

(** The text a match covers, given the text in front of it *)
Definition matched (n_before : nat) (st : state) : text :=
  reverse (take (length (st_before st) - n_before) (st_before st)).

(** [re.sub(r, repl, t, count)]: [count] zero replaces all *)
Fixpoint sub_go (repl : state → text) (count : option nat) (pos : nat) (ms : list (text * state))
    (rest : text) : text :=
  match ms with
  | [] => rest
  | (skipped, st) :: ms =>
      match count with
      | Some O =>
          skipped ++ matched (pos + length skipped) st
            ++ sub_go repl count (length (st_before st)) ms rest
      | _ => skipped ++ repl st ++ sub_go repl (pred <$> count) (length (st_before st)) ms rest
      end
  end.

Definition re_sub (r : re) (repl : state → text) (count : option nat) (t : text) : text :=
  let '(ms, rest) := find_all r t in sub_go repl count 0 ms rest.
End matcher.
