(* ===== verification/Utf8.v ===== *)
(** * Text as UTF-8

    Encoding code points and decoding the bytes gives the code points back, and
    writing text to a file and reading it gives the text. *)

From Stdlib Require Import Ascii.
From S2P Require Import Prelude PyFloat PyVal Json JsonOut World JsonRound PyRe.

Local Open Scope Z_scope.

Ltac div_lia := Z.to_euclidean_division_equations; lia.

Ltac utf8_tests :=
  repeat match goal with
  | |- context [code (byte ?z)] => rewrite (code_byte z) by div_lia
  | |- context [?a <? ?b] =>
      first [rewrite (proj2 (Z.ltb_ge a b)) by div_lia | rewrite (proj2 (Z.ltb_lt a b)) by div_lia]
  | |- context [?a <=? ?b] =>
      first [rewrite (proj2 (Z.leb_le a b)) by div_lia | rewrite (proj2 (Z.leb_gt a b)) by div_lia]
  end.

Ltac utf8_open :=
  unfold utf8; utf8_tests; rewrite ?app_cons_str, ?app_nil_l_str; cbn [utf8_valid code_points];
  unfold is_continuation, in_range; utf8_tests; cbn [andb].

(** One character in front of a string *)
Definition utf8_front (cp : Z) : Prop := ∀ s,
  utf8_valid (utf8 cp +:+ s) = utf8_valid s ∧ code_points (utf8 cp +:+ s) = cp :: code_points s.

Lemma utf8_front_1 cp : 0 ≤ cp < 128 → utf8_front cp.
Proof. intros Hcp s. by utf8_open. Qed.

Lemma utf8_front_2 cp : 128 ≤ cp < 2048 → utf8_front cp.
Proof. intros Hcp s. utf8_open. split; [done|]. f_equal. div_lia. Qed.

Lemma utf8_front_3 cp : 2048 ≤ cp < 65536 → ¬ 55296 ≤ cp ≤ 57343 → utf8_front cp.
Proof.
  intros Hcp Hs s. utf8_open. split; [|f_equal; div_lia].
  destruct (Z.eqb_spec (224 + cp / 4096) 224); destruct (Z.eqb_spec (224 + cp / 4096) 237); utf8_tests; done.
Qed.

Lemma utf8_front_4 cp : 65536 ≤ cp < 1114112 → utf8_front cp.
Proof.
  intros Hcp s. utf8_open. split; [|f_equal; div_lia].
  destruct (Z.eqb_spec (240 + cp / 262144) 240); destruct (Z.eqb_spec (240 + cp / 262144) 244); utf8_tests; done.
Qed.

Lemma utf8_front_scalar cp : scalar cp → utf8_front cp.
Proof.
  intros [? ?].
  destruct (decide (cp < 128)); [apply utf8_front_1; lia|].
  destruct (decide (cp < 2048)); [apply utf8_front_2; lia|].
  destruct (decide (cp < 65536)); [apply utf8_front_3; lia|apply utf8_front_4; lia].
Qed.

Lemma encode_cons c t : encode (c :: t) = utf8 c +:+ encode t.
Proof. done. Qed.

Lemma encode_valid t : Forall scalar t → utf8_valid (encode t) = true.
Proof.
  induction 1 as [|c t Hc _ IH]; [done|]. rewrite encode_cons.
  by rewrite (proj1 (utf8_front_scalar c Hc _)).
Qed.

Lemma decode_encode t : Forall scalar t → code_points (encode t) = t.
Proof.
  induction 1 as [|c t Hc _ IH]; [done|]. rewrite encode_cons.
  by rewrite (proj2 (utf8_front_scalar c Hc _)), IH.
Qed.

(** ** Line ends *)

Definition no_return (c : ascii) : bool := negb (code c =? 13).

Lemma universal_newlines_id s : str_all no_return s = true → universal_newlines s = s.
Proof.
  induction s as [|c s IH]; [done|]. cbn [str_all universal_newlines]. unfold no_return at 1.
  intros [Hc Hs]%andb_true_iff. apply negb_true_iff in Hc. by rewrite Hc, IH.
Qed.

Lemma utf8_no_return cp : scalar cp → cp ≠ 13 → str_all no_return (utf8 cp) = true.
Proof.
  intros [? _] ?. unfold utf8.
  destruct (Z.ltb_spec cp 128); [|destruct (Z.ltb_spec cp 2048); [|destruct (Z.ltb_spec cp 65536)]];
    cbn [str_all]; unfold no_return; rewrite !code_byte by div_lia;
    rewrite !(proj2 (Z.eqb_neq _ 13)) by div_lia; done.
Qed.

(** Text without carriage returns survives being written and read. *)
Lemma decode_text_encode t :
  Forall scalar t → 13 ∉ t → decode_text (encode t) = Ok (encode t).
Proof.
  intros Ht Hr. unfold decode_text. rewrite encode_valid by done. f_equal.
  apply universal_newlines_id. induction Ht as [|c t Hc _ IH]; [done|].
  rewrite encode_cons, str_all_app. apply andb_true_iff. split.
  - apply utf8_no_return; [done|]. set_solver.
  - apply IH. set_solver.
Qed.
