(* ===== verification/PyReSpec.v ===== *)
(** * Facts about text and patterns

    Lines joined and split, stripping, and what the matcher finds for a repeated
    character class: the longest run.  Replacing the runs of a class is a plain
    function of the text, [collapse].  The patterns have a relational semantics,
    [matches]; the matcher finds a match exactly where there is one. *)

From S2P Require Import Prelude PyFloat PyVal Json JsonOut PyRe.

Local Open Scope Z_scope.

(** ** Stripping *)

Section stripping.
Implicit Types (t u : text) (c : Z).

Lemma tlstrip_suffix t : ∃ u, t = u ++ tlstrip t ∧ Forall (λ c, is_space c = true) u.
Proof.
  induction t as [|c t (u & IH & Hu)]; [by exists []|]. cbn [tlstrip].
  destruct (is_space c) eqn:Hc; [|by exists []]. exists (c :: u). split; [|by constructor].
  simpl. by f_equal.
Qed.

Lemma tlstrip_head t c : head (tlstrip t) = Some c → is_space c = false.
Proof.
  induction t as [|d t IH]; [done|]. cbn [tlstrip].
  destruct (is_space d) eqn:Hd; [done|]. intros [= <-]. done.
Qed.

Lemma head_reverse t : head (reverse t) = last t.
Proof.
  destruct t as [|c t _] using rev_ind; [done|]. by rewrite reverse_snoc, last_snoc.
Qed.

Lemma trstrip_prefix t : ∃ u, t = trstrip t ++ u ∧ Forall (λ c, is_space c = true) u.
Proof.
  destruct (tlstrip_suffix (reverse t)) as (u & Hu & Hs). exists (reverse u).
  unfold trstrip. rewrite <-reverse_app, <-Hu, reverse_involutive. by rewrite Forall_reverse.
Qed.

Lemma trstrip_last t c : last (trstrip t) = Some c → is_space c = false.
Proof. unfold trstrip. rewrite <-head_reverse, reverse_involutive. apply tlstrip_head. Qed.

Lemma tlstrip_id t : (∀ c, head t = Some c → is_space c = false) → tlstrip t = t.
Proof. destruct t as [|c t]; [done|]. cbn. intros H. by rewrite (H c). Qed.

Lemma trstrip_id t : (∀ c, last t = Some c → is_space c = false) → trstrip t = t.
Proof.
  intros H. unfold trstrip. rewrite tlstrip_id; [apply reverse_involutive|].
  intros c. rewrite head_reverse. apply H.
Qed.

Lemma tlstrip_spaces u t : forallb is_space u = true → tlstrip (u ++ t) = tlstrip t.
Proof.
  induction u as [|c u IH]; [done|]. cbn. intros [Hc Hu]%andb_true_iff. by rewrite Hc, IH.
Qed.

(** Blank lines at the end go. *)
Lemma trstrip_spaces t u : forallb is_space u = true → trstrip (t ++ u) = trstrip t.
Proof.
  intros Hu. unfold trstrip. rewrite reverse_app, tlstrip_spaces; [done|].
  apply forallb_forall. intros c Hc. rewrite forallb_forall in Hu. apply Hu.
  by apply list_elem_of_In, elem_of_reverse, list_elem_of_In.
Qed.

(** A stripped text is the text without white space at its ends. *)
Lemma tstrip_part t :
  ∃ l r, t = l ++ tstrip t ++ r ∧
    Forall (λ c, is_space c = true) l ∧ Forall (λ c, is_space c = true) r.
Proof.
  destruct (tlstrip_suffix t) as (l & Hl & ?), (trstrip_prefix (tlstrip t)) as (r & Hr & ?).
  exists l, r. unfold tstrip. by rewrite <-Hr.
Qed.

Lemma tstrip_last t c : last (tstrip t) = Some c → is_space c = false.
Proof. apply trstrip_last. Qed.

Lemma tstrip_head t c : head (tstrip t) = Some c → is_space c = false.
Proof.
  unfold tstrip. intros H. apply (tlstrip_head t).
  destruct (trstrip_prefix (tlstrip t)) as (r & -> & _). by destruct (trstrip (tlstrip t)).
Qed.

Lemma tstrip_Forall (P : Z → Prop) t : Forall P t → Forall P (tstrip t).
Proof.
  destruct (tstrip_part t) as (l & r & Ht & _). rewrite Ht at 1. rewrite !Forall_app. tauto.
Qed.
End stripping.

(** ** Lines *)

Definition no_line_end (t : text) : Prop := Forall (λ c, is_line_end c = false) t.

Lemma splitlines_go_line cur l t :
  no_line_end l → splitlines_go cur (l ++ 10 :: t) = (reverse cur ++ l) :: splitlines_go [] t.
Proof.
  intros Hl. revert cur. induction Hl as [|c l Hc _ IH]; intros cur.
  - simpl. rewrite app_nil_r. f_equal. by destruct t.
  - simpl. rewrite Hc, IH, reverse_cons, <-app_assoc. done.
Qed.

(** Lines that were joined are split again. *)
Lemma splitlines_join ls :
  Forall no_line_end ls → ls ≠ [] → splitlines (tjoin [10] ls ++ [10]) = ls.
Proof.
  unfold splitlines. induction 1 as [|l ls Hl Hls IH]; [done|]. intros _.
  destruct ls as [|l' ls].
  - simpl. rewrite splitlines_go_line by done. done.
  - change (tjoin [10] (l :: l' :: ls)) with (l ++ [10] ++ tjoin [10] (l' :: ls)).
    rewrite <-!app_assoc. simpl. rewrite splitlines_go_line by done. simpl. f_equal.
    by apply IH.
Qed.

(** Without the empty lines at the end *)
Fixpoint trim_end (ls : list text) : list text :=
  match ls with
  | [] => []
  | l :: ls =>
      match trim_end ls with
      | [] => if bool_decide (l = []) then [] else [l]
      | ls' => l :: ls'
      end
  end.

Lemma trim_end_split ls : ∃ n, ls = trim_end ls ++ replicate n [].
Proof.
  induction ls as [|l ls [n IH]]; [by exists 0%nat|]. cbn [trim_end].
  destruct (trim_end ls) as [|l' ls'].
  - simpl in IH. case_bool_decide as Hl; [exists (S n)|exists n]; simpl; by subst.
  - exists n. simpl in *. by f_equal.
Qed.

Lemma trim_end_last ls l : last (trim_end ls) = Some l → l ≠ [].
Proof.
  induction ls as [|l' ls IH]; [done|]. cbn [trim_end].
  destruct (trim_end ls) as [|l1 ls1]; [|by intros ?%IH].
  case_bool_decide; [done|]. by intros [= <-].
Qed.

Lemma trim_end_app ls l ls' :
  l ≠ [] → trim_end (ls ++ l :: ls') = ls ++ trim_end (l :: ls').
Proof.
  intros Hl. induction ls as [|l1 ls IH]; [done|]. cbn [app trim_end] in *. rewrite IH.
  destruct (trim_end ls') as [|? ?]; [rewrite bool_decide_eq_false_2 by done|]; by destruct ls.
Qed.

Lemma tjoin_empties ls n :
  ls ≠ [] → tjoin [10] (ls ++ replicate n []) = tjoin [10] ls ++ replicate n 10.
Proof.
  intros Hls. induction ls as [|l ls IH]; [done|]. destruct ls as [|l' ls].
  - clear. destruct n as [|n]; [by rewrite !app_nil_r|]. cbn. do 2 f_equal.
    induction n as [|n IH]; [done|]. simpl in *. by f_equal.
  - cbn in *. rewrite IH by done. by rewrite <-app_assoc.
Qed.

Lemma last_tjoin ls l :
  last ls = Some l → l ≠ [] → last (tjoin [10] ls) = last l.
Proof.
  intros Hls Hl. induction ls as [|l1 ls IH]; [done|]. destruct ls as [|l2 ls].
  - by injection Hls as ->.
  - change (tjoin [10] (l1 :: l2 :: ls)) with (l1 ++ [10] ++ tjoin [10] (l2 :: ls)).
    rewrite app_assoc, last_app, IH by done. destruct (last l) eqn:E; [done|].
    by apply last_None in E.
Qed.

(** Stripping the end of joined lines drops the empty ones. *)
Lemma trstrip_tjoin ls l :
  last (trim_end ls) = Some l → (∀ c, last l = Some c → is_space c = false) →
  trstrip (tjoin [10] ls) = tjoin [10] (trim_end ls).
Proof.
  intros Hl Hc. destruct (trim_end_split ls) as [n Hn]. rewrite Hn at 1.
  rewrite tjoin_empties by (by intros E; rewrite E in Hl).
  rewrite trstrip_spaces by (clear; by induction n).
  apply trstrip_id. intros c. rewrite (last_tjoin _ l); [apply Hc|done|].
  by eapply trim_end_last.
Qed.

(** ** Runs of a character class *)

Fixpoint span (p : Z → bool) (t : text) : text * text :=
  match t with
  | c :: t' => if p c then let '(run, rest) := span p t' in (c :: run, rest) else ([], t)
  | [] => ([], [])
  end.

Lemma span_app p t : t = (span p t).1 ++ (span p t).2.
Proof.
  induction t as [|c t IH]; [done|]. simpl. destruct (p c); [|done].
  destruct (span p t). simpl in *. by f_equal.
Qed.

Lemma span_run p t : Forall (λ c, p c = true) (span p t).1.
Proof.
  induction t as [|c t IH]; [constructor|]. simpl. destruct (p c) eqn:Hc; [|constructor].
  destruct (span p t). by constructor.
Qed.

Lemma span_head p t c : head (span p t).2 = Some c → p c = false.
Proof.
  induction t as [|d t IH]; [done|]. simpl. destruct (p d) eqn:Hd.
  - by destruct (span p t).
  - by intros [= <-].
Qed.

Section runs.
Context (U : unicode) (p : Z → bool).

(** A repeated class takes the whole run. *)
Lemma repeat_set lo fuel count before after gs :
  (length after ≤ length fuel)%nat →
  repeat_re (match_re U (Set_ p)) lo None Some fuel count (State before after gs) =
    let '(run, rest) := span p after in
    if (lo <=? count + length run)%nat then Some (State (reverse run ++ before) rest gs) else None.
Proof.
  revert fuel count before. induction after as [|c after IH]; intros fuel count before Hf.
  - destruct fuel; simpl; by rewrite Nat.add_0_r.
  - destruct fuel as [|? fuel]; [simpl in Hf; lia|]. simpl. destruct (p c); simpl.
    + rewrite IH by (simpl in Hf; lia). destruct (span p after) as [run rest]. simpl.
      rewrite Nat.add_succ_r, reverse_cons, <-app_assoc. simpl.
      destruct (lo <=? S (count + length run))%nat eqn:E; [done|].
      by rewrite (proj2 (Nat.leb_gt lo count)) by (apply Nat.leb_gt in E; lia).
    + by rewrite Nat.add_0_r.
Qed.

Lemma match_repeat_set lo before after :
  match_at U (Repeat lo None (Set_ p)) before after =
    let '(run, rest) := span p after in
    if (lo <=? length run)%nat then Some (State (reverse run ++ before) rest []) else None.
Proof.
  unfold match_at. cbn [match_re]. rewrite repeat_set; [done|].
  simpl. rewrite length_app. lia.
Qed.

(** The runs of at least [lo] characters, each replaced *)
Fixpoint collapse (fuel : nat) (lo : nat) (r : text) (t : text) : text :=
  match fuel, t with
  | S fuel, c :: t' =>
      let '(run, rest) := span p t in
      if (lo <=? length run)%nat then r ++ collapse fuel lo r rest else c :: collapse fuel lo r t'
  | _, _ => t
  end.

Lemma span_length t : (length (span p t).1 + length (span p t).2 = length t)%nat.
Proof. rewrite (span_app p t) at 3. by rewrite length_app. Qed.

Lemma sub_runs_from fuel lo r skipped before after pos :
  (0 < lo)%nat → (length after ≤ fuel)%nat →
  (let '(ms, rest) := find_from U fuel (Repeat lo None (Set_ p)) skipped before after in
   sub_go (λ _, r) None pos ms rest) = reverse skipped ++ collapse fuel lo r after.
Proof.
  intros Hlo. revert skipped before after pos.
  induction fuel as [|fuel IH]; intros skipped before after pos Hf.
  - destruct after; [|simpl in Hf; lia]. simpl find_from. rewrite match_repeat_set. simpl.
    by destruct lo; [lia|].
  - destruct after as [|c after]; cbn [find_from]; rewrite match_repeat_set.
    { simpl. by destruct lo; [lia|]. }
    cbn [collapse]. pose proof (span_length (c :: after)) as Hlen.
    destruct (span p (c :: after)) as [run rest] eqn:E. simpl in Hlen, Hf.
    destruct (Nat.leb_spec lo (length run)).
    + cbn [st_before st_after]. specialize (IH [] (reverse run ++ before) rest
        (length (reverse run ++ before))). destruct (find_from _ _ _ _ _ rest) as [ms rest'].
      simpl. rewrite IH by lia. done.
    + rewrite IH by lia. by rewrite reverse_cons, <-app_assoc.
Qed.

(** [re.sub] of the runs of a class *)
Lemma re_sub_runs lo r t :
  (0 < lo)%nat →
  re_sub U (Repeat lo None (Set_ p)) (λ _, r) None t = collapse (S (length t)) lo r t.
Proof.
  intros Hlo. unfold re_sub, find_all.
  pose proof (sub_runs_from (S (length t)) lo r [] [] t 0 Hlo ltac:(lia)) as H.
  by destruct (find_from _ _ _ _ _ t).
Qed.

Lemma collapse_Forall (P : Z → Prop) fuel lo r t :
  Forall P r → Forall P t → Forall P (collapse fuel lo r t).
Proof.
  intros Hr. revert t. induction fuel as [|fuel IH]; intros t Ht; [by destruct t|].
  destruct t as [|c t]; [done|]. cbn [collapse]. pose proof (span_app p (c :: t)) as Hs.
  destruct (span p (c :: t)) as [run rest]. simpl in Hs.
  case_match; [|by inversion Ht; constructor; [|apply IH]].
  rewrite Hs in Ht. apply Forall_app in Ht as [_ Ht]. apply Forall_app. split; [done|by apply IH].
Qed.
End runs.

(** ** Neighbouring characters *)

(** No two characters in a row are in the relation. *)
Definition never (Q : Z → Z → Prop) (t : text) : Prop :=
  ∀ l a b r, t = l ++ a :: b :: r → ¬ Q a b.

Lemma never_nil Q : never Q [].
Proof. by intros [|??] ????. Qed.

Lemma never_cons Q a t :
  never Q (a :: t) ↔ (∀ b, head t = Some b → ¬ Q a b) ∧ never Q t.
Proof.
  split.
  - intros H. split.
    + intros b Hb. destruct t as [|b' t]; [done|]. injection Hb as ->. by apply (H [] a b t).
    + intros l c d r ->. by apply (H (a :: l) c d r).
  - intros [Ha Ht] l c d r E. destruct l as [|x l].
    + injection E as -> ->. by apply Ha.
    + injection E as -> ->. by eapply Ht.
Qed.

Lemma never_part Q l t r : never Q (l ++ t ++ r) → never Q t.
Proof.
  intros H l' a b r' ->. apply (H (l ++ l') a b (r' ++ r)). by rewrite <-!app_assoc.
Qed.

(** After replacing the runs of a class by one of its characters there are no two
    in a row. *)
Lemma collapse_single p x fuel t :
  p x = true → (length t ≤ fuel)%nat →
  never (λ a b, p a = true ∧ p b = true) (collapse p fuel 1 [x] t) ∧
  ∀ c, head (collapse p fuel 1 [x] t) = Some c → p c = true → ∃ d, head t = Some d ∧ p d = true.
Proof.
  intros Hx. revert t. induction fuel as [|fuel IH]; intros t Hf.
  { destruct t; [|simpl in Hf; lia]. split; [apply never_nil|done]. }
  destruct t as [|c t]; [split; [apply never_nil|done]|]. cbn [collapse].
  pose proof (span_length p (c :: t)) as Hlen. pose proof (span_head p (c :: t)) as Hh.
  destruct (span p (c :: t)) as [run rest] eqn:E. cbn [fst snd] in *. simpl in Hlen, Hf.
  destruct (Nat.leb_spec 1 (length run)) as [Hr|Hr].
  - destruct (IH rest) as [IH1 IH2]; [lia|]. simpl. rewrite never_cons. split_and!; [|done|].
    + intros b Hb [_ Hpb]. destruct (IH2 b Hb Hpb) as (d & Hd & Hpd).
      by rewrite (Hh d Hd) in Hpd.
    + intros ? [= <-] _. exists c. split; [done|]. simpl in E.
      destruct (p c); [done|]. injection E as <- <-. simpl in Hr. lia.
  - destruct (IH t) as [IH1 IH2]; [lia|]. assert (p c = false) as Hc.
    { simpl in E. destruct (p c); [|done]. destruct (span p t). injection E as <- <-. simpl in Hr. lia. }
    rewrite never_cons. split_and!; [|done|].
    + intros b _. rewrite Hc. by intros [? _].
    + intros ? [= <-]. by rewrite Hc.
Qed.

Lemma collapse_class (p : Z → bool) x fuel t :
  (length t ≤ fuel)%nat → Forall (λ c, p c = true → c = x) (collapse p fuel 1 [x] t).
Proof.
  revert t. induction fuel as [|fuel IH]; intros t Hf.
  { destruct t; [constructor|simpl in Hf; lia]. }
  destruct t as [|c t]; [constructor|]. cbn [collapse].
  pose proof (span_length p (c :: t)) as Hlen.
  destruct (span p (c :: t)) as [run rest] eqn:E. simpl in Hlen, Hf.
  destruct (Nat.leb_spec 1 (length run)) as [Hr|Hr]; simpl; constructor.
  - done.
  - apply IH. simpl in *. lia.
  - simpl in E. destruct (p c) eqn:Hc; [|done]. destruct (span p t). injection E as <- <-.
    simpl in Hr. lia.
  - apply IH. lia.
Qed.

(** ** Runs of line feeds *)

Definition no_three (t : text) : Prop := ∀ l r, t ≠ l ++ [10; 10; 10] ++ r.

Definition lead (t : text) : nat := length (span (Z.eqb 10) t).1.

Lemma lead_cons c t : lead (c :: t) = if 10 =? c then S (lead t) else 0%nat.
Proof. unfold lead. cbn [span]. destruct (10 =? c); [|done]. by destruct (span _ t). Qed.

Lemma no_three_cons c t :
  no_three t → (c = 10 → (lead t ≤ 1)%nat) → no_three (c :: t).
Proof.
  intros Ht Hc l r E. destruct l as [|d l].
  - injection E as -> ->. specialize (Hc eq_refl). rewrite !lead_cons in Hc. simpl in Hc. lia.
  - injection E as -> ->. by eapply Ht.
Qed.

Lemma no_three_part l t r : no_three (l ++ t ++ r) → no_three t.
Proof.
  intros H l' r' ->. apply (H (l ++ l') (r' ++ r)). by rewrite <-!app_assoc.
Qed.

Lemma lead_rest t : lead (span (Z.eqb 10) t).2 = 0%nat.
Proof.
  pose proof (span_head (Z.eqb 10) t) as H. destruct (span _ t).2 as [|c r]; [done|].
  rewrite lead_cons. by rewrite (H c).
Qed.

Lemma collapse_no_three fuel t :
  (length t ≤ fuel)%nat →
  no_three (collapse (Z.eqb 10) fuel 3 [10; 10] t) ∧
  lead (collapse (Z.eqb 10) fuel 3 [10; 10] t) = Nat.min (lead t) 2.
Proof.
  assert (no_three []) as Hnil by (by intros [|??] ?).
  revert t. induction fuel as [|fuel IH]; intros t Hf.
  { by destruct t; [|simpl in Hf; lia]. }
  destruct t as [|c t]; [done|]. cbn [collapse].
  pose proof (span_length (Z.eqb 10) (c :: t)) as Hlen.
  pose proof (lead_rest (c :: t)) as Hrest.
  assert (length (span (Z.eqb 10) (c :: t)).1 = lead (c :: t)) as Hl by done.
  destruct (span (Z.eqb 10) (c :: t)) as [run rest] eqn:E. cbn [fst snd] in *. simpl in Hlen, Hf.
  destruct (Nat.leb_spec 3 (length run)) as [Hr|Hr].
  - destruct (IH rest) as [IH1 IH2]; [lia|]. cbn [app]. split.
    + apply no_three_cons; [apply no_three_cons; [done|]|]; rewrite ?lead_cons; simpl; lia.
    + rewrite <-Hl, !(lead_cons 10). simpl. lia.
  - destruct (IH t) as [IH1 IH2]; [lia|]. rewrite !lead_cons. rewrite lead_cons in Hl.
    destruct (Z.eqb_spec 10 c); split; try lia; apply no_three_cons; try done; lia.
Qed.

(** ** The relation a pattern stands for *)

Fixpoint times (R : state → state → Prop) (n : nat) (st st' : state) : Prop :=
  match n with
  | O => st' = st
  | S n => ∃ st1, R st st1 ∧ times R n st1 st'
  end.

Definition within (n : nat) (hi : option nat) : Prop :=
  match hi with Some h => (n ≤ h)%nat | None => True end.

Section semantics.
Context (U : unicode).

Fixpoint matches (r : re) (st st' : state) : Prop :=
  match r with
  | Set_ p =>
      ∃ c rest, st_after st = c :: rest ∧ p c = true ∧
        st' = State (c :: st_before st) rest (st_groups st)
  | Lit t =>
      ∃ rest, st_after st = t ++ rest ∧
        st' = State (reverse t ++ st_before st) rest (st_groups st)
  | Seq a b => ∃ st1, matches a st st1 ∧ matches b st1 st'
  | Alt a b => matches a st st' ∨ matches b st st'
  | Repeat lo hi a => ∃ n, (lo ≤ n)%nat ∧ within n hi ∧ times (matches a) n st st'
  | Group n a =>
      ∃ st1, matches a st st1 ∧
        st' = State (st_before st1) (st_after st1)
          ((n, reverse (take (length (st_before st1) - length (st_before st)) (st_before st1)))
           :: st_groups st1)
  | Bol => bol st = true ∧ st' = st
  | Eol => eol st = true ∧ st' = st
  | LineStart => line_start st = true ∧ st' = st
  | LineEnd => line_end st = true ∧ st' = st
  | Boundary => boundary U st = true ∧ st' = st
  end.

Lemma read_lit_Some t st st' :
  read_lit t st = Some st' ↔
    ∃ rest, st_after st = t ++ rest ∧ st' = State (reverse t ++ st_before st) rest (st_groups st).
Proof.
  revert st. induction t as [|a t IH]; intros [b s g]; cbn [read_lit st_after st_before st_groups].
  - split; [intros [= <-]; by exists s|]. by intros (? & -> & ->).
  - destruct s as [|c s]; [split; [done|by intros (? & ? & _)]|].
    destruct (Z.eqb_spec c a) as [->|Hc].
    + rewrite IH. cbn [st_after st_before st_groups].
      split; intros (rest & H & ->); exists rest;
        (split; [by simplify_eq/=|by rewrite reverse_cons, <-app_assoc]).
    + split; [done|]. intros (rest & ? & _). by simplify_eq/=.
Qed.

(** What the matcher finds is a match. *)
Lemma repeat_re_sound {A} (R : state → state → Prop) step lo hi (k : state → option A) fuel count st x :
  (∀ st k x, step st k = Some x → ∃ st', R st st' ∧ k st' = Some x) →
  repeat_re step lo hi k fuel count st = Some x → within count hi →
  ∃ n st', (lo ≤ count + n)%nat ∧ within (count + n) hi ∧ times R n st st' ∧ k st' = Some x.
Proof.
  intros Hstep. revert count st. induction fuel as [|c fuel IH]; intros count st H Hw; simpl in H.
  - case_match eqn:E; [|done]. apply Nat.leb_le in E. exists 0%nat, st. by rewrite Nat.add_0_r.
  - assert (∀ y, (if (lo <=? count)%nat then k st else None) = Some y →
      ∃ n st', (lo ≤ count + n)%nat ∧ within (count + n) hi ∧ times R n st st' ∧ k st' = Some y)
      as Hstop.
    { intros y Hy. case_match eqn:E; [|done]. apply Nat.leb_le in E. exists 0%nat, st.
      by rewrite Nat.add_0_r. }
    destruct (match hi with Some h => (h <=? count)%nat | None => false end) eqn:Eh;
      [by apply Hstop|].
    destruct (step st _) as [y|] eqn:Es; [|by apply Hstop]. injection H as <-.
    apply Hstep in Es as (st1 & HR & Hk). apply IH in Hk as (n & st' & ? & ? & ? & ?).
    + exists (S n), st'. rewrite Nat.add_succ_r. split_and!; try done. by exists st1.
    + destruct hi; simpl in *; [|done]. apply Nat.leb_gt in Eh. lia.
Qed.

Lemma match_re_sound {A} r st (k : state → option A) x :
  match_re U r st k = Some x → ∃ st', matches r st st' ∧ k st' = Some x.
Proof.
  revert A st k x. induction r as [p|t|a IHa b IHb|a IHa b IHb|lo hi a IHa|n a IHa| | | | |];
    intros A st k x H; cbn [match_re matches] in *.
  - destruct (st_after st) as [|c rest]; [done|]. destruct (p c) eqn:Hc; [|done].
    eexists. split; [|done]. by exists c, rest.
  - destruct (read_lit t st) as [st1|] eqn:E; [|done]. apply read_lit_Some in E. by exists st1.
  - apply IHa in H as (st1 & ? & H). apply IHb in H as (st2 & ? & H). exists st2. eauto.
  - destruct (match_re U a st k) eqn:E; [|apply IHb in H as (st1 & ? & ?); eauto].
    apply IHa in E as (st1 & ? & ?). simplify_eq. eauto.
  - apply (repeat_re_sound (matches a)) in H as (n & st' & ? & ? & ? & ?); [|by apply IHa|].
    + exists st'. eauto.
    + destruct hi; simpl; lia || done.
  - apply IHa in H as (st1 & ? & H). eexists. split; [|exact H]. eauto.
  - destruct (bol st); [|done]. by exists st.
  - destruct (eol st); [|done]. by exists st.
  - destruct (line_start st); [|done]. by exists st.
  - destruct (line_end st); [|done]. by exists st.
  - destruct (boundary U st); [|done]. by exists st.
Qed.

(** A match reads a part of what is left, and only forward. *)
Definition reads (st st' : state) : Prop :=
  ∃ u, st_after st = u ++ st_after st' ∧ st_before st' = reverse u ++ st_before st.

#[local] Instance reads_preorder : PreOrder reads.
Proof.
  split.
  - intros st. by exists [].
  - intros st1 st2 st3 (u & Hu & Hb) (v & Hv & Hc). exists (u ++ v).
    rewrite Hu, Hv, Hc, Hb, reverse_app. by rewrite !app_assoc.
Qed.

Lemma times_preorder (R S : state → state → Prop) `{!PreOrder S} n st st' :
  (∀ st st', R st st' → S st st') → times R n st st' → S st st'.
Proof.
  intros HRS. revert st. induction n as [|n IH]; intros st; simpl; [by intros ->|].
  intros (st1 & H & Ht). etrans; eauto.
Qed.

Lemma matches_reads r st st' : matches r st st' → reads st st'.
Proof.
  revert st st'. induction r as [p|t|a IHa b IHb|a IHa b IHb|lo hi a IHa|n a IHa| | | | |];
    intros st st'; cbn [matches].
  - intros (c & rest & H & _ & ->). exists [c]. by rewrite H.
  - intros (rest & H & ->). exists t. by rewrite H.
  - intros (st1 & ?%IHa & ?%IHb). by etrans.
  - intros [?%IHa|?%IHb]; done.
  - intros (n & _ & _ & Ht). by eapply (times_preorder (matches a) reads) in Ht.
  - intros (st1 & (u & Hu & Hb)%IHa & ->). by exists u.
  - by intros [_ ->].
  - by intros [_ ->].
  - by intros [_ ->].
  - by intros [_ ->].
  - by intros [_ ->].
Qed.

(** Patterns that cannot match the empty text, and those that repeat only such *)
Fixpoint consumes (r : re) : bool :=
  match r with
  | Set_ _ => true
  | Lit t => negb (bool_decide (t = []))
  | Seq a b => consumes a || consumes b
  | Alt a b => consumes a && consumes b
  | Repeat lo _ a => (0 <? lo)%nat && consumes a
  | Group _ a => consumes a
  | _ => false
  end.

Fixpoint proper (r : re) : bool :=
  match r with
  | Seq a b | Alt a b => proper a && proper b
  | Repeat _ _ a => consumes a && proper a
  | Group _ a => proper a
  | _ => true
  end.

Definition left_over (st : state) : nat := length (st_after st).

Lemma reads_left st st' : reads st st' → (left_over st' ≤ left_over st)%nat.
Proof. intros (u & Hu & _). unfold left_over. rewrite Hu, length_app. lia. Qed.

Lemma times_left R n st st' :
  (∀ st st', R st st' → (left_over st' < left_over st)%nat) →
  times R n st st' → (left_over st' + n ≤ left_over st)%nat.
Proof.
  intros HR. revert st. induction n as [|n IH]; intros st; simpl; [intros ->; lia|].
  intros (st1 & H%HR & Ht%IH). lia.
Qed.

Lemma consumes_left r st st' :
  consumes r = true → matches r st st' → (left_over st' < left_over st)%nat.
Proof.
  revert st st'. induction r as [p|t|a IHa b IHb|a IHa b IHb|lo hi a IHa|n a IHa| | | | |];
    intros st st'; cbn [consumes matches]; try done.
  - intros _ (c & rest & H & _ & ->). unfold left_over. rewrite H. simpl. lia.
  - intros Ht (rest & H & ->). unfold left_over. rewrite H. simpl. rewrite length_app.
    destruct t; [done|]. simpl. lia.
  - intros H (st1 & Ha & Hb). pose proof (reads_left _ _ (matches_reads _ _ _ Ha)).
    pose proof (reads_left _ _ (matches_reads _ _ _ Hb)).
    apply orb_true_iff in H as [H|H]; [specialize (IHa _ _ H Ha)|specialize (IHb _ _ H Hb)]; lia.
  - intros [Ha Hb]%andb_true_iff [H|H]; auto.
  - intros [Hlo Ha]%andb_true_iff (n & Hn & _ & Ht). apply Nat.ltb_lt in Hlo.
    apply times_left in Ht; [lia|]. intros ??. by apply IHa.
  - intros Ha (st1 & H & ->). by apply (IHa st st1).
Qed.

(** Where there is a match the matcher finds one. *)
Lemma repeat_re_complete {A} (R : state → state → Prop) step lo hi (k : state → option A) n fuel
    count st st' :
  (∀ st st' k, R st st' → is_Some (k st') → is_Some (step st k)) →
  (n ≤ length fuel)%nat → (lo ≤ count + n)%nat → within (count + n) hi → times R n st st' →
  is_Some (k st') → is_Some (repeat_re step lo hi k fuel count st).
Proof.
  intros Hstep. revert fuel count st. induction n as [|n IH]; intros fuel count st Hf Hlo Hhi Ht Hk.
  - simpl in Ht. subst st'. rewrite Nat.add_0_r in *. destruct fuel as [|c fuel]; simpl;
      rewrite (proj2 (Nat.leb_le lo count)) by lia; [done|].
    by case_match.
  - destruct fuel as [|c fuel]; [simpl in Hf; lia|]. destruct Ht as (st1 & HR & Ht). simpl.
    replace (match hi with Some h => (h <=? count)%nat | None => false end) with false
      by (destruct hi; simpl in *; [symmetry; apply Nat.leb_gt; lia|done]).
    assert (is_Some (step st (repeat_re step lo hi k fuel (S count)))) as [y ->]; [|done].
    apply (Hstep _ st1); [done|]. rewrite Nat.add_succ_r in *.
    apply IH; [simpl in Hf; lia|done..].
Qed.

Lemma match_re_complete {A} r st st' (k : state → option A) :
  proper r = true → matches r st st' → is_Some (k st') → is_Some (match_re U r st k).
Proof.
  revert A st st' k. induction r as [p|t|a IHa b IHb|a IHa b IHb|lo hi a IHa|n a IHa| | | | |];
    intros A st st' k; cbn [proper match_re matches].
  - intros _ (c & rest & -> & -> & ->). done.
  - intros _ H%read_lit_Some. by rewrite H.
  - intros [Ha Hb]%andb_true_iff (st1 & H1 & H2) Hk. eapply IHa; [done..|]. by eapply IHb.
  - intros [Ha Hb]%andb_true_iff [H|H] Hk.
    + eapply IHa in H as [y Hy]; [|done..]. rewrite Hy. done.
    + case_match; [done|]. by eapply IHb.
  - intros [Hc Ha]%andb_true_iff (n & Hlo & Hhi & Ht) Hk.
    eapply (repeat_re_complete (matches a)); [|..|done|done]; [by eauto| |done..].
    apply times_left in Ht; [|intros ??; by apply consumes_left].
    rewrite length_app. unfold left_over in Ht. lia.
  - intros Ha (st1 & H & ->) Hk. by eapply IHa.
  - intros _ [-> ->]; done.
  - intros _ [-> ->]; done.
  - intros _ [-> ->]; done.
  - intros _ [-> ->]; done.
  - intros _ [-> ->]; done.
Qed.
End semantics.

(** ** Characters that replacing keeps *)

Section over.
Context (U : unicode) (P : Z → Prop).

(** Everything the matcher can see satisfies [P]. *)
Definition over (st : state) : Prop :=
  Forall P (st_before st) ∧ Forall P (st_after st) ∧ Forall (λ g, Forall P g.2) (st_groups st).

Lemma times_over R n st st' :
  (∀ st st', R st st' → over st → over st') → times R n st st' → over st → over st'.
Proof.
  intros HR. revert st. induction n as [|n IH]; intros st; simpl; [by intros ->|].
  intros (st1 & H & Ht) Ho. eapply IH; [done|]. by eapply HR.
Qed.

Lemma matches_over r st st' : matches U r st st' → over st → over st'.
Proof.
  revert st st'. induction r as [p|t|a IHa b IHb|a IHa b IHb|lo hi a IHa|n a IHa| | | | |];
    intros st st'; cbn [matches].
  - intros (c & rest & H & _ & ->) (Hb & Ha & Hg). rewrite H in Ha. inversion_clear Ha.
    split_and!; simpl; [by constructor|done..].
  - intros (rest & H & ->) (Hb & Ha & Hg). rewrite H in Ha. apply Forall_app in Ha as [Ht Hr].
    split_and!; simpl; [|done..]. apply Forall_app. by rewrite Forall_reverse.
  - intros (st1 & H1 & H2) Ho. eauto.
  - intros [H|H]; eauto.
  - intros (n & _ & _ & Ht). by eapply times_over.
  - intros (st1 & H & ->) Ho. destruct (IHa _ _ H Ho) as (Hb & Ha & Hg).
    split_and!; simpl; [done..|]. constructor; [|done]. simpl. by apply Forall_reverse, Forall_take.
  - by intros [_ ->].
  - by intros [_ ->].
  - by intros [_ ->].
  - by intros [_ ->].
  - by intros [_ ->].
Qed.

Lemma match_at_over r before after st :
  match_at U r before after = Some st → Forall P before → Forall P after → over st.
Proof.
  intros (st' & Hm & [= ->])%match_re_sound Hb Ha. eapply matches_over; [done|].
  by split_and!.
Qed.

Lemma find_from_over fuel r skipped before after ms rest :
  find_from U fuel r skipped before after = (ms, rest) →
  Forall P skipped → Forall P before → Forall P after →
  Forall (λ m, Forall P m.1 ∧ over m.2) ms ∧ Forall P rest.
Proof.
  revert skipped before after ms rest.
  induction fuel as [|fuel IH]; intros skipped before after ms rest E Hs Hb Ha; simpl in E.
  - assert (ms = [] ∧ rest = reverse skipped ++ after) as [-> ->]
      by (repeat case_match; by simplify_eq).
    split; [done|]. apply Forall_app. by rewrite Forall_reverse.
  - destruct (match_at U r before after) as [st|] eqn:Em.
    + destruct (find_from U fuel r [] (st_before st) (st_after st)) as [ms' rest'] eqn:E'.
      injection E as <- <-. pose proof (match_at_over _ _ _ _ Em Hb Ha) as Ho.
      destruct Ho as (Hob & Hoa & Hog). apply IH in E' as [Hms Hr]; [|done..].
      split; [|done]. constructor; [|done]. simpl. by rewrite Forall_reverse.
    + destruct after as [|c after]; [simplify_eq; split; [done|]; rewrite app_nil_r; by apply Forall_reverse|].
      inversion_clear Ha. eapply IH; [done|by constructor..|done].
Qed.

(** [re.sub] keeps a property of all characters that the replacement has. *)
Lemma re_sub_Forall r repl count t :
  (∀ st, over st → Forall P (repl st)) → Forall P t → Forall P (re_sub U r repl count t).
Proof.
  intros Hr Ht. unfold re_sub, find_all.
  destruct (find_from U (S (length t)) r [] [] t) as [ms rest] eqn:E.
  apply find_from_over in E as [Hms Hrest]; [|done..].
  generalize 0%nat as pos. revert count. induction Hms as [|[s st] ms [Hs Ho] _ IH]; intros count pos; [done|].
  cbn [sub_go]. specialize (Hr _ Ho). simpl in *.
  destruct count as [[|n]|]; rewrite ?Forall_app; split_and!; auto.
  unfold matched. apply Forall_reverse, Forall_take, Ho.
Qed.

Lemma group_over n st : over st → Forall P (group n st).
Proof.
  intros (_ & _ & Hg). unfold group. destruct (list_find _ _) as [[i [m t]]|] eqn:E; [|done].
  apply list_find_Some in E as (E & _). rewrite Forall_lookup in Hg. by apply (Hg i (m, t)).
Qed.
End over.

(** ** Characters of split and joined text *)

Section characters.
Context (P : Z → Prop).

Lemma tjoin_Forall sep l : Forall P sep → Forall (Forall P) l → Forall P (tjoin sep l).
Proof.
  intros Hs. induction 1 as [|t l Ht Hl IH]; [done|]. destruct l as [|u l]; [done|].
  change (tjoin sep (t :: u :: l)) with (t ++ sep ++ tjoin sep (u :: l)). by rewrite !Forall_app.
Qed.

Lemma tsplit_Forall c t : Forall P t → Forall (Forall P) (tsplit c t).
Proof.
  induction 1 as [|a t Ha Ht IH]; [by repeat constructor|]. cbn [tsplit].
  destruct (a =? c); [by constructor|]. destruct (tsplit c t); [by repeat constructor|].
  inversion_clear IH. by repeat constructor.
Qed.

Lemma treplace_Forall p r t : Forall P r → Forall P t → Forall P (treplace p r t).
Proof.
  intros Hr Ht. unfold treplace. generalize 0%nat as n.
  induction Ht as [|c t Hc Ht IH]; intros n; [done|]. cbn [treplace_go].
  destruct n; [|done]. case_match; [|by constructor]. by apply Forall_app.
Qed.

Lemma splitlines_Forall t : Forall P t → Forall (Forall P) (splitlines t).
Proof.
  intros Ht. unfold splitlines. assert (∀ n t cur, (length t ≤ n)%nat → Forall P cur → Forall P t →
    Forall (Forall P) (splitlines_go cur t)) as H; [|by eapply H].
  clear t Ht. induction n as [|n IH]; intros t cur Hn Hc Ht.
  - destruct t; [|simpl in Hn; lia]. destruct cur; constructor; [|done]. by apply Forall_reverse.
  - destruct t as [|c t]; [destruct cur; constructor; [|done]; by apply Forall_reverse|].
    inversion_clear Ht. simpl in Hn. cbn [splitlines_go].
    case_match; [|apply IH; [lia|by constructor|done]].
    constructor; [by apply Forall_reverse|]. destruct t as [|d t]; [done|].
    case_match; apply IH; try done; try (by inversion_clear H0); simpl in *; lia.
Qed.
End characters.
