(* ===== verification/SectionizeMarkdown.v ===== *)
(** * From pages to sections

    tools/paper-text/sectionize_markdown.py: the extracted text of a paper, one
    heading per page, is rewritten with the headings of its sections. *)

From S2P Require Import Prelude PyFloat PyVal PyPath Json JsonOut World PyRe.

Local Open Scope Z_scope.

Module SectionizeMarkdown.

Definition blank : text := [10; 10].

Section sectionize.
Context (U : unicode).

(** [^## Page \d+$] in multi-line mode *)
Definition PAGE_RE : re :=
  seqs [LineStart; Lit (lit "## Page "); plus (Set_ (is_decimal U)); LineEnd].

Definition REPLACEMENTS : list (re * text * nat) := [
  (seqs [Boundary; Lit (lit "Abstract"); plus space],
     lit "## Abstract" ++ blank, 1%nat);
  (seqs [Boundary; Lit (lit "CCS Concepts:"); star space],
     lit "## CCS Concepts" ++ blank, 1%nat);
  (seqs [Boundary; Lit (lit "Keywords:"); star space],
     lit "## Keywords" ++ blank, 1%nat);
  (seqs [Boundary; Lit (lit "ACM Reference Format:"); star space],
     lit "## ACM Reference Format" ++ blank, 1%nat);
  (seqs [Boundary; Lit (lit "Introduction"); plus space; Lit (lit "Modern cloud computing")],
     lit "## 1 Introduction" ++ blank ++ lit "Modern cloud computing", 1%nat);
  (seqs [Boundary; Lit (lit "2 Characteristics of RPCs at Hyperscale"); star space],
     lit "## 2 Characteristics of RPCs at Hyperscale" ++ blank, 1%nat);
  (seqs [Lit (lit "Characteristics of RPCs at Hyperscale"); plus space; Lit (lit "This section analyzes")],
     lit "## 2 Characteristics of RPCs at Hyperscale" ++ blank ++ lit "This section analyzes", 1%nat);
  (seqs [Boundary; Lit (lit "2.1 Methodology"); star space],
     lit "### 2.1 Methodology" ++ blank, 1%nat);
  (seqs [Boundary; Lit (lit "2.2 Why is RPC Evaluation Important?"); star space],
     lit "### 2.2 Why is RPC Evaluation Important?" ++ blank, 1%nat);
  (seqs [Boundary; Lit (lit "2.3 Not all RPCs are the same."); star space],
     lit "### 2.3 Not all RPCs are the same." ++ blank, 1%nat);
  (seqs [Boundary; Lit (lit "2.4 Nested RPCs are Wider than Deep"); star space],
     lit "### 2.4 Nested RPCs are Wider than Deep" ++ blank, 1%nat);
  (seqs [Boundary; Lit (lit "2.5 RPC Size Matters"); star space],
     lit "### 2.5 RPC Size Matters" ++ blank, 1%nat);
  (seqs [Boundary; Lit (lit "2.6 Storage RPCs are Important"); star space],
     lit "### 2.6 Storage RPCs are Important" ++ blank, 1%nat);
  (seqs [Boundary; Lit (lit "RPC Latency"); plus space; Lit (lit "The previous section showed")],
     lit "## 3 RPC Latency" ++ blank ++ lit "The previous section showed", 1%nat);
  (seqs [Boundary; Lit (lit "3.1 RPC Components"); star space],
     lit "### 3.1 RPC Components" ++ blank, 1%nat);
  (seqs [Boundary; Lit (lit "3.2 Fleet-Wide Latency Variation"); star space],
     lit "### 3.2 Fleet-Wide Latency Variation" ++ blank, 1%nat);
  (seqs [Boundary; Lit (lit "3.3 Service-Specific Latency Variation"); star space],
     lit "### 3.3 Service-Specific Latency Variation" ++ blank, 1%nat);
  (seqs [Boundary; Lit (lit "3.3.1 Latency Variation Within a Cluster."); star space],
     lit "#### 3.3.1 Latency Variation Within a Cluster" ++ blank, 1%nat);
  (seqs [Boundary; Lit (lit "3.3.2 Component Impact on Tail Latency."); star space],
     lit "#### 3.3.2 Component Impact on Tail Latency" ++ blank, 1%nat);
  (seqs [Boundary; Lit (lit "3.3.3 Service Latency of Different Clusters."); star space],
     lit "#### 3.3.3 Service Latency of Different Clusters" ++ blank, 1%nat);
  (seqs [Boundary; Lit (lit "3.3.4 Exogenous Variables Affecting Latency Variation."); star space],
     lit "#### 3.3.4 Exogenous Variables Affecting Latency Variation" ++ blank, 1%nat);
  (seqs [Boundary; Lit (lit "3.3.5 Latency of Cross-Cluster RPCs."); star space],
     lit "#### 3.3.5 Latency of Cross-Cluster RPCs" ++ blank, 1%nat);
  (seqs [opt (seqs [Boundary; Lit (lit "a"); plus space]); Lit (lit "Resource Utilization of RPCs"); plus space; Lit (lit "This section studies")],
     lit "## 4 Resource Utilization of RPCs" ++ blank ++ lit "This section studies", 1%nat);
  (seqs [Boundary; Lit (lit "4.1 CPU Cycle Breakdown"); star space],
     lit "### 4.1 CPU Cycle Breakdown" ++ blank, 1%nat);
  (seqs [Boundary; Lit (lit "4.2 Fleet-Wide CPU Cycle Variation"); star space],
     lit "### 4.2 Fleet-Wide CPU Cycle Variation" ++ blank, 1%nat);
  (seqs [Boundary; Lit (lit "4.3 Load-Balancing Resources"); star space],
     lit "### 4.3 Load-Balancing Resources" ++ blank, 1%nat);
  (seqs [Boundary; Lit (lit "4.4 RPC Cancellations and Errors"); star space],
     lit "### 4.4 RPC Cancellations and Errors" ++ blank, 1%nat);
  (seqs [Boundary; Lit (lit "Implications"); plus space; Lit (lit "This section briefly highlights")],
     lit "## 5 Implications" ++ blank ++ lit "This section briefly highlights", 1%nat);
  (seqs [Boundary; Lit (lit "5.1 RPC Behavior and Problems"); star space],
     lit "### 5.1 RPC Behavior and Problems" ++ blank, 1%nat);
  (seqs [Boundary; Lit (lit "5.2 Software Optimizations"); star space],
     lit "### 5.2 Software Optimizations" ++ blank, 1%nat);
  (seqs [Boundary; Lit (lit "5.3 Hardware Optimizations"); star space],
     lit "### 5.3 Hardware Optimizations" ++ blank, 1%nat);
  (seqs [Boundary; Lit (lit "5.4 Limitations"); star space],
     lit "### 5.4 Limitations" ++ blank, 1%nat);
  (seqs [Boundary; Lit (lit "Related Work"); plus space],
     lit "## 6 Related Work" ++ blank, 1%nat);
  (seqs [Boundary; Lit (lit "Conclusions"); plus space; Lit (lit "This paper presents")],
     lit "## 7 Conclusions" ++ blank ++ lit "This paper presents", 1%nat);
  (seqs [Boundary; Lit (lit "References"); plus space; Lit (lit "[1]"); star space],
     lit "## References" ++ blank ++ lit "[1] ", 1%nat)
].

(** The loop over the lines: the header, the body and [in_body] *)
Definition split_step (st : list text * list text * bool) (line : text)
    : list text * list text * bool :=
  let '(header, body, in_body) := st in
  match re_match U PAGE_RE line with
  | Some _ => (header, body, true)
  | None =>
      if (in_body : bool) then (header, body ++ [line], true)
      else (header ++ [line], body, false)
  end.

Definition split_pages (lines : list text) : list text * list text * bool :=
  foldl split_step ([], [], false) lines.

(** [re.sub(r"\n{3,}", "\n\n", t)] *)
Definition squeeze_lines (t : text) : text :=
  re_sub U (Repeat 3 None (char 10)) (λ _, blank) None t.

(** The loop over [REPLACEMENTS] *)
Definition replace_all (t : text) : text :=
  foldl (λ t '(pattern, replacement, count), re_sub U pattern (λ _, replacement) (Some count) t)
    t REPLACEMENTS.

(** [re.sub(r"\s+(#{2,4}\s)", r"\n\n\1", t)] *)
Definition detach_headings (t : text) : text :=
  re_sub U (seqs [plus space; Group 1 (seqs [Repeat 2 (Some 4%nat) (char 35); space])])
    (λ m, blank ++ group 1 m) None t.

(** [re.sub(r"(?m)^## Page \d+\n?", "", t)] *)
Definition drop_pages (t : text) : text :=
  re_sub U (seqs [LineStart; Lit (lit "## Page "); plus (Set_ (is_decimal U)); opt (char 10)])
    (λ _, []) None t.

Definition sectionize_body (t : text) : text :=
  let t := tstrip (squeeze_lines t) in
  let t := replace_all t in
  let t := detach_headings t in
  let t := drop_pages t in
  tstrip (squeeze_lines t).

Definition sectionize_markdown (t : text) : text :=
  let '(header, body, _) := split_pages (splitlines t) in
  let body_text := sectionize_body (tjoin [10] body) in
  let header_text := trstrip (tjoin [10] header) in
  header_text ++ blank ++ body_text ++ [10].

(** The parsed command line *)
Record arguments : Type := Arguments {
  a_input_md : path;
  a_output_md : option path;
  a_in_place : bool;
}.

Definition output_of (args : arguments) : exc path :=
  if a_in_place args then Ok (a_input_md args)
  else match a_output_md args with
  | Some output_md => Ok output_md
  | None => Err (SystemExit "provide OUTPUT_MD or use --in-place")
  end.

Definition main (args : arguments) : io Z :=
  output_path ← pure_ (output_of args);
  t ← read_text (a_input_md args);
  write_utf8 output_path (encode (sectionize_markdown (code_points t)));;
  print ("wrote " +:+ path_str output_path);;
  mret 0.
End sectionize.
End SectionizeMarkdown.
