(* ===== verification/VerifyPaperText.v ===== *)
(** * The structure of a sectionized paper

    tools/paper-text/verify_paper_text.py: the checks on the headings of a paper
    that was extracted and sectionized. *)

From S2P Require Import Prelude PyFloat PyVal PyPath Json JsonOut World PyRe.

Local Open Scope Z_scope.

Module VerifyPaperText.

Section verify.
Context (U : unicode).

(** [^(#{2,4})\s+(.+)$] in multi-line mode *)
Definition HEADING_RE : re :=
  seqs [LineStart; Group 1 (Repeat 2 (Some 4%nat) (char 35)); plus space; Group 2 (plus any);
        LineEnd].

(** A heading of level two to four that starts with a section number: a digit
    that is not zero and any number of groups of a dot and digits; the alternatives
    of the level are tried in the order of the source. *)
Definition NUMBERED_HEADING_RE : re :=
  seqs [LineStart; Alt (Lit (lit "##")) (Alt (Lit (lit "###")) (Lit (lit "####"))); plus space;
        Group 1 (Seq (Set_ (λ c, (49 <=? c) && (c <=? 57)))
                     (star (Seq (Lit (lit ".")) (plus (Set_ is_ascii_digit)))));
        plus space].

Definition numbered_heading_tuple (t : text) : list Z := map (tint U) (tsplit 46 t).

(** [a < b] for tuples of integers *)
Fixpoint tuple_lt (a b : list Z) : bool :=
  match a, b with
  | _, [] => false
  | [], _ :: _ => true
  | x :: a, y :: b => if x =? y then tuple_lt a b else x <? y
  end.

(** [str(t)] for a tuple of integers *)
Definition tuple_str (t : list Z) : string :=
  match t with
  | [x] => cat ["("; pretty x; ",)"]
  | _ => cat ["("; join ", " (map pretty t); ")"]
  end.

(** [current < previous and current[0] >= previous[0]] *)
Definition out_of_order (previous current : list Z) : bool :=
  tuple_lt current previous && (default 0 (head previous) <=? default 0 (head current)).

(** The loop over the numbers: the issue it stops at *)
Fixpoint order_issue (previous : list Z) (rest : list (list Z)) : option string :=
  match rest with
  | [] => None
  | current :: rest =>
      if out_of_order previous current then
        Some (cat ["non-monotonic heading order around "; tuple_str previous; " -> ";
                   tuple_str current])
      else order_issue current rest
  end.

Definition numbered (t : text) : list (list Z) :=
  map (λ m, numbered_heading_tuple (group 1 m)) (finditer U NUMBERED_HEADING_RE t).

Definition headings (t : text) : list text := map (group 2) (finditer U HEADING_RE t).

Definition when (b : bool) (issue : string) : list string := if b then [issue] else [].

Definition verify (t : text) : list string :=
  when (tin (lit "## Page ") t) "page headings still present"
  ++ when (negb (tin (lit "## Abstract") t)) "missing required heading: ## Abstract"
  ++ when (negb (tin (lit "## References") t)) "missing required heading: ## References"
  ++ match numbered t with
     | [] => ["no numbered headings found"]
     | previous :: rest => match order_issue previous rest with Some i => [i] | None => [] end
     end
  ++ (let hs := headings t in
      when (negb (bool_decide (lit "1 Introduction" ∈ hs))) "missing 1 Introduction heading"
      ++ when (negb (bool_decide (lit "6 Related Work" ∈ hs))) "missing 6 Related Work heading"
      ++ when (negb (bool_decide (lit "7 Conclusions" ∈ hs))) "missing 7 Conclusions heading").

(** The exit code *)
Definition main (input_md : path) : io Z :=
  t ← read_text input_md;
  match verify (code_points t) with
  | [] => print "verification passed";; mret 0
  | issues => iterM (λ issue, print ("ERROR: " +:+ issue)) issues;; mret 1
  end.
End verify.
End VerifyPaperText.
