(* ===== verification/ExtractPaperText.v ===== *)
(** * The text of a paper, page by page

    tools/paper-text/extract_paper_text.py: the columns of each page are cut out
    by pdftotext, the lines of a column are joined to one paragraph, and the pages
    are written as Markdown.  The two programs it runs, pdftotext and pdfinfo,
    are parameters: what the one leaves in its output file and what the other
    prints, or the exception [subprocess.run] raises. *)

From Stdlib Require Import Ascii SpecFloat.
From S2P Require Import Prelude PyFloat PyVal PyPath Json JsonOut World PyRe.

Local Open Scope Z_scope.

(** ** Decoding with replacement *)

Definition replacement : Z := 65533.

(** [bytes.decode("utf-8", errors="replace")]: the longest start of a sequence
    that cannot be completed becomes one replacement character. *)
Fixpoint decode_replace (s : string) : text :=
  match s with
  | "" => []
  | String a r =>
      let n := code a in
      if n <? 128 then n :: decode_replace r
      else if negb ((194 <=? n) && (n <=? 244)) then replacement :: decode_replace r
      else match r with
      | "" => [replacement]
      | String b r1 =>
          let lo := if n =? 224 then 160 else if n =? 240 then 144 else 128 in
          let hi := if n =? 237 then 159 else if n =? 244 then 143 else 191 in
          if negb (in_range lo hi b) then replacement :: decode_replace r
          else if n <? 224 then ((n - 192) * 64 + (code b - 128)) :: decode_replace r1
          else match r1 with
          | "" => [replacement]
          | String c r2 =>
              if negb (is_continuation c) then replacement :: decode_replace r1
              else if n <? 240 then
                ((n - 224) * 4096 + (code b - 128) * 64 + (code c - 128)) :: decode_replace r2
              else match r2 with
              | "" => [replacement]
              | String d r3 =>
                  if negb (is_continuation d) then replacement :: decode_replace r2
                  else ((n - 240) * 262144 + (code b - 128) * 4096 + (code c - 128) * 64
                        + (code d - 128)) :: decode_replace r3
              end
          end
      end
  end.

(** Text mode on what was decoded *)
Fixpoint text_newlines (t : text) : text :=
  match t with
  | [] => []
  | c :: t' =>
      if c =? 13 then
        10 :: match t' with
              | d :: t'' => if d =? 10 then text_newlines t'' else text_newlines t'
              | [] => []
              end
      else c :: text_newlines t'
  end.

(** ** Numbers *)

(** [float(t)] for a text of digits and points *)
Definition float_of_digits (t : text) : exc float :=
  match tsplit 46 t with
  | [a] => if bool_decide (a = []) then Err (ValueError "could not convert string to float: ''")
           else Ok (f_of_decimal false (foldl (λ acc c, 10 * acc + (c - 48)) 0 a) 0)
  | [a; b] =>
      if bool_decide (a ++ b = []) then Err (ValueError "could not convert string to float: '.'")
      else Ok (f_of_decimal false (foldl (λ acc c, 10 * acc + (c - 48)) 0 (a ++ b))
                 (- Z.of_nat (length b)))
  | _ => Err (ValueError (cat ["could not convert string to float: '"; encode t; "'"]))
  end.

(** [int(float(t))] *)
Definition int_of_float_text (t : text) : exc Z :=
  f ← float_of_digits t;
  py_int (JFloat f).

(** [p.stem]: the name up to its last dot, if that is neither its first nor its
    last character *)
Definition path_stem (p : path) : string :=
  let name := code_points (path_name p) in
  match tfind [46] (reverse name) with
  | Some i =>
      if (0 <? i)%nat && (S i <? length name)%nat
      then encode (take (length name - S i) name) else path_name p
  | None => path_name p
  end.

Module ExtractPaperText.

(** What [subprocess.run] needs of the two programs *)
Record programs : Type := Programs {
  pdftotext : list string → world → exc string;
  pdfinfo : list string → world → exc string;
}.

Section extract.
Context (U : unicode) (T : programs).

Definition BOILERPLATE_PATTERNS : list re := [
  seqs [Bol; Lit (lit "This work is licensed under")];
  seqs [Bol; Lit (lit "4.0 License"); opt (Lit (lit ".")); Eol];
  seqs [Bol; Lit (lit "SOSP"); opt any; opt (Lit (lit " ")); Lit (8217 :: lit "23,")];
  seqs [Bol; Lit [169]; opt (Lit (lit " ")); Lit (lit "2023 Copyright held by the owner/author(s)");
        opt (Lit (lit ".")); Eol];
  seqs [Bol; Lit (lit "ACM ISBN ")];
  seqs [Bol; Lit (lit "https://doi.org/")];
  seqs [Bol; plus (Set_ (is_decimal U)); Eol]].

Definition is_boilerplate (line : text) : bool :=
  existsb (λ pattern, match re_match U pattern line with Some _ => true | None => false end)
    BOILERPLATE_PATTERNS.

(** The arguments of pdftotext up to its output file, a temporary one *)
Definition extract_crop (pdf_path : path) (page_num x y width height : Z) : io text :=
  bytes ← (λ w, (pdftotext T
    ["-f"; pretty page_num; "-l"; pretty page_num; "-x"; pretty x; "-y"; pretty y;
     "-W"; pretty width; "-H"; pretty height; path_str pdf_path] w, w));
  mret (text_newlines (decode_replace bytes)).

Definition detect_columns (pdf_path : path) : io string :=
  sample_text ← extract_crop pdf_path 1 0 0 5000 5000;
  mret (if tin (lit "Abstract") sample_text && tin (lit "Introduction") sample_text
           && tin (lit "in prior research.") sample_text
        then "two" else "one").

Definition pdfinfo_output (pdf_path : path) : io text :=
  stdout ← (λ w, (pdfinfo T [path_str pdf_path] w, w));
  info ← pure_ (decode_text stdout);
  mret (code_points info).

Definition number_re : re := plus (Set_ (λ c, is_ascii_digit c || (c =? 46))).

Definition page_dimensions (pdf_path : path) (page_num : Z) : io (Z * Z) :=
  info ← pdfinfo_output pdf_path;
  match re_search U (seqs [Lit (lit "Page size:"); plus space; Group 1 number_re; Lit (lit " x ");
                           Group 2 number_re; Lit (lit " pts")]) info with
  | None => io_raise (RuntimeError ("could not determine page size for " +:+ path_str pdf_path))
  | Some m =>
      width ← pure_ (int_of_float_text (group 1 m));
      height ← pure_ (int_of_float_text (group 2 m));
      mret (width, height)
  end.

Definition total_pages (pdf_path : path) : io Z :=
  info ← pdfinfo_output pdf_path;
  match re_search U (seqs [Lit (lit "Pages:"); plus space; Group 1 (plus (Set_ (is_decimal U)))])
          info with
  | None => io_raise (RuntimeError ("could not determine page count for " +:+ path_str pdf_path))
  | Some m => mret (tint U (group 1 m))
  end.

(** The lines that are kept, stripped *)
Definition clean_line (raw_line : text) : list text :=
  let line := tstrip raw_line in
  if bool_decide (line = []) then [[]]
  else if is_boilerplate line then [] else [line].

Definition cleaned (t : text) : list text :=
  concat (map clean_line (tsplit 10 (treplace [13] [10] (treplace [13; 10] [10] t)))).

(** The loop that fills the paragraphs: those done and the buffer *)
Definition paragraph_step (st : list text * text) (line : text) : list text * text :=
  let '(paragraphs, buffer) := st in
  if bool_decide (line = []) then
    if bool_decide (buffer = []) then st else (paragraphs ++ [buffer], [])
  else if bool_decide (buffer = []) then (paragraphs, line)
  else if tends (lit "-") buffer
          && match line with c :: _ => is_lower U c | [] => false end
  then (paragraphs, take (length buffer - 1) buffer ++ line)
  else (paragraphs, buffer ++ lit " " ++ line).

Definition paragraphs_of (lines : list text) : list text :=
  let '(paragraphs, buffer) := foldl paragraph_step ([], []) lines in
  if bool_decide (buffer = []) then paragraphs else paragraphs ++ [buffer].

Definition squeeze_spaces (t : text) : text :=
  tstrip (re_sub U (plus space) (λ _, [32]) None t).

Definition normalize_block (t : text) : text :=
  let t := tjoin [10; 10] (paragraphs_of (cleaned t)) in
  foldl (λ t '(before, after), treplace before after t) (squeeze_spaces t)
    [(lit " .", lit "."); (lit " ,", lit ","); (lit " ;", lit ";"); (lit " :", lit ":")].

(** The text from the first of the markers it has *)
Fixpoint from_marker (markers : list text) (t : text) : text :=
  match markers with
  | [] => t
  | marker :: markers =>
      match tfind marker t with
      | Some i => drop i t
      | None => from_marker markers t
      end
  end.

Definition extract_page_text (pdf_path : path) (page_num : Z) (mode : string) : io text :=
  '(width, height) ← page_dimensions pdf_path page_num;
  if bool_decide (mode = "two") then
    let midpoint := width / 2 in
    let overlap := 10 in
    left_text ← extract_crop pdf_path page_num 0 0 (midpoint + overlap) height;
    right_text ← extract_crop pdf_path page_num (Z.max (midpoint - overlap) 0) 0
              (width - (midpoint - overlap)) height;
    let '(left_text, right_text) :=
      if page_num =? 1 then
        (from_marker [lit "Abstract"] left_text,
         from_marker [lit "in prior research."; lit "CCS Concepts:"; lit "Introduction"] right_text)
      else (left_text, right_text) in
    let chunks := map normalize_block [left_text; right_text] in
    mret (tjoin [10; 10] (filter (λ chunk, chunk ≠ []) chunks))
  else
    page_text ← extract_crop pdf_path page_num 0 0 width height;
    mret (normalize_block page_text).

Definition page_lines (pdf_path : path) (mode : string) (page_num : Z) : io (list text) :=
  page ← extract_page_text pdf_path page_num mode;
  mret [lit "## Page " ++ lit (pretty page_num); []; page; []].

Definition heading_of (pdf_path : path) (title : option string) : string :=
  match title with
  | Some t => if bool_decide (t = "") then path_stem pdf_path else t
  | None => path_stem pdf_path
  end.

(** The four lines in front of the pages *)
Definition front_lines (pdf_path : path) (title : option string) (mode : string) : list text :=
  [lit "# " ++ code_points (heading_of pdf_path title); [];
   lit "> Extracted from `paper.pdf` with " ++ lit mode ++
   lit "-column-aware `pdftotext` processing. Raw KB-searchable text; minor PDF artifacts may remain.";
   []].

(** [range(1, n + 1)] *)
Definition page_range (n : Z) : list Z := map (λ i, Z.of_nat i + 1) (seq 0 (Z.to_nat n)).

Definition build_markdown (pdf_path : path) (title : option string) (mode : string) : io text :=
  page_count ← total_pages pdf_path;
  lines ← foldM (λ lines page_num,
    more ← page_lines pdf_path mode page_num;
    mret (lines ++ more)) (front_lines pdf_path title mode) (page_range page_count);
  mret (trstrip (tjoin [10] lines) ++ [10]).

(** The parsed command line; [--columns] is [auto], [one] or [two] *)
Record arguments : Type := Arguments {
  a_input_pdf : path;
  a_output_md : path;
  a_title : option string;
  a_columns : string;
}.

Definition main (args : arguments) : io Z :=
  mode ← (if bool_decide (a_columns args = "auto") then detect_columns (a_input_pdf args)
          else mret (a_columns args));
  markdown ← build_markdown (a_input_pdf args) (a_title args) mode;
  write_utf8 (a_output_md args) (encode markdown);;
  print ("wrote " +:+ path_str (a_output_md args));;
  print ("columns=" +:+ mode);;
  mret 0.
End extract.
End ExtractPaperText.
