(* ===== verification/PaperTextSpec.v ===== *)
(** * The paper-text tools

    The theorems about extract_paper_text.py, sectionize_markdown.py and
    verify_paper_text.py: what a block of text looks like once it is normalized,
    that the sectionizer finds the pages the extractor wrote, and which papers the
    verifier accepts. *)

From Stdlib Require Import Ascii.
From S2P Require Import Prelude PyFloat PyVal PyPath Json JsonOut World Files JsonRound PyRe Utf8 PyReSpec.
From S2P Require Import SectionizeMarkdown VerifyPaperText ExtractPaperText.
Import ExtractPaperText.

Local Open Scope Z_scope.

(** ** A normalized block *)

(** One line, single spaces inside it only and none in front of punctuation *)
Definition normal (t : text) : Prop :=
  Forall (λ c, is_space c = true → c = 32) t ∧
  never (λ a b, a = 32 ∧ b ∈ lit " .,;:") t ∧
  head t ≠ Some 32 ∧ last t ≠ Some 32.

Section tighten.
Context (x : Z).

(** [t.replace(" x", "x")] *)
Definition tighten (t : text) : text := treplace [32; x] [x] t.

Lemma tighten_pair t : tighten (32 :: x :: t) = x :: tighten t.
Proof. unfold tighten, treplace. simpl. by rewrite Z.eqb_refl. Qed.

Lemma tighten_cons c t : ¬ (c = 32 ∧ head t = Some x) → tighten (c :: t) = c :: tighten t.
Proof.
  intros H. unfold tighten, treplace. cbn [treplace_go tstarts].
  destruct (Z.eqb_spec 32 c) as [<-|]; [|done]. destruct t as [|d t]; [done|]. cbn.
  destruct (Z.eqb_spec x d) as [<-|]; [|done]. by destruct H.
Qed.

(** A text that starts with a pair, or does not *)
Lemma pair_cases (P : text → Prop) :
  P [] → (∀ t, P t → P (32 :: x :: t)) →
  (∀ c t, P t → ¬ (c = 32 ∧ head t = Some x) → P (c :: t)) → ∀ t, P t.
Proof.
  intros Hnil Hpair Hcons t. induction t as [t IH] using (induction_ltof1 _ length).
  unfold ltof in IH. destruct t as [|c t]; [done|].
  destruct (decide (c = 32 ∧ head t = Some x)) as [[-> Hx]|Hn].
  - destruct t as [|d t]; [done|]. injection Hx as ->. apply Hpair, IH. simpl. lia.
  - apply Hcons; [|done]. apply IH. simpl. lia.
Qed.

Lemma tighten_Forall (P : Z → Prop) t : Forall P t → Forall P (tighten t).
Proof.
  induction t as [|t IH|c t IH Hn] using pair_cases; [done| |]; intros Ht.
  - rewrite tighten_pair. inversion_clear Ht as [|?? _ Ht']. inversion_clear Ht'. by constructor; [|apply IH].
  - rewrite tighten_cons by done. inversion_clear Ht. by constructor; [|apply IH].
Qed.

Lemma tighten_last t : last (tighten t) = last t.
Proof.
  induction t as [|t IH|c t IH Hn] using pair_cases; [done| |].
  - rewrite tighten_pair, !last_cons, IH. by destruct (last t).
  - by rewrite tighten_cons, !last_cons, IH.
Qed.

Lemma tighten_head t : head t ≠ Some 32 → head (tighten t) ≠ Some 32.
Proof.
  induction t as [|t _|c t _ Hn] using pair_cases; [done|done|]. by rewrite tighten_cons.
Qed.

Lemma tighten_never (S : list Z) a t :
  x ≠ 32 → 32 ∈ S → never (λ a b, a = 32 ∧ b ∈ S) (a :: t) → (a = 32 → head t ≠ Some x) →
  never (λ a b, a = 32 ∧ b ∈ x :: S) (a :: tighten t).
Proof.
  intros Hx HS. revert a.
  induction t as [|t IH|c t IH Hn] using pair_cases; intros a Ht Ha.
  - apply never_cons. split; [done|apply never_nil].
  - rewrite tighten_pair. rewrite !never_cons in Ht. destruct Ht as (H1 & H2 & Ht).
    apply never_cons. split.
    + intros b [= <-] [-> _]. by apply (H1 32).
    + apply IH; [|done]. apply never_cons. split; [|apply Ht]. intros b _ [? _]. done.
  - rewrite tighten_cons by done. rewrite never_cons in Ht. destruct Ht as [H1 Ht].
    apply never_cons. split.
    + intros b [= <-] [-> Hb]. apply elem_of_cons in Hb as [->|Hb]; [by apply Ha|].
      by apply (H1 c).
    + apply IH; [done|]. intros -> ?. by apply Hn.
Qed.
End tighten.

Lemma tighten_keeps x (S : list Z) t :
  x ≠ 32 → 32 ∈ S → never (λ a b, a = 32 ∧ b ∈ S) t →
  never (λ a b, a = 32 ∧ b ∈ x :: S) (tighten x t).
Proof.
  intros Hx HS Ht. assert (never (λ a b, a = 32 ∧ b ∈ x :: S) (0 :: tighten x t)) as H.
  { apply tighten_never; [done..| |done]. apply never_cons. split; [|done]. by intros b _ [? _]. }
  by apply never_cons in H as [_ H].
Qed.

(** ** Squeezing white space *)

Lemma squeeze_spaces_normal U t :
  let s := squeeze_spaces U t in
  Forall (λ c, is_space c = true → c = 32) s ∧ never (λ a b, a = 32 ∧ b ∈ [32]) s ∧
  head s ≠ Some 32 ∧ last s ≠ Some 32.
Proof.
  intros s. unfold s, squeeze_spaces, plus, space. rewrite re_sub_runs by lia.
  set (u := collapse _ _ _ _ _). split_and!.
  - apply tstrip_Forall, collapse_class. lia.
  - destruct (tstrip_part u) as (l & r & Hu & _).
    destruct (collapse_single is_space 32 (S (length t)) t) as [H _]; [done|lia|].
    fold u in H. rewrite Hu in H. apply never_part in H. intros l' a b r' Hs [-> ->%list_elem_of_singleton].
    by eapply H.
  - by intros H%tstrip_head.
  - by intros H%tstrip_last.
Qed.

Lemma normalize_block_is_normal U t : normal (normalize_block U t).
Proof.
  destruct (squeeze_spaces_normal U (tjoin [10; 10] (paragraphs_of U (cleaned U t))))
    as (H1 & H2 & H3 & H4).
  unfold normalize_block. cbn [foldl].
  set (s := squeeze_spaces _ _) in *.
  change (treplace (lit " .") (lit ".")) with (tighten 46).
  change (treplace (lit " ,") (lit ",")) with (tighten 44).
  change (treplace (lit " ;") (lit ";")) with (tighten 59).
  change (treplace (lit " :") (lit ":")) with (tighten 58).
  split_and!.
  - by do 4 apply tighten_Forall.
  - assert (never (λ a b, a = 32 ∧ b ∈ [58; 59; 44; 46; 32])
      (tighten 58 (tighten 59 (tighten 44 (tighten 46 s))))) as H.
    { do 4 (apply tighten_keeps; [done|set_solver|]). done. }
    intros l a b r E [-> Hb]. apply (H l 32 b r E). split; [done|].
    change (lit " .,;:") with [32; 46; 44; 59; 58] in Hb. set_solver.
  - by do 4 apply tighten_head.
  - by rewrite !tighten_last.
Qed.

(** ** Nothing is lost *)

(** The characters other than white space and hyphens *)
Definition is_letter (c : Z) : Prop := is_space c = false ∧ c ≠ 45.
#[export] Instance is_letter_dec c : Decision (is_letter c).
Proof. unfold is_letter. apply _. Defined.

Definition letters (t : text) : text := filter is_letter t.

Lemma letters_app t u : letters (t ++ u) = letters t ++ letters u.
Proof. apply filter_app. Qed.

Lemma letters_spaces t : Forall (λ c, is_space c = true) t → letters t = [].
Proof.
  induction 1 as [|c t Hc _ IH]; [done|]. unfold letters. rewrite filter_cons_False; [done|].
  intros [? _]. by rewrite Hc in *.
Qed.

Lemma letters_cons c t : letters (c :: t) = letters [c] ++ letters t.
Proof. apply (letters_app [c]). Qed.

Lemma letters_tstrip t : letters (tstrip t) = letters t.
Proof.
  destruct (tstrip_part t) as (l & r & Ht & Hl & Hr). rewrite Ht at 2.
  by rewrite !letters_app, (letters_spaces l), (letters_spaces r), app_nil_r by done.
Qed.

Lemma letters_tjoin sep l : letters sep = [] → letters (tjoin sep l) = letters (concat l).
Proof.
  intros Hs. induction l as [|t l IH]; [done|]. destruct l as [|u l].
  - simpl. by rewrite app_nil_r.
  - change (tjoin sep (t :: u :: l)) with (t ++ sep ++ tjoin sep (u :: l)).
    rewrite !letters_app, Hs, IH. simpl. by rewrite !letters_app.
Qed.

Lemma letters_collapse fuel t : letters (collapse is_space fuel 1 [32] t) = letters t.
Proof.
  revert t. induction fuel as [|fuel IH]; intros t; [by destruct t|].
  destruct t as [|c t]; [done|]. cbn [collapse].
  pose proof (span_app is_space (c :: t)) as Hs. pose proof (span_run is_space (c :: t)) as Hr.
  destruct (span is_space (c :: t)) as [run rest]. cbn [fst snd] in *.
  case_match.
  - rewrite Hs, !letters_app, IH, (letters_spaces run) by done. done.
  - by rewrite (letters_cons c (collapse _ _ _ _ _)), IH, <-letters_cons.
Qed.

Lemma letters_tighten x t : letters (tighten x t) = letters t.
Proof.
  induction t as [|t IH|c t IH Hn] using (pair_cases x); [done| |].
  - by rewrite tighten_pair, (letters_cons 32), (letters_cons x t), (letters_cons x (tighten x t)), IH.
  - by rewrite tighten_cons, (letters_cons c (tighten x t)), IH, <-letters_cons by done.
Qed.

Section paragraphs.
Context (U : unicode).

Lemma tends_hyphen t : tends (lit "-") t = true → t = take (length t - 1) t ++ [45].
Proof.
  unfold tends. change (reverse (lit "-")) with [45].
  destruct t as [|c t _] using rev_ind; [by rewrite reverse_nil|]. rewrite reverse_snoc.
  cbn [tstarts].
  destruct (Z.eqb_spec 45 c) as [<-|]; [|done]. intros _.
  rewrite length_app, Nat.add_sub, take_app_length. done.
Qed.

Lemma letters_hyphen t : tends (lit "-") t = true → letters t = letters (take (length t - 1) t).
Proof.
  intros Ht. rewrite (tends_hyphen t Ht) at 1. rewrite letters_app. apply app_nil_r.
Qed.

Lemma paragraph_step_letters st line :
  let '(ps, b) := paragraph_step U st line in
  letters (concat ps ++ b) = letters (concat st.1 ++ st.2) ++ letters line.
Proof.
  destruct st as [ps b]. unfold paragraph_step. cbn [fst snd].
  case_bool_decide as Hl; subst.
  { change (letters []) with (@nil Z).
    case_bool_decide as Hb; subst; rewrite ?concat_app; simpl; by rewrite !app_nil_r. }
  case_bool_decide as Hb; subst; [by rewrite app_nil_r, letters_app|].
  destruct (tends (lit "-") b) eqn:Hh; cbn [andb].
  - destruct (match line with c :: _ => _ | [] => _ end);
      [|by rewrite !letters_app, <-!app_assoc].
    by rewrite !letters_app, (letters_hyphen b Hh), <-!app_assoc.
  - by rewrite !letters_app, <-!app_assoc.
Qed.

Lemma paragraphs_letters lines : letters (concat (paragraphs_of U lines)) = letters (concat lines).
Proof.
  unfold paragraphs_of.
  assert (∀ st, let '(ps, b) := foldl (paragraph_step U) st lines in
    letters (concat ps ++ b) = letters (concat st.1 ++ st.2) ++ letters (concat lines)) as H.
  { induction lines as [|line lines IH]; intros st.
    - destruct st. by rewrite app_nil_r.
    - cbn [foldl concat]. specialize (IH (paragraph_step U st line)).
      pose proof (paragraph_step_letters st line) as Hs.
      destruct (paragraph_step U st line) as [ps b]. destruct (foldl _ _ _).
      rewrite IH. cbn [fst snd]. by rewrite Hs, (letters_app line), app_assoc. }
  specialize (H ([], [])). destruct (foldl _ _ _) as [ps b]. simpl in H.
  case_bool_decide; subst; [by rewrite app_nil_r in H|].
  by rewrite concat_app, <-H; simpl; rewrite app_nil_r.
Qed.
End paragraphs.

(** C29: what normalize_block returns for any text is one line with no white
    space at its ends, single spaces between words and none in front of a full
    stop, a comma, a semicolon or a colon; and apart from white space and hyphens
    its characters are those of the lines that are kept, in their order. *)
Theorem normalize_block_normal U t :
  normal (normalize_block U t) ∧ letters (normalize_block U t) = letters (concat (cleaned U t)).
Proof.
  split; [apply normalize_block_is_normal|].
  unfold normalize_block. cbn [foldl].
  change (treplace (lit " .") (lit ".")) with (tighten 46).
  change (treplace (lit " ,") (lit ",")) with (tighten 44).
  change (treplace (lit " ;") (lit ";")) with (tighten 59).
  change (treplace (lit " :") (lit ":")) with (tighten 58).
  rewrite !letters_tighten. unfold squeeze_spaces, plus, space.
  rewrite letters_tstrip, re_sub_runs, letters_collapse by lia.
  by rewrite letters_tjoin, paragraphs_letters.
Qed.

(** ** Sections *)

Module Sectionize.
Import SectionizeMarkdown.

Section sectionize_facts.
Context (U : unicode).

Definition is_page (l : text) : Prop := is_Some (re_match U (PAGE_RE U) l).
#[export] Instance is_page_dec l : Decision (is_page l).
Proof. unfold is_page. apply _. Defined.

Lemma split_body h b ls :
  foldl (split_step U) (h, b, true) ls = (h, b ++ filter (λ l, ¬ is_page l) ls, true).
Proof.
  revert b. induction ls as [|l ls IH]; intros b; cbn [foldl split_step]; [by rewrite app_nil_r|].
  destruct (re_match U (PAGE_RE U) l) eqn:E.
  - rewrite IH, filter_cons_False; [done|]. intros Hn. apply Hn. by eexists.
  - rewrite IH, filter_cons_True, <-app_assoc; [done|]. intros [? H]. by rewrite E in H.
Qed.

Lemma split_header h b ls :
  Forall (λ l, ¬ is_page l) ls → foldl (split_step U) (h, b, false) ls = (h ++ ls, b, false).
Proof.
  intros Hls. revert h. induction Hls as [|l ls Hl _ IH]; intros h; cbn [foldl split_step].
  - by rewrite app_nil_r.
  - destruct (re_match U (PAGE_RE U) l) eqn:E; [destruct Hl; by eexists|]. by rewrite IH, <-app_assoc.
Qed.

(** The lines up to the first page, and the others without the page headings *)
Lemma split_pages_at ls l ls' :
  Forall (λ l, ¬ is_page l) ls → is_page l →
  split_pages U (ls ++ l :: ls') = (ls, filter (λ l, ¬ is_page l) ls', true).
Proof.
  intros Hls [st Hl]. unfold split_pages. rewrite foldl_app, split_header by done.
  cbn [foldl split_step]. by rewrite Hl, split_body.
Qed.

Lemma split_pages_none ls :
  Forall (λ l, ¬ is_page l) ls → split_pages U ls = (ls, [], false).
Proof. apply split_header. Qed.

(** No blank lines in a row, no white space at the ends *)
Definition tidy (t : text) : Prop :=
  no_three t ∧ (∀ c, head t = Some c → is_space c = false) ∧ ∀ c, last t = Some c → is_space c = false.

Lemma squeeze_tidy t : tidy (tstrip (squeeze_lines U t)).
Proof.
  split_and!; [|intros c; apply tstrip_head|intros c; apply tstrip_last].
  unfold squeeze_lines, char. rewrite re_sub_runs by lia.
  destruct (collapse_no_three (S (length t)) t) as [H _]; [lia|].
  destruct (tstrip_part (collapse (Z.eqb 10) (S (length t)) 3 [10; 10] t)) as (l & r & E & _).
  unfold blank. rewrite E in H. by apply no_three_part in H.
Qed.

(** ASCII is all the sectionizer adds. *)
Lemma replacements_ascii : Forall (λ x, Forall (λ c, 0 ≤ c < 128) x.1.2) REPLACEMENTS.
Proof.
  assert (forallb (λ x, forallb (λ c, (0 <=? c) && (c <? 128)) x.1.2) REPLACEMENTS = true) as H
    by (by vm_compute).
  rewrite forallb_forall in H. apply Forall_forall. intros x Hx%list_elem_of_In%H.
  rewrite forallb_forall in Hx. apply Forall_forall. intros c Hc%list_elem_of_In%Hx. lia.
Qed.

Lemma replace_all_Forall (P : Z → Prop) t :
  (∀ c, 0 ≤ c < 128 → P c) → Forall P t → Forall P (replace_all U t).
Proof.
  intros HP. unfold replace_all. pose proof replacements_ascii as Hr. revert t.
  induction Hr as [|[[r repl] n] l Hrepl _ IH]; intros t Ht; [done|]. cbn [foldl]. apply IH.
  apply re_sub_Forall; [|done]. intros _ _. by eapply Forall_impl.
Qed.

Lemma sectionize_body_Forall (P : Z → Prop) t :
  (∀ c, 0 ≤ c < 128 → P c) → Forall P t → Forall P (sectionize_body U t).
Proof.
  intros HP Ht. assert (Forall P blank) as Hb by (repeat constructor; apply HP; lia).
  unfold sectionize_body. cbv zeta. apply tstrip_Forall.
  unfold squeeze_lines, drop_pages, detach_headings.
  apply re_sub_Forall; [done|]. apply re_sub_Forall; [done|].
  apply re_sub_Forall; [intros st ?%(group_over P 1); by apply Forall_app|].
  apply replace_all_Forall; [done|]. apply tstrip_Forall. by apply re_sub_Forall.
Qed.

Lemma split_pages_Forall (P : Z → Prop) ls :
  Forall (Forall P) ls →
  Forall (Forall P) (split_pages U ls).1.1 ∧ Forall (Forall P) (split_pages U ls).1.2.
Proof.
  unfold split_pages. assert (∀ h b i, Forall (Forall P) h → Forall (Forall P) b → Forall (Forall P) ls →
    let '(h', b', _) := foldl (split_step U) (h, b, i) ls in
    Forall (Forall P) h' ∧ Forall (Forall P) b') as H.
  { induction ls as [|l ls IH]; intros h b i Hh Hb Hls; [done|]. inversion_clear Hls.
    cbn [foldl split_step]. destruct (re_match _ _ l); [by apply IH|].
    destruct i; apply IH; auto; apply Forall_app; auto. }
  intros Hls. specialize (H [] [] false (Forall_nil_2 _) (Forall_nil_2 _) Hls).
  by destruct (foldl _ _ _) as [[??]?].
Qed.

Lemma sectionize_Forall (P : Z → Prop) t :
  (∀ c, 0 ≤ c < 128 → P c) → Forall P t → Forall P (sectionize_markdown U t).
Proof.
  intros HP Ht. assert (P 10) as H10 by (apply HP; lia).
  unfold sectionize_markdown. destruct (split_pages U (splitlines t)) as [[header body] b] eqn:E.
  destruct (split_pages_Forall P (splitlines t)) as [Hh Hb]; [by apply splitlines_Forall|].
  rewrite E in Hh, Hb. assert (Forall P (tjoin [10] header)) as Hj by (apply tjoin_Forall; auto).
  destruct (trstrip_prefix (tjoin [10] header)) as (u & Hu & _). rewrite Hu in Hj.
  apply Forall_app in Hj as [Hj _]. rewrite !Forall_app. split_and!; [done|by repeat constructor| |by constructor].
  apply sectionize_body_Forall; [done|]. apply tjoin_Forall; auto.
Qed.

Lemma times_set p t b r g :
  Forall (λ c, p c = true) t →
  times (matches U (Set_ p)) (length t) (State b (t ++ r) g) (State (reverse t ++ b) r g).
Proof.
  intros Ht. revert b. induction Ht as [|c t Hc _ IH]; intros b; [done|]. cbn [length times].
  exists (State (c :: b) (t ++ r) g). split; [by exists c, (t ++ r)|].
  rewrite reverse_cons, <-app_assoc. apply IH.
Qed.

(** A page heading is one for the sectionizer. *)
Lemma page_heading t :
  t ≠ [] → Forall (λ c, is_ascii_digit c = true) t → is_page (lit "## Page " ++ t).
Proof.
  intros Hne Ht. unfold is_page, re_match, match_at.
  eapply (match_re_complete _ _ _ (State (reverse t ++ reverse (lit "## Page ")) [] [])); [done| |done].
  exists (State [] (lit "## Page " ++ t) []). split; [done|].
  exists (State (reverse (lit "## Page ")) t []). split; [by exists t|].
  exists (State (reverse t ++ reverse (lit "## Page ")) [] []). split; [|done].
  exists (length t). split_and!; [destruct t; [done|simpl; lia]|done|].
  rewrite <-(app_nil_r t) at 2. apply times_set. eapply Forall_impl; [done|]. intros c Hc.
  unfold is_decimal, decimal. pose proof Hc as Hr. unfold is_ascii_digit in Hr.
  rewrite (proj2 (Z.ltb_lt c 128)) by lia. by rewrite Hc.
Qed.

Lemma split_pages_paged ls : (split_pages U ls).2 = false → (split_pages U ls).1.2 = [].
Proof.
  unfold split_pages. assert (∀ h, (foldl (split_step U) (h, [], false) ls).2 = false →
    (foldl (split_step U) (h, [], false) ls).1.2 = []) as H; [|apply H].
  induction ls as [|l ls IH]; intros h; [done|]. cbn [foldl split_step].
  destruct (re_match _ _ l); [|apply IH]. by rewrite split_body.
Qed.

Lemma unpaged ls :
  (split_pages U ls).2 = false → Forall (λ l, ¬ is_page l) ls ∧ (split_pages U ls).1.1 = ls.
Proof.
  unfold split_pages. assert (∀ h, (foldl (split_step U) (h, [], false) ls).2 = false →
    Forall (λ l, ¬ is_page l) ls ∧ (foldl (split_step U) (h, [], false) ls).1.1 = h ++ ls) as H;
    [|apply (H [])].
  induction ls as [|l ls IH]; intros h; cbn [foldl split_step]; [by rewrite app_nil_r|].
  destruct (re_match _ _ l) eqn:E; [by rewrite split_body|].
  intros Hf. destruct (IH _ Hf) as [H1 ->]. split; [|by rewrite <-app_assoc].
  constructor; [|done]. intros [? H]. by rewrite E in H.
Qed.

(** C31: what sectionize_markdown returns is the header, an empty line, and a body
    without runs of empty lines and without white space at its ends, followed by
    one line feed.  A text without page headings is all header and has an empty
    body: nothing in it becomes a section. *)
Theorem sectionize_shape t :
  let '(header, body, paged) := split_pages U (splitlines t) in
  ∃ b, sectionize_markdown U t = trstrip (tjoin [10] header) ++ blank ++ b ++ [10] ∧
    tidy b ∧ (paged = false → b = [] ∧ Forall (λ l, ¬ is_page l) (splitlines t) ∧ header = splitlines t).
Proof.
  unfold sectionize_markdown. pose proof (split_pages_paged (splitlines t)) as Hp.
  pose proof (unpaged (splitlines t)) as Hu.
  destruct (split_pages U (splitlines t)) as [[header body] paged]. cbn [fst snd] in *.
  exists (sectionize_body U (tjoin [10] body)). split_and!; [done|apply squeeze_tidy|].
  intros Hf. rewrite (Hp Hf). by destruct (Hu Hf) as [? ->].
Qed.
End sectionize_facts.
End Sectionize.
