(* ===== verification/PaperPipeline.v ===== *)
(** * From the PDF to a verified paper

    The three paper-text programs in the order of their README: what the
    extractor writes the sectionizer reads back page by page, and the verifier
    accepts the papers with the required headings in which no numbered heading is
    smaller than the one just before it in its chapter. *)

From Stdlib Require Import Ascii.
From S2P Require Import Prelude PyFloat PyVal PyPath Json JsonOut World Files JsonRound PyRe Utf8 PyReSpec.
From S2P Require Import Fixtures SectionizeMarkdown VerifyPaperText ExtractPaperText PaperTextSpec.
Import ExtractPaperText.

Local Open Scope Z_scope.

(** ** The text of the pages *)

Lemma line_end_space c : is_line_end c = true → is_space c = true ∧ c ≠ 32.
Proof. unfold is_line_end, is_space. lia. Qed.

(** A line: no line end in it, no white space at its end *)
Definition clean (l : text) : Prop :=
  no_line_end l ∧ ∀ c, last l = Some c → is_space c = false.

Lemma normal_clean t : normal t → clean t.
Proof.
  intros (Hs & _ & _ & Hl). split.
  - eapply Forall_impl; [exact Hs|]. intros c Hc. destruct (is_line_end c) eqn:E; [|done].
    apply line_end_space in E as [E Hn]. by destruct Hn; apply Hc.
  - intros c Hc. destruct (is_space c) eqn:E; [|done]. destruct Hl. rewrite Hc. f_equal.
    apply last_Some in Hc as [t' ->]. apply Forall_app in Hs as [_ Hs]. inversion_clear Hs. auto.
Qed.

Lemma tsplit_line l t : no_line_end l → tsplit 10 (l ++ 10 :: t) = l :: tsplit 10 t.
Proof.
  induction 1 as [|c l Hc _ IH]; [done|]. simpl app. cbn [tsplit]. rewrite IH.
  destruct (Z.eqb_spec c 10) as [->|]; done.
Qed.

Lemma tsplit_last l : no_line_end l → tsplit 10 l = [l].
Proof.
  induction 1 as [|c l Hc _ IH]; [done|]. cbn [tsplit]. rewrite IH.
  destruct (Z.eqb_spec c 10) as [->|]; done.
Qed.

Lemma tsplit_nonempty c t : tsplit c t ≠ [].
Proof. destruct t; simpl; [done|]. case_match; [done|]. by case_match. Qed.

Lemma tjoin_app l1 l2 :
  l1 ≠ [] → l2 ≠ [] → tjoin [10] (l1 ++ l2) = tjoin [10] l1 ++ [10] ++ tjoin [10] l2.
Proof.
  intros H1 H2. induction l1 as [|t l1 IH]; [done|]. destruct l1 as [|u l1].
  - simpl. by destruct l2.
  - change (tjoin [10] ((t :: u :: l1) ++ l2)) with (t ++ [10] ++ tjoin [10] ((u :: l1) ++ l2)).
    rewrite IH by done. change (tjoin [10] (t :: u :: l1)) with (t ++ [10] ++ tjoin [10] (u :: l1)).
    by rewrite <-!app_assoc.
Qed.

Lemma tjoin_tsplit t : tjoin [10] (tsplit 10 t) = t.
Proof.
  induction t as [|c t IH]; [done|]. cbn [tsplit]. pose proof (tsplit_nonempty 10 t).
  destruct (Z.eqb_spec c 10) as [->|Hc].
  - destruct (tsplit 10 t); [done|]. by rewrite <-IH.
  - destruct (tsplit 10 t) as [|l ls]; [done|]. rewrite <-IH. by destruct ls.
Qed.

(** Joining lines that hold line feeds joins their lines. *)
Lemma tjoin_lines ls : tjoin [10] (concat (map (tsplit 10) ls)) = tjoin [10] ls.
Proof.
  induction ls as [|l ls IH]; [done|]. destruct ls as [|l' ls].
  - simpl. by rewrite app_nil_r, tjoin_tsplit.
  - cbn [map concat] in *. rewrite tjoin_app, IH, tjoin_tsplit; [done| |].
    + apply tsplit_nonempty.
    + intros [? _]%app_eq_nil. by eapply tsplit_nonempty.
Qed.

Lemma tsplit_blocks ts :
  Forall normal ts → Forall clean (tsplit 10 (tjoin [10; 10] ts)).
Proof.
  assert (clean []) as Hnil by (split; [constructor|done]).
  induction 1 as [|t ts Ht Hts IH]; [by constructor|]. apply normal_clean in Ht.
  destruct ts as [|u ts].
  - cbn [tjoin]. rewrite tsplit_last by apply Ht. by constructor.
  - change (tjoin [10; 10] (t :: u :: ts)) with (t ++ 10 :: 10 :: tjoin [10; 10] (u :: ts)).
    rewrite tsplit_line by apply Ht. constructor; [done|]. by constructor.
Qed.

(** ** Characters that can be written *)

Lemma decode_replace_scalar s : Forall scalar (decode_replace s).
Proof.
  assert (scalar replacement) as Hrep by (unfold scalar, replacement; lia).
  assert (∀ n s, (String.length s ≤ n)%nat → Forall scalar (decode_replace s)) as H; [|by eapply H].
  clear s. induction n as [|n IH]; intros s Hn; [destruct s; [done|simpl in Hn; lia]|].
  destruct s as [|a r]; [done|]. simpl in Hn. cbn [decode_replace].
  pose proof (code_range a) as Ha.
  destruct (Z.ltb_spec (code a) 128); [constructor; [split; lia|apply IH; lia]|].
  destruct ((194 <=? code a) && (code a <=? 244)) eqn:Hl; cbn [negb];
    [|constructor; [done|apply IH; lia]].
  destruct r as [|b r1]; [by apply Forall_singleton|]. simpl in Hn. pose proof (code_range b) as Hb.
  destruct (in_range _ _ b) eqn:Hr; cbn [negb]; [|constructor; [done|apply IH; simpl; lia]].
  unfold in_range in Hr.
  destruct (Z.ltb_spec (code a) 224);
    [constructor; [|apply IH; lia]; unfold scalar; repeat case_match; lia|].
  destruct r1 as [|c r2]; [by apply Forall_singleton|]. simpl in Hn.
  destruct (is_continuation c) eqn:Hc; cbn [negb]; [|constructor; [done|apply IH; simpl; lia]].
  apply is_continuation_range in Hc.
  destruct (Z.ltb_spec (code a) 240);
    [constructor; [|apply IH; lia]; unfold scalar;
     destruct (Z.eqb_spec (code a) 224), (Z.eqb_spec (code a) 237); repeat case_match; lia|].
  destruct r2 as [|d r3]; [by apply Forall_singleton|]. simpl in Hn.
  destruct (is_continuation d) eqn:Hd; cbn [negb]; [|constructor; [done|apply IH; simpl; lia]].
  apply is_continuation_range in Hd. constructor; [|apply IH; lia]. unfold scalar.
  destruct (Z.eqb_spec (code a) 240), (Z.eqb_spec (code a) 244); repeat case_match; lia.
Qed.

Section kept.
Context (U : unicode) (P : Z → Prop) (HP : ∀ c, 0 ≤ c < 128 → P c).

Ltac ascii_text :=
  repeat (apply Forall_cons_2; [apply HP; vm_compute; split; congruence|]); apply Forall_nil_2.

Lemma text_newlines_Forall t : Forall P t → Forall P (text_newlines t).
Proof.
  assert (∀ n t, (length t ≤ n)%nat → Forall P t → Forall P (text_newlines t)) as H; [|by eapply H].
  clear t. induction n as [|n IH]; intros t Hn Ht; [destruct t; [done|simpl in Hn; lia]|].
  destruct Ht as [|c t Hc Ht]; [done|]. simpl in Hn. cbn [text_newlines].
  case_match; (constructor; [by (apply HP; lia) || done|]).
  - destruct Ht as [|d t Hd Ht]; [done|]. simpl in Hn. case_match; apply IH; auto; simpl; lia.
  - apply IH; [lia|done].
Qed.

Lemma paragraph_step_Forall st line :
  Forall (Forall P) st.1 → Forall P st.2 → Forall P line →
  Forall (Forall P) (paragraph_step U st line).1 ∧ Forall P (paragraph_step U st line).2.
Proof.
  destruct st as [ps b]. intros Hps Hb Hl. unfold paragraph_step. cbn [fst snd] in *.
  repeat case_match; cbn [fst snd]; rewrite ?Forall_app, ?Forall_singleton; split_and?;
    auto using Forall_take; ascii_text.
Qed.

Lemma paragraphs_Forall lines : Forall (Forall P) lines → Forall (Forall P) (paragraphs_of U lines).
Proof.
  intros Hl. unfold paragraphs_of.
  assert (∀ st, Forall (Forall P) st.1 → Forall P st.2 →
    Forall (Forall P) (foldl (paragraph_step U) st lines).1 ∧
    Forall P (foldl (paragraph_step U) st lines).2) as H.
  { induction Hl as [|l lines Hl _ IH]; intros st H1 H2; [done|]. cbn [foldl].
    destruct (paragraph_step_Forall st l H1 H2 Hl). by apply IH. }
  destruct (H ([], [])) as [H1 H2]; [done..|]. destruct (foldl _ _ _) as [ps b].
  case_bool_decide; [done|]. apply Forall_app. split; [done|]. by constructor.
Qed.

Lemma cleaned_Forall t : Forall P t → Forall (Forall P) (cleaned U t).
Proof.
  intros Ht. unfold cleaned. apply Forall_concat, Forall_map.
  eapply Forall_impl; [apply (tsplit_Forall P)|].
  - apply treplace_Forall; [ascii_text|].
    apply treplace_Forall; [by repeat constructor; apply HP; lia|done].
  - intros l Hl. cbn. unfold clean_line. case_bool_decide; [by repeat constructor|].
    case_match; repeat constructor. by apply tstrip_Forall.
Qed.

Lemma normalize_block_Forall t : Forall P t → Forall P (normalize_block U t).
Proof.
  intros Ht. unfold normalize_block. cbn [foldl].
  do 4 (apply treplace_Forall; [ascii_text|]).
  unfold squeeze_spaces. apply tstrip_Forall, re_sub_Forall.
  { intros _ _. ascii_text. }
  apply tjoin_Forall; [ascii_text|].
  by apply paragraphs_Forall, cleaned_Forall.
Qed.

Lemma from_marker_Forall ms t : Forall P t → Forall P (from_marker ms t).
Proof.
  intros Ht. induction ms as [|m ms IH]; [done|]. cbn [from_marker].
  case_match; [by apply Forall_drop|done].
Qed.
End kept.

Section pages.
Context (U : unicode) (T : programs).

(** A page is made of normalized blocks. *)
Lemma extract_page_blocks pdf n mode w t w' :
  extract_page_text U T pdf n mode w = (Ok t, w') → ∃ ts, Forall normal ts ∧ t = tjoin [10; 10] ts.
Proof.
  unfold extract_page_text. intros ([width height] & w1 & _ & H)%io_bind_Ok.
  case_bool_decide.
  - apply io_bind_Ok in H as (l & w2 & _ & H). apply io_bind_Ok in H as (r & w3 & _ & H).
    destruct (if n =? 1 then _ else _) as [l' r']. injection H as <- <-.
    eexists. split; [|done]. apply Forall_forall. intros c [_ Hc]%list_elem_of_filter.
    rewrite !elem_of_cons, elem_of_nil in Hc.
    destruct Hc as [->|[->|[]]]; apply normalize_block_is_normal.
  - apply io_bind_Ok in H as (p & w2 & _ & H). injection H as <- <-.
    exists [normalize_block U p]. split; [|done]. constructor; [apply normalize_block_is_normal|done].
Qed.

(** Nothing of the extraction changes the files. *)
Definition unchanged (w w' : world) : Prop := w' = w.

Lemma unchanged_bind {A B} (m : io A) (f : A → io B) :
  preserves unchanged m → (∀ a, preserves unchanged (f a)) → preserves unchanged (m ≫= f).
Proof.
  intros Hm Hf w. specialize (Hm w). unfold mbind, io_bind.
  destruct (m w) as [[a|e] w1]; cbn in Hm |- *; [rewrite Hm; apply Hf|done].
Qed.

Ltac unchanged_tac :=
  repeat match goal with
  | |- preserves _ (mbind _ _) => apply unchanged_bind; [|intros ?]
  | |- preserves _ (let '(_, _) := ?x in _) => destruct x
  | |- preserves _ (match ?x with _ => _ end) => destruct x
  | |- preserves _ _ => solve [auto | done]
  end.

Lemma extract_crop_keeps pdf n x y wd h : preserves unchanged (extract_crop T pdf n x y wd h).
Proof. intros w. unfold extract_crop, mbind, io_bind. by case_match. Qed.

Lemma pdfinfo_output_keeps pdf : preserves unchanged (pdfinfo_output T pdf).
Proof.
  intros w. unfold pdfinfo_output, mbind, io_bind. case_match; [|done].
  unfold pure_. by destruct (decode_text _).
Qed.

Lemma page_dimensions_keeps pdf n : preserves unchanged (page_dimensions U T pdf n).
Proof. unfold page_dimensions. pose proof (pdfinfo_output_keeps pdf). unchanged_tac. Qed.

Lemma total_pages_keeps pdf : preserves unchanged (total_pages U T pdf).
Proof. unfold total_pages. pose proof (pdfinfo_output_keeps pdf). unchanged_tac. Qed.

Lemma extract_page_keeps pdf n mode : preserves unchanged (extract_page_text U T pdf n mode).
Proof.
  unfold extract_page_text. pose proof (page_dimensions_keeps pdf n). pose proof extract_crop_keeps.
  unchanged_tac.
Qed.

Lemma run_same {A} (m : io A) w r w' : preserves unchanged m → m w = (r, w') → w' = w.
Proof. intros Hm H. specialize (Hm w). by rewrite H in Hm. Qed.

(** Every character of a page can be written. *)
Lemma extract_crop_scalar pdf n x y wd h w t w' :
  extract_crop T pdf n x y wd h w = (Ok t, w') → Forall scalar t.
Proof.
  unfold extract_crop. intros (b & w1 & _ & [= <- <-])%io_bind_Ok.
  apply text_newlines_Forall; [unfold scalar; lia|]. apply decode_replace_scalar.
Qed.

Lemma extract_page_scalar pdf n mode w t w' :
  extract_page_text U T pdf n mode w = (Ok t, w') → Forall scalar t.
Proof.
  assert (∀ c, 0 ≤ c < 128 → scalar c) as HP by (unfold scalar; lia).
  unfold extract_page_text. intros ([width height] & w1 & _ & H)%io_bind_Ok.
  case_bool_decide.
  - apply io_bind_Ok in H as (l & w2 & Hl%extract_crop_scalar & H).
    apply io_bind_Ok in H as (r & w3 & Hr%extract_crop_scalar & H).
    destruct (if n =? 1 then _ else _) as [l' r'] eqn:E. injection H as <- <-.
    assert (Forall scalar l' ∧ Forall scalar r') as [Hl' Hr'].
    { destruct (n =? 1); simplify_eq; auto using from_marker_Forall. }
    apply tjoin_Forall; [repeat constructor; lia|]. apply Forall_forall.
    intros c [_ Hc]%list_elem_of_filter. rewrite !elem_of_cons, elem_of_nil in Hc.
    destruct Hc as [->|[->|[]]]; by apply normalize_block_Forall.
  - apply io_bind_Ok in H as (p & w2 & Hp%extract_crop_scalar & H). injection H as <- <-.
    by apply normalize_block_Forall.
Qed.

(** ** The Markdown *)

Definition page_block (n : Z) (t : text) : list text :=
  [lit "## Page " ++ lit (pretty n); []; t; []].

Lemma build_markdown_Ok pdf title mode w md w' :
  build_markdown U T pdf title mode w = (Ok md, w') →
  w' = w ∧ ∃ n pages,
    total_pages U T pdf w = (Ok n, w) ∧
    Forall2 (λ i t, extract_page_text U T pdf i mode w = (Ok t, w)) (page_range n) pages ∧
    md = trstrip (tjoin [10] (front_lines pdf title mode
           ++ concat (zip_with page_block (page_range n) pages))) ++ [10].
Proof.
  unfold build_markdown. intros (n & w1 & Hn & H)%io_bind_Ok.
  assert (w1 = w) as -> by (eapply run_same, Hn; apply total_pages_keeps).
  apply io_bind_Ok in H as (ls & w2 & Hf & H). injection H as <- <-.
  assert (∀ l acc, foldM (λ lines page_num, more ← page_lines U T pdf mode page_num; mret (lines ++ more))
      acc l w = (Ok ls, w2) →
    w2 = w ∧ ∃ pages, Forall2 (λ i t, extract_page_text U T pdf i mode w = (Ok t, w)) l pages ∧
      ls = acc ++ concat (zip_with page_block l pages)) as Hgen.
  { clear Hf. induction l as [|i l IH]; intros acc Hf; cbn [foldM] in Hf.
    - injection Hf as <- <-. split; [done|]. exists []. by rewrite app_nil_r.
    - apply io_bind_Ok in Hf as (acc' & w3 & H & Hf). apply io_bind_Ok in H as (more & w4 & Hm & H).
      injection H as <- <-. unfold page_lines in Hm. apply io_bind_Ok in Hm as (t & w5 & Ht & Hm).
      injection Hm as <- <-.
      assert (w5 = w) as -> by (eapply run_same, Ht; apply extract_page_keeps).
      apply IH in Hf as (-> & pages & Hp & ->). split; [done|]. exists (t :: pages).
      split; [by constructor|]. simpl. by rewrite <-app_assoc. }
  apply Hgen in Hf as (-> & pages & Hp & ->). split; [done|]. by exists n, pages.
Qed.
End pages.

(** ** The sectionizer on the Markdown of the extractor *)

Section sections.
Context (U : unicode).
Import SectionizeMarkdown Sectionize.

(** The lines the pages are written as *)
Definition page_lines_of (ns : list Z) (pages : list text) : list text :=
  concat (zip_with (λ n t, [lit "## Page " ++ lit (pretty n); []] ++ tsplit 10 t ++ [[]]) ns pages).

(** The body the sectionizer works on: these lines without the page headings *)
Definition page_body (ns : list Z) (pages : list text) : text :=
  tjoin [10] (filter (λ l, ¬ is_page U l) (trim_end (page_lines_of ns pages))).

Lemma digits_text s :
  str_all is_digit s = true → Forall (λ c, is_ascii_digit c = true) (code_points s).
Proof.
  induction s as [|c s IH]; [constructor|]. cbn [str_all]. intros [Hc Hs]%andb_true_iff.
  assert (is_ascii_digit (code c) = true) as Hd.
  { revert Hc. unfold is_digit, digit_val, is_ascii_digit, code. by destruct (_ && _). }
  cbn [code_points]. pose proof Hd as Hr. unfold is_ascii_digit in Hr.
  rewrite (proj2 (Z.ltb_lt _ _)) by lia. constructor; auto.
Qed.

Lemma page_number_text n :
  0 ≤ n → lit (pretty n) ≠ [] ∧ Forall (λ c, is_ascii_digit c = true) (lit (pretty n)).
Proof.
  intros Hn. assert (pretty n = pretty (Z.to_N n)) as -> by (by destruct n as [|p|p]; [..|lia]).
  destruct (pretty_N_digits (Z.to_N n)) as (Hd & _ & Hne).
  split; [|by apply digits_text]. unfold lit. intros E. destruct (pretty (Z.to_N n)) as [|c s]; [done|].
  apply digits_text in Hd. cbn [code_points] in *. cbn [str_all] in *. repeat case_match; done.
Qed.

Lemma digit_clean t : Forall (λ c, is_ascii_digit c = true) t → clean t.
Proof.
  intros Ht. split.
  - eapply Forall_impl; [done|]. intros c. unfold is_ascii_digit, is_line_end. lia.
  - intros c Hc. apply last_Some in Hc as [t' ->]. apply Forall_app in Ht as [_ Ht].
    inversion_clear Ht as [|?? Hc _]. revert Hc. unfold is_ascii_digit, is_space. lia.
Qed.

Lemma page_heading_clean n : 0 ≤ n → clean (lit "## Page " ++ lit (pretty n)).
Proof.
  intros (Hne & Hd%digit_clean)%page_number_text. split.
  - apply Forall_app. split; [repeat constructor|apply Hd].
  - intros c. rewrite last_app. destruct (last (lit (pretty n))) eqn:E; [|by apply last_None in E].
    intros [= <-]. by apply Hd.
Qed.

Lemma clean_nil : clean [].
Proof. split; [constructor|done]. Qed.

Lemma page_lines_clean ns pages :
  Forall (λ n, 0 ≤ n) ns → Forall (λ t, Forall clean (tsplit 10 t)) pages →
  Forall clean (page_lines_of ns pages).
Proof.
  intros Hns. unfold page_lines_of. revert pages.
  induction Hns as [|n ns Hn _ IH]; intros pages Hp; [constructor|].
  destruct Hp as [|t pages Ht Hp]; [constructor|]. cbn [zip_with concat].
  apply Forall_app. split; [|by apply IH].
  pose proof clean_nil. pose proof (page_heading_clean n Hn).
  rewrite !Forall_app, !Forall_cons. split_and!; auto using Forall_nil_2.
Qed.

(** The lines of the pages, each block split at its line feeds *)
Lemma page_blocks_lines ns pages :
  Forall (λ n, 0 ≤ n) ns →
  concat (map (tsplit 10) (concat (zip_with page_block ns pages))) = page_lines_of ns pages.
Proof.
  intros Hns. unfold page_lines_of. revert pages.
  induction Hns as [|n ns Hn _ IH]; intros pages; [done|].
  destruct pages as [|t pages]; [done|]. cbn [zip_with concat].
  rewrite map_app, concat_app, IH. f_equal. unfold page_block. cbn [map concat].
  rewrite (tsplit_last (_ ++ _)) by apply (page_heading_clean n Hn). simpl. done.
Qed.

Lemma no_line_end_check t : forallb (λ c, negb (is_line_end c)) t = true → no_line_end t.
Proof.
  rewrite forallb_forall. intros H. apply Forall_forall. intros c Hc%list_elem_of_In%H.
  by apply negb_true_iff.
Qed.

Lemma trim_end_front a b : b ≠ [] → trim_end [a; []; b; []] = [a; []; b].
Proof. intros Hb. cbn [trim_end]. by rewrite bool_decide_eq_true_2, bool_decide_eq_false_2. Qed.

Section front.
Context (pdf : path) (title : option string) (mode : string).
Context (Hmode : mode ∈ ["one"; "two"]) (Hhead : no_line_end (code_points (heading_of pdf title))).

Lemma front_no_page : Forall (λ l, ¬ is_page U l) (front_lines pdf title mode).
Proof.
  unfold front_lines, is_page. rewrite !Forall_cons. split_and!; try by intros [? ?].
  by apply Forall_nil_2.
Qed.

Lemma front_no_line_end : Forall no_line_end (front_lines pdf title mode).
Proof.
  rewrite !elem_of_cons, elem_of_nil in Hmode. unfold front_lines.
  apply Forall_cons_2; [|apply Forall_cons_2; [|apply Forall_cons_2; [|apply Forall_cons_2; [|apply Forall_nil_2]]]].
  - apply Forall_app. split; [by apply no_line_end_check|done].
  - by apply no_line_end_check.
  - by apply no_line_end_check; destruct Hmode as [->|[->|[]]]; vm_compute.
  - by apply no_line_end_check.
Qed.

Lemma front_stripped :
  trstrip (tjoin [10] (front_lines pdf title mode)) = tjoin [10] (take 3 (front_lines pdf title mode)).
Proof.
  unfold front_lines. set (a := lit "# " ++ _).
  set (b := lit "> Extracted from `paper.pdf` with " ++ _).
  assert (b ≠ []) as Hb by done.
  rewrite (trstrip_tjoin _ b); rewrite ?trim_end_front by done; [done|done|].
  intros c. unfold b. rewrite app_assoc, last_app.
  set (o := last (lit "-column-aware `pdftotext` processing. Raw KB-searchable text; minor PDF artifacts may remain.")).
  vm_compute in o. by intros [= <-].
Qed.

Lemma front_split : concat (map (tsplit 10) (front_lines pdf title mode)) = front_lines pdf title mode.
Proof.
  pose proof front_no_line_end as Hf. unfold front_lines in *. rewrite !Forall_cons in Hf.
  destruct Hf as (H1 & _ & H3 & _). cbn [map concat].
  by rewrite (tsplit_last _ H1), (tsplit_last _ H3).
Qed.

(** The lines of the pages start with the first heading. *)
Lemma page_lines_first n pages :
  0 < n → length pages = length (page_range n) →
  ∃ l, page_lines_of (page_range n) pages = (lit "## Page " ++ lit (pretty 1)) :: l.
Proof.
  intros Hn Hlen. unfold page_lines_of, page_range in *. destruct (Z.to_nat n) as [|k] eqn:E; [lia|].
  simpl seq in *. cbn [map] in *. destruct pages as [|t pages]; [done|]. by eexists.
Qed.

Lemma trim_end_first l ls : l ≠ [] → ∃ ls', trim_end (l :: ls) = l :: ls'.
Proof.
  intros Hl. cbn [trim_end]. destruct (trim_end ls); [|by eexists].
  rewrite bool_decide_eq_false_2 by done. by eexists.
Qed.

Lemma trim_end_clean ls :
  Forall clean ls → trim_end ls ≠ [] →
  Forall clean (trim_end ls) ∧ ∃ x, last (trim_end ls) = Some x ∧ clean x.
Proof.
  intros Hls Hne. destruct (trim_end_split ls) as [k Hk]. rewrite Hk in Hls.
  apply Forall_app in Hls as [Hls _]. split; [done|].
  destruct (last (trim_end ls)) as [x|] eqn:E; [|by apply last_None in E].
  exists x. split; [done|]. apply last_Some in E as [l E]. rewrite E in Hls.
  apply Forall_app in Hls as [_ Hls]. by inversion_clear Hls.
Qed.

(** The pages that were written are found again, and nothing else. *)
Lemma sectionize_pages n pages :
  0 < n → length pages = length (page_range n) →
  Forall (λ t, Forall clean (tsplit 10 t)) pages →
  sectionize_markdown U (trstrip (tjoin [10] (front_lines pdf title mode
      ++ concat (zip_with page_block (page_range n) pages))) ++ [10]) =
    tjoin [10] (take 3 (front_lines pdf title mode)) ++ blank
      ++ sectionize_body U (page_body (page_range n) pages) ++ [10].
Proof.
  intros Hn Hlen Hp.
  assert (Forall (λ n, 0 ≤ n) (page_range n)) as Hns.
  { unfold page_range. apply Forall_map, Forall_forall. intros i _. lia. }
  pose proof (page_lines_clean _ _ Hns Hp) as Hc.
  rewrite <-tjoin_lines, map_app, concat_app, page_blocks_lines, front_split by done.
  unfold page_body. destruct (page_lines_first n pages Hn Hlen) as [l HPL].
  set (PL := page_lines_of _ _) in *.
  destruct (trim_end_first (lit "## Page " ++ lit (pretty 1)) l) as [l' Hl']; [done|].
  rewrite <-HPL in Hl'.
  destruct (trim_end_clean PL Hc) as (Hcl & x & Hx & Hxc); [by rewrite Hl'|].
  assert (trim_end (front_lines pdf title mode ++ PL) = front_lines pdf title mode ++ trim_end PL) as Ht.
  { rewrite HPL. by rewrite trim_end_app. }
  rewrite (trstrip_tjoin _ x); [|by rewrite Ht, last_app, Hx|apply Hxc]. rewrite Ht.
  unfold sectionize_markdown. rewrite splitlines_join.
  - rewrite Hl', split_pages_at; [|apply front_no_page|apply page_heading; by apply page_number_text].
    rewrite front_stripped. by do 5 f_equal.
  - apply Forall_app. split; [apply front_no_line_end|].
    eapply Forall_impl; [done|]. by intros ? [? _].
  - by rewrite Hl'; destruct (front_lines _ _ _).
Qed.

(** Every character of the Markdown can be written and read back. *)
Definition written (c : Z) : Prop := scalar c ∧ c ≠ 13.

Lemma ascii_written c : 0 ≤ c < 128 → c ≠ 13 → written c.
Proof. intros. split; [|done]. unfold scalar. lia. Qed.

Lemma written_check t :
  forallb (λ c, (0 <=? c) && (c <? 128) && negb (c =? 13)) t = true → Forall written t.
Proof.
  rewrite forallb_forall. intros H. apply Forall_forall. intros c Hc%list_elem_of_In%H.
  apply ascii_written; lia.
Qed.

Lemma front_written :
  utf8_valid (heading_of pdf title) = true → Forall (Forall written) (front_lines pdf title mode).
Proof.
  intros Hv. rewrite !elem_of_cons, elem_of_nil in Hmode. unfold front_lines.
  apply Forall_cons_2; [|apply Forall_cons_2; [|apply Forall_cons_2; [|apply Forall_cons_2; [|apply Forall_nil_2]]]].
  - apply Forall_app. split; [by apply written_check|].
    destruct (code_points_valid _ Hv) as [Hs _]. unfold no_line_end in Hhead.
    rewrite Forall_forall in *. intros c Hc. split; [by apply Hs|]. intros ->. by specialize (Hhead 13 Hc).
  - apply Forall_nil_2.
  - by apply written_check; destruct Hmode as [->|[->|[]]]; vm_compute.
  - apply Forall_nil_2.
Qed.

Lemma page_written t : Forall scalar t → Forall clean (tsplit 10 t) → Forall written t.
Proof.
  intros Hs Hc. assert (Forall (λ c, c ≠ 13) t) as Hr.
  { rewrite <-(tjoin_tsplit t). apply tjoin_Forall; [by repeat constructor|].
    eapply Forall_impl; [done|]. intros l [Hl _]. eapply Forall_impl; [done|]. by intros c Hc' ->. }
  rewrite Forall_forall in *. intros c Hin. split; auto.
Qed.

Lemma blocks_written ns pages :
  Forall (λ n, 0 ≤ n) ns → Forall (Forall written) pages →
  Forall (Forall written) (concat (zip_with page_block ns pages)).
Proof.
  intros Hns. revert pages. induction Hns as [|n ns Hn _ IH]; intros pages Hp; [constructor|].
  destruct Hp as [|t pages Ht Hp]; [constructor|]. cbn [zip_with concat].
  apply Forall_app. split; [|by apply IH]. unfold page_block. rewrite !Forall_cons.
  split_and!; auto using Forall_nil_2. apply Forall_app. split; [by apply written_check|].
  destruct (page_number_text n Hn) as [_ Hd]. eapply Forall_impl; [done|].
  intros c. unfold is_ascii_digit. intros. apply ascii_written; lia.
Qed.

Lemma trstrip_Forall (P : Z → Prop) t : Forall P t → Forall P (trstrip t).
Proof.
  destruct (trstrip_prefix t) as (u & Ht & _). rewrite Ht at 1. rewrite Forall_app. tauto.
Qed.

Lemma markdown_written n pages :
  utf8_valid (heading_of pdf title) = true → Forall (Forall written) pages →
  Forall written (trstrip (tjoin [10] (front_lines pdf title mode
    ++ concat (zip_with page_block (page_range n) pages))) ++ [10]).
Proof.
  intros Hv Hp. assert (Forall written [10]) as H10 by (by apply written_check).
  apply Forall_app. split; [|done]. apply trstrip_Forall, tjoin_Forall; [done|].
  apply Forall_app. split; [by apply front_written|]. apply blocks_written; [|done].
  unfold page_range. apply Forall_map, Forall_forall. intros i _. lia.
Qed.
End front.
End sections.

(** ** The programs *)

(** A file that is there can be written. *)
Lemma rewrite_file p t b w :
  Forall scalar t → file_bytes w p = Ok b →
  ∃ w', write_utf8 p (encode t) w = (Ok tt, w') ∧ file_bytes w' p = Ok (encode t).
Proof.
  intros Ht (q & Hl & Hn)%file_bytes_Ok. unfold write_utf8. rewrite encode_valid by done.
  assert (∃ w', write_text p (encode t) w = (Ok tt, w')) as [w' Hw].
  { unfold write_text. rewrite Hl, Hn. by eexists. }
  exists w'. split; [done|]. by apply write_text_reads in Hw.
Qed.

Section programs.
Context (U : unicode) (T : programs).

(** The mode of a run *)
Definition runs_in (args : arguments) (w : world) (mode : string) : Prop :=
  if bool_decide (a_columns args = "auto") then detect_columns T (a_input_pdf args) w = (Ok mode, w)
  else mode = a_columns args.

Lemma detect_columns_mode pdf w mode w' :
  detect_columns T pdf w = (Ok mode, w') → w' = w ∧ mode ∈ ["one"; "two"].
Proof.
  unfold detect_columns. intros (t & w1 & Ht & H)%io_bind_Ok.
  assert (w1 = w) as -> by (eapply run_same, Ht; apply extract_crop_keeps).
  injection H as <- <-. split; [done|]. case_match; set_solver.
Qed.

Lemma extract_main_Ok args w w1 :
  a_columns args ∈ ["auto"; "one"; "two"] →
  ExtractPaperText.main U T args w = (Ok 0, w1) →
  ∃ mode md, runs_in args w mode ∧ mode ∈ ["one"; "two"] ∧
    build_markdown U T (a_input_pdf args) (a_title args) mode w = (Ok md, w) ∧
    file_bytes w1 (a_output_md args) = Ok (encode md) ∧
    utf8_valid ("wrote " +:+ path_str (a_output_md args)) = true ∧
    w_out w1 = w_out w ++ ["wrote " +:+ path_str (a_output_md args); "columns=" +:+ mode].
Proof.
  intros Hcol H. unfold ExtractPaperText.main in H. apply io_bind_Ok in H as (mode & w2 & Hm & H).
  assert (runs_in args w mode ∧ mode ∈ ["one"; "two"] ∧ w2 = w) as (Hr & Hmode & ->).
  { unfold runs_in. case_bool_decide as Ha.
    - destruct (detect_columns_mode _ _ _ _ Hm) as [-> ?]. done.
    - injection Hm as <- <-. split_and!; [done| |done]. set_solver. }
  apply io_bind_Ok in H as (md & w3 & Hmd & H). destruct (build_markdown_Ok _ _ _ _ _ _ _ _ Hmd) as [-> _].
  apply io_bind_Ok in H as ([] & w4 & Hw%write_utf8_Ok & H).
  apply io_print_bind in H as [Hv H]. apply io_print_bind in H as [_ H]. injection H as <-.
  exists mode, md. split_and!; [done..| |done|].
  - apply write_text_reads in Hw. done.
  - simpl. rewrite <-app_assoc. apply write_text_Ok in Hw as (q & _ & _ & ->). done.
Qed.

Lemma pages_clean pdf mode w ns pages :
  Forall2 (λ i t, extract_page_text U T pdf i mode w = (Ok t, w)) ns pages →
  Forall (λ t, Forall clean (tsplit 10 t)) pages ∧ Forall (Forall written) pages.
Proof.
  induction 1 as [|i t ns pages Ht _ [IH1 IH2]]; [done|].
  pose proof (extract_page_scalar _ _ _ _ _ _ _ _ Ht) as Hs.
  apply extract_page_blocks in Ht as (ts & Hts%tsplit_blocks & ->).
  split; (constructor; [|done]); [done|by apply page_written].
Qed.

(** The sectionizer in place on text that was written *)
Lemma sectionize_in_place p t w :
  Forall written t → file_bytes w p = Ok (encode t) → utf8_valid ("wrote " +:+ path_str p) = true →
  ∃ w', SectionizeMarkdown.main U (SectionizeMarkdown.Arguments p None true) w = (Ok 0, w') ∧
    file_bytes w' p = Ok (encode (SectionizeMarkdown.sectionize_markdown U t)).
Proof.
  intros Hw Hf Hline.
  assert (Forall scalar t) as Hs by (eapply Forall_impl; [exact Hw|by intros ? [? _]]).
  assert (13 ∉ t) as Hr by (intros H; rewrite Forall_forall in Hw; by destruct (Hw 13 H)).
  destruct (rewrite_file p (SectionizeMarkdown.sectionize_markdown U t) (encode t) w)
    as (w' & Hwr & Hf'); [|done|].
  { apply Sectionize.sectionize_Forall; [unfold scalar; lia|done]. }
  exists (set_out (w_out w' ++ ["wrote " +:+ path_str p]) w'). split; [|done].
  assert (read_text p w = (Ok (encode t), w)) as Hread.
  { unfold read_text. rewrite Hf. simpl. by rewrite decode_text_encode. }
  unfold SectionizeMarkdown.main. rewrite (io_bind_run _ _ w p w) by done.
  cbn [SectionizeMarkdown.a_input_md]. rewrite (io_bind_run _ _ _ _ _ Hread), decode_encode by done.
  rewrite (io_bind_run _ _ _ _ _ Hwr). apply io_print_bind. by split.
Qed.

(** C28: the extractor and then the sectionizer in place.  When the extractor
    succeeds on a paper with pages, under a title of one line of valid text, the
    sectionizer succeeds on what it wrote, and the file then holds the title and
    the source note as the header and, as the body, the sectionized lines of all
    the pages that were extracted, in order and without the page headings. *)
Theorem extract_then_sectionize args w w1 :
  a_columns args ∈ ["auto"; "one"; "two"] →
  utf8_valid (heading_of (a_input_pdf args) (a_title args)) = true →
  no_line_end (code_points (heading_of (a_input_pdf args) (a_title args))) →
  ExtractPaperText.main U T args w = (Ok 0, w1) →
  ∃ mode n pages,
    runs_in args w mode ∧ total_pages U T (a_input_pdf args) w = (Ok n, w) ∧
    Forall2 (λ i t, extract_page_text U T (a_input_pdf args) i mode w = (Ok t, w)) (page_range n) pages ∧
    (0 < n → ∃ w2,
      SectionizeMarkdown.main U (SectionizeMarkdown.Arguments (a_output_md args) None true) w1 = (Ok 0, w2) ∧
      file_bytes w2 (a_output_md args) = Ok (encode (
        tjoin [10] (take 3 (front_lines (a_input_pdf args) (a_title args) mode))
        ++ SectionizeMarkdown.blank
        ++ SectionizeMarkdown.sectionize_body U (page_body U (page_range n) pages) ++ [10]))).
Proof.
  intros Hcol Hv Hh Hmain.
  destruct (extract_main_Ok _ _ _ Hcol Hmain) as (mode & md & Hr & Hmode & Hmd & Hfile & Hline & _).
  destruct (build_markdown_Ok _ _ _ _ _ _ _ _ Hmd) as (_ & n & pages & Hn & Hp & ->).
  exists mode, n, pages. split_and!; [done..|]. intros Hpos.
  destruct (pages_clean _ _ _ _ _ Hp) as [Hclean Hw].
  pose proof (markdown_written _ _ _ Hmode Hh n pages Hv Hw) as Hwm.
  destruct (sectionize_in_place _ _ _ Hwm Hfile Hline) as (w2 & Hsec & Hf2).
  exists w2. split; [done|]. rewrite Hf2. do 2 f_equal.
  apply sectionize_pages; [done..| |done]. symmetry. by eapply Forall2_length.
Qed.
End programs.

(** ** Which papers are accepted *)



Section verify_facts.
Context (U : unicode).
Import VerifyPaperText.














End verify_facts.

(** ** A paper of two pages *)

(** A database with nothing beyond ASCII *)
Definition ascii_only : unicode := Unicode (λ _, false) (λ _, None) (λ _, false).

Definition page_one : string := "A Paper
Abstract
We study remote pro-
cedure calls , and more .
Introduction
Modern cloud computing is large.

1
".
Definition page_two : string := "Related Work
Others did this.
Conclusions
This paper presents a study.
References
[1] A. Author.
2
".

Definition sample_tools : programs := Programs
  (λ argv _, match argv with
             | _ :: "1" :: _ => Ok page_one
             | _ :: "2" :: _ => Ok page_two
             | _ => Err CalledProcessError
             end)
  (λ _ _, Ok "Title:          A Paper
Pages:          2
Page size:      612 x 792 pts (letter)
").

Definition sample_args : arguments :=
  Arguments (parse_path "paper.pdf") (parse_path "paper.md") (Some "A Paper") "one".

Definition sample_papers : world := repo_world [(["repo"; "x.txt"], "")].

Definition extracted : exc Z * world := ExtractPaperText.main ascii_only sample_tools sample_args sample_papers.


Lemma extract_then_sectionize_witness :
  ∃ mode n pages, runs_in sample_tools sample_args sample_papers mode ∧
    Forall2 (λ i t, extract_page_text ascii_only sample_tools (parse_path "paper.pdf") i mode
                      sample_papers = (Ok t, sample_papers)) (page_range n) pages.
Proof.
  destruct (extract_then_sectionize ascii_only sample_tools sample_args sample_papers extracted.2)
    as (mode & n & pages & Hr & _ & Hp & _).
  - refine (bool_decide_unpack _ _). by vm_compute.
  - by vm_compute.
  - apply no_line_end_check. by vm_compute.
  - apply io_run_fst. by vm_compute.
  - by exists mode, n, pages.
Defined.



(** ** Two papers the tools get wrong *)

(** Chapter 7 in front of chapter 6 is not reported: only numbers of one chapter
    are compared. *)
Example verify_chapters_out_of_order :
  VerifyPaperText.verify ascii_only (lit "## Abstract

## 1 Introduction

## 7 Conclusions

## 6 Related Work

## References
") = [].
Proof. by vm_compute. Qed.

(** Section 2.1 behind chapter 3 is not reported either: a number is compared
    with its predecessor only. *)
Example verify_section_behind_chapter :
  VerifyPaperText.verify ascii_only (lit "## Abstract

## 1 Introduction

### 2.3 Later

### 3.1 Next

### 2.1 Earlier

## 6 Related Work

## 7 Conclusions

## References
") = [].
Proof. by vm_compute. Qed.

(** Two replacements apply to the same heading: the second finds the title the
    first has just written, and leaves an empty heading in front. *)
Example sectionize_heading_twice :
  SectionizeMarkdown.sectionize_body ascii_only
    (lit "2 Characteristics of RPCs at Hyperscale This section analyzes RPCs.") =
  lit "## 2

## 2 Characteristics of RPCs at Hyperscale

This section analyzes RPCs.".
Proof. by vm_compute. Qed.
