(* ===== verification/BoundingBoxes.v ===== *)
(** * The bounding boxes of form fields

    .agents/skills/pdf/scripts/check_bounding_boxes.py: the check that the boxes
    of the labels and entries of a form do not overlap and leave room for their
    text.  The fields stay JSON values, so that a missing key, a short box or a
    coordinate of the wrong type raises where the script does. *)

From Stdlib Require Import Ascii SpecFloat.
From S2P Require Import Prelude PyFloat PyVal PyPath Json JsonOut World PyColl RunnerCommon.

Local Open Scope Z_scope.

(** ** Values of any type *)

(** How two numbers compare; [None] inside for a comparison with NaN *)
Definition num_compare (a b : json) : option (option comparison) :=
  match as_int a, as_int b, a, b with
  | Some x, Some y, _, _ => Some (Some (Z.compare x y))
  | Some x, None, _, JFloat g => Some (cmp_Z_float x g)
  | None, Some y, JFloat f, _ => Some (CompOpp <$> cmp_Z_float y f)
  | None, None, JFloat f, JFloat g => Some (SFcompare f g)
  | _, _, _, _ => None
  end.

(** [a op b] for the operator that holds of the comparisons in [test] *)
Fixpoint py_rel (op : string) (test : comparison → bool) (a b : json) {struct a} : exc bool :=
  match a, b with
  | JStr s, JStr t => Ok (test (String.compare s t))
  | JArr l, JArr k =>
      (fix go (l k : list json) : exc bool :=
         match l, k with
         | [], [] => Ok (test Eq)
         | [], _ => Ok (test Lt)
         | _, [] => Ok (test Gt)
         | x :: l, y :: k => if py_eq x y then go l k else py_rel op test x y
         end) l k
  | _, _ =>
      c ← of_option (order_error op a b) (num_compare a b);
      Ok (match c with Some c => test c | None => false end)
  end.

Definition py_le : json → json → exc bool :=
  py_rel "<=" (λ c, match c with Gt => false | _ => true end).
Definition py_ge_of : json → json → exc bool :=
  py_rel ">=" (λ c, match c with Lt => false | _ => true end).

(** [v[i]] for an index that is not negative *)
Definition py_nth (v : json) (i : nat) : exc json :=
  match v with
  | JArr l => of_option (IndexError "list index out of range") (l !! i)
  | JStr s => of_option (IndexError "string index out of range") (JStr ∘ utf8 <$> code_points s !! i)
  | JObj _ => Err (KeyError (pretty i))
  | v => Err (TypeError (cat ["'"; type_name v; "' object is not subscriptable"]))
  end.

(** [a - b] *)
Definition py_sub (a b : json) : exc json :=
  let wrong := Err (TypeError (cat ["unsupported operand type(s) for -: '"; type_name a; "' and '";
                                    type_name b; "'"])) in
  let float_of z := of_option (OverflowError "int too large to convert to float") (f_of_Z z) in
  match as_int a, as_int b, a, b with
  | Some x, Some y, _, _ => Ok (JInt (x - y))
  | Some x, None, _, JFloat g => f ← float_of x; Ok (JFloat (f_sub f g))
  | None, Some y, JFloat f, _ => g ← float_of y; Ok (JFloat (f_sub f g))
  | None, None, JFloat f, JFloat g => Ok (JFloat (f_sub f g))
  | _, _, _, _ => wrong
  end.

(** [len(v)] *)
Definition py_len (v : json) : exc nat :=
  match v with
  | JArr l => Ok (length l)
  | JObj d => Ok (length d)
  | JStr s => Ok (length (code_points s))
  | v => Err (TypeError (cat ["object of type '"; type_name v; "' has no len()"]))
  end.

Module BoundingBoxes.

(** [field] is the object of the list; [number] is its position, which tells two
    objects apart as [is] does. *)
Record RectAndField : Type := Rect {
  rect : json;
  rect_type : string;
  field : json;
  number : nat;
}.

Definition rects_intersect (r1 r2 : json) : exc bool :=
  let at_ r i := py_nth r i in
  a ← at_ r1 0%nat; b ← at_ r2 2%nat;
  left_of ← py_ge_of a b;
  disjoint_horizontal ← (if (left_of : bool) then Ok true else
    c ← at_ r1 2%nat; d ← at_ r2 0%nat; py_le c d);
  e ← at_ r1 1%nat; f ← at_ r2 3%nat;
  below ← py_ge_of e f;
  disjoint_vertical ← (if (below : bool) then Ok true else
    g ← at_ r1 3%nat; h ← at_ r2 1%nat; py_le g h);
  Ok (negb (disjoint_horizontal || disjoint_vertical)).

Definition rects_of (item_ : nat * json) : exc (list RectAndField) :=
  let '(n, f) := item_ in
  label ← item "label_bounding_box" f;
  entry ← item "entry_bounding_box" f;
  Ok [Rect label "label" f n; Rect entry "entry" f n].

(** The messages so far and [has_error], or the messages of an early return *)
Inductive flow : Type :=
  | Next (messages : list string) (has_error : bool)
  | Return (messages : list string).

Definition aborting : string := "Aborting further checks; fix bounding boxes and try again".

(** [has_error = True] and a message, and the return after twenty of them *)
Definition report (message : string) (messages : list string) : flow :=
  let messages := messages ++ [message] in
  if (20 <=? length messages)%nat then Return (messages ++ [aborting]) else Next messages true.

(** A [for] loop with an early return *)
Fixpoint run_flow {A} (body : A → list string → bool → exc flow) (l : list A) (f : flow) : exc flow :=
  match f, l with
  | Return _, _ | _, [] => Ok f
  | Next messages has_error, x :: l => f' ← body x messages has_error; run_flow body l f'
  end.

Definition description (r : RectAndField) : exc string :=
  d ← item "description" (field r);
  Ok (py_str d).

(** The inner loop's body *)
Definition check_pair (ri rj : RectAndField) (messages : list string) (has_error : bool) : exc flow :=
  pi ← item "page_number" (field ri);
  pj ← item "page_number" (field rj);
  hit ← (if py_eq pi pj then rects_intersect (rect ri) (rect rj) else Ok false);
  if (hit : bool) then
    if (number ri =? number rj)%nat then
      di ← description ri;
      Ok (report (cat ["FAILURE: intersection between label and entry bounding boxes for `"; di;
                       "` ("; py_str (rect ri); ", "; py_str (rect rj); ")"]) messages)
    else
      di ← description ri;
      dj ← description rj;
      Ok (report (cat ["FAILURE: intersection between "; rect_type ri; " bounding box for `"; di;
                       "` ("; py_str (rect ri); ") and "; rect_type rj; " bounding box for `"; dj;
                       "` ("; py_str (rect rj); ")"]) messages)
  else Ok (Next messages has_error).

(** The check of the height of an entry *)
Definition check_height (ri : RectAndField) (messages : list string) (has_error : bool) : exc flow :=
  if bool_decide (rect_type ri = "entry") then
    match field ri with
    | JObj d =>
        match dget "entry_text" d with
        | Some entry_text =>
            font_size ← py_get entry_text "font_size" (JInt 14);
            bottom ← py_nth (rect ri) 3;
            top ← py_nth (rect ri) 1;
            entry_height ← py_sub bottom top;
            short ← py_lt entry_height font_size;
            if (short : bool) then
              di ← description ri;
              Ok (report (cat ["FAILURE: entry bounding box height ("; py_str entry_height; ") for `"; di;
                "` is too short for the text content (font size: "; py_str font_size;
                "). Increase the box height or decrease the font size."]) messages)
            else Ok (Next messages has_error)
        | None => Ok (Next messages has_error)
        end
    | _ => Ok (Next messages has_error)
    end
  else Ok (Next messages has_error).

(** The outer loop over the boxes and those after them *)
Fixpoint check_boxes (rects : list RectAndField) (f : flow) : exc flow :=
  match f, rects with
  | Return _, _ | _, [] => Ok f
  | Next messages has_error, ri :: rest =>
      f1 ← run_flow (check_pair ri) rest f;
      f2 ← match f1 with
           | Next messages has_error => check_height ri messages has_error
           | Return _ => Ok f1
           end;
      check_boxes rest f2
  end.

Definition get_bounding_box_messages (fields : json) : exc (list string) :=
  form_fields ← item "form_fields" fields;
  n ← py_len form_fields;
  fs ← py_iter form_fields;
  rects ← mapM rects_of (enumerate fs);
  f ← check_boxes (concat rects) (Next [cat ["Read "; pretty n; " fields"]] false);
  Ok (match f with
      | Return messages => messages
      | Next messages has_error =>
          if (has_error : bool) then messages else messages ++ ["SUCCESS: All bounding boxes are valid"]
      end).

(** The arguments after the name of the program; the exit code *)
Definition main (argv : list string) : io Z :=
  match argv with
  | [p] =>
      t ← read_text (parse_path p);
      fields ← pure_ (json_loads t);
      messages ← pure_ (get_bounding_box_messages fields);
      iterM print messages;;
      mret 0
  | _ => print "Usage: check_bounding_boxes.py [fields.json]";; mret 1
  end.
End BoundingBoxes.
