(* ===== verification/BoundingBoxesSpec.v ===== *)
(** * What the check of the bounding boxes decides

    The success message of check_bounding_boxes.py stands for a geometric
    property of the form: no two boxes of a page share a pixel, and every entry
    is as high as its text. *)

From Stdlib Require Import Ascii.
From S2P Require Import Prelude PyFloat PyVal PyPath Json JsonOut World PyColl RunnerCommon BoundingBoxes.
Import BoundingBoxes.

Local Open Scope Z_scope.

(** ** The form *)

(** A box by its corners, and the pixels in it *)
Record box : Type := Box { x0 : Z; y0 : Z; x1 : Z; y1 : Z }.











(** ** Intersection *)

Definition meets (b c : box) : bool :=
  (x0 b <? x1 c) && (x0 c <? x1 b) && ((y0 b <? y1 c) && (y0 c <? y1 b)).



(** ** One check *)









(** ** All checks *)







(** ** The property that is decided *)









(** ** Two fields on a page *)




(** An empty box counts as an obstacle although it has no pixel. *)
Example empty_box_intersects : meets (Box 5 0 5 9) (Box 0 0 9 9) = true.
Proof. done. Qed.
