(* ===== verification/FormFields.v ===== *)
(** * Fillable form fields

    .agents/skills/pdf/scripts/extract_form_field_info.py lists the form fields of
    a PDF with their pages, and fill_fillable_fields.py checks values against that
    list and fills them in.  The objects of a PDF are JSON values: dictionaries,
    arrays, names as strings and numbers.  The library that reads and writes the
    file is a parameter, [pdf_library]: the reader it returns for a file, the
    writer and what its methods do to it, and what it puts into the output file,
    which is open by then, before it raises or returns. *)

From Stdlib Require Import Ascii SpecFloat.
From S2P Require Import Prelude PyFloat PyVal PyPath Json JsonOut World PyColl RunnerCommon BoundingBoxes.

Local Open Scope Z_scope.

(** ** Values of any type *)

(** [x in v] for a string [x] *)
Definition py_contains (x : string) (v : json) : exc bool :=
  match v with
  | JArr l => Ok (existsb (py_eq (JStr x)) l)
  | JObj d => Ok (din x d)
  | JStr s => Ok (str_in x s)
  | v => Err (TypeError (cat ["argument of type '"; type_name v; "' is not iterable"]))
  end.

(** [-v] *)
Definition py_neg (v : json) : exc json :=
  match as_int v, v with
  | Some z, _ => Ok (JInt (- z))
  | None, JFloat f => Ok (JFloat (SFopp f))
  | _, v => Err (TypeError (cat ["bad operand type for unary -: '"; type_name v; "'"]))
  end.

(** [json.dumps(v, indent=2)] *)
Fixpoint dumps_plain (level : nat) (v : json) : string :=
  match v with
  | JArr l => block "[" "]" level (map (dumps_plain (S level)) l)
  | JObj d =>
      block "{" "}" level (map (λ '(k, v), cat [json_quote k; ": "; dumps_plain (S level) v]) d)
  | v => dumps v
  end.

Fixpoint json_depth (v : json) : nat :=
  match v with
  | JArr l => S (foldr (λ v n, Nat.max (json_depth v) n) 0%nat l)
  | JObj d => S (foldr (λ '(_, v) n, Nat.max (json_depth v) n) 0%nat d)
  | _ => 0
  end.

Module FormFields.

(** What the library returns for a file: [get_fields()] and the pages *)
Record pdf_reader : Type := PdfReader {
  r_fields : json;
  r_pages : list json;
}.

(** The PDF library: [PdfReader(path)], [PdfWriter(clone_from=reader)],
    [writer.update_page_form_field_values(writer.pages[i], values)],
    [writer.set_need_appearances_writer(True)], and [writer.write(f)], which puts
    bytes into the open file and may raise after that. *)
Record pdf_library : Type := PdfLibrary {
  lib_writer : Type;
  lib_open : path → world → exc pdf_reader;
  lib_clone : pdf_reader → exc lib_writer;
  lib_update : lib_writer → json → list (json * json) → exc lib_writer;
  lib_appearances : lib_writer → exc lib_writer;
  lib_write : lib_writer → string * option exn;
}.

(** ** Listing the fields *)

(** The components of the name, the annotation's own first.  The parents are
    inside the value, so its depth is fuel enough. *)
Fixpoint name_components (fuel : nat) (annotation : json) : exc (list json) :=
  match fuel with
  | O => Err OutOfFuel
  | S fuel =>
      if truthy annotation then
        field_name ← py_get annotation "/T" JNull;
        parent ← py_get annotation "/Parent" JNull;
        rest ← name_components fuel parent;
        Ok (if truthy field_name then field_name :: rest else rest)
      else Ok []
  end.

Definition get_full_annotation_field_id (annotation : json) : exc (option string) :=
  components ← name_components (S (json_depth annotation)) annotation;
  match components with
  | [] => Ok None
  | _ => s ← py_join "." (reverse components); Ok (Some s)
  end.

Definition unexpected_states (field_id : string) : string :=
  cat ["Unexpected state values for checkbox `$"; field_id; "`. Its checked and unchecked values may not be correct; if you're trying to check it, visually verify the results."].

Definition make_field_dict (field : json) (field_id : string) : io (dict json) :=
  let field_dict := [("field_id", JStr field_id)] in
  ft ← pure_ (py_get field "/FT" JNull);
  if py_eq ft (JStr "/Tx") then mret (field_dict ++ [("type", JStr "text")])
  else if py_eq ft (JStr "/Btn") then
    let field_dict := field_dict ++ [("type", JStr "checkbox")] in
    states ← pure_ (py_get field "/_States_" (JArr []));
    n ← pure_ (py_len states);
    if (n =? 2)%nat then
      off ← pure_ (py_contains "/Off" states);
      first ← pure_ (py_nth states 0);
      second ← pure_ (py_nth states 1);
      if (off : bool) then
        mret (field_dict ++
          [("checked_value", if py_eq first (JStr "/Off") then second else first);
           ("unchecked_value", JStr "/Off")])
      else
        print (unexpected_states field_id);;
        mret (field_dict ++ [("checked_value", first); ("unchecked_value", second)])
    else mret field_dict
  else if py_eq ft (JStr "/Ch") then
    states ← pure_ (py_get field "/_States_" (JArr []));
    l ← pure_ (py_iter states);
    options ← pure_ (mapM (λ state,
      value ← py_nth state 0;
      t ← py_nth state 1;
      Ok (JObj [("value", value); ("text", t)])) l);
    mret (field_dict ++ [("type", JStr "choice"); ("choice_options", JArr options)])
  else mret (field_dict ++ [("type", JStr (cat ["unknown ("; py_str ft; ")"]))]).

(** The loop over the fields: the dictionaries by name, and the names of the
    groups of buttons *)
Definition field_step (st : dict (dict json) * list string) (entry : string * json)
    : io (dict (dict json) * list string) :=
  let '(infos, radio_names) := st in
  let '(field_id, field) := entry in
  kids ← pure_ (py_get field "/Kids" JNull);
  if truthy kids then
    ft ← pure_ (py_get field "/FT" JNull);
    mret (infos, if py_eq ft (JStr "/Btn") then radio_names ++ [field_id] else radio_names)
  else
    info ← make_field_dict field field_id;
    mret (dset field_id info infos, radio_names).

(** [[v for v in ann["/AP"]["/N"] if v != "/Off"]], [None] for a KeyError *)
Definition on_values (ann : json) : exc (option (list json)) :=
  match (ap ← item "/AP" ann; item "/N" ap) with
  | Ok n => vs ← py_iter n; Ok (Some (List.filter (λ v, negb (py_eq v (JStr "/Off"))) vs))
  | Err (KeyError _) => Ok None
  | Err e => Err e
  end.

(** [group["radio_options"].append(option)] *)
Definition add_option (option_ : json) (group : dict json) : dict json :=
  match dget "radio_options" group with
  | Some (JArr options) => dset "radio_options" (JArr (options ++ [option_])) group
  | _ => group
  end.

Definition new_group (field_id : string) (page : Z) : dict json :=
  [("field_id", JStr field_id); ("type", JStr "radio_group"); ("page", JInt page);
   ("radio_options", JArr [])].

(** One annotation of a page: the fields and the groups found so far *)
Definition annotation_step (radio_names : list string) (page : Z)
    (st : dict (dict json) * dict (dict json)) (ann : json) : exc (dict (dict json) * dict (dict json)) :=
  let '(infos, radios) := st in
  id ← get_full_annotation_field_id ann;
  match id with
  | None => Ok st
  | Some field_id =>
      match dget field_id infos with
      | Some info =>
          rect ← py_get ann "/Rect" JNull;
          Ok (dset field_id (dset "rect" rect (dset "page" (JInt page) info)) infos, radios)
      | None =>
          if bool_decide (field_id ∈ radio_names) then
            values ← on_values ann;
            match values with
            | Some [value] =>
                rect ← py_get ann "/Rect" JNull;
                let group := default (new_group field_id page) (dget field_id radios) in
                Ok (infos, dset field_id (add_option (JObj [("value", value); ("rect", rect)]) group) radios)
            | _ => Ok st
            end
          else Ok st
      end
  end.

Definition page_step (radio_names : list string) (st : dict (dict json) * dict (dict json))
    (entry : nat * json) : exc (dict (dict json) * dict (dict json)) :=
  let '(page_index, page) := entry in
  annots ← py_get page "/Annots" (JArr []);
  annotations ← py_iter annots;
  foldM (annotation_step radio_names (Z.of_nat page_index + 1)) st annotations.

(** The fields with a page; the others are reported. *)
Definition location_step (acc : list (dict json)) (info : dict json) : io (list (dict json)) :=
  if din "page" info then mret (acc ++ [info])
  else
    print (cat ["Unable to determine location for field id: ";
                py_str (default JNull (dget "field_id" info)); ", ignoring"]);;
    mret acc.

Definition zero_rect : json := JArr [JInt 0; JInt 0; JInt 0; JInt 0].

(** [v or [0, 0, 0, 0]] *)
Definition or_zero (v : json) : json := if truthy v then v else zero_rect.

Definition sort_key (f : dict json) : exc json :=
  rect ← match dget "radio_options" f with
         | Some options => o ← py_nth options 0; r ← item "rect" o; Ok (or_zero r)
         | None => Ok (or_zero (default JNull (dget "rect" f)))
         end;
  y ← py_nth rect 1;
  top ← py_neg y;
  x ← py_nth rect 0;
  Ok (JArr [default JNull (dget "page" f); JArr [top; x]]).

Definition get_field_info (reader : pdf_reader) : io (list (dict json)) :=
  fields ← pure_ (match r_fields reader with
                  | JObj d => Ok d
                  | v => Err (AttributeError (cat ["'"; type_name v; "' object has no attribute 'items'"]))
                  end);
  '(infos, radio_names) ← foldM field_step ([], []) fields;
  '(infos, radios) ← pure_ (foldM (page_step radio_names) (infos, []) (enumerate (r_pages reader)));
  fields_with_location ← foldM location_step [] infos.*2;
  keyed ← pure_ (mapM (λ f, k ← sort_key f; Ok (k, f)) (fields_with_location ++ radios.*2));
  sorted_ ← pure_ (sorted_on fst keyed);
  mret sorted_.*2.

Section library.
Context (lib : pdf_library).

Definition write_field_info (pdf_path json_output_path : string) : io unit :=
  reader ← (λ w, (lib_open lib (parse_path pdf_path) w, w));
  field_info ← get_field_info reader;
  write_utf8 (parse_path json_output_path) (dumps_plain 0 (JArr (JObj <$> field_info)));;
  print (cat ["Wrote "; pretty (length field_info); " fields to "; json_output_path]).

(** ** Filling the fields *)

(** The values by page and name *)
Definition value_step (acc : list (json * list (json * json))) (field : json)
    : exc (list (json * list (json * json))) :=
  has_value ← py_contains "value" field;
  if (has_value : bool) then
    field_id ← item "field_id" field;
    page ← item "page" field;
    hashable page;;
    value ← item "value" field;
    hashable field_id;;
    Ok (vset page (vset field_id value (default [] (vget page acc))) acc)
  else Ok acc.

Definition invalid_value (value : json) (kind : string) (field_id : json) (rest : string) : string :=
  cat ["ERROR: Invalid value "; String quote_char (py_str value); String quote_char " for "; kind;
       " field "; String quote_char (py_str field_id); String quote_char rest].

(** [[opt["value"] for opt in field_info[key]]] *)
Definition option_values (key : string) (field_info : dict json) : exc (list json) :=
  options ← ditem key field_info;
  l ← py_iter options;
  mapM (item "value") l.

Definition validation_error_for_field_value (field_info : dict json) (field_value : json)
    : exc (option string) :=
  field_type ← ditem "type" field_info;
  field_id ← ditem "field_id" field_info;
  if py_eq field_type (JStr "checkbox") then
    checked_val ← ditem "checked_value" field_info;
    unchecked_val ← ditem "unchecked_value" field_info;
    Ok (if negb (py_eq field_value checked_val) && negb (py_eq field_value unchecked_val) then
          Some (invalid_value field_value "checkbox" field_id
            (cat [". The checked value is "; String quote_char (py_str checked_val);
                  String quote_char " and the unchecked value is ";
                  String quote_char (py_str unchecked_val); String quote_char ""]))
        else None)
  else if py_eq field_type (JStr "radio_group") then
    values ← option_values "radio_options" field_info;
    Ok (if existsb (py_eq field_value) values then None
        else Some (invalid_value field_value "radio group" field_id
               (cat [". Valid values are: "; py_str (JArr values)])))
  else if py_eq field_type (JStr "choice") then
    values ← option_values "choice_options" field_info;
    Ok (if existsb (py_eq field_value) values then None
        else Some (invalid_value field_value "choice" field_id
               (cat [". Valid values are: "; py_str (JArr values)])))
  else Ok None.

(** [{f["field_id"]: f for f in field_info}] *)
Definition fields_by_ids (field_info : list (dict json)) : exc (list (json * dict json)) :=
  foldM (λ acc f, id ← ditem "field_id" f; hashable id;; Ok (vset id f acc)) [] field_info.

(** The checks of one field: the message of what is wrong with it *)
Definition field_error (by_ids : list (json * dict json)) (field : json) : exc (option string) :=
  field_id ← item "field_id" field;
  hashable field_id;;
  match vget field_id by_ids with
  | None => Ok (Some (cat ["ERROR: `"; py_str field_id; "` is not a valid field ID"]))
  | Some existing_field =>
      page ← item "page" field;
      expected ← ditem "page" existing_field;
      if negb (py_eq page expected) then
        Ok (Some (cat ["ERROR: Incorrect page number for `"; py_str field_id; "` (got "; py_str page;
                       ", expected "; py_str expected; ")"]))
      else
        has_value ← py_contains "value" field;
        if (has_value : bool) then
          value ← item "value" field;
          validation_error_for_field_value existing_field value
        else Ok None
  end.

(** [has_error] after one more field *)
Definition check_step (by_ids : list (json * dict json)) (has_error : bool) (field : json) : io bool :=
  err ← pure_ (field_error by_ids field);
  match err with
  | Some message => print message;; mret true
  | None => mret has_error
  end.

(** The loop over the pages with values *)
Definition update_step (writer : lib_writer lib) (entry : json * list (json * json))
    : exc (lib_writer lib) :=
  let '(page, field_values) := entry in
  i ← py_sub page (JInt 1);
  lib_update lib writer i field_values.

Definition fill_writer (reader : pdf_reader) (fields_by_page : list (json * list (json * json)))
    : exc (lib_writer lib) :=
  writer ← lib_clone lib reader;
  writer ← foldM update_step writer fields_by_page;
  lib_appearances lib writer.

Definition fill_pdf_fields (input_pdf_path fields_json_path output_pdf_path : string) : io unit :=
  t ← read_text (parse_path fields_json_path);
  fields ← pure_ (json_loads t);
  l ← pure_ (py_iter fields);
  fields_by_page ← pure_ (foldM value_step [] l);
  reader ← (λ w, (lib_open lib (parse_path input_pdf_path) w, w));
  field_info ← get_field_info reader;
  by_ids ← pure_ (fields_by_ids field_info);
  has_error ← foldM (check_step by_ids) false l;
  if (has_error : bool) then io_raise (SystemExit "1")
  else
    writer ← pure_ (fill_writer reader fields_by_page);
    write_stream (parse_path output_pdf_path) (lib_write lib writer).

(** The two programs: the arguments after the name, the exit code *)
Definition extract_main (argv : list string) : io Z :=
  match argv with
  | [pdf_path; json_output_path] => write_field_info pdf_path json_output_path;; mret 0
  | _ => print "Usage: extract_form_field_info.py [input pdf] [output json]";; mret 1
  end.

Definition fill_main (argv : list string) : io Z :=
  match argv with
  | [input_pdf; fields_json; output_pdf] => fill_pdf_fields input_pdf fields_json output_pdf;; mret 0
  | _ => print "Usage: fill_fillable_fields.py [input pdf] [field_values.json] [output pdf]";; mret 1
  end.
End library.
End FormFields.
