(* ===== verification/FormFieldsSpec.v ===== *)
(** * Filling forms

    The theorems about extract_form_field_info.py and fill_fillable_fields.py:
    which fields are listed, and that the output file is not opened unless every
    value fits its field. *)

From Stdlib Require Import Ascii SpecFloat.
From S2P Require Import Prelude PyFloat PyVal PyPath Json JsonOut World Files PyColl RunnerCommon BoundingBoxes.
From S2P Require Import Fixtures FormFields.
Import FormFields.

Local Open Scope Z_scope.

(** ** The names of annotations *)

Lemma dget_depth k d v : dget k d = Some v → (json_depth v < json_depth (JObj d))%nat.
Proof.
  cbn. induction d as [|[k' v'] d IH]; [done|]. cbn [dget foldr]. case_bool_decide.
  - intros [= ->]. lia.
  - intros Hd%IH. lia.
Qed.

Lemma py_get_depth v key x :
  py_get v key JNull = Ok x → truthy v = true → (json_depth x < json_depth v)%nat.
Proof.
  destruct v as [| | | | |l|d]; try done. cbn [py_get]. intros [= <-] Ht.
  destruct (dget key d) eqn:E; [by apply dget_depth in E|]. cbn. lia.
Qed.

(** The fuel is enough: no annotation has too many parents. *)
Lemma name_components_total fuel a :
  (json_depth a < fuel)%nat → raises (λ e, e ≠ OutOfFuel) (name_components fuel a).
Proof.
  revert a. induction fuel as [|fuel IH]; intros a Ha; [lia|]. cbn [name_components].
  destruct (truthy a) eqn:Ht; [|done].
  apply raises_bind; [by destruct a|]. intros name _.
  apply raises_bind; [by destruct a|]. intros parent Hp%py_get_depth; [|done].
  apply raises_bind; [apply IH; lia|]. done.
Qed.

(** ** The values *)

(** A value that a field takes *)
Definition allowed (info : dict json) (v : json) : Prop :=
  (dget "type" info = Some (JStr "checkbox") →
     ∃ on off, dget "checked_value" info = Some on ∧ dget "unchecked_value" info = Some off ∧
       (py_eq v on = true ∨ py_eq v off = true)) ∧
  (∀ kind key, (kind, key) ∈ [("radio_group", "radio_options"); ("choice", "choice_options")] →
     dget "type" info = Some (JStr kind) →
     ∃ values x, option_values key info = Ok values ∧ x ∈ values ∧ py_eq v x = true).

(** An entry of the file of values that goes with a field of the form: same name,
    same page, and a value the field takes *)
Definition fits (infos : list (dict json)) (field : json) : Prop :=
  ∃ info id page page',
    info ∈ infos ∧ item "field_id" field = Ok (JStr id) ∧ dget "field_id" info = Some (JStr id) ∧
    item "page" field = Ok page ∧ dget "page" info = Some page' ∧ py_eq page page' = true ∧
    ∀ value, item "value" field = Ok value → allowed info value.

Lemma options_allowed v values (m : string) :
  Ok (E:=exn) (if existsb (py_eq v) values then None else Some m) = Ok None →
  ∃ x, x ∈ values ∧ py_eq v x = true.
Proof.
  destruct (existsb (py_eq v) values) eqn:E; [|done]. intros _.
  apply existsb_exists in E as (x & Hx%list_elem_of_In & E). by exists x.
Qed.

Lemma validation_allowed info v :
  validation_error_for_field_value info v = Ok None → allowed info v.
Proof.
  unfold validation_error_for_field_value, allowed, ditem.
  destruct (dget "type" info) as [ty|]; [|done]. cbn [of_option mbind result_bind].
  destruct (dget "field_id" info) as [id|]; [|done]. cbn [of_option mbind result_bind].
  intros H. split.
  - intros [= ->]. cbn in H. destruct (dget "checked_value" info) as [on|]; [|done]. cbn in H.
    destruct (dget "unchecked_value" info) as [off|]; [|done]. cbn in H. exists on, off.
    split_and!; [done..|]. destruct (py_eq v on); [by left|]. destruct (py_eq v off); [by right|done].
  - intros kind key Hk [= ->]. rewrite !elem_of_cons, elem_of_nil in Hk.
    destruct Hk as [[= -> ->]|[[= -> ->]|[]]]; cbn in H.
    + destruct (option_values "radio_options" info) as [values|]; [|done]. cbn in H.
      apply options_allowed in H as (x & Hx & E). by exists values, x.
    + destruct (option_values "choice_options" info) as [values|]; [|done]. cbn in H.
      apply options_allowed in H as (x & Hx & E). by exists values, x.
Qed.


(** ** The names of the fields *)

Definition named (e : string * dict json) : Prop := dget "field_id" e.2 = Some (JStr e.1).

Lemma named_dset id k v d : k ≠ "field_id" → named (id, d) → named (id, dset k v d).
Proof. unfold named. cbn. intros Hk H. by rewrite dget_dset_ne. Qed.

Lemma Forall_dset (P : string * dict json → Prop) k v (d : dict (dict json)) :
  P (k, v) → Forall P d → Forall P (dset k v d).
Proof.
  intros Hk. induction 1 as [|[k' v'] d Hd Hrest IH]; cbn [dset]; [by apply Forall_singleton|].
  case_bool_decide; [subst|]; by constructor.
Qed.

Lemma Forall_dget (P : string * dict json → Prop) k v (d : dict (dict json)) :
  Forall P d → dget k d = Some v → P (k, v).
Proof.
  induction 1 as [|[k' v'] d Hd _ IH]; [done|]. cbn [dget]. case_bool_decide; [|done].
  subst. by intros [= ->].
Qed.

Lemma make_field_dict_named field id w d w' :
  make_field_dict field id w = (Ok d, w') → named (id, d) ∧ dget "page" d = None.
Proof.
  unfold make_field_dict. intros (ft & _ & H)%io_bind_pure.
  destruct (py_eq ft (JStr "/Tx")); [by injection H as <- <-|].
  destruct (py_eq ft (JStr "/Btn")).
  { apply io_bind_pure in H as (states & _ & H). apply io_bind_pure in H as (n & _ & H).
    destruct (n =? 2)%nat; [|by injection H as <- <-].
    apply io_bind_pure in H as (off & _ & H). apply io_bind_pure in H as (a & _ & H).
    apply io_bind_pure in H as (b & _ & H). destruct off; [by injection H as <- <-|].
    apply io_print_bind in H as [_ H]. by injection H as <- <-. }
  destruct (py_eq ft (JStr "/Ch")); [|by injection H as <- <-].
  apply io_bind_pure in H as (states & _ & H). apply io_bind_pure in H as (l & _ & H).
  apply io_bind_pure in H as (os & _ & H). by injection H as <- <-.
Qed.

(** ** Listing the fields *)

(** A field without kids, which is listed by itself *)
Definition terminal (field : json) : Prop :=
  ∃ kids, py_get field "/Kids" JNull = Ok kids ∧ truthy kids = false.

Lemma elem_dset_keys {V} k id (v : V) d : id ∈ (dset k v d).*1 ↔ id = k ∨ id ∈ d.*1.
Proof.
  rewrite dset_keys. unfold din. destruct (dget k d) as [x|] eqn:E.
  - split; [auto|]. intros [->|?]; [|done]. apply dget_elem in E. by apply list_elem_of_fmap; exists (k, x).
  - rewrite elem_of_app, list_elem_of_singleton. naive_solver.
Qed.

(** The first loop *)
Definition split_fields (done : list (string * json)) (st : dict (dict json) * list string) : Prop :=
  (∀ id, id ∈ st.1.*1 ↔ ∃ field, (id, field) ∈ done ∧ terminal field) ∧ NoDup st.1.*1 ∧
  Forall (λ e, named e ∧ dget "page" e.2 = None) st.1.

Lemma field_step_split done e st w st' w' :
  split_fields done st → field_step st e w = (Ok st', w') → split_fields (done ++ [e]) st'.
Proof.
  destruct st as [infos names], e as [id field]. intros (Hk & Hnd & Hf). unfold field_step.
  intros (kids & Hkids & H)%io_bind_pure. destruct (truthy kids) eqn:Ht.
  - apply io_bind_pure in H as (ft & _ & H). injection H as <- <-. split_and!; [|done..].
    intros x. cbn. rewrite Hk. setoid_rewrite elem_of_app. setoid_rewrite list_elem_of_singleton.
    split; [naive_solver|]. intros (f & [?|[= -> ->]] & Hterm); [by exists f|].
    destruct Hterm as (k & Hk' & Hf'). congruence.
  - apply io_bind_Ok in H as (d & w1 & Hd & H). injection H as <- <-.
    apply make_field_dict_named in Hd as [Hn Hp]. split_and!.
    + intros x. cbn. rewrite elem_dset_keys, Hk. setoid_rewrite elem_of_app.
      setoid_rewrite list_elem_of_singleton. split.
      * intros [->|(f & ? & ?)]; [|by exists f; auto]. exists field. split; [by right|]. by exists kids.
      * intros (f & [?|[= -> ->]] & Hterm); [right; by exists f|by left].
    + by apply dset_NoDup.
    + by apply Forall_dset.
Qed.

(** ** The second loop *)

(** The annotations of a page *)
Definition annots (page : json) : list json :=
  match (a ← py_get page "/Annots" (JArr []); py_iter a) with Ok l => l | Err _ => [] end.

(** All annotations with their page numbers *)
Definition numbered_annots (entry : nat * json) : list (Z * json) :=
  map (λ a, (Z.of_nat entry.1 + 1, a)) (annots entry.2).
Definition all_annotations (reader : pdf_reader) : list (Z * json) :=
  concat (map numbered_annots (enumerate (r_pages reader))).

(** The page of the last annotation of a field *)
Definition page_of (id : string) (e : Z * json) : option Z :=
  match get_full_annotation_field_id e.2 with
  | Ok (Some id') => if bool_decide (id' = id) then Some e.1 else None
  | _ => None
  end.
Definition found (id : string) (l : list (Z * json)) : option Z := last (omap (page_of id) l).

Lemma found_snoc id l e :
  found id (l ++ [e]) = match page_of id e with Some p => Some p | None => found id l end.
Proof.
  unfold found. rewrite omap_app. cbn. destruct (page_of id e); [apply last_snoc|by rewrite app_nil_r].
Qed.

Section second_loop.
Context (names : list string) (infos0 : dict (dict json)).

Definition located (done : list (Z * json)) (st : dict (dict json) * dict (dict json)) : Prop :=
  st.1.*1 = infos0.*1 ∧ Forall named st.1 ∧ Forall named st.2 ∧
  (∀ id, id ∈ st.2.*1 → id ∉ infos0.*1) ∧
  ∀ id d, dget id st.1 = Some d → dget "page" d = JInt <$> found id done.

Lemma named_add_option id o d : named (id, d) → named (id, add_option o d).
Proof. intros H. unfold add_option. repeat case_match; try done. by apply named_dset. Qed.

Lemma found_other id oid p a done :
  get_full_annotation_field_id a = Ok oid → oid ≠ Some id → found id (done ++ [(p, a)]) = found id done.
Proof.
  intros Hid Hne. rewrite found_snoc. unfold page_of. cbn [fst snd]. rewrite Hid. destruct oid; [|done].
  by rewrite bool_decide_eq_false_2 by congruence.
Qed.

Lemma found_same id p a done :
  get_full_annotation_field_id a = Ok (Some id) → found id (done ++ [(p, a)]) = Some p.
Proof.
  intros Hid. rewrite found_snoc. unfold page_of. cbn [fst snd]. rewrite Hid.
  by rewrite bool_decide_eq_true_2.
Qed.

(** An annotation that is not one of a listed field *)
Lemma located_other done p a oid infos radios radios' :
  located done (infos, radios) → get_full_annotation_field_id a = Ok oid →
  (∀ id, oid = Some id → dget id infos = None) → Forall named radios' →
  (∀ id, id ∈ radios'.*1 → id ∉ infos0.*1) → located (done ++ [(p, a)]) (infos, radios').
Proof.
  intros (Hk & Hn & _ & _ & Hp) Hid Ho Hr Hd. split_and!; [done..|]. intros id d Hx.
  rewrite (found_other id oid); [by apply Hp|done|]. intros ->. cbn in Hx. by rewrite (Ho id) in Hx.
Qed.

Lemma annotation_step_located done p a st st' :
  located done st → annotation_step names p st a = Ok st' → located (done ++ [(p, a)]) st'.
Proof.
  destruct st as [infos radios]. intros Hloc. pose proof Hloc as (Hk & Hn & Hr & Hd & Hp).
  cbn [fst snd] in *. unfold annotation_step. intros (oid & Hid & H)%bind_Ok.
  destruct oid as [id|]; [|injection H as <-; by eapply located_other].
  destruct (dget id infos) as [info|] eqn:Hi.
  - apply bind_Ok in H as (rect & _ & H). injection H as <-.
    pose proof (Forall_dget named _ _ _ Hn Hi) as Hinfo. split_and!; cbn [fst snd].
    + rewrite dset_keys. unfold din. by rewrite Hi.
    + apply Forall_dset; [|done]. by apply named_dset, named_dset.
    + done.
    + done.
    + intros x d. rewrite dget_dset. case_bool_decide as Hx; [subst x|].
      * intros [= <-]. rewrite dget_dset_ne, dget_dset_eq by done. by rewrite found_same.
      * rewrite (found_other x (Some id)) by congruence. apply Hp.
  - destruct (bool_decide (id ∈ names)); [|injection H as <-; eapply located_other; [done|done|by intros ? [= <-]|done..]].
    apply bind_Ok in H as (vs & _ & H).
    assert (located (done ++ [(p, a)]) (infos, radios)) as Hsame
      by (eapply located_other; [done|done|by intros ? [= <-]|done..]).
    destruct vs as [[|v [|]]|]; try by injection H as <-.
    apply bind_Ok in H as (rect & _ & H). injection H as <-.
    eapply located_other; [done|done|by intros ? [= <-]| |].
    + apply Forall_dset; [|done]. apply named_add_option.
      destruct (dget id radios) as [g|] eqn:Hg; [exact (Forall_dget named _ _ _ Hr Hg)|done].
    + intros x. rewrite elem_dset_keys. intros [->|?]; [|by apply Hd]. rewrite <-Hk. by apply dget_None.
Qed.

Lemma page_step_located done e st st' :
  located done st → page_step names st e = Ok st' → located (done ++ numbered_annots e) st'.
Proof.
  destruct e as [i page]. intros Hloc. unfold page_step. intros (l & Hl & H)%bind_Ok.
  apply bind_Ok in H as (anns & Ha & H). unfold numbered_annots, annots. cbn [fst snd].
  rewrite Hl. cbn [mbind result_bind]. rewrite Ha.
  apply (foldM_inv _ (λ d st, located (done ++ map (λ a, (Z.of_nat i + 1, a)) d) st)) in H; [done| |].
  - by rewrite app_nil_r.
  - intros d x rest acc acc' _ Hacc Hstep. rewrite map_app, app_assoc. by eapply annotation_step_located.
Qed.
End second_loop.

(** ** The list *)

Lemma location_fold acc l w r w' :
  foldM location_step acc l w = (Ok r, w') → r = acc ++ filter (λ d, din "page" d = true) l.
Proof.
  revert acc w. induction l as [|d l IH]; intros acc w H; cbn [foldM] in H.
  - injection H as <- _. by rewrite app_nil_r.
  - apply io_bind_Ok in H as (acc' & w1 & H1 & H). apply IH in H as ->.
    unfold location_step in H1. destruct (din "page" d) eqn:E.
    + injection H1 as <- _. by rewrite filter_cons_True, <-app_assoc.
    + apply io_print_bind in H1 as [_ H1]. injection H1 as <- _. rewrite filter_cons_False; [done|].
      by rewrite E.
Qed.

Lemma keyed_snd (l : list (dict json)) keyed :
  mapM (λ f, k ← sort_key f; Ok (k, f)) l = Ok keyed → keyed.*2 = l.
Proof.
  intros H%mapM_Ok. induction H as [|f [k g] l keyed Hf _ IH]; [done|]. cbn.
  apply bind_Ok in Hf as (k' & _ & [= -> ->]). by f_equal.
Qed.

Lemma get_field_info_Ok reader fields w infos w' :
  r_fields reader = JObj fields → get_field_info reader w = (Ok infos, w') →
  ∃ infos0 names st, split_fields fields (infos0, names) ∧
    located infos0 (all_annotations reader) st ∧ NoDup st.1.*1 ∧
    infos ≡ₚ filter (λ d, din "page" d = true) st.1.*2 ++ st.2.*2.
Proof.
  intros Hfields. unfold get_field_info. rewrite Hfields.
  intros (fs & [= <-] & H)%io_bind_pure. apply io_bind_Ok in H as ([infos0 names] & w1 & Hf & H).
  assert (split_fields fields (infos0, names)) as Hsplit.
  { revert Hf. apply (io_foldM_inv _ (λ d st _, split_fields d st)).
    - split_and!; [|constructor|constructor]. intros id. cbn. split; [by intros ?%not_elem_of_nil|].
      by intros (? & ?%not_elem_of_nil & _).
    - intros. by eapply field_step_split. }
  apply io_bind_pure in H as (st & Hp & H). destruct st as [infos1 radios].
  assert (located infos0 (all_annotations reader) (infos1, radios)) as Hloc.
  { unfold all_annotations. revert Hp.
    apply (foldM_inv _ (λ d st, located infos0 (concat (map numbered_annots d)) st)).
    - destruct Hsplit as (_ & _ & Hnm). split_and!; [done| |constructor|by intros ? ?%not_elem_of_nil|].
      + eapply Forall_impl; [exact Hnm|]. by intros ? [? _].
      + intros id d Hd. by apply (Forall_dget _ _ _ _ Hnm) in Hd as [_ ?].
    - intros d x rest acc acc' _ Hacc Hstep. rewrite map_app, concat_app. cbn. rewrite app_nil_r.
      by eapply page_step_located. }
  apply io_bind_Ok in H as (lf & w2 & Hl%location_fold & H). simpl in Hl. subst lf.
  apply io_bind_pure in H as (keyed & Hk%keyed_snd & H).
  apply io_bind_pure in H as (sorted_ & Hs%sort_by_perm & H). injection H as <- _.
  exists infos0, names, (infos1, radios). split_and!; [done..| |].
  - destruct Hloc as (Hkeys & _). rewrite Hkeys. apply Hsplit.
  - rewrite Hs, Hk. done.
Qed.

(** C34: a field without kids is in the list that extract_form_field_info.py
    writes, with page number [p], exactly when the last annotation of the PDF that
    has its full name is on page [p]; a field without annotations is left out. *)
Theorem field_info_pages reader fields w infos w' id field p :
  r_fields reader = JObj fields →
  get_field_info reader w = (Ok infos, w') → (id, field) ∈ fields → terminal field →
  (∃ info, info ∈ infos ∧ dget "field_id" info = Some (JStr id) ∧ dget "page" info = Some (JInt p)) ↔
  found id (all_annotations reader) = Some p.
Proof.
  intros Hr Hget Hin Hterm.
  destruct (get_field_info_Ok _ _ _ _ _ Hr Hget) as (infos0 & names & [infos1 radios] & Hsplit & Hloc & Hnd1 & Hperm).
  destruct Hloc as (Hkeys & Hnamed & Hradios & Hdisj & Hpage). cbn [fst snd] in *.
  assert (id ∈ infos1.*1) as Hid by (rewrite Hkeys; apply (proj1 Hsplit); eauto).
  apply list_elem_of_fmap in Hid as ([id' d] & -> & Hd). cbn [fst] in *.
  apply elem_dget in Hd as Hdget; [|done].
  split.
  - intros (info & Hinfo & Hname & Hp). rewrite Hperm in Hinfo. apply elem_of_app in Hinfo as [H|H].
    + apply list_elem_of_filter in H as [_ H]. apply list_elem_of_fmap in H as ([id2 d2] & -> & H2).
      rewrite Forall_forall in Hnamed. pose proof (Hnamed _ H2) as Hn2. unfold named in Hn2. cbn [fst snd] in *.
      rewrite Hname in Hn2. injection Hn2 as <-. apply elem_dget in H2; [|done].
      rewrite (Hpage id' d2 H2) in Hp. destruct (found _ _); [|done]. cbn in Hp. congruence.
    + apply list_elem_of_fmap in H as ([id2 d2] & -> & H2). rewrite Forall_forall in Hradios.
      pose proof (Hradios _ H2) as Hn2. unfold named in Hn2. cbn [fst snd] in *. rewrite Hname in Hn2.
      injection Hn2 as <-. destruct (Hdisj id'); [apply list_elem_of_fmap; by exists (id', d2)|].
      rewrite <-Hkeys. apply list_elem_of_fmap. by exists (id', d).
  - intros Hf. exists d. pose proof (Hpage id' d Hdget) as Hp. rewrite Hf in Hp. split_and!; [|exact (Forall_dget named _ _ _ Hnamed Hdget)|done].
    rewrite Hperm. apply elem_of_app. left. apply list_elem_of_filter. split.
    + unfold din. by rewrite Hp.
    + apply list_elem_of_fmap. by exists (id', d).
Qed.

(** ** Checking the values *)

Definition has_id (info : dict json) : Prop := ∃ id, dget "field_id" info = Some (JStr id).

Lemma infos_named reader w infos w' :
  get_field_info reader w = (Ok infos, w') → Forall has_id infos.
Proof.
  intros Hget. assert (∃ fields, r_fields reader = JObj fields) as [fields Hr].
  { unfold get_field_info in Hget. apply io_bind_pure in Hget as (fs & Hf & _).
    destruct (r_fields reader); try done. by eexists. }
  destruct (get_field_info_Ok _ _ _ _ _ Hr Hget) as (i0 & ns & [infos1 radios] & _ & (_ & H1 & H2 & _) & _ & Hperm).
  cbn [fst snd] in *. rewrite Forall_forall in H1, H2. apply Forall_forall. intros info Hi.
  rewrite Hperm in Hi. apply elem_of_app in Hi as [H|H]; [apply list_elem_of_filter in H as [_ H]|];
    apply list_elem_of_fmap in H as ([id d] & -> & H); exists id; [by apply (H1 (id, d))|by apply (H2 (id, d))].
Qed.

(** The table has the fields under their names. *)
Definition table_entry (infos : list (dict json)) (e : json * dict json) : Prop :=
  e.2 ∈ infos ∧ ∃ id, e.1 = JStr id ∧ dget "field_id" e.2 = Some (JStr id).

Lemma same_item_str v s : same_item v (JStr s) = true ↔ v = JStr s.
Proof. destruct v as [| | |f| | |]; try (by split). - by destruct f. - apply py_eq_str_r. Qed.

Lemma vset_table infos id f t :
  f ∈ infos → dget "field_id" f = Some (JStr id) →
  Forall (table_entry infos) t → Forall (table_entry infos) (vset (JStr id) f t).
Proof.
  intros Hf Hid. induction 1 as [|[k g] t Hk Ht IH]; cbn [vset].
  - apply Forall_singleton. split; [done|]. by exists id.
  - destruct (same_item (JStr id) k) eqn:E; constructor; try done.
    destruct Hk as (_ & id' & Hk & _). cbn in Hk. subst k. apply same_item_str in E as [= ->].
    split; [done|]. by exists id'.
Qed.

Lemma fields_by_ids_table infos t :
  Forall has_id infos → fields_by_ids infos = Ok t → Forall (table_entry infos) t.
Proof.
  intros Hids. unfold fields_by_ids.
  apply (foldM_inv _ (λ _ t, Forall (table_entry infos) t)); [constructor|].
  intros done f rest acc acc' -> Hacc H. apply Forall_app in Hids as [_ Hids].
  apply Forall_cons in Hids as [[id Hid] _]. unfold ditem in H. rewrite Hid in H. cbn in H.
  injection H as <-. apply vset_table; [|done..]. apply elem_of_app. right. by left.
Qed.

Lemma vget_table infos t k f :
  Forall (table_entry infos) t → vget k t = Some f →
  f ∈ infos ∧ ∃ id, k = JStr id ∧ dget "field_id" f = Some (JStr id).
Proof.
  intros Ht. unfold vget. destruct (List.find _ t) as [[k' g]|] eqn:E; [|done]. intros [= <-].
  apply List.find_some in E as [Hin Hs]. apply list_elem_of_In in Hin. rewrite Forall_forall in Ht.
  destruct (Ht _ Hin) as (Hf & id & Hk & Hid). cbn [fst snd] in *. subst k'.
  apply same_item_str in Hs as ->. eauto.
Qed.

Lemma field_error_fits infos t field :
  Forall (table_entry infos) t → field_error t field = Ok None → fits infos field.
Proof.
  intros Ht. unfold field_error. intros (id & Hid & H)%bind_Ok. apply bind_Ok in H as ([] & _ & H).
  destruct (vget id t) as [info|] eqn:Hv; [|done].
  destruct (vget_table _ _ _ _ Ht Hv) as (Hin & s & -> & Hs).
  apply bind_Ok in H as (page & Hp & H). apply bind_Ok in H as (page' & Hp' & H).
  unfold ditem in Hp'. apply of_option_Ok in Hp'.
  destruct (py_eq page page') eqn:Heq; [|done]. cbn in H.
  apply bind_Ok in H as (b & Hb & H).
  exists info, s, page, page'. split_and!; [done..|]. intros value Hval.
  destruct b; [|].
  - rewrite Hval in H. cbn in H. by apply validation_allowed.
  - unfold item in Hval. destruct field as [| | | | |l|d]; try done. cbn in Hb. injection Hb as Hb.
    unfold din, ditem in *. by destruct (dget "value" d).
Qed.

Lemma check_fold t e l w b w' :
  foldM (check_step t) e l w = (Ok b, w') → b = false → e = false ∧ Forall (λ f, field_error t f = Ok None) l.
Proof.
  revert e w. induction l as [|f l IH]; intros e w H Hb; cbn [foldM] in H.
  - injection H as <- _. done.
  - apply io_bind_Ok in H as (e' & w1 & H1 & H). apply IH in H as [-> Hl]; [|done].
    unfold check_step in H1. apply io_bind_pure in H1 as (err & Herr & H1).
    destruct err; [apply io_print_bind in H1 as [_ H1]; by injection H1|]. injection H1 as -> _.
    split; [done|]. by constructor.
Qed.

(** ** Where the values go *)

(** An entry with an integer page and a name *)
Definition plain_entry (f : json) : Prop :=
  ∃ d p k, f = JObj d ∧ dget "page" d = Some (JInt p) ∧ dget "field_id" d = Some (JStr k).

(** The last value given for a field of a page *)
Definition given_step (p : Z) (k : string) (acc : option json) (f : json) : option json :=
  match f with
  | JObj d =>
      match dget "page" d, dget "field_id" d, dget "value" d with
      | Some (JInt q), Some (JStr s), Some v => if (p =? q) && bool_decide (k = s) then Some v else acc
      | _, _, _ => acc
      end
  | _ => acc
  end.
Definition given (l : list json) (p : Z) (k : string) : option json := foldl (given_step p k) None l.

(** Keys that a table tells apart by equality *)
Definition plain_key (k : json) : Prop := (∃ p, k = JInt p) ∨ ∃ s, k = JStr s.

Lemma same_item_plain a b : plain_key a → plain_key b → same_item a b = true ↔ a = b.
Proof.
  intros [[p ->]|[s ->]] [[q ->]|[r ->]]; cbn; try done.
  - rewrite Z.eqb_eq. naive_solver.
  - rewrite bool_decide_eq_true. naive_solver.
Qed.

Lemma vget_vset {V} k k' (v : V) d :
  plain_key k → plain_key k' → Forall (λ e, plain_key e.1) d →
  vget k (vset k' v d) = if same_item k k' then Some v else vget k d.
Proof.
  intros Hk Hk' Hd. unfold vget. induction Hd as [|[x y] d Hx _ IH]; cbn [vset].
  - cbn. by destruct (same_item k k').
  - cbn in Hx. destruct (same_item k' x) eqn:E.
    + apply same_item_plain in E as <-; [|done..]. cbn. by destruct (same_item k k').
    + cbn. destruct (same_item k x) eqn:E'; [|done]. apply same_item_plain in E' as ->; [|done..].
      destruct (same_item x k') eqn:E''; [|done]. apply same_item_plain in E'' as ->; [|done..].
      assert (same_item k' k' = true) by (by apply same_item_plain). congruence.
Qed.

Lemma vset_plain {V} k (v : V) d :
  plain_key k → Forall (λ e, plain_key e.1) d → Forall (λ e, plain_key e.1) (vset k v d).
Proof.
  intros Hk. induction 1 as [|[x y] d Hx Hd IH]; cbn [vset]; [by apply Forall_singleton|].
  case_match; by constructor.
Qed.

Definition plain_table (t : list (json * list (json * json))) : Prop :=
  Forall (λ e, plain_key e.1 ∧ Forall (λ e', plain_key e'.1) e.2) t.

Lemma vset_pages k vs t :
  plain_key k → Forall (λ e, plain_key e.1) vs → plain_table t → plain_table (vset k vs t).
Proof.
  intros Hk Hvs. induction 1 as [|[x y] d [Hx Hy] Hd IH]; cbn [vset]; [by apply Forall_singleton|].
  case_match; by constructor.
Qed.

Lemma vget_plain k t vs : plain_table t → vget k t = Some vs → Forall (λ e, plain_key e.1) vs.
Proof.
  intros Ht. unfold vget. destruct (List.find _ t) as [[k' g]|] eqn:E; [|done]. intros [= <-].
  apply List.find_some in E as [Hin _]. apply list_elem_of_In in Hin. unfold plain_table in Ht.
  rewrite Forall_forall in Ht. by destruct (Ht _ Hin).
Qed.

Definition lookup_value (t : list (json * list (json * json))) (p : Z) (k : string) : option json :=
  vget (JInt p) t ≫= vget (JStr k).

Lemma value_step_given t f t' p k :
  plain_table t → plain_entry f → value_step t f = Ok t' →
  plain_table t' ∧ lookup_value t' p k = given_step p k (lookup_value t p k) f.
Proof.
  intros Ht (d & q & s & -> & Hq & Hs). unfold value_step, py_contains, item, ditem, din, given_step.
  cbn [mbind result_bind]. rewrite Hq, Hs. cbn [of_option mbind result_bind hashable].
  destruct (dget "value" d) as [v|]; [|by intros [= <-]].
  cbn [of_option mbind result_bind]. intros [= <-].
  assert (plain_key (JInt q)) as Hkq by (left; by eexists).
  assert (plain_key (JStr s)) as Hks by (right; by eexists).
  assert (Forall (λ e, plain_key e.1) (default [] (vget (JInt q) t))) as Hin.
  { destruct (vget (JInt q) t) eqn:E; [by eapply vget_plain|constructor]. }
  split; [apply vset_pages; [done| |done]; by apply vset_plain|].
  unfold lookup_value. rewrite vget_vset; [|by left; eexists|done|].
  2: { eapply Forall_impl; [exact Ht|]. by intros ? [? _]. }
  change (same_item (JInt p) (JInt q)) with (p =? q).
  destruct (Z.eqb_spec p q) as [->|]; [|done]. cbn [andb mbind option_bind].
  rewrite vget_vset; [|by right; eexists|done|done].
  change (same_item (JStr k) (JStr s)) with (bool_decide (k = s)).
  case_bool_decide; [done|]. by destruct (vget (JInt q) t).
Qed.

Lemma values_given l t :
  Forall plain_entry l → foldM value_step [] l = Ok t → ∀ p k, lookup_value t p k = given l p k.
Proof.
  intros Hl H p k.
  cut (plain_table t ∧ lookup_value t p k = given l p k); [by intros [_ ?]|]. revert H.
  apply (foldM_inv _ (λ done t, plain_table t ∧ lookup_value t p k = given done p k)).
  - split; [constructor|done].
  - intros done f rest acc acc' -> [Ht Hg] Hstep. apply Forall_app in Hl as [_ Hl].
    apply Forall_cons in Hl as [Hf _]. destruct (value_step_given acc f acc' p k Ht Hf Hstep) as [? ->].
    split; [done|]. unfold given. by rewrite foldl_app, Hg.
Qed.

(** ** The program *)

(** [checked lib input json_path w l values reader]: the file of values holds the
    entries [l], which give the values [values] by page and name, and each of them
    goes with a field of the PDF. *)
Definition checked (lib : pdf_library) (input json_path : string) (w : world) (l : list json)
    (values : list (json * list (json * json))) (reader : pdf_reader) : Prop :=
  ∃ v infos w1, json_file w (parse_path json_path) = Some v ∧ py_iter v = Ok l ∧
    lib_open lib (parse_path input) w = Ok reader ∧ get_field_info reader w = (Ok infos, w1) ∧
    Forall (fits infos) l ∧ foldM value_step [] l = Ok values.

Section fill.
Context (lib : pdf_library).

Lemma get_field_info_files reader : preserves same_files (get_field_info reader).
Proof.
  unfold get_field_info, field_step, make_field_dict, location_step. preserves_tac.
Qed.

Lemma check_fold_files tbl l b : preserves same_files (foldM (check_step tbl) b l).
Proof. unfold check_step. preserves_tac. Qed.

(** C33: fill_fillable_fields.py opens the output file only when every entry of
    the file of values has the name and the page of a field of the PDF and, if it
    has a value, one that the field takes, and when the library has taken all the
    values.  Before that every exception leaves all files as they were, and so
    does an output file that cannot be opened.  After that the output file, and
    no other, has changed: it holds the bytes that the library puts into it, and
    the program succeeds if the library does and ends with its exception if not.
    For entries with integer pages the value of a field that is filled in is the
    last one that was given for it. *)
Theorem fill_checks_first input json_path output w r w' :
  fill_pdf_fields lib input json_path output w = (r, w') →
  (∃ e, r = Err e ∧ same_files w w') ∨
  ∃ l values reader writer bytes failure,
    checked lib input json_path w l values reader ∧ fill_writer lib reader values = Ok writer ∧
    lib_write lib writer = (bytes, failure) ∧ only_wrote (parse_path output) bytes w w' ∧
    r = match failure with None => Ok tt | Some e => Err e end ∧
    (Forall plain_entry l → ∀ p k, lookup_value values p k = given l p k).
Proof.
  unfold fill_pdf_fields.
  intros [?|(t & w0 & Ht & _ & H)]%quiet_bind; [by left| |preserves_tac].
  pose proof (f_equal snd Ht) as E. cbn in E. subst w0.
  apply quiet_bind in H as [?|(v & w0 & [Hv ->]%io_pure_Ok & _ & H)]; [by left| |preserves_tac].
  apply quiet_bind in H as [?|(l & w0 & [Hl ->]%io_pure_Ok & _ & H)]; [by left| |preserves_tac].
  apply quiet_bind in H as [?|(values & w0 & [Hvals ->]%io_pure_Ok & _ & H)]; [by left| |preserves_tac].
  apply quiet_bind in H as [?|(reader & w0 & Hr & _ & H)]; [by left| |by intros ?].
  injection Hr as Hr <-.
  apply quiet_bind in H as [?|(infos & w1 & Hi & Hw1 & H)]; [by left| |apply get_field_info_files].
  apply quiet_bind in H as [[e ?]|(tbl & w2 & [Htbl ->]%io_pure_Ok & _ & H)];
    [left; exists e; naive_solver eauto using same_files_trans| |preserves_tac].
  apply quiet_bind in H as [[e ?]|(b & w2 & Hb & Hw2 & H)];
    [left; exists e; naive_solver eauto using same_files_trans| |apply check_fold_files].
  pose proof (same_files_trans _ _ _ Hw1 Hw2) as Hw.
  destruct b; [left; injection H as <- <-; by eexists|].
  apply quiet_bind in H as [[e ?]|(writer & w3 & [Hwriter ->]%io_pure_Ok & _ & H)];
    [left; exists e; naive_solver eauto using same_files_trans| |preserves_tac].
  destruct (lib_write lib writer) as [bytes failure] eqn:Hbytes.
  apply write_stream_cases in H as [[e [-> ?]]|[Honly ->]];
    [left; exists e; split; [done|by eapply same_files_trans]|right].
  exists l, values, reader, writer, bytes, failure.
  split_and!; [|done|done|by eapply only_wrote_same|done|by intros; apply values_given].
  exists v, infos, w1. split_and!; [|done..| |done].
  - unfold json_file. unfold read_text in Ht. injection Ht as Ht. by rewrite Ht, Hv.
  - apply check_fold in Hb as [_ Hb]; [|done]. eapply Forall_impl; [exact Hb|].
    intros f Hf. eapply field_error_fits; [|exact Hf]. eapply fields_by_ids_table; [|exact Htbl].
    by eapply infos_named.
Qed.
End fill.

(** ** A form of two pages *)

Definition sample_reader : pdf_reader := PdfReader
  (JObj [("name", JObj [("/FT", JStr "/Tx")]);
         ("agree", JObj [("/FT", JStr "/Btn"); ("/_States_", JArr [JStr "/Off"; JStr "/Yes"])]);
         ("lost", JObj [("/FT", JStr "/Tx")])])
  [JObj [("/Annots", JArr [JObj [("/T", JStr "name"); ("/Rect", JArr [JInt 10; JInt 700; JInt 90; JInt 712])]])];
   JObj [("/Annots", JArr [JObj [("/T", JStr "agree"); ("/Rect", JArr [JInt 10; JInt 600; JInt 20; JInt 610])]])]].

Definition sample_values : string :=
  dumps (JArr [JObj [("field_id", JStr "name"); ("page", JInt 1); ("value", JStr "Ada")];
               JObj [("field_id", JStr "agree"); ("page", JInt 2); ("value", JStr "/Yes")]]).

Definition form_world : world := repo_world [(["repo"; "values.json"], sample_values)].

(** A library whose writer is the list of the updates, and whose file is their
    rendering, after which it raises if [failure] says so *)
Definition sample_library (failure : option exn) : pdf_library :=
  PdfLibrary (list json) (λ _ _, Ok sample_reader) (λ _, Ok [])
    (λ writer i vs, Ok (writer ++ [JArr (i :: map (λ '(k, v), JArr [k; v]) vs)])) Ok
    (λ writer, (dumps (JArr writer), failure)).

Definition filled (failure : option exn) : exc unit * world :=
  fill_pdf_fields (sample_library failure) "form.pdf" "values.json" "out.pdf" form_world.

Definition sample_infos : exc (list (dict json)) * world := get_field_info sample_reader form_world.

Lemma field_info_pages_witness :
  ∃ infos info, get_field_info sample_reader form_world = (Ok infos, sample_infos.2) ∧
    info ∈ infos ∧ dget "field_id" info = Some (JStr "agree") ∧ dget "page" info = Some (JInt 2).
Proof.
  destruct sample_infos as [[infos|e] w1] eqn:E; [|by vm_compute in E].
  destruct (proj2 (field_info_pages sample_reader _ form_world infos w1 "agree"
    (JObj [("/FT", JStr "/Btn"); ("/_States_", JArr [JStr "/Off"; JStr "/Yes"])]) 2
    eq_refl E ltac:(right; left) ltac:(by exists JNull)) ltac:(by vm_compute)) as (info & H).
  by exists infos, info.
Defined.

Lemma fill_checks_first_witness :
  ∃ values reader, checked (sample_library None) "form.pdf" "values.json" form_world
    (match json_loads sample_values with Ok (JArr l) => l | _ => [] end) values reader ∧
    only_wrote (parse_path "out.pdf") (dumps (JArr
      [JArr [JInt 0; JArr [JStr "name"; JStr "Ada"]]; JArr [JInt 1; JArr [JStr "agree"; JStr "/Yes"]]]))
      form_world (filled None).2.
Proof.
  destruct (fill_checks_first (sample_library None) "form.pdf" "values.json" "out.pdf"
    form_world (filled None).1 (filled None).2 (surjective_pairing (filled None)))
    as [(e & He & _)|(l & values & reader & writer & bytes & failure & Hc & _ & _ & Hw & _ & _)].
  - exfalso. vm_compute in He. discriminate He.
  - exists values, reader. split.
    + destruct Hc as (v & infos & w1 & Hv & Hl & Hrest). vm_compute in Hv. injection Hv as <-.
      vm_compute in Hl. injection Hl as <-. exists (JArr (match json_loads sample_values with Ok (JArr l) => l | _ => [] end)), infos, w1.
      split; [vm_compute; reflexivity|]. split; [reflexivity|]. exact Hrest.
    + destruct Hw as (Hb & Hcwd & Hq). vm_compute in Hb. injection Hb as <-. split; [vm_compute; reflexivity|].
      split; [exact Hcwd|]. exact Hq.
Defined.

(** A library that raises while it writes leaves a file with what it has written. *)
Example partial_output :
  (filled (Some (OSError "disk full"))).1 = Err (OSError "disk full") ∧
  file_bytes (filled (Some (OSError "disk full"))).2 (parse_path "out.pdf") =
    file_bytes (filled None).2 (parse_path "out.pdf").
Proof. split; vm_compute; reflexivity. Qed.

(** ** A field that cannot be filled *)

(** A check box whose number of states is not two is listed without its values,
    and a value for it ends the program with a KeyError instead of a message. *)
Example checkbox_without_values w :
  ∃ info, make_field_dict (JObj [("/FT", JStr "/Btn"); ("/_States_", JArr [JStr "/Yes"])]) "agree" w = (Ok info, w) ∧
    validation_error_for_field_value info (JStr "/Yes") = Err (KeyError "checked_value").
Proof. eexists. split; reflexivity. Qed.
