(* ===== verification/FormStructure.v ===== *)
(** * The structure of a form without fields

    .agents/skills/pdf/scripts/extract_form_structure.py lists the words, the wide
    horizontal lines, the small squares and the rows between the lines of a PDF.
    The library that reads the file is a parameter: the pages it returns, with
    floats as coordinates. *)

From Stdlib Require Import Ascii SpecFloat.
From S2P Require Import Prelude PyFloat PyVal PyPath Json JsonOut World PyColl RunnerCommon BoundingBoxes FormFields.

Local Open Scope Z_scope.

(** [round(f, 1)]: the decimal nearest to the float, as a float again *)
Definition round1 (f : float) : float :=
  match f with
  | S754_finite s m e => f_of_decimal s (scale_round (Zpos m) e 1) (-1)
  | f => f
  end.

(** [a <= b] *)
Definition f_leb : float → float → bool := SFleb.

Module FormStructure.

(** What stands on a page *)
Record element : Type := Element {
  x0 : float;
  top : float;
  x1 : float;
  bottom : float;
}.

Record page : Type := Page {
  pg_width : float;
  pg_height : float;
  pg_words : list (string * element);
  pg_lines : list element;
  pg_rects : list element;
}.

Definition number (z : Z) : float := f_normalize z 0.
Definition rounded (f : float) : json := JFloat (round1 f).

Definition page_entry (page_num : Z) (p : page) : json := JObj
  [("page_number", JInt page_num); ("width", JFloat (pg_width p)); ("height", JFloat (pg_height p))].

Definition label_entry (page_num : Z) (word : string * element) : json :=
  let '(text, e) := word in JObj
  [("page", JInt page_num); ("text", JStr text); ("x0", rounded (x0 e)); ("top", rounded (top e));
   ("x1", rounded (x1 e)); ("bottom", rounded (bottom e))].

(** An entry of [structure["lines"]]: its page and its three coordinates *)
Record line : Type := Line {
  l_page : Z;
  l_y : float;
  l_x0 : float;
  l_x1 : float;
}.

(** [abs(x1 - x0) > page.width * 0.5] *)
Definition is_wide (p : page) (e : element) : bool :=
  f_ltb (f_mul (pg_width p) (f_of_decimal false 5 (-1))) (SFabs (f_sub (x1 e) (x0 e))).

Definition line_of (page_num : Z) (p : page) (e : element) : option line :=
  if is_wide p e then Some (Line page_num (round1 (top e)) (round1 (x0 e)) (round1 (x1 e))) else None.

Definition line_entry (l : line) : json := JObj
  [("page", JInt (l_page l)); ("y", JFloat (l_y l)); ("x0", JFloat (l_x0 l)); ("x1", JFloat (l_x1 l))].

(** [5 <= width <= 15 and 5 <= height <= 15 and abs(width - height) < 2] *)
Definition is_checkbox (e : element) : bool :=
  let width := f_sub (x1 e) (x0 e) in
  let height := f_sub (bottom e) (top e) in
  f_leb (number 5) width && f_leb width (number 15) && f_leb (number 5) height &&
  f_leb height (number 15) && f_ltb (SFabs (f_sub width height)) (number 2).

Definition middle (a b : float) : json := rounded (f_div (f_add a b) (number 2)).

Definition checkbox_entry (page_num : Z) (e : element) : option json :=
  if is_checkbox e then Some (JObj
    [("page", JInt page_num); ("x0", rounded (x0 e)); ("top", rounded (top e)); ("x1", rounded (x1 e));
     ("bottom", rounded (bottom e)); ("center_x", middle (x0 e) (x1 e));
     ("center_y", middle (top e) (bottom e))])
  else None.

(** ** Rows *)

(** [lines_by_page] after one more line *)
Definition lines_step (lines_by_page : list (json * list float)) (l : line) : list (json * list float) :=
  vset (JInt (l_page l)) (default [] (vget (JInt (l_page l)) lines_by_page) ++ [l_y l]) lines_by_page.

(** [sorted(set(l))] of floats *)
Definition float_set (l : list float) : list float :=
  foldl (λ s f, if existsb (f_eqb f) s then s else s ++ [f]) [] l.
Definition sorted_floats (l : list float) : exc (list float) :=
  sort_by (λ a b, Ok (f_ltb a b)) (float_set l).

Definition row_entry (page : json) (a b : float) : json := JObj
  [("page", page); ("row_top", JFloat a); ("row_bottom", JFloat b); ("row_height", rounded (f_sub b a))].

(** One row for each two neighbours *)
Fixpoint rows (page : json) (ys : list float) : list json :=
  match ys with
  | a :: (b :: _) as rest => row_entry page a b :: rows page rest
  | _ => []
  end.

Definition row_boundaries (lines : list line) : exc (list json) :=
  foldM (λ acc '(page, y_coords), ys ← sorted_floats y_coords; Ok (acc ++ rows page ys)) []
    (foldl lines_step [] lines).

(** ** The structure *)

Record structure : Type := Structure {
  s_pages : list json;
  s_labels : list json;
  s_lines : list line;
  s_checkboxes : list json;
  s_row_boundaries : list json;
}.

Definition page_step (s : structure) (numbered : nat * page) : structure :=
  let '(i, p) := numbered in
  let page_num := Z.of_nat i + 1 in
  Structure (s_pages s ++ [page_entry page_num p])
    (s_labels s ++ map (label_entry page_num) (pg_words p))
    (s_lines s ++ omap (line_of page_num p) (pg_lines p))
    (s_checkboxes s ++ omap (checkbox_entry page_num) (pg_rects p))
    (s_row_boundaries s).

Definition structure_of (pages : list page) : exc structure :=
  let s := foldl page_step (Structure [] [] [] [] []) (enumerate pages) in
  boundaries ← row_boundaries (s_lines s);
  Ok (Structure (s_pages s) (s_labels s) (s_lines s) (s_checkboxes s) boundaries).

Definition structure_json (s : structure) : json := JObj
  [("pages", JArr (s_pages s)); ("labels", JArr (s_labels s)); ("lines", JArr (line_entry <$> s_lines s));
   ("checkboxes", JArr (s_checkboxes s)); ("row_boundaries", JArr (s_row_boundaries s))].

Section library.
Context (open_pdf : path → world → exc (list page)).

Definition extract_form_structure (pdf_path : string) : io structure :=
  pages ← (λ w, (open_pdf (parse_path pdf_path) w, w));
  pure_ (structure_of pages).

Definition count (n : nat) (what : string) : io unit := print (cat ["  - "; pretty n; " "; what]).

(** The arguments after the name, the exit code *)
Definition main (argv : list string) : io Z :=
  match argv with
  | [pdf_path; output_path] =>
      print (cat ["Extracting structure from "; pdf_path; "..."]);;
      s ← extract_form_structure pdf_path;
      write_utf8 (parse_path output_path) (dumps_plain 0 (structure_json s));;
      print "Found:";;
      count (length (s_pages s)) "pages";;
      count (length (s_labels s)) "text labels";;
      count (length (s_lines s)) "horizontal lines";;
      count (length (s_checkboxes s)) "checkboxes";;
      count (length (s_row_boundaries s)) "row boundaries";;
      print ("Saved to " +:+ output_path);;
      mret 0
  | _ => print "Usage: extract_form_structure.py <input.pdf> <output.json>";; mret 1
  end.
End library.
End FormStructure.
