(* ===== verification/FormStructureSpec.v ===== *)
(** * Theorems about the structure of a form

    The rows that extract_form_structure.py reports ([FormStructure]) are the
    spaces between neighbouring wide lines of each page. *)

From Stdlib Require Import Ascii SpecFloat.
From S2P Require Import Prelude PyFloat PyVal PyPath Json JsonOut World Files PyColl Fixtures RunnerCommon BoundingBoxes FormFields FormStructure.

Local Open Scope Z_scope.
Import FormStructure.

(** ** Sorted sets of floats *)

Lemma insert_float_Ok x l : ∃ k, insert_by (λ a b, Ok (f_ltb a b)) x l = Ok k.
Proof.
  induction l as [|y l [k IH]]; [by eexists|]. cbn. destruct (f_ltb x y); [by eexists|].
  rewrite IH. by eexists.
Qed.

Lemma sorted_floats_Ok l : ∃ k, sorted_floats l = Ok k.
Proof.
  unfold sorted_floats, sort_by. generalize (@nil float). induction (float_set l) as [|x s IH]; intros acc; [by eexists|].
  cbn [foldM]. destruct (insert_float_Ok x acc) as [k ->]. apply IH.
Qed.

(** A symmetric relation between all elements does not depend on their order. *)
Lemma pairs_perm {A} (R : relation A) l k :
  Symmetric R → l ≡ₚ k → StronglySorted R l → StronglySorted R k.
Proof.
  intros HR. induction 1 as [|x l k Hp IH|x y l|l1 l2 l3 _ IH1 _ IH2]; [done|..|by auto].
  - intros H. inversion H as [|? ? Hs Hx]; subst. constructor; [by apply IH|]. by rewrite <-Hp.
  - intros H. inversion H as [|? ? Hs Hy]; subst. inversion Hs as [|? ? Hl Hx]; subst.
    apply Forall_cons in Hy as [Hyx Hy]. repeat constructor; [done..|by symmetry|done].
Qed.

Lemma sorted_and {A} (R1 R2 R : relation A) (P : A → Prop) l :
  (∀ a b, P a → P b → R1 a b → R2 a b → R a b) → Forall P l →
  StronglySorted R1 l → StronglySorted R2 l → StronglySorted R l.
Proof.
  intros HR HP H1. induction H1 as [|x l _ IH Hx1]; intros H2; [constructor|].
  inversion H2 as [|? ? Hs Hx2]; subst. apply Forall_cons in HP as [Hx Hl].
  constructor; [by apply IH|]. rewrite Forall_forall in Hx1, Hx2, Hl |- *. auto.
Qed.

Lemma f_eqb_refl a : is_nan a = false → f_eqb a a = true.
Proof. unfold f_eqb, SFeqb. float_order. Qed.

(** Different floats *)
Definition f_ne (a b : float) : Prop := f_eqb b a = false.

(** The elements of a set are elements of the list, pairwise different, and
    every number of the list equals one of them. *)
Lemma float_set_spec l :
  (∀ x, x ∈ float_set l → x ∈ l) ∧ StronglySorted f_ne (float_set l) ∧
  ∀ x, x ∈ l → is_nan x = false → ∃ y, y ∈ float_set l ∧ f_eqb x y = true.
Proof.
  unfold float_set. induction l as [|x l IH] using rev_ind; [split_and!; [done|constructor|set_solver]|].
  rewrite foldl_snoc. set (s := foldl _ [] l) in *. clearbody s. destruct IH as (Hin & Hs & Hall).
  destruct (existsb (f_eqb x) s) eqn:Hex.
  - split_and!; [set_solver|done|]. intros y [Hy| ->%list_elem_of_singleton]%elem_of_app Hn; [by apply Hall|].
    apply existsb_exists in Hex as (z & Hz & Heq). exists z. split; [by apply list_elem_of_In|done].
  - split_and!; [set_solver| |].
    + apply StronglySorted_app. split_and!; [|done|by repeat constructor].
      intros a b Ha ->%list_elem_of_singleton. apply not_true_iff_false. intros Heq.
      enough (existsb (f_eqb x) s = true) by congruence. apply existsb_exists. exists a.
      split; [by apply list_elem_of_In|done].
    + intros y [Hy| ->%list_elem_of_singleton]%elem_of_app Hn.
      * destruct (Hall y Hy Hn) as (z & Hz & Heq). exists z. set_solver.
      * exists x. split; [set_solver|]. by apply f_eqb_refl.
Qed.

Definition f_le (a b : float) : Prop := f_ltb b a = false.

Lemma f_le_trans a b c : is_nan b = false → f_le a b → f_le b c → f_le a c.
Proof.
  unfold f_le. intros Hb Hab Hbc. apply not_true_iff_false. intros H.
  destruct (f_ltb_split c b a) as [?|?]; congruence.
Qed.

Lemma sorted_floats_spec l ys :
  sorted_floats l = Ok ys →
  (∀ y, y ∈ ys → y ∈ l) ∧
  (Forall (λ x, is_nan x = false) l →
    StronglySorted (λ a b, f_ltb a b = true) ys ∧ ∀ x, x ∈ l → ∃ y, y ∈ ys ∧ f_eqb x y = true).
Proof.
  intros H. destruct (float_set_spec l) as (Hin & Hdiff & Hall).
  pose proof (sort_by_perm _ _ _ H) as Hperm.
  split; [intros y; rewrite Hperm; apply Hin|]. intros Hnan. rewrite Forall_forall in Hnan. split.
  - destruct (sort_by_sorted (λ a b, Ok (f_ltb a b)) f_le (λ x, is_nan x = false)) with (float_set l)
      as (k & Hk & _ & Hs); [..|].
    { intros x y _ _. exists (f_ltb x y). split; [done|]. unfold f_le. split; [done|].
      intros Hlt. apply not_true_iff_false. intros Hlt'.
      pose proof (f_ltb_trans x y x Hlt Hlt') as E. by rewrite f_ltb_irrefl in E. }
    { intros x y z _ Hy _. by apply f_le_trans. }
    { apply Forall_forall. intros x Hx. by apply Hnan, Hin. }
    unfold sorted_floats in H. rewrite Hk in H. injection H as <-.
    apply (sorted_and f_le f_ne _ (λ x, is_nan x = false)); [| |done|].
    + unfold f_le, f_ne. intros a b Ha Hb Hle Hne. rewrite f_eqb_sym in Hne.
      destruct (f_ltb_total a b Ha Hb) as [?|[?|?]]; congruence.
    + apply Forall_forall. intros x. rewrite Hperm. intros Hx. by apply Hnan, Hin.
    + eapply pairs_perm; [|symmetry; exact Hperm|exact Hdiff]. intros a b. unfold f_ne. by rewrite f_eqb_sym.
  - intros x Hx. destruct (Hall x Hx (Hnan x Hx)) as (y & Hy & Heq). exists y. by rewrite Hperm.
Qed.

(** ** The lines of a page *)

Definition wide_tops (p : page) : list float :=
  omap (λ e, if is_wide p e then Some (round1 (top e)) else None) (pg_lines p).

Definition page_number (i : nat) : Z := Z.of_nat i + 1.
Definition page_lines (i : nat) (p : page) : list line := omap (line_of (page_number i) p) (pg_lines p).

Lemma page_lines_tops i p : l_y <$> page_lines i p = wide_tops p.
Proof.
  unfold page_lines, wide_tops, line_of. induction (pg_lines p) as [|e l IH]; [done|].
  cbn [omap list_omap]. destruct (is_wide p e); cbn; by rewrite <-IH.
Qed.

Lemma page_lines_page i p : Forall (λ l, l_page l = page_number i) (page_lines i p).
Proof.
  apply Forall_forall. intros l (e & _ & He)%list_elem_of_omap. unfold line_of in He.
  destruct (is_wide p e); [|done]. by injection He as <-.
Qed.

(** The pages from number [n] on *)
Definition numbered (n : nat) (pages : list page) : list (nat * page) := zip (seq n (length pages)) pages.

Lemma pages_lines s l :
  s_lines (foldl page_step s l) = s_lines s ++ concat (map (λ '(i, p), page_lines i p) l).
Proof.
  revert s. induction l as [|[i p] l IH]; intros s; cbn [foldl map concat]; [by rewrite app_nil_r|].
  rewrite IH. cbn. by rewrite <-app_assoc.
Qed.

(** ** The table of lines *)

Definition new_key {V} (k : json) (t : list (json * V)) : Prop := Forall (λ e, same_item k e.1 = false) t.

Lemma vset_new {V} k (v : V) t : new_key k t → vset k v t = t ++ [(k, v)].
Proof. induction 1 as [|[x y] t Hx _ IH]; [done|]. cbn in *. by rewrite Hx, IH. Qed.

Lemma vget_new {V} k (t : list (json * V)) : new_key k t → vget k t = None.
Proof. unfold vget. induction 1 as [|[x y] t Hx _ IH]; [done|]. cbn in *. by rewrite Hx. Qed.

Lemma vset_last {V} z (v v' : V) t : new_key (JInt z) t → vset (JInt z) v (t ++ [(JInt z, v')]) = t ++ [(JInt z, v)].
Proof.
  induction 1 as [|[x y] t Hx _ IH]; cbn in *; [|by rewrite Hx, IH].
  by rewrite Z.eqb_refl.
Qed.

Lemma vget_last {V} z (v : V) t : new_key (JInt z) t → vget (JInt z) (t ++ [(JInt z, v)]) = Some v.
Proof.
  unfold vget. induction 1 as [|[x y] t Hx _ IH]; cbn in *; [by rewrite Z.eqb_refl|]. by rewrite Hx.
Qed.

Definition entry (k : json) (ys : list float) : list (json * list float) :=
  match ys with [] => [] | _ => [(k, ys)] end.

Lemma lines_of_page z t ls :
  new_key (JInt z) t → Forall (λ l, l_page l = z) ls →
  foldl lines_step t ls = t ++ entry (JInt z) (l_y <$> ls).
Proof.
  intros Ht. induction ls as [|l ls IH] using rev_ind; intros Hls; [by rewrite app_nil_r|].
  apply Forall_app in Hls as [Hls Hl]. rewrite Forall_singleton in Hl.
  rewrite foldl_snoc, IH by done. unfold lines_step. rewrite Hl, fmap_app. cbn [fmap list_fmap].
  destruct (l_y <$> ls) as [|y ys] eqn:Hys; cbn [entry app].
  - rewrite app_nil_r, vget_new by done. by apply vset_new.
  - rewrite vget_last by done. cbn [default from_option]. by rewrite vset_last.
Qed.

(** The table of the pages from number [n] on, in their order *)
Definition lines_table (l : list (nat * page)) : list (json * list float) :=
  concat (map (λ '(i, p), entry (JInt (page_number i)) (wide_tops p)) l).

Lemma lines_table_step n pages t :
  (∀ i, (n ≤ i)%nat → new_key (JInt (page_number i)) t) →
  foldl lines_step t (concat (map (λ '(i, p), page_lines i p) (numbered n pages))) =
    t ++ lines_table (numbered n pages).
Proof.
  revert n t. induction pages as [|p pages IH]; intros n t Ht; [by rewrite app_nil_r|].
  unfold numbered. cbn [length seq zip zip_with map concat]. fold (numbered (S n) pages).
  rewrite foldl_app, (lines_of_page (page_number n) t (page_lines n p)); [|apply Ht; lia|apply page_lines_page].
  rewrite page_lines_tops, IH.
  - unfold lines_table. cbn [map concat]. by rewrite app_assoc.
  - intros i Hi. apply Forall_app. split; [apply Ht; lia|].
    destruct (wide_tops p); constructor; [|constructor]. cbn. apply Z.eqb_neq. unfold page_number. lia.
Qed.

(** ** Rows *)

Lemma rows_fold t acc :
  ∃ l, foldM (λ acc '(page, ys), ys ← sorted_floats ys; Ok (acc ++ rows page ys)) acc t = Ok (acc ++ l) ∧
    ∃ yss, Forall2 (λ e ys, sorted_floats e.2 = Ok ys) t yss ∧
      l = concat (zip_with (λ e ys, rows e.1 ys) t yss).
Proof.
  revert acc. induction t as [|[k ys0] t IH]; intros acc.
  - exists []. rewrite app_nil_r. split; [done|]. exists []. by split; [constructor|].
  - cbn [foldM]. destruct (sorted_floats_Ok ys0) as [ys Hys]. rewrite Hys. cbn [mbind result_bind].
    destruct (IH (acc ++ rows k ys)) as (l & Hl & yss & Hyss & ->).
    exists (rows k ys ++ concat (zip_with (λ e ys, rows e.1 ys) t yss)). rewrite app_assoc. split; [exact Hl|].
    exists (ys :: yss). split; [by constructor|done].
Qed.

(** The rows of the pages, a page without lines having none *)
Lemma rows_of_table l yss :
  Forall2 (λ e ys, sorted_floats e.2 = Ok ys) (lines_table l) yss →
  ∃ all, Forall2 (λ '(i, p) ys, sorted_floats (wide_tops p) = Ok ys) l all ∧
    concat (zip_with (λ e ys, rows e.1 ys) (lines_table l) yss) =
    concat (zip_with (λ '(i, p) ys, rows (JInt (page_number i)) ys) l all).
Proof.
  revert yss. induction l as [|[i p] l IH]; intros yss H.
  - exists []. split; [constructor|]. by inversion H.
  - change (lines_table ((i, p) :: l)) with (entry (JInt (page_number i)) (wide_tops p) ++ lines_table l) in *.
    destruct (wide_tops p) as [|y ys0] eqn:Hp; cbn [entry app] in *.
    + destruct (IH yss H) as (all & Hall & Heq). exists ([] :: all). split; [|exact Heq].
      constructor; [by rewrite Hp|done].
    + inversion H as [|? ys ? yss' Hys Hrest]; subst. destruct (IH yss' Hrest) as (all & Hall & Heq).
      exists (ys :: all). split; [constructor; [by rewrite Hp|done]|].
      cbn [zip_with concat]. by rewrite Heq.
Qed.

(** What the horizontal boundaries of a page are *)
Definition boundaries (p : page) (ys : list float) : Prop :=
  (∀ y, y ∈ ys → y ∈ wide_tops p) ∧
  (Forall (λ y, is_nan y = false) (wide_tops p) →
    StronglySorted (λ a b, f_ltb a b = true) ys ∧ ∀ y, y ∈ wide_tops p → ∃ y', y' ∈ ys ∧ f_eqb y y' = true).

(** C38: the extraction returns for every document, and the rows it reports are,
    page after page, those between neighbouring boundaries, where the boundaries of
    a page are the rounded positions of its wide lines, each once and increasing
    (if they are numbers). *)
Theorem structure_rows pages :
  ∃ s yss, structure_of pages = Ok s ∧ Forall2 boundaries pages yss ∧
    s_row_boundaries s = concat (imap (λ i ys, rows (JInt (page_number i)) ys) yss).
Proof.
  unfold structure_of. set (s0 := foldl page_step _ _). cbv zeta.
  assert (s_lines s0 = concat (map (λ '(i, p), page_lines i p) (numbered 0 pages))) as Hlines
    by (unfold s0; by rewrite pages_lines).
  unfold row_boundaries. rewrite Hlines, (lines_table_step 0) by (intros; constructor). cbn [app].
  destruct (rows_fold (lines_table (numbered 0 pages)) []) as (l & -> & yss & Hyss & ->).
  apply rows_of_table in Hyss as (all & Hall & ->). cbn [app mbind result_bind].
  eexists _, all. split; [done|]. split.
  - assert ((numbered 0 pages).*2 = pages) as Hsnd by (apply snd_zip; by rewrite length_seq).
    rewrite <-Hsnd at 1. apply Forall2_fmap_l. eapply Forall2_impl; [exact Hall|].
    intros [i p] ys Hys. by apply sorted_floats_spec in Hys.
  - cbn [s_row_boundaries]. f_equal. apply list_eq. intros i.
    rewrite list_lookup_imap, lookup_zip_with. unfold numbered.
    apply Forall2_length in Hall as Hlen. unfold numbered in Hlen. rewrite length_zip_with, length_seq in Hlen.
    destruct (all !! i) as [ys|] eqn:Hi; cbn.
    + apply lookup_lt_Some in Hi as Hlt. rewrite lookup_zip_with, lookup_seq_lt by lia. cbn.
      destruct (lookup_lt_is_Some_2 pages i) as [p Hp]; [lia|]. rewrite Hp. done.
    + destruct (zip_with _ _ _ !! i) as [[]|]; cbn; by rewrite ?Hi.
Qed.

(** ** A page with three lines, two of them at the same height after rounding *)

Definition sample_page : page := Page (f_normalize 600 0) (f_normalize 800 0) []
  [Element (f_normalize 50 0) (f_of_decimal false 20002 (-2)) (f_normalize 550 0) (f_of_decimal false 20002 (-2));
   Element (f_normalize 50 0) (f_of_decimal false 1000 (-1)) (f_normalize 550 0) (f_of_decimal false 1000 (-1));
   Element (f_normalize 60 0) (f_of_decimal false 20004 (-2)) (f_normalize 550 0) (f_of_decimal false 20004 (-2));
   Element (f_normalize 60 0) (f_normalize 300 0) (f_normalize 90 0) (f_normalize 300 0)]
  [Element (f_normalize 10 0) (f_normalize 10 0) (f_normalize 20 0) (f_of_decimal false 195 (-1))].

Example sample_structure :
  (s ← structure_of [sample_page];
   Ok (length (s_lines s), dumps (JArr (s_checkboxes s)), dumps (JArr (s_row_boundaries s)))) =
  Ok (3%nat,
    jtext "[{'page': 1, 'x0': 10.0, 'top': 10.0, 'x1': 20.0, 'bottom': 19.5, 'center_x': 15.0, 'center_y': 14.8}]",
    jtext "[{'page': 1, 'row_top': 100.0, 'row_bottom': 200.0, 'row_height': 100.0}]").
Proof. vm_compute. reflexivity. Qed.
