(* ===== verification/FormAnnotations.v ===== *)
(** * Filling a form with annotations

    .agents/skills/pdf/scripts/fill_pdf_form_with_annotations.py writes text at the
    entry boxes of a form, as given in a JSON file.  The PDF library is a
    parameter: the sizes of the pages it reads, whether it accepts an annotation
    after others, and what it puts into the output file, which is open by then,
    for given annotations, before it raises or returns. *)

From Stdlib Require Import Ascii SpecFloat.
From S2P Require Import Prelude PyFloat PyVal PyPath Json JsonOut World PyColl RunnerCommon BoundingBoxes FormFields.

Local Open Scope Z_scope.

Module FormAnnotations.

(** [left, bottom, right, top] *)
Record box : Type := Box {
  b_left : json;
  b_bottom : json;
  b_right : json;
  b_top : json;
}.

Definition transform_from_image_coords (bbox image_width image_height : json) (pdf_width pdf_height : float)
    : exc box :=
  x_scale ← py_div (JFloat pdf_width) image_width;
  y_scale ← py_div (JFloat pdf_height) image_height;
  x0 ← py_nth bbox 0;
  left ← mul_float x0 x_scale;
  x1 ← py_nth bbox 2;
  right ← mul_float x1 x_scale;
  y0 ← py_nth bbox 1;
  y0 ← mul_float y0 y_scale;
  y1 ← py_nth bbox 3;
  y1 ← mul_float y1 y_scale;
  Ok (Box (JFloat left) (JFloat (f_sub pdf_height y1)) (JFloat right) (JFloat (f_sub pdf_height y0))).

Definition transform_from_pdf_coords (bbox : json) (pdf_height : float) : exc box :=
  left ← py_nth bbox 0;
  right ← py_nth bbox 2;
  y0 ← py_nth bbox 1;
  pypdf_top ← py_sub (JFloat pdf_height) y0;
  y1 ← py_nth bbox 3;
  pypdf_bottom ← py_sub (JFloat pdf_height) y1;
  Ok (Box left pypdf_bottom right pypdf_top).

Record annotation : Type := FreeText {
  a_text : json;
  a_rect : box;
  a_font : json;
  a_font_size : string;
  a_font_color : json;
}.

(** [next(p for p in pages if p["page_number"] == page_num)] *)
Fixpoint find_page (page_num : json) (pages : list json) : exc json :=
  match pages with
  | [] => Err StopIteration
  | p :: pages =>
      n ← item "page_number" p;
      if py_eq n page_num then Ok p else find_page page_num pages
  end.

(** [pdf_dimensions]: the width and the height of each page, by its number *)
Definition pdf_dimensions (sizes : list (float * float)) : list (json * (float * float)) :=
  map (λ '(i, size), (JInt (Z.of_nat i + 1), size)) (enumerate sizes).

(** The entry box of a field in the coordinates of the PDF *)
Definition entry_box (dimensions : list (json * (float * float))) (fields_data field page_num : json) : exc box :=
  pages ← item "pages" fields_data;
  pages ← py_iter pages;
  page_info ← find_page page_num pages;
  hashable page_num;;
  '(pdf_width, pdf_height) ← of_option (KeyError (py_str page_num)) (vget page_num dimensions);
  in_pdf ← py_contains "pdf_width" page_info;
  if (in_pdf : bool) then
    bbox ← item "entry_bounding_box" field;
    transform_from_pdf_coords bbox pdf_height
  else
    image_width ← item "image_width" page_info;
    image_height ← item "image_height" page_info;
    bbox ← item "entry_bounding_box" field;
    transform_from_image_coords bbox image_width image_height pdf_width pdf_height.

(** The text of a field and its font, if it has a text that is not empty *)
Definition entry_text (field : json) (rect : box) : exc (option annotation) :=
  has_entry ← py_contains "entry_text" field;
  if negb has_entry then Ok None
  else
    entry ← item "entry_text" field;
    has_text ← py_contains "text" entry;
    if negb has_text then Ok None
    else
      text ← item "text" entry;
      if negb (truthy text) then Ok None
      else
        font_name ← py_get entry "font" (JStr "Arial");
        font_size ← py_get entry "font_size" (JInt 14);
        font_color ← py_get entry "font_color" (JStr "000000");
        Ok (Some (FreeText text rect font_name (py_str font_size +:+ "pt") font_color)).

Section library.
Context (open_pages : path → world → exc (list (float * float))).
Context (annotate : list (json * annotation) → json * annotation → exc unit).
Context (pdf_bytes : path → list (json * annotation) → string * option exn).

(** The annotations after one more field, each with the index of its page *)
Definition field_step (dimensions : list (json * (float * float))) (fields_data : json)
    (annotations : list (json * annotation)) (field : json) : exc (list (json * annotation)) :=
  page_num ← item "page_number" field;
  rect ← entry_box dimensions fields_data field page_num;
  o ← entry_text field rect;
  match o with
  | None => Ok annotations
  | Some a =>
      index ← py_sub page_num (JInt 1);
      annotate annotations (index, a);;
      Ok (annotations ++ [(index, a)])
  end.

Definition fill_pdf_form (input_pdf_path fields_json_path output_pdf_path : string) : io unit :=
  t ← read_text (parse_path fields_json_path);
  fields_data ← pure_ (json_loads t);
  sizes ← (λ w, (open_pages (parse_path input_pdf_path) w, w));
  form_fields ← pure_ (item "form_fields" fields_data);
  l ← pure_ (py_iter form_fields);
  annotations ← pure_ (foldM (field_step (pdf_dimensions sizes) fields_data) [] l);
  write_stream (parse_path output_pdf_path) (pdf_bytes (parse_path input_pdf_path) annotations);;
  print ("Successfully filled PDF form and saved to " +:+ output_pdf_path);;
  print (cat ["Added "; pretty (length annotations); " text annotations"]).

(** The arguments after the name, the exit code *)
Definition main (argv : list string) : io Z :=
  match argv with
  | [input_pdf; fields_json; output_pdf] => fill_pdf_form input_pdf fields_json output_pdf;; mret 0
  | _ =>
      print "Usage: fill_pdf_form_with_annotations.py [input pdf] [fields.json] [output pdf]";;
      mret 1
  end.
End library.
End FormAnnotations.
