(* ===== verification/FormAnnotationsSpec.v ===== *)
(** * Theorems about filling a form with annotations

    What fill_pdf_form_with_annotations.py adds to a PDF ([FormAnnotations]): one
    annotation for each field that has a text, on the field's page, at the field's
    box in the coordinates of the PDF ([located] says where that is); and the
    output file is not opened unless every field could be placed. *)

From Stdlib Require Import Ascii SpecFloat.
From S2P Require Import Prelude PyFloat PyVal PyPath Json JsonOut PyColl World Files JsonRound Fixtures RunnerCommon BoundingBoxes FormFields FormAnnotations.

Local Open Scope Z_scope.
Import FormAnnotations.

(** ** Fields and their text *)

(** The text of a field, if it has one *)
Definition text_of (field : json) : option json :=
  match item "entry_text" field with
  | Ok entry =>
      match item "text" entry with
      | Ok text => if truthy text then Some text else None
      | Err _ => None
      end
  | Err _ => None
  end.

(** A field is a dictionary, and so is its entry text. *)
Definition is_field (field : json) : Prop :=
  ∃ d, field = JObj d ∧ ∀ entry, dget "entry_text" d = Some entry → ∃ e, entry = JObj e.

(** The font that a key of the entry text gives, or the default *)
Definition entry_get (field : json) (key : string) (dflt : json) : json :=
  match item "entry_text" field with
  | Ok (JObj e) => default dflt (dget key e)
  | _ => dflt
  end.

(** An annotation shows the text of its field in the font of its field. *)
Definition shows (field : json) (a : annotation) : Prop :=
  text_of field = Some (a_text a) ∧
  a_font a = entry_get field "font" (JStr "Arial") ∧
  a_font_size a = py_str (entry_get field "font_size" (JInt 14)) +:+ "pt" ∧
  a_font_color a = entry_get field "font_color" (JStr "000000").

Lemma entry_text_spec field rect o :
  is_field field → entry_text field rect = Ok o →
  match o with
  | None => text_of field = None
  | Some a => shows field a ∧ a_rect a = rect
  end.
Proof.
  intros (d & -> & Hentry). unfold entry_text, shows, entry_get, text_of, py_contains, item, ditem, din.
  cbn [mbind result_bind]. destruct (dget "entry_text" d) as [entry|]; [|by intros [= <-]].
  destruct (Hentry entry eq_refl) as [e ->]. cbn [negb mbind result_bind of_option]. unfold din.
  destruct (dget "text" e) as [text|]; [|by intros [= <-]]. cbn [negb mbind result_bind of_option].
  destruct (truthy text); cbn [negb]; [|by intros [= <-]]. by intros [= <-].
Qed.

(** ** The box of a field

    Boxes are given with the origin at the top left corner, as left, top, right
    and bottom, in points or in pixels of an image of the page.  The PDF has its
    origin at the bottom left corner. *)

(** The number that a value stands for in the arithmetic of floats *)
Definition measure (v : json) : option float :=
  match v with
  | JFloat f => Some f
  | JInt z => f_of_Z z
  | JBool b => f_of_Z (Z.b2z b)
  | _ => None
  end.

(** [located width height page bbox rect]: on a page of the PDF of this size, with
    this description, the box [bbox] is at [rect].  The description of a page with
    a [pdf_width] says that the boxes are in points: only the vertical coordinates
    are turned around.  Otherwise they are in pixels, and are scaled by the ratio
    of the page's size to that of the image as well. *)
Inductive located (width height : float) (page : dict json) : list json → box → Prop :=
  | In_points x0 y0 x1 y1 rest top bottom :
      dget "pdf_width" page ≠ None → measure y0 = Some top → measure y1 = Some bottom →
      located width height page (x0 :: y0 :: x1 :: y1 :: rest)
        (Box x0 (JFloat (f_sub height bottom)) x1 (JFloat (f_sub height top)))
  | In_pixels x0 y0 x1 y1 rest left top right bottom iw ih image_width image_height :
      dget "pdf_width" page = None →
      dget "image_width" page = Some iw → measure iw = Some image_width →
      dget "image_height" page = Some ih → measure ih = Some image_height →
      measure x0 = Some left → measure y0 = Some top → measure x1 = Some right → measure y1 = Some bottom →
      located width height page (x0 :: y0 :: x1 :: y1 :: rest)
        (Box (JFloat (f_mul left (f_div width image_width)))
             (JFloat (f_sub height (f_mul bottom (f_div height image_height))))
             (JFloat (f_mul right (f_div width image_width)))
             (JFloat (f_sub height (f_mul top (f_div height image_height))))).

(** The field is on the page of this index of the PDF, which has this size. *)
Definition on_page (sizes : list (float * float)) (field : json) (i : nat) (width height : float) : Prop :=
  sizes !! i = Some (width, height) ∧
  ∃ page_num, item "page_number" field = Ok page_num ∧ py_eq page_num (JInt (Z.of_nat i + 1)) = true.

(** The first description with the number of the field's page *)
Definition described (data field : json) (page : dict json) : Prop :=
  ∃ page_num before after v,
    item "page_number" field = Ok page_num ∧ item "pages" data = Ok v ∧
    py_iter v = Ok (before ++ JObj page :: after) ∧
    (∃ n, dget "page_number" page = Some n ∧ py_eq n page_num = true) ∧
    Forall (λ p, ∃ n, item "page_number" p = Ok n ∧ py_eq n page_num = false) before.

(** The annotation of a field and the index of the page that it is added to *)
Definition annotates (sizes : list (float * float)) (data field : json) (ia : json * annotation) : Prop :=
  shows field ia.2 ∧
  (∃ page_num, item "page_number" field = Ok page_num ∧ py_sub page_num (JInt 1) = Ok ia.1) ∧
  ∃ i width height page bbox, on_page sizes field i width height ∧ described data field page ∧
    item "entry_bounding_box" field = Ok (JArr bbox) ∧ located width height page bbox (a_rect ia.2).

Lemma operand_measure op v f : operand op v = Ok f → measure v = Some f.
Proof.
  destruct v as [|b|z|g|s|l|d]; cbn; try done.
  - by destruct b; intros [= <-].
  - by destruct (f_of_Z z); intros [= <-].
  - by intros [= <-].
Qed.

Lemma mul_float_measure v g f : mul_float v g = Ok f → ∃ x, measure v = Some x ∧ f = f_mul x g.
Proof.
  unfold mul_float. intros H. apply bind_Ok in H as ([] & _ & H). apply bind_Ok in H as (x & Hx & [= <-]).
  exists x. split; [|done]. by eapply operand_measure.
Qed.

Lemma py_div_measure width v f : py_div (JFloat width) v = Ok f → ∃ x, measure v = Some x ∧ f = f_div width x.
Proof.
  unfold py_div. cbn [as_int]. intros H.
  assert ((y ← operand "/" v; if f_eqb y f_zero then Err (ZeroDivisionError "float division by zero")
           else Ok (f_div width y)) = Ok f) as H' by (by destruct v).
  apply bind_Ok in H' as (x & Hx & H'). exists x. split; [by eapply operand_measure|].
  destruct (f_eqb x f_zero); [done|]. by injection H' as <-.
Qed.

Lemma py_sub_measure height v r :
  py_sub (JFloat height) v = Ok r → ∃ x, measure v = Some x ∧ r = JFloat (f_sub height x).
Proof.
  destruct v as [|b|z|g|s|l|d]; cbn; try done.
  - destruct b; cbn; intros [= <-]; by eexists.
  - destruct (f_of_Z z) as [x|]; [|done]. intros [= <-]. by exists x.
  - intros [= <-]. by exists g.
Qed.

(** The four numbers of a box *)
Lemma bbox_list bbox x0 x1 y0 y1 :
  py_nth bbox 0 = Ok x0 → py_nth bbox 2 = Ok x1 → py_nth bbox 1 = Ok y0 → py_nth bbox 3 = Ok y1 →
  measure y0 ≠ None → ∃ rest, bbox = JArr (x0 :: y0 :: x1 :: y1 :: rest).
Proof.
  destruct bbox as [| | | |s|l|]; try done.
  - intros _ _ H1 _ H. cbn in H1. destruct (code_points s !! 1%nat); [|done]. by injection H1 as <-.
  - intros H0 H2 H1 H3 _. destruct l as [|a [|b [|c [|d l]]]]; try done.
    cbn in H0, H1, H2, H3. injection H0 as ->. injection H1 as ->. injection H2 as ->. injection H3 as ->.
    by exists l.
Qed.

Lemma points_located bbox width height page rect :
  dget "pdf_width" page ≠ None → transform_from_pdf_coords bbox height = Ok rect →
  ∃ l, bbox = JArr l ∧ located width height page l rect.
Proof.
  intros Hp H. unfold transform_from_pdf_coords in H.
  apply bind_Ok in H as (x0 & H0 & H). apply bind_Ok in H as (x1 & H2 & H).
  apply bind_Ok in H as (y0 & H1 & H). apply bind_Ok in H as (t & (top & Ht & ->)%py_sub_measure & H).
  apply bind_Ok in H as (y1 & H3 & H). apply bind_Ok in H as (b & (bottom & Hb & ->)%py_sub_measure & [= <-]).
  destruct (bbox_list bbox x0 x1 y0 y1) as [rest ->]; [done..|by rewrite Ht|].
  eexists. split; [done|]. by constructor.
Qed.

Lemma pixels_located bbox width height page iw ih rect :
  dget "pdf_width" page = None → dget "image_width" page = Some iw → dget "image_height" page = Some ih →
  transform_from_image_coords bbox iw ih width height = Ok rect →
  ∃ l, bbox = JArr l ∧ located width height page l rect.
Proof.
  intros Hp Hiw Hih H. unfold transform_from_image_coords in H.
  apply bind_Ok in H as (xs & (fw & Hfw & ->)%py_div_measure & H).
  apply bind_Ok in H as (ys & (fh & Hfh & ->)%py_div_measure & H).
  apply bind_Ok in H as (x0 & H0 & H). apply bind_Ok in H as (? & (left & Hl & ->)%mul_float_measure & H).
  apply bind_Ok in H as (x1 & H2 & H). apply bind_Ok in H as (? & (right & Hr & ->)%mul_float_measure & H).
  apply bind_Ok in H as (y0 & H1 & H). apply bind_Ok in H as (? & (top & Ht & ->)%mul_float_measure & H).
  apply bind_Ok in H as (y1 & H3 & H). apply bind_Ok in H as (? & (bottom & Hb & ->)%mul_float_measure & [= <-]).
  destruct (bbox_list bbox x0 x1 y0 y1) as [rest ->]; [done..|by rewrite Ht|].
  eexists. split; [done|]. by eapply In_pixels.
Qed.

Lemma item_obj k v x : item k v = Ok x → ∃ d, v = JObj d ∧ dget k d = Some x.
Proof.
  destruct v as [| | | | | |d]; try done. unfold item, ditem. intros H. exists d. split; [done|].
  by destruct (dget k d); [injection H as ->|].
Qed.

Lemma find_page_first page_num l page :
  find_page page_num l = Ok page →
  ∃ before d after, l = before ++ JObj d :: after ∧ page = JObj d ∧
    (∃ n, dget "page_number" d = Some n ∧ py_eq n page_num = true) ∧
    Forall (λ p, ∃ n, item "page_number" p = Ok n ∧ py_eq n page_num = false) before.
Proof.
  induction l as [|p l IH]; [done|]. cbn [find_page]. intros H. apply bind_Ok in H as (n & Hn & H).
  destruct (py_eq n page_num) eqn:E.
  - injection H as <-. apply item_obj in Hn as (d & -> & Hn). exists [], d, l. by split_and!; eauto.
  - destruct (IH H) as (before & d & after & -> & -> & Hd & Hb). exists (p :: before), d, after.
    split_and!; [done..|]. constructor; eauto.
Qed.

Lemma dimensions_page sizes page_num wh :
  vget page_num (pdf_dimensions sizes) = Some wh →
  ∃ i, sizes !! i = Some wh ∧ py_eq page_num (JInt (Z.of_nat i + 1)) = true.
Proof.
  unfold vget. destruct (List.find _ _) as [[k wh']|] eqn:E; [|done]. intros [= <-].
  apply List.find_some in E as [Hin Hk]. cbn in Hk. apply list_elem_of_In in Hin.
  unfold pdf_dimensions in Hin. apply list_elem_of_fmap in Hin as ([i size] & [= -> ->] & Hi%enumerate_elem).
  exists i. split; [done|]. by destruct page_num as [| | |[]| | |].
Qed.

(** The code's box is the one that the field's page and box ask for. *)
Lemma entry_box_located sizes data field page_num rect :
  item "page_number" field = Ok page_num →
  entry_box (pdf_dimensions sizes) data field page_num = Ok rect →
  ∃ i width height page bbox, on_page sizes field i width height ∧ described data field page ∧
    item "entry_bounding_box" field = Ok (JArr bbox) ∧ located width height page bbox rect.
Proof.
  intros Hnum H. unfold entry_box in H. apply bind_Ok in H as (v & Hv & H). apply bind_Ok in H as (l & Hl & H).
  apply bind_Ok in H as (info & Hinfo & H). apply bind_Ok in H as ([] & _ & H).
  apply bind_Ok in H as ([width height] & Hwh & H).
  assert (vget page_num (pdf_dimensions sizes) = Some (width, height)) as Hsize
    by (by destruct (vget page_num (pdf_dimensions sizes)); [injection Hwh as ->|]).
  apply dimensions_page in Hsize as (i & Hi & Heq).
  apply find_page_first in Hinfo as (before & page & after & -> & -> & Hpage & Hbefore).
  cbn [py_contains mbind result_bind] in H. exists i, width, height, page.
  assert (∃ bbox, item "entry_bounding_box" field = Ok (JArr bbox) ∧ located width height page bbox rect)
    as (bbox & Hbbox & Hloc).
  { unfold din in H. destruct (dget "pdf_width" page) as [x|] eqn:Hpdf.
    - apply bind_Ok in H as (b & Hb & H). eapply points_located in H as (bbox & -> & Hloc); [eauto|by rewrite Hpdf].
    - apply bind_Ok in H as (iw & (? & [= <-] & Hiw)%item_obj & H).
      apply bind_Ok in H as (ih & (? & [= <-] & Hih)%item_obj & H). apply bind_Ok in H as (b & Hb & H).
      eapply pixels_located in H as (bbox & -> & Hloc); eauto. }
  exists bbox. split_and!; [split; [done|]; by exists page_num| |done..].
  exists page_num, before, after, v. by split_and!.
Qed.

Section fill.
Context (open_pages : path → world → exc (list (float * float))).
Context (annotate : list (json * annotation) → json * annotation → exc unit).
Context (pdf_bytes : path → list (json * annotation) → string * option exn).

Lemma field_step_annotates sizes data acc field acc' :
  is_field field → field_step annotate (pdf_dimensions sizes) data acc field = Ok acc' →
  (∃ i width height, on_page sizes field i width height) ∧
  ((text_of field = None ∧ acc' = acc) ∨ ∃ ia, annotates sizes data field ia ∧ acc' = acc ++ [ia]).
Proof.
  intros Hf H. unfold field_step in H. apply bind_Ok in H as (page_num & Hp & H).
  apply bind_Ok in H as (rect & Hrect & H). apply bind_Ok in H as (o & Ho & H).
  destruct (entry_box_located _ _ _ _ _ Hp Hrect) as (i & width & height & page & bbox & Hon & Hloc).
  split; [by exists i, width, height|].
  apply entry_text_spec in Ho; [|done]. destruct o as [a|]; [|left; injection H as <-; done].
  destruct Ho as [Ht <-]. apply bind_Ok in H as (index & Hi & H). apply bind_Ok in H as ([] & _ & H).
  injection H as <-. right. exists (index, a). split; [|done]. split_and!; [done|by exists page_num|].
  by exists i, width, height, page, bbox.
Qed.

Lemma fields_annotated sizes data l anns :
  Forall is_field l → foldM (field_step annotate (pdf_dimensions sizes) data) [] l = Ok anns →
  Forall2 (annotates sizes data) (filter (λ f, text_of f ≠ None) l) anns ∧
  Forall (λ f, ∃ i width height, on_page sizes f i width height) l.
Proof.
  intros Hfields Hanns. apply (foldM_inv _ (λ done anns,
    Forall2 (annotates sizes data) (filter (λ f, text_of f ≠ None) done) anns ∧
    Forall (λ f, ∃ i width height, on_page sizes f i width height) done)) in Hanns;
    [done|by split; constructor|].
  intros done f rest acc acc' -> [Hacc Hpages] Hstep. apply Forall_app in Hfields as [_ Hf].
  apply Forall_cons in Hf as [Hf _]. apply field_step_annotates in Hstep as [Hpage Hstep]; [|done].
  rewrite filter_app, filter_cons. split; [|apply Forall_app; by split; [|apply Forall_singleton]].
  destruct Hstep as [[Hnone ->]|(ia & Hia & ->)].
  - rewrite decide_False by naive_solver. by rewrite filter_nil, app_nil_r.
  - rewrite decide_True by (destruct Hia as [[-> _] _]; done). apply Forall2_app; [done|].
    by constructor; [|constructor].
Qed.

(** The last lines: the first may not be printable, the second is. *)
Lemma report_run output (n : nat) w r w' :
  (print ("Successfully filled PDF form and saved to " +:+ output);;
   print (cat ["Added "; pretty n; " text annotations"])) w = (r, w') →
  same_files w w' ∧ r = if utf8_valid output then Ok tt else Err surrogate_error.
Proof.
  assert (utf8_valid ("Successfully filled PDF form and saved to " +:+ output) = utf8_valid output) as Hu by reflexivity.
  assert (utf8_valid (cat ["Added "; pretty n; " text annotations"]) = true) as Hn.
  { apply text_printed. rewrite str_all_cat. cbn [forallb].
    assert (str_all text_char (pretty n) = true) as -> by apply (pretty_N_text (N.of_nat n)). done. }
  unfold mbind, io_bind, print. rewrite Hu. destruct (utf8_valid output); [rewrite Hn|]; by intros [= <- <-].
Qed.

(** C40: fill_pdf_form_with_annotations.py opens the output file only when every
    field names a page of the PDF and could be placed on it; before that every
    exception leaves all files as they were, and so does an output file that
    cannot be opened.  After that the output file, and no other, has changed: it
    holds what the library puts into it for exactly the annotations of the fields
    with a text, in their order, each with this text, in the field's font, on the
    field's page, and at the field's box turned from the top left origin to the
    bottom left one, scaled from pixels to points unless it is in points.  The
    program then ends with the library's exception, if there is one, and otherwise
    succeeds, if it can print the output's name. *)
Theorem annotations_of_fields input fields_json output data l sizes w r w' :
  json_file w (parse_path fields_json) = Some data →
  (v ← item "form_fields" data; py_iter v) = Ok l → Forall is_field l →
  open_pages (parse_path input) w = Ok sizes →
  fill_pdf_form open_pages annotate pdf_bytes input fields_json output w = (r, w') →
  (∃ e, r = Err e ∧ same_files w w') ∨
  ∃ anns bytes failure,
    Forall2 (annotates sizes data) (filter (λ f, text_of f ≠ None) l) anns ∧
    Forall (λ f, ∃ i width height, on_page sizes f i width height) l ∧
    pdf_bytes (parse_path input) anns = (bytes, failure) ∧ only_wrote (parse_path output) bytes w w' ∧
    r = match failure with
        | Some e => Err e
        | None => if utf8_valid output then Ok tt else Err surrogate_error
        end.
Proof.
  intros Hdata Hl Hfields Hsizes H. unfold fill_pdf_form in H.
  apply quiet_bind in H as [?|(t & w1 & Ht & _ & H)]; [by left| |preserves_tac].
  unfold read_text in Ht. injection Ht as Ht <-.
  apply quiet_bind in H as [?|(data' & w1 & [Hd ->]%io_pure_Ok & _ & H)]; [by left| |preserves_tac].
  unfold json_file in Hdata. rewrite Ht, Hd in Hdata. injection Hdata as ->.
  apply quiet_bind in H as [?|(sizes' & w1 & Hs & _ & H)]; [by left| |by intros ?].
  injection Hs as Hs <-. rewrite Hsizes in Hs. injection Hs as <-.
  apply quiet_bind in H as [?|(v & w1 & [Hv ->]%io_pure_Ok & _ & H)]; [by left| |preserves_tac].
  apply quiet_bind in H as [?|(l' & w1 & [Hl' ->]%io_pure_Ok & _ & H)]; [by left| |preserves_tac].
  rewrite Hv in Hl. cbn [mbind result_bind] in Hl. rewrite Hl' in Hl. injection Hl as ->.
  apply quiet_bind in H as [?|(anns & w1 & [Hanns ->]%io_pure_Ok & _ & H)]; [by left| |preserves_tac].
  destruct (pdf_bytes (parse_path input) anns) as [bytes failure] eqn:Hbytes.
  unfold mbind at 1, io_bind at 1 in H.
  destruct (write_stream (parse_path output) (bytes, failure) w) as [r1 w1] eqn:Hw.
  apply write_stream_cases in Hw as [(e & -> & Hsame)|[Honly ->]].
  { injection H as <- <-. left. by exists e. }
  right. exists anns, bytes, failure. apply fields_annotated in Hanns as [? ?]; [|done].
  split_and!; [done..| |]; (destruct failure as [e|];
    [by injection H as <- <-|apply report_run in H as [Hsame ->]]); [by eapply only_wrote_then|done].
Qed.
End fill.

(** ** A form with two fields, one of them with a text *)

Definition form_text : string := jtext (cat
  ["{'pages': [{'page_number': 1, 'image_width': 100, 'image_height': 200}], 'form_fields': [";
   "{'page_number': 1, 'entry_bounding_box': [10, 20, 50, 40], 'entry_text': {'text': 'Ada', 'font_size': 9}}, ";
   "{'page_number': 1, 'entry_bounding_box': [10, 60, 50, 80]}]}"]).

Definition form_data : json := match json_loads form_text with Ok v => v | Err _ => JNull end.
Definition form_fields : list json :=
  match (v ← item "form_fields" form_data; py_iter v) with Ok l => l | Err _ => [] end.
Definition form_world : world := repo_world [(["repo"; "fields.json"], form_text)].

Definition form_sizes : list (float * float) := [(f_normalize 600 0, f_normalize 800 0)].

(** The bytes are the texts and their boxes. *)
Definition form_bytes (p : path) (anns : list (json * annotation)) : string * option exn :=
  (join ", " (map (λ '(i, a), cat [py_str (a_text a); " at "; py_str (b_left (a_rect a)); " ";
    py_str (b_bottom (a_rect a)); " "; a_font_size a; " on "; py_str i]) anns), None).

Definition form_run : exc unit * world :=
  fill_pdf_form (λ _ _, Ok form_sizes) (λ _ _, Ok tt) form_bytes "in.pdf" "fields.json" "out.pdf" form_world.

Lemma form_fields_are : Forall is_field form_fields.
Proof.
  apply Forall_cons_2; [|apply Forall_singleton]; eexists; (split; [vm_compute; reflexivity|]);
    intros entry; vm_compute; intros [= <-]; eexists; reflexivity.
Qed.

Lemma annotations_of_fields_witness :
  ∃ anns, Forall2 (annotates form_sizes form_data) (take 1 form_fields) anns ∧
    only_wrote (parse_path "out.pdf") "Ada at 60.0 640.0 9pt on 0" form_world form_run.2.
Proof.
  destruct (annotations_of_fields (λ _ _, Ok form_sizes) (λ _ _, Ok tt) form_bytes "in.pdf" "fields.json" "out.pdf"
    form_data form_fields form_sizes form_world form_run.1 form_run.2)
    as [(e & He & _)|(anns & bytes & failure & Hanns & _ & _ & Hw & _)].
  - vm_compute. reflexivity.
  - vm_compute. reflexivity.
  - exact form_fields_are.
  - reflexivity.
  - apply surjective_pairing.
  - exfalso. vm_compute in He. discriminate He.
  - exists anns. split.
    + exact Hanns.
    + destruct Hw as (Hb & Hc & Hq). vm_compute in Hb. injection Hb as <-. split; [vm_compute; reflexivity|].
      split; [exact Hc|exact Hq].
Defined.

(** In points: only the vertical coordinates change. *)
Example box_in_points :
  transform_from_pdf_coords (JArr [JInt 10; JInt 20; JInt 50; JInt 40]) (f_normalize 800 0) =
    Ok (Box (JInt 10) (JFloat (f_normalize 760 0)) (JInt 50) (JFloat (f_normalize 780 0))).
Proof. vm_compute. reflexivity. Qed.
