(* ===== verification/Rounding.v ===== *)
(** * How far rounding goes up

    The error of float division and multiplication, from above: a positive result
    exceeds the exact one by at most one unit in the last of 52 places.  This is
    enough to bound integers that are computed with floats. *)

From Stdlib Require Import SpecFloat.
From S2P Require Import Prelude PyFloat PyVal Json JsonOut PyColl.

Local Open Scope Z_scope.

(** ** Digits *)

Lemma digits2_low m : 2 ^ (Zpos (digits2_pos m) - 1) ≤ Zpos m.
Proof.
  induction m as [m IH|m IH|]; cbn [digits2_pos]; [| |done];
    rewrite Pos2Z.inj_succ; replace (Z.succ (Zpos (digits2_pos m)) - 1)
      with (Z.succ (Zpos (digits2_pos m) - 1)) by lia; rewrite Z.pow_succ_r by lia; lia.
Qed.

Lemma digits2_high m : Zpos m < 2 ^ Zpos (digits2_pos m).
Proof.
  induction m as [m IH|m IH|]; cbn [digits2_pos]; [| |done];
    rewrite Pos2Z.inj_succ, Z.pow_succ_r by lia; lia.
Qed.

Lemma digits2_unique m k : 0 < k → 2 ^ (k - 1) ≤ Zpos m < 2 ^ k → Zpos (digits2_pos m) = k.
Proof.
  intros Hk [Hlow Hhigh]. pose proof (digits2_low m). pose proof (digits2_high m).
  assert (k - 1 < Zpos (digits2_pos m)) by (apply (Z.pow_lt_mono_r_iff 2); lia).
  assert (Zpos (digits2_pos m) - 1 < k) by (apply (Z.pow_lt_mono_r_iff 2); lia). lia.
Qed.

(** ** Shifting *)

Lemma shr_1_half mrs : 0 ≤ shr_m mrs → shr_m (shr_1 mrs) = shr_m mrs / 2.
Proof.
  destruct mrs as [[|[p|p|]|p] r s]; cbn [shr_m shr_1]; try done; try lia; intros _.
  - apply (Z.div_unique_pos _ _ _ 1); lia.
  - apply (Z.div_unique_pos _ _ _ 0); lia.
Qed.

Lemma iter_shr p mrs : 0 ≤ shr_m mrs → shr_m (SpecFloat.iter_pos shr_1 p mrs) = shr_m mrs / 2 ^ Zpos p.
Proof.
  assert (∀ x a, 0 ≤ x → 0 ≤ x / 2 ^ Zpos a) as Hpos.
  { intros x a Hx. apply Z.div_pos; [done|]. apply Z.pow_pos_nonneg; lia. }
  assert (∀ a, 0 < 2 ^ Zpos a) as Hpow by (intros; apply Z.pow_pos_nonneg; lia).
  revert mrs. induction p as [p IH|p IH|]; intros mrs Hm; cbn [SpecFloat.iter_pos].
  - assert (0 ≤ shr_m (shr_1 mrs)) as H1 by (rewrite shr_1_half by done; apply Z.div_pos; lia).
    rewrite IH by (rewrite IH by done; auto). rewrite IH, shr_1_half by done.
    rewrite !Z.div_div by (auto; lia). f_equal.
    replace (Zpos p~1) with (1 + Zpos p + Zpos p) by lia. rewrite !Z.pow_add_r by lia. lia.
  - rewrite IH by (rewrite IH by done; auto). rewrite IH by done.
    rewrite Z.div_div by (auto; lia). f_equal.
    replace (Zpos p~0) with (Zpos p + Zpos p) by lia. by rewrite Z.pow_add_r by lia.
  - by rewrite shr_1_half.
Qed.

(** A mantissa of 53 digits *)
Definition normal (m : positive) : Prop := 2 ^ 52 ≤ Zpos m < 2 ^ 53.

Lemma shr_m_of_loc m l : shr_m (shr_record_of_loc m l) = m.
Proof. by destruct l as [|[]]. Qed.

(** The part of the mantissa that is kept *)
Lemma shr_fexp_kept m e l :
  let d := Zpos (digits2_pos m) in
  53 ≤ d → -1074 ≤ d + e - 53 →
  ∃ mrs, shr_fexp 53 1024 (Zpos m) e l = (mrs, e + (d - 53)) ∧ shr_m mrs = Zpos m / 2 ^ (d - 53).
Proof.
  intros d Hd He. unfold shr_fexp, fexp, SpecFloat.emin. cbn [Zdigits2]. fold d.
  replace (Z.max (d + e - 53) (3 - 1024 - 53) - e) with (d - 53) by lia.
  destruct (d - 53) as [|k|k] eqn:Hk; [| |lia]; cbn [shr].
  - eexists. split; [f_equal; lia|]. rewrite shr_m_of_loc. by rewrite Z.div_1_r.
  - eexists. split; [done|]. rewrite iter_shr by (by rewrite shr_m_of_loc). by rewrite shr_m_of_loc.
Qed.

(** ** Rounding *)

Lemma round_up_by_one m l : round_nearest_even m l = m ∨ round_nearest_even m l = m + 1.
Proof. destruct l as [|[]]; cbn; auto. destruct (Z.even m); auto. Qed.

(** The rounded mantissa is normal, and exceeds the given one by less than a
    unit in its last place. *)
Lemma round_above sx m e l :
  let d := Zpos (digits2_pos m) in
  53 ≤ d → -1074 ≤ d + e - 53 → d + e ≤ 1000 →
  ∃ m' e', binary_round_aux 53 1024 sx (Zpos m) e l = S754_finite sx m' e' ∧ normal m' ∧
    e + (d - 53) ≤ e' ≤ e + (d - 53) + 1 ∧ Zpos m' * 2 ^ (e' - e) ≤ Zpos m + 2 ^ (d - 53).
Proof.
  intros d Hd He Hmax. destruct (shr_fexp_kept m e l) as (mrs & Hshr & Hm); [done..|]. fold d in Hshr, Hm.
  unfold binary_round_aux. rewrite Hshr. set (n := d - 53) in *. set (k := Zpos m / 2 ^ n) in *.
  assert (0 < 2 ^ n) as Hn by (apply Z.pow_pos_nonneg; lia).
  assert (2 ^ 52 ≤ k < 2 ^ 53) as Hk.
  { pose proof (digits2_low m) as Hlow. pose proof (digits2_high m) as Hhigh. fold d in Hlow, Hhigh. unfold k. split.
    - apply Z.div_le_lower_bound; [done|]. replace (d - 1) with (n + 52) in Hlow by lia.
      by rewrite Z.pow_add_r in Hlow by lia.
    - apply Z.div_lt_upper_bound; [done|]. replace d with (n + 53) in Hhigh by lia.
      by rewrite Z.pow_add_r in Hhigh by lia. }
  assert (k * 2 ^ n ≤ Zpos m) as Hkm by (unfold k; rewrite Z.mul_comm; apply Z.mul_div_le; lia).
  rewrite Hm. set (r := round_nearest_even k _).
  assert (r = k ∨ r = k + 1) as Hr by apply round_up_by_one. clearbody r.
  assert (r * 2 ^ n ≤ Zpos m + 2 ^ n) as Hrm by (destruct Hr as [-> | ->]; lia).
  destruct r as [|r|r]; [lia| |lia]. assert (2 ^ 52 ≤ Zpos r ≤ 2 ^ 53) as Hr52 by lia. clear Hr.
  destruct (decide (Zpos r = 2 ^ 53)) as [Htop|Hlt].
  - assert (Zpos (digits2_pos r) = 54) as Hd' by (apply digits2_unique; [lia|]; rewrite Htop; done).
    destruct (shr_fexp_kept r (e + n) loc_Exact) as (mrs' & -> & Hm'); [rewrite Hd'; lia..|].
    rewrite Hm', Hd', Htop. replace (2 ^ 53 / 2 ^ (54 - 53)) with (Zpos (2 ^ 52)%positive) by done.
    rewrite (proj2 (Z.leb_le _ _)) by lia. eexists _, _. split; [done|]. split; [done|]. split; [lia|].
    replace (e + n + (54 - 53) - e) with (n + 1) by lia. rewrite Z.pow_add_r by lia.
    rewrite Htop in Hrm. change (Zpos (2 ^ 52)%positive) with (2 ^ 52). lia.
  - assert (Zpos (digits2_pos r) = 53) as Hd' by (apply digits2_unique; [lia|]; split; lia).
    destruct (shr_fexp_kept r (e + n) loc_Exact) as (mrs' & -> & Hm'); [rewrite Hd'; lia..|].
    rewrite Hm', Hd'. change (53 - 53) with 0. rewrite Z.div_1_r.
    rewrite (proj2 (Z.leb_le _ _)) by lia. eexists _, _. split; [done|]. split; [split; lia|]. split; [lia|].
    replace (e + n + 0 - e) with n by lia. done.
Qed.

(** ** Quotients of integers *)

(** [f] is a normal float that is at most [a / b], up to rounding. *)
Definition at_most (f : float) (a b : Z) : Prop :=
  ∃ m e, f = S754_finite false m e ∧ normal m ∧ -200 ≤ e < 0 ∧
    Zpos m * b * 2 ^ 50 ≤ a * (2 ^ 50 + 1) * 2 ^ (- e).

Lemma digits2_small m : Zpos m ≤ 2 ^ 40 → 1 ≤ Zpos (digits2_pos m) ≤ 41.
Proof.
  intros Hm. split; [lia|]. pose proof (digits2_low m).
  assert (Zpos (digits2_pos m) - 1 < 41); [apply (Z.pow_lt_mono_r_iff 2); lia|lia].
Qed.

(** The quotient that division computes before rounding has 53 or 54 digits. *)
Lemma quotient_digits a b :
  let s := 53 - Zpos (digits2_pos a) + Zpos (digits2_pos b) in
  0 ≤ s → 2 ^ 52 ≤ Zpos a * 2 ^ s / Zpos b < 2 ^ 54.
Proof.
  intros s Hs. pose proof (digits2_low a) as Ha. pose proof (digits2_high a) as Ha'.
  pose proof (digits2_low b) as Hb. pose proof (digits2_high b) as Hb'.
  set (da := Zpos (digits2_pos a)) in *. set (db := Zpos (digits2_pos b)) in *.
  assert (0 < 2 ^ s) by (apply Z.pow_pos_nonneg; lia).
  assert (2 ^ db * 2 ^ 52 = 2 ^ (da - 1) * 2 ^ s) as Hlow.
  { rewrite <-!Z.pow_add_r by lia. f_equal. lia. }
  assert (2 ^ (db - 1) * 2 ^ 54 = 2 ^ da * 2 ^ s) as Hhigh.
  { rewrite <-!Z.pow_add_r by lia. f_equal. lia. }
  split.
  - apply Z.div_le_lower_bound; [lia|]. nia.
  - apply Z.div_lt_upper_bound; [lia|]. nia.
Qed.

Lemma int_div_at_most a b :
  0 < a ≤ 2 ^ 40 → 0 < b ≤ 2 ^ 40 → ∃ f, int_div a b = Ok f ∧ at_most f a b.
Proof.
  intros Ha Hb. destruct a as [|a|a], b as [|b|b]; try lia.
  pose proof (digits2_small a (proj2 Ha)) as Hda. pose proof (digits2_small b (proj2 Hb)) as Hdb.
  pose proof (quotient_digits a b) as Hq. cbv zeta in Hq.
  set (s := 53 - Zpos (digits2_pos a) + Zpos (digits2_pos b)) in *. specialize (Hq ltac:(lia)).
  unfold int_div. cbn [Z.eqb Z.ltb Z.compare xorb]. change (Z.abs (Zpos a)) with (Zpos a).
  change (Z.abs (Zpos b)) with (Zpos b). unfold SFdiv_core_binary. cbn [Zdigits2].
  unfold fexp, SpecFloat.emin.
  replace (Z.min (Z.max (Zpos (digits2_pos a) + 0 - (Zpos (digits2_pos b) + 0) - 53) (3 - 1024 - 53)) (0 - 0))
    with (- s) by lia.
  replace (0 - 0 - - s) with s by lia.
  assert ((match s with Z0 => Zpos a | Zpos _ => Z.shiftl (Zpos a) s | Zneg _ => 0 end) = Zpos a * 2 ^ s) as ->.
  { destruct s eqn:Es; [lia|by rewrite Z.shiftl_mul_pow2|lia]. }
  destruct (Z.div_eucl (Zpos a * 2 ^ s) (Zpos b)) as [q r] eqn:Hdiv.
  assert (q = Zpos a * 2 ^ s / Zpos b) as Hqe by (unfold Z.div; by rewrite Hdiv). rewrite <-Hqe in Hq.
  assert (q * Zpos b ≤ Zpos a * 2 ^ s) as Hqb by (rewrite Hqe, Z.mul_comm; apply Z.mul_div_le; lia).
  clear Hdiv Hqe. destruct q as [|q|q]; [lia| |lia].
  assert (53 ≤ Zpos (digits2_pos q) ≤ 54) as Hdq.
  { destruct (decide (Zpos q < 2 ^ 53)).
    - rewrite (digits2_unique q 53); [lia..|split; [apply Hq|done]].
    - rewrite (digits2_unique q 54); [lia..|split; [|apply Hq]]. lia. }
  destruct (round_above false q (- s) (new_location (Zpos b) r)) as (m & e & -> & Hm & He & Hbound); [lia..|].
  eexists. split; [done|]. exists m, e. split; [done|]. split; [done|]. split; [lia|].
  set (t := e - - s) in *. assert (0 < 2 ^ t) as Ht by (apply Z.pow_pos_nonneg; lia).
  assert (2 ^ s = 2 ^ (- e) * 2 ^ t) as Hpow by (rewrite <-Z.pow_add_r by lia; f_equal; lia).
  assert (2 ^ (Zpos (digits2_pos q) - 53) ≤ 2) as Hunit.
  { transitivity (2 ^ 1); [apply Z.pow_le_mono_r; lia|done]. }
  apply (Z.mul_le_mono_pos_r _ _ (2 ^ t)); [done|]. rewrite Hpow in Hqb. nia.
Qed.

(** The smaller of two normal floats *)
Lemma ltb_normal m1 e1 m2 e2 :
  normal m1 → normal m2 → e1 < 0 → e2 < 0 →
  f_ltb (S754_finite false m1 e1) (S754_finite false m2 e2) = true →
  Zpos m1 * 2 ^ (- e2) ≤ Zpos m2 * 2 ^ (- e1).
Proof.
  intros [Hm1 Hm1'] [Hm2 Hm2'] He1 He2. unfold f_ltb, SFltb. cbn [SFcompare].
  change (Pos.compare_cont Eq m1 m2) with (Pos.compare m1 m2).
  destruct (Z.compare_spec e1 e2) as [->|Hlt|]; [|intros _|done].
  - destruct (Pos.compare_spec m1 m2); [done| |done]. intros _.
    apply Z.mul_le_mono_nonneg_r; [apply Z.pow_nonneg; lia|lia].
  - replace (2 ^ (- e1)) with (2 ^ (- e2) * 2 ^ (e2 - e1)) by (rewrite <-Z.pow_add_r by lia; f_equal; lia).
    assert (2 ^ 1 ≤ 2 ^ (e2 - e1)) as HQ by (apply Z.pow_le_mono_r; lia).
    assert (0 < 2 ^ (- e2)) as HP by (apply Z.pow_pos_nonneg; lia).
    assert (Zpos m1 ≤ Zpos m2 * 2 ^ 1) as Hm by lia. clear -HP HQ Hm.
    rewrite (Z.mul_comm (2 ^ (- e2))), Z.mul_assoc. apply Z.mul_le_mono_nonneg_r; nia.
Qed.

Lemma not_ltb_normal m1 e1 m2 e2 :
  normal m1 → normal m2 → e1 < 0 → e2 < 0 →
  f_ltb (S754_finite false m2 e2) (S754_finite false m1 e1) = false →
  Zpos m1 * 2 ^ (- e2) ≤ Zpos m2 * 2 ^ (- e1).
Proof.
  intros Hm1 Hm2 He1 He2 Hlt.
  destruct (f_ltb_total (S754_finite false m1 e1) (S754_finite false m2 e2)) as [H|[H|H]]; [done..| | |congruence].
  - by apply ltb_normal.
  - apply f_eqb_finite in H as (_ & -> & ->). done.
Qed.

Lemma at_most_le m1 e1 m2 e2 a b :
  normal m1 → -200 ≤ e1 < 0 → Zpos m1 * 2 ^ (- e2) ≤ Zpos m2 * 2 ^ (- e1) → e2 < 0 → 0 ≤ b →
  Zpos m2 * b * 2 ^ 50 ≤ a * (2 ^ 50 + 1) * 2 ^ (- e2) →
  Zpos m1 * b * 2 ^ 50 ≤ a * (2 ^ 50 + 1) * 2 ^ (- e1).
Proof.
  intros Hm1 He1 Hle He2 Hb H. assert (0 < 2 ^ (- e1)) by (apply Z.pow_pos_nonneg; lia).
  assert (0 < 2 ^ (- e2)) by (apply Z.pow_pos_nonneg; lia).
  apply (Z.mul_le_mono_pos_r _ _ (2 ^ (- e2))); [done|].
  transitivity (Zpos m2 * 2 ^ (- e1) * b * 2 ^ 50); [|nia].
  replace (Zpos m1 * b * 2 ^ 50 * 2 ^ (- e2)) with (Zpos m1 * 2 ^ (- e2) * (b * 2 ^ 50)) by ring.
  rewrite <-(Z.mul_assoc (_ * _)). apply Z.mul_le_mono_nonneg_r; [lia|done].
Qed.

(** ** Products with an integer *)

Lemma shift_pos_value k m : Zpos (shift_pos k m) = Zpos m * 2 ^ Zpos k.
Proof.
  unfold shift_pos. induction k as [|k IH] using Pos.peano_ind; [cbn; lia|].
  rewrite Pos.iter_succ, Pos2Z.inj_succ, Z.pow_succ_r by lia. lia.
Qed.

Lemma int_mantissa_value m :
  Zpos (digits2_pos m) ≤ 53 →
  Zpos (int_mantissa m) = Zpos m * 2 ^ (53 - Zpos (digits2_pos m)) ∧ normal (int_mantissa m).
Proof.
  intros Hd. assert (Zpos (int_mantissa m) = Zpos m * 2 ^ (53 - Zpos (digits2_pos m))) as Hv.
  { unfold int_mantissa. destruct (53 - _) as [|k|k] eqn:Hk; [lia|apply shift_pos_value|lia]. }
  split; [done|]. unfold normal. rewrite Hv. pose proof (digits2_low m). pose proof (digits2_high m).
  set (d := Zpos (digits2_pos m)) in *.
  assert (2 ^ (d - 1) * 2 ^ (53 - d) = 2 ^ 52) by (rewrite <-Z.pow_add_r by lia; f_equal; lia).
  assert (2 ^ d * 2 ^ (53 - d) = 2 ^ 53) by (rewrite <-Z.pow_add_r by lia; f_equal; lia).
  assert (0 < 2 ^ (53 - d)) by (apply Z.pow_pos_nonneg; lia). nia.
Qed.

Lemma product_digits m1 m2 : normal m1 → normal m2 → 105 ≤ Zpos (digits2_pos (m1 * m2)) ≤ 106.
Proof.
  unfold normal. intros H1 H2. assert (2 ^ 104 ≤ Zpos (m1 * m2) < 2 ^ 106) as H by (rewrite Pos2Z.inj_mul; nia).
  destruct (decide (Zpos (m1 * m2) < 2 ^ 105)).
  - rewrite (digits2_unique _ 105); lia.
  - rewrite (digits2_unique _ 106); lia.
Qed.

Lemma trunc_le m e s :
  0 ≤ s → - s ≤ e → ∃ t, f_trunc (S754_finite false m e) = Some t ∧ 0 ≤ t ∧ t * 2 ^ s ≤ Zpos m * 2 ^ (e + s).
Proof.
  intros Hs He. cbn [f_trunc]. destruct (Z.leb_spec 0 e) as [Hpos|Hneg].
  - eexists. split; [done|]. assert (0 ≤ 2 ^ e) by (apply Z.pow_nonneg; lia). split; [lia|].
    rewrite Z.pow_add_r by lia. lia.
  - eexists. split; [done|]. assert (0 < 2 ^ (- e)) by (apply Z.pow_pos_nonneg; lia).
    split; [apply Z.div_pos; lia|]. replace s with (- e + (e + s)) at 1 by lia. rewrite Z.pow_add_r by lia.
    rewrite Z.mul_assoc. apply Z.mul_le_mono_nonneg_r; [apply Z.pow_nonneg; lia|].
    rewrite Z.mul_comm. apply Z.mul_div_le. lia.
Qed.

(** An integer times a float that is at most [a / w], truncated, is at most [a]. *)
Lemma times_at_most w f a :
  0 < w ≤ 2 ^ 40 → 0 < a ≤ 2 ^ 40 → at_most f a w →
  ∃ t x, f_of_Z w = Some x ∧ f_trunc (f_mul x f) = Some t ∧ 0 ≤ t ≤ a ∧
    (∃ m e, f_mul x f = S754_finite false m e).
Proof.
  intros Hw Ha (ms & es & -> & Hms & Hes & Hbound). destruct w as [|w|w]; [lia| |lia].
  pose proof (digits2_small w (proj2 Hw)) as Hdw.
  destruct (int_mantissa_value w) as [Hv Hn]; [lia|].
  unfold f_of_Z, f_normalize. cbn [binary_normalize]. rewrite f_normalize_pos by lia.
  set (mw := int_mantissa w) in *. set (ew := Zpos (digits2_pos w) - 53) in *.
  pose proof (product_digits mw ms Hn Hms) as Hd. set (p := (mw * ms)%positive) in *.
  destruct (round_above false p (ew + es) loc_Exact) as (m & e & Hr & Hm & He & Hup); [lia..|].
  destruct (trunc_le m e (- (ew + es))) as (t & Ht & Ht0 & Htle); [lia..|].
  assert (f_mul (S754_finite false mw ew) (S754_finite false ms es) = S754_finite false m e) as Hmul by exact Hr.
  exists t, (S754_finite false mw ew). split; [done|]. rewrite Hmul. split; [exact Ht|]. split; [|eauto].
  split; [done|]. replace (e + - (ew + es)) with (e - (ew + es)) in Htle by lia.
  assert (2 ^ (Zpos (digits2_pos p) - 53) ≤ 2 ^ 53) as Hunit by (apply Z.pow_le_mono_r; lia).
  assert (2 ^ 104 ≤ Zpos p) as Hp by (unfold p; rewrite Pos2Z.inj_mul; unfold normal in *; nia).
  assert (t * 2 ^ (- (ew + es)) * 2 ^ 51 ≤ Zpos p * (2 ^ 51 + 1)) as H1 by lia.
  replace (- (ew + es)) with (- ew + - es) in H1 by lia. rewrite Z.pow_add_r in H1 by lia.
  assert (Zpos p = Zpos w * 2 ^ (- ew) * Zpos ms) as Hpv.
  { unfold p. rewrite Pos2Z.inj_mul, Hv. unfold ew. do 2 f_equal. f_equal. lia. }
  rewrite Hpv in H1. clear Hpv Hp Hup Htle Hr Hmul Hunit.
  assert (0 < 2 ^ (- ew)) as Hew by (apply Z.pow_pos_nonneg; lia).
  assert (0 < 2 ^ (- es)) as Hes' by (apply Z.pow_pos_nonneg; lia).
  assert (t * 2 ^ (- es) * 2 ^ 51 ≤ Zpos w * Zpos ms * (2 ^ 51 + 1)) as H2.
  { apply (Z.mul_le_mono_pos_r _ _ (2 ^ (- ew))); [done|]. lia. }
  assert (t * 2 ^ 101 ≤ a * (2 ^ 50 + 1) * (2 ^ 51 + 1)) as H3.
  { apply (Z.mul_le_mono_pos_r _ _ (2 ^ (- es))); [done|]. lia. }
  clear -H3 Ha Ht0. lia.
Qed.
