(* ===== verification/FormImages.v ===== *)
(** * Images of a form

    Three scripts under .agents/skills/pdf/scripts: convert_pdf_to_images.py saves
    the pages of a PDF as images of bounded size, create_validation_image.py draws
    the boxes of a form on an image, and check_fillable_fields.py says whether a
    PDF has form fields.  The libraries that render, scale, draw and save are
    parameters; what they are asked for is modelled.  An image that cannot be
    encoded raises before its file is written. *)

From Stdlib Require Import Ascii SpecFloat.
From S2P Require Import Prelude PyFloat PyVal PyPath Json JsonOut World PyColl RunnerCommon BoundingBoxes FormFields.

Local Open Scope Z_scope.

(** [int(s)] for a string *)
Definition int_arg (s : string) : exc Z :=
  of_option (ValueError (cat ["invalid literal for int() with base 10: "; repr_str s])) (int_of_str s).

(** [os.path.join(dir, name)] for a relative [name] *)
Definition path_join_str (dir name : string) : string :=
  if bool_decide (dir = "") || endswith "/" dir then dir +:+ name else cat [dir; "/"; name].

(** [min(a, b)] of two floats *)
Definition f_min (a b : float) : float := if f_ltb b a then b else a.

(** [int(n * f)] *)
Definition int_times (n : Z) (f : float) : exc Z :=
  x ← mul_float (JInt n) f;
  match x with
  | S754_nan => Err (ValueError "cannot convert float NaN to integer")
  | S754_infinity _ => Err (OverflowError "cannot convert float infinity to integer")
  | _ => Ok (default 0 (f_trunc x))
  end.

Module ConvertPdf.

(** The size an image of a page is scaled to, if it is too large *)
Definition scaled_size (max_dim width height : Z) : exc (option (Z * Z)) :=
  if (max_dim <? width) || (max_dim <? height) then
    sx ← int_div max_dim width;
    sy ← int_div max_dim height;
    let scale_factor := f_min sx sy in
    new_width ← int_times width scale_factor;
    new_height ← int_times height scale_factor;
    Ok (Some (new_width, new_height))
  else Ok None.

(** The renderer and the images it returns *)
Record library (image : Type) : Type := Library {
  render : path → Z → world → exc (list image);
  size : image → Z * Z;
  resize : image → Z * Z → exc image;
  png : image → exc string;
}.
Arguments Library {image}.
Arguments render {image}.
Arguments size {image}.
Arguments resize {image}.
Arguments png {image}.

Section convert.
Context {image : Type} (lib : library image).

(** [f"page_{i+1}.png"] *)
Definition image_name (i : nat) : string := cat ["page_"; pretty (S i); ".png"].

Definition save_page (output_dir : string) (max_dim : Z) (page : nat * image) : io unit :=
  let '(i, im) := page in
  target ← pure_ (scaled_size max_dim (size lib im).1 (size lib im).2);
  im ← pure_ (match target with Some wh => resize lib im wh | None => Ok im end);
  bytes ← pure_ (png lib im);
  write_text (path_div (parse_path output_dir) (image_name i)) bytes;;
  print (cat ["Saved page "; pretty (S i); " as "; path_join_str output_dir (image_name i); " (size: (";
              pretty (size lib im).1; ", "; pretty (size lib im).2; "))"]).

Definition convert (pdf_path output_dir : string) (max_dim : Z) : io unit :=
  images ← (λ w, (render lib (parse_path pdf_path) 200 w, w));
  iterM (save_page output_dir max_dim) (enumerate images);;
  print (cat ["Converted "; pretty (length images); " pages to PNG images"]).

Definition convert_main (argv : list string) : io Z :=
  match argv with
  | [pdf_path; output_directory] => convert pdf_path output_directory 1000;; mret 0
  | _ => print "Usage: convert_pdf_to_images.py [input pdf] [output directory]";; mret 1
  end.
End convert.
End ConvertPdf.

Module ValidationImage.

(** A rectangle to draw: its box and its colour *)
Definition rectangle : Type := json * string.

Section create.
Context {image : Type} (open_image : path → world → exc image).
Context (draw_accept : image → list rectangle → rectangle → exc unit).
Context (image_bytes : image → list rectangle → exc string).

(** The rectangles after one more field of the form *)
Definition field_step (im : image) (page_number : Z) (boxes : list rectangle) (field : json)
    : exc (list rectangle) :=
  n ← item "page_number" field;
  if py_eq n (JInt page_number) then
    entry_box ← item "entry_bounding_box" field;
    label_box ← item "label_bounding_box" field;
    draw_accept im boxes (entry_box, "red");;
    draw_accept im (boxes ++ [(entry_box, "red")]) (label_box, "blue");;
    Ok (boxes ++ [(entry_box, "red"); (label_box, "blue")])
  else Ok boxes.

Definition create_validation_image (page_number : Z) (fields_json_path input_path output_path : string)
    : io unit :=
  t ← read_text (parse_path fields_json_path);
  data ← pure_ (json_loads t);
  im ← (λ w, (open_image (parse_path input_path) w, w));
  form_fields ← pure_ (item "form_fields" data);
  l ← pure_ (py_iter form_fields);
  boxes ← pure_ (foldM (field_step im page_number) [] l);
  bytes ← pure_ (image_bytes im boxes);
  write_text (parse_path output_path) bytes;;
  print (cat ["Created validation image at "; output_path; " with "; pretty (length boxes);
              " bounding boxes"]).

Definition validation_main (argv : list string) : io Z :=
  match argv with
  | [page; fields_json_path; input_image_path; output_image_path] =>
      page_number ← pure_ (int_arg page);
      create_validation_image page_number fields_json_path input_image_path output_image_path;;
      mret 0
  | _ =>
      print "Usage: create_validation_image.py [page number] [fields.json file] [input image path] [output image path]";;
      mret 1
  end.
End create.
End ValidationImage.

Module CheckFillable.

(** [get_fields] is what the library returns for the file. *)
Definition check_main (get_fields : path → world → exc json) (argv : list string) : io unit :=
  file ← pure_ (match argv with [] => Err (IndexError "list index out of range") | f :: _ => Ok f end);
  fields ← (λ w, (get_fields (parse_path file) w, w));
  if truthy fields then print "This PDF has fillable form fields"
  else print "This PDF does not have fillable form fields; you will need to visually determine where to enter data".
End CheckFillable.
