(* ===== verification/FormImagesSpec.v ===== *)
(** * Theorems about the images of a form

    The images convert_pdf_to_images.py saves are within the maximal size, and
    create_validation_image.py draws the two boxes of every field of the page
    ([FormImages]). *)

From Stdlib Require Import Ascii SpecFloat.
From S2P Require Import Prelude PyFloat PyVal PyPath Json JsonOut PyColl World Files JsonRound Fixtures RunnerCommon BoundingBoxes FormFields FormImages Rounding.

Local Open Scope Z_scope.

(** ** The size of a scaled image *)

Lemma int_times_Ok w f a :
  0 < w ≤ 2 ^ 40 → 0 < a ≤ 2 ^ 40 → at_most f a w → ∃ t, int_times w f = Ok t ∧ 0 ≤ t ≤ a.
Proof.
  intros Hw Ha Hf. destruct (times_at_most w f a Hw Ha Hf) as (t & x & Hx & Ht & Hta & m & e & Hm).
  exists t. split; [|done]. unfold int_times, mul_float. cbn [is_str is_list orb raise_if operand mbind result_bind].
  rewrite Hx. cbn [of_option mbind result_bind]. rewrite Hm in Ht |- *. by rewrite Ht.
Qed.

Lemma f_min_at_most f g a b c :
  0 < b → 0 < c → at_most f a b → at_most g a c → at_most (f_min f g) a b ∧ at_most (f_min f g) a c.
Proof.
  intros Hb Hc (m1 & e1 & -> & Hm1 & He1 & H1) (m2 & e2 & -> & Hm2 & He2 & H2). unfold f_min.
  destruct (f_ltb _ _) eqn:Hlt.
  - apply ltb_normal in Hlt; [|done..|lia|lia]. split; [|by exists m2, e2].
    exists m2, e2. split_and!; [done..|lia|lia|]. eapply (at_most_le m2 e2 m1 e1); [done..|lia|lia|done].
  - apply not_ltb_normal in Hlt; [|done..|lia|lia]. split; [by exists m1, e1|].
    exists m1, e1. split_and!; [done..|lia|lia|]. eapply (at_most_le m1 e1 m2 e2); [done..|lia|lia|done].
Qed.

Definition fits (max_dim : Z) (size : Z * Z) : Prop := 0 ≤ size.1 ≤ max_dim ∧ 0 ≤ size.2 ≤ max_dim.

Lemma scaled_size_fits max_dim width height :
  0 < max_dim ≤ 2 ^ 40 → 0 < width ≤ 2 ^ 40 → 0 < height ≤ 2 ^ 40 →
  ∃ target, ConvertPdf.scaled_size max_dim width height = Ok target ∧
    fits max_dim (default (width, height) target) ∧ (width ≤ max_dim → height ≤ max_dim → target = None).
Proof.
  intros Hmax Hw Hh. unfold ConvertPdf.scaled_size.
  destruct ((max_dim <? width) || (max_dim <? height)) eqn:Hlarge.
  - apply orb_true_iff in Hlarge. rewrite !Z.ltb_lt in Hlarge.
    destruct (int_div_at_most max_dim width) as (sx & -> & Hsx); [done..|].
    destruct (int_div_at_most max_dim height) as (sy & -> & Hsy); [done..|]. cbn [mbind result_bind].
    destruct (f_min_at_most sx sy max_dim width height) as [H1 H2]; [lia|lia|done..|].
    destruct (int_times_Ok _ _ _ Hw Hmax H1) as (w' & -> & Hw'). cbn [mbind result_bind].
    destruct (int_times_Ok _ _ _ Hh Hmax H2) as (h' & -> & Hh'). cbn [mbind result_bind].
    eexists. split; [done|]. split; [done|lia].
  - apply orb_false_iff in Hlarge. rewrite !Z.ltb_ge in Hlarge.
    exists None. split; [done|]. split; [unfold fits; cbn; lia|done].
Qed.

(** ** The names of the images *)

Lemma split_on_free c s : str_all (λ a, negb (bool_decide (a = c))) s = true → split_on c s = [s].
Proof.
  induction s as [|a s IH]; [done|]. cbn [str_all split_on]. intros [Ha Hs]%andb_prop.
  case_bool_decide; [done|]. by rewrite IH.
Qed.

Lemma image_name_plain i : plain_name (ConvertPdf.image_name i).
Proof.
  change (ConvertPdf.image_name i) with ("page_" +:+ (pretty (S i) +:+ ".png")).
  assert (str_all (λ a, negb (bool_decide (a = slash))) (pretty (S i)) = true) as Hd.
  { destruct (pretty_N_digits (N.of_nat (S i))) as [Hd _]. eapply str_all_impl; [|exact Hd].
    intros c Hc. case_bool_decide as Heq; [|done]. by subst c. }
  split; [|done]. unfold parse_path. rewrite split_on_free; [done|].
  by rewrite !str_all_app, Hd.
Qed.

Lemma app_inj_suffix s t u : s +:+ u = t +:+ u → s = t.
Proof.
  revert t. induction s as [|c s IH]; intros [|d t]; [done|..].
  - intros H%(f_equal String.length). rewrite !length_app_str in H. cbn in H. lia.
  - intros H%(f_equal String.length). rewrite !length_app_str in H. cbn in H. lia.
  - intros [= -> H]. f_equal. by apply IH.
Qed.

Lemma image_name_inj i j : ConvertPdf.image_name i = ConvertPdf.image_name j → i = j.
Proof.
  change (ConvertPdf.image_name ?n) with ("page_" +:+ (pretty (S n) +:+ ".png")).
  intros H. apply (inj (String.app "page_")) in H.
  apply app_inj_suffix in H. by apply (inj pretty) in H as [= ->].
Qed.

(** ** Converting the pages *)

Section convert.
Context {image : Type} (lib : ConvertPdf.library image) (output_dir : string) (max_dim : Z).

(** The image [im] of page [i] is saved, scaled if it was too large. *)
Definition saved (w : world) (page : nat * image) : Prop :=
  ∃ im bytes, ConvertPdf.png lib im = Ok bytes ∧
    file_bytes w (path_div (parse_path output_dir) (ConvertPdf.image_name page.1)) = Ok bytes ∧
    fits max_dim (ConvertPdf.size lib im) ∧
    (fits max_dim (ConvertPdf.size lib page.2) → im = page.2).

Definition proper_size (im : image) : Prop :=
  0 < (ConvertPdf.size lib im).1 ≤ 2 ^ 40 ∧ 0 < (ConvertPdf.size lib im).2 ≤ 2 ^ 40.

(** Scaling gives an image of the requested size. *)
Hypothesis resize_size :
  ∀ im size im', ConvertPdf.resize lib im size = Ok im' → ConvertPdf.size lib im' = size.
Hypothesis max_range : 0 < max_dim ≤ 2 ^ 40.

Lemma save_page_saved page w w' :
  proper_size page.2 → ConvertPdf.save_page lib output_dir max_dim page w = (Ok tt, w') → saved w' page.
Proof using resize_size max_range.
  destruct page as [i im]. intros [Hw Hh] H. unfold ConvertPdf.save_page in H.
  destruct (scaled_size_fits max_dim _ _ max_range Hw Hh) as (target & Ht & Hfits & Hnone).
  apply io_bind_pure in H as (target' & Ht' & H). cbn [snd] in *. rewrite Ht in Ht'. injection Ht' as <-.
  apply io_bind_pure in H as (im' & Him & H). apply io_bind_pure in H as (bytes & Hb & H).
  apply io_bind_Ok in H as ([] & w1 & Hwr & [_ ->]%io_print_Ok).
  exists im', bytes. cbn [fst snd]. split_and!; [done|by apply write_text_reads in Hwr|..].
  - destruct target as [wh|]; [by rewrite (resize_size _ _ _ Him)|].
    injection Him as <-. by destruct (ConvertPdf.size lib im).
  - intros [Hf1 Hf2]. rewrite Hnone in Him by lia. by injection Him.
Qed.

Lemma save_page_keeps page page' w w' :
  page.1 ≠ page'.1 → ConvertPdf.save_page lib output_dir max_dim page w = (Ok tt, w') →
  saved w page' → saved w' page'.
Proof.
  intros Hne H (im & bytes & Hb & Hf & Hrest). exists im, bytes. split_and!; [done| |apply Hrest..].
  destruct page as [i im0]. unfold ConvertPdf.save_page in H. apply io_bind_pure in H as (target & _ & H).
  apply io_bind_pure in H as (im1 & _ & H). apply io_bind_pure in H as (bytes1 & _ & H).
  apply io_bind_Ok in H as ([] & w1 & Hwr & [_ ->]%io_print_Ok).
  refine (write_text_sibling _ _ _ _ _ _ _ (image_name_plain _) (image_name_plain _) _ Hf Hwr).
  intros Heq%image_name_inj. by cbn in Hne.
Qed.

(** C39: when a PDF has been converted, every page is saved under its number as
    an image that fits into the maximal size in both directions, and pages that fit
    are saved as they are.  This relies on the library returning an image of the
    requested size. *)
Theorem converted_images_fit pdf_path images w w' :
  ConvertPdf.render lib (parse_path pdf_path) 200 w = Ok images → Forall proper_size images →
  ConvertPdf.convert lib pdf_path output_dir max_dim w = (Ok tt, w') →
  Forall (saved w') (enumerate images).
Proof using resize_size max_range.
  intros Hrender Hproper H. unfold ConvertPdf.convert in H. apply io_bind_Ok in H as (images' & w1 & Hr & H).
  injection Hr as Hr <-. rewrite Hrender in Hr. injection Hr as <-.
  apply io_bind_Ok in H as ([] & w2 & Hall & [_ ->]%io_print_Ok).
  enough (Forall (saved w2) (enumerate images)) as Hsaved.
  { eapply Forall_impl; [exact Hsaved|]. intros p (im & bytes & Hp). by exists im, bytes. }
  unfold iterM in Hall.
  apply (io_foldM_inv _ (λ done _ w, Forall (saved w) done)) in Hall; [done|constructor|].
  intros done page rest [] [] w3 w4 Hl Hdone Hpage. apply Forall_app. split.
  - rewrite Forall_forall in Hdone |- *. intros page' Hin. eapply save_page_keeps; [|exact Hpage|by apply Hdone].
    assert (NoDup (enumerate images).*1) as Hnd by (unfold enumerate; rewrite fst_zip by (by rewrite length_seq); apply NoDup_seq).
    rewrite Hl, fmap_app in Hnd. apply NoDup_app in Hnd as (_ & Hnd & _). intros Heq.
    apply (Hnd page'.1); [by apply (list_elem_of_fmap_2 fst)|]. rewrite <-Heq. by left.
  - apply Forall_singleton. eapply save_page_saved; [|exact Hpage]. rewrite Forall_forall in Hproper.
    apply Hproper. rewrite <-(enumerate_snd images). apply list_elem_of_fmap_2. rewrite Hl. set_solver.
Qed.
End convert.

(** An image is its size here. *)
Definition sample_images : ConvertPdf.library (Z * Z) := ConvertPdf.Library
  (λ _ _ _, Ok [(1700, 2200); (800, 600)]) id (λ _ size, Ok size)
  (λ im, Ok (cat [pretty im.1; "x"; pretty im.2])).

Definition image_world : world := repo_world [(["repo"; "out"; "a.pdf"], "pdf")].
Definition image_run : exc unit * world := ConvertPdf.convert sample_images "a.pdf" "out" 1000 image_world.

Lemma converted_images_fit_witness :
  Forall (saved sample_images "out" 1000 image_run.2) [(0%nat, (1700, 2200)); (1%nat, (800, 600))] ∧
  file_bytes image_run.2 (parse_path "out/page_1.png") = Ok "772x1000".
Proof.
  split; [|vm_compute; reflexivity].
  apply (converted_images_fit sample_images "out" 1000) with (pdf_path := "a.pdf")
    (images := [(1700, 2200); (800, 600)]) (w := image_world).
  - intros im size im' [= <-]. reflexivity.
  - split; vm_compute; congruence.
  - reflexivity.
  - apply Forall_cons_2; [|apply Forall_singleton]; split; split; vm_compute; congruence.
  - apply io_run_fst. vm_compute. reflexivity.
Defined.

(** A page that is much wider than high is scaled to a height of zero. *)
Example scaled_to_nothing : ConvertPdf.scaled_size 1000 5000 2 = Ok (Some (1000, 0)).
Proof. vm_compute. reflexivity. Qed.

(** ** The boxes of a page *)

Section validation.
Context {image : Type} (open_image : path → world → exc image).
Context (draw_accept : image → list ValidationImage.rectangle → ValidationImage.rectangle → exc unit).
Context (image_bytes : image → list ValidationImage.rectangle → exc string).

Definition on_page (n : Z) (field : json) : bool :=
  match item "page_number" field with Ok v => py_eq v (JInt n) | Err _ => false end.

(** The entry box and the label box of a field *)
Definition field_boxes (field : json) (boxes : json * json) : Prop :=
  item "entry_bounding_box" field = Ok boxes.1 ∧ item "label_bounding_box" field = Ok boxes.2.

Definition colored (boxes : json * json) : list ValidationImage.rectangle :=
  [(boxes.1, "red"); (boxes.2, "blue")].

Lemma field_step_boxes im n boxes field boxes' :
  ValidationImage.field_step draw_accept im n boxes field = Ok boxes' →
  (on_page n field = false ∧ boxes' = boxes) ∨
  ∃ pair, on_page n field = true ∧ field_boxes field pair ∧ boxes' = boxes ++ colored pair.
Proof.
  unfold ValidationImage.field_step, on_page. intros H. apply bind_Ok in H as (v & -> & H).
  destruct (py_eq v (JInt n)); [|injection H as <-; by left]. right.
  apply bind_Ok in H as (a & Ha & H). apply bind_Ok in H as (b & Hb & H).
  apply bind_Ok in H as ([] & _ & H). apply bind_Ok in H as ([] & _ & H). injection H as <-.
  exists (a, b). done.
Qed.

(** The image shows the entry box in red and the label box in blue of every field
    of the page, in their order, and nothing else. *)
Lemma validation_boxes n fields_json input output w w' :
  ValidationImage.create_validation_image open_image draw_accept image_bytes n fields_json input output w =
    (Ok tt, w') →
  ∃ data l im pairs bytes, json_file w (parse_path fields_json) = Some data ∧
    (v ← item "form_fields" data; py_iter v) = Ok l ∧ open_image (parse_path input) w = Ok im ∧
    Forall2 field_boxes (filter (λ f, on_page n f = true) l) pairs ∧
    image_bytes im (concat (map colored pairs)) = Ok bytes ∧ file_bytes w' (parse_path output) = Ok bytes.
Proof.
  unfold ValidationImage.create_validation_image. intros H. apply io_bind_Ok in H as (t & w1 & Ht & H).
  unfold read_text in Ht. injection Ht as Ht <-. apply io_bind_pure in H as (data & Hd & H).
  apply io_bind_Ok in H as (im & w2 & Him & H). injection Him as Him <-.
  apply io_bind_pure in H as (v & Hv & H). apply io_bind_pure in H as (l & Hl & H).
  apply io_bind_pure in H as (boxes & Hboxes & H). apply io_bind_pure in H as (bytes & Hb & H).
  apply io_bind_Ok in H as ([] & w3 & Hw & [_ ->]%io_print_Ok).
  assert (∃ pairs, Forall2 field_boxes (filter (λ f, on_page n f = true) l) pairs ∧
    boxes = concat (map colored pairs)) as (pairs & Hpairs & ->).
  { apply (foldM_inv _ (λ done boxes, ∃ pairs, Forall2 field_boxes (filter (λ f, on_page n f = true) done) pairs ∧
      boxes = concat (map colored pairs))) in Hboxes; [done|by exists []; split; [constructor|]|].
    intros done f rest acc acc' _ (pairs & Hp & ->) [[Hf ->]|(pair & Hf & Hpair & ->)]%field_step_boxes;
      rewrite filter_app, filter_cons.
    - exists pairs. rewrite decide_False by congruence. by rewrite filter_nil, app_nil_r.
    - exists (pairs ++ [pair]). rewrite decide_True by done. split.
      + apply Forall2_app; [done|]. by constructor; [|constructor].
      + rewrite map_app, concat_app. done. }
  exists data, l, im, pairs, bytes. split_and!; [|by rewrite Hv|done..|by apply write_text_reads in Hw].
  unfold json_file. by rewrite Ht, Hd.
Qed.
End validation.
